(* ===== verification/_CoqProject ===== *)
-Q . S2P
Prelude.v
PyText.v
PyBytes.v
TlsRecord.v
ClientHello.v
Json.v
JsonRoundtrip.v
Numbers.v
FileSystem.v
Confined.v
Tools.v
SampleTools.v
Publish.v
Install.v
DesktopEntry.v
TreeTypes.v
TlsEdits.v
TlsPatches.v
Generate.v
Ci.v
Package.v
WindowsCheck.v
DesktopPackage.v
Build.v
Drivers.v
Routers.v
Release.v
Catalog.v
Shapes.v
Relay.v
Machine.v
Sockets.v
Base64.v
Fixtures.v
WinInet.v
Labels.v
Interfaces.v
Stack.v
Perf.v
Rig.v
SampleMachine.v
Benchmark.v
Summarize.v
DelayedBenchmark.v
RealityBenchmark.v
ProbeRun.v
Smoke.v
Demo.v
CoreRegression.v
ManagedRegression.v
TrafficTrial.v
BrowserTrial.v
BrowserHello.v
ServiceSmoke.v
CatalogCheck.v
PackageCheck.v
DesktopGui.v
WindowsSmoke.v
SystemdCheck.v
Fingerprint.v
Compare.v
Programs.v
