(* ===== verification/Prelude.v ===== *)
(** * Project Veil: verified models of the build, release and measurement tooling

    Project Veil is a proxy whose protocol core is written in Go and Rust; everything around
    it - patching the TLS sources it is built from, building, packaging, checking and
    releasing it, installing the desktop program, and measuring the proxies against each
    other - is Python.  This library models that Python code as executable functions and
    proves what makes it correct.

    ** The parts of the program and their files

    - The language: this file has exceptions, results, the state-and-exception monad [py] with
      [try]/[finally] and its proof rules ([triple], [within], [gives]; database [within]).
      PyText.v has [str], PyBytes.v [bytes] and insertion-ordered dictionaries, Json.v and
      JsonRoundtrip.v the [json] module, Numbers.v integers, binary64 floats ([float(text)],
      [repr], division, [round]) and [statistics.median].
    - The disk: FileSystem.v is a tree of files, directories and links with a schedule of
      injected failures, Confined.v the rules for code that stays below one directory, Tools.v
      the commands, archives and temporary directories of the builders as the class [Tools]
      with its documented laws, SampleTools.v an instance, Publish.v the contract of
      publishing an archive with its checksum.
    - TLS parsing: TlsRecord.v ([records] of reality_fingerprint.py, [histogram] and the record
      loop of probe.py) and ClientHello.v ([hello], [modified_auth]).
    - The patched TLS sources (veil-core/scripts/build.py): TlsEdits.v ([replace]),
      TlsPatches.v (the patch functions on the text of the Go files), Generate.v ([generate]:
      pinned digests, private copy, overlay).
    - The desktop installer (veil-desktop/scripts/install.py): Install.v; DesktopEntry.v reads
      its launcher back as the specification says, TreeTypes.v has the well-formed trees.
    - Builds and packages: Build.v (both build.py), Package.v and DesktopPackage.v (both
      package.py), WindowsCheck.v (windows_package_check.py, run on what Package.v makes),
      Routers.v (openwrt_package.py, opnsense_bundle.py), Catalog.v and Labels.v
      (openwrt_check.py with check_webui.py: the catalogue and the search for labels); Drivers.v
      has the scripts that run [go] with the generated flags (bench_build.py, check.py and both
      cross_check.py).  Interfaces.v has check_frontend.py and opnsense_check.py.
    - Continuous integration (.github/scripts): Ci.v (ci.py) and Release.v (release.py).
    - Measurements (veil-core/scripts): Machine.v has the system calls, answered by an
      operating system [Os] from the history of calls, and the processes and files a program
      holds.  On it: Fixtures.v (fixtures.py), Perf.v ([line], [cpu], [rss], [Perf] of
      benchmark.py), Rig.v (the local lists of a trial, what it holds and how it is given up),
      Benchmark.v (benchmark.py), DelayedBenchmark.v, RealityBenchmark.v and CoreRegression.v
      (the scripts of these names), Compare.v (veil-rust/scripts/compare.py), ManagedRegression.v
      (regression.py of veil-service), Summarize.v (summarize.py), SampleMachine.v an instance for the witnesses.
    - Captures and probes (veil-core/scripts), on the same machine.  Shapes.v has what the
      captures of probe.py and browser_shapes.py keep, with the threads of a [CaptureGroup] as
      interleaved steps, and the features derived from it, Relay.v the threads of a tap of
      probe.py, as moves in any order.  Sockets.v has the exact readers, the
      SOCKS5 opening and [with] on sockets, Stack.v [contextlib.ExitStack] with its callbacks.
      On them: TrafficTrial.v (traffic_shapes.py), BrowserTrial.v (browser_shapes.py),
      ProbeRun.v (probe.py), Smoke.v (network_smoke.py), Demo.v (demo.py), BrowserHello.v
      (browser_hello.py) and Fingerprint.v (the main program of reality_fingerprint.py);
      Base64.v has the encodings of keys and secrets.
    - Service checks (veil-service/scripts), on the same machine: ServiceSmoke.v (smoke.py),
      WindowsSmoke.v (windows_smoke.py), SystemdCheck.v (systemd_check.py) and CatalogCheck.v
      (opnsense_catalog_check.py) drive the installed daemon, whose answers are the machine's;
      PackageCheck.v (package_check.py) checks an archive in temporary roots.
    - Desktop checks (veil-desktop/scripts/gui), on the same machine: WinInet.v (windows.py: the
      proxy settings of the user, as a class [Inet] of what Windows documents) and DesktopGui.v
      (check.py: the acceptance test on a user of its own).
    - Programs.v has what holds of the main programs on that machine together.

    An operation has the name it has in the source; a statement of a [main] function that is
    long enough to be a function of its own is one here.  A [raise] is [Err], [parser.error] is
    [SystemExit 2], [sys.exit(text)] is [SystemExit 1].

    ** What the theorems show

    - Parsers invert encoders, agree with each other, and fail exactly on incomplete input
      (TlsRecord.v, ClientHello.v); printed JSON, catalogues and launchers read back
      (JsonRoundtrip.v, Catalog.v, DesktopEntry.v); the labels of a page are found and must be
      translated (Labels.v); the Windows check accepts what the packager
      publishes (WindowsCheck.v).
    - Edits: an edit applies exactly when its anchor occurs once; every patched file has its
      hooks, and the standard-library variant no padding (TlsEdits.v, TlsPatches.v).
    - Crash safety: under any injected failure an installation leaves whole old or new files
      (Install.v), a package is the old archive or a complete one whose manifest covers its
      files (Package.v, DesktopPackage.v), and the tree stays well formed (TreeTypes.v); without
      failures the result is exact (Install.v,
      Release.v, Build.v).  Uninstalling is exact and touches nothing else.
    - Confinement: the generators and packagers change nothing outside their directories
      (Generate.v, Routers.v), and a changed source digest stops the generator.
    - Routing: the jobs a change needs are selected, and the gate passes only when they ran
      (Ci.v); a release hands exactly the checked files to [gh] (Release.v); the reports of the
      three checks have a row per command that ran, and their exit status is true (Drivers.v).
    - Measurements, for every operating system that follows the documented laws [Calm] and
      [PerfStops]: [stop] ends with the process reaped; [wait_port] returns with the first
      attempt that is answered within three hundred; the two ends are configured alike; the
      ten programs that launch proxies give up every process and file they started whatever fails
      (Programs.v, from the trials in the files of each) - with one exception, the counter of
      benchmark.py and compare.py that is closed twice, which is proved to leak; a comparison
      trial also removes the files with its secret (Compare.v); existing results are never
      overwritten by any of the ten measurement programs, and a program for an isolated system
      only looks at one that is not (Programs.v).  Captures are bounded and
      complete where they say so, and the bursts are the maximal runs of the events (Shapes.v).
    - Both summaries of the benchmark are computed from exactly the rows of each key
      (Summarize.v).
    - Checks that touch a user's system: the acceptance test of the desktop program ends what it
      started and puts the proxy settings back on every way out (DesktopGui.v, over [Calm],
      [Kills] and [Inet]); the check of an archive changes nothing but temporary roots that it
      removes, and its programs see the recording commands first (PackageCheck.v, for every
      machine).
    - Threads: a tap holds in every order of its threads what [pump] makes of the pieces one after
      the other, and forwards what it received (Relay.v).
    - Sockets, for every way the stream is cut into parts: the readers return exactly the bytes
      asked for (Sockets.v), a page is served exactly for the sizes [do_GET] allows
      (TrafficTrial.v), a probe observes what the endpoint sent and how it ended (ProbeRun.v),
      the echo target answers by what it received and closes its socket (Smoke.v), one record
      is taken from a browser (BrowserHello.v).  Exit stacks, [with] and [finally] leave no
      process, file or socket behind whatever fails (Stack.v, Programs.v).

    ** Bounds and fuel

    [records], [scan], the ClientHello loop and the JSON parser recurse on fuel that is the
    length of the input, shown to be enough ([records_loop_enough], [scan_loop_enough],
    [hello_total], [value_print]); links are followed 40 times, as the kernel does; tree walks
    use the size of the tree.  [wait_loop] has the three hundred attempts of the code.  A loop
    that receives has a turn per byte it may keep: the size asked for ([read_exact]), the 65536
    bytes of a probe ([sample_observes]), one more than the limit of an upload
    ([target_echoes]); every turn but the last receives at least a byte.  The block echo of the
    smoke target and the page of the demonstration are read until the stream ends, so their fuel
    is an argument, and [target_echoes] and [receive_all_run] say how much is enough.  The loop
    of windows_smoke.py that waits for a daemon ends by the clock; its fuel is an argument too,
    and what is proved of it holds for any; so does that of gui/check.py that waits for the browser.

    ** Not modelled

    - Go, Rust, JavaScript and PHP code, and the third-party tools the scripts start: commands
      are arguments ([run], [check_output]) or calls to [Os].
    - What is only printed, and [argparse]: the programs take its result.
    - The seeded shuffles of the benchmarks are arguments; threads of a capture are the
      interleaving of their steps.  The accept loop of the smoke target is a call of the
      machine, and its four concurrent clients run one after the other.  [inet_aton] reads
      dotted quads only.
    - The XML parser of opnsense_check.py and the seeded generators are arguments; the labels of
      check_frontend.py go to a program for node, which is a command.  The shell scripts that
      package_check.py runs are commands too: what they may be asked is proved, not what they do.
    - The unit tests of the scripts (test_ci.py, test_release.py, test_install.py), which call what is modelled here.
    - The type declarations for [ctypes] in windows.py; the calls themselves are the machine's.
    - Interrupts: [KeyboardInterrupt] and signals to the scripts themselves. *)

From stdpp Require Export base list strings gmap sorting numbers pretty.
From Stdlib Require Export ZArith Lia.

#[export] Set Default Goal Selector "!".

(** ** Python exceptions

    One constructor per exception class the modelled code raises or catches.
    The payload is the message (or the key, or the exit status). *)
Inductive exn : Type :=
| ValueError (msg : string)
| RuntimeError (msg : string)
| AssertionError (msg : string)
| KeyError (key : string)
| IndexError
| TypeError
| AttributeError
| ZeroDivisionError
| OverflowError
| EOFError (msg : string)
| StatisticsError
| StopIteration
| SyntaxError
| CalledProcessError (code : Z)
| TimeoutExpired
| SystemExit (code : Z)
| OSError (msg : string)
| FileNotFoundError (msg : string)
| FileExistsError (msg : string)
| TimeoutError (msg : string)
| ConnectionError (msg : string)
| ConnectionResetError
| ProcessLookupError
| SSLError (name msg : string).

#[export] Instance exn_eq_dec : EqDecision exn.
Proof. solve_decision. Defined.

(** The subclass test of [except OSError]: the classes below it in Python's
    hierarchy ([socket.timeout] is [TimeoutError]). *)
Definition is_os_error (e : exn) : bool :=
  match e with
  | OSError _ | FileNotFoundError _ | FileExistsError _ | TimeoutError _
  | ConnectionError _ | ConnectionResetError | ProcessLookupError | SSLError _ _ => true
  | _ => false
  end.

Definition is_value_error (e : exn) : bool :=
  match e with ValueError _ => true | _ => false end.

(** ** Results: the value of a computation that may raise *)
Inductive result (A : Type) : Type :=
| Ok (a : A)
| Err (e : exn).
Arguments Ok {A} a.
Arguments Err {A} e.

#[export] Instance result_eq_dec {A} `{EqDecision A} : EqDecision (result A).
Proof. solve_decision. Defined.

#[export] Instance result_ret : MRet result := @Ok.
#[export] Instance result_bind : MBind result := λ A B k m,
  match m with Ok a => k a | Err e => Err e end.
#[export] Instance result_fmap : FMap result := λ A B f m,
  match m with Ok a => Ok (f a) | Err e => Err e end.

(** [raise_if b e] is the statement [if b: raise e]. *)
Definition raise_if (b : bool) (e : exn) : result () :=
  if b then Err e else Ok ().

Definition from_option_or {A} (e : exn) (o : option A) : result A :=
  match o with Some a => Ok a | None => Err e end.

Definition is_ok {A} (r : result A) : bool :=
  match r with Ok _ => true | Err _ => false end.

Fixpoint mapR {A B} (f : A → result B) (l : list A) : result (list B) :=
  match l with
  | [] => Ok []
  | x :: l => y ← f x; ys ← mapR f l; Ok (y :: ys)
  end.

(** ** Stateful computations that may raise

    [py S A] is the type of Python code over a state [S]: an exception keeps the
    effects that came before it, as in Python. *)
Definition py (S A : Type) : Type := S → result A * S.

#[export] Instance py_ret {S} : MRet (py S) := λ A a s, (Ok a, s).
#[export] Instance py_bind {S} : MBind (py S) := λ A B k m s,
  match m s with
  | (Ok a, s') => k a s'
  | (Err e, s') => (Err e, s')
  end.

Definition raise {S A} (e : exn) : py S A := λ s, (Err e, s).
Definition lift {S A} (r : result A) : py S A := λ s, (r, s).
Definition gets {S A} (f : S → A) : py S A := λ s, (Ok (f s), s).
Definition modify {S} (f : S → S) : py S () := λ s, (Ok (), f s).

Definition when {S} (b : bool) (m : py S ()) : py S () :=
  if b then m else mret ().

(** [try: m finally: c]; an exception of the cleanup replaces the outcome. *)
Definition try_finally {S A} (m : py S A) (c : py S ()) : py S A := λ s,
  let '(r, s1) := m s in
  match c s1 with
  | (Ok _, s2) => (r, s2)
  | (Err e, s2) => (Err e, s2)
  end.

(** [try: m except ...: h]; [h e = None] when no clause catches [e]. *)
Definition try_except {S A} (m : py S A) (h : exn → option (py S A)) : py S A := λ s,
  match m s with
  | (Ok a, s1) => (Ok a, s1)
  | (Err e, s1) => match h e with Some k => k s1 | None => (Err e, s1) end
  end.

Definition catch_if (p : exn → bool) {S A} (k : py S A) (e : exn) : option (py S A) :=
  if p e then Some k else None.

Fixpoint for_each {S A} (f : A → py S ()) (l : list A) : py S () :=
  match l with
  | [] => mret ()
  | x :: l => f x;; for_each f l
  end.

Fixpoint mapM_py {S A B} (f : A → py S B) (l : list A) : py S (list B) :=
  match l with
  | [] => mret []
  | x :: l => y ← f x; ys ← mapM_py f l; mret (y :: ys)
  end.

(** ** Triples

    [triple P m Q E]: from a state in [P], [m] returns a value in [Q] or raises
    in [E].  [within I P m]: [m] keeps the invariant [I] on every exit and raises
    only exceptions in [P]; [keeps I] and [raises P] are its two halves. *)
Definition triple {S A} (P : S → Prop) (m : py S A)
    (Q : A → S → Prop) (E : exn → S → Prop) : Prop :=
  ∀ s, P s → match m s with
             | (Ok a, s') => Q a s'
             | (Err e, s') => E e s'
             end.

Definition within {S A} (I : S → Prop) (P : exn → Prop) (m : py S A) : Prop :=
  triple I m (λ _, I) (λ e s, I s ∧ P e).
Abbreviation keeps I := (within I (λ _, True)).
Abbreviation raises P := (within (λ _, True) P).

Section triple_rules.
Context {S : Type}.
Implicit Types (P : S → Prop).

Lemma triple_consequence {A} P P' (m : py S A) Q Q' (E E' : exn → S → Prop) :
    triple P m Q E →
    (∀ s, P' s → P s) → (∀ a s, Q a s → Q' a s) → (∀ e s, E e s → E' e s) →
    triple P' m Q' E'.
Proof.
    intros Hm HP HQ HE s Hs. specialize (Hm s (HP s Hs)).
    destruct (m s) as [[a|e] s']; auto.
Qed.

Lemma triple_bind {A B} P (m : py S A) (k : A → py S B) R Q E :
    triple P m R E → (∀ a, triple (R a) (k a) Q E) → triple P (m ≫= k) Q E.
Proof.
    intros Hm Hk s Hs. specialize (Hm s Hs).
    unfold mbind, py_bind. destruct (m s) as [[a|e] s']; [|done].
    exact (Hk a s' Hm).
Qed.

(** Both exits of the body keep [I], and so does the cleanup. *)
Lemma triple_try_finally {A} P I (m : py S A) c :
    triple P m (λ _, I) (λ _, I) → triple I c (λ _, I) (λ _ s, I s ∧ True) →
    triple P (try_finally m c) (λ _, I) (λ _ s, I s ∧ True).
Proof.
    intros Hm Hc s Hs. specialize (Hm s Hs). unfold try_finally.
    destruct (m s) as [r s1]. assert (I s1) as H1 by (by destruct r).
    specialize (Hc s1 H1). destruct (c s1) as [[]s2]; [|done]. by destruct r.
Qed.

Lemma triple_ret {A} P (a : A) (Q : A → S → Prop) E :
    (∀ s, P s → Q a s) → triple P (mret a) Q E.
Proof. intros HQ s Hs. exact (HQ s Hs). Qed.
End triple_rules.

Section within_rules.
Context {S : Type} (I : S → Prop) (P : exn → Prop).

Lemma within_ret {A} (a : A) : within I P (mret a : py S A).
Proof. intros s Hs. exact Hs. Qed.

Lemma within_raise {A} e : P e → within I P (raise e : py S A).
Proof. intros He s Hs. exact (conj Hs He). Qed.

Lemma within_lift {A} (r : result A) :
    (∀ e, r = Err e → P e) → within I P (lift r : py S A).
Proof. intros Hr s Hs. unfold lift. destruct r; [done|]. split; [done|by apply Hr]. Qed.

Lemma within_gets {A} (f : S → A) : within I P (gets f).
Proof. intros s Hs. exact Hs. Qed.

Lemma within_modify (f : S → S) : (∀ s, I s → I (f s)) → within I P (modify f).
Proof. intros Hf s Hs. exact (Hf s Hs). Qed.

Lemma within_bind {A B} (m : py S A) (k : A → py S B) :
    within I P m → (∀ a, within I P (k a)) → within I P (m ≫= k).
Proof. intros Hm Hk. exact (triple_bind _ _ _ _ _ _ Hm Hk). Qed.

(** A value at hand is used as it is. *)
Lemma within_lift_ok {A B} (a : A) (k : A → py S B) :
    within I P (k a) → within I P (lift (Ok a) ≫= k).
Proof. intros H. exact H. Qed.

Lemma within_when b (m : py S ()) : (b = true → within I P m) → within I P (when b m).
Proof. intros Hm. destruct b; [by apply Hm|apply within_ret]. Qed.

Lemma within_try_finally {A} (m : py S A) c :
    within I P m → within I P c → within I P (try_finally m c).
Proof.
    intros Hm Hc s Hs. specialize (Hm s Hs). unfold try_finally.
    destruct (m s) as [r s1]. assert (I s1) as H1 by (destruct r; [done|by destruct Hm]).
    specialize (Hc s1 H1). destruct (c s1) as [[]s2]; [|done].
    destruct r; [done|]. by destruct Hm.
Qed.

Lemma within_for_each {A} (f : A → py S ()) l :
    (∀ x, x ∈ l → within I P (f x)) → within I P (for_each f l).
Proof.
    induction l as [|x l IH]; intros Hf; simpl; [apply within_ret|].
    apply within_bind; [apply Hf; by left|]. intros _. apply IH.
    intros y Hy. apply Hf. by right.
Qed.

Lemma within_mapM {A B} (f : A → py S B) l :
    (∀ x, x ∈ l → within I P (f x)) → within I P (mapM_py f l).
Proof.
    induction l as [|x l IH]; intros Hf; simpl; [apply within_ret|].
    apply within_bind; [apply Hf; by left|]. intros y. apply within_bind.
    - apply IH. intros z Hz. apply Hf. by right.
    - intros ys. apply within_ret.
Qed.
End within_rules.

(** The body may raise anything its handlers catch. *)
Lemma within_try_except {S A} (I : S → Prop) (P P' : exn → Prop) (m : py S A) h :
  within I P' m →
  (∀ e, P' e → match h e with Some k => within I P k | None => P e end) →
  within I P (try_except m h).
Proof.
  intros Hm Hh s Hs. specialize (Hm s Hs). unfold try_except.
  destruct (m s) as [[a|e] s1]; [done|]. destruct Hm as [H1 He].
  specialize (Hh e He). destruct (h e) as [k|]; [exact (Hh s1 H1)|done].
Qed.

(** The rule [solve_within] uses: every handler keeps the invariant. *)
Lemma within_try_any {S A} (I : S → Prop) (m : py S A) h :
  keeps I m → (∀ e k, h e = Some k → keeps I k) → keeps I (try_except m h).
Proof.
  intros Hm Hh. apply (within_try_except I _ (λ _, True)); [done|].
  intros e _. destruct (h e) as [k|] eqn:He; [by apply (Hh e)|done].
Qed.

Lemma catch_if_keeps {S A} (I : S → Prop) p (k0 k : py S A) e :
  keeps I k0 → catch_if p k0 e = Some k → keeps I k.
Proof. unfold catch_if. by destruct (p e); intros ? [= <-]. Qed.

Lemma within_weaken {S A} (I : S → Prop) (P P' : exn → Prop) (m : py S A) :
  within I P m → (∀ e, P e → P' e) → within I P' m.
Proof. intros Hm HP. eapply triple_consequence; [exact Hm|done|done|].
  intros e s [Hs He]. split; [done|by apply HP]. Qed.

(** Two invariants at once. *)
Lemma keeps_and {S A} (I J : S → Prop) (m : py S A) : keeps I m → keeps J m → keeps (λ s, I s ∧ J s) m.
Proof.
  intros HI HJ s [Hi Hj]. specialize (HI s Hi). specialize (HJ s Hj).
  destruct (m s) as [[a|e] s']; [by split|]. by destruct HI, HJ.
Qed.

Lemma within_keeps {S A} (I : S → Prop) P (m : py S A) : within I P m → keeps I m.
Proof. intros Hm. by eapply within_weaken. Qed.

(** [inv_py H]: the outcome of a run that stays [within]. *)
Lemma within_run {S A} (I : S → Prop) P (m : py S A) s r s' :
  within I P m → I s → m s = (r, s') → I s' ∧ (∀ e, r = Err e → P e).
Proof.
  intros Hm Hs Hr. specialize (Hm s Hs). rewrite Hr in Hm.
  destruct r as [a|e]; [by split|]. destruct Hm. split; [done|]. by intros ? [= <-].
Qed.

(** [gives I G m]: [m] keeps [I], and a value it returns satisfies [G]. *)
Definition gives {S A} (I : S → Prop) (G : A → Prop) (m : py S A) : Prop :=
  triple I m (λ a s, I s ∧ G a) (λ _ s, I s ∧ True).

Section gives_rules.
Context {S : Type} (I : S → Prop).

Lemma gives_const {A} (Q : Prop) (m : py S A) : keeps I m → Q → gives I (λ _, Q) m.
Proof. intros Hm HQ. eapply triple_consequence; [exact Hm|done|done|done]. Qed.

Lemma gives_keeps {A} (G : A → Prop) (m : py S A) : gives I G m → keeps I m.
Proof. intros Hm. eapply triple_consequence; [exact Hm|done|by intros ? ? []|done]. Qed.

Lemma gives_ret {A} (G : A → Prop) a : G a → gives I G (mret a : py S A).
Proof. intros Ha s Hs. exact (conj Hs Ha). Qed.

Lemma gives_bind {A B} (G : A → Prop) (H : B → Prop) (m : py S A) (k : A → py S B) :
    gives I G m → (∀ a, G a → gives I H (k a)) → gives I H (m ≫= k).
Proof.
    intros Hm Hk. eapply triple_bind; [exact Hm|]. intros a s [Hs Ha]. exact (Hk a Ha s Hs).
Qed.

  (** A step whose value is not needed. *)
Lemma gives_step {A B} (H : B → Prop) (m : py S A) (k : A → py S B) :
    keeps I m → (∀ a, gives I H (k a)) → gives I H (m ≫= k).
Proof. intros Hm Hk. apply (gives_bind (λ _, True)); [by apply gives_const|auto]. Qed.

Lemma gives_imp {A} (G H : A → Prop) (m : py S A) : gives I G m → (∀ a, G a → H a) → gives I H m.
Proof.
    intros Hm HG. eapply triple_consequence; [exact Hm|done| |done].
    intros a s [Hs Ha]. auto.
Qed.
Lemma gives_mapM {A B} (G : B → Prop) (f : A → py S B) l :
    (∀ x, gives I G (f x)) → gives I (Forall G) (mapM_py f l).
Proof.
    intros Hf. induction l as [|x l IH]; simpl; [by apply gives_ret; constructor|].
    eapply gives_bind; [apply Hf|intros y Hy]. eapply gives_bind; [exact IH|intros ys Hys].
    apply gives_ret. by constructor.
Qed.
End gives_rules.

Create HintDb within.
#[export] Hint Resolve within_ret within_gets : within.

(** [solve_within] walks the structure of a program and leaves the operations
    that no hint of the database [within] closes. *)
Ltac within_step :=
  lazymatch goal with
  | |- within _ _ (mret _) => apply within_ret
  | |- within _ _ (gets _) => apply within_gets
  | |- within _ _ (_ ≫= _) => apply within_bind
  | |- within _ _ (raise _) => apply within_raise; cbn beta; try exact I
  | |- within _ _ (when _ _) => apply within_when; intros ?
  | |- within _ _ (try_finally _ _) => apply within_try_finally
  | |- within _ (λ _, True) (try_except _ (catch_if _ _)) =>
      apply within_try_any; [|intros ? ?; apply catch_if_keeps]
  | |- within _ _ (for_each _ _) => apply within_for_each; intros ? ?
  | |- within _ _ (mapM_py _ _) => apply within_mapM; intros ? ?
  | |- within _ _ (lift _) => apply within_lift; intros ? ?; cbn beta; try exact I
  | |- within _ _ (let '(_, _) := ?x in _) => destruct x
  | |- within _ _ (if ?b then _ else _) => destruct b eqn:?
  | |- within _ _ (match ?x with _ => _ end) => destruct x eqn:?
  | |- True => exact I
  | |- ∀ x, within _ _ (@?m x) => intro
  end.
Ltac solve_within := repeat first [within_step | solve [auto 2 with within nocore]].

(** ** Result rules *)
Lemma bind_ok {A B} (m : result A) (k : A → result B) b :
  m ≫= k = Ok b ↔ ∃ a, m = Ok a ∧ k a = Ok b.
Proof.
  destruct m as [a|e]; simpl; split.
  - intros H. by exists a.
  - by intros (a' & [= <-] & H).
  - done.
  - by intros (a' & ? & _).
Qed.

Lemma raise_if_ok b e u : raise_if b e = Ok u ↔ b = false.
Proof. by destruct b, u. Qed.

Lemma from_option_or_ok {A} e (o : option A) a : from_option_or e o = Ok a ↔ o = Some a.
Proof. by destruct o; simpl; split; intros [= ->]. Qed.

Lemma mapR_ok {A B} (f : A → result B) l ys :
  mapR f l = Ok ys ↔ Forall2 (λ x y, f x = Ok y) l ys.
Proof.
  revert ys. induction l as [|x l IH]; intros ys; simpl.
  - split; [intros [= <-]; constructor|by inversion 1].
  - rewrite bind_ok. setoid_rewrite bind_ok. setoid_rewrite IH. split.
    + intros (y & Hy & ys' & Hys & [= <-]). by constructor.
    + inversion 1; subst. eauto.
Qed.

Lemma mapR_all {A B} (f : A → result B) (h : A → B) l :
  (∀ x, x ∈ l → f x = Ok (h x)) → mapR f l = Ok (map h l).
Proof.
  intros H. apply mapR_ok. induction l as [|x l IH]; constructor.
  - apply H. by left.
  - apply IH. intros y Hy. apply H. by right.
Qed.

Lemma mapR_map {A B C} (f : B → result C) (g : A → B) l : mapR f (map g l) = mapR (λ x, f (g x)) l.
Proof. induction l as [|x l IH]; [done|]. simpl. by rewrite IH. Qed.

(** [inv_ok] takes apart a hypothesis that says a [result] computation succeeded. *)
Ltac inv_ok H :=
  lazymatch type of H with
  | (_ ≫= _) = Ok _ =>
      let a := fresh "a" in let H1 := fresh H in
      apply bind_ok in H as (a & H1 & H); try inv_ok H1; try inv_ok H
  | raise_if _ _ = Ok _ => apply raise_if_ok in H
  | from_option_or _ _ = Ok _ => apply from_option_or_ok in H
  | Ok _ = Ok _ => injection H as H
  end.

(** ** Lists related element by element *)
Lemma Forall2_elem_l {A B} (P : A → B → Prop) l k x :
  Forall2 P l k → x ∈ l → ∃ y, y ∈ k ∧ P x y.
Proof.
  induction 1 as [|a b l k Hab _ IH]; [by intros ?%not_elem_of_nil|].
  intros [-> | Hx]%elem_of_cons; [by exists b; split; [left|]|].
  destruct (IH Hx) as (y & ? & ?). exists y. split; [by right|done].
Qed.

Lemma Forall2_elem_r {A B} (P : A → B → Prop) l k y :
  Forall2 P l k → y ∈ k → ∃ x, x ∈ l ∧ P x y.
Proof. intros H%Forall2_flip. by apply (Forall2_elem_l (flip P)). Qed.

Lemma filter_none {A} (P : A → Prop) `{∀ x, Decision (P x)} (l : list A) :
  (∀ x, x ∈ l → ¬ P x) → filter P l = [].
Proof.
  intros HP. induction l as [|x l IH]; [done|]. rewrite filter_cons_False by (apply HP; by left).
  apply IH. intros y Hy. apply HP. by right.
Qed.

Lemma filter_all {A} (P : A → Prop) `{∀ x, Decision (P x)} (l : list A) :
  (∀ x, x ∈ l → P x) → filter P l = l.
Proof.
  intros HP. induction l as [|x l IH]; [done|]. rewrite filter_cons_True by (apply HP; by left).
  f_equal. apply IH. intros y Hy. apply HP. by right.
Qed.
