(* ===== verification/PyText.v ===== *)
(** * Python text operations

    The [str] methods the scripts use, on [string] (the UTF-8 bytes of the text):
    [startswith], [endswith], [in], [index], [split], [replace], [count],
    [strip], decimal and hexadecimal printing, and the character-class patterns of
    the version checks.  Each has the lemmas the components share. *)

From S2P Require Import Prelude.
From Stdlib Require Import Ascii.


(** ** Algebra of append *)
Lemma sapp_assoc (a b c : string) : (a +:+ b) +:+ c = a +:+ (b +:+ c).
Proof. induction a as [|x a IH]; [done|]. unfold String.append in *; fold String.append in *. by rewrite IH. Qed.

Lemma sapp_nil_r (a : string) : a +:+ "" = a.
Proof. induction a as [|x a IH]; [done|]. unfold String.append in *; fold String.append in *. by rewrite IH. Qed.

Lemma sapp_cons x (a b : string) : String x a +:+ b = String x (a +:+ b).
Proof. done. Qed.

Lemma sapp_nil_l (a : string) : "" +:+ a = a.
Proof. done. Qed.

Lemma slength_app (a b : string) :
  String.length (a +:+ b) = String.length a + String.length b.
Proof. induction a as [|x a IH]; [done|]. rewrite sapp_cons. simpl. by rewrite IH. Qed.

Lemma sapp_inv_head (p a b : string) : p +:+ a = p +:+ b → a = b.
Proof. induction p as [|x p IH]; [done|]. rewrite !sapp_cons. intros [= H]. auto. Qed.

Lemma slength_zero (s : string) : String.length s = 0 → s = "".
Proof. by destruct s. Qed.

(** ** Prefixes, suffixes, occurrences *)

(** [drop_prefix p s = Some r] when [s] is [p] followed by [r]. *)
Fixpoint drop_prefix (p s : string) : option string :=
  match p with
  | "" => Some s
  | String a p' =>
      match s with
      | String b s' => if Ascii.eqb a b then drop_prefix p' s' else None
      | "" => None
      end
  end.

Definition startswith (s p : string) : bool :=
  match drop_prefix p s with Some _ => true | None => false end.

Fixpoint srev_app (s acc : string) : string :=
  match s with "" => acc | String a s' => srev_app s' (String a acc) end.
Definition srev (s : string) : string := srev_app s "".

Fixpoint sdrop (n : nat) (s : string) : string :=
  match n, s with
  | S n', String _ s' => sdrop n' s'
  | _, _ => s
  end.

Fixpoint stake (n : nat) (s : string) : string :=
  match n, s with
  | S n', String a s' => String a (stake n' s')
  | _, _ => ""
  end.

Definition endswith (s p : string) : bool :=
  String.eqb (sdrop (String.length s - String.length p) s) p.

(** [cut p s]: the text before and after the leftmost occurrence of [p]. *)
Fixpoint cut (p s : string) : option (string * string) :=
  match drop_prefix p s with
  | Some r => Some ("", r)
  | None =>
      match s with
      | "" => None
      | String c s' =>
          match cut p s' with
          | Some (a, b) => Some (String c a, b)
          | None => None
          end
      end
  end.

(** [p in s] *)
Definition contains (p s : string) : bool :=
  match cut p s with Some _ => true | None => false end.

(** [s.index(p, start)], which raises [ValueError] when [p] does not occur. *)
Definition index_from (p s : string) (start : nat) : result nat :=
  match cut p (sdrop start s) with
  | Some (a, _) => Ok (start + String.length a)
  | None => Err (ValueError "substring not found")
  end.

(** [s.split(sep)] for a non-empty [sep]; [String.length s] splits are enough. *)
Fixpoint split_fuel (n : nat) (sep s : string) : list string :=
  match n with
  | 0 => [s]
  | S n' =>
      match cut sep s with
      | None => [s]
      | Some (a, b) => a :: split_fuel n' sep b
      end
  end.
Definition split (sep s : string) : list string :=
  split_fuel (String.length s) sep s.

(** [sep.join(l)] *)
Fixpoint join (sep : string) (l : list string) : string :=
  match l with
  | [] => ""
  | [x] => x
  | x :: l' => x +:+ sep +:+ join sep l'
  end.

(** [s.count(a)] and [s.replace(a, b)] for a non-empty [a]. *)
Definition count (a s : string) : nat := pred (length (split a s)).
Definition replace_all (a b s : string) : string := join b (split a s).

(** [s.split(sep, 1)[1]]: [IndexError] when [sep] does not occur. *)
Definition after_first (sep s : string) : result string :=
  match cut sep s with Some (_, b) => Ok b | None => Err IndexError end.
(** [s.split(sep, 1)[0]] *)
Definition before_first (sep s : string) : string :=
  match cut sep s with Some (a, _) => a | None => s end.

(** ** Characters *)
Definition in_range (lo hi : ascii) (c : ascii) : bool :=
  (N_of_ascii lo <=? N_of_ascii c)%N && (N_of_ascii c <=? N_of_ascii hi)%N.
Definition is_digit : ascii → bool := in_range "0"%char "9"%char.
Definition is_lower : ascii → bool := in_range "a"%char "z"%char.
Definition is_upper : ascii → bool := in_range "A"%char "Z"%char.
Definition is_alnum (c : ascii) : bool := is_digit c || is_lower c || is_upper c.
Definition is_control (c : ascii) : bool := (N_of_ascii c <? 32)%N.

Fixpoint all_chars (f : ascii → bool) (s : string) : bool :=
  match s with "" => true | String c s' => f c && all_chars f s' end.
Fixpoint any_char (f : ascii → bool) (s : string) : bool :=
  match s with "" => false | String c s' => f c || any_char f s' end.
Fixpoint char_in (s : string) (c : ascii) : bool :=
  match s with "" => false | String d s' => Ascii.eqb c d || char_in s' c end.

(** Replace every character: the text after [f] on each of them. *)
Fixpoint concat_map (f : ascii → string) (s : string) : string :=
  match s with "" => "" | String c s' => f c +:+ concat_map f s' end.

(** [re.fullmatch("F R{0,n}", s)] for character classes [F] and [R]. *)
Definition fullmatch_head (f r : ascii → bool) (n : nat) (s : string) : bool :=
  match s with
  | "" => false
  | String c s' => f c && all_chars r s' && Nat.leb (String.length s') n
  end.

Definition to_lower (c : ascii) : ascii :=
  if is_upper c then ascii_of_N (N_of_ascii c + 32) else c.
Fixpoint lower (s : string) : string :=
  match s with "" => "" | String c s' => String (to_lower c) (lower s') end.

(** ASCII white space, what [str.strip] removes from ASCII text. *)
Definition is_space (c : ascii) : bool :=
  let n := N_of_ascii c in
  ((9 <=? n) && (n <=? 13))%N || ((28 <=? n) && (n <=? 32))%N.
Fixpoint lstrip (s : string) : string :=
  match s with
  | "" => ""
  | String c s' => if is_space c then lstrip s' else s
  end.
Definition rstrip (s : string) : string := srev (lstrip (srev s)).
Definition strip (s : string) : string := rstrip (lstrip s).

(** [str.split()]: the words between runs of white space. *)
Fixpoint words_go (cur : string) (s : string) : list string :=
  match s with
  | "" => if String.eqb cur "" then [] else [srev cur]
  | String c s' =>
      if is_space c
      then (if String.eqb cur "" then [] else [srev cur]) ++ words_go "" s'
      else words_go (String c cur) s'
  end.
Definition words (s : string) : list string := words_go "" s.

(** [str.splitlines()] on text whose line ends are line feeds: a final line feed
    does not start another line. *)
Definition nl : string := String (ascii_of_N 10) "".
Definition tab : string := String (ascii_of_N 9) "".
Definition dquote : string := String (ascii_of_N 34) "".
Definition backslash : string := String (ascii_of_N 92) "".
Definition splitlines (s : string) : list string :=
  if String.eqb s "" then []
  else let l := split nl s in
       match last l with
       | Some "" => removelast l
       | _ => l
       end.

(** ** Numbers *)
Definition digit_value (c : ascii) : option Z :=
  if is_digit c then Some (Z.of_N (N_of_ascii c) - 48)%Z else None.
Fixpoint digits_value (acc : Z) (s : string) : option Z :=
  match s with
  | "" => Some acc
  | String c s' => d ← digit_value c; digits_value (10 * acc + d)%Z s'
  end.
(** [int(s)] on a decimal literal with no sign, no blanks, no underscores. *)
Definition parse_nat (s : string) : option Z :=
  if String.eqb s "" then None else digits_value 0%Z s.

(** [str(z)] *)
Definition str (z : Z) : string := pretty z.
(** [f"{n:03d}"] *)
Definition pad3 (n : nat) : string :=
  let s := pretty n in
  (match String.length s with 1 => "00" | 2 => "0" | _ => "" end) +:+ s.

Definition hex_digit (n : N) : ascii :=
  if (n <? 10)%N then ascii_of_N (48 + n) else ascii_of_N (87 + n).

(** [str(b).lower()] of a Boolean *)
Definition bool_lower (b : bool) : string := if b then "true" else "false".

(** [sorted] of a list of texts, by code point. *)
Definition sleb (a b : string) : bool := String.leb a b.
Definition sort_strings (l : list string) : list string := merge_sort String.le l.

(** [repr] of a string and of a list of strings, for text without control characters other
    than the three with an escape of their own. *)
Definition repr (s : string) : string :=
  let q := if char_in s "'"%char && negb (char_in s (ascii_of_N 34)) then dquote else "'" in
  let char c :=
    if Ascii.eqb c (ascii_of_N 92) || String.eqb (String c "") q && String.eqb q "'" then backslash +:+ String c ""
    else if Ascii.eqb c (ascii_of_N 10) then backslash +:+ "n"
    else if Ascii.eqb c (ascii_of_N 13) then backslash +:+ "r"
    else if Ascii.eqb c (ascii_of_N 9) then backslash +:+ "t"
    else String c "" in
  q +:+ concat_map char s +:+ q.
Definition list_repr (l : list string) : string := "[" +:+ join ", " (map repr l) +:+ "]".

(** ** Lemmas *)
Lemma drop_prefix_Some p s r : drop_prefix p s = Some r ↔ s = p +:+ r.
Proof.
  revert s. induction p as [|a p IH]; intros s; simpl.
  - rewrite sapp_nil_l. by split; [intros [= ->]|intros ->].
  - destruct s as [|b s]; [done|]. rewrite sapp_cons.
    destruct (Ascii.eqb_spec a b) as [->|Hne].
    + rewrite IH. by split; [intros ->|intros [= ->]].
    + split; [done|by intros [= ? ?]].
Qed.

Lemma startswith_true s p : startswith s p = true ↔ ∃ r, s = p +:+ r.
Proof.
  unfold startswith. destruct (drop_prefix p s) as [r|] eqn:H.
  - apply drop_prefix_Some in H. by split; [exists r|].
  - split; [done|]. intros [r Hr]. apply drop_prefix_Some in Hr. congruence.
Qed.

Lemma startswith_app p s : startswith (p +:+ s) p = true.
Proof. apply startswith_true. by exists s. Qed.

Lemma sdrop_app a b : sdrop (String.length a) (a +:+ b) = b.
Proof. induction a as [|x a IH]; [by destruct b|]. by rewrite sapp_cons. Qed.

Lemma stake_app a b : stake (String.length a) (a +:+ b) = a.
Proof. induction a as [|x a IH]; [by destruct b|]. rewrite sapp_cons. simpl. by rewrite IH. Qed.

Lemma stake_sdrop n s : stake n s +:+ sdrop n s = s.
Proof.
  revert s. induction n as [|n IH]; intros s; [done|].
  destruct s as [|c s]; [done|]. simpl. rewrite sapp_cons. by rewrite IH.
Qed.

Lemma endswith_true s p : endswith s p = true ↔ ∃ r, s = r +:+ p.
Proof.
  unfold endswith. rewrite String.eqb_eq. split.
  - intros H. exists (stake (String.length s - String.length p) s).
    transitivity (stake (String.length s - String.length p) s +:+
                  sdrop (String.length s - String.length p) s).
    + by rewrite stake_sdrop.
    + by rewrite H.
  - intros [r ->]. rewrite slength_app.
    replace (_ + _ - _) with (String.length r) by lia. apply sdrop_app.
Qed.

Lemma cut_eq p s a b : cut p s = Some (a, b) → s = a +:+ p +:+ b.
Proof.
  revert a b. induction s as [|c s IH]; intros a b; simpl.
  - destruct (drop_prefix p "") eqn:H; [|done].
    intros [= <- <-]. rewrite sapp_nil_l. by apply drop_prefix_Some.
  - destruct (drop_prefix p (String c s)) as [r|] eqn:H.
    + intros [= <- <-]. rewrite sapp_nil_l. by apply drop_prefix_Some.
    + destruct (cut p s) as [[a' b']|]; [|done]. intros [= <- <-].
      rewrite (IH a' b') by done. by rewrite sapp_cons.
Qed.

Lemma cut_none p s : cut p s = None → ∀ a b, s ≠ a +:+ p +:+ b.
Proof.
  induction s as [|c s IH]; simpl; intros H a b Hs.
  - destruct (drop_prefix p "") eqn:Hd; [done|].
    destruct a; [|done]. rewrite sapp_nil_l in Hs.
    symmetry in Hs. symmetry in Hs. apply drop_prefix_Some in Hs. congruence.
  - destruct (drop_prefix p (String c s)) eqn:Hd; [done|].
    destruct (cut p s) as [[a' b']|] eqn:Hc; [done|].
    destruct a as [|x a].
    + rewrite sapp_nil_l in Hs. apply drop_prefix_Some in Hs. congruence.
    + rewrite sapp_cons in Hs. injection Hs as -> Hs. by apply (IH eq_refl a b).
Qed.

(** The occurrence [cut] finds is the leftmost one. *)
Lemma cut_leftmost p s a b a' b' :
  cut p s = Some (a, b) → s = a' +:+ p +:+ b' → String.length a ≤ String.length a'.
Proof.
  revert a b a'. induction s as [|c s IH]; intros a b a'; simpl.
  - destruct (drop_prefix p "") eqn:H; [|done]. intros [= <- <-] _. simpl. lia.
  - destruct (drop_prefix p (String c s)) as [r|] eqn:H.
    + intros [= <- <-] _. simpl. lia.
    + destruct (cut p s) as [[a1 b1]|] eqn:Hc; [|done]. intros [= <- <-] Hs.
      destruct a' as [|x a'].
      * rewrite sapp_nil_l in Hs. apply drop_prefix_Some in Hs. congruence.
      * rewrite sapp_cons in Hs. injection Hs as -> Hs. simpl.
        specialize (IH a1 b1 a' eq_refl Hs). lia.
Qed.

Lemma contains_true p s : contains p s = true ↔ ∃ a b, s = a +:+ p +:+ b.
Proof.
  unfold contains. destruct (cut p s) as [[a b]|] eqn:H.
  - apply cut_eq in H. split; [by exists a, b|done].
  - split; [done|]. intros (a & b & Hs). by apply (cut_none _ _ H) in Hs.
Qed.

Lemma contains_false p s : contains p s = false ↔ cut p s = None.
Proof. unfold contains. by destruct (cut p s) as [[]|]. Qed.

Lemma contains_app_l p a b : contains p a = true → contains p (a +:+ b) = true.
Proof.
  rewrite !contains_true. intros (x & y & ->). exists x, (y +:+ b).
  by rewrite !sapp_assoc.
Qed.

Lemma contains_app_r p a b : contains p b = true → contains p (a +:+ b) = true.
Proof.
  rewrite !contains_true. intros (x & y & ->). exists (a +:+ x), y.
  by rewrite !sapp_assoc.
Qed.

Lemma cut_length sep s a b :
  sep ≠ "" → cut sep s = Some (a, b) → String.length b < String.length s.
Proof.
  intros Hsep H. apply cut_eq in H as ->. rewrite !slength_app.
  destruct sep; [done|]. simpl. lia.
Qed.

Lemma split_fuel_enough n m sep s :
  sep ≠ "" → String.length s ≤ n → String.length s ≤ m →
  split_fuel n sep s = split_fuel m sep s.
Proof.
  intros Hsep. revert m s. induction n as [|n IH]; intros m s Hn Hm.
  - assert (s = "") as -> by (apply slength_zero; lia).
    destruct m; simpl; [done|]. destruct sep; [done|]. done.
  - destruct m as [|m].
    + assert (s = "") as -> by (apply slength_zero; lia).
      simpl. destruct sep; [done|]. done.
    + simpl. destruct (cut sep s) as [[a b]|] eqn:Hc; [|done].
      apply cut_length in Hc; [|done]. f_equal. apply IH; lia.
Qed.

Lemma split_unfold sep s :
  sep ≠ "" →
  split sep s = match cut sep s with None => [s] | Some (a, b) => a :: split sep b end.
Proof.
  intros Hsep. unfold split. destruct s as [|c s].
  - destruct sep; done.
  - cbn [String.length split_fuel]. destruct (cut sep (String c s)) as [[a b]|] eqn:Hc; [|done].
    apply cut_length in Hc; [|done]. cbn [String.length] in Hc.
    f_equal. apply split_fuel_enough; [done|lia|lia].
Qed.

Lemma split_ne_nil sep s : split sep s ≠ [].
Proof.
  unfold split. destruct (String.length s); simpl; [done|].
  by destruct (cut sep s) as [[]|].
Qed.

Lemma join_cons sep x l : l ≠ [] → join sep (x :: l) = x +:+ sep +:+ join sep l.
Proof. by destruct l. Qed.

Lemma join_nil_cons x l : join "" (x :: l) = x +:+ join "" l.
Proof. destruct l; simpl; by rewrite ?sapp_nil_r, ?sapp_nil_l. Qed.

Lemma join_split sep s : sep ≠ "" → join sep (split sep s) = s.
Proof.
  intros Hsep. remember (String.length s) as n eqn:Hn.
  revert s Hn. induction (lt_wf n) as [n _ IH]. intros s ->.
  rewrite split_unfold by done. destruct (cut sep s) as [[a b]|] eqn:Hc; [|done].
  rewrite join_cons by apply split_ne_nil.
  rewrite (IH (String.length b)) by eauto using cut_length.
  symmetry. by apply cut_eq.
Qed.

Lemma count_zero a s : a ≠ "" → count a s = 0 ↔ contains a s = false.
Proof.
  intros Ha. unfold count. rewrite split_unfold by done. rewrite contains_false.
  destruct (cut a s) as [[x y]|]; [|done]. simpl.
  pose proof (split_ne_nil a y). by destruct (split a y).
Qed.

Lemma count_cut a s x y : a ≠ "" → cut a s = Some (x, y) → count a s = S (count a y).
Proof.
  intros Ha Hc. unfold count. rewrite (split_unfold a s) by done. rewrite Hc. simpl.
  pose proof (split_ne_nil a y). by destruct (split a y).
Qed.

(** One occurrence: the text is cut once, and no more after it. *)
Lemma count_one a s :
  a ≠ "" →
  count a s = 1 ↔ ∃ x y, cut a s = Some (x, y) ∧ contains a y = false.
Proof.
  intros Ha. split.
  - intros H. destruct (cut a s) as [[x y]|] eqn:Hc.
    + exists x, y. split; [done|]. rewrite (count_cut _ _ x y) in H by done.
      apply count_zero; [done|lia].
    + apply contains_false, count_zero in Hc; [|done]. lia.
  - intros (x & y & Hc & Hy). rewrite (count_cut _ _ x y) by done.
    apply count_zero in Hy; [|done]. lia.
Qed.

Lemma replace_all_none a b s : a ≠ "" → contains a s = false → replace_all a b s = s.
Proof.
  intros Ha Hc. unfold replace_all. rewrite split_unfold by done.
  apply contains_false in Hc. by rewrite Hc.
Qed.

Lemma replace_all_cut a b s x y :
  a ≠ "" → cut a s = Some (x, y) → replace_all a b s = x +:+ b +:+ replace_all a b y.
Proof.
  intros Ha Hc. unfold replace_all. rewrite (split_unfold a s) by done. rewrite Hc.
  by rewrite join_cons by apply split_ne_nil.
Qed.

Lemma all_chars_app f a b : all_chars f (a +:+ b) = all_chars f a && all_chars f b.
Proof. induction a as [|c a IH]; [done|]. rewrite sapp_cons. simpl. by rewrite IH, andb_assoc. Qed.

Lemma any_char_app f a b : any_char f (a +:+ b) = any_char f a || any_char f b.
Proof. induction a as [|c a IH]; [done|]. rewrite sapp_cons. simpl. by rewrite IH, orb_assoc. Qed.

Lemma concat_map_app f a b : concat_map f (a +:+ b) = concat_map f a +:+ concat_map f b.
Proof. induction a as [|c a IH]; [done|]. rewrite sapp_cons. simpl. by rewrite IH, sapp_assoc. Qed.

Lemma sort_strings_perm l : sort_strings l ≡ₚ l.
Proof. apply merge_sort_Permutation. Qed.

Lemma sort_strings_sorted l : Sorted String.le (sort_strings l).
Proof. apply Sorted_merge_sort. apply _. Qed.

Create HintDb text.
#[export] Hint Resolve contains_app_l contains_app_r startswith_app : text.
Create Rewrite HintDb append.
#[export] Hint Rewrite sapp_assoc sapp_nil_r sapp_nil_l : append.

(** ** One-character patterns *)
Definition char1 (c : ascii) : string := String c "".

Lemma cut_char c s :
  cut (char1 c) s = match s with
                  | "" => None
                  | String x s' => if Ascii.eqb c x then Some ("", s')
                    else match cut (char1 c) s' with
                         | Some (a, b) => Some (String x a, b)
                         | None => None
                         end
                  end.
Proof. destruct s as [|x s]; [done|]. cbn. by destruct (Ascii.eqb c x). Qed.

Lemma cut_char_app c a b : any_char (Ascii.eqb c) a = false →
  cut (char1 c) (a +:+ char1 c +:+ b) = Some (a, b).
Proof.
  induction a as [|x a IH]; intros Ha.
  - rewrite sapp_nil_l. change (char1 c +:+ b) with (String c b).
    rewrite cut_char. cbv beta iota. by rewrite Ascii.eqb_refl.
  - rewrite sapp_cons, cut_char. simpl in Ha. apply orb_false_iff in Ha as [Hx Ha].
    by rewrite Hx, IH.
Qed.

Lemma split_line c a b : any_char (Ascii.eqb c) a = false →
  split (char1 c) (a +:+ char1 c +:+ b) = a :: split (char1 c) b.
Proof. intros Ha. rewrite split_unfold by done. by rewrite cut_char_app. Qed.

(** Replacing one character is a map over the characters. *)
Definition subst_char (c : ascii) (b : string) (x : ascii) : string :=
  if Ascii.eqb c x then b else char1 x.

Lemma split_char_ne c x s : Ascii.eqb c x = false → ∃ y l,
  split (char1 c) s = y :: l ∧ split (char1 c) (String x s) = String x y :: l.
Proof.
  intros Hx. rewrite (split_unfold _ (String x s)), (split_unfold _ s) by done.
  rewrite (cut_char c (String x s)), Hx. destruct (cut (char1 c) s) as [[a b]|]; by do 2 eexists.
Qed.

Lemma replace_all_char c b s : replace_all (char1 c) b s = concat_map (subst_char c b) s.
Proof.
  unfold replace_all. induction s as [|x s IH]; [done|].
  cbn [concat_map]. unfold subst_char at 1. destruct (Ascii.eqb c x) eqn:Hx.
  - rewrite split_unfold by done. rewrite cut_char, Hx.
    rewrite join_cons by apply split_ne_nil. by rewrite IH.
  - destruct (split_char_ne c x s Hx) as (y & l & H1 & H2).
    rewrite H2, <- IH, H1. by destruct l.
Qed.

Lemma concat_map_concat_map f g s :
  concat_map f (concat_map g s) = concat_map (λ c, concat_map f (g c)) s.
Proof. induction s as [|x s IH]; [done|]. simpl. by rewrite concat_map_app, IH. Qed.

Lemma concat_map_ext f g s : (∀ c, f c = g c) → concat_map f s = concat_map g s.
Proof. intros H. induction s as [|x s IH]; [done|]. simpl. by rewrite H, IH. Qed.

Lemma any_char_concat_map f g h s :
  (∀ c, h c = false → any_char f (g c) = false) → any_char h s = false →
  any_char f (concat_map g s) = false.
Proof.
  intros H. induction s as [|x s IH]; [done|]. simpl. intros [Hx Hs]%orb_false_iff.
  by rewrite any_char_app, H, IH.
Qed.

Lemma any_char_impl (f g : ascii → bool) s :
  (∀ c, g c = false → f c = false) → any_char g s = false → any_char f s = false.
Proof.
  intros H. induction s as [|x s IH]; [done|]. simpl. intros [Hx Hs]%orb_false_iff.
  by rewrite H, IH.
Qed.

Lemma any_char_join f sep l : any_char f sep = false →
  any_char f (join sep l) = existsb (any_char f) l.
Proof.
  intros Hsep. induction l as [|x l IH]; [done|]. destruct l as [|y l].
  - simpl. by rewrite orb_false_r.
  - rewrite join_cons by done. rewrite !any_char_app, Hsep, IH. done.
Qed.

(** Splitting at one character distributes over a text that holds it. *)
Lemma split_char_app c a b :
  split (char1 c) (a +:+ char1 c +:+ b) = split (char1 c) a ++ split (char1 c) b.
Proof.
  induction a as [|x a IH].
  - rewrite sapp_nil_l. change (char1 c +:+ b) with (String c b).
    rewrite split_unfold by done. by rewrite cut_char, Ascii.eqb_refl.
  - rewrite sapp_cons. destruct (Ascii.eqb c x) eqn:Hx.
    + rewrite split_unfold by done. rewrite cut_char, Hx.
      rewrite (split_unfold _ (String x a)) by done. by rewrite cut_char, Hx, IH.
    + destruct (split_char_ne c x (a +:+ char1 c +:+ b) Hx) as (y & l & H1 & ->).
      destruct (split_char_ne c x a Hx) as (y' & l' & H1' & ->).
      rewrite IH, H1' in H1. injection H1 as <- <-. done.
Qed.

Lemma split_char_none c s : any_char (Ascii.eqb c) s = false → split (char1 c) s = [s].
Proof.
  induction s as [|x s IH]; [done|]. simpl. intros [Hx Hs]%orb_false_iff.
  destruct (split_char_ne c x s Hx) as (y & l & H1 & ->).
  rewrite (IH Hs) in H1. by injection H1 as <- <-.
Qed.

(** Sorting forgets the order. *)
Lemma sort_strings_eq l k : l ≡ₚ k → sort_strings l = sort_strings k.
Proof.
  intros H. apply (Sorted_unique String.le); [apply sort_strings_sorted..|].
  by rewrite !sort_strings_perm.
Qed.

(** The first word of a line. *)
Lemma srev_app_app a b c : srev_app (a +:+ b) c = srev_app b (srev_app a c).
Proof. revert c. induction a as [|x a IH]; intros c; [done|]. rewrite sapp_cons. apply IH. Qed.

Lemma srev_app_acc a b : srev_app a b = srev_app a "" +:+ b.
Proof.
  revert b. induction a as [|x a IH]; intros b; [done|]. simpl.
  rewrite (IH (String x b)), (IH (String x "")), sapp_assoc. done.
Qed.

Lemma srev_involutive a : srev (srev a) = a.
Proof.
  unfold srev. induction a as [|x a IH]; [done|]. simpl.
  rewrite (srev_app_acc a (String x "")), srev_app_app. simpl. by rewrite IH.
Qed.

Definition is_word (s : string) : bool :=
  negb (String.eqb s "") && all_chars (λ c, negb (is_space c)) s.

Lemma words_go_word cur a s : all_chars (λ c, negb (is_space c)) a = true →
  words_go cur (a +:+ s) = words_go (srev_app a cur) s.
Proof.
  revert cur. induction a as [|x a IH]; intros cur Ha; [done|].
  rewrite sapp_cons. simpl in *. apply andb_true_iff in Ha as [Hx Ha].
  rewrite (proj1 (negb_true_iff _) Hx). by apply IH.
Qed.

Lemma words_first w c s : is_word w = true → is_space c = true →
  words (w +:+ String c s) = w :: words s.
Proof.
  intros [Hw Ha]%andb_true_iff Hc. unfold words. rewrite words_go_word by done. simpl.
  rewrite Hc. destruct (String.eqb_spec (srev_app w "") "") as [He|He].
  - fold (srev w) in He. rewrite <- (srev_involutive w), He in Hw. done.
  - fold (srev w). by rewrite srev_involutive.
Qed.

Lemma sget_app a b i : String.get (String.length a + i) (a +:+ b) = String.get i b.
Proof. induction a as [|x a IH]; [done|]. rewrite sapp_cons. exact IH. Qed.

Lemma sort_strings_spec l : Sorted String.le (sort_strings l) ∧ ∀ x, x ∈ sort_strings l ↔ x ∈ l.
Proof. split; [apply sort_strings_sorted|]. intros x. by rewrite sort_strings_perm. Qed.
