(* ===== verification/PyBytes.v ===== *)
(** * Python bytes, dictionaries and slices

    [bytes] with [int.from_bytes(_, "big")], [int.to_bytes], slicing and [.hex()];
    dictionaries as insertion-ordered association lists, with the operations of
    [dict], [collections.Counter] and [setdefault]. *)

From S2P Require Import Prelude.
From S2P Require Import PyText.
From Stdlib Require Import Strings.Byte.

#[local] Open Scope Z_scope.

Abbreviation bytes := (list Byte.byte).

#[export] Instance byte_eq_dec : EqDecision Byte.byte := Byte.byte_eq_dec.

(** ** Bytes and integers *)
Definition byte_z (b : Byte.byte) : Z := Z.of_N (Byte.to_N b).
Definition z_byte (z : Z) : Byte.byte :=
  match Byte.of_N (Z.to_N (z mod 256)) with Some b => b | None => Byte.x00 end.

(** [int.from_bytes(l, "big")] *)
Definition from_be (l : bytes) : Z := fold_left (λ acc b, 256 * acc + byte_z b) l 0.
(** [z.to_bytes(2, "big")] *)
Definition u16 (z : Z) : bytes := [z_byte (z / 256); z_byte z].
Definition u8 (z : Z) : bytes := [z_byte z].
Definition u24 (z : Z) : bytes := [z_byte (z / 65536); z_byte (z / 256); z_byte z].

(** [l[i:j]]: Python slices clip to the sequence. *)
Definition slice {A} (i j : nat) (l : list A) : list A := take (j - i) (drop i l).
#[global] Arguments slice : simpl never.

(** [l[i]] for a non-negative index. *)
Definition get_at {A} (l : list A) (i : nat) : result A :=
  match l !! i with Some x => Ok x | None => Err IndexError end.

Definition hex_byte (b : Byte.byte) : string :=
  String (hex_digit (Byte.to_N b / 16)) (String (hex_digit (Byte.to_N b mod 16)) "").
(** [b.hex()] *)
Definition hex (l : bytes) : string := fold_right (λ b s, hex_byte b +:+ s) "" l.

Definition zlen {A} (l : list A) : Z := Z.of_nat (length l).

Lemma byte_z_range b : 0 <= byte_z b < 256.
Proof. unfold byte_z. pose proof (Byte.to_N_bounded b). lia. Qed.

Lemma byte_z_z_byte z : byte_z (z_byte z) = z mod 256.
Proof.
  unfold z_byte, byte_z. pose proof (Z.mod_pos_bound z 256 eq_refl) as Hz.
  destruct (Byte.of_N (Z.to_N (z mod 256))) as [b|] eqn:Hb.
  - apply Byte.to_of_N in Hb. rewrite Hb. lia.
  - apply Byte.of_N_None_iff in Hb. lia.
Qed.

Lemma from_be_u16 z : 0 <= z < 65536 → from_be (u16 z) = z.
Proof.
  intros Hz. unfold from_be, u16. cbn [fold_left]. rewrite !byte_z_z_byte.
  rewrite (Z.mod_small (z / 256)) by (split; [apply Z.div_pos|apply Z.div_lt_upper_bound]; lia).
  pose proof (Z.div_mod z 256). lia.
Qed.

Lemma from_be_u24 z : 0 <= z < 16777216 → from_be (u24 z) = z.
Proof.
  intros Hz. unfold from_be, u24. cbn [fold_left]. rewrite !byte_z_z_byte.
  rewrite (Z.mod_small (z / 65536)) by (split; [apply Z.div_pos|apply Z.div_lt_upper_bound]; lia).
  pose proof (Z.div_mod z 256). pose proof (Z.div_mod (z / 256) 256).
  replace (z / 65536) with (z / 256 / 256) by (rewrite Z.div_div; [done|lia|lia]). lia.
Qed.

Lemma from_be_nonneg_acc l acc :
  0 <= acc → 0 <= fold_left (λ acc b, 256 * acc + byte_z b) l acc.
Proof.
  revert acc. induction l as [|b l IH]; intros acc Ha; simpl; [done|].
  apply IH. pose proof (byte_z_range b). lia.
Qed.

Lemma from_be_nonneg l : 0 <= from_be l.
Proof. by apply from_be_nonneg_acc. Qed.

Lemma z_byte_byte_z b : z_byte (byte_z b) = b.
Proof.
  unfold z_byte, byte_z. pose proof (Byte.to_N_bounded b).
  rewrite Z.mod_small by lia. by rewrite N2Z.id, Byte.of_to_N.
Qed.

Lemma z_byte_mod z k : z_byte (z + 256 * k) = z_byte z.
Proof. unfold z_byte. by rewrite (Z.mul_comm 256), Z_mod_plus_full. Qed.

(** The two bytes of a length field give the field back. *)
Lemma u16_bytes a b : u16 (256 * byte_z a + byte_z b) = [a; b].
Proof.
  unfold u16. pose proof (byte_z_range b).
  rewrite (Z.add_comm (256 * _)), z_byte_mod, z_byte_byte_z.
  rewrite Z.mul_comm, Z.div_add, Z.div_small, Z.add_0_l by lia.
  by rewrite z_byte_byte_z.
Qed.

Lemma from_be_pair a b : from_be [a; b] = 256 * byte_z a + byte_z b.
Proof. unfold from_be. simpl. lia. Qed.

Lemma u16_length z : length (u16 z) = 2%nat.
Proof. done. Qed.

Lemma slice_length {A} i j (l : list A) :
  length (slice i j l) = Nat.min (j - i) (length l - i).
Proof. unfold slice. by rewrite length_take, length_drop. Qed.

Lemma slice_app_exact {A} i j (a b c : list A) :
  length a = i → length b = (j - i)%nat → slice i j (a ++ b ++ c) = b.
Proof.
  intros Ha Hb. unfold slice. rewrite drop_app_length' by done.
  by rewrite take_app_length' by done.
Qed.

Lemma slice_drop {A} k i j (l : list A) :
  slice (k + i) (k + j) l = slice i j (drop k l).
Proof.
  unfold slice. rewrite drop_drop. f_equal. lia.
Qed.

(** ** Dictionaries in insertion order *)
Section dict.
Context {K V : Type} `{EqDecision K}.
Implicit Types d : list (K * V).

Fixpoint dict_get (k : K) (d : list (K * V)) : option V :=
    match d with
    | [] => None
    | (k', v) :: d' => if decide (k = k') then Some v else dict_get k d'
    end.

  (** [d[k] = v]: a key keeps the position of its first assignment. *)
Fixpoint dict_set (k : K) (v : V) (d : list (K * V)) : list (K * V) :=
    match d with
    | [] => [(k, v)]
    | (k', v') :: d' =>
        if decide (k = k') then (k', v) :: d' else (k', v') :: dict_set k v d'
    end.

Definition dict_update (kvs d : list (K * V)) : list (K * V) :=
    fold_left (λ d kv, dict_set kv.1 kv.2 d) kvs d.

  (** [d[k]] *)
Definition dict_index (name : K → string) (k : K) d : result V :=
    match dict_get k d with Some v => Ok v | None => Err (KeyError (name k)) end.

Lemma dict_get_set k k' v d :
    dict_get k (dict_set k' v d) = if decide (k = k') then Some v else dict_get k d.
Proof.
    induction d as [|[k1 v1] d IH]; simpl; [done|].
    destruct (decide (k' = k1)) as [->|]; simpl.
    - by destruct (decide (k = k1)).
    - rewrite IH. destruct (decide (k = k1)) as [->|]; [|done].
      by destruct (decide (k1 = k')).
Qed.

Lemma dict_get_set_eq k v d : dict_get k (dict_set k v d) = Some v.
Proof. rewrite dict_get_set. by case_decide. Qed.

Lemma dict_get_set_ne k k' v d : k ≠ k' → dict_get k (dict_set k' v d) = dict_get k d.
Proof. intros. rewrite dict_get_set. by case_decide. Qed.

Lemma dict_set_keys k v d :
    (dict_set k v d).*1 = if decide (k ∈ d.*1) then d.*1 else d.*1 ++ [k].
Proof.
    induction d as [|[k1 v1] d IH]; [done|]. rewrite !fmap_cons. simpl dict_set.
    destruct (decide (k = k1)) as [->|Hne]; rewrite fmap_cons; cbn [fst].
    - rewrite decide_True by left. done.
    - rewrite IH. destruct (decide (k ∈ d.*1)) as [Hin|Hin].
      + by rewrite decide_True by (by right).
      + by rewrite decide_False by (by intros [|]%elem_of_cons).
Qed.

Lemma dict_set_NoDup k v d : NoDup d.*1 → NoDup (dict_set k v d).*1.
Proof.
    intros H. rewrite dict_set_keys. case_decide; [done|].
    apply NoDup_app. split; [done|]. split; [|apply NoDup_singleton].
    intros x Hx ->%list_elem_of_singleton. done.
Qed.

Lemma dict_get_elem k v d : dict_get k d = Some v → (k, v) ∈ d.
Proof.
    induction d as [|[k1 v1] d IH]; simpl; [done|].
    case_decide; [intros [= ->]; subst; left|right; auto].
Qed.

Lemma dict_get_None k d : dict_get k d = None ↔ k ∉ d.*1.
Proof.
    induction d as [|[k1 v1] d IH]; simpl; [by split; [intros _ ?%not_elem_of_nil|]|].
    rewrite not_elem_of_cons. case_decide; subst; [naive_solver|]. by rewrite IH; naive_solver.
Qed.

Lemma elem_dict_get k v d : NoDup d.*1 → (k, v) ∈ d → dict_get k d = Some v.
Proof.
    induction d as [|[k1 v1] d IH]; simpl; [set_solver|].
    intros [Hk Hd]%NoDup_cons [[= -> ->]|Hin]%elem_of_cons.
    - by case_decide.
    - case_decide; subst; [|auto].
      exfalso. apply Hk. apply list_elem_of_fmap. by exists (k1, v).
Qed.
End dict.

(** [collections.Counter(l)] *)
Definition counter {K} `{EqDecision K} (l : list K) : list (K * Z) :=
  fold_left (λ d k, dict_set k (default 0 (dict_get k d) + 1) d) l [].

Definition occurrences {K} `{EqDecision K} (k : K) (l : list K) : Z :=
  zlen (filter (λ x, x = k) l).

Lemma counter_fold {K} `{EqDecision K} (l : list K) d k :
  default 0 (dict_get k (fold_left
    (λ d k, dict_set k (default 0 (dict_get k d) + 1) d) l d)) =
  default 0 (dict_get k d) + occurrences k l.
Proof.
  revert d. induction l as [|x l IH]; intros d; simpl.
  - unfold occurrences. simpl. unfold zlen. simpl. lia.
  - rewrite IH, dict_get_set. unfold occurrences, zlen. rewrite filter_cons.
    repeat case_decide; subst; simpl; try congruence; lia.
Qed.

Lemma counter_get {K} `{EqDecision K} (l : list K) k :
  default 0 (dict_get k (counter l)) = occurrences k l.
Proof. unfold counter. rewrite counter_fold. done. Qed.

Lemma counter_keys_NoDup {K} `{EqDecision K} (l : list K) : NoDup (counter l).*1.
Proof.
  unfold counter. assert (NoDup (@nil (K * Z)).*1) as H by constructor.
  revert H. generalize (@nil (K * Z)). induction l as [|x l IH]; intros d Hd; simpl; [done|].
  apply IH. by apply dict_set_NoDup.
Qed.

Create HintDb bytes.
#[export] Hint Resolve byte_z_range from_be_nonneg : bytes.

Lemma dict_set_new {K V} `{EqDecision K} (k : K) (v : V) d :
  k ∉ d.*1 → dict_set k v d = d ++ [(k, v)].
Proof.
  induction d as [|[k1 v1] d IH]; [done|]. rewrite fmap_cons, not_elem_of_cons. intros [H1 H2].
  simpl. rewrite decide_False by done. by rewrite IH.
Qed.

Lemma dict_update_new {K V} `{EqDecision K} (kvs d : list (K * V)) :
  NoDup (d ++ kvs).*1 → dict_update kvs d = d ++ kvs.
Proof.
  unfold dict_update. revert d. induction kvs as [|[k v] kvs IH]; intros d H; simpl.
  - by rewrite app_nil_r.
  - rewrite dict_set_new.
    + rewrite IH, <- app_assoc; [done|]. by rewrite <- app_assoc.
    + rewrite fmap_app, fmap_cons in H. apply NoDup_app in H as (_ & H & _).
      intros Hk. apply (H k Hk). by left.
Qed.

Lemma dict_get_map {K V} `{EqDecision K} (f : K → V) (l : list K) k :
  k ∈ l → dict_get k (map (λ x, (x, f x)) l) = Some (f k).
Proof.
  induction l as [|x l IH]; [by intros ?%not_elem_of_nil|]. simpl. intros Hk.
  case_decide as Hx; [by subst|]. apply IH. by apply elem_of_cons in Hk as [|].
Qed.
