(* ===== verification/TlsRecord.v ===== *)
(** * TLS record streams

    [veil-core/scripts/reality_fingerprint.py] ([records], [grease], [words]) and
    [veil-core/scripts/probe.py] ([histogram], the record loop of [sample]).
    Captured traffic is cut into records three times in the tooling: strictly
    ([records]) and leniently ([histogram], [sample]).  The file proves the strict
    parser exact, total and invertible, and the lenient ones equal to the longest
    parsable prefix. *)

From S2P Require Import Prelude.
From S2P Require Import PyText.
From S2P Require Import PyBytes.

#[local] Open Scope Z_scope.

(** ** [records] *)

(** The declared length of the record at the front of [data]. *)
Definition record_length (data : bytes) : nat := Z.to_nat (from_be (slice 3 5 data)).

(** The [while data] loop; every iteration consumes at least five bytes, so the
    length of the input bounds the number of iterations. *)
Fixpoint records_loop (fuel : nat) (data : bytes) : result (list (Z * bytes)) :=
  match data with
  | [] => Ok []
  | first :: _ =>
      match fuel with
      | O => Err (RuntimeError "unreachable")
      | S fuel =>
          raise_if (bool_decide (length data < 5)%nat) (ValueError "truncated TLS header");;
          let n := record_length data in
          raise_if (bool_decide (length data < 5 + n)%nat) (ValueError "truncated TLS record");;
          rest ← records_loop fuel (drop (5 + n) data);
          Ok ((byte_z first, slice 5 (5 + n) data) :: rest)
      end
  end.
Definition records (data : bytes) : result (list (Z * bytes)) :=
  records_loop (length data) data.

#[global] Arguments records : simpl never.
#[global] Arguments record_length : simpl never.

(** ** [grease] and [words] *)
Definition grease (v : Z) : Z :=
  if (Z.land v 0x0F0F =? 0x0A0A) && (Z.shiftr v 8 =? Z.land v 255) then 0x0A0A else v.

Fixpoint words_loop (data : bytes) : list Z :=
  match data with
  | a :: b :: data => grease (from_be [a; b]) :: words_loop data
  | _ => []
  end.
Definition words (data : bytes) : result (list Z) :=
  raise_if (Nat.odd (length data)) (ValueError "odd uint16 vector");;
  Ok (words_loop data).

(** ** [histogram] *)
Record histogram_info := {
  record_histogram : list (string * Z);
  first_records : list (Z * Z);
  parsed_bytes : nat;
  captured_bytes : nat
}.

(** The scan of [histogram] (and of [sample], whose loop is the same): position
    [i], the type and length of every complete record, and the final position. *)
Fixpoint scan_loop (fuel i : nat) (data : bytes) : list (Z * Z) * nat :=
  match fuel with
  | O => ([], i)
  | S fuel =>
      if decide (i + 5 ≤ length data)%nat then
        let n := from_be (slice (i + 3) (i + 5) data) in
        if decide (length data < i + 5 + Z.to_nat n)%nat then ([], i)
        else
          let typ := match data !! i with Some b => byte_z b | None => 0 end in
          let '(rest, j) := scan_loop fuel (i + (5 + Z.to_nat n)) data in
          ((typ, n) :: rest, j)
      else ([], i)
  end.
Definition scan (data : bytes) : list (Z * Z) * nat := scan_loop (length data) 0 data.
#[global] Arguments scan : simpl never.

Definition histogram (data : bytes) : histogram_info :=
  let '(recs, i) := scan data in
  {| record_histogram := counter (map (λ r, str r.1 +:+ ":" +:+ str r.2) recs);
     first_records := take 24 recs;
     parsed_bytes := i;
     captured_bytes := length data |}.

(** The record list of [sample]'s result. *)
Definition sample_records (data : bytes) : list (Z * Z) := (scan data).1.

(** ** Wire format: the specification the parsers are checked against *)

(** A record on the wire: content type, two version bytes (which no parser of
    the tooling reads), a 16-bit length and the payload. *)
Record wire_record := { wr_type : Z; wr_version : bytes; wr_payload : bytes }.

Definition wire_ok (r : wire_record) : Prop :=
  0 <= wr_type r < 256 ∧ length (wr_version r) = 2%nat ∧ zlen (wr_payload r) < 65536.

Definition encode_record (r : wire_record) : bytes :=
  z_byte (wr_type r) :: wr_version r ++ u16 (zlen (wr_payload r)) ++ wr_payload r.
Definition encode_records (l : list wire_record) : bytes := concat (map encode_record l).
Definition content (r : wire_record) : Z * bytes := (wr_type r, wr_payload r).

(** ** Lemmas *)
Lemma record_length_nonneg data : 0 <= from_be (slice 3 5 data).
Proof. apply from_be_nonneg. Qed.

Lemma records_loop_enough fuel fuel' data :
  (length data ≤ fuel)%nat → (length data ≤ fuel')%nat →
  records_loop fuel data = records_loop fuel' data.
Proof.
  revert fuel' data. induction fuel as [|fuel IH]; intros fuel' data H H'.
  - destruct data; [by destruct fuel'|simpl in H; lia].
  - destruct data as [|b data]; [by destruct fuel'|].
    destruct fuel' as [|fuel']; [simpl in H'; lia|].
    cbn [records_loop]. destruct (raise_if _ _); [|done]. cbn.
    destruct (raise_if _ _); [|done]. cbn.
    rewrite (IH fuel'); [done| |]; rewrite length_drop; simpl in *; lia.
Qed.

(** The loop of [records] with no fuel: [records] is total. *)
Lemma records_unfold data :
  records data =
  match data with
  | [] => Ok []
  | first :: _ =>
      raise_if (bool_decide (length data < 5)%nat) (ValueError "truncated TLS header");;
      let n := record_length data in
      raise_if (bool_decide (length data < 5 + n)%nat) (ValueError "truncated TLS record");;
      rest ← records (drop (5 + n) data);
      Ok ((byte_z first, slice 5 (5 + n) data) :: rest)
  end.
Proof.
  destruct data as [|b data]; [done|]. unfold records. cbn [records_loop length].
  destruct (raise_if _ _); [|done]. cbn. destruct (raise_if _ _); [|done]. cbn.
  rewrite (records_loop_enough _ (length (drop (4 + record_length (b :: data)) data))); [done| |done].
  rewrite length_drop. lia.
Qed.

Lemma encode_record_length r :
  wire_ok r → length (encode_record r) = (5 + length (wr_payload r))%nat.
Proof.
  intros (_ & Hv & _). unfold encode_record. simpl. rewrite !length_app. simpl. lia.
Qed.

Lemma encode_record_header r tl :
  wire_ok r → slice 3 5 (encode_record r ++ tl) = u16 (zlen (wr_payload r)).
Proof.
  intros (_ & Hv & _). destruct r as [t v p]; simpl in *. unfold encode_record. simpl.
  destruct v as [|a [|b [|]]]; try discriminate. done.
Qed.

Lemma encode_record_length_field r tl :
  wire_ok r → record_length (encode_record r ++ tl) = length (wr_payload r).
Proof.
  intros Hr. unfold record_length. rewrite encode_record_header by done.
  destruct Hr as (_ & _ & Hp). unfold zlen in *. rewrite from_be_u16 by lia. lia.
Qed.

Lemma encode_record_payload r tl :
  wire_ok r →
  slice 5 (5 + length (wr_payload r)) (encode_record r ++ tl) = wr_payload r.
Proof.
  intros (_ & Hv & _). unfold encode_record.
  replace ((z_byte (wr_type r) :: wr_version r ++ _ ++ wr_payload r) ++ tl)
    with ((z_byte (wr_type r) :: wr_version r ++ u16 (zlen (wr_payload r))) ++ wr_payload r ++ tl)
    by (simpl; by rewrite <- !app_assoc).
  apply slice_app_exact; [|lia]. simpl. rewrite length_app, Hv. done.
Qed.

Lemma byte_z_small z : 0 <= z < 256 → byte_z (z_byte z) = z.
Proof. intros. rewrite byte_z_z_byte. by apply Z.mod_small. Qed.

Lemma records_nil : records [] = Ok [].
Proof. done. Qed.

(** One step of the parser on an encoded record. *)
Lemma records_encode_cons r tl :
  wire_ok r →
  records (encode_record r ++ tl) = rest ← records tl; Ok (content r :: rest).
Proof.
  intros Hr. rewrite records_unfold. cbv zeta.
  rewrite encode_record_length_field, encode_record_payload by done.
  pose proof (encode_record_length r Hr) as Hlen.
  replace (drop (5 + length (wr_payload r)) (encode_record r ++ tl)) with tl
    by (symmetry; by apply drop_app_length').
  rewrite !bool_decide_false by (rewrite length_app; lia).
  unfold content. destruct r as [t v p]. destruct Hr as (Ht & _ & _).
  cbn in Ht. cbn. by rewrite byte_z_small.
Qed.

Lemma scan_loop_enough fuel fuel' i data :
  (length data - i ≤ fuel)%nat → (length data - i ≤ fuel')%nat →
  scan_loop fuel i data = scan_loop fuel' i data.
Proof.
  revert fuel' i. induction fuel as [|fuel IH]; intros fuel' i H H'.
  - destruct fuel'; [done|]. simpl. case_decide; [lia|done].
  - destruct fuel' as [|fuel']; simpl; [case_decide; [lia|done]|].
    case_decide; [|done]. case_decide; [done|]. rewrite (IH fuel'); [done|lia|lia].
Qed.

(** Scanning from position [i] is scanning the suffix, shifted. *)
Lemma scan_loop_shift fuel k i data :
  scan_loop fuel (k + i) data =
  let '(l, j) := scan_loop fuel i (drop k data) in (l, k + j)%nat.
Proof.
  revert i. induction fuel as [|fuel IH]; intros i; [done|]. cbn [scan_loop].
  rewrite length_drop, lookup_drop, <- slice_drop.
  replace (k + i + 3)%nat with (k + (i + 3))%nat by lia.
  replace (k + i + 5)%nat with (k + (i + 5))%nat by lia.
  set (n := from_be _). replace (k + i + (5 + Z.to_nat n))%nat with
    (k + (i + (5 + Z.to_nat n)))%nat by lia.
  rewrite IH. repeat case_decide; try lia; try done.
  all: by destruct (scan_loop fuel _ _).
Qed.

Lemma scan_unfold data :
  scan data =
  if decide (5 ≤ length data)%nat then
    let n := from_be (slice 3 5 data) in
    if decide (length data < 5 + Z.to_nat n)%nat then ([], 0%nat)
    else
      let typ := match data !! 0%nat with Some b => byte_z b | None => 0 end in
      let '(rest, j) := scan (drop (5 + Z.to_nat n) data) in
      ((typ, n) :: rest, (5 + Z.to_nat n + j)%nat)
  else ([], 0%nat).
Proof.
  unfold scan. destruct (length data) as [|m] eqn:Hm; [done|].
  cbn [scan_loop]. rewrite Hm, Nat.add_0_l. case_decide; [|done].
  set (n := from_be _). case_decide; [done|].
  pose proof (scan_loop_shift m (5 + Z.to_nat n) 0 data) as Hs.
  rewrite Nat.add_0_r in Hs. rewrite Nat.add_0_l, Hs.
  rewrite (scan_loop_enough _ (length (drop (5 + Z.to_nat n) data)));
    [|rewrite length_drop; lia|lia].
  by destruct (scan_loop (length (drop (5 + Z.to_nat n) data)) 0 (drop (5 + Z.to_nat n) data)).
Qed.

(** ** The decomposition of a capture

    Every capture is a sequence of complete records followed by a tail that does
    not hold one; both parsers are functions of that decomposition. *)
Definition incomplete (tl : bytes) : Prop :=
  (length tl < 5)%nat ∨ (length tl < 5 + record_length tl)%nat.

Definition record_shape (w : wire_record) : Z * Z := (wr_type w, zlen (wr_payload w)).

Lemma scan_incomplete tl : incomplete tl → scan tl = ([], 0%nat).
Proof.
  intros [H|H]; rewrite scan_unfold; case_decide; try done; [lia|].
  by rewrite decide_True by exact H.
Qed.

Lemma scan_encode_cons w tl :
  wire_ok w →
  scan (encode_record w ++ tl) =
  let '(l, j) := scan tl in
  (record_shape w :: l, (length (encode_record w) + j)%nat).
Proof.
  intros Hw. rewrite scan_unfold.
  pose proof (encode_record_length w Hw) as Hl.
  rewrite decide_True by (rewrite length_app; lia). cbv zeta.
  rewrite encode_record_header by done. destruct Hw as (Ht & _ & Hp).
  unfold zlen in *. rewrite from_be_u16 by lia. rewrite Nat2Z.id.
  rewrite decide_False by (rewrite length_app; lia).
  rewrite drop_app_length' by lia. rewrite Hl.
  destruct (scan tl) as [l j]. unfold record_shape, zlen, encode_record. cbn -[z_byte].
  by rewrite byte_z_small.
Qed.

Lemma scan_encode ws tl :
  Forall wire_ok ws → incomplete tl →
  scan (encode_records ws ++ tl) = (map record_shape ws, length (encode_records ws)).
Proof.
  intros Hws Htl. induction Hws as [|w ws Hw Hws IH]; [by apply scan_incomplete|].
  unfold encode_records in *. cbn [map concat]. rewrite <- app_assoc.
  rewrite scan_encode_cons by done. rewrite IH. by rewrite length_app.
Qed.

Lemma records_encode ws tl :
  Forall wire_ok ws →
  records (encode_records ws ++ tl) = rest ← records tl; Ok (map content ws ++ rest).
Proof.
  intros Hws. unfold encode_records. induction Hws as [|w ws Hw Hws IH].
  { cbn [map concat app]. by destruct (records tl). }
  cbn [map concat]. rewrite <- app_assoc.
  rewrite records_encode_cons by done. rewrite IH. by destruct (records tl).
Qed.

Definition truncation (tl : bytes) : exn :=
  if decide (length tl < 5)%nat then ValueError "truncated TLS header"
  else ValueError "truncated TLS record".

Lemma records_incomplete tl :
  incomplete tl → tl ≠ [] → records tl = Err (truncation tl).
Proof.
  intros H Hne. rewrite records_unfold. destruct tl as [|b tl]; [done|].
  cbv zeta. unfold truncation. destruct (decide (length (b :: tl) < 5)%nat) as [Hd|Hd].
  - by rewrite (bool_decide_true (length (b :: tl) < 5)%nat) by exact Hd.
  - rewrite (bool_decide_false (length (b :: tl) < 5)%nat) by exact Hd. destruct H as [H|H]; [done|].
    by rewrite (bool_decide_true (length (b :: tl) < 5 + record_length (b :: tl))%nat) by exact H.
Qed.

(** A complete record at the front of the data is an encoded record. *)
Lemma complete_record data :
  ¬ incomplete data → ∃ w tl, wire_ok w ∧ data = encode_record w ++ tl.
Proof.
  intros H. unfold incomplete in H.
  destruct data as [|b [|v1 [|v2 [|l1 [|l2 data]]]]]; simpl in H; try lia.
  set (n := record_length (b :: v1 :: v2 :: l1 :: l2 :: data)) in *.
  assert (n = Z.to_nat (256 * byte_z l1 + byte_z l2)) as Hn.
  { unfold n, record_length, slice. simpl. by rewrite from_be_pair. }
  pose proof (byte_z_range l1). pose proof (byte_z_range l2). pose proof (byte_z_range b).
  exists {| wr_type := byte_z b; wr_version := [v1; v2]; wr_payload := take n data |}, (drop n data).
  assert (zlen (take n data) = 256 * byte_z l1 + byte_z l2) as Hz.
  { unfold zlen. rewrite length_take. lia. }
  split; [split; [simpl; lia|split; [done|cbn; lia]]|].
  unfold encode_record. cbn -[u16 z_byte]. rewrite Hz, u16_bytes, z_byte_byte_z.
  cbn. by rewrite take_drop.
Qed.

Lemma decompose data :
  ∃ ws tl, Forall wire_ok ws ∧ incomplete tl ∧ data = encode_records ws ++ tl.
Proof.
  remember (length data) as n eqn:Hn. revert data Hn.
  induction (lt_wf n) as [n _ IH]. intros data ->.
  destruct (decide (length data < 5)%nat) as [H|H]; [exists [], data; by repeat split; auto; left|].
  destruct (decide (length data < 5 + record_length data)%nat) as [H'|H'];
    [exists [], data; by repeat split; auto; right|].
  destruct (complete_record data) as (w & tl & Hw & ->); [by intros [|]|].
  destruct (IH (length tl)) with (data := tl) as (ws & tl' & Hws & Htl & ->); [|done|].
  - rewrite length_app, encode_record_length by done. lia.
  - exists (w :: ws), tl'. split; [by constructor|]. split; [done|].
    unfold encode_records. cbn [map concat]. by rewrite <- app_assoc.
Qed.

(** ** Properties *)

(** C2. [records] accepts exactly the concatenations of complete TLS records, and
    returns their types and payloads in order; in particular it inverts the wire
    encoding, whatever the version bytes. *)
Theorem records_exact data rs :
  records data = Ok rs ↔
  ∃ ws, Forall wire_ok ws ∧ data = encode_records ws ∧ rs = map content ws.
Proof.
  split.
  - destruct (decompose data) as (ws & tl & Hws & Htl & ->). rewrite records_encode by done.
    destruct tl as [|b tl]; [|by rewrite records_incomplete].
    rewrite records_nil. cbn. intros [= <-]. exists ws. by rewrite !app_nil_r.
  - intros (ws & Hws & -> & ->). rewrite <- (app_nil_r (encode_records ws)).
    rewrite records_encode by done. rewrite records_nil. cbn. by rewrite app_nil_r.
Qed.

(** [records] fails only on a capture that ends inside a record, with the
    error that says whether the header or the payload is cut. *)
Theorem records_error data e :
  records data = Err e ↔
  ∃ ws tl, Forall wire_ok ws ∧ data = encode_records ws ++ tl ∧ tl ≠ [] ∧
    ((length tl < 5)%nat ∧ e = ValueError "truncated TLS header" ∨
     (5 ≤ length tl < 5 + record_length tl)%nat ∧ e = ValueError "truncated TLS record").
Proof.
  split.
  - destruct (decompose data) as (ws & tl & Hws & Htl & ->). rewrite records_encode by done.
    destruct tl as [|b tl]; [done|]. rewrite records_incomplete by done.
    cbn [mbind result_bind]. intros [= <-]. exists ws, (b :: tl). repeat split; auto.
    unfold truncation. destruct (decide _); [by left|right]. split; [|done].
    destruct Htl; lia.
  - intros (ws & tl & Hws & -> & Hne & Htl). rewrite records_encode by done.
    rewrite records_incomplete; [|unfold incomplete; lia|done]. unfold truncation.
    destruct Htl as [[H ->]|[H ->]]; [by rewrite decide_True|by rewrite decide_False by lia].
Qed.

(** C12. [histogram] and [sample] never fail: they report the longest prefix of
    complete records, which [records] would return; the capture is fully parsed
    exactly when [records] accepts it; and the histogram counts every
    [type:length] shape. *)
Theorem histogram_agrees data :
  ∃ ws tl,
    data = encode_records ws ++ tl ∧ Forall wire_ok ws ∧
    records (encode_records ws) = Ok (map content ws) ∧
    sample_records data = map record_shape ws ∧
    first_records (histogram data) = take 24 (map record_shape ws) ∧
    parsed_bytes (histogram data) = length (encode_records ws) ∧
    (parsed_bytes (histogram data) = captured_bytes (histogram data) ↔
       is_ok (records data) = true) ∧
    ∀ k, default 0 (dict_get k (record_histogram (histogram data))) =
         occurrences k (map (λ r, str r.1 +:+ ":" +:+ str r.2) (map record_shape ws)).
Proof.
  destruct (decompose data) as (ws & tl & Hws & Htl & Hd). exists ws, tl.
  assert (scan data = (map record_shape ws, length (encode_records ws))) as Hs
    by (subst; by apply scan_encode).
  unfold histogram, sample_records. rewrite Hs. cbn. split_and!; try done.
  - rewrite <- (app_nil_r (encode_records ws)), records_encode by done.
    rewrite records_nil. cbn. by rewrite app_nil_r.
  - rewrite Hd, records_encode, length_app by done. destruct tl as [|b tl].
    + cbn. split; [done|lia].
    + rewrite records_incomplete by done. cbn. split; [lia|done].
  - intros k. apply counter_get.
Qed.

(** The sixteen reserved values of RFC 8701. *)
Definition grease_values : list Z := map (λ k, 0x0A0A + 0x1010 * k) (seqZ 0 16).

Definition grease_ok (v : Z) : bool :=
  grease v =? if bool_decide (v ∈ grease_values) then 0x0A0A else v.

(** Checked on every pair of bytes. *)
Lemma grease_all :
  forallb (λ hi, forallb (λ lo, grease_ok (256 * hi + lo)) (seqZ 0 256)) (seqZ 0 256) = true.
Proof. vm_compute. reflexivity. Qed.

Lemma grease_each v :
  0 <= v < 65536 → grease v = if bool_decide (v ∈ grease_values) then 0x0A0A else v.
Proof.
  intros Hv. pose proof grease_all as H.
  assert (0 <= v / 256 < 256) by (split; [apply Z.div_pos|apply Z.div_lt_upper_bound]; lia).
  pose proof (Z.mod_pos_bound v 256 eq_refl).
  rewrite forallb_forall in H. specialize (H (v / 256)).
  rewrite forallb_forall in H. specialize (λ a, H a (v mod 256)).
  rewrite <- Z.div_mod in H by lia.
  apply Z.eqb_eq, H; apply list_elem_of_In, elem_of_seqZ; lia.
Qed.

(** [grease] maps the sixteen reserved 16-bit values to one representative and
    is the identity on every other value; it is idempotent. *)
Theorem grease_spec v :
  0 <= v < 65536 →
  grease v = (if bool_decide (v ∈ grease_values) then 0x0A0A else v) ∧
  grease (grease v) = grease v.
Proof.
  intros Hv. split; [by apply grease_each|]. rewrite (grease_each v Hv).
  case_bool_decide as Hin; [done|]. rewrite (grease_each v Hv). by rewrite bool_decide_false.
Qed.

Lemma grease_spec_witness : grease 0x2A2A = 0x0A0A ∧ grease 0x1301 = 0x1301.
Proof.
  split.
  - refine (eq_trans (proj1 (grease_spec 0x2A2A _)) _); [lia|vm_compute; reflexivity].
  - refine (eq_trans (proj1 (grease_spec 0x1301 _)) _); [lia|vm_compute; reflexivity].
Defined.
