(* ===== verification/ClientHello.v ===== *)
(** * The ClientHello parser

    [hello] of [veil-core/scripts/reality_fingerprint.py], which
    [browser_hello.py] shares, and the authentication-tampering input of
    [probe.py].  The parser is checked against an encoder of well-formed
    ClientHello messages. *)

From S2P Require Import Prelude.
From S2P Require Import PyText.
From S2P Require Import PyBytes.
From S2P Require Import TlsRecord.

#[local] Open Scope Z_scope.

(** The value stored for an extension: key shares as [group, size] pairs, a list
    of 16-bit words, the marker ["variable"], or the hexadecimal text. *)
Inductive extension : Type :=
| Shares (l : list (Z * Z))
| Words (l : list Z)
| Variable_
| Hex (s : string).

Record profile := {
  legacy_version : string;
  ciphers : list Z;
  session_id_length : Z;
  compression : list Z;
  extension_ids : list Z;
  extensions : list (string * extension)
}.

Record hello_info := {
  hello_profile : profile;
  extension_order : list Z;
  extension_lengths : list (Z * Z);
  random_sha256 : string;
  session_id_sha256 : string;
  key_share_sha256 : list string;
  hello_bytes : Z
}.

(** The variables of the extension loop. *)
Record ext_state := {
  st_extensions : list (Z * extension);
  st_order : list Z;
  st_lengths : list (Z * Z);
  st_hashes : list string
}.

Definition sort_ids (l : list Z) : list Z := merge_sort Z.le l.

Definition fuel_error : exn := RuntimeError "unreachable".

Section hello.
Context (sha256 : bytes → string).

(** [while offset < len(value)] of the key-share extension. *)
Fixpoint shares_loop (fuel offset : nat) (value : bytes)
    (shares : list (Z * Z)) (hashes : list string) : result (list (Z * Z) * list string) :=
  if decide (offset < length value)%nat then
    match fuel with
    | O => Err fuel_error
    | S fuel =>
        let group := grease (from_be (slice offset (offset + 2) value)) in
        let size := from_be (slice (offset + 2) (offset + 4) value) in
        let public := slice (offset + 4) (offset + 4 + Z.to_nat size) value in
        raise_if (negb (zlen public =? size)) (ValueError "truncated key share");;
        shares_loop fuel (offset + (4 + Z.to_nat size)) value (shares ++ [(group, size)])
          (if group =? 0x0A0A then hashes else hashes ++ [sha256 public])
    end
  else Ok (shares, hashes).

(** The body of the extension loop on one extension. *)
Definition ext_body (typ : Z) (value : bytes) (st : ext_state) : result ext_state :=
  let st := {| st_extensions := st_extensions st;
               st_order := st_order st ++ [typ];
               st_lengths := dict_set typ (zlen value) (st_lengths st);
               st_hashes := st_hashes st |} in
  let store v hashes :=
    {| st_extensions := dict_set typ v (st_extensions st);
       st_order := st_order st; st_lengths := st_lengths st; st_hashes := hashes |} in
  if typ =? 0x0A0A then Ok st
  else if typ =? 51 then
    r ← shares_loop (length value) 2 value [] (st_hashes st);
    Ok (store (Shares r.1) r.2)
  else if (typ =? 10) || (typ =? 13) then
    ws ← words (drop 2 value); Ok (store (Words ws) (st_hashes st))
  else if typ =? 43 then
    ws ← words (drop 1 value); Ok (store (Words ws) (st_hashes st))
  else if (typ =? 21) || (typ =? 65037) then Ok (store Variable_ (st_hashes st))
  else Ok (store (Hex (hex value)) (st_hashes st)).

(** [while p < len(body)] *)
Fixpoint ext_loop (fuel p : nat) (body : bytes) (st : ext_state) : result ext_state :=
  if decide (p < length body)%nat then
    match fuel with
    | O => Err fuel_error
    | S fuel =>
        let typ := grease (from_be (slice p (p + 2) body)) in
        let n := from_be (slice (p + 2) (p + 4) body) in
        let value := slice (p + 4) (p + 4 + Z.to_nat n) body in
        raise_if (negb (zlen value =? n)) (ValueError "truncated extension");;
        st ← ext_body typ value st;
        ext_loop fuel (p + (4 + Z.to_nat n)) body st
    end
  else Ok st.

Definition hello (data : bytes) : result hello_info :=
  kind ← get_at data 0;
  raise_if (negb (byte_z kind =? 1) || negb (from_be (slice 1 4 data) =? zlen data - 4))
    (ValueError "expected one complete ClientHello");;
  let body := drop 4 data in
  let random := slice 2 34 body in
  sid_len ← get_at body 34;
  let sid_len := Z.to_nat (byte_z sid_len) in
  let sid := slice 35 (35 + sid_len) body in
  let p := (35 + sid_len)%nat in
  let n := Z.to_nat (from_be (slice p (p + 2) body)) in
  ciphers ← words (slice (p + 2) (p + 2 + n) body);
  let p := (p + (2 + n))%nat in
  n ← get_at body p;
  let n := Z.to_nat (byte_z n) in
  let compression := map byte_z (slice (p + 1) (p + 1 + n) body) in
  let p := (p + (1 + n))%nat in
  let n := Z.to_nat (from_be (slice p (p + 2) body)) in
  let p := (p + 2)%nat in
  raise_if (negb (p + n =? length body)%nat) (ValueError "extension length mismatch");;
  st ← ext_loop (length body) p body
         {| st_extensions := []; st_order := []; st_lengths := []; st_hashes := [] |};
  Ok {| hello_profile :=
          {| legacy_version := hex (take 2 body);
             ciphers := ciphers;
             session_id_length := Z.of_nat sid_len;
             compression := compression;
             extension_ids := sort_ids (st_order st);
             extensions := map (λ kv, (str kv.1, kv.2)) (st_extensions st) |};
        extension_order := st_order st;
        extension_lengths := st_lengths st;
        random_sha256 := sha256 random;
        session_id_sha256 := sha256 sid;
        key_share_sha256 := st_hashes st;
        hello_bytes := zlen data |}.

(** ** Specification: well-formed messages and what they should report *)

(** The extensions the parser tells apart. *)
Inductive ext_spec : Type :=
| XKeyShare (shares : list (Z * bytes))
| XList (typ : Z) (ws : list Z)
| XVersions (ws : list Z)
| XOpaque (typ : Z) (value : bytes).

Definition ext_type (x : ext_spec) : Z :=
  match x with
  | XKeyShare _ => 51 | XList typ _ => typ | XVersions _ => 43 | XOpaque typ _ => typ
  end.

Definition encode_share (s : Z * bytes) : bytes := u16 s.1 ++ u16 (zlen s.2) ++ s.2.
Definition encode_shares (l : list (Z * bytes)) : bytes := concat (map encode_share l).
Definition encode_words (ws : list Z) : bytes := concat (map u16 ws).

Definition ext_value (x : ext_spec) : bytes :=
  match x with
  | XKeyShare l => u16 (zlen (encode_shares l)) ++ encode_shares l
  | XList _ ws => u16 (zlen (encode_words ws)) ++ encode_words ws
  | XVersions ws => u8 (zlen (encode_words ws)) ++ encode_words ws
  | XOpaque _ v => v
  end.

Definition encode_ext (x : ext_spec) : bytes :=
  u16 (ext_type x) ++ u16 (zlen (ext_value x)) ++ ext_value x.
Definition encode_exts (xs : list ext_spec) : bytes := concat (map encode_ext xs).

Definition word_ok (z : Z) : Prop := 0 <= z < 65536.
Definition ext_ok (x : ext_spec) : Prop :=
  word_ok (ext_type x) ∧ zlen (ext_value x) < 65536 ∧
  match x with
  | XKeyShare l => Forall (λ s, word_ok s.1) l
  | XList typ ws => (typ = 10 ∨ typ = 13) ∧ Forall word_ok ws
  | XVersions ws => Forall word_ok ws
  | XOpaque typ _ => typ ∉ [10; 13; 43; 51]
  end.

Record client_hello := {
  ch_version : bytes;
  ch_random : bytes;
  ch_session_id : bytes;
  ch_ciphers : list Z;
  ch_compression : bytes;
  ch_extensions : list ext_spec
}.

Definition encode_body (ch : client_hello) : bytes :=
  ch_version ch ++ ch_random ch ++
  u8 (zlen (ch_session_id ch)) ++ ch_session_id ch ++
  u16 (zlen (encode_words (ch_ciphers ch))) ++ encode_words (ch_ciphers ch) ++
  u8 (zlen (ch_compression ch)) ++ ch_compression ch ++
  u16 (zlen (encode_exts (ch_extensions ch))) ++ encode_exts (ch_extensions ch).
Definition encode_hello (ch : client_hello) : bytes :=
  u8 1 ++ u24 (zlen (encode_body ch)) ++ encode_body ch.

Definition hello_ok (ch : client_hello) : Prop :=
  length (ch_version ch) = 2%nat ∧ length (ch_random ch) = 32%nat ∧
  zlen (ch_session_id ch) < 256 ∧
  Forall word_ok (ch_ciphers ch) ∧ zlen (encode_words (ch_ciphers ch)) < 65536 ∧
  zlen (ch_compression ch) < 256 ∧
  Forall ext_ok (ch_extensions ch) ∧ zlen (encode_exts (ch_extensions ch)) < 65536.

(** What [hello] should say about one extension. *)
Definition ext_view (x : ext_spec) : extension :=
  match x with
  | XKeyShare l => Shares (map (λ s, (grease s.1, zlen s.2)) l)
  | XList _ ws => Words (map grease ws)
  | XVersions ws => Words (map grease ws)
  | XOpaque typ v => if bool_decide (typ ∈ [21; 65037]) then Variable_ else Hex (hex v)
  end.
Definition share_hashes (l : list (Z * bytes)) : list string :=
  map (λ s, sha256 s.2) (filter (λ s, grease s.1 ≠ 0x0A0A) l).
Definition ext_hashes (x : ext_spec) : list string :=
  match x with XKeyShare l => share_hashes l | _ => [] end.

Definition step_spec (st : ext_state) (x : ext_spec) : ext_state :=
  let typ := grease (ext_type x) in
  {| st_extensions :=
       if typ =? 0x0A0A then st_extensions st
       else dict_set typ (ext_view x) (st_extensions st);
     st_order := st_order st ++ [typ];
     st_lengths := dict_set typ (zlen (ext_value x)) (st_lengths st);
     st_hashes := st_hashes st ++ ext_hashes x |}.

Definition describe (ch : client_hello) : hello_info :=
  let st := fold_left step_spec (ch_extensions ch)
              {| st_extensions := []; st_order := []; st_lengths := []; st_hashes := [] |} in
  {| hello_profile :=
       {| legacy_version := hex (ch_version ch);
          ciphers := map grease (ch_ciphers ch);
          session_id_length := zlen (ch_session_id ch);
          compression := map byte_z (ch_compression ch);
          extension_ids := sort_ids (st_order st);
          extensions := map (λ kv, (str kv.1, kv.2)) (st_extensions st) |};
     extension_order := st_order st;
     extension_lengths := st_lengths st;
     random_sha256 := sha256 (ch_random ch);
     session_id_sha256 := sha256 (ch_session_id ch);
     key_share_sha256 := st_hashes st;
     hello_bytes := zlen (encode_hello ch) |}.

(** ** Lemmas *)
Lemma slice_pre {A} (pre l : list A) i j k m :
  i = (length pre + k)%nat → j = (length pre + m)%nat →
  slice i j (pre ++ l) = slice k m l.
Proof. intros -> ->. by rewrite slice_drop, drop_app_length. Qed.

Lemma words_encode ws : Forall word_ok ws → words (encode_words ws) = Ok (map grease ws).
Proof.
  intros H. unfold words.
  assert (Nat.odd (length (encode_words ws)) = false) as ->.
  { induction ws as [|w ws IH]; [done|]. inversion H; subst. by apply IH. }
  cbn. f_equal. induction H as [|w ws Hw H IH]; [done|].
  unfold encode_words in *. cbn -[from_be]. rewrite IH. f_equal.
  fold (u16 w). by rewrite from_be_u16.
Qed.

Lemma shares_loop_encode fuel pre l shares hashes :
  Forall (λ s, word_ok s.1 ∧ zlen s.2 < 65536) l →
  (length (encode_shares l) ≤ fuel)%nat →
  shares_loop fuel (length pre) (pre ++ encode_shares l) shares hashes =
  Ok (shares ++ map (λ s, (grease s.1, zlen s.2)) l, hashes ++ share_hashes l).
Proof.
  intros Hl. revert fuel pre shares hashes.
  induction Hl as [|[g pub] l [Hg Hp] Hl IH]; intros fuel pre shares hashes Hf.
  - unfold encode_shares, share_hashes. cbn. rewrite !app_nil_r.
    destruct fuel; simpl; by rewrite decide_False by lia.
  - unfold encode_shares in *. cbn [map concat] in *. set (tl := concat _) in *.
    unfold encode_share at 1 in Hf. unfold encode_share at 1. cbn [fst snd] in *.
    rewrite !length_app, !u16_length in Hf. destruct fuel as [|fuel]; [lia|].
    cbn [shares_loop]. rewrite decide_True by (rewrite !length_app, !u16_length; lia).
    rewrite <- !app_assoc.
    rewrite (slice_pre pre _ (length pre) (length pre + 2) 0 2) by lia.
    rewrite (slice_pre pre _ (length pre + 2) (length pre + 4) 2 4) by lia.
    change (slice 0 2 (u16 g ++ u16 (zlen pub) ++ pub ++ tl)) with (u16 g).
    change (slice 2 4 (u16 g ++ u16 (zlen pub) ++ pub ++ tl)) with (u16 (zlen pub)).
    assert (0 <= zlen pub < 65536) as Hv by (split; [unfold zlen; lia|done]).
    rewrite !from_be_u16 by done.
    assert (Z.to_nat (zlen pub) = length pub) as Hvn by (unfold zlen; lia). rewrite Hvn.
    rewrite (slice_pre pre _ (length pre + 4) (length pre + 4 + length pub) 4 (4 + length pub)) by lia.
    rewrite (app_assoc (u16 g)), (slice_app_exact 4 _ (u16 g ++ _)) by (done || lia).
    rewrite Z.eqb_refl. cbn [negb raise_if mbind result_bind].
    replace (length pre + (4 + length pub))%nat
      with (length (pre ++ (u16 g ++ u16 (zlen pub)) ++ pub))
      by (rewrite !length_app, !u16_length; lia).
    replace (pre ++ (u16 g ++ u16 (zlen pub)) ++ pub ++ tl)
      with ((pre ++ (u16 g ++ u16 (zlen pub)) ++ pub) ++ tl) by (by rewrite <- !app_assoc).
    rewrite IH by lia. unfold share_hashes. rewrite filter_cons. cbn [map fst snd].
    rewrite <- app_assoc. destruct (Z.eqb_spec (grease g) 0x0A0A) as [Hge|Hge].
    + rewrite decide_False by (intros H; by apply H). done.
    + rewrite decide_True by done. cbn [map snd]. by rewrite <- app_assoc.
Qed.

Lemma encode_shares_ok l :
  zlen (encode_shares l) < 65536 → Forall (λ s, zlen s.2 < 65536) l.
Proof.
  unfold encode_shares, zlen. induction l as [|[g pub] l IH]; intros H; [constructor|].
  cbn [map concat] in H. unfold encode_share at 1 in H. rewrite !length_app in H. cbn in H.
  constructor; [cbn; lia|]. apply IH. lia.
Qed.

Lemma grease_small v : 0 <= v < 65536 → v ∉ grease_values → grease v = v.
Proof. intros Hv Hn. rewrite grease_each by done. by rewrite bool_decide_false. Qed.

Lemma grease_fixed v : 0 <= v < 65536 → grease v = v ∨ grease v = 0x0A0A.
Proof. intros Hv. rewrite grease_each by done. case_bool_decide; auto. Qed.

Lemma ext_body_spec x st :
  ext_ok x → ext_body (grease (ext_type x)) (ext_value x) st = Ok (step_spec st x).
Proof.
  intros (Ht & Hlen & Hx). unfold ext_body, step_spec.
  destruct x as [l|typ ws|ws|typ v]; cbn [ext_type ext_value ext_hashes ext_view] in *.
  - change (grease 51) with 51. cbn [Z.eqb Pos.eqb].
    assert (zlen (encode_shares l) < 65536) as Hl
      by (unfold zlen in *; rewrite length_app in Hlen; lia).
    pose proof (shares_loop_encode (length (u16 (zlen (encode_shares l)) ++ encode_shares l))
      (u16 (zlen (encode_shares l))) l [] (st_hashes st)) as H.
    rewrite u16_length in H. cbn [st_hashes]. rewrite H.
    + done.
    + apply encode_shares_ok in Hl. rewrite Forall_forall in *. auto.
    + rewrite length_app. lia.
  - destruct Hx as [Htyp Hws]. rewrite app_nil_r.
    assert (drop 2 (u16 (zlen (encode_words ws)) ++ encode_words ws) = encode_words ws)
      as Hd by done.
    destruct Htyp as [-> | ->].
    all: change (grease 10) with 10 || change (grease 13) with 13.
    all: cbn [Z.eqb Pos.eqb orb]; by rewrite Hd, words_encode.
  - rewrite app_nil_r. change (grease 43) with 43. cbn [Z.eqb Pos.eqb orb].
    assert (drop 1 (u8 (zlen (encode_words ws)) ++ encode_words ws) = encode_words ws)
      as -> by done.
    by rewrite words_encode.
  - rewrite app_nil_r. destruct (Z.eqb_spec (grease typ) 0x0A0A) as [|Hge]; [done|].
    destruct (grease_fixed typ Ht) as [Hg|]; [|done]. rewrite Hg.
    rewrite !not_elem_of_cons in Hx. destruct Hx as (H10 & H13 & H43 & H51 & _).
    apply Z.eqb_neq in H10, H13, H43, H51. rewrite H10, H13, H43, H51. cbn [orb].
    destruct (Z.eqb_spec typ 21) as [->|H21]; [done|].
    destruct (Z.eqb_spec typ 65037) as [->|H65]; [done|]. cbn [orb].
    by rewrite bool_decide_false by (by intros [?|[?|?%not_elem_of_nil]%elem_of_cons]%elem_of_cons).
Qed.

Lemma ext_loop_encode fuel pre xs st :
  Forall ext_ok xs → (length (encode_exts xs) ≤ fuel)%nat →
  ext_loop fuel (length pre) (pre ++ encode_exts xs) st = Ok (fold_left step_spec xs st).
Proof.
  intros Hxs. revert fuel pre st.
  induction Hxs as [|x xs Hx Hxs IH]; intros fuel pre st Hf.
  - unfold encode_exts. cbn. rewrite app_nil_r.
    destruct fuel; simpl; by rewrite decide_False by lia.
  - unfold encode_exts in *. cbn [map concat] in *. set (tl := concat _) in *.
    unfold encode_ext at 1 in Hf. unfold encode_ext at 1. set (v := ext_value x) in *.
    rewrite !length_app, !u16_length in Hf. destruct fuel as [|fuel]; [lia|].
    cbn [ext_loop]. rewrite decide_True by (rewrite !length_app, !u16_length; lia).
    rewrite <- !app_assoc.
    rewrite (slice_pre pre _ (length pre) (length pre + 2) 0 2) by lia.
    rewrite (slice_pre pre _ (length pre + 2) (length pre + 4) 2 4) by lia.
    change (slice 0 2 (u16 (ext_type x) ++ u16 (zlen v) ++ v ++ tl)) with (u16 (ext_type x)).
    change (slice 2 4 (u16 (ext_type x) ++ u16 (zlen v) ++ v ++ tl)) with (u16 (zlen v)).
    assert (0 <= zlen v < 65536) as Hv by (split; [unfold zlen; lia|apply Hx]).
    rewrite !from_be_u16 by (apply Hx || done).
    assert (Z.to_nat (zlen v) = length v) as Hvn by (unfold zlen; lia). rewrite Hvn.
    rewrite (slice_pre pre _ (length pre + 4) (length pre + 4 + length v) 4 (4 + length v)) by lia.
    rewrite (app_assoc (u16 (ext_type x))).
    rewrite (slice_app_exact 4 _ (u16 (ext_type x) ++ _)) by (done || lia).
    rewrite Z.eqb_refl. cbn [negb raise_if mbind result_bind].
    rewrite (ext_body_spec x st Hx : ext_body _ v st = _).
    cbn [fold_left mbind result_bind].
    replace (length pre + (4 + length v))%nat
      with (length (pre ++ (u16 (ext_type x) ++ u16 (zlen v)) ++ v))
      by (rewrite !length_app, !u16_length; lia).
    replace (pre ++ (u16 (ext_type x) ++ u16 (zlen v)) ++ v ++ tl)
      with ((pre ++ (u16 (ext_type x) ++ u16 (zlen v)) ++ v) ++ tl)
      by (by rewrite <- !app_assoc).
    apply IH. lia.
Qed.

(** The fields of the body, in wire order. *)
Definition body_fields (ch : client_hello) : list bytes :=
  [ ch_version ch; ch_random ch;
    u8 (zlen (ch_session_id ch)); ch_session_id ch;
    u16 (zlen (encode_words (ch_ciphers ch))); encode_words (ch_ciphers ch);
    u8 (zlen (ch_compression ch)); ch_compression ch;
    u16 (zlen (encode_exts (ch_extensions ch))); encode_exts (ch_extensions ch) ].

Lemma encode_body_fields ch : encode_body ch = concat (body_fields ch).
Proof. unfold body_fields. cbn [concat]. by rewrite app_nil_r. Qed.

(** Reading the [k]-th field of a concatenation by position. *)
Lemma concat_middle (ls : list bytes) k x :
  ls !! k = Some x → concat ls = concat (take k ls) ++ x ++ concat (drop (S k) ls).
Proof.
  intros Hk. rewrite <- (take_drop_middle ls k x Hk) at 1. by rewrite List.concat_app.
Qed.

Lemma slice_field (ls : list bytes) k x i j :
  ls !! k = Some x → i = length (concat (take k ls)) → j = (i + length x)%nat →
  slice i j (concat ls) = x.
Proof.
  intros Hk -> ->. rewrite (concat_middle ls k x Hk). apply slice_app_exact; [done|lia].
Qed.

Lemma get_at_field (ls : list bytes) k b i :
  ls !! k = Some [b] → i = length (concat (take k ls)) → get_at (concat ls) i = Ok b.
Proof.
  intros Hk ->. rewrite (concat_middle ls k _ Hk). unfold get_at. cbn [app].
  by rewrite list_lookup_middle.
Qed.

Lemma encode_body_bound ch : hello_ok ch → zlen (encode_body ch) < 16777216.
Proof.
  intros (Hv & Hr & Hs & _ & Hc & Hp & _ & Hx). unfold encode_body, zlen in *.
  rewrite !length_app, !u16_length, Hv, Hr. cbn [length u8]. lia.
Qed.

(** The parser on the body of a well-formed message. *)
Lemma hello_fields ch :
  hello_ok ch →
  let body := encode_body ch in
  let ls := length (ch_session_id ch) in
  let lc := length (encode_words (ch_ciphers ch)) in
  let lp := length (ch_compression ch) in
  take 2 body = ch_version ch ∧ slice 2 34 body = ch_random ch ∧
  get_at body 34 = Ok (z_byte (zlen (ch_session_id ch))) ∧
  slice 35 (35 + ls) body = ch_session_id ch ∧
  slice (35 + ls) (35 + ls + 2) body = u16 (zlen (encode_words (ch_ciphers ch))) ∧
  slice (35 + ls + 2) (35 + ls + 2 + lc) body = encode_words (ch_ciphers ch) ∧
  get_at body (35 + ls + (2 + lc)) = Ok (z_byte (zlen (ch_compression ch))) ∧
  slice (35 + ls + (2 + lc) + 1) (35 + ls + (2 + lc) + 1 + lp) body = ch_compression ch ∧
  slice (35 + ls + (2 + lc) + (1 + lp)) (35 + ls + (2 + lc) + (1 + lp) + 2) body =
    u16 (zlen (encode_exts (ch_extensions ch))) ∧
  (35 + ls + (2 + lc) + (1 + lp) + 2 + length (encode_exts (ch_extensions ch)) =
    length body)%nat.
Proof.
  intros (Hv & Hr & _). cbv zeta. rewrite encode_body_fields.
  assert (Hp : ∀ k, length (concat (take k (body_fields ch))) =
    sum_list (length <$> take k (body_fields ch))).
  { intros k. induction (take k (body_fields ch)) as [|x l IH]; [done|].
    cbn. by rewrite length_app, IH. }
  split_and!.
  - rewrite <- (drop_0 (concat _)). apply (slice_field _ 0 _ 0 2); [done|done|by rewrite Hv].
  - apply (slice_field _ 1); [done| |lia]. rewrite Hp. cbn. lia.
  - apply (get_at_field _ 2); [done|]. rewrite Hp. cbn. lia.
  - apply (slice_field _ 3); [done| |done]. rewrite Hp. cbn. lia.
  - apply (slice_field _ 4); [done| |done]. rewrite Hp. cbn. lia.
  - apply (slice_field _ 5); [done| |done]. rewrite Hp. cbn. lia.
  - apply (get_at_field _ 6); [done|]. rewrite Hp. cbn. lia.
  - apply (slice_field _ 7); [done| |done]. rewrite Hp. cbn. lia.
  - apply (slice_field _ 8); [done| |done]. rewrite Hp. cbn. lia.
  - rewrite <- (take_ge (body_fields ch) 10) at 1 by done. rewrite Hp. cbn. lia.
Qed.

Lemma byte_z_len (l : bytes) : zlen l < 256 → Z.to_nat (byte_z (z_byte (zlen l))) = length l.
Proof. intros H. unfold zlen in *. rewrite byte_z_small by lia. lia. Qed.

Lemma u16_len (l : bytes) : zlen l < 65536 → Z.to_nat (from_be (u16 (zlen l))) = length l.
Proof. intros H. unfold zlen in *. rewrite from_be_u16 by lia. lia. Qed.

(** C1. [hello] reads back every well-formed ClientHello: it reports exactly the
    fields of the message it was given - version, session id length, GREASE-normalised
    cipher suites and extension lists, extension order and lengths, key-share groups,
    and the digests of the random, the session id and every non-GREASE key share. *)
Theorem hello_encode ch : hello_ok ch → hello (encode_hello ch) = Ok (describe ch).
Proof.
  intros Hok. pose proof (encode_body_bound ch Hok) as Hb.
  pose proof (hello_fields ch Hok) as (Hver & Hran & Hsl & Hsid & Hcl & Hcs & Hpl & Hps & Hxl & Hend).
  destruct Hok as (_ & _ & Hs & Hcw & Hc & Hp & Hxs & Hx).
  assert (zlen (encode_hello ch) - 4 = zlen (encode_body ch)) as Hlen.
  { unfold encode_hello, zlen. rewrite !length_app. cbn. lia. }
  unfold hello. cbv zeta. change (get_at (encode_hello ch) 0) with (Ok (z_byte 1)).
  change (slice 1 4 (encode_hello ch)) with (u24 (zlen (encode_body ch))).
  change (drop 4 (encode_hello ch)) with (encode_body ch).
  cbn [mbind result_bind]. rewrite from_be_u24 by (unfold zlen in *; lia).
  change (byte_z Byte.x01 =? 1) with true. rewrite Hlen, (Z.eqb_refl (zlen (encode_body ch))).
  cbn [negb orb raise_if mbind result_bind].
  rewrite Hran, Hsl. cbn [mbind result_bind].
  rewrite byte_z_len, Hsid, Hcl, u16_len, Hcs, words_encode by done.
  cbn [mbind result_bind]. rewrite Hpl. cbn [mbind result_bind].
  rewrite byte_z_len, Hps, Hxl, u16_len, Hend, Nat.eqb_refl by done.
  cbn [negb raise_if mbind result_bind].
  rewrite encode_body_fields in *. 
  set (pre := concat (take 9 (body_fields ch))).
  assert (concat (body_fields ch) = pre ++ encode_exts (ch_extensions ch)) as Hpre.
  { unfold pre, body_fields. cbn [take concat]. by rewrite <- !app_assoc, !app_nil_r. }
  rewrite Hpre, length_app in Hend |- *.
  replace (_ + _ + _ + _ + 2)%nat with (length pre) by lia.
  rewrite ext_loop_encode by (done || lia). cbn [mbind result_bind].
  rewrite <- Hpre, Hver. unfold describe. cbv zeta. reflexivity.
Qed.

(** *** Totality *)
Definition data_error (e : exn) : Prop := is_value_error e = true ∨ e = IndexError.

Lemma words_data_error l e : words l = Err e → data_error e.
Proof. unfold words. destruct (Nat.odd _); cbn; [|done]. intros [= <-]. by left. Qed.

Lemma shares_loop_total fuel offset value shares hashes e :
  (length value - offset ≤ fuel)%nat →
  shares_loop fuel offset value shares hashes = Err e → data_error e.
Proof.
  revert offset shares hashes. induction fuel as [|fuel IH]; intros offset shares hashes Hf.
  - simpl. rewrite decide_False by lia. done.
  - cbn [shares_loop]. case_decide; [|done]. cbv zeta.
    destruct (zlen _ =? _); cbn [negb raise_if mbind result_bind].
    + apply IH. lia.
    + intros [= <-]. by left.
Qed.

Lemma ext_body_total typ value st e : ext_body typ value st = Err e → data_error e.
Proof.
  unfold ext_body. repeat (case_match; [try done|]); try done.
  - destruct (shares_loop _ _ _ _ _) eqn:Hs; cbn; [done|]. intros [= <-].
    apply shares_loop_total in Hs; [done|lia].
  - destruct (words _) eqn:Hw; cbn; [done|]. intros [= <-]. by eapply words_data_error.
  - destruct (words _) eqn:Hw; cbn; [done|]. intros [= <-]. by eapply words_data_error.
Qed.

Lemma ext_loop_total fuel p body st e :
  (length body - p ≤ fuel)%nat → ext_loop fuel p body st = Err e → data_error e.
Proof.
  revert p st. induction fuel as [|fuel IH]; intros p st Hf.
  - simpl. rewrite decide_False by lia. done.
  - cbn [ext_loop]. case_decide; [|done]. cbv zeta.
    destruct (zlen _ =? _); cbn [negb raise_if mbind result_bind].
    + destruct (ext_body _ _ _) eqn:Hb; cbn [mbind result_bind].
      * apply IH. lia.
      * intros [= <-]. by eapply ext_body_total.
    + intros [= <-]. by left.
Qed.

(** C13. [hello] terminates on every input, with a result, a [ValueError] or (for a
    message cut before its length bytes) an [IndexError]: the loops over the
    extensions and the key shares always advance. *)
Theorem hello_total data e : hello data = Err e → data_error e.
Proof.
  unfold hello, get_at. cbv zeta.
  destruct (data !! 0%nat); [|intros [= <-]; by right]. cbn [mbind result_bind].
  destruct (_ || _); [intros [= <-]; by left|]. cbn [raise_if mbind result_bind].
  destruct (drop 4 data !! 34%nat); [|intros [= <-]; by right]. cbn [mbind result_bind].
  destruct (words _) eqn:Hw; [|intros [= <-]; by eapply words_data_error].
  cbn [mbind result_bind].
  destruct (_ !! _); [|intros [= <-]; by right]. cbn [mbind result_bind].
  destruct (negb _); [intros [= <-]; by left|]. cbn [raise_if mbind result_bind].
  destruct (ext_loop _ _ _ _) eqn:Hl; cbn [mbind result_bind]; [done|].
  intros [= <-]. eapply ext_loop_total; [|exact Hl]. lia.
Qed.
End hello.

(** ** The tampered input of [run_profile]

    [hello = captured[: 5 + int.from_bytes(captured[3:5], "big")]], its guard, and
    [changed[44] ^= 1]. *)
Definition captured_hello (captured : bytes) : result bytes :=
  let hello := take (5 + Z.to_nat (from_be (slice 3 5 captured))) captured in
  raise_if (bool_decide (length hello < 71)%nat) (RuntimeError "no captured ClientHello");;
  kind ← get_at hello 0;
  raise_if (negb (byte_z kind =? 22)) (RuntimeError "no captured ClientHello");;
  Ok hello.

Definition flip_bit (b : Byte.byte) : Byte.byte := z_byte (Z.lxor (byte_z b) 1).
Definition modified_auth (hello : bytes) : result bytes :=
  b ← get_at hello 44; Ok (<[44%nat := flip_bit b]> hello).

Definition with_session_id (ch : client_hello) (sid : bytes) : client_hello :=
  {| ch_version := ch_version ch; ch_random := ch_random ch; ch_session_id := sid;
     ch_ciphers := ch_ciphers ch; ch_compression := ch_compression ch;
     ch_extensions := ch_extensions ch |}.

Definition hello_record (version : bytes) (ch : client_hello) : wire_record :=
  {| wr_type := 22; wr_version := version; wr_payload := encode_hello ch |}.

Lemma flip_bit_ne b : flip_bit b ≠ b.
Proof. by destruct b. Qed.

Lemma hello_record_split version ch :
  length version = 2%nat → length (ch_version ch) = 2%nat → length (ch_random ch) = 32%nat →
  ∃ pre post, length pre = 44%nat ∧
    ∀ sid, length sid = length (ch_session_id ch) →
      encode_record (hello_record version (with_session_id ch sid)) = pre ++ sid ++ post.
Proof.
  intros Hv Hcv Hr.
  exists (u8 22 ++ version ++ u16 (zlen (encode_hello ch)) ++
          u8 1 ++ u24 (zlen (encode_body ch)) ++ ch_version ch ++ ch_random ch ++
          u8 (zlen (ch_session_id ch))).
  eexists. split.
  { rewrite !length_app, Hv, Hcv, Hr. done. }
  intros sid Hs.
  assert (zlen sid = zlen (ch_session_id ch)) as Hz by (unfold zlen; by rewrite Hs).
  assert (zlen (encode_body (with_session_id ch sid)) = zlen (encode_body ch)) as Hb.
  { unfold encode_body, zlen. cbn [ch_session_id with_session_id]. rewrite !length_app. cbn.
    rewrite Hs. done. }
  assert (zlen (encode_hello (with_session_id ch sid)) = zlen (encode_hello ch)) as Hh.
  { unfold encode_hello, zlen in *. apply Nat2Z.inj in Hb. by rewrite !length_app, Hb. }
  unfold encode_record, hello_record. cbn [wr_type wr_version wr_payload]. rewrite Hh.
  unfold encode_hello at 2. rewrite Hb. unfold encode_body at 2.
  cbn [ch_version ch_random ch_session_id ch_ciphers ch_compression ch_extensions with_session_id].
  rewrite Hz, <- !app_assoc. change (z_byte 22 :: ?x) with (u8 22 ++ x). reflexivity.
Qed.

(** C11. The tampered probe of [run_profile] changes the session id (where REALITY
    carries its authentication) and nothing else: byte 44 of the captured record is
    the first byte of the session id, the modified record is the ClientHello with
    that byte changed, and [hello] reports the same profile, extension order, random
    and key shares for it. *)
Theorem modified_auth_session_id sha256 version ch b sid tl :
  length version = 2%nat → hello_ok ch → ch_session_id ch = b :: sid →
  zlen (encode_hello ch) < 65536 → (66 ≤ length (encode_hello ch))%nat →
  let ch' := with_session_id ch (flip_bit b :: sid) in
  captured_hello (encode_record (hello_record version ch) ++ tl) =
    Ok (encode_record (hello_record version ch)) ∧
  modified_auth (encode_record (hello_record version ch)) =
    Ok (encode_record (hello_record version ch')) ∧
  ch_session_id ch' ≠ ch_session_id ch ∧
  ∃ i i', hello sha256 (encode_hello ch) = Ok i ∧ hello sha256 (encode_hello ch') = Ok i' ∧
    hello_profile i' = hello_profile i ∧ extension_order i' = extension_order i ∧
    random_sha256 i' = random_sha256 i ∧ key_share_sha256 i' = key_share_sha256 i.
Proof.
  intros Hver Hok Hsid Hlen Hmin ch'.
  assert (zlen (flip_bit b :: sid) = zlen (ch_session_id ch)) as Hz by by rewrite Hsid.
  assert (hello_ok ch') as Hok'.
  { destruct Hok as (?&?&Hs&?&?&?&?&?). unfold hello_ok, ch'. cbn. split_and!; try done.
    by rewrite Hz. }
  assert (wire_ok (hello_record version ch)) as Hw by (split; [cbn; lia|split; [done|done]]).
  pose proof (encode_record_length _ Hw) as Hrl. cbn [wr_payload hello_record] in Hrl.
  destruct (hello_record_split version ch) as (pre & post & Hpre & Hsplit);
    [done|apply Hok|apply Hok|].
  assert (with_session_id ch (b :: sid) = ch) as Hsame by (rewrite <- Hsid; by destruct ch).
  pose proof (Hsplit (b :: sid) ltac:(by rewrite Hsid)) as Hrec. rewrite Hsame in Hrec.
  pose proof (Hsplit (flip_bit b :: sid) ltac:(by rewrite Hsid)) as Hrec'.
  fold ch' in Hrec'.
  split_and!.
  - unfold captured_hello. rewrite encode_record_header by done. cbn [wr_payload hello_record].
    rewrite u16_len by done.
    replace (take _ _) with (encode_record (hello_record version ch))
      by (symmetry; by apply take_app_length').
    cbv zeta. rewrite bool_decide_false by lia. cbn [raise_if mbind result_bind]. done.
  - unfold modified_auth, get_at. rewrite Hrec, Hrec'. cbn [app].
    rewrite (list_lookup_middle pre _ b) by done. cbn [mbind result_bind].
    by rewrite insert_app_r_alt, Hpre by lia.
  - unfold ch'. cbn. rewrite Hsid. intros [= H]. by apply flip_bit_ne in H.
  - exists (describe sha256 ch), (describe sha256 ch'). split_and!; try by apply hello_encode.
    all: try done. unfold describe, ch'. cbn. by rewrite Hz.
Qed.

(** *** A malformed message the parser accepts

    The extension loop checks the length of an extension's value, not that its
    four-byte header is complete. *)
Definition short_extension : bytes :=
  let body := u16 0x0303 ++ replicate 32 Byte.x00 ++ u8 0 ++ u16 2 ++ u16 0x1301 ++
              u8 1 ++ u8 0 ++ u16 1 ++ u8 5 in
  u8 1 ++ u24 (zlen body) ++ body.

(** A one-byte extension block, which no ClientHello can have, is accepted as
    an empty extension whose type is that byte. *)
Theorem hello_accepts_short_extension sha256 :
  ∃ i, hello sha256 short_extension = Ok i ∧ extension_order i = [5] ∧
       extension_lengths i = [(5, 0)].
Proof. eexists. split; [reflexivity|]. split; reflexivity. Qed.

(** ** A sample message *)
Definition sample_hello : client_hello :=
  {| ch_version := u16 0x0303; ch_random := replicate 32 Byte.x01;
     ch_session_id := replicate 32 Byte.x02; ch_ciphers := [0x1A1A; 0x1301; 0x1302];
     ch_compression := u8 0;
     ch_extensions := [ XOpaque 0 (u8 7); XList 10 [0x2A2A; 29]; XVersions [0x0304];
       XKeyShare [(0x2A2A, u8 0); (29, replicate 32 Byte.x03)] ] |}.

Lemma sample_hello_ok : hello_ok sample_hello.
Proof.
  unfold hello_ok, sample_hello, ext_ok, word_ok. cbn [ch_version ch_random ch_session_id ch_ciphers
    ch_compression ch_extensions]. split_and!; try (vm_compute; reflexivity);
  repeat constructor; try (vm_compute; congruence); set_solver.
Qed.

Lemma hello_encode_witness :
  hello_profile <$> hello hex (encode_hello sample_hello) =
    Ok (hello_profile (describe hex sample_hello)).
Proof. rewrite (hello_encode hex sample_hello sample_hello_ok). reflexivity. Defined.

Lemma hello_total_witness : data_error (ValueError "expected one complete ClientHello") ∧ data_error IndexError.
Proof.
  split.
  - apply (hello_total hex [Byte.x02]). vm_compute. reflexivity.
  - apply (hello_total hex []). vm_compute. reflexivity.
Defined.

Lemma modified_auth_witness :
  modified_auth (encode_record (hello_record (u16 0x0301) sample_hello)) =
    Ok (encode_record (hello_record (u16 0x0301)
          (with_session_id sample_hello (flip_bit Byte.x02 :: replicate 31 Byte.x02)))).
Proof.
  refine (proj1 (proj2 (modified_auth_session_id hex (u16 0x0301) sample_hello Byte.x02
    (replicate 31 Byte.x02) [] _ sample_hello_ok _ _ _))).
  - reflexivity.
  - reflexivity.
  - vm_compute. reflexivity.
  - apply Nat.leb_le. vm_compute. reflexivity.
Defined.
