(* ===== verification/Json.v ===== *)
(** * JSON values: [json.dumps] and [json.loads]

    Values, the printer of the [json] module (compact and indented, ASCII output,
    optionally with sorted keys) and its parser.  A number that is not an integer
    literal is kept as its token. *)

From S2P Require Import Prelude.
From S2P Require Import PyText.
From S2P Require Import PyBytes.
From Stdlib Require Import Ascii.
Open Scope Z_scope.

Inductive json : Type :=
| JNull
| JBool (b : bool)
| JNum (z : Z)
| JReal (token : string)
| JStr (s : string)
| JArr (l : list json)
| JObj (kvs : list (string * json)).

(** ** Access: [v[k]], [v.get(k)], iteration *)
Definition jitem (k : string) (v : json) : result json :=
  match v with
  | JObj kvs => match dict_get k kvs with Some x => Ok x | None => Err (KeyError k) end
  | _ => Err TypeError
  end.
Definition jset (k : string) (x : json) (v : json) : result json :=
  match v with JObj kvs => Ok (JObj (dict_set k x kvs)) | _ => Err TypeError end.
Definition jstr (v : json) : result string :=
  match v with JStr s => Ok s | _ => Err TypeError end.
Definition jarr (v : json) : result (list json) :=
  match v with JArr l => Ok l | _ => Err TypeError end.
Definition jobj (v : json) : result (list (string * json)) :=
  match v with JObj kvs => Ok kvs | _ => Err TypeError end.

(** [v == "s"], [v is False]. *)
Definition equals_text (s : string) (v : json) : bool :=
  match v with JStr t => String.eqb t s | _ => false end.
Definition is_false (v : json) : bool := match v with JBool false => true | _ => false end.

(** ** Printing *)

(** The code points of UTF-8 text; a byte that starts no sequence stands for itself. *)
Definition cont (c : ascii) : N := N.land (N_of_ascii c) 63.
Fixpoint utf8 (s : string) : list N :=
  match s with
  | "" => []
  | String a s1 =>
      let n := N_of_ascii a in
      if (n <? 128)%N then n :: utf8 s1
      else match s1 with
      | "" => [n]
      | String b s2 =>
          if (n <? 224)%N then (N.land n 31 * 64 + cont b)%N :: utf8 s2
          else match s2 with
          | "" => [n]
          | String c s3 =>
              if (n <? 240)%N then (N.land n 15 * 4096 + cont b * 64 + cont c)%N :: utf8 s3
              else match s3 with
              | "" => [n]
              | String d s4 =>
                  (N.land n 7 * 262144 + cont b * 4096 + cont c * 64 + cont d)%N :: utf8 s4
              end
          end
      end
  end.

Definition hex4 (n : N) : string :=
  String (hex_digit (n / 4096 mod 16)) (String (hex_digit (n / 256 mod 16))
    (String (hex_digit (n / 16 mod 16)) (String (hex_digit (n mod 16)) ""))).
Definition u_escape (n : N) : string := backslash +:+ "u" +:+ hex4 n.

Definition escape_code (n : N) : string :=
  if (n =? 34)%N then backslash +:+ dquote
  else if (n =? 92)%N then backslash +:+ backslash
  else if (n =? 10)%N then backslash +:+ "n"
  else if (n =? 13)%N then backslash +:+ "r"
  else if (n =? 9)%N then backslash +:+ "t"
  else if (n =? 8)%N then backslash +:+ "b"
  else if (n =? 12)%N then backslash +:+ "f"
  else if (32 <=? n)%N && (n <=? 126)%N then String (ascii_of_N n) ""
  else if (n <? 65536)%N then u_escape n
  else let m := (n - 65536)%N in
       u_escape (55296 + m / 1024) +:+ u_escape (56320 + m mod 1024).

Definition quote (s : string) : string :=
  dquote +:+ join "" (map escape_code (utf8 s)) +:+ dquote.

Fixpoint spaces (n : nat) : string :=
  match n with O => "" | S n => " " +:+ spaces n end.

Section printing.
Context (indent : option nat).
Definition newline (level : nat) : string :=
  match indent with None => "" | Some n => nl +:+ spaces (n * level) end.
Definition separator (level : nat) : string :=
  match indent with None => ", " | Some _ => "," +:+ newline level end.

Fixpoint print (level : nat) (v : json) : string :=
  match v with
  | JNull => "null"
  | JBool b => bool_lower b
  | JNum z => str z
  | JReal token => token
  | JStr s => quote s
  | JArr [] => "[]"
  | JArr l => "[" +:+ newline (S level) +:+ join (separator (S level)) (map (print (S level)) l)
                +:+ newline level +:+ "]"
  | JObj [] => "{}"
  | JObj kvs =>
      "{" +:+ newline (S level) +:+
      join (separator (S level))
        (map (λ kv, quote kv.1 +:+ ": " +:+ print (S level) kv.2) kvs)
      +:+ newline level +:+ "}"
  end.
End printing.

Definition dumps (v : json) : string := print None 0 v.
Definition dumps_indent (n : nat) (v : json) : string := print (Some n) 0 v.

(** [f"{v}"], where an array or an object is shown as its JSON text. *)
Definition shown (v : json) : string :=
  match v with
  | JStr s => s
  | JBool true => "True" | JBool false => "False" | JNull => "None"
  | _ => dumps v
  end.

(** [sort_keys=True] *)
Definition key_le (a b : string * json) : Prop := String.le a.1 b.1.
#[export] Instance key_le_dec : RelDecision key_le.
Proof. intros a b. unfold key_le. apply _. Defined.
Fixpoint sort_keys (v : json) : json :=
  match v with
  | JArr l => JArr (map sort_keys l)
  | JObj kvs => JObj (merge_sort key_le (map (λ kv, (kv.1, sort_keys kv.2)) kvs))
  | _ => v
  end.
Definition dumps_sorted (v : json) : string := dumps (sort_keys v).

(** ** Parsing *)
Definition is_ws (c : ascii) : bool := char_in (" " +:+ nl +:+ tab +:+ String (ascii_of_N 13) "") c.
Fixpoint skip_ws (s : string) : string :=
  match s with
  | "" => ""
  | String c s1 => if is_ws c then skip_ws s1 else s
  end.

(** The longest prefix of characters in [f], and the rest. *)
Fixpoint span (f : ascii → bool) (s : string) : string * string :=
  match s with
  | "" => ("", "")
  | String c s1 => if f c then let '(a, b) := span f s1 in (String c a, b) else ("", s)
  end.

Definition hex_value (c : ascii) : option N :=
  let n := N_of_ascii c in
  if is_digit c then Some (n - 48)%N
  else if in_range "a" "f" c then Some (n - 87)%N
  else if in_range "A" "F" c then Some (n - 55)%N
  else None.
Definition hex4_value (a b c d : ascii) : option N :=
  x ← hex_value a; y ← hex_value b; z ← hex_value c; w ← hex_value d;
  Some (x * 4096 + y * 256 + z * 16 + w)%N.

(** The UTF-8 bytes of a code point. *)
Definition byte_char (m : N) : string := String (ascii_of_N m) "".
Definition utf8_char (n : N) : string :=
  if (n <? 128)%N then byte_char n
  else if (n <? 2048)%N then byte_char (192 + n / 64) +:+ byte_char (128 + n mod 64)
  else if (n <? 65536)%N then
    byte_char (224 + n / 4096) +:+ byte_char (128 + n / 64 mod 64) +:+ byte_char (128 + n mod 64)
  else byte_char (240 + n / 262144) +:+ byte_char (128 + n / 4096 mod 64) +:+
       byte_char (128 + n / 64 mod 64) +:+ byte_char (128 + n mod 64).

Definition simple_escape (c : ascii) : option string :=
  if Ascii.eqb c "n" then Some nl
  else if Ascii.eqb c "t" then Some tab
  else if Ascii.eqb c "r" then Some (String (ascii_of_N 13) "")
  else if Ascii.eqb c "b" then Some (String (ascii_of_N 8) "")
  else if Ascii.eqb c "f" then Some (String (ascii_of_N 12) "")
  else if (N_of_ascii c =? 34)%N || (N_of_ascii c =? 92)%N || Ascii.eqb c "/"
  then Some (String c "") else None.

(** A string after its opening quote: the text, and what follows the closing quote.
    A high surrogate takes the escape after it when that is a low one. *)
Fixpoint string_body (s : string) : option (string * string) :=
  match s with
  | "" => None
  | String c s1 =>
      let onto (pre : string) (r : option (string * string)) :=
        match r with Some (t, rest) => Some (pre +:+ t, rest) | None => None end in
      if (N_of_ascii c =? 34)%N then Some ("", s1)
      else if is_control c then None
      else if (N_of_ascii c =? 92)%N then
        match s1 with
        | String e s2 =>
            if Ascii.eqb e "u" then
              match s2 with
              | String h1 (String h2 (String h3 (String h4 s3))) =>
                  match hex4_value h1 h2 h3 h4 with
                  | None => None
                  | Some n =>
                      if (55296 <=? n)%N && (n <? 56320)%N then
                        match s3 with
                        | String b (String u (String l1 (String l2 (String l3 (String l4 s4))))) =>
                            match hex4_value l1 l2 l3 l4 with
                            | Some m =>
                                if (N_of_ascii b =? 92)%N && Ascii.eqb u "u" &&
                                   (56320 <=? m)%N && (m <? 57344)%N
                                then onto (utf8_char (65536 + (n - 55296) * 1024 + (m - 56320)))
                                       (string_body s4)
                                else onto (utf8_char n) (string_body s3)
                            | None => onto (utf8_char n) (string_body s3)
                            end
                        | _ => onto (utf8_char n) (string_body s3)
                        end
                      else onto (utf8_char n) (string_body s3)
                  end
              | _ => None
              end
            else match simple_escape e with
                 | Some t => onto t (string_body s2)
                 | None => None
                 end
        | "" => None
        end
      else onto (String c "") (string_body s1)
  end.

(** The number at the start of [s]: an optional minus sign, a zero or digits that do not
    start with one, then a fraction and an exponent where they are complete. *)
Definition fraction (s : string) : string * string :=
  match s with
  | String c s1 =>
      if Ascii.eqb c "." then
        let '(d, rest) := span is_digit s1 in
        if String.eqb d "" then ("", s) else (String c d, rest)
      else ("", s)
  | "" => ("", s)
  end.
Definition exponent (s : string) : string * string :=
  match s with
  | String c s1 =>
      if Ascii.eqb c "e" || Ascii.eqb c "E" then
        let '(sign, s2) := match s1 with
                           | String d s2 => if Ascii.eqb d "+" || Ascii.eqb d "-"
                                            then (String d "", s2) else ("", s1)
                           | "" => ("", s1) end in
        let '(d, rest) := span is_digit s2 in
        if String.eqb d "" then ("", s) else (String c (sign +:+ d), rest)
      else ("", s)
  | "" => ("", s)
  end.
Definition number (s : string) : option (json * string) :=
  let '(neg, s1) := match s with
                    | String c s1 => if Ascii.eqb c "-" then (true, s1) else (false, s)
                    | "" => (false, s) end in
  let '(ds, s2) := match s1 with
                   | String c s2 => if Ascii.eqb c "0" then ("0", s2) else span is_digit s1
                   | "" => ("", s1) end in
  match digits_value 0 ds with
  | None => None
  | Some n =>
      if String.eqb ds "" then None else
      let '(f, s3) := fraction s2 in
      let '(e, s4) := exponent s3 in
      if String.eqb (f +:+ e) "" then Some (JNum (if neg then - n else n), s4)
      else Some (JReal ((if neg then "-" else "") +:+ ds +:+ f +:+ e), s4)
  end.

Definition starts (c : ascii) (s : string) : option string :=
  match s with String d s1 => if Ascii.eqb c d then Some s1 else None | "" => None end.
Definition dquote_char : ascii := ascii_of_N 34.

(** [value] reads a value (no blanks before it); [elements] the rest of an array and
    [members] the rest of an object, after a value or its comma. *)
Fixpoint value (fuel : nat) (s : string) : option (json * string) :=
  match fuel with
  | O => None
  | S fuel =>
      match s with
      | "" => None
      | String c s1 =>
          if Ascii.eqb c dquote_char then '(t, r) ← string_body s1; Some (JStr t, r)
          else if Ascii.eqb c "[" then
            let s2 := skip_ws s1 in
            match starts "]" s2 with
            | Some r => Some (JArr [], r)
            | None => '(l, r) ← elements fuel s2; Some (JArr l, r)
            end
          else if Ascii.eqb c "{" then
            let s2 := skip_ws s1 in
            match starts "}" s2 with
            | Some r => Some (JObj [], r)
            | None => '(kvs, r) ← members fuel s2; Some (JObj (dict_update kvs []), r)
            end
          else match drop_prefix "null" s, drop_prefix "true" s, drop_prefix "false" s with
               | Some r, _, _ => Some (JNull, r)
               | _, Some r, _ => Some (JBool true, r)
               | _, _, Some r => Some (JBool false, r)
               | _, _, _ => number s
               end
      end
  end
with elements (fuel : nat) (s : string) : option (list json * string) :=
  match fuel with
  | O => None
  | S fuel =>
      '(v, r) ← value fuel s;
      let r := skip_ws r in
      match starts "]" r with
      | Some r => Some ([v], r)
      | None =>
          r ← starts "," r;
          '(l, r) ← elements fuel (skip_ws r);
          Some (v :: l, r)
      end
  end
with members (fuel : nat) (s : string) : option (list (string * json) * string) :=
  match fuel with
  | O => None
  | S fuel =>
      s ← starts dquote_char s;
      '(k, r) ← string_body s;
      r ← starts ":" (skip_ws r);
      '(v, r) ← value fuel (skip_ws r);
      let r := skip_ws r in
      match starts "}" r with
      | Some r => Some ([(k, v)], r)
      | None =>
          r ← starts "," r;
          '(kvs, r) ← members fuel (skip_ws r);
          Some ((k, v) :: kvs, r)
      end
  end.

(** [json.loads]; every call of the three readers but one consumes a character. *)
Definition json_error : exn := ValueError "JSON".
Definition loads (s : string) : result json :=
  match value (2 * String.length s + 2) (skip_ws s) with
  | Some (v, rest) => if String.eqb (skip_ws rest) "" then Ok v else Err json_error
  | None => Err json_error
  end.

Example loads_1 : loads (dumps (JObj [("a", JArr [JNum (-12); JStr ("x" +:+ nl +:+ "é"); JNull]);
  ("b", JBool true); ("c", JObj [])])) = Ok (JObj [("a", JArr [JNum (-12); JStr ("x" +:+ nl +:+ "é"); JNull]);
  ("b", JBool true); ("c", JObj [])]).
Proof. vm_compute. reflexivity. Qed.
Example dumps_1 : dumps_indent 2 (JObj [("a", JArr [JNum 1; JNum 2])]) =
 "{
  " +:+ dquote +:+ "a" +:+ dquote +:+ ": [
    1,
    2
  ]
}".
Proof. reflexivity. Qed.
