(* ===== verification/JsonRoundtrip.v ===== *)
(** * Reading back what [json.dumps] wrote

    The parser of Json.v returns the value the printer was given, in the compact and in
    every indented form. *)

From S2P Require Import Prelude.
From S2P Require Import PyText.
From S2P Require Import PyBytes.
From S2P Require Import Json.
From Stdlib Require Import Ascii.
Open Scope Z_scope.

(** ** The values the scripts write: ASCII text, integers, objects with distinct keys *)
Definition ascii_text (s : string) : bool := all_chars (λ c, (N_of_ascii c <? 128)%N) s.
Fixpoint plain (v : json) : bool :=
  match v with
  | JNull | JBool _ | JNum _ => true
  | JReal _ => false
  | JStr s => ascii_text s
  | JArr l => forallb plain l
  | JObj kvs => forallb (λ kv, ascii_text kv.1 && plain kv.2) kvs && bool_decide (NoDup kvs.*1)
  end.

(** Induction through the lists of arrays and objects. *)
Section json_induction.
Context (P : json → Prop).
Context (Hnull : P JNull) (Hbool : ∀ b, P (JBool b)) (Hnum : ∀ z, P (JNum z))
  (Hreal : ∀ t, P (JReal t)) (Hstr : ∀ s, P (JStr s))
  (Harr : ∀ l, Forall P l → P (JArr l)) (Hobj : ∀ kvs, Forall (λ kv, P kv.2) kvs → P (JObj kvs)).
Fixpoint json_rect' (v : json) : P v :=
  match v with
  | JNull => Hnull
  | JBool b => Hbool b
  | JNum z => Hnum z
  | JReal t => Hreal t
  | JStr s => Hstr s
  | JArr l => Harr l ((fix go l : Forall P l :=
      match l with [] => Forall_nil_2 _ | v :: l => Forall_cons_2 _ _ _ (json_rect' v) (go l) end) l)
  | JObj kvs => Hobj kvs ((fix go l : Forall (λ kv, P kv.2) l :=
      match l with [] => Forall_nil_2 _ | kv :: l => Forall_cons_2 _ _ _ (json_rect' kv.2) (go l) end) kvs)
  end.
End json_induction.

(** ** Strings *)
Lemma string_body_char c r : (N_of_ascii c <? 128)%N = true →
  string_body (escape_code (N_of_ascii c) +:+ r) =
    match string_body r with Some (t, rest) => Some (String c t, rest) | None => None end.
Proof.
  intros H. destruct c as [[] [] [] [] [] [] [] []]; try discriminate H; reflexivity.
Qed.

Lemma utf8_ascii c s : (N_of_ascii c <? 128)%N = true →
  utf8 (String c s) = N_of_ascii c :: utf8 s.
Proof. intros H. cbn [utf8]. by rewrite H. Qed.

Lemma string_body_quote s r : ascii_text s = true →
  string_body (join "" (map escape_code (utf8 s)) +:+ dquote +:+ r) = Some (s, r).
Proof.
  induction s as [|c s IH]; intros Hs; [done|].
  apply andb_true_iff in Hs as [Hc Hs]. rewrite utf8_ascii by done. cbn [map].
  rewrite join_nil_cons, sapp_assoc, string_body_char by done. by rewrite IH.
Qed.

(** ** Numbers *)
Lemma span_digits d r : all_chars is_digit d = true →
  match r with String c _ => is_digit c = false | "" => True end →
  span is_digit (d +:+ r) = (d, r).
Proof.
  induction d as [|c d IH]; intros Hd Hr.
  - destruct r as [|x r]; [done|]. cbn [span]. rewrite sapp_nil_l. cbn [span]. by rewrite Hr.
  - apply andb_true_iff in Hd as [Hc Hd]. rewrite sapp_cons. cbn [span].
    by rewrite Hc, IH.
Qed.

Lemma pretty_N_char_value n : (n < 10)%N →
  digit_value (pretty_N_char n) = Some (Z.of_N n) ∧ is_digit (pretty_N_char n) = true ∧
  ((0 < n)%N → pretty_N_char n ≠ "0"%char).
Proof.
  intros Hn. assert (n = 0 ∨ n = 1 ∨ n = 2 ∨ n = 3 ∨ n = 4 ∨ n = 5 ∨ n = 6 ∨ n = 7 ∨ n = 8 ∨ n = 9)%N
    as H by lia.
  destruct H as [-> | [-> | [-> | [-> | [-> | [-> | [-> | [-> | [-> | ->]]]]]]]]]; done.
Qed.

Lemma pretty_N_go_digits x s : (0 < x)%N →
  digits_value 0 (pretty_N_go x s) = digits_value (Z.of_N x) s ∧
  all_chars is_digit (pretty_N_go x s) = all_chars is_digit s ∧
  ∃ c t, pretty_N_go x s = String c t ∧ is_digit c = true ∧ c ≠ "0"%char.
Proof.
  revert s. induction (N.lt_wf_0 x) as [x _ IH]; intros s Hx.
  rewrite pretty_N_go_step by done.
  pose proof (N.mod_lt x 10 ltac:(done)) as Hm.
  destruct (pretty_N_char_value _ Hm) as (Hv & Hd & Hz).
  pose proof (N.div_mod x 10 ltac:(done)) as Hdm.
  destruct (decide (0 < x `div` 10)%N) as [Hpos|Hpos].
  - destruct (IH (x `div` 10)%N ltac:(apply N.div_lt; lia) (String (pretty_N_char (x mod 10)) s) Hpos)
      as (H1 & H2 & c & t & H3 & H4 & H5). split_and!.
    + rewrite H1. cbn [digits_value]. rewrite Hv. cbn. f_equal. lia.
    + rewrite H2. cbn [all_chars]. by rewrite Hd.
    + eauto.
  - assert (x `div` 10 = 0)%N as -> by lia. rewrite pretty_N_go_0. split_and!.
    + cbn [digits_value]. rewrite Hv. cbn. f_equal. lia.
    + cbn [all_chars]. by rewrite Hd.
    + do 2 eexists. split_and!; [done..|]. apply Hz. lia.
Qed.

(** What may follow a value: nothing, a comma, a closing bracket, a line feed. *)
Definition delimited (r : string) : bool :=
  match r with
  | "" => true
  | String c _ => Ascii.eqb c "," || Ascii.eqb c "]" || Ascii.eqb c "}" || Ascii.eqb c (ascii_of_N 10)
  end.

Lemma delimited_cases r : delimited r = true →
  r = "" ∨ ∃ c t, r = String c t ∧ is_digit c = false ∧
    Ascii.eqb c "." = false ∧ Ascii.eqb c "e" = false ∧ Ascii.eqb c "E" = false.
Proof.
  destruct r as [|c t]; [by left|]. intros H. right. exists c, t. unfold delimited in H.
  rewrite !orb_true_iff, !Ascii.eqb_eq in H. by destruct H as [[[-> | ->] | ->] | ->].
Qed.

Lemma number_end r : delimited r = true →
  match r with String c _ => is_digit c = false | "" => True end ∧
  fraction r = ("", r) ∧ exponent r = ("", r).
Proof.
  intros [-> | (c & t & -> & H1 & H2 & H3 & H4)]%delimited_cases; [done|].
  split_and!; [done|by cbn -[Ascii.eqb]; rewrite H2|].
  cbn -[Ascii.eqb span]. by rewrite H3, H4.
Qed.

Lemma number_digits neg x r : (0 < x)%N → delimited r = true →
  number ((if neg : bool then "-" else "") +:+ pretty_N_go x "" +:+ r) =
    Some (JNum (if neg then - Z.of_N x else Z.of_N x), r).
Proof.
  intros Hx Hr. destruct (pretty_N_go_digits x "" Hx) as (Hv & Hd & c & t & Ht & Hc & H0).
  destruct (number_end r Hr) as (H1 & H2 & H3).
  assert (Ascii.eqb c "-" = false) as Hdash.
  { apply Ascii.eqb_neq. intros ->. done. }
  assert (Ascii.eqb c "0" = false) as Hzero by by apply Ascii.eqb_neq.
  pose proof (span_digits _ r Hd H1) as Hspan. rewrite Ht in *.
  unfold number. destruct neg.
  - rewrite (sapp_cons "-"). cbn -[Ascii.eqb span digits_value fraction exponent].
    change (Ascii.eqb "-" "-") with true. cbn -[Ascii.eqb span digits_value fraction exponent].
    rewrite sapp_nil_l, sapp_cons. cbn -[Ascii.eqb span digits_value fraction exponent].
    rewrite Hzero. rewrite sapp_cons in Hspan. rewrite Hspan, Hv. cbn [digits_value].
    by rewrite H2, H3.
  - rewrite sapp_nil_l, sapp_cons. cbn -[Ascii.eqb span digits_value fraction exponent].
    rewrite Hdash. cbn -[Ascii.eqb span digits_value fraction exponent].
    rewrite Hzero. rewrite sapp_cons in Hspan. rewrite Hspan, Hv. cbn [digits_value].
    by rewrite H2, H3.
Qed.

Lemma number_str z r : delimited r = true → number (str z +:+ r) = Some (JNum z, r).
Proof.
  intros Hr. destruct z as [|p|p].
  - destruct (number_end r Hr) as (_ & H2 & H3). change (str 0 +:+ r) with (String "0" r).
    cbn -[fraction exponent]. by rewrite H2, H3.
  - exact (number_digits false (Npos p) r ltac:(lia) Hr).
  - unfold str, pretty, pretty_Z. rewrite sapp_assoc.
    exact (number_digits true (Npos p) r ltac:(lia) Hr).
Qed.

(** ** Blanks and first characters *)
Lemma skip_ws_spaces n s : skip_ws (spaces n +:+ s) = skip_ws s.
Proof. induction n as [|n IH]; [done|]. cbn [spaces]. by rewrite sapp_cons. Qed.

Lemma skip_ws_newline ind level s : skip_ws (newline ind level +:+ s) = skip_ws s.
Proof.
  destruct ind as [n|]; [|done]. unfold newline. rewrite sapp_assoc.
  change (skip_ws (nl +:+ ?x)) with (skip_ws x). by rewrite skip_ws_spaces.
Qed.

(** A character a printed value may start with. *)
Definition value_head (c : ascii) : bool :=
  negb (is_ws c) && negb (Ascii.eqb c "]") && negb (Ascii.eqb c "}").

Lemma str_head z : ∃ c t, str z = String c t ∧ (is_digit c || Ascii.eqb c "-") = true.
Proof.
  destruct z as [|p|p].
  - by exists "0"%char, "".
  - destruct (pretty_N_go_digits (Npos p) "" ltac:(lia)) as (_ & _ & c & t & H & Hc & _).
    exists c, t. split; [exact H|]. by rewrite Hc.
  - by eexists "-"%char, _.
Qed.

Lemma print_head ind level v : plain v = true →
  ∃ c t, print ind level v = String c t ∧ value_head c = true.
Proof.
  intros Hv. destruct v as [|[]|z|t|s|[|v l]|[|kv l]]; [..|done| | | | |]; try by do 2 eexists.
  destruct (str_head z) as (c & t & H & Hc). exists c, t. split; [exact H|].
  destruct c as [[] [] [] [] [] [] [] []]; try done; by vm_compute in Hc.
Qed.

Lemma skip_ws_head s c t : s = String c t → value_head c = true → skip_ws s = s.
Proof.
  intros -> H. unfold value_head in H. rewrite !andb_true_iff in H.
  cbn [skip_ws]. destruct (is_ws c); [naive_solver|done].
Qed.

Lemma skip_ws_print ind level v r : plain v = true →
  skip_ws (print ind level v +:+ r) = print ind level v +:+ r.
Proof.
  intros Hv. destruct (print_head ind level v Hv) as (c & t & H & Hc).
  rewrite H, sapp_cons. by eapply skip_ws_head.
Qed.

Lemma starts_head d s c t : s = String c t → value_head c = true → d = "]"%char ∨ d = "}"%char →
  starts d s = None.
Proof.
  intros -> H Hd. unfold value_head in H. rewrite !andb_true_iff, !negb_true_iff in H.
  destruct H as [[_ H1] H2]. cbn [starts]. rewrite Ascii.eqb_sym.
  destruct Hd as [-> | ->]; [by rewrite H1|by rewrite H2].
Qed.

(** ** Fuel *)
Fixpoint rank (v : json) : nat :=
  match v with
  | JArr l => 2 + list_sum (map (λ v, 1 + rank v) l)
  | JObj kvs => 2 + list_sum (map (λ kv, 1 + rank kv.2) kvs)
  | _ => 1
  end%nat.

Lemma join_length sep l :
  (list_sum (map String.length l) + String.length sep * (length l - 1) ≤ String.length (join sep l))%nat.
Proof.
  induction l as [|x l IH]; [simpl; lia|]. destruct l as [|y l].
  - simpl. lia.
  - rewrite join_cons by done. rewrite !slength_app. cbn [map list_sum] in *. simpl in *. lia.
Qed.

Lemma separator_length ind level : (1 ≤ String.length (separator ind level))%nat.
Proof. destruct ind; simpl; lia. Qed.

Lemma rank_bound ind v : plain v = true →
  ∀ level, (rank v < 2 * String.length (print ind level v))%nat.
Proof.
  assert (∀ s, (2 ≤ String.length (quote s))%nat) as Hq.
  { intros s. unfold quote. rewrite !slength_app. simpl. lia. }
  induction v as [|b|z|t|s|l IH|kvs IH] using json_rect'; intros Hv level; simpl.
  - lia.
  - destruct b; simpl; lia.
  - destruct (str_head z) as (c & t & -> & _). simpl. lia.
  - done.
  - specialize (Hq s). lia.
  - destruct l as [|v l]; [simpl; lia|]. remember (v :: l) as l' eqn:Hl.
    assert (list_sum (map (λ v, S (rank v)) l') ≤
      2 * list_sum (map String.length (map (print ind (S level)) l')))%nat as Hs.
    { clear Hl v l. simpl in Hv. induction IH as [|v l Hv1 IH1 IH2]; [done|].
      simpl in Hv. apply andb_true_iff in Hv as [Hv Hl]. simpl.
      specialize (Hv1 Hv (S level)). specialize (IH2 Hl). lia. }
    pose proof (join_length (separator ind (S level)) (map (print ind (S level)) l')) as Hj.
    subst l'. rewrite !slength_app. cbn [String.length] in *. simpl in *. lia.
  - destruct kvs as [|kv kvs]; [simpl; lia|]. remember (kv :: kvs) as l' eqn:Hl.
    simpl in Hv. apply andb_true_iff in Hv as [Hv _].
    assert (list_sum (map (λ kv, S (rank kv.2)) l') ≤
      2 * list_sum (map String.length (map (λ kv, quote kv.1 +:+ ": " +:+ print ind (S level) kv.2) l')))%nat as Hs.
    { clear Hl kv kvs. induction IH as [|kv l Hv1 IH1 IH2]; [done|].
      simpl in Hv. rewrite !andb_true_iff in Hv. destruct Hv as [[_ Hv] Hl]. simpl.
      specialize (Hv1 Hv (S level)). specialize (IH2 Hl). rewrite !slength_app. lia. }
    pose proof (join_length (separator ind (S level))
      (map (λ kv, quote kv.1 +:+ ": " +:+ print ind (S level) kv.2) l')) as Hj.
    subst l'. rewrite !slength_app. cbn [String.length] in *. simpl in *. lia.
Qed.

(** ** The round trip *)
Definition reads (ind : option nat) (v : json) : Prop :=
  ∀ level fuel r, plain v = true → (rank v ≤ fuel)%nat → delimited r = true →
    value fuel (print ind level v +:+ r) = Some (v, r).

Lemma value_number f z s r : number s = Some (JNum z, r) →
  (∃ c t, s = String c t ∧ (is_digit c || Ascii.eqb c "-") = true) →
  value (S f) s = Some (JNum z, r).
Proof.
  intros H (c & t & -> & Hc). rewrite <- H.
  destruct c as [[] [] [] [] [] [] [] []]; try (by vm_compute in Hc); cbn -[number]; reflexivity.
Qed.

Lemma value_dquote f s :
  value (S f) (dquote +:+ s) = ('(t, r) ← string_body s; Some (JStr t, r)).
Proof. reflexivity. Qed.

Lemma value_string f s r : ascii_text s = true →
  value (S f) (quote s +:+ r) = Some (JStr s, r).
Proof.
  intros Hs. unfold quote. rewrite !sapp_assoc, value_dquote.
  by rewrite string_body_quote.
Qed.

Lemma delimited_comma ind level r : delimited (separator ind level +:+ r) = true.
Proof. by destruct ind. Qed.

Lemma delimited_newline ind level c r : c = "]"%char ∨ c = "}"%char →
  delimited (newline ind level +:+ String c r) = true.
Proof. by destruct ind, 1 as [-> | ->]. Qed.

Lemma skip_separator ind level c s : s = separator ind level +:+ c →
  starts "," (skip_ws s) = Some (match ind with None => " " +:+ c | Some _ => newline ind level +:+ c end).
Proof. intros ->. by destruct ind. Qed.

Lemma skip_after_comma ind level c :
  skip_ws (match ind with None => " " +:+ c | Some _ => newline ind level +:+ c end) = skip_ws c.
Proof. destruct ind as [n|]; [|done]. apply skip_ws_newline. Qed.

(** One step of the readers. *)
Lemma elements_step f s :
  elements (S f) s = ('(v, r) ← value f s;
    match starts "]" (skip_ws r) with
    | Some r => Some ([v], r)
    | None => r ← starts "," (skip_ws r);
        '(l, r) ← elements f (skip_ws r); Some (v :: l, r)
    end).
Proof. reflexivity. Qed.

Lemma members_step f s :
  members (S f) (dquote +:+ s) = ('(k, r) ← string_body s;
    r ← starts ":" (skip_ws r);
    '(v, r) ← value f (skip_ws r);
    match starts "}" (skip_ws r) with
    | Some r => Some ([(k, v)], r)
    | None => r ← starts "," (skip_ws r);
        '(kvs, r) ← members f (skip_ws r); Some ((k, v) :: kvs, r)
    end).
Proof. reflexivity. Qed.

Lemma elements_print ind level l fuel r : l ≠ [] →
  Forall (reads ind) l → forallb plain l = true →
  (list_sum (map (λ v, 1 + rank v) l) ≤ fuel)%nat →
  elements fuel (join (separator ind (S level)) (map (print ind (S level)) l) +:+
    newline ind level +:+ String "]" r) = Some (l, r).
Proof.
  intros Hne Hl. revert fuel. induction Hl as [|v l Hv Hl IH]; intros fuel Hp Hf; [done|].
  simpl in Hp. apply andb_true_iff in Hp as [Hpv Hpl]. simpl in Hf.
  destruct fuel as [|fuel]; [lia|]. rewrite elements_step. cbn [map].
  destruct l as [|w l].
  - cbn [map join]. rewrite Hv by (done || lia || by apply delimited_newline; left).
    cbn -[newline skip_ws starts]. by rewrite skip_ws_newline.
  - rewrite join_cons by done. rewrite !sapp_assoc.
    rewrite Hv by (done || lia || apply delimited_comma).
    set (tail := join _ _ +:+ _) in *.
    cbn -[separator skip_ws starts elements tail].
    assert (starts "]" (skip_ws (separator ind (S level) +:+ tail)) = None) as -> by (by destruct ind).
    erewrite skip_separator by reflexivity. cbn -[separator skip_ws starts elements tail].
    rewrite skip_after_comma. assert (skip_ws tail = tail) as ->.
    { unfold tail. simpl in Hpl. apply andb_true_iff in Hpl as [Hpw _].
      destruct (print_head ind (S level) w Hpw) as (c & t & H & Hc).
      destruct l; (eapply skip_ws_head; [cbn [map join]; rewrite H, !sapp_cons; reflexivity|exact Hc]). }
    rewrite (IH ltac:(done) fuel Hpl); [done|]. simpl in *. lia.
Qed.

Lemma members_print ind level kvs fuel r : kvs ≠ [] →
  Forall (λ kv, reads ind kv.2) kvs →
  forallb (λ kv, ascii_text kv.1 && plain kv.2) kvs = true →
  (list_sum (map (λ kv, 1 + rank kv.2) kvs) ≤ fuel)%nat →
  members fuel (join (separator ind (S level))
      (map (λ kv, quote kv.1 +:+ ": " +:+ print ind (S level) kv.2) kvs) +:+
    newline ind level +:+ String "}" r) = Some (kvs, r).
Proof.
  intros Hne Hl. revert fuel. induction Hl as [|[k v] l Hv Hl IH]; intros fuel Hp Hf; [done|].
  simpl in Hv. simpl in Hp. rewrite !andb_true_iff in Hp. destruct Hp as [[Hk Hpv] Hpl].
  simpl in Hf. destruct fuel as [|fuel]; [lia|].
  assert (∀ x y, starts ":" (skip_ws (": " +:+ x +:+ y)) = Some (" " +:+ x +:+ y)) as Hcolon by done.
  assert (∀ y, skip_ws (" " +:+ print ind (S level) v +:+ y) = print ind (S level) v +:+ y) as Hsp.
  { intros y. change (skip_ws (" " +:+ ?x)) with (skip_ws x). by apply skip_ws_print. }
  destruct l as [|kv' l].
  - cbn [map join fst snd]. unfold quote. rewrite !sapp_assoc, members_step.
    rewrite string_body_quote by done. cbn -[newline skip_ws starts value print String.append].
    rewrite Hcolon. cbn -[newline skip_ws starts value print String.append].
    rewrite Hsp, Hv by (done || lia || by apply delimited_newline; right).
    cbn -[newline skip_ws starts]. by rewrite skip_ws_newline.
  - cbn [map fst snd]. rewrite join_cons by done.
    unfold quote at 1. rewrite !sapp_assoc, members_step.
    rewrite string_body_quote by done. set (tail := join _ _ +:+ _).
    cbn -[separator skip_ws starts value print String.append members tail].
    rewrite Hcolon. cbn -[separator skip_ws starts value print String.append members tail].
    rewrite Hsp, Hv by (done || lia || apply delimited_comma).
    cbn -[separator skip_ws starts members tail].
    assert (starts "}" (skip_ws (separator ind (S level) +:+ tail)) = None) as -> by (by destruct ind).
    erewrite skip_separator by reflexivity. cbn -[separator skip_ws starts members tail].
    rewrite skip_after_comma. assert (skip_ws tail = tail) as -> by (by destruct l).
    pose proof (IH ltac:(done) fuel Hpl ltac:(simpl in *; lia)) as Htail.
    cbn [map] in Htail. fold tail in Htail. by rewrite Htail.
Qed.

Lemma value_bracket f s : starts "]" (skip_ws s) = None →
  value (S f) (String "[" s) = ('(l, r) ← elements f (skip_ws s); Some (JArr l, r)).
Proof. intros H. cbn -[starts skip_ws elements]. by rewrite H. Qed.

Lemma value_brace f s : starts "}" (skip_ws s) = None →
  value (S f) (String "{" s) =
    ('(kvs, r) ← members f (skip_ws s); Some (JObj (dict_update kvs []), r)).
Proof. intros H. cbn -[starts skip_ws members dict_update]. by rewrite H. Qed.

Lemma join_head sep x l c t : x = String c t → ∃ t', join sep (x :: l) = String c t'.
Proof. intros ->. destruct l; simpl; [by eexists|]. rewrite sapp_cons. by eexists. Qed.

(** A text that starts like a value: no blank to skip, no closing bracket. *)
Lemma head_reads s c t d : s = String c t → value_head c = true → d = "]"%char ∨ d = "}"%char →
  skip_ws s = s ∧ starts d s = None.
Proof. intros Hs Hc Hd. split; [by eapply skip_ws_head|by eapply starts_head]. Qed.

Lemma value_print ind v : reads ind v.
Proof.
  induction v as [|b|z|t|s|l IH|kvs IH] using json_rect'; intros level fuel r Hp Hf Hr;
    (destruct fuel as [|fuel]; [simpl in Hf; lia|]).
  - done.
  - by destruct b.
  - apply value_number; [by apply number_str|]. destruct (str_head z) as (c & t & H & Hc).
    cbn [print]. rewrite H, sapp_cons. eauto.
  - done.
  - by apply value_string.
  - destruct l as [|v l]; [done|]. set (body := join (separator ind (S level))
      (map (print ind (S level)) (v :: l)) +:+ newline ind level +:+ String "]" r).
    assert (print ind level (JArr (v :: l)) +:+ r =
      String "[" (newline ind (S level) +:+ body)) as ->.
    { unfold body. cbn [print]. fold (print ind). by rewrite !sapp_cons, !sapp_nil_l, !sapp_assoc. }
    simpl in Hp. apply andb_true_iff in Hp as [Hpv Hpl].
    assert (skip_ws body = body ∧ starts "]" body = None) as [Hs Hst].
    { destruct (print_head ind (S level) v Hpv) as (c & t & H & Hc).
      destruct (join_head (separator ind (S level)) _ (map (print ind (S level)) l) _ _ H) as [t' Ht].
      eapply head_reads; [|exact Hc|by left]. unfold body. cbn [map]. by rewrite Ht, sapp_cons. }
    rewrite value_bracket by (by rewrite skip_ws_newline, Hs).
    rewrite skip_ws_newline, Hs. unfold body. rewrite elements_print; [done|done|done|..].
    + simpl. by rewrite Hpv.
    + cbn [rank] in Hf. lia.
  - destruct kvs as [|kv kvs]; [done|]. set (body := join (separator ind (S level))
      (map (λ kv, quote kv.1 +:+ ": " +:+ print ind (S level) kv.2) (kv :: kvs)) +:+
      newline ind level +:+ String "}" r).
    assert (print ind level (JObj (kv :: kvs)) +:+ r =
      String "{" (newline ind (S level) +:+ body)) as ->.
    { unfold body. cbn [print]. fold (print ind). by rewrite !sapp_cons, !sapp_nil_l, !sapp_assoc. }
    cbn [plain] in Hp. apply andb_true_iff in Hp as [Hp Hnd%bool_decide_eq_true].
    assert (skip_ws body = body ∧ starts "}" body = None) as [Hs Hst].
    { edestruct (join_head (separator ind (S level)) (quote kv.1 +:+ ": " +:+
        print ind (S level) kv.2)) as [t' Ht]; [reflexivity|].
      eapply head_reads; [|by instantiate (1 := dquote_char)|by right].
      unfold body. cbn [map]. by rewrite Ht, sapp_cons. }
    rewrite value_brace by (by rewrite skip_ws_newline, Hs).
    rewrite skip_ws_newline, Hs. unfold body. rewrite members_print; [|done|done|done|].
    + cbn -[dict_update]. by rewrite dict_update_new.
    + cbn [rank] in Hf. lia.
Qed.

(** [json.loads] returns the value [json.dumps] printed, compact or indented, with blanks
    after it, for every value of ASCII text, integers, arrays and objects with distinct
    keys. *)
Lemma loads_printed ind v r : plain v = true → delimited r = true → skip_ws r = "" →
  loads (print ind 0 v +:+ r) = Ok v.
Proof.
  intros Hv Hd Hr. unfold loads. destruct (print_head ind 0 v Hv) as (c & t & H & Hc).
  assert (skip_ws (print ind 0 v +:+ r) = print ind 0 v +:+ r) as ->
    by (rewrite H, sapp_cons; by apply (skip_ws_head _ c (t +:+ r))).
  pose proof (rank_bound ind v Hv 0).
  rewrite value_print; [|done|rewrite slength_app; lia|done]. by rewrite Hr.
Qed.
Lemma loads_print ind v : plain v = true → loads (print ind 0 v) = Ok v.
Proof. intros Hv. rewrite <- (sapp_nil_r (print ind 0 v)). by apply loads_printed. Qed.
Lemma loads_line ind v : plain v = true → loads (print ind 0 v +:+ nl) = Ok v.
Proof. intros Hv. by apply loads_printed. Qed.
