(* ===== verification/Numbers.v ===== *)
(** * Python numbers

    Integers and IEEE binary64 floats with the arithmetic of the measurement scripts:
    [float(text)], [repr], the operators with their errors, exact comparison of mixed
    numbers, and [statistics.median].  Floats are the executable [spec_float] of the
    Standard Library at precision 53. *)

From S2P Require Import Prelude.
From S2P Require Import PyText.
From S2P Require Import PyBytes.
From S2P Require Import Json.
From Stdlib Require Import Ascii SpecFloat.
#[local] Open Scope Z_scope.

Abbreviation float := spec_float.
#[export] Instance float_eq_dec : EqDecision spec_float.
Proof. solve_decision. Defined.
Definition finite (s : bool) (m e : Z) : float :=
  match m with Zpos m => S754_finite s m e | _ => S754_zero s end.
Definition checked (f : float) : result float :=
  match f with S754_infinity _ => Err OverflowError | _ => Ok f end.

(** The float nearest to [(-1)^s * n / d], and to [(-1)^s * m * 10^e]. *)
Definition ratio (s : bool) (n d : Z) : float := SFdiv 53 1024 (finite s n 0) (finite false d 0).
Definition decimal (s : bool) (m e : Z) : float :=
  if 0 <=? e then binary_normalize 53 1024 (if s then - (m * 10 ^ e) else m * 10 ^ e) 0 s
  else ratio s m (10 ^ (- e)).

(** ** [float(text)] *)

(** The underscores between two digits are dropped. *)
Fixpoint drop_underscores (digit : bool) (s : string) : option string :=
  match s with
  | "" => Some ""
  | String c s1 =>
      if Ascii.eqb c "_" then
        match s1 with
        | String d _ => if digit && is_digit d then drop_underscores false s1 else None
        | "" => None
        end
      else t ← drop_underscores (is_digit c) s1; Some (String c t)
  end.
Definition signed (s : string) : bool * string :=
  match s with
  | String c s1 => if Ascii.eqb c "-" then (true, s1) else if Ascii.eqb c "+" then (false, s1) else (false, s)
  | "" => (false, s)
  end.
Definition exponent_value (s : string) : option Z :=
  match s with
  | "" => Some 0
  | String c s1 =>
      if Ascii.eqb c "e" then
        let '(neg, d) := signed s1 in
        if String.eqb d "" then None else n ← digits_value 0 d; Some (if neg then - n else n)
      else None
  end.
Definition literal_float (s : bool) (t : string) : option float :=
  let '(whole, rest) := span is_digit t in
  let '(part, rest) := match rest with
                       | String c r => if Ascii.eqb c "." then span is_digit r else ("", rest)
                       | "" => ("", "") end in
  if String.eqb (whole +:+ part) "" then None
  else m ← digits_value 0 (whole +:+ part); e ← exponent_value rest;
       Some (decimal s m (e - Z.of_nat (String.length part))).
Definition float_of_text (text : string) : result float :=
  let '(s, t) := signed (lower (strip text)) in
  if bool_decide (t ∈ ["inf"; "infinity"]) then Ok (S754_infinity s)
  else if String.eqb t "nan" then Ok S754_nan
  else from_option_or (ValueError "could not convert string to float")
         (u ← drop_underscores false t; literal_float s u).

(** ** [repr]: the shortest digits that read back, the nearest of those, ties to even *)
Definition digits_at (m e p : Z) : Z * bool :=
  let n := m * 2 ^ Z.max e 0 * 10 ^ Z.max (- p) 0 in
  let d := 2 ^ Z.max (- e) 0 * 10 ^ Z.max p 0 in
  (n / d, (2 * (n mod d) <? d) || (2 * (n mod d) =? d) && Z.even (n / d)).
Definition reads_back (m e p q : Z) : bool :=
  bool_decide (decimal false q p = finite false m e).
(** The decimal exponent: [10^(k-1) <= m * 2^e < 10^k]. *)
Definition magnitude (m e : Z) : Z :=
  let k := (Z.log2 m + e) * 30103 / 100000 in
  match List.find (λ k, (digits_at m e k).1 =? 0) [k - 1; k; k + 1; k + 2] with
  | Some k => k | None => k + 3 end.
Definition shortest (m e : Z) : Z * Z :=
  let k := magnitude m e in
  let try n :=
    let p := k - n in
    let '(q, low) := digits_at m e p in
    List.find (λ c, reads_back m e p c.1) (if low then [(q, p); (q + 1, p)] else [(q + 1, p); (q, p)]) in
  default (m, e) (head (omap try (seqZ 1 17))).
Fixpoint strip_zeros (s : string) : string :=
  match s with String c s1 => if Ascii.eqb c "0" then strip_zeros s1 else s | "" => "" end.
Fixpoint zeros (n : nat) : string := match n with O => "" | S n => String "0" (zeros n) end.
Definition two_digits (z : Z) : string := if z <? 10 then "0" +:+ str z else str z.
(** [0.d1d2... * 10^point] *)
Definition layout (digits : string) (point : Z) : string :=
  let n := Z.of_nat (String.length digits) in
  if (-4 <? point) && (point <=? 16) then
    if point <=? 0 then "0." +:+ zeros (Z.to_nat (- point)) +:+ digits
    else if n <=? point then digits +:+ zeros (Z.to_nat (point - n)) +:+ ".0"
    else stake (Z.to_nat point) digits +:+ "." +:+ sdrop (Z.to_nat point) digits
  else
    let x := point - 1 in
    stake 1 digits +:+ (if n =? 1 then "" else "." +:+ sdrop 1 digits) +:+ "e" +:+
    (if x <? 0 then "-" else "+") +:+ two_digits (Z.abs x).
Definition float_repr (f : float) : string :=
  match f with
  | S754_nan => "NaN"
  | S754_infinity s => if s then "-Infinity" else "Infinity"
  | S754_zero s => if s then "-0.0" else "0.0"
  | S754_finite s m e =>
      let '(q, p) := shortest (Zpos m) e in
      (if s then "-" else "") +:+
      layout (srev (strip_zeros (srev (str q)))) (Z.of_nat (String.length (str q)) + p)
  end.

Example repr_1 : map (λ t, float_repr <$> float_of_text t)
  ["0.1"; "1e22"; "123456.5"; "1e16"; "1e-5"; "0.0001"; "-2.50"; "5e-324"; "1_0.2_5E+2"; "1.7976931348623157e308"] =
  map Ok ["0.1"; "1e+22"; "123456.5"; "1e+16"; "1e-05"; "0.0001"; "-2.5"; "5e-324"; "1025.0"; "1.7976931348623157e+308"].
Proof. vm_compute. reflexivity. Qed.
Example repr_2 : map (λ '(n, d), float_repr (ratio false n d))
  [(1, 3); (2, 3); (1, 10); (10 ^ 23, 1); (9007199254740993, 1)] =
  ["0.3333333333333333"; "0.6666666666666666"; "0.1"; "1e+23"; "9007199254740992.0"].
Proof. vm_compute. reflexivity. Qed.

(** ** Numbers *)
Inductive num := Int (z : Z) | Float (f : float).

Definition num_of (v : json) : result num :=
  match v with
  | JNum z => Ok (Int z)
  | JBool b => Ok (Int (if b then 1 else 0))
  | JReal t => Float <$> float_of_text t
  | _ => Err TypeError
  end.
Definition json_of (n : num) : json :=
  match n with Int z => JNum z | Float f => JReal (float_repr f) end.

Definition to_float (n : num) : result float :=
  match n with Float f => Ok f | Int z => checked (binary_normalize 53 1024 z 0 false) end.
Definition floats (op : float → float → float) (a b : num) : result num :=
  x ← to_float a; y ← to_float b; Ok (Float (op x y)).
Definition num_add (a b : num) : result num :=
  match a, b with Int x, Int y => Ok (Int (x + y)) | _, _ => floats (SFadd 53 1024) a b end.
Definition num_sub (a b : num) : result num :=
  match a, b with Int x, Int y => Ok (Int (x - y)) | _, _ => floats (SFsub 53 1024) a b end.
Definition num_mul (a b : num) : result num :=
  match a, b with Int x, Int y => Ok (Int (x * y)) | _, _ => floats (SFmul 53 1024) a b end.
(** [a / b]: of two integers the rounded quotient, which overflows only when it is too large. *)
Definition num_div (a b : num) : result num :=
  match a, b with
  | Int x, Int y =>
      raise_if (y =? 0) ZeroDivisionError;;
      Float <$> checked (ratio (xorb (x <? 0) (y <? 0)) (Z.abs x) (Z.abs y))
  | _, _ =>
      y ← to_float b;
      raise_if (match y with S754_zero _ => true | _ => false end) ZeroDivisionError;;
      floats (SFdiv 53 1024) a b
  end.
Definition num_sum (l : list num) : result num := foldl (λ a x, s ← a; num_add s x) (Ok (Int 0)) l.

(** Comparison is exact, also of an integer with a float; a NaN compares with nothing. *)
Definition scaled (n : num) : option (Z * Z) :=
  match n with
  | Int z => Some (z, 0)
  | Float (S754_finite s m e) => Some (if s then Zneg m else Zpos m, e)
  | Float (S754_zero _) => Some (0, 0)
  | _ => None
  end.
Definition num_compare (a b : num) : option comparison :=
  match a, b with
  | Float S754_nan, _ | _, Float S754_nan => None
  | Float (S754_infinity s), Float (S754_infinity t) =>
      Some (if s then (if t then Eq else Lt) else if t then Gt else Eq)
  | Float (S754_infinity s), _ => Some (if s then Lt else Gt)
  | _, Float (S754_infinity s) => Some (if s then Gt else Lt)
  | _, _ =>
      '(x, e) ← scaled a; '(y, f) ← scaled b;
      let g := Z.min e f in Some (x * 2 ^ (e - g) ?= y * 2 ^ (f - g))
  end.
Definition num_leb (a b : num) : bool :=
  match num_compare a b with Some Lt | Some Eq => true | _ => false end.
Definition num_eqb (a b : num) : bool := match num_compare a b with Some Eq => true | _ => false end.
Definition num_ltb (a b : num) : bool := match num_compare a b with Some Lt => true | _ => false end.
(** [min] and [max] keep the first of equal values; of an empty list they are [ValueError]. *)
Definition num_best (better : num → num → bool) (l : list num) : result num :=
  match l with
  | [] => Err (ValueError "arg is an empty sequence")
  | x :: l => Ok (fold_left (λ m y, if better y m then y else m) l x)
  end.
Definition num_min : list num → result num := num_best num_ltb.
Definition num_max : list num → result num := num_best (λ a b, num_ltb b a).
Definition num_le (a b : num) : Prop := num_leb a b = true.

#[export] Instance num_le_dec a b : Decision (num_le a b).
Proof. unfold num_le. apply _. Defined.

(** [statistics.median] *)
Definition median (l : list num) : result num :=
  let sorted := merge_sort num_le l in
  let n := length l in
  match n with
  | O => Err StatisticsError
  | _ =>
      if Nat.odd n then get_at sorted (n / 2)
      else a ← get_at sorted (n / 2 - 1)%nat; b ← get_at sorted (n / 2);
           s ← num_add a b; num_div s (Int 2)
  end.

(** [round(x, n)]: the decimal nearest to the exact value, ties to even, as a float. *)
Definition half_even (n d : Z) : Z :=
  let q := n / d in let r := 2 * (n mod d) in
  if r <? d then q else if d <? r then q + 1 else if Z.even q then q else q + 1.
Definition num_round (n : Z) (x : num) : result num :=
  match x with
  | Float (S754_finite s m e) =>
      Ok (Float (decimal s (half_even (Zpos m * 2 ^ Z.max e 0 * 10 ^ n) (2 ^ Z.max (- e) 0)) (- n)))
  | _ => Ok x
  end.
Example num_round_1 : mapR (λ t, f ← float_of_text t; num_round 3 (Float f)) ["2.0005"; "0.0625"; "1.23449999"; "-7.8996"] =
  mapR (λ t, Float <$> float_of_text t) ["2.001"; "0.062"; "1.234"; "-7.9"].
Proof. vm_compute. reflexivity. Qed.

(** [int(x)] *)
Definition num_trunc (n : num) : result Z :=
  match n with
  | Int z => Ok z
  | Float S754_nan => Err (ValueError "cannot convert float NaN to integer")
  | Float (S754_infinity _) => Err OverflowError
  | Float (S754_zero _) => Ok 0
  | Float (S754_finite s m e) =>
      let a := if 0 <=? e then Zpos m * 2 ^ e else Zpos m / 2 ^ (- e) in Ok (if s then - a else a)
  end.

Example median_1 : median [Int 3; Int 1; Float (decimal false 25 (-1)); Int 2] = Ok (Float (decimal false 225 (-2))).
Proof. vm_compute. reflexivity. Qed.

(** [bool(v)] of a JSON value *)
Definition truthy (v : json) : bool :=
  match v with
  | JNull => false
  | JBool b => b
  | JNum z => negb (z =? 0)
  | JReal t => match float_of_text t with Ok (S754_zero _) => false | _ => true end
  | JStr s => negb (String.eqb s "")
  | JArr l => match l with [] => false | _ => true end
  | JObj kvs => match kvs with [] => false | _ => true end
  end.

(** [v.get(k)], [row[k] = x], and arithmetic on the items of a row. *)
Definition jget (k : string) (v : json) : result json :=
  match v with JObj kvs => Ok (default JNull (dict_get k kvs)) | _ => Err AttributeError end.
Definition jupdate (kvs : list (string * json)) (v : json) : result json :=
  match v with JObj d => Ok (JObj (dict_update kvs d)) | _ => Err AttributeError end.
Definition jnum (k : string) (v : json) : result num := x ← jitem k v; num_of x.

(** [a == b] of two parsed values: objects are compared without the order of their keys, and
    numbers by value, so that [True == 1 == 1.0]. *)
Definition num_equal (a b : json) : bool :=
  match num_of a, num_of b with Ok x, Ok y => num_eqb x y | _, _ => false end.
Fixpoint json_eqb (a b : json) : bool :=
  match a, b with
  | JNull, JNull => true
  | JStr s, JStr t => String.eqb s t
  | JArr l, JArr m =>
      (fix go l m := match l, m with
                     | [], [] => true
                     | x :: l, y :: m => json_eqb x y && go l m
                     | _, _ => false
                     end) l m
  | JObj k, JObj m =>
      Nat.eqb (length k) (length m) &&
      (fix go k := match k with
                   | [] => true
                   | (n, x) :: k => match dict_get n m with Some y => json_eqb x y | None => false end && go k
                   end) k
  | _, _ => num_equal a b
  end.
Example json_eqb_1 :
  map (λ '(a, b), match loads a, loads b with Ok x, Ok y => Some (json_eqb x y) | _, _ => None end)
    [("[1, true]", "[1.0, 1]"); ("[1, 2]", "[1]"); ("[null, {}]", "[null, []]"); ("[0]", "[null]")] =
  [Some true; Some false; Some false; Some false].
Proof. vm_compute. reflexivity. Qed.
Example json_eqb_2 :
  json_eqb (JObj [("a", JNum 1); ("b", JNull)]) (JObj [("b", JNull); ("a", JReal "1e0")]) = true ∧
  json_eqb (JObj [("a", JNum 1)]) (JObj [("a", JNum 1); ("b", JNull)]) = false.
Proof. by vm_compute. Qed.
