(* ===== verification/FileSystem.v ===== *)
(** * Paths and the file system

    [pathlib.Path], [os], [shutil] and [tempfile] as the scripts use them: a tree
    of files, directories and symbolic links, operations that follow links the way
    the system calls do, and a schedule of injected I/O failures so that the theorems
    cover a disk that fails at any point. *)

From S2P Require Import Prelude.
From S2P Require Import PyText.

(** ** Paths: the components of an absolute path *)
Abbreviation path := (list string).

(** [p / "a/b"] *)
Definition sub (p : path) (s : string) : path := p ++ split "/" s.
Definition parent (p : path) : path := removelast p.
Definition name_of (p : path) : string := default "" (last p).
Definition with_name (p : path) (n : string) : path := parent p ++ [n].
(** [str(p)] and [p.as_posix()] *)
Definition posix (p : path) : string := "/" +:+ join "/" p.
(** [(p, *p.parents)] without the root, which is never a link. *)
Fixpoint ancestors_from (acc : path) (p : path) : list path :=
  match p with
  | [] => []
  | c :: p' => (acc ++ [c]) :: ancestors_from (acc ++ [c]) p'
  end.
Definition ancestors (p : path) : list path := ancestors_from [] p.

(** ** The tree *)
Inductive node : Type :=
| File (data : string) (mode : Z)
| Dir (mode : Z)
| Link (target : path).
#[export] Instance node_eq_dec : EqDecision node.
Proof. solve_decision. Defined.

(** The disk: the nodes below the root, and for each coming operation whether it
    fails ([Some k]: after writing [k] bytes, where it writes). *)
Record disk := { tree : gmap path node; faults : list (option nat) }.

Definition with_tree (t : gmap path node) (d : disk) : disk :=
  {| tree := t; faults := faults d |}.

Definition is_link (n : option node) : bool :=
  match n with Some (Link _) => true | _ => false end.

Section resolution.
Variable t : gmap path node.

(** Path resolution: [fuel] bounds the number of links followed (ELOOP). *)
Fixpoint walk (fuel : nat) : path → list string → option path :=
  fix go (acc : path) (cs : list string) : option path :=
    match cs with
    | [] => Some acc
    | c :: cs =>
        match t !! (acc ++ [c]) with
        | Some (Link tgt) =>
            match fuel with O => None | S fuel => walk fuel [] (tgt ++ cs) end
        | _ => go (acc ++ [c]) cs
        end
    end.

Definition resolve (p : path) : option path := walk 40 [] p.
(** The path of the directory entry [p] names, its last component not followed. *)
Definition entry (p : path) : option path :=
  match resolve (parent p) with
  | Some q => Some (if bool_decide (p = []) then [] else q ++ [name_of p])
  | None => None
  end.
Definition node_at (p : path) : option node :=
  match p with [] => Some (Dir 493) | _ => t !! p end.

(** [os.stat] and [os.lstat] *)
Definition stat (p : path) : option node := resolve p ≫= node_at.
Definition lstat (p : path) : option node := entry p ≫= node_at.
End resolution.

Arguments resolve : simpl never.
Arguments entry : simpl never.
Arguments stat : simpl never.
Arguments lstat : simpl never.

Definition path_exists (t : gmap path node) (p : path) : bool :=
  match stat t p with Some _ => true | None => false end.
Definition is_file (t : gmap path node) (p : path) : bool :=
  match stat t p with Some (File _ _) => true | _ => false end.
Definition is_dir (t : gmap path node) (p : path) : bool :=
  match stat t p with Some (Dir _) => true | _ => false end.
(** The contents of a file. *)
Definition file_at (t : gmap path node) (p : path) : option string :=
  match stat t p with Some (File data _) => Some data | _ => None end.
Definition is_symlink (t : gmap path node) (p : path) : bool := is_link (lstat t p).

(** The names of the entries of a directory. *)
Definition child_name (p q : path) : option string :=
  match drop (length p) q with
  | [n] => if bool_decide (take (length p) q = p) then Some n else None
  | _ => None
  end.
Definition children (t : gmap path node) (p : path) : list string :=
  omap (λ kv, child_name p kv.1) (map_to_list t).

(** The subtree at [p], the entry itself included. *)
Definition below (p q : path) : Prop := take (length p) q = p.
#[export] Instance below_dec p q : Decision (below p q).
Proof. unfold below. apply _. Defined.

(** ** Operations *)

(** Every operation first consults the failure schedule. *)
Definition tick : py disk () := λ d,
  match faults d with
  | [] => (Ok (), d)
  | None :: fs => (Ok (), {| tree := tree d; faults := fs |})
  | Some _ :: fs => (Err (OSError "I/O error"), {| tree := tree d; faults := fs |})
  end.

Definition get_tree : py disk (gmap path node) := gets tree.
Definition put_tree (t : gmap path node) : py disk () := modify (with_tree t).

Definition read_file (p : path) : py disk string :=
  tick;;
  t ← get_tree;
  match stat t p with
  | Some (File data _) => mret data
  | Some _ => raise (OSError "is a directory")
  | None => raise (FileNotFoundError (posix p))
  end.

Definition iterdir (p : path) : py disk (list string) :=
  tick;;
  t ← get_tree;
  match resolve t p with
  | Some q =>
      match node_at t q with
      | Some (Dir _) => mret (children t q)
      | _ => raise (OSError "not a directory")
      end
  | None => raise (OSError "too many links")
  end.

(** Write [data] to the file at the real path [q]; a failure leaves a prefix. *)
Definition write_at (q : path) (data : string) (mode : Z) : py disk () := λ d,
  let stored := match faults d with Some k :: _ => stake k data | _ => data end in
  let d' := {| tree := <[q := File stored mode]> (tree d); faults := tail (faults d) |} in
  match faults d with
  | Some _ :: _ => (Err (OSError "I/O error"), d')
  | _ => (Ok (), d')
  end.

(** [open(p, "w")] and the whole write. *)
Definition write_file (p : path) (data : string) : py disk () :=
  t ← get_tree;
  match resolve t p with
  | Some q =>
      match node_at t (parent q), node_at t q with
      | Some (Dir _), Some (File _ mode) => write_at q data mode
      | Some (Dir _), None => write_at q data 420
      | None, _ => raise (FileNotFoundError (posix p))
      | _, _ => raise (OSError "not a regular file")
      end
  | None => raise (OSError "too many links")
  end.

Definition chmod (p : path) (mode : Z) : py disk () :=
  tick;;
  t ← get_tree;
  match resolve t p with
  | Some q =>
      match t !! q with
      | Some (File data _) => put_tree (<[q := File data mode]> t)
      | Some (Dir _) => put_tree (<[q := Dir mode]> t)
      | _ => raise (FileNotFoundError (posix p))
      end
  | None => raise (OSError "too many links")
  end.

(** [p.mkdir(parents=True, exist_ok=True)] on a path with no links: create the
    missing directories from the root down. *)
Fixpoint make_dirs (l : list path) : py disk () :=
  match l with
  | [] => mret ()
  | q :: l =>
      t ← get_tree;
      match stat t q with
      | Some (Dir _) => make_dirs l
      | Some _ => raise (FileExistsError (posix q))
      | None => tick;; put_tree (<[q := Dir 493]> t);; make_dirs l
      end
  end.
Definition mkdir_p (p : path) : py disk () := make_dirs (ancestors p).

(** [p.unlink(missing_ok=True)] *)
Definition unlink_ok (p : path) : py disk () :=
  tick;;
  t ← get_tree;
  match entry t p with
  | Some q =>
      match t !! q with
      | Some (Dir _) => raise (OSError "is a directory")
      | Some _ => put_tree (delete q t)
      | None => mret ()
      end
  | None => raise (OSError "too many links")
  end.

(** [os.replace(p, q)] between files of one file system: atomic. *)
Definition replace_file (p q : path) : py disk () :=
  tick;;
  t ← get_tree;
  match entry t p, entry t q with
  | Some p', Some q' =>
      match t !! p', node_at t q', node_at t (parent q') with
      | Some n, (None | Some (File _ _) | Some (Link _)), Some (Dir _) =>
          put_tree (<[q' := n]> (delete p' t))
      | None, _, _ => raise (FileNotFoundError (posix p))
      | _, _, _ => raise (OSError "cannot replace")
      end
  | _, _ => raise (OSError "too many links")
  end.

(** [shutil.rmtree(p)] of a real directory: its entries one by one, the deepest
    first; a failure leaves the others. *)
Definition subtree (t : gmap path node) (p : path) : list path :=
  filter (below p) (map_to_list t).*1.
Definition shallower (a b : path) : Prop := (List.length a ≤ List.length b)%nat.
#[export] Instance shallower_dec : RelDecision shallower.
Proof. intros a b. unfold shallower. apply _. Defined.
Definition deepest_first (l : list path) : list path := rev (merge_sort shallower l).
Definition delete_entry (q : path) : py disk () :=
  tick;; modify (λ d, with_tree (delete q (tree d)) d).
Definition rmtree (p : path) : py disk () :=
  t ← get_tree;
  for_each delete_entry (deepest_first (subtree t p)).

(** [shutil.copyfile(p, q)] *)
Definition copyfile (p q : path) : py disk () :=
  data ← read_file p; write_file q data.

(** [shutil.copytree(p, q)]: [fuel] bounds the depth, links are followed. *)
Fixpoint copytree (fuel : nat) (p q : path) : py disk () :=
  match fuel with
  | O => raise (OSError "too many levels")
  | S fuel =>
      t ← get_tree;
      match stat t p with
      | Some (Dir mode) =>
          mkdir_p q;;
          names ← iterdir p;
          for_each (λ name, copytree fuel (p ++ [name]) (q ++ [name])) names;;
          chmod q mode
      | Some (File _ mode) => copyfile p q;; chmod q mode
      | _ => raise (FileNotFoundError (posix p))
      end
  end.

Definition mode_bits (n : node) : Z :=
  match n with File _ m | Dir m => m | Link _ => 511 end.

(** [p.rename(q)] of a directory to a name that is not in use. *)
Definition rename_dir (p q : path) : py disk () :=
  tick;;
  t ← get_tree;
  match entry t p, entry t q with
  | Some p', Some q' =>
      match t !! p', t !! q' with
      | Some (Dir _), None =>
          let moved := filter (λ kv, below p' kv.1) (map_to_list t) in
          put_tree (foldr (λ kv t, <[q' ++ drop (length p') kv.1 := kv.2]> t)
            (foldr (λ kv t, delete kv.1 t) t moved) moved)
      | None, _ => raise (FileNotFoundError (posix p))
      | _, _ => raise (OSError "cannot rename")
      end
  | _, _ => raise (OSError "too many links")
  end.

(** ** Lemmas *)

(** *** Link-free paths *)
Definition link_free (t : gmap path node) (p : path) : Prop :=
  ∀ q, q ∈ ancestors p → is_link (t !! q) = false.

Lemma ancestors_from_app acc a b :
  ancestors_from acc (a ++ b) = ancestors_from acc a ++ ancestors_from (acc ++ a) b.
Proof.
  revert acc. induction a as [|c a IH]; intros acc; simpl; [by rewrite app_nil_r|].
  by rewrite IH, <- app_assoc.
Qed.

Lemma ancestors_app a b : ancestors (a ++ b) = ancestors a ++ ancestors_from a b.
Proof. apply ancestors_from_app. Qed.

Lemma ancestors_snoc p c : ancestors (p ++ [c]) = ancestors p ++ [p ++ [c]].
Proof. by rewrite ancestors_app. Qed.

Lemma ancestors_self p : p ≠ [] → p ∈ ancestors p.
Proof.
  destruct p as [|c p _] using rev_ind; [done|]. intros _. rewrite ancestors_snoc.
  apply elem_of_app. right. by left.
Qed.

Lemma elem_ancestors p q : q ∈ ancestors p ↔ q ≠ [] ∧ q `prefix_of` p.
Proof.
  induction p as [|c p IH] using rev_ind.
  - split; [by intros ?%not_elem_of_nil|].
    intros [Hne [k Hk]]. symmetry in Hk. by apply app_eq_nil in Hk as [? _].
  - rewrite ancestors_snoc, elem_of_app, IH, list_elem_of_singleton. split.
    + intros [[Hne Hp]| ->].
      * split; [done|]. by apply prefix_app_r.
      * split; [by destruct p|done].
    + intros [Hne Hp]. destruct Hp as [k Hk].
      destruct k as [|x k _] using rev_ind.
      * right. by rewrite app_nil_r in Hk.
      * left. rewrite app_assoc in Hk. apply app_inj_tail in Hk as [-> _].
        split; [done|]. by exists k.
Qed.

Lemma link_free_app t a b : link_free t (a ++ b) → link_free t a.
Proof. intros H q Hq. apply H. rewrite ancestors_app. apply elem_of_app. by left. Qed.

Lemma walk_link_free t fuel acc cs :
  (∀ q, q ∈ ancestors_from acc cs → is_link (t !! q) = false) →
  walk t fuel acc cs = Some (acc ++ cs).
Proof.
  destruct fuel as [|fuel]; simpl.
  all: revert acc; induction cs as [|c cs IH]; intros acc H; [by rewrite app_nil_r|].
  all: pose proof (H (acc ++ [c])) as Hc; simpl in Hc.
  all: specialize (Hc ltac:(by left)).
  all: rewrite (cons_middle c acc cs), app_assoc, <- IH by (intros q Hq; apply H; by right).
  all: by destruct (t !! (acc ++ [c])) as [[]|].
Qed.

Lemma resolve_link_free t p : link_free t p → resolve t p = Some p.
Proof. intros H. by apply walk_link_free. Qed.

Lemma parent_snoc p c : parent (p ++ [c]) = p.
Proof. unfold parent. apply removelast_last. Qed.

Lemma name_of_snoc p c : name_of (p ++ [c]) = c.
Proof. unfold name_of. by rewrite last_snoc. Qed.

Lemma entry_link_free t p c : link_free t p → entry t (p ++ [c]) = Some (p ++ [c]).
Proof.
  intros H. unfold entry. rewrite parent_snoc, resolve_link_free, name_of_snoc by done.
  rewrite bool_decide_false; [done|]. by destruct p.
Qed.

Lemma node_at_ne t p : p ≠ [] → node_at t p = t !! p.
Proof. by destruct p. Qed.

Lemma snoc_ne {A} (p : list A) c : p ++ [c] ≠ [].
Proof. by destruct p. Qed.

(** *** Children and subtrees *)
Lemma below_refl p : below p p.
Proof. unfold below. by rewrite take_ge. Qed.

Lemma below_app p q : below p (p ++ q).
Proof. unfold below. by rewrite take_app_length. Qed.

Lemma below_prefix p q : below p q ↔ p `prefix_of` q.
Proof.
  split.
  - unfold below. intros H. exists (drop (length p) q).
    rewrite <- (take_drop (length p) q) at 1. by rewrite H.
  - intros [k ->]. apply below_app.
Qed.

Lemma child_name_Some p q n : child_name p q = Some n ↔ q = p ++ [n].
Proof.
  unfold child_name. split.
  - intros H. rewrite <- (take_drop (length p) q).
    destruct (drop (length p) q) as [|x [|]]; try done.
    case_bool_decide as Ht; [|done]. injection H as ->. by rewrite Ht.
  - intros ->. rewrite drop_app_length, take_app_length. by rewrite bool_decide_true.
Qed.

Lemma elem_children t p n : n ∈ children t p ↔ is_Some (t !! (p ++ [n])).
Proof.
  unfold children. rewrite list_elem_of_omap. split.
  - intros ([q x] & Hin & Hc%child_name_Some). simpl in Hc. subst.
    apply elem_of_map_to_list in Hin. by exists x.
  - intros [x Hx]. exists (p ++ [n], x). split; [by apply elem_of_map_to_list|].
    by apply child_name_Some.
Qed.

(** *** Invariants of the tree

    [on_tree J] is an invariant that does not look at the failure schedule.  The
    rules below give the effect of each operation on it; [frame R t0] says the
    tree differs from [t0] only at paths in [R]. *)
Definition on_tree (J : gmap path node → Prop) (d : disk) : Prop := J (tree d).
Definition os_error (e : exn) : Prop := is_os_error e = true.
#[export] Hint Extern 1 (os_error _) => exact eq_refl : within.

Definition agrees (R : path → Prop) (t0 t : gmap path node) : Prop :=
  ∀ q, ¬ R q → t !! q = t0 !! q.

Section tree_rules.
Context (J : gmap path node → Prop) (P : exn → Prop) (HP : ∀ e, os_error e → P e).

Lemma within_tick : within (on_tree J) P tick.
Proof.
    intros d Hd. unfold tick. destruct (faults d) as [|[k|] fs]; auto.
    split; [done|]. by apply HP.
Qed.

Lemma within_get_tree {A} (k : gmap path node → py disk A) :
    (∀ t, J t → within (on_tree J) P (k t)) → within (on_tree J) P (get_tree ≫= k).
Proof. intros Hk d Hd. exact (Hk (tree d) Hd d Hd). Qed.

Lemma within_put_tree t : J t → within (on_tree J) P (put_tree t).
Proof. intros Ht d _. exact Ht. Qed.

Lemma within_write_at q data mode :
    (∀ t s, J t → J (<[q := File s mode]> t)) → within (on_tree J) P (write_at q data mode).
Proof.
    intros HJ d Hd. unfold write_at. destruct (faults d) as [|[k|] fs].
    - by apply HJ.
    - split; [by apply HJ|]. by apply HP.
    - by apply HJ.
Qed.

Lemma within_read_file p : within (on_tree J) P (read_file p).
Proof.
    apply within_bind; [apply within_tick|]. intros _. apply within_get_tree. intros t _.
    destruct (stat t p) as [[]|]; solve_within; by apply HP.
Qed.

Lemma within_iterdir p : within (on_tree J) P (iterdir p).
Proof.
    apply within_bind; [apply within_tick|]. intros _. apply within_get_tree. intros t _.
    destruct (resolve t p) as [q|]; [destruct (node_at t q) as [[]|]|];
      solve_within; by apply HP.
Qed.
End tree_rules.

(** The side condition that [P] admits the OS errors. *)
Ltac os_side := let e := fresh in let He := fresh in
  intros e He; first [exact He | exact I | by left | by right].

Ltac fs_step :=
  lazymatch goal with
  | |- within _ _ (get_tree ≫= _) => apply within_get_tree; intros ? ?
  | |- within _ _ (put_tree _) => apply within_put_tree
  | |- within _ _ tick => apply within_tick; os_side
  | |- within _ _ (read_file _) => apply within_read_file; os_side
  | |- within _ _ (iterdir _) => apply within_iterdir; os_side
  | |- within _ _ (write_at _ _ _) => apply within_write_at; [os_side|]; intros ? ? ?
  | |- _ => within_step
  end.
Ltac solve_fs := repeat first [fs_step | solve [auto 2 with within nocore]].

(** Storing and deleting at a path of the footprint. *)
Lemma agrees_insert (R : path → Prop) t0 t q n :
  R q → agrees R t0 t → agrees R t0 (<[q := n]> t).
Proof. intros Hq Ht q' Hq'. rewrite lookup_insert_ne by naive_solver. by apply Ht. Qed.

Lemma agrees_delete (R : path → Prop) t0 t q :
  R q → agrees R t0 t → agrees R t0 (delete q t).
Proof. intros Hq Ht q' Hq'. rewrite lookup_delete_ne by naive_solver. by apply Ht. Qed.

(** The value a computation returns satisfies [G]. *)
Lemma within_bind_post {A B} (I : disk → Prop) P (G : A → Prop) (m : py disk A)
    (k : A → py disk B) :
  triple I m (λ a s, I s ∧ G a) (λ e s, I s ∧ P e) →
  (∀ a, G a → within I P (k a)) → within I P (m ≫= k).
Proof.
  intros Hm Hk. eapply triple_bind; [exact Hm|].
  intros a d [Hd Ha]. exact (Hk a Ha d Hd).
Qed.

(** Unfolding one operation on a disk with a known schedule. *)
Ltac fs_unfold := unfold mbind, py_bind, get_tree, gets, put_tree, modify, mret, py_ret,
  raise, lift in *; cbn [fst snd tree faults with_tree] in *.

Lemma link_free_entry t p : p ≠ [] → link_free t p → entry t p = Some p.
Proof.
  intros Hp H. destruct p as [|c p _] using rev_ind; [done|].
  apply entry_link_free. by eapply link_free_app.
Qed.

Lemma stat_link_free t p : p ≠ [] → link_free t p → stat t p = t !! p.
Proof.
  intros Hp H. unfold stat. rewrite resolve_link_free by done. cbn. by apply node_at_ne.
Qed.

Lemma link_free_snoc t p c :
  link_free t (p ++ [c]) ↔ link_free t p ∧ is_link (t !! (p ++ [c])) = false.
Proof.
  unfold link_free. setoid_rewrite ancestors_snoc. setoid_rewrite elem_of_app.
  setoid_rewrite list_elem_of_singleton. naive_solver.
Qed.

(** A path none of whose parts is seen as a symbolic link has no link on it. *)
Lemma no_symlink_link_free t p :
  (∀ q, q ∈ ancestors p → is_symlink t q = false) → link_free t p.
Proof.
  induction p as [|c p IH] using rev_ind; intros H.
  - by intros q ?%not_elem_of_nil.
  - assert (link_free t p) as Hp.
    { apply IH. intros q Hq. apply H. rewrite ancestors_snoc, elem_of_app. by left. }
    apply link_free_snoc. split; [done|].
    specialize (H (p ++ [c])). unfold is_symlink, lstat in H.
    rewrite entry_link_free in H by done. cbn in H. rewrite node_at_ne in H by apply snoc_ne.
    apply H. apply ancestors_self, snoc_ne.
Qed.

(** *** Removing a tree *)
Lemma elem_deepest_first q (l : list path) : q ∈ deepest_first l ↔ q ∈ l.
Proof.
  unfold deepest_first. rewrite <- (elem_of_Permutation_proper _ _ _ (Permutation_rev _)).
  by rewrite (merge_sort_Permutation _ l).
Qed.

Lemma elem_subtree t p q : q ∈ subtree t p ↔ below p q ∧ is_Some (t !! q).
Proof.
  unfold subtree. rewrite list_elem_of_filter, list_elem_of_fmap. split.
  - intros [Hb ([q' n] & -> & Hin%elem_of_map_to_list)]. split; [done|by exists n].
  - intros [Hb [n Hn]]. split; [done|]. exists (q, n). by rewrite elem_of_map_to_list.
Qed.

Lemma delete_entries_run (l : list path) d : faults d = [] →
  for_each delete_entry l d = (Ok (), with_tree (foldl (λ t q, delete q t) (tree d) l) d).
Proof.
  revert d. induction l as [|q l IH]; intros [t fs] Hf; simpl in *; subst; [done|].
  fs_unfold. unfold delete_entry, tick. fs_unfold. by rewrite IH.
Qed.

Lemma foldl_delete_lookup (l : list path) (t : gmap path node) q :
  foldl (λ t q, delete q t) t l !! q = if bool_decide (q ∈ l) then None else t !! q.
Proof.
  revert t. induction l as [|x l IH]; intros t; simpl; [done|]. rewrite IH.
  repeat case_bool_decide; try set_solver.
  - assert (q = x) as -> by set_solver. apply lookup_delete_eq.
  - apply lookup_delete_ne. set_solver.
Qed.

Lemma rmtree_run p d : faults d = [] →
  rmtree p d = (Ok (), with_tree (filter (λ kv, ¬ below p kv.1) (tree d)) d).
Proof.
  intros Hf. unfold rmtree. fs_unfold. rewrite delete_entries_run by done.
  do 2 f_equal. apply map_eq. intros q. rewrite foldl_delete_lookup.
  case_bool_decide as Hq; rewrite elem_deepest_first, elem_subtree in Hq.
  - symmetry. apply map_lookup_filter_None. right. intros n _ Hn. by destruct Hq.
  - destruct (tree d !! q) as [n|] eqn:Hn.
    + symmetry. apply map_lookup_filter_Some. split; [done|]. intros Hb. apply Hq. eauto.
    + symmetry. apply map_lookup_filter_None. by left.
Qed.

Lemma within_rmtree (J : gmap path node → Prop) P p :
  (∀ e, os_error e → P e) →
  (∀ t q, below p q → J t → J (delete q t)) → within (on_tree J) P (rmtree p).
Proof.
  intros HP HJ. apply within_get_tree. intros t _. apply within_for_each.
  intros q [Hb _]%elem_deepest_first%elem_subtree.
  apply within_bind; [by apply within_tick|]. intros _.
  apply within_modify. intros d. by apply HJ.
Qed.

(** *** Exceptions: the operations raise only [OSError] and its subclasses *)
Lemma no_invariant : (λ _ : disk, True) = on_tree (λ _, True).
Proof. done. Qed.

Section only_os_errors.
Lemma tick_os : raises os_error tick.
Proof. rewrite no_invariant. solve_fs. Qed.

Lemma read_file_os p : raises os_error (read_file p).
Proof. rewrite no_invariant. solve_fs. Qed.

Lemma iterdir_os p : raises os_error (iterdir p).
Proof. rewrite no_invariant. solve_fs. Qed.

Lemma write_file_os p data : raises os_error (write_file p data).
Proof. rewrite no_invariant. unfold write_file. solve_fs. Qed.

Lemma chmod_os p mode : raises os_error (chmod p mode).
Proof. rewrite no_invariant. unfold chmod. solve_fs. Qed.

Lemma unlink_ok_os p : raises os_error (unlink_ok p).
Proof. rewrite no_invariant. unfold unlink_ok. solve_fs. Qed.

Lemma replace_file_os p q : raises os_error (replace_file p q).
Proof. rewrite no_invariant. unfold replace_file. solve_fs. Qed.

Lemma rmtree_os p : raises os_error (rmtree p).
Proof. rewrite no_invariant. by apply within_rmtree. Qed.

Lemma make_dirs_os l : raises os_error (make_dirs l).
Proof. rewrite no_invariant. induction l as [|q l IH]; simpl; solve_fs. Qed.
End only_os_errors.

#[export] Hint Resolve tick_os read_file_os iterdir_os write_file_os chmod_os unlink_ok_os
  replace_file_os rmtree_os make_dirs_os : within.

(** *** Runs without I/O failures *)
Definition no_faults (t : gmap path node) : disk := {| tree := t; faults := [] |}.

Lemma snoc_neq {A} (p : list A) a b : a ≠ b → p ++ [a] ≠ p ++ [b].
Proof. intros Hab H. apply Hab. by apply app_inj_tail in H as [_ ?]. Qed.

Lemma dir_ne_snoc {A} (p : list A) a : p ≠ p ++ [a].
Proof. intros H. apply (f_equal List.length) in H. rewrite length_app in H. simpl in H. lia. Qed.

Lemma link_free_insert t p q n : is_link (Some n) = false → link_free t p →
  link_free (<[q := n]> t) p.
Proof.
  intros Hn Hp q' Hq'. destruct (decide (q = q')) as [<-|Hne].
  - by rewrite lookup_insert_eq.
  - rewrite lookup_insert_ne by done. by apply Hp.
Qed.

Lemma node_at_insert_ne t p q n : p ≠ q → node_at (<[q := n]> t) p = node_at t p.
Proof. intros H. destruct p; [done|]. cbn. by apply lookup_insert_ne. Qed.

Section runs.
Context (t : gmap path node) (dir : path) (name : string).
Context (Hfree : link_free t dir).

Lemma write_file_run data old mode m :
  node_at t dir = Some (Dir m) → t !! (dir ++ [name]) = Some (File old mode) →
  write_file (dir ++ [name]) data (no_faults t) =
    (Ok (), no_faults (<[dir ++ [name] := File data mode]> t)).
Proof.
  intros Hdir Hold. unfold write_file. fs_unfold. change (tree (no_faults t)) with t.
  rewrite resolve_link_free by (apply link_free_snoc; by rewrite Hold).
  by rewrite parent_snoc, Hdir, node_at_ne, Hold by apply snoc_ne.
Qed.

Lemma chmod_run data old mode : t !! (dir ++ [name]) = Some (File data old) →
  chmod (dir ++ [name]) mode (no_faults t) =
    (Ok (), no_faults (<[dir ++ [name] := File data mode]> t)).
Proof.
  intros Hold. unfold chmod. unfold no_faults at 1. fs_unfold. cbn.
  rewrite resolve_link_free by (apply link_free_snoc; by rewrite Hold).
  by rewrite Hold.
Qed.

Lemma replace_file_run other n m :
  node_at t dir = Some (Dir m) → t !! (dir ++ [other]) = Some n →
  (∀ m', t !! (dir ++ [name]) ≠ Some (Dir m')) →
  replace_file (dir ++ [other]) (dir ++ [name]) (no_faults t) =
    (Ok (), no_faults (<[dir ++ [name] := n]> (delete (dir ++ [other]) t))).
Proof.
  intros Hdir Hn Hname. unfold replace_file. unfold no_faults at 1. fs_unfold. cbn.
  rewrite !entry_link_free, Hn, parent_snoc, Hdir, node_at_ne by (done || apply snoc_ne).
  destruct (t !! (dir ++ [name])) as [[]|]; [done|naive_solver|done|done].
Qed.

Lemma unlink_missing_run : t !! (dir ++ [name]) = None →
  unlink_ok (dir ++ [name]) (no_faults t) = (Ok (), no_faults t).
Proof.
  intros Hn. unfold unlink_ok. unfold no_faults at 1. fs_unfold. cbn. rewrite entry_link_free by done. by rewrite Hn.
Qed.
End runs.

(** Creating the missing directories of a list. *)
Definition with_dirs (l : list path) (t : gmap path node) : gmap path node :=
  foldl (λ t q, match t !! q with None => <[q := Dir 493]> t | Some _ => t end) t l.

Lemma with_dirs_lookup l t q :
  with_dirs l t !! q = match t !! q with
                       | None => if bool_decide (q ∈ l) then Some (Dir 493) else None
                       | n => n
                       end.
Proof.
  revert t. induction l as [|x l IH]; intros t; simpl.
  - by destruct (t !! q).
  - unfold with_dirs in *. simpl. rewrite IH. destruct (t !! x) as [n|] eqn:Hx.
    + destruct (t !! q) eqn:Hq; [done|]. repeat case_bool_decide; set_solver.
    + destruct (decide (x = q)) as [->|Hne].
      * rewrite lookup_insert_eq, Hx. rewrite bool_decide_true by set_solver. done.
      * rewrite lookup_insert_ne by done. destruct (t !! q); [done|].
        repeat case_bool_decide; set_solver.
Qed.

Definition dir_or_none (n : option node) : Prop :=
  match n with Some (Dir _) | None => True | _ => False end.

Lemma make_dirs_run l t :
  (∀ q, q ∈ l → q ≠ [] ∧ link_free t q ∧ dir_or_none (t !! q)) →
  make_dirs l (no_faults t) = (Ok (), no_faults (with_dirs l t)).
Proof.
  revert t. induction l as [|q l IH]; intros t Hl; [done|]. simpl. fs_unfold. change (tree (no_faults t)) with t.
  destruct (Hl q ltac:(by left)) as (Hne & Hfree & Hq). rewrite stat_link_free by done.
  unfold with_dirs. simpl. destruct (t !! q) as [[]|] eqn:Hn; try done.
  - apply IH. intros q' Hq'. apply Hl. by right.
  - cbn. apply (IH (<[q:=Dir 493]> t)). intros q' Hq'.
    destruct (Hl q' ltac:(by right)) as (? & ? & Hd). split_and!; [done| |].
    + by apply link_free_insert.
    + destruct (decide (q = q')) as [<-|Hne'];
        [by rewrite lookup_insert_eq|by rewrite lookup_insert_ne].
Qed.

Lemma link_free_with_dirs l t p : link_free t p → link_free (with_dirs l t) p.
Proof.
  intros Hp q Hq. specialize (Hp q Hq). rewrite with_dirs_lookup.
  destruct (t !! q); [done|]. by case_bool_decide.
Qed.

Lemma with_dirs_dir l t q : q ∈ l → dir_or_none (t !! q) →
  ∃ m, with_dirs l t !! q = Some (Dir m).
Proof.
  intros Hq Hd. rewrite with_dirs_lookup. destruct (t !! q) as [[]|]; try done; [by eexists|].
  rewrite bool_decide_true by done. by eexists.
Qed.

Lemma with_dirs_some l t q n : t !! q = Some n → with_dirs l t !! q = Some n.
Proof. intros Hq. by rewrite with_dirs_lookup, Hq. Qed.

Lemma dir_or_none_with_dirs l t q : dir_or_none (t !! q) → dir_or_none (with_dirs l t !! q).
Proof. rewrite with_dirs_lookup. destruct (t !! q); [done|]. by case_bool_decide. Qed.

Lemma ancestors_link_free t p q : link_free t p → q ∈ ancestors p → q ≠ [] ∧ link_free t q.
Proof.
  intros Hp [Hne [k ->]]%elem_ancestors. split; [done|]. by eapply link_free_app.
Qed.

Lemma ancestor_nonempty p q : q ∈ ancestors p → q ≠ [].
Proof. by intros [? _]%elem_ancestors. Qed.

Lemma gives_get_tree {A : Type} (J : gmap path node → Prop) (G : A → Prop)
    (k : gmap path node → py disk A) :
  (∀ t, J t → gives (on_tree J) G (k t)) → gives (on_tree J) G (get_tree ≫= k).
Proof. intros Hk d Hd. exact (Hk (tree d) Hd d Hd). Qed.

Lemma read_file_no_faults t p :
  read_file p (no_faults t) =
    match file_at t p with
    | Some data => (Ok data, no_faults t)
    | None => (Err (match stat t p with Some _ => OSError "is a directory"
                    | None => FileNotFoundError (posix p) end), no_faults t)
    end.
Proof.
  unfold read_file, tick, no_faults, file_at. fs_unfold. cbn.
  by destruct (stat t p) as [[]|].
Qed.

(** Writing a file of a directory, there or not. *)
Definition writable (n : option node) : bool :=
  match n with None | Some (File _ _) => true | _ => false end.
Definition old_mode (n : option node) : Z := match n with Some (File _ m) => m | _ => 420%Z end.

Lemma write_run t dir name data m :
  link_free t dir → node_at t dir = Some (Dir m) → writable (t !! (dir ++ [name])) = true →
  write_file (dir ++ [name]) data (no_faults t) =
    (Ok (), no_faults (<[dir ++ [name] := File data (old_mode (t !! (dir ++ [name])))]> t)).
Proof.
  intros Hfree Hdir Hw. unfold write_file. fs_unfold. change (tree (no_faults t)) with t.
  rewrite resolve_link_free by (apply link_free_snoc; split; [done|by destruct (t !! (dir ++ [name])) as [[]|]]).
  rewrite parent_snoc, Hdir, node_at_ne by apply snoc_ne.
  by destruct (t !! (dir ++ [name])) as [[]|].
Qed.

Lemma file_at_free t dir name : link_free t dir → is_link (t !! (dir ++ [name])) = false →
  file_at t (dir ++ [name]) = match t !! (dir ++ [name]) with Some (File data _) => Some data | _ => None end.
Proof.
  intros Hfree Hl. unfold file_at. rewrite stat_link_free; [done|apply snoc_ne|].
  apply link_free_snoc. by split.
Qed.

Lemma read_run t dir name data m : link_free t dir → t !! (dir ++ [name]) = Some (File data m) →
  read_file (dir ++ [name]) (no_faults t) = (Ok data, no_faults t).
Proof. intros Hfree Hf. rewrite read_file_no_faults, file_at_free, Hf; [done|done|by rewrite Hf]. Qed.

(** A tree without symbolic links. *)
Definition no_links (t : gmap path node) : Prop := map_Forall (λ _ n, is_link (Some n) = false) t.
Lemma no_links_lookup t q : no_links t → is_link (t !! q) = false.
Proof. intros H. destruct (t !! q) as [n|] eqn:Hq; [exact (H q n Hq)|done]. Qed.

(** *** Reading from a known tree *)
Definition at_tree (t : gmap path node) (d : disk) : Prop := tree d = t.

Lemma read_file_gives t p :
  triple (at_tree t) (read_file p) (λ data d, at_tree t d ∧ file_at t p = Some data) (λ _, at_tree t).
Proof.
  intros [t' fs] Ht. unfold at_tree, read_file, tick, file_at in *. cbn in Ht. subst t'. fs_unfold.
  destruct fs as [|[k|] fs]; cbn; [| |]; try (destruct (stat t p) as [[]|]); done.
Qed.

Lemma iterdir_gives t p : link_free t p →
  triple (at_tree t) (iterdir p) (λ names d, at_tree t d ∧ names = children t p) (λ _, at_tree t).
Proof.
  intros Hp [t' fs] Ht. unfold at_tree, iterdir, tick in *. cbn in Ht. subst t'. fs_unfold.
  destruct fs as [|[k|] fs]; cbn; rewrite ?resolve_link_free by done;
    try (destruct (node_at t p) as [[]|]); done.
Qed.

(** Reading a list of files and making something of each. *)
Lemma read_all_gives {A B} t (at_path : A → path) (f : A → string → B) l :
  triple (at_tree t) (mapM_py (λ x, data ← read_file (at_path x); mret (f x data)) l)
    (λ ys d, at_tree t d ∧ Forall2 (λ x y, ∃ data, file_at t (at_path x) = Some data ∧ y = f x data) l ys)
    (λ _, at_tree t).
Proof.
  induction l as [|x l IH]; simpl; [by apply triple_ret|].
  eapply triple_bind.
  - eapply triple_bind; [apply read_file_gives|]. intros data.
    apply (triple_ret _ _ (λ y d, at_tree t d ∧ ∃ data, file_at t (at_path x) = Some data ∧ y = f x data)).
    intros d [Hd Hf]. eauto.
  - intros y d [Hd Hy]. specialize (IH d Hd). unfold mbind, py_bind, mret, py_ret.
    destruct (mapM_py _ l d) as [[ys|e] d']; [|done]. destruct IH as [Hd' Hys].
    split; [done|]. by constructor.
Qed.
