(* ===== verification/Confined.v ===== *)
(** * Changes confined to one directory

    [private out t0]: a tree that differs from [t0] only below the directory [out], where
    there is no link, and by the directories created above it; the rules say which
    operations of FileSystem.v keep it.  The generators and packagers are run through it. *)

From S2P Require Import Prelude.
From S2P Require Import PyText.
From S2P Require Import FileSystem.

(** The tree differs from [t0] only below the private directory, where there is no link, by
    directories created above it, and in the scratch space [R] of the tools that are run. *)
Definition private (R : path → Prop) (out : path) (t0 t : gmap path node) : Prop :=
  (∀ q, ¬ below out q → ¬ R q →
    t !! q = t0 !! q ∨ (t0 !! q = None ∧ q ∈ ancestors out ∧ t !! q = Some (Dir 493))) ∧
  (∀ q, below out q → is_link (t !! q) = false).

(** A directory that can be confined to: not the root, reached through no link, and not
    inside the scratch space. *)
Class Confinable (R : path → Prop) (out : path) (t0 : gmap path node) : Prop := {
  out_ne : out ≠ [];
  out_free : link_free t0 out;
  out_outside : ∀ q, q ∈ ancestors out → ¬ R q }.

Section private.
Context {R : path → Prop} {out : path} {t0 : gmap path node}.
#[local] Abbreviation private := (private R out t0).

Context `{!Confinable R out t0}.

Lemma private_link_free t q : private t → below out q → link_free t q.
Proof.
  intros [H1 H2] Hq q' Hq'. destruct (decide (below out q')) as [Hb|Hb]; [by apply H2|].
  apply elem_ancestors in Hq' as [Hne Hp].
  assert (q' `prefix_of` out) as Hpo.
  { apply below_prefix in Hq. destruct (prefix_weak_total _ _ _ Hp Hq) as [|Ho]; [done|].
    by destruct Hb; apply below_prefix. }
  assert (q' ∈ ancestors out) as Ha by (by apply elem_ancestors).
  destruct (H1 q' Hb (out_outside _ Ha)) as [-> | (_ & _ & ->)]; [by apply out_free|done].
Qed.

Lemma private_insert t q n : is_link (Some n) = false → below out q →
  private t → private (<[q := n]> t).
Proof.
  intros Hn Hq [H1 H2]. split; intros q' Hq'.
  - intros Hr. rewrite lookup_insert_ne by naive_solver. by apply H1.
  - rewrite lookup_insert. case_decide; [by subst|by apply H2].
Qed.

Lemma below_ne q : below out q → q ≠ [].
Proof. intros [k Hk]%below_prefix ->. symmetry in Hk. apply app_eq_nil in Hk as [H _]. by apply (out_ne (R := R) (t0 := t0)). Qed.

Lemma below_snoc q c : below out q → below out (q ++ [c]).
Proof. rewrite !below_prefix. intros H. by apply prefix_app_r. Qed.

Lemma below_out l : below out (out ++ l).
Proof. apply below_app. Qed.

Lemma write_private p data : below out p → keeps (on_tree private) (write_file p data).
Proof.
  intros Hp. apply within_get_tree. intros t Ht.
  rewrite resolve_link_free by (by apply private_link_free).
  destruct (node_at t (parent p)) as [[]|], (node_at t p) as [[]|]; solve_fs;
    by apply private_insert.
Qed.

Lemma chmod_private p mode : below out p → keeps (on_tree private) (chmod p mode).
Proof.
  intros Hp. apply within_bind; [by apply within_tick|intros _]. apply within_get_tree.
  intros t Ht. rewrite resolve_link_free by (by apply private_link_free).
  destruct (t !! p) as [[]|]; solve_fs; by apply private_insert.
Qed.

Lemma make_dirs_private l : (∀ q, q ∈ l → below out q ∨ q ∈ ancestors out) →
  keeps (on_tree private) (make_dirs l).
Proof.
  induction l as [|q l IH]; intros Hl; simpl; [solve_fs|].
  assert (keeps (on_tree private) (make_dirs l)) as Htail.
  { apply IH. intros q' Hq'. apply Hl. by right. }
  apply within_get_tree. intros t Ht.
  destruct (decide (below out q)) as [Hb|Hb].
  - destruct (stat t q) as [[]|]; solve_fs. by apply private_insert.
  - assert (q ∈ ancestors out) as Ha by (by destruct (Hl q ltac:(by left))).
    assert (link_free t q) as Hfree.
    { assert (link_free t out) as Hout by (apply private_link_free; [done|apply below_refl]).
      by apply (ancestors_link_free _ _ _ Hout). }
    rewrite stat_link_free by (done || by apply (ancestor_nonempty _ _ Ha)).
    destruct (t !! q) as [[]|] eqn:Hn; solve_fs. destruct Ht as [H1 H2].
    split; [intros q' Hq' Hr|intros q' Hq']; rewrite lookup_insert; case_decide; subst;
      [|by apply H1|done|by apply H2].
    right. split_and!; [|done|done]. by destruct (H1 q' Hb Hr) as [<-|[? _]].
Qed.


Lemma mkdir_private p : below out p → keeps (on_tree private) (mkdir_p p).
Proof.
  intros Hp. apply make_dirs_private. intros q [Hne Hq]%elem_ancestors.
  apply below_prefix in Hp. destruct (prefix_weak_total _ _ _ Hq Hp) as [Ho|Ho].
  - right. by apply elem_ancestors.
  - left. by apply below_prefix.
Qed.

Lemma read_private p : keeps (on_tree private) (read_file p).
Proof. by apply within_read_file. Qed.

Lemma iterdir_private p : keeps (on_tree private) (iterdir p).
Proof. by apply within_iterdir. Qed.

Lemma copyfile_private p q : below out q → keeps (on_tree private) (copyfile p q).
Proof.
  intros Hq. apply within_bind; [apply read_private|]. intros data. by apply write_private.
Qed.

Lemma copytree_private fuel p q : below out q → keeps (on_tree private) (copytree fuel p q).
Proof.
  revert p q. induction fuel as [|fuel IH]; intros p q Hq; simpl; [solve_fs|].
  apply within_get_tree. intros t Ht. destruct (stat t p) as [[]|]; solve_fs.
  - by apply copyfile_private.
  - by apply chmod_private.
  - by apply mkdir_private.
  - by apply IH, below_snoc.
  - by apply chmod_private.
Qed.
Lemma replay_private {A} (m : py disk A) : (∀ t, keeps (on_tree (eq t)) m) → keeps (on_tree private) m.
Proof.
  intros Hm d Hd. specialize (Hm (tree d) d eq_refl). unfold on_tree in *.
  destruct (m d) as [[a|x] d']; [by rewrite <- Hm|]. destruct Hm as [<- _]. done.
Qed.

(** What a write leaves. *)
Lemma write_private_gives t q data : private t → below out q →
  triple (at_tree t) (write_file q data)
    (λ _ d, private (tree d) ∧ ∃ m, tree d = <[q := File data m]> t) (λ _ d, private (tree d)).
Proof.
  intros Ht Hq [t' fs] Hd. unfold at_tree in Hd. cbn in Hd. subst t'.
  unfold write_file. fs_unfold. rewrite resolve_link_free by (by apply private_link_free).
  destruct (node_at t (parent q)) as [[]|], (node_at t q) as [[]|]; try done;
    unfold write_at; cbn [faults tree]; destruct fs as [|[k|] fs]; cbn;
    try (split; [|by eexists]); by apply private_insert.
Qed.

(** A file below the directory is read where it is. *)
Lemma private_file_at t q : private t → below out q →
  file_at t q = match t !! q with Some (File data _) => Some data | _ => None end.
Proof.
  intros Ht Hq. unfold file_at.
  rewrite stat_link_free; [done|by apply below_ne|by apply private_link_free].
Qed.
(** A step that keeps the invariant, before a triple from it. *)
Lemma private_step {A B} (m : py disk A) (k : A → py disk B) Q E :
  keeps (on_tree private) m → (∀ a, triple (on_tree private) (k a) Q E) →
  (∀ x d, on_tree private d → E x d) → triple (on_tree private) (m ≫= k) Q E.
Proof.
  intros Hm Hk HE. eapply triple_bind; [|exact Hk].
  eapply triple_consequence; [exact Hm|done|done|]. intros x d [Hd _]. by apply HE.
Qed.

(** Removing and renaming below the directory. *)
Lemma private_delete t q : below out q → private t → private (delete q t).
Proof.
  intros Hq [H1 H2]. split; [intros q' Hq' Hr|intros q' Hq'].
  - rewrite lookup_delete_ne by naive_solver. by apply H1.
  - rewrite lookup_delete. case_decide; [done|by apply H2].
Qed.

Lemma rmtree_private p : below out p → keeps (on_tree private) (rmtree p).
Proof.
  intros Hp. apply within_rmtree; [done|]. intros t q Hq. apply private_delete.
  apply below_prefix in Hp, Hq. apply below_prefix. by transitivity p.
Qed.

Lemma entry_private t p c : private t → below out p → entry t (p ++ [c]) = Some (p ++ [c]).
Proof. intros Ht Hp. apply entry_link_free. by apply private_link_free. Qed.

Lemma below_trans p q : below out p → below p q → below out q.
Proof. rewrite !below_prefix. apply PreOrder_Transitive. Qed.

Lemma rename_private p a q b : below out p → below out q →
  keeps (on_tree private) (rename_dir (p ++ [a]) (q ++ [b])).
Proof.
  intros Hp Hq. apply within_bind; [by apply within_tick|intros _]. apply within_get_tree.
  intros t Ht. rewrite !entry_private by done.
  destruct (t !! (p ++ [a])) as [[]|] eqn:Ha, (t !! (q ++ [b])) eqn:Hb; solve_fs.
  cbv zeta. apply within_put_tree. set (moved := filter _ _).
  assert (∀ kv, kv ∈ moved → below out kv.1 ∧ is_link (Some kv.2) = false) as Hm.
  { intros [k n] [Hk Hin]%list_elem_of_filter. apply elem_of_map_to_list in Hin. simpl in *.
    assert (below out k) as Hko by (eapply below_trans; [|exact Hk]; by apply below_snoc).
    split; [done|]. destruct Ht as [_ H2]. specialize (H2 k Hko). by rewrite Hin in H2. }
  clearbody moved. assert (private (foldr (λ kv t, delete kv.1 t) t moved)) as Hd.
  { revert Hm. induction moved as [|kv l IH]; intros Hm; [done|]. simpl.
    apply private_delete.
    - apply (Hm kv). by left.
    - apply IH. intros kv' Hkv. apply (Hm kv'). by right. }
  revert Hd. generalize (foldr (λ kv t, delete kv.1 t) t moved). intros t' Ht'.
  revert Hm. induction moved as [|kv l IH]; intros Hm; [exact Ht'|]. simpl. apply private_insert.
  - apply (Hm kv). by left.
  - eapply below_trans; [|apply below_app]. by apply below_snoc.
  - apply IH. intros kv' Hkv. apply (Hm kv'). by right.
Qed.
End private.

#[export] Hint Extern 0 (Confinable _ _ _) => apply _ : within.
