(* ===== verification/Tools.v ===== *)
(** * Tools: subprocesses, temporary directories and archives

    What the package builders share: the commands they run ([subprocess]), temporary
    directories ([tempfile]), the entries they put into zip and tar archives, and the
    publication of an archive with its checksum.  The commands, the digest and the bytes
    of an archive are the operations of a class; its laws are the documented behaviour
    the theorems rely on. *)

From S2P Require Import Prelude.
From S2P Require Import PyText.
From S2P Require Import PyBytes.
From S2P Require Import Json.
From S2P Require Import FileSystem.
From S2P Require Import Confined.
From Stdlib Require Import Ascii.
#[local] Open Scope Z_scope.

(** ** Commands *)
Abbreviation env := (list (string * string)).
Record command := { argv : list string; cwd : option path; env_of : option env }.

(** [a | b] of dictionaries *)
Definition dict_or {K V} `{EqDecision K} (a b : list (K * V)) : list (K * V) := dict_update b a.

(** ** Archive entries *)
Record zip_info := { z_name : string; z_time : list Z; z_system : Z; z_attr : Z }.
Inductive tar_type := RegType | DirType | LinkType (target : path).
Record owner := { uid : Z; gid : Z; uname : string; gname : string; mtime : Z }.
Record tar_info := { t_name : string; t_type : tar_type; t_mode : Z; t_owner : owner }.

Definition is_dir_type (i : tar_info) : bool :=
  match t_type i with DirType => true | _ => false end.

(** [run]: [subprocess.run(..., check=True)]; [temp_name]: the name [tempfile] picks in a
    directory; [owner_of]: the owner and time [os.stat] reports. *)
Class Tools := {
  environ : env;
  run : command → py disk ();
  check_output : command → py disk string;
  temp_name : string → gmap path node → path → string;
  sha256 : string → string;
  zip_bytes : list (zip_info * string) → string;
  tar_bytes : list (tar_info * string) → string;
  gzip_bytes : Z → string → string;
  owner_of : path → owner }.

(** A temporary name has its prefix and names nothing; [check_output] commands read. *)
Class ToolsLaws `(Tools) : Prop := {
  temp_prefix : ∀ prefix t dir, startswith (temp_name prefix t dir) prefix = true;
  temp_fresh : ∀ prefix t dir q, below (dir ++ [temp_name prefix t dir]) q → t !! q = None;
  check_output_reads : ∀ (J : gmap path node → Prop) c, keeps (on_tree J) (check_output c) }.

(** ** Numbers and times *)

(** [int(s)] of ASCII text: blanks around, a sign, digits with single underscores between. *)
Fixpoint int_digits (acc : Z) (digit : bool) (s : string) : option Z :=
  match s with
  | "" => if digit then Some acc else None
  | String c s1 =>
      if Ascii.eqb c "_" then (if digit then int_digits acc false s1 else None)
      else d ← digit_value c; int_digits (10 * acc + d) true s1
  end.
Definition py_int (s : string) : result Z :=
  let s := strip s in
  let '(sign, s) := match s with
                    | String c s1 => if Ascii.eqb c "-" then (-1, s1)
                                     else if Ascii.eqb c "+" then (1, s1) else (1, s)
                    | "" => (1, s) end in
  z ← from_option_or (ValueError "invalid literal for int()") (int_digits 0 false s);
  Ok (sign * z).

(** [time.gmtime(t)[:6]]: the civil date by the 400-year eras that start on 1 March. *)
Definition gmtime (t : Z) : list Z :=
  let days := t / 86400 in
  let secs := t mod 86400 in
  let z := days + 719468 in
  let era := z / 146097 in
  let doe := z mod 146097 in
  let yoe := (doe - doe / 1460 + doe / 36524 - doe / 146096) / 365 in
  let doy := doe - (365 * yoe + yoe / 4 - yoe / 100) in
  let mp := (5 * doy + 2) / 153 in
  let month := if mp <? 10 then mp + 3 else mp - 9 in
  [ yoe + era * 400 + (if month <=? 2 then 1 else 0); month; doy - (153 * mp + 2) / 5 + 1;
    secs / 3600; secs mod 3600 / 60; secs mod 60 ].

Example gmtime_1 : gmtime 315532800 = [1980; 1; 1; 0; 0; 0]. Proof. reflexivity. Qed.
Example gmtime_2 : gmtime 1709210096 = [2024; 2; 29; 12; 34; 56]. Proof. reflexivity. Qed.

(** ** Listings *)

(** [sorted(p.rglob("*"))]: everything below [p], by the components of the paths. *)
Fixpoint path_leb (p q : path) : bool :=
  match p, q with
  | [], _ => true
  | _ :: _, [] => false
  | a :: p, b :: q => if String.eqb a b then path_leb p q else sleb a b
  end.
Definition path_le (p q : path) : Prop := path_leb p q = true.
#[export] Instance path_le_dec : RelDecision path_le.
Proof. intros p q. unfold path_le. apply _. Defined.
Definition rglob (t : gmap path node) (p : path) : list path :=
  merge_sort path_le (filter (λ q, q ≠ p) (subtree t p)).

(** [q.relative_to(p).as_posix()] *)
Definition relative (p q : path) : string := join "/" (drop (length p) q).

(** [re.fullmatch] of the version arguments *)
Definition version_char (c : ascii) : bool := is_alnum c || char_in ".+_-" c.
Definition is_version (s : string) : bool := fullmatch_head is_alnum version_char 63 s.

(** The line of a [.sha256] file. *)
Definition checksum_line (digest : string → string) (name data : string) : string :=
  digest data +:+ "  " +:+ name +:+ nl.

Section tools.
Context `{Tools}.

(** [tempfile.mkdtemp(prefix, dir)] and [with TemporaryDirectory(prefix, dir) as temp] *)
Definition mkdtemp (prefix : string) (dir : path) : py disk path :=
  tick;;
  t ← get_tree;
  match resolve t dir with
  | Some q =>
      match node_at t q with
      | Some (Dir _) =>
          put_tree (<[q ++ [temp_name prefix t q] := Dir 448]> t);;
          mret (q ++ [temp_name prefix t q])
      | _ => raise (FileNotFoundError (posix dir))
      end
  | None => raise (OSError "too many links")
  end.
Definition with_temporary {A} (prefix : string) (dir : path) (body : path → py disk A) : py disk A :=
  temp ← mkdtemp prefix dir;
  try_finally (body temp) (rmtree temp).

(** [tar.add(p, arcname=name, filter=f)]: the entry itself, then its children by name. *)
Fixpoint tar_add (fuel : nat) (f : tar_info → tar_info) (p : path) (name : string) :
    py disk (list (tar_info * string)) :=
  match fuel with
  | O => raise (OSError "too many levels")
  | S fuel =>
      t ← get_tree;
      let info ty mode := f {| t_name := name; t_type := ty; t_mode := mode; t_owner := owner_of p |} in
      match lstat t p with
      | Some (File _ mode) => data ← read_file p; mret [(info RegType mode, data)]
      | Some (Dir mode) =>
          names ← iterdir p;
          inner ← mapM_py (λ c, tar_add fuel f (p ++ [c]) (name +:+ "/" +:+ c)) (sort_strings names);
          mret ((info DirType mode, "") :: concat inner)
      | Some (Link target) => mret [(info (LinkType target) 511, "")]
      | None => raise (FileNotFoundError (posix p))
      end
  end.

(** [pending.replace(archive)] and the checksum file next to it. *)
Definition publish (pending archive : path) : py disk () :=
  replace_file pending archive;;
  data ← read_file archive;
  write_file (with_name archive (name_of archive +:+ ".sha256"))
    (checksum_line sha256 (name_of archive) data).

(** Every entry of [tar_add] went through the filter, under a name below the given one. *)
Lemma tar_add_gives J f fuel p name :
  gives (on_tree J) (Forall (λ e, ∃ i, e.1 = f i ∧ startswith (t_name i) name = true))
    (tar_add fuel f p name).
Proof.
  cut (∀ n, startswith n name = true → gives (on_tree J)
    (Forall (λ e, ∃ i, e.1 = f i ∧ startswith (t_name i) name = true)) (tar_add fuel f p n)).
  { intros Hall. apply Hall. apply startswith_true. exists "". by rewrite sapp_nil_r. }
  revert p. induction fuel as [|fuel IH]; intros p n Hn; simpl; [by intros d Hd|].
  apply gives_get_tree. intros t Ht. destruct (lstat t p) as [[data mode|mode|target]|].
  - apply gives_step; [by apply within_read_file|intros data']. apply gives_ret.
    repeat constructor. by eexists.
  - apply gives_step; [by apply within_iterdir|intros names].
    eapply gives_bind; [apply gives_mapM; intros c; apply IH|intros inner Hinner].
    + apply startswith_true in Hn as [r ->]. rewrite sapp_assoc. apply startswith_app.
    + apply gives_ret. constructor; [by eexists|]. by apply Forall_concat.
  - apply gives_ret. repeat constructor. by eexists.
  - by intros d Hd.
Qed.
End tools.
