(* ===== verification/SampleTools.v ===== *)
(** * Sample tools

    Concrete tools that satisfy the laws of Tools.v, for the theorems' instances: a name
    that occurs nowhere on the disk, archives whose members can be read back, a constant
    digest. *)

From S2P Require Import Prelude.
From S2P Require Import PyText.
From S2P Require Import FileSystem.
From S2P Require Import Tools.
From Stdlib Require Import Ascii.

(** Texts one after the other, each character marked and each text ended. *)
Fixpoint marked (s : string) : string :=
  match s with "" => "." | String c s1 => String "x" (String c (marked s1)) end.
Fixpoint unmarked (cur s : string) : list string :=
  match s with
  | String a (String c s1 as s2) =>
      if Ascii.eqb a "x" then unmarked (cur +:+ String c "") s1 else cur :: unmarked "" s2
  | String a "" => [cur]
  | "" => []
  end.
Fixpoint pairs (l : list string) : list (string * string) :=
  match l with a :: b :: l => (a, b) :: pairs l | _ => [] end.

Fixpoint marked_pairs (l : list (string * string)) : string :=
  match l with [] => "" | (a, b) :: l => marked a +:+ marked b +:+ marked_pairs l end.

Lemma unmarked_marked cur s r : unmarked cur (marked s +:+ r) = (cur +:+ s) :: unmarked "" r.
Proof.
  revert cur. induction s as [|c s IH]; intros cur; simpl marked.
  - rewrite sapp_nil_r. by destruct r.
  - rewrite !sapp_cons. cbn [unmarked Ascii.eqb Bool.eqb]. rewrite IH, sapp_assoc. done.
Qed.

Lemma pairs_marked l : pairs (unmarked "" (marked_pairs l)) = l.
Proof.
  induction l as [|[a b] l IH]; [done|]. cbn [marked_pairs]. rewrite !unmarked_marked. simpl. by rewrite IH.
Qed.

(** The names of all the entries of a disk. *)
Definition all_names (t : gmap path node) : list string := mjoin (map_to_list t).*1.
Definition sample_name (prefix : string) (t : gmap path node) (dir : path) : string :=
  prefix +:+ fresh (omap (drop_prefix prefix) (all_names t)).

Lemma sample_name_fresh prefix t dir q : below (dir ++ [sample_name prefix t dir]) q → t !! q = None.
Proof.
  intros Hb. destruct (t !! q) as [n|] eqn:Hn; [|done]. exfalso.
  assert (sample_name prefix t dir ∈ all_names t) as Hin.
  { apply list_elem_of_join. exists q. split.
    - apply below_prefix in Hb as [k ->]. apply elem_of_app. left. apply elem_of_app. right. by left.
    - apply list_elem_of_fmap. exists (q, n). split; [done|]. by apply elem_of_map_to_list. }
  apply (infinite_is_fresh (omap (drop_prefix prefix) (all_names t))).
  apply list_elem_of_omap. eexists. split; [exact Hin|]. by apply drop_prefix_Some.
Qed.

Definition sample_digest (s : string) : string := "0123456789abcdef".
Definition sample_zip (es : list (zip_info * string)) : string :=
  marked_pairs (map (λ e, (z_name e.1, e.2)) es).
Definition sample_unzip (s : string) : option (list (string * string)) := Some (pairs (unmarked "" s)).

Lemma sample_zip_read es : sample_unzip (sample_zip es) = Some (map (λ e, (z_name e.1, e.2)) es).
Proof. unfold sample_unzip, sample_zip. by rewrite pairs_marked. Qed.

Definition sample_tools (build : command → py disk ()) (output : command → string) : Tools := {|
  environ := [("SOURCE_DATE_EPOCH", "1700000000")];
  run := build;
  check_output c := mret (output c);
  temp_name := sample_name;
  sha256 := sample_digest;
  zip_bytes := sample_zip;
  tar_bytes es := marked_pairs (map (λ e, (t_name e.1, e.2)) es);
  gzip_bytes epoch s := s;
  owner_of p := {| uid := 1000; gid := 1000; uname := "user"; gname := "user"; mtime := 0 |} |}.

#[export] Instance sample_laws build output : ToolsLaws (sample_tools build output).
Proof.
  split; cbn.
  - intros. apply startswith_app.
  - apply sample_name_fresh.
  - intros. apply within_ret.
Qed.
