(* ===== verification/Publish.v ===== *)
(** * Publication of an archive

    The contract the package builders share: whatever fails, the files next to the archive
    are as they were, the archive is the old one or a complete new one, and what else is
    left lies in a temporary directory that did not exist. *)

From S2P Require Import Prelude.
From S2P Require Import PyText.
From S2P Require Import FileSystem.
From S2P Require Import Confined.
From S2P Require Import Json.
From S2P Require Import Tools.

(** What a build may leave at [q], starting from [t0]. *)
Inductive left_over (R : path → Prop) (prefix : string) (output : path) (name : string) (complete : string → Prop)
    (t0 : gmap path node) (q : path) : option node → Prop :=
| left_same : left_over R prefix output name complete t0 q (t0 !! q)
| left_archive data m :
    q = output ++ [name] → complete data →
    left_over R prefix output name complete t0 q (Some (File data m))
| left_checksum data m :
    q = output ++ [name +:+ ".sha256"] →
    left_over R prefix output name complete t0 q (Some (File data m))
| left_temp temp n :
    t0 !! q = None → startswith temp prefix = true → below (output ++ [temp]) q →
    is_link n = false → left_over R prefix output name complete t0 q n
| left_scratch n : R q → left_over R prefix output name complete t0 q n
| left_above :
    t0 !! q = None → q ∈ ancestors output →
    left_over R prefix output name complete t0 q (Some (Dir 493)).

(** The scratch space is apart from the output directory. *)
Class Apart (R : path → Prop) (output : path) : Prop := {
  apart_above : ∀ q, q ∈ ancestors output → ¬ R q;
  apart_below : ∀ q, below output q → ¬ R q }.

#[export] Instance apart_nothing output : Apart (λ _, False) output.
Proof. split; tauto. Qed.

Section publish.
Context `{ToolsLaws} (R : path → Prop) (prefix : string) (output : path) (name : string).
Context `{!Apart R output} `{R_dec : ∀ q, Decision (R q)}.
Context (complete : string → Prop) (t0 : gmap path node).

Definition ok (t : gmap path node) : Prop :=
  ∀ q, left_over R prefix output name complete t0 q (t !! q).

Lemma ok_insert t q n : ok t → left_over R prefix output name complete t0 q (Some n) → ok (<[q := n]> t).
Proof. intros Ht Hn q'. rewrite lookup_insert. case_decide; [by subst|apply Ht]. Qed.

Lemma ok_delete_temp t temp q : ok t → t0 !! q = None → startswith temp prefix = true →
  below (output ++ [temp]) q → ok (delete q t).
Proof.
  intros Ht Hq Hp Hb q'. rewrite lookup_delete. case_decide; [subst; by eapply left_temp|apply Ht].
Qed.

(** No link is left where there was none. *)
Lemma ok_not_link t q : ok t → ¬ R q → is_link (t0 !! q) = false → is_link (t !! q) = false.
Proof. intros Ht Hr Hq. by destruct (Ht q). Qed.

Lemma ok_none t q : ok t → ¬ R q → t !! q = None → t0 !! q = None.
Proof. intros Ht Hr Hn. specialize (Ht q). rewrite Hn in Ht. by inversion Ht. Qed.

Lemma below_output l : ¬ R (output ++ l).
Proof. apply (apart_below (output := output)), below_app. Qed.
Lemma below_temp x q : below (output ++ [x]) q → ¬ R q.
Proof. intros [k ->]%below_prefix. rewrite <- app_assoc. apply below_output. Qed.

Lemma ok_link_free t : ok t → link_free t0 output → link_free t output.
Proof. intros Ht Hp q Hq. apply ok_not_link; [done|by apply (apart_above (output := output))|by apply Hp]. Qed.
#[local] Hint Resolve below_output below_temp : core.

Context (out_free : link_free t0 output).
Context (checksum_free : is_link (t0 !! (output ++ [name +:+ ".sha256"])) = false).

Abbreviation checksum := (output ++ [name +:+ ".sha256"]).

Lemma write_checksum data : keeps (on_tree ok) (write_file checksum data).
Proof.
  apply within_get_tree. intros t Ht. rewrite resolve_link_free.
  2: { apply link_free_snoc. split; [by apply ok_link_free|by apply ok_not_link]. }
  assert (∀ s m, ok (<[checksum := File s m]> t)) as Hins
    by (intros s m; apply ok_insert; [done|by apply left_checksum]).
  assert (∀ t s m, ok t → ok (<[checksum := File s m]> t)) as Hins'
    by (intros t' s m Ht'; apply ok_insert; [done|by apply left_checksum]).
  destruct (node_at t (parent checksum)) as [[]|], (node_at t checksum) as [[]|]; solve_fs;
    by apply Hins'.
Qed.

(** ** Filling the temporary directory *)

(** The states before publication: a new temporary directory and nothing else. *)
Record filling (temp : path) (t1 t : gmap path node) : Prop := {
  fill_private : private R temp t1 t;
  fill_start : ok t1;
  fill_temp : ∃ x, temp = output ++ [x] ∧ startswith x prefix = true;
  fill_fresh : ∀ q, below temp q → t0 !! q = None }.

Lemma filling_ok temp t1 t : filling temp t1 t → ok t.
Proof.
  intros [[H1 H2] Hok (x & -> & Hx) Hfresh] q.
  destruct (decide (below (output ++ [x]) q)) as [Hb|Hb].
  - eapply left_temp; [by apply Hfresh|done|done|by apply H2].
  - destruct (decide (R q)) as [Hr|Hr]; [by apply left_scratch|].
    destruct (H1 q Hb Hr) as [-> | (Hn & Ha & ->)]; [apply Hok|].
    rewrite ancestors_snoc in Ha. apply elem_of_app in Ha as [Ha| ->%list_elem_of_singleton].
    + apply left_above; [by apply (ok_none t1)|done].
    + by destruct Hb; apply below_refl.
Qed.

(** A temporary directory whose archive [n] is complete. *)
Definition filled (temp : path) (d : disk) : Prop :=
  ∃ t1 data m, filling temp t1 (tree d) ∧ tree d !! (temp ++ [name]) = Some (File data m) ∧ complete data.

Lemma filled_ok temp d : filled temp d → on_tree ok d.
Proof. intros (t1 & data & m & Hf & _). by eapply filling_ok. Qed.

Lemma filling_link_free temp t1 t : filling temp t1 t → link_free t temp.
Proof.
  intros Hf. pose proof (filling_ok _ _ _ Hf) as Hok. destruct Hf as [_ _ (x & -> & Hx) Hfresh].
  apply link_free_snoc. split; [by apply ok_link_free|]. apply ok_not_link; [done|done|].
  by rewrite Hfresh by apply below_refl.
Qed.

(** The rename is the publication: before it the archive is the old one, after it the
    complete one. *)
Lemma replace_publishes temp :
  triple (filled temp) (replace_file (temp ++ [name]) (output ++ [name]))
    (λ _, on_tree ok) (λ _ d, on_tree ok d ∧ True).
Proof.
  intros [t fs] Hd. pose proof (filled_ok _ _ Hd) as Hok.
  destruct Hd as (t1 & data & m & Hf & Hn & Hc). unfold on_tree in *. cbn [tree] in *.
  assert (ok (<[output ++ [name] := File data m]> (delete (temp ++ [name]) t))) as Hnew.
  { destruct (fill_temp _ _ _ Hf) as (x & -> & Hx). apply ok_insert; [|by eapply left_archive].
    eapply ok_delete_temp; [done| |exact Hx|apply below_app].
    apply (fill_fresh _ _ _ Hf), below_app. }
  pose proof (filling_link_free _ _ _ Hf) as Hl.
  unfold replace_file, tick. fs_unfold.
  destruct fs as [|[k|] fs]; cbn; [|done|];
    rewrite !entry_link_free, Hn, parent_snoc by (done || by apply ok_link_free);
    by destruct (node_at t (output ++ [name])) as [[]|], (node_at t output) as [[]|]; cbn.
Qed.

Lemma publish_safe temp :
  triple (filled temp) (publish (temp ++ [name]) (output ++ [name]))
    (λ _, on_tree ok) (λ _ d, on_tree ok d ∧ True).
Proof.
  unfold publish. eapply triple_bind; [apply replace_publishes|intros ?].
  apply within_bind; [by apply within_read_file|intros data].
  unfold with_name. rewrite parent_snoc, name_of_snoc. apply write_checksum.
Qed.

Lemma rmtree_ok temp x : temp = output ++ [x] → startswith x prefix = true →
  (∀ q, below temp q → t0 !! q = None) → keeps (on_tree ok) (rmtree temp).
Proof.
  intros -> Hx Hfresh. apply within_rmtree; [done|]. intros t q Hq Ht.
  eapply ok_delete_temp; [done|by apply Hfresh|exact Hx|done].
Qed.

Lemma mkdtemp_filling :
  triple (on_tree ok) (mkdtemp prefix output)
    (λ temp d, Confinable R temp (tree d) ∧ filling temp (tree d) (tree d)) (λ _ d, on_tree ok d ∧ True).
Proof.
  apply (triple_bind _ _ _ (λ _, on_tree ok)); [by apply (within_tick _ (λ _, True))|].
  intros ? d Hd. unfold on_tree in *. fs_unfold. rewrite resolve_link_free by (by apply ok_link_free).
  destruct (node_at (tree d) output) as [[| |]|]; [done| |done|done].
  set (x := temp_name prefix (tree d) output).
  assert (startswith x prefix = true) as Hx by apply temp_prefix.
  assert (∀ q, below (output ++ [x]) q → t0 !! q = None) as Hfresh.
  { intros q Hq. apply (ok_none (tree d)); [done|by eapply below_temp|by apply (temp_fresh prefix (tree d) output)]. }
  assert (ok (<[output ++ [x] := Dir 448]> (tree d))) as Hok1.
  { apply ok_insert; [done|]. eapply left_temp; [apply Hfresh, below_refl|exact Hx|apply below_refl|done]. }
  assert (filling (output ++ [x]) (<[output ++ [x] := Dir 448]> (tree d))
            (<[output ++ [x] := Dir 448]> (tree d))) as Hf1.
  { split; [|done|by exists x|done]. split; [by left|].
    intros q Hq. apply ok_not_link; [done|by eapply below_temp|]. by rewrite Hfresh. }
  split; [|done]. split; [apply snoc_ne|by eapply filling_link_free|].
  intros q. rewrite ancestors_snoc. intros [Hq|Hq]%elem_of_app; [by apply (apart_above (output := output))|].
  apply list_elem_of_singleton in Hq as ->. apply below_output.
Qed.

(** The directories above the output. *)
Lemma mkdir_ok : keeps (on_tree ok) (mkdir_p output).
Proof.
  unfold mkdir_p. assert (∀ q, q ∈ ancestors output → q ∈ ancestors output) as Hl by done.
  revert Hl. generalize (ancestors output) at 1 3. intros l.
  induction l as [|q l IH]; intros Hl; simpl; [solve_fs|].
  assert (keeps (on_tree ok) (make_dirs l)) as Htail by (apply IH; intros; apply Hl; by right).
  assert (q ∈ ancestors output) as Hq by (apply Hl; by left).
  apply within_get_tree. intros t Ht.
  assert (link_free t q) as Hfree by (by apply (ancestors_link_free _ _ _ (ok_link_free _ Ht out_free))).
  rewrite stat_link_free by (done || by apply (ancestor_nonempty _ _ Hq)).
  destruct (t !! q) as [[]|] eqn:Hn; solve_fs. apply ok_insert; [done|].
  apply left_above; [|done]. apply (ok_none t); [done|by apply (apart_above (output := output))|done].
Qed.

(** A builder that fills a private directory and then publishes is safe. *)
Lemma with_temporary_safe {A} (fill : path → py disk ()) (a : A) :
  (∀ temp t1, Confinable R temp t1 → filling temp t1 t1 →
    triple (on_tree (private R temp t1)) (fill temp)
      (λ _ d, on_tree (private R temp t1) d ∧
        ∃ data m, tree d !! (temp ++ [name]) = Some (File data m) ∧ complete data)
      (λ _, on_tree (private R temp t1))) →
  keeps (on_tree ok) (with_temporary prefix output (λ temp,
    fill temp;; publish (temp ++ [name]) (output ++ [name]);; mret a)).
Proof.
  intros Hfill. eapply triple_bind; [apply mkdtemp_filling|]. intros temp d [Hc Hf].
  set (t1 := tree d) in *. destruct (fill_temp _ _ _ Hf) as (x & Htemp & Hx).
  refine (triple_try_finally (on_tree (private R temp t1)) (on_tree ok) _ _ _ _ d (fill_private _ _ _ Hf)).
  2: { eapply rmtree_ok; [done|done|apply Hf]. }
  eapply triple_bind.
  - eapply triple_consequence; [exact (Hfill temp t1 Hc Hf)|done| |].
    + intros ? d' [Hp (data & m & Hn & Hdata)]. instantiate (1 := λ _, filled temp).
      exists t1, data, m. split_and!; [|done|done]. by destruct Hf; split.
    + intros e d' Hp. eapply (filling_ok temp t1). by destruct Hf; split.
  - intros ?. eapply triple_bind.
    + eapply triple_consequence; [apply publish_safe|done|done|by intros ? ? []].
    + intros ? d' Hd'. exact Hd'.
Qed.
End publish.

(** ** The staged files and their manifest *)
Section staged.
Context `{Tools} (R : path → Prop) (temp : path) (t1 : gmap path node) `{!Confinable R temp t1}.
Context (dir : string).
Abbreviation stage := (temp ++ [dir]).

Lemma stage_below l : below temp (stage ++ l).
Proof. rewrite <- app_assoc. apply below_app. Qed.

(** The list has the digest of every file of the stage. *)
Definition hashed (hashes : list (string * json)) (t : gmap path node) : Prop :=
  ∀ n content, file_at t (stage ++ [n]) = Some content → (n, JStr (sha256 content)) ∈ hashes.

(** The staged tree: the manifest, and the digests of everything else. *)
Definition staged (hashes : list (string * json)) (text : string) (t : gmap path node) : Prop :=
  private R temp t1 t ∧ file_at t (stage ++ ["manifest.json"]) = Some text ∧
  ∀ n content, n ≠ "manifest.json" → file_at t (stage ++ [n]) = Some content →
    (n, JStr (sha256 content)) ∈ hashes.

Lemma write_manifest_staged hashes text :
  triple (λ d, private R temp t1 (tree d) ∧ hashed hashes (tree d))
    (write_file (stage ++ ["manifest.json"]) text)
    (λ _ d, staged hashes text (tree d)) (λ _, on_tree (private R temp t1)).
Proof.
  intros d [Hd Hh].
  pose proof (write_private_gives (tree d) (stage ++ ["manifest.json"]) text Hd (stage_below _) d eq_refl) as Hw.
  destruct (write_file _ _ d) as [[[]|x] d']; [|done]. destruct Hw as [Hp [m Ht']]. split_and!; [done| |].
  - rewrite (private_file_at (R := R) (out := temp) (t0 := t1)) by (done || apply stage_below).
    by rewrite Ht', lookup_insert_eq.
  - intros n content Hn Hf. apply Hh. rewrite (private_file_at (R := R) (out := temp) (t0 := t1)) in Hf |- * by (done || apply stage_below).
    rewrite Ht', lookup_insert_ne in Hf; [done|]. by apply snoc_neq.
Qed.

Lemma staged_insert other hashes text data m t :
  staged hashes text t → staged hashes text (<[temp ++ [other] := File data m]> t).
Proof.
  intros (Hp & Hm & Hh).
  assert (private R temp t1 (<[temp ++ [other] := File data m]> t)) as Hp'
    by (apply private_insert; [done|apply below_app|done]).
  assert (∀ n, file_at (<[temp ++ [other] := File data m]> t) (stage ++ [n]) = file_at t (stage ++ [n])) as Heq.
  { intros n. rewrite !(private_file_at (R := R) (out := temp) (t0 := t1)) by (done || apply stage_below).
    rewrite lookup_insert_ne; [done|].
    intros Hn%(f_equal length). rewrite !length_app in Hn. simpl in Hn. lia. }
  split_and!; [done|by rewrite Heq|]. intros n content. rewrite Heq. apply Hh.
Qed.
End staged.

(** ** A temporary directory inside a confined one *)
Section confined_temporary.
Context `{Tools} {R : path → Prop} {out : path} {t0 : gmap path node} `{!Confinable R out t0}.

Lemma mkdtemp_private prefix :
  gives (on_tree (private R out t0)) (below out) (mkdtemp prefix out).
Proof.
  apply gives_step; [by apply within_tick|intros _]. apply gives_get_tree. intros t Ht.
  rewrite resolve_link_free by (apply private_link_free; [done|apply below_refl]).
  destruct (node_at t out) as [[]|]; try (by intros d Hd).
  apply gives_step.
  - apply within_put_tree. by apply private_insert; [|apply below_app|].
  - intros _. apply gives_ret, below_app.
Qed.

Lemma with_temporary_private {A} prefix (body : path → py disk A) :
  (∀ temp, below out temp → keeps (on_tree (private R out t0)) (body temp)) →
  keeps (on_tree (private R out t0)) (with_temporary prefix out body).
Proof.
  intros Hbody. eapply within_bind_post; [apply mkdtemp_private|]. intros temp Htemp.
  apply within_try_finally; [by apply Hbody|by apply rmtree_private].
Qed.
End confined_temporary.
