(* ===== verification/Install.v ===== *)
(** * The desktop installer

    [veil-desktop/scripts/install.py]: [safe_path], [desktop_entry],
    [atomic_write] and [manage], over the file system of FileSystem.v.  The name
    [tempfile.mkstemp] picks is a parameter, fresh in its directory. *)

From S2P Require Import Prelude.
From S2P Require Import PyText.
From S2P Require Import FileSystem.
From Stdlib Require Import Ascii.

Definition FILES : list string :=
  [ "veil-desktop"; "veil.svg"; "README.md"; "LICENSE"; "THIRD_PARTY.md";
    "manifest.json"; "install.py" ].
Definition APP_ID : string := "net.projectveil.Veil".
Definition MARKER : string := "X-Veil-Managed=true" +:+ nl.

Definition path_message : string :=
  "installation paths must be absolute and contain no control characters".

(** [safe_path]; a [path] is absolute by construction. *)
Fixpoint refuse_links (t : gmap path node) (parts : list path) : result () :=
  match parts with
  | [] => Ok ()
  | part :: parts =>
      raise_if (is_symlink t part) (ValueError ("refusing symbolic link: " +:+ posix part));;
      refuse_links t parts
  end.
Definition safe_path (t : gmap path node) (p : path) : result () :=
  raise_if (any_char is_control (posix p)) (ValueError path_message);;
  raise_if (contains "%" (posix p))
    (ValueError "desktop launchers require an installation path without %");;
  refuse_links t (rev (ancestors p)).

(** The loop that puts a backslash before every backslash, double quote, back quote
    and dollar sign, one character at a time. *)
Definition escape_chars (command : string) : string :=
  fold_left (λ s char, replace_all char (backslash +:+ char) s)
    [backslash; dquote; "`"; "$"] command.

Definition exec_value (target : path) : string :=
  let command := replace_all "%" "%%" (posix (sub target "veil-desktop")) in
  let command := escape_chars command in
  replace_all backslash (backslash +:+ backslash) (dquote +:+ command +:+ dquote).
Definition icon_value (target : path) : string :=
  replace_all backslash (backslash +:+ backslash) (posix (sub target "veil.svg")).

Definition desktop_entry (target : path) : string :=
  let command := exec_value target in
  let icon := icon_value target in
  "[Desktop Entry]" +:+ nl +:+ "Type=Application" +:+ nl +:+ "Name=Veil" +:+ nl +:+
  "Comment=Manage your Veil proxy" +:+ nl +:+ "Comment[zh_CN]=管理 Veil 代理" +:+ nl +:+
  "Exec=" +:+ command +:+ nl +:+ "Icon=" +:+ icon +:+ nl +:+ "Terminal=false" +:+ nl +:+
  "Categories=Network;" +:+ nl +:+ "StartupWMClass=Veil-desktop" +:+ nl +:+ MARKER.

Inductive action := Install | Uninstall.

Section installer.
(** [tempfile.mkstemp(prefix=".veil-", dir=_)] picks a name that is not in use. *)
Context (temp_name : gmap path node → path → string).
Context (temp_prefix : ∀ t dir, startswith (temp_name t dir) ".veil-" = true).
Context (temp_fresh : ∀ t dir, t !! (dir ++ [temp_name t dir]) = None).

Definition mkstemp (dir : path) : py disk path :=
  tick;;
  t ← get_tree;
  match resolve t dir with
  | Some q =>
      match node_at t q with
      | Some (Dir _) =>
          put_tree (<[q ++ [temp_name t q] := File "" 384]> t);;
          mret (q ++ [temp_name t q])
      | _ => raise (FileNotFoundError (posix dir))
      end
  | None => raise (OSError "too many links")
  end.

Definition atomic_write (p : path) (data : string) (mode : Z) : py disk () :=
  name ← mkstemp (parent p);
  try_finally (write_file name data;; chmod name mode;; replace_file name p)
    (unlink_ok name).

Definition target_of (prefix : path) : path := sub prefix "lib/veil-desktop".
Definition launcher_of (prefix : path) : path :=
  sub prefix ("share/applications/" +:+ APP_ID +:+ ".desktop").
Definition file_mode (name : string) : Z :=
  if String.eqb name "veil-desktop" then 493%Z else 420%Z.

(** The refusal of a directory that is not an installation of this program. *)
Definition check_child (t : gmap path node) (target : path) (name : string) : result () :=
  let child := target ++ [name] in
  raise_if (negb (bool_decide (name ∈ FILES)) || is_symlink t child || negb (is_file t child))
    (ValueError ("unexpected installation file: " +:+ posix child)).

Definition check_target (target : path) : py disk () :=
  t ← get_tree;
  when (path_exists t target) (
    when (negb (is_dir t target) || negb (is_file t (target ++ ["manifest.json"])))
      (raise (ValueError ("refusing unmanaged installation: " +:+ posix target)));;
    names ← iterdir target;
    for_each (λ name, lift (check_child t target name)) names).

Definition check_launcher (launcher : path) : py disk () :=
  t ← get_tree;
  when (path_exists t launcher) (
    text ← read_file launcher;
    when (negb (contains MARKER text))
      (raise (ValueError ("refusing unmanaged launcher: " +:+ posix launcher)))).

Definition checks (prefix : path) : py disk () :=
  t ← get_tree;
  lift (safe_path t (target_of prefix));;
  lift (safe_path t (launcher_of prefix));;
  check_target (target_of prefix);;
  check_launcher (launcher_of prefix).

Definition uninstall (prefix : path) : py disk () :=
  unlink_ok (launcher_of prefix);;
  t ← get_tree;
  when (path_exists t (target_of prefix)) (rmtree (target_of prefix)).

Definition read_inputs (source : path) : py disk (list (string * string)) :=
  mapM_py (λ name, data ← read_file (source ++ [name]); mret (name, data)) FILES.

Definition place_files (prefix : path) (contents : list (string * string)) : py disk () :=
  mkdir_p (target_of prefix);;
  mkdir_p (parent (launcher_of prefix));;
  for_each (λ kv, atomic_write (target_of prefix ++ [kv.1]) kv.2 (file_mode kv.1)) contents;;
  atomic_write (launcher_of prefix) (desktop_entry (target_of prefix)) 420.

Definition install (source prefix : path) : py disk () :=
  contents ← read_inputs source;
  place_files prefix contents.

Definition manage (act : action) (source prefix : path) : py disk () :=
  checks prefix;;
  match act with
  | Uninstall => uninstall prefix
  | Install => install source prefix
  end.

(** [main], once the arguments are parsed; [source] is the directory of the program. *)
Definition main (euid : Z) (act : action) (source prefix : path) : py disk () :=
  try_except
    (lift (raise_if (euid =? 0)%Z (ValueError "run as your desktop user, without sudo"));; manage act source prefix)
    (catch_if (λ e, is_value_error e || is_os_error e) (raise (SystemExit 1))).

(** ** Refusals change nothing *)

Lemma checks_keep J prefix : keeps (on_tree J) (checks prefix).
Proof. unfold checks, check_target, check_launcher. solve_fs. Qed.

Lemma read_inputs_keep J source : within (on_tree J) os_error (read_inputs source).
Proof. unfold read_inputs. solve_fs. Qed.

Lemma mkstemp_os dir : raises os_error (mkstemp dir).
Proof. rewrite no_invariant. unfold mkstemp. solve_fs. Qed.
#[local] Hint Resolve mkstemp_os : within.

Lemma atomic_write_os p data mode : raises os_error (atomic_write p data mode).
Proof. unfold atomic_write. solve_within. Qed.
#[local] Hint Resolve atomic_write_os : within.

Lemma uninstall_os prefix : raises os_error (uninstall prefix).
Proof. unfold uninstall, get_tree. solve_within. Qed.

Lemma install_os source prefix : raises os_error (install source prefix).
Proof.
  unfold install, place_files, mkdir_p. apply within_bind; [|intros; solve_within].
  rewrite no_invariant. apply read_inputs_keep.
Qed.

(** *** [main] *)
Definition caught (e : exn) : Prop := is_value_error e || is_os_error e = true.
#[local] Hint Extern 1 (caught _) => exact eq_refl : within.
Lemma os_caught {A} (m : py disk A) : raises os_error m → raises caught m.
Proof. intros Hm. eapply within_weaken; [exact Hm|]. intros e He. unfold caught. rewrite He. apply orb_true_r. Qed.
Lemma refuse_links_caught t parts e : refuse_links t parts = Err e → caught e.
Proof.
  induction parts as [|p parts IH]; [done|]. cbn. unfold raise_if. destruct (is_symlink t p); [|exact IH]. by intros [= <-].
Qed.
Lemma safe_path_caught t p e : safe_path t p = Err e → caught e.
Proof.
  unfold safe_path, raise_if. destruct (any_char _ _); [by intros [= <-]|]. cbn.
  destruct (contains _ _); [by intros [= <-]|]. apply refuse_links_caught.
Qed.
Lemma check_child_caught t target name e : check_child t target name = Err e → caught e.
Proof. unfold check_child, raise_if. destruct (_ || _); [by intros [= <-]|done]. Qed.
Lemma checks_caught prefix : raises caught (checks prefix).
Proof.
  pose proof (λ p, os_caught _ (read_file_os p)). pose proof (λ p, os_caught _ (iterdir_os p)).
  pose proof safe_path_caught. pose proof check_child_caught.
  unfold checks, check_target, check_launcher. rewrite no_invariant in *. solve_fs; eauto.
Qed.
Lemma manage_caught act source prefix : raises caught (manage act source prefix).
Proof.
  unfold manage. apply within_bind; [apply checks_caught|intros []].
  destruct act; apply os_caught; [apply install_os|apply uninstall_os].
Qed.
(** Every failure ends the program with status 1; root is refused before anything is read. *)
Lemma main_reports euid act source prefix d :
  main euid act source prefix d =
    if (euid =? 0)%Z then (Err (SystemExit 1), d) else
    let '(r, d') := manage act source prefix d in ((if is_ok r then Ok () else Err (SystemExit 1)), d').
Proof.
  unfold main, try_except, catch_if, mbind, py_bind, raise_if, lift, raise. destruct (euid =? 0)%Z; [done|].
  pose proof (manage_caught act source prefix d I) as Hm. cbn -[manage].
  destruct (manage act source prefix d) as [[[]|e] d']; [done|]. destruct Hm as [_ Hm]. unfold caught in Hm. by rewrite Hm.
Qed.


(** ** Inputs are read before anything is replaced *)

Lemma read_file_not_file p d :
  is_file (tree d) p = false → ∃ e d', read_file p d = (Err e, d') ∧ tree d' = tree d.
Proof.
  unfold is_file, read_file, tick. intros Hf. fs_unfold. destruct d as [t fs].
  destruct fs as [|[k|] fs]; cbn in *;
    try (destruct (stat t p) as [[]|]; [done|..]).
  all: by eexists _, _.
Qed.

Lemma read_list_fails source l name d :
  name ∈ l → is_file (tree d) (source ++ [name]) = false →
  ∃ e d', mapM_py (λ name, data ← read_file (source ++ [name]); mret (name, data)) l d
            = (Err e, d') ∧ tree d' = tree d.
Proof.
  intros Hin. revert d. induction Hin as [name l|name x l Hin IH]; intros d Hf.
  - destruct (read_file_not_file _ _ Hf) as (e & d' & He & Ht).
    exists e, d'. simpl. fs_unfold. by rewrite He.
  - simpl. pose proof (within_read_file (eq (tree d)) (λ _, True) ltac:(done)
      (source ++ [x]) d eq_refl) as Hx. unfold on_tree in Hx.
    fs_unfold. destruct (read_file (source ++ [x]) d) as [[data|e] d1].
    + rewrite Hx in Hf |- *. destruct (IH d1 Hf) as (e & d' & He & Ht).
      exists e, d'. by rewrite He.
    + exists e, d1. by destruct Hx.
Qed.

(** An installation whose source directory lacks one of its files raises and
    leaves the disk as it was, although most of its inputs were read. *)
Theorem missing_input_changes_nothing source prefix d name :
  name ∈ FILES → is_file (tree d) (source ++ [name]) = false →
  ∃ e d', manage Install source prefix d = (Err e, d') ∧ tree d' = tree d.
Proof.
  intros Hin Hf. pose proof (checks_keep (eq (tree d)) prefix d eq_refl) as Hc.
  unfold manage, install, read_inputs, mbind, py_bind, on_tree in *.
  destruct (checks prefix d) as [[[]|e] d1]; [|by exists e, d1; destruct Hc].
  rewrite Hc in Hf |- *. destruct (read_list_fails _ _ _ _ Hin Hf) as (e & d2 & He & Ht).
  exists e, d2. unfold mbind, py_bind in He. by rewrite He.
Qed.

(** ** A crash at any point *)

(** What an interrupted installation may leave at [q], starting from [t0]: what was
    there; a destination with its complete new contents; a created directory; a
    temporary file. *)
Inductive torn (t0 : gmap path node) (source prefix q : path) : option node → Prop :=
| torn_same : torn t0 source prefix q (t0 !! q)
| torn_file name data m :
    name ∈ FILES → q = target_of prefix ++ [name] →
    stat t0 (source ++ [name]) = Some (File data m) →
    torn t0 source prefix q (Some (File data (file_mode name)))
| torn_launcher :
    q = launcher_of prefix →
    torn t0 source prefix q (Some (File (desktop_entry (target_of prefix)) 420))
| torn_dir :
    t0 !! q = None →
    q ∈ ancestors (target_of prefix) ∨ q ∈ ancestors (parent (launcher_of prefix)) →
    torn t0 source prefix q (Some (Dir 493))
| torn_temp dir tmp data m :
    t0 !! q = None → q = dir ++ [tmp] → startswith tmp ".veil-" = true →
    dir = target_of prefix ∨ dir = parent (launcher_of prefix) →
    torn t0 source prefix q (Some (File data m)).

Section crash.
Context (t0 : gmap path node) (source prefix : path).
Let J (t : gmap path node) : Prop := ∀ q, torn t0 source prefix q (t !! q).
Let in_dirs (dir : path) : Prop :=
  dir = target_of prefix ∨ dir = parent (launcher_of prefix).

Lemma J_init : J t0.
Proof. intros q. constructor. Qed.

Lemma J_insert t q n : J t → torn t0 source prefix q (Some n) → J (<[q := n]> t).
Proof.
  intros HJ Hn q'. destruct (decide (q = q')) as [<-|Hne].
  - by rewrite lookup_insert_eq.
  - rewrite lookup_insert_ne by done. apply HJ.
Qed.

Lemma J_delete t q : J t → t0 !! q = None → J (delete q t).
Proof.
  intros HJ Hq q'. destruct (decide (q = q')) as [<-|Hne].
  - rewrite lookup_delete_eq, <- Hq. constructor.
  - rewrite lookup_delete_ne by done. apply HJ.
Qed.

Lemma J_none t q : J t → t !! q = None → t0 !! q = None.
Proof. intros HJ Hq. specialize (HJ q). rewrite Hq in HJ. by inversion HJ. Qed.

Lemma J_link_free t p : J t → link_free t0 p → link_free t p.
Proof.
  intros HJ H0 q Hq. specialize (HJ q). specialize (H0 q Hq).
  by inversion HJ as [Hn| | | |]; try rewrite <- Hn.
Qed.

Context (free : ∀ dir, in_dirs dir → link_free t0 dir).

(** A temporary file: its name, and that nothing was there. *)
Let temp (q : path) : Prop :=
  t0 !! q = None ∧ ∃ dir tmp, q = dir ++ [tmp] ∧ startswith tmp ".veil-" = true ∧ in_dirs dir.

Lemma temp_torn q data m : temp q → torn t0 source prefix q (Some (File data m)).
Proof. intros (H0 & dir & tmp & Hq & Htmp & Hdir). by econstructor. Qed.

Lemma temp_link_free t q : J t → temp q → link_free t q.
Proof.
  intros HJ (H0 & dir & tmp & -> & _ & Hdir). apply (J_link_free _ _ HJ), link_free_snoc.
  split; [by apply free|]. by rewrite H0.
Qed.

Lemma temp_ne q : temp q → q ≠ [].
Proof. intros (_ & dir & tmp & -> & _). apply snoc_ne. Qed.

Lemma mkstemp_temp dir : in_dirs dir →
  triple (on_tree J) (mkstemp dir) (λ q d, on_tree J d ∧ temp q)
    (λ _ d, on_tree J d ∧ True).
Proof.
  intros Hdir. eapply triple_bind; [by apply (within_tick J (λ _, True))|].
  intros _ d Hd. unfold on_tree in *. fs_unfold.
  rewrite resolve_link_free by (eapply J_link_free; [done|by apply free]).
  destruct (node_at (tree d) dir) as [[]|]; [done| |done|done].
  assert (temp (dir ++ [temp_name (tree d) dir])) as Ht.
  { split; [by apply (J_none (tree d)), temp_fresh|]. eauto 10. }
  split; [|done]. apply J_insert; [done|by apply temp_torn].
Qed.

Lemma write_temp q data : temp q →
  triple (on_tree J) (write_file q data)
    (λ _ d, on_tree J d ∧ ∃ m, tree d !! q = Some (File data m)) (λ _ d, on_tree J d ∧ True).
Proof.
  intros Hq d Hd. unfold on_tree, write_file in *. fs_unfold.
  rewrite resolve_link_free by (by apply temp_link_free).
  assert (∀ s m, J (<[q:=File s m]> (tree d))) as Hins.
  { intros s m. apply J_insert; [done|by apply temp_torn]. }
  destruct (node_at (tree d) (parent q)) as [[]|], (node_at (tree d) q) as [[]|];
    try done; unfold write_at; destruct (faults d) as [|[k|] fs]; cbn;
    (split; [apply Hins|]); try done; eexists; apply lookup_insert_eq.
Qed.

Lemma chmod_temp q data mode : temp q →
  triple (λ d, on_tree J d ∧ ∃ m, tree d !! q = Some (File data m)) (chmod q mode)
    (λ _ d, on_tree J d ∧ tree d !! q = Some (File data mode)) (λ _ d, on_tree J d ∧ True).
Proof.
  intros Hq. unfold chmod. eapply triple_bind.
  - instantiate (1 := λ _ d, on_tree J d ∧ ∃ m, tree d !! q = Some (File data m)).
    intros d Hd. unfold tick. by destruct (faults d) as [|[k|] fs]; cbn; destruct Hd.
  - intros _ d [Hd [m Hm]]. unfold on_tree in *. fs_unfold.
    rewrite resolve_link_free by (by apply temp_link_free). rewrite Hm. cbn.
    split; [|apply lookup_insert_eq]. apply J_insert; [done|by apply temp_torn].
Qed.

Lemma replace_temp q dir name n : temp q → in_dirs dir →
  torn t0 source prefix (dir ++ [name]) (Some n) →
  triple (λ d, on_tree J d ∧ tree d !! q = Some n) (replace_file q (dir ++ [name]))
    (λ _, on_tree J) (λ _ d, on_tree J d ∧ True).
Proof.
  intros Hq Hdir Hn. unfold replace_file. eapply triple_bind.
  - instantiate (1 := λ _ d, on_tree J d ∧ tree d !! q = Some n).
    intros d Hd. unfold tick. by destruct (faults d) as [|[k|] fs]; cbn; destruct Hd.
  - intros _ d [Hd Hm]. unfold on_tree in *. fs_unfold.
    rewrite link_free_entry by eauto using temp_link_free, temp_ne.
    rewrite entry_link_free by (eapply J_link_free; [done|by apply free]).
    rewrite Hm, parent_snoc.
    destruct (node_at (tree d) (dir ++ [name])) as [[]|], (node_at (tree d) dir) as [[]|];
      try done; cbn; (apply J_insert; [apply J_delete; [done|apply Hq]|done]).
Qed.

Lemma unlink_temp q : temp q → keeps (on_tree J) (unlink_ok q).
Proof.
  intros Hq. apply within_bind; [by apply within_tick|]. intros _.
  apply within_get_tree. intros t Ht.
  rewrite link_free_entry by eauto using temp_link_free, temp_ne.
  destruct (t !! q) as [[]|]; solve_fs; (apply J_delete; [done|apply Hq]).
Qed.

Lemma atomic_write_crash dir name data mode : in_dirs dir →
  torn t0 source prefix (dir ++ [name]) (Some (File data mode)) →
  keeps (on_tree J) (atomic_write (dir ++ [name]) data mode).
Proof.
  intros Hdir Hn. unfold atomic_write. rewrite parent_snoc.
  eapply within_bind_post; [by apply mkstemp_temp|].
  intros q Hq. apply within_try_finally; [|by apply unlink_temp].
  eapply triple_bind; [by apply write_temp|]. intros ?.
  eapply triple_bind; [by apply chmod_temp|]. intros ?. by apply replace_temp.
Qed.

Lemma make_dirs_crash l :
  (∀ q, q ∈ l → q ∈ ancestors (target_of prefix) ∨ q ∈ ancestors (parent (launcher_of prefix))) →
  keeps (on_tree J) (make_dirs l).
Proof.
  induction l as [|q l IH]; intros Hl; simpl; [solve_fs|].
  assert (∃ dir, in_dirs dir ∧ q ∈ ancestors dir) as (dir & Hdir & Hq).
  { destruct (Hl q ltac:(by left)) as [Hq|Hq].
    - exists (target_of prefix). split; [by left|done].
    - exists (parent (launcher_of prefix)). split; [by right|done]. }
  assert (keeps (on_tree J) (make_dirs l)) as Htail.
  { apply IH. intros q' Hq'. apply Hl. by right. }
  apply within_get_tree. intros t Ht.
  assert (link_free t q) as Hfree.
  { apply elem_ancestors in Hq as [_ [k ->]].
    eapply link_free_app, J_link_free; [done|by apply free]. }
  apply elem_ancestors in Hq as [Hne _].
  rewrite stat_link_free by done. destruct (t !! q) as [[]|] eqn:Hn; solve_fs.
  apply J_insert; [done|]. apply torn_dir; [by apply (J_none t)|]. apply Hl. by left.
Qed.
End crash.

Lemma refuse_links_ok t l : refuse_links t l = Ok () → ∀ q, q ∈ l → is_symlink t q = false.
Proof.
  induction l as [|p l IH]; simpl; intros H q Hq; [by apply not_elem_of_nil in Hq|].
  inv_ok H. apply elem_of_cons in Hq as [->|Hq]; [|by apply IH].
  destruct (is_symlink t p); [done|done].
Qed.

Lemma safe_path_link_free t p : safe_path t p = Ok () → link_free t p.
Proof.
  unfold safe_path. intros H. apply no_symlink_link_free. intros q Hq. inv_ok H.
  apply (refuse_links_ok _ _ H). by rewrite <- (Permutation_rev (ancestors p)).
Qed.

Lemma checks_safe prefix d d1 : checks prefix d = (Ok (), d1) →
  link_free (tree d) (target_of prefix) ∧ link_free (tree d) (launcher_of prefix).
Proof.
  unfold checks. fs_unfold. intros H.
  destruct (safe_path (tree d) (target_of prefix)) as [[]|] eqn:H1; [|done].
  destruct (safe_path (tree d) (launcher_of prefix)) as [[]|] eqn:H2; [|done].
  split; by apply safe_path_link_free.
Qed.

(** Reading the inputs changes nothing and returns the contents of each of the files. *)
Definition inputs_of (t : gmap path node) (source : path) (l : list (string * string)) :=
  Forall (λ kv, kv.1 ∈ FILES ∧ ∃ m, stat t (source ++ [kv.1]) = Some (File kv.2 m)) l.

Lemma read_list_inputs t source l : (∀ name, name ∈ l → name ∈ FILES) →
  triple (λ d, tree d = t)
    (mapM_py (λ name, data ← read_file (source ++ [name]); mret (name, data)) l)
    (λ kvs d, tree d = t ∧ inputs_of t source kvs) (λ _ d, tree d = t).
Proof.
  induction l as [|name l IH]; intros Hl; simpl; [intros d; by split; [|constructor]|].
  eapply triple_bind with (R := λ kv d, tree d = t ∧ inputs_of t source [kv]).
  - intros [t' fs] Hd. simpl in Hd. subst. unfold read_file, tick. fs_unfold.
    destruct fs as [|[k|] fs]; cbn; [|done|];
      (destruct (stat t (source ++ [name])) as [[]|] eqn:Hs; [|done..]);
      (split; [done|]); (constructor; [split; [apply Hl; by left|by eexists]|constructor]).
  - intros kv. eapply triple_bind with
      (R := λ kvs d, tree d = t ∧ inputs_of t source [kv] ∧ inputs_of t source kvs).
    + intros d [Hd Hkv]. specialize (IH (λ n Hn, Hl n ltac:(by right)) d Hd).
      destruct (mapM_py _ l d) as [[]]; naive_solver.
    + intros kvs d (Hd & Hkv & Hkvs). split; [done|]. by apply (Forall_app_2 _ [kv]).
Qed.

Lemma target_snoc prefix : ∃ p c, target_of prefix = p ++ [c].
Proof. exists (prefix ++ ["lib"]), "veil-desktop". by rewrite <- app_assoc. Qed.

Lemma launcher_snoc prefix :
  launcher_of prefix = parent (launcher_of prefix) ++ [APP_ID +:+ ".desktop"].
Proof.
  unfold launcher_of, sub. change (split "/" _) with
    (["share"; "applications"] ++ [APP_ID +:+ ".desktop"]).
  by rewrite app_assoc, parent_snoc.
Qed.

Lemma dirs_free t prefix :
  link_free t (target_of prefix) → link_free t (launcher_of prefix) →
  ∀ dir, dir = target_of prefix ∨ dir = parent (launcher_of prefix) → link_free t dir.
Proof.
  intros Ht Hl dir [-> | ->]; [done|].
  rewrite launcher_snoc in Hl. by eapply link_free_app.
Qed.

Lemma place_files_crash t0 source prefix contents :
  link_free t0 (target_of prefix) → link_free t0 (launcher_of prefix) →
  inputs_of t0 source contents →
  keeps (on_tree (λ t, ∀ q, torn t0 source prefix q (t !! q))) (place_files prefix contents).
Proof.
  intros Ht Hl Hin. pose proof (dirs_free _ _ Ht Hl) as Hfree.
  unfold place_files, mkdir_p. apply within_bind; [|intros _; apply within_bind; [|intros _;
    apply within_bind; [|intros _]]].
  - apply make_dirs_crash; [done|]. by left.
  - apply make_dirs_crash; [done|]. by right.
  - apply within_for_each. intros kv Hkv.
    apply (proj1 (Forall_forall _ _) Hin) in Hkv as [Hname [m Hs]].
    apply atomic_write_crash; [done|by left|]. by eapply torn_file.
  - rewrite launcher_snoc. apply atomic_write_crash; [done|by right|].
    apply torn_launcher. by rewrite <- launcher_snoc.
Qed.

(** C3. Whatever operation fails and wherever (a failed write leaves any prefix of
    the data, and the clean-up may fail too), an installation leaves at every path
    what was there, a destination with its complete new contents, a created
    directory, or a [.veil-] temporary file: no installed file is ever truncated. *)
Theorem install_crash_safe source prefix d r d' :
  manage Install source prefix d = (r, d') →
  ∀ q, torn (tree d) source prefix q (tree d' !! q).
Proof.
  unfold manage, install, read_inputs, mbind, py_bind. intros H q.
  pose proof (checks_keep (eq (tree d)) prefix d eq_refl) as Hc.
  destruct (checks prefix d) as [[[]|e] d1] eqn:Hrun; cbn in Hc; unfold on_tree in Hc.
  - pose proof (read_list_inputs (tree d) source FILES (λ _ H, H) d1 (eq_sym Hc)) as Hr.
    apply checks_safe in Hrun as [Ht Hl]. unfold mbind, py_bind in Hr.
    destruct (mapM_py _ FILES d1) as [[kvs|e] d2]; cbn in H, Hr.
    + destruct Hr as [Hd2 Hin].
      pose proof (place_files_crash (tree d) source prefix kvs Ht Hl Hin) as Hp.
      eassert (on_tree _ d2) as H2; [|destruct (within_run _ _ _ _ _ _ Hp H2 H) as [Hd' _];
        exact (Hd' q)].
      unfold on_tree. rewrite Hd2. intros ?. constructor.
    + injection H as _ <-. rewrite Hr. constructor.
  - injection H as _ <-. destruct Hc as [<- _]. constructor.
Qed.

(** ** The result of a run without I/O failures *)

Lemma atomic_write_run t dir name data mode m :
  link_free t dir → node_at t dir = Some (Dir m) →
  (∀ m', t !! (dir ++ [name]) ≠ Some (Dir m')) → startswith name ".veil-" = false →
  atomic_write (dir ++ [name]) data mode (no_faults t) =
    (Ok (), no_faults (<[dir ++ [name] := File data mode]> t)).
Proof.
  intros Hfree Hdir Hnodir Hname.
  set (tmp := temp_name t dir). assert (tmp ≠ name) as Hne.
  { intros <-. pose proof (temp_prefix t dir). fold tmp in H. congruence. }
  pose proof (snoc_neq dir _ _ Hne) as Hpne. pose proof (dir_ne_snoc dir tmp) as Hdne.
  unfold atomic_write. rewrite parent_snoc. unfold mbind, py_bind at 1.
  replace (mkstemp dir (no_faults t)) with
    (Ok (dir ++ [tmp]), no_faults (<[dir ++ [tmp] := File "" 384]> t)).
  2: { unfold mkstemp, tick, no_faults. fs_unfold. cbn. by rewrite resolve_link_free, Hdir. }
  unfold try_finally, mbind, py_bind.
  erewrite write_file_run by (rewrite ?node_at_insert_ne, ?lookup_insert_eq;
    eauto using link_free_insert).
  rewrite insert_insert_eq. erewrite chmod_run by (rewrite ?lookup_insert_eq;
    eauto using link_free_insert).
  rewrite insert_insert_eq. erewrite replace_file_run by
    (rewrite ?node_at_insert_ne, ?lookup_insert_eq, ?lookup_insert_ne;
     eauto using link_free_insert).
  rewrite delete_insert_id by apply temp_fresh.
  by rewrite unlink_missing_run by
    (rewrite ?lookup_insert_ne by done; eauto using link_free_insert).
Qed.

Section placed.
Context (content : string → string) (target : path).

Definition placed (l : list string) (t : gmap path node) : gmap path node :=
  foldl (λ t name, <[target ++ [name] := File (content name) (file_mode name)]> t) t l.

Lemma placed_lookup l t q :
  placed l t !! q = if bool_decide (q = target ++ [name_of q] ∧ name_of q ∈ l)
    then Some (File (content (name_of q)) (file_mode (name_of q))) else t !! q.
Proof.
  revert t. induction l as [|x l IH]; intros t.
  - rewrite bool_decide_false; [done|]. by intros [_ ?%not_elem_of_nil].
  - unfold placed in *. simpl. rewrite IH. clear IH.
    destruct (decide (q = target ++ [x])) as [->|Hne].
    + rewrite !name_of_snoc, (bool_decide_true (_ ∧ _ ∈ x :: l)) by (split; [done|by left]).
      by case_bool_decide; rewrite ?lookup_insert_eq.
    + rewrite lookup_insert_ne by done.
      erewrite bool_decide_ext; [done|]. rewrite elem_of_cons. split; [naive_solver|].
      intros [Hq [Hx|Hl]]; [|done]. by rewrite Hx in Hq.
Qed.

Lemma placed_link_free l t p : link_free t p → link_free (placed l t) p.
Proof.
  intros Hp q Hq. rewrite placed_lookup. case_bool_decide; [done|]. by apply Hp.
Qed.

Lemma placed_run l t m : link_free t target → node_at t target = Some (Dir m) →
  (∀ name, name ∈ l → startswith name ".veil-" = false ∧
    ∀ m', t !! (target ++ [name]) ≠ Some (Dir m')) →
  for_each (λ kv, atomic_write (target ++ [kv.1]) kv.2 (file_mode kv.1))
    ((λ name, (name, content name)) <$> l) (no_faults t) = (Ok (), no_faults (placed l t)).
Proof.
  revert t. induction l as [|x l IH]; intros t Hfree Hdir Hl; [done|]. simpl.
  unfold mbind, py_bind. destruct (Hl x ltac:(by left)) as [Hx Hnodir].
  rewrite (atomic_write_run _ _ _ _ _ _ Hfree Hdir Hnodir Hx). apply IH.
  - by apply link_free_insert.
  - rewrite node_at_insert_ne; [done|]. apply not_eq_sym, not_eq_sym, dir_ne_snoc.
  - intros name Hname. destruct (Hl name ltac:(by right)) as [Hv Hd]. split; [done|].
    intros m' Hm'. rewrite lookup_insert in Hm'. case_decide; [done|]. by apply (Hd m').
Qed.
End placed.

(** The tree of a complete installation over [t]: the program is executable (0755), the other
    files and the launcher are readable (0644). *)
Definition installed_at (content : string → string) (prefix : path)
    (t : gmap path node) (q : path) : option node :=
  let target := target_of prefix in
  let launcher := launcher_of prefix in
  if bool_decide (q = launcher) then Some (File (desktop_entry target) 420)
  else if bool_decide (q = target ++ [name_of q] ∧ name_of q ∈ FILES) then
    Some (File (content (name_of q)) (if bool_decide (name_of q = "veil-desktop") then 493 else 420)%Z)
  else match t !! q with
       | None => if bool_decide (q ∈ ancestors target ++ ancestors (parent launcher))
                 then Some (Dir 493) else None
       | n => n
       end.

(** What must hold below [prefix] for the directories and files to be placed. *)
Definition room (t : gmap path node) (prefix : path) : Prop :=
  (∀ q, q ∈ ancestors (target_of prefix) ++ ancestors (parent (launcher_of prefix)) →
    dir_or_none (t !! q)) ∧
  (∀ q, q = launcher_of prefix ∨ (∃ name, name ∈ FILES ∧ q = target_of prefix ++ [name]) →
    ∀ m, t !! q ≠ Some (Dir m)).

Lemma read_list_run content source l t :
  (∀ name, name ∈ l → ∃ m, stat t (source ++ [name]) = Some (File (content name) m)) →
  mapM_py (λ name, data ← read_file (source ++ [name]); mret (name, data)) l (no_faults t) =
    (Ok ((λ name, (name, content name)) <$> l), no_faults t).
Proof.
  induction l as [|x l IH]; intros Hl; [done|]. simpl. unfold mbind, py_bind in *.
  destruct (Hl x ltac:(by left)) as [m Hm].
  replace (read_file (source ++ [x]) (no_faults t)) with (Ok (content x), no_faults t).
  2: { unfold read_file, tick, no_faults. fs_unfold. cbn. by rewrite Hm. }
  cbn. rewrite IH; [done|]. intros name Hname. apply Hl. by right.
Qed.

Lemma mkdir_p_run t p : link_free t p → (∀ q, q ∈ ancestors p → dir_or_none (t !! q)) →
  mkdir_p p (no_faults t) = (Ok (), no_faults (with_dirs (ancestors p) t)).
Proof.
  intros Hp Hd. apply make_dirs_run. intros q Hq.
  destruct (ancestors_link_free _ _ _ Hp Hq). split_and!; [done..|by apply Hd].
Qed.

(** A destination is not one of the created directories. *)
Lemma destination_not_ancestor prefix q :
  q = launcher_of prefix ∨ (∃ name, name ∈ FILES ∧ q = target_of prefix ++ [name]) →
  q ∉ ancestors (target_of prefix) ∧ q ∉ ancestors (parent (launcher_of prefix)).
Proof.
  assert (parent (launcher_of prefix) = prefix ++ ["share"; "applications"]) as Hp.
  { pose proof (launcher_snoc prefix) as H.
    change (launcher_of prefix) with
      (prefix ++ (["share"; "applications"] ++ [APP_ID +:+ ".desktop"])) in H at 1.
    rewrite app_assoc in H. by apply app_inj_tail in H as [H _]. }
  rewrite !elem_ancestors, Hp. unfold target_of, launcher_of, sub.
  intros [-> | (name & _ & ->)]; rewrite <- ?app_assoc; split; intros [_ Hq];
    apply prefix_app_inv in Hq as [k Hk]; by vm_compute in Hk.
Qed.

Lemma destination_not_dir prefix t q m :
  q = launcher_of prefix ∨ (∃ name, name ∈ FILES ∧ q = target_of prefix ++ [name]) →
  room t prefix →
  with_dirs (ancestors (parent (launcher_of prefix)))
    (with_dirs (ancestors (target_of prefix)) t) !! q ≠ Some (Dir m).
Proof.
  intros Hq [_ Hroom]. specialize (Hroom q Hq m).
  destruct (destination_not_ancestor _ _ Hq) as [H1 H2].
  rewrite !with_dirs_lookup. destruct (t !! q); [done|].
  by rewrite !bool_decide_false by done.
Qed.

Lemma placed_ancestor content prefix l t q :
  (∀ name, name ∈ l → name ∈ FILES) →
  q ∈ ancestors (target_of prefix) ∨ q ∈ ancestors (parent (launcher_of prefix)) →
  placed content (target_of prefix) l t !! q = t !! q.
Proof.
  intros Hl Hq. rewrite placed_lookup. case_bool_decide as Hd; [|done].
  destruct Hd as [Hq' Hn]. exfalso.
  destruct (destination_not_ancestor prefix q) as [H1 H2]; [right; by eauto|]. naive_solver.
Qed.

Lemma launcher_parent_ancestor prefix :
  parent (launcher_of prefix) ∈ ancestors (parent (launcher_of prefix)).
Proof.
  apply ancestors_self. intros H. pose proof (launcher_snoc prefix) as Hs.
  rewrite H in Hs. unfold launcher_of, sub in Hs. by destruct prefix as [|? []].
Qed.

Lemma target_ancestor prefix : target_of prefix ∈ ancestors (target_of prefix).
Proof. apply ancestors_self. destruct (target_snoc prefix) as (p & c & ->). apply snoc_ne. Qed.

Lemma files_not_temp name : name ∈ FILES → startswith name ".veil-" = false.
Proof.
  assert (Forall (λ name, startswith name ".veil-" = false) FILES) as H by (by repeat constructor).
  apply (proj1 (Forall_forall _ _) H).
Qed.

Lemma place_files_run content prefix t :
  let dirs := ancestors (target_of prefix) in
  let dirs' := ancestors (parent (launcher_of prefix)) in
  link_free t (target_of prefix) → link_free t (launcher_of prefix) → room t prefix →
  place_files prefix ((λ name, (name, content name)) <$> FILES) (no_faults t) =
    (Ok (), no_faults (<[launcher_of prefix := File (desktop_entry (target_of prefix)) 420]>
      (placed content (target_of prefix) FILES (with_dirs dirs' (with_dirs dirs t))))).
Proof.
  intros dirs dirs' Ht Hl Hroom. pose proof (dirs_free _ _ Ht Hl) as Hfree.
  pose proof (λ q m Hq, destination_not_dir prefix t q m Hq Hroom) as Hnd.
  destruct Hroom as [Hdirs _]. unfold place_files, mbind, py_bind.
  rewrite mkdir_p_run; [|done|intros q Hq; apply Hdirs, elem_of_app; by left].
  rewrite mkdir_p_run; [|by apply link_free_with_dirs, Hfree; right|].
  2: { intros q Hq. apply dir_or_none_with_dirs, Hdirs, elem_of_app. by right. }
  fold dirs dirs' in Hnd |- *. set (t2 := with_dirs dirs' (with_dirs dirs t)) in *.
  assert (∀ dir, dir = target_of prefix ∨ dir = parent (launcher_of prefix) →
    link_free t2 dir) as Hfree2.
  { intros dir Hdir. by do 2 apply link_free_with_dirs; apply Hfree. }
  assert (∃ m, node_at t2 (target_of prefix) = Some (Dir m)) as [m Hm].
  { rewrite node_at_ne by apply (ancestor_nonempty _ _ (target_ancestor prefix)).
    destruct (with_dirs_dir dirs t (target_of prefix)) as [m Hm];
      [apply target_ancestor|apply Hdirs, elem_of_app; left; apply target_ancestor|].
    exists m. by apply with_dirs_some. }
  assert (∃ m, t2 !! parent (launcher_of prefix) = Some (Dir m)) as [m' Hm'].
  { apply with_dirs_dir; [apply launcher_parent_ancestor|]. apply dir_or_none_with_dirs, Hdirs,
      elem_of_app. right. apply launcher_parent_ancestor. }
  rewrite (placed_run _ _ _ _ m); [|by apply Hfree2; left|done|].
  2: { intros name Hname. split; [by apply files_not_temp|]. intros m0. apply Hnd. eauto. }
  pose proof (atomic_write_run (placed content (target_of prefix) FILES t2)
    (parent (launcher_of prefix)) (APP_ID +:+ ".desktop")
    (desktop_entry (target_of prefix)) 420 m') as Hw.
  rewrite <- launcher_snoc in Hw. apply Hw; clear Hw.
  - apply placed_link_free, Hfree2. by right.
  - rewrite node_at_ne by apply (ancestor_nonempty _ _ (launcher_parent_ancestor prefix)).
    rewrite placed_ancestor; [done|done|right; apply launcher_parent_ancestor].
  - intros m0. rewrite placed_lookup. case_bool_decide; [done|]. apply Hnd. by left.
  - by vm_compute.
Qed.


(** ** Uninstalling *)

Definition removed (prefix q : path) : Prop :=
  q = launcher_of prefix ∨ below (target_of prefix) q.

(** An uninstallation, whatever fails on the way, only removes the launcher and the
    entries of the installation directory: every other path is as it was. *)
Theorem uninstall_frame source prefix d r d' :
  manage Uninstall source prefix d = (r, d') →
  ∀ q, tree d' !! q = tree d !! q ∨ (removed prefix q ∧ tree d' !! q = None).
Proof.
  intros H q. pose proof (checks_keep (eq (tree d)) prefix d eq_refl) as Hc.
  unfold manage, mbind, py_bind in H.
  destruct (checks prefix d) as [[[]|e] d1] eqn:Hrun; cbn in Hc; unfold on_tree in Hc.
  2: { injection H as _ <-. destruct Hc as [<- _]. by left. }
  apply checks_safe in Hrun as [Ht Hl].
  set (J := λ t : gmap path node, ∀ q, t !! q = tree d !! q ∨ (removed prefix q ∧ t !! q = None)).
  assert (∀ t q, removed prefix q → J t → J (delete q t)) as Hdel.
  { intros t q0 Hq0 HJ q'. rewrite lookup_delete. case_decide; [right; by subst|apply HJ]. }
  assert (keeps (on_tree J) (uninstall prefix)) as Hk.
  { apply within_bind; [apply within_bind; [by apply within_tick|intros _]|intros _].
    - apply within_get_tree. intros t HJ.
      rewrite link_free_entry; [|rewrite launcher_snoc; apply snoc_ne|].
      2: { intros q' Hq'. destruct (HJ q') as [-> | [_ ->]]; [by apply Hl|done]. }
      destruct (t !! launcher_of prefix) as [[]|]; solve_fs; (apply Hdel; [by left|done]).
    - apply within_get_tree. intros t HJ. apply within_when. intros _.
      apply within_rmtree; [done|]. intros t' q' Hq'. apply Hdel. by right. }
  assert (on_tree J d1) as H1 by (unfold on_tree, J; rewrite <- Hc; by left).
  destruct (within_run _ _ _ _ _ _ Hk H1 H) as [HJ _]. exact (HJ q).
Qed.

#[export] Instance removed_dec prefix q : Decision (removed prefix q).
Proof. unfold removed. apply _. Defined.

(** The tree after an uninstallation. *)
Definition uninstalled (prefix : path) (t : gmap path node) : gmap path node :=
  filter (λ kv, ¬ removed prefix kv.1) t.

Lemma uninstalled_lookup prefix t q :
  uninstalled prefix t !! q = if bool_decide (removed prefix q) then None else t !! q.
Proof.
  unfold uninstalled. rewrite map_lookup_filter. simpl.
  case_bool_decide; destruct (t !! q); simpl; try done; by rewrite ?option_guard_True, ?option_guard_False by auto.
Qed.

(** The checks, restated on a tree: every test of [checks] for a disk that does not fail. *)
Lemma safe_path_free t t' p : link_free t' p → safe_path t p = Ok () → safe_path t' p = Ok ().
Proof.
  intros Hp H. unfold safe_path in *. inv_ok H.
  rewrite H0, H1. cbn. assert (∀ l, (∀ q, q ∈ l → q ∈ ancestors p) → refuse_links t' l = Ok ()) as Hl.
  { induction l as [|q l IH]; intros Hl; [done|]. simpl.
    destruct (ancestors_link_free _ _ _ Hp (Hl q ltac:(by left))) as [Hne Hq].
    unfold is_symlink, lstat. rewrite link_free_entry by done. cbn.
    rewrite node_at_ne by done.
    rewrite (Hq q) by (by apply ancestors_self). apply IH. intros q' Hq'. apply Hl. by right. }
  apply Hl. intros q. by rewrite <- (Permutation_rev (ancestors p)).
Qed.

Lemma launcher_ne prefix : launcher_of prefix ≠ [].
Proof. rewrite launcher_snoc. apply snoc_ne. Qed.

Lemma checks_inv prefix t : checks prefix (no_faults t) = (Ok (), no_faults t) →
  safe_path t (target_of prefix) = Ok () ∧ safe_path t (launcher_of prefix) = Ok () ∧
  (∀ m, t !! launcher_of prefix ≠ Some (Dir m)).
Proof.
  intros H. pose proof (checks_safe _ _ _ H) as [Ht Hl]. simpl in Ht, Hl. revert H.
  unfold checks. unfold mbind, py_bind, get_tree, gets, lift. cbn [tree no_faults].
  destruct (safe_path t (target_of prefix)) as [[]|]; [|done].
  destruct (safe_path t (launcher_of prefix)) as [[]|]; [|done].
  intros H. split_and!; [done..|]. intros m Hm.
  destruct (check_target (target_of prefix) (no_faults t)) as [[[]|] [t1 fs1]] eqn:Ht1; [|done].
  assert (t = t1) as <-.
  { assert (keeps (on_tree (eq t)) (check_target (target_of prefix))) as Hk
      by (unfold check_target; solve_fs).
    by destruct (within_run _ _ _ _ _ _ Hk (eq_refl : on_tree (eq t) (no_faults t)) Ht1). }
  unfold check_launcher in H. fs_unfold. cbn in H.
  unfold path_exists, read_file in H.
  rewrite stat_link_free, Hm in H by (done || apply launcher_ne). cbn in H. 
  unfold mbind, py_bind, tick, get_tree, gets in H. cbn in H.
  destruct fs1 as [|[]]; cbn in H; try done;
   rewrite stat_link_free, Hm in H by (done || apply launcher_ne); done.
Qed.

(** A tree: the directories above every node exist. *)
Definition connected (t : gmap path node) : Prop :=
  map_Forall (λ q _, Forall (λ q', is_Some (t !! q')) (ancestors q)) t.

Lemma connected_below t p q : connected t → t !! p = None → p ≠ [] → below p q → t !! q = None.
Proof.
  intros Ht Hp Hne Hb. destruct (t !! q) as [n|] eqn:Hq; [|done].
  specialize (Ht q n Hq). rewrite Forall_forall in Ht. apply below_prefix in Hb.
  destruct (Ht p) as [? ?]; [by apply elem_ancestors|congruence].
Qed.

Lemma path_exists_free t p : p ≠ [] → link_free t p →
  path_exists t p = bool_decide (is_Some (t !! p)).
Proof.
  intros Hne Hp. unfold path_exists. rewrite stat_link_free by done.
  destruct (t !! p); [by rewrite bool_decide_true|].
  rewrite bool_decide_false; [done|]. by intros [? ?].
Qed.

Lemma target_ne prefix : target_of prefix ≠ [].
Proof. destruct (target_snoc prefix) as (p & c & ->). apply snoc_ne. Qed.

Lemma uninstall_run prefix t :
  link_free t (target_of prefix) → link_free t (launcher_of prefix) →
  (∀ m, t !! launcher_of prefix ≠ Some (Dir m)) → connected t →
  uninstall prefix (no_faults t) = (Ok (), no_faults (uninstalled prefix t)).
Proof.
  intros Ht Hl Hnd Hc. set (t1 := delete (launcher_of prefix) t).
  assert (unlink_ok (launcher_of prefix) (no_faults t) = (Ok (), no_faults t1)) as Hun.
  { unfold unlink_ok, tick, no_faults. fs_unfold. cbn.
    rewrite link_free_entry by (done || apply launcher_ne).
    destruct (t !! launcher_of prefix) as [[]|] eqn:Hn; [done|naive_solver|done|].
    unfold t1. by rewrite delete_id. }
  assert (link_free t1 (target_of prefix)) as Ht1.
  { intros q Hq. unfold t1. rewrite lookup_delete. case_decide; [done|by apply Ht]. }
  unfold uninstall, mbind, py_bind. rewrite Hun. unfold get_tree, gets. cbn [tree no_faults].
  rewrite path_exists_free by (done || apply target_ne).
  assert (t1 !! target_of prefix = t !! target_of prefix) as Heq.
  { unfold t1. apply lookup_delete_ne. intros H.
    destruct (destination_not_ancestor prefix (launcher_of prefix)) as [Hx _]; [by left|].
    apply Hx. rewrite H. apply target_ancestor. }
  rewrite Heq. case_bool_decide as Hex; cbn [when].
  - rewrite rmtree_run by done. unfold with_tree. cbn. unfold no_faults. do 2 f_equal.
    apply map_eq. intros q. rewrite uninstalled_lookup, map_lookup_filter. unfold t1.
    rewrite lookup_delete. simpl. unfold removed.
    destruct (decide (launcher_of prefix = q)) as [<-|Hne];
      [by rewrite bool_decide_true by (by left)|].
    case_bool_decide as Hr; destruct (t !! q); simpl; try done.
    + rewrite option_guard_False; [done|]. naive_solver.
    + rewrite option_guard_True; [done|]. naive_solver.
  - unfold no_faults. cbn. do 2 f_equal. apply map_eq. intros q.
    rewrite uninstalled_lookup. unfold t1. rewrite lookup_delete.
    assert (below (target_of prefix) q → t !! q = None) as Hb.
    { apply connected_below; [done| |apply target_ne].
      destruct (t !! target_of prefix); [|done]. by destruct Hex. }
    case_decide as Hq; case_bool_decide as Hr; try done.
    + destruct Hr. by left.
    + destruct Hr as [Hr|Hr]; [congruence|]. by apply Hb.
Qed.

Lemma uninstalled_free prefix t p : link_free t p → link_free (uninstalled prefix t) p.
Proof. intros Hp q Hq. rewrite uninstalled_lookup. case_bool_decide; [done|by apply Hp]. Qed.

Lemma checks_uninstalled prefix t :
  safe_path t (target_of prefix) = Ok () → safe_path t (launcher_of prefix) = Ok () →
  checks prefix (no_faults (uninstalled prefix t)) =
    (Ok (), no_faults (uninstalled prefix t)).
Proof.
  intros Ht Hl. set (t' := uninstalled prefix t).
  assert (link_free t' (target_of prefix)) as Ht' by (by apply uninstalled_free, safe_path_link_free).
  assert (link_free t' (launcher_of prefix)) as Hl' by (by apply uninstalled_free, safe_path_link_free).
  assert (path_exists t' (target_of prefix) = false ∧ path_exists t' (launcher_of prefix) = false)
    as [H1 H2].
  { rewrite !path_exists_free by (done || apply target_ne || apply launcher_ne).
    unfold t'. rewrite !uninstalled_lookup.
    rewrite (bool_decide_true (removed _ (target_of prefix))) by (right; apply below_refl).
    by rewrite (bool_decide_true (removed _ (launcher_of prefix))) by (by left). }
  unfold checks, check_target, check_launcher, mbind, py_bind, get_tree, gets, lift.
  cbn [tree no_faults]. rewrite (safe_path_free t t' _ Ht' Ht), (safe_path_free t t' _ Hl' Hl).
  cbn [tree no_faults]. rewrite H1. cbn. by rewrite H2.
Qed.

(** C10. Without I/O failures an uninstallation that passes the checks removes exactly the
    launcher and the installation directory, and a second one succeeds and changes
    nothing. *)
Theorem uninstall_exact source prefix t :
  checks prefix (no_faults t) = (Ok (), no_faults t) → connected t →
  manage Uninstall source prefix (no_faults t) = (Ok (), no_faults (uninstalled prefix t)) ∧
  manage Uninstall source prefix (no_faults (uninstalled prefix t)) =
    (Ok (), no_faults (uninstalled prefix t)).
Proof.
  intros Hc Ht. destruct (checks_inv _ _ Hc) as (H1 & H2 & H3).
  pose proof (safe_path_link_free _ _ H1) as F1. pose proof (safe_path_link_free _ _ H2) as F2.
  unfold manage, mbind, py_bind. rewrite Hc, (checks_uninstalled _ _ H1 H2). split.
  - by apply uninstall_run.
  - set (t' := uninstalled prefix t).
    assert (t' !! launcher_of prefix = None ∧ t' !! target_of prefix = None) as [N1 N2].
    { unfold t'. rewrite !uninstalled_lookup, !bool_decide_true;
        [done|right; apply below_refl|by left]. }
    pose proof (uninstalled_free prefix t _ F1) as F1'.
    pose proof (uninstalled_free prefix t _ F2) as F2'. fold t' in F1', F2'.
    unfold uninstall, mbind, py_bind. rewrite launcher_snoc in *.
    rewrite unlink_missing_run by (done || by eapply link_free_app).
    unfold get_tree, gets. cbn [tree no_faults].
    by rewrite path_exists_free, N2 by (done || apply target_ne).
Qed.
End installer.

(** ** A sample installation: a name that is not in use, and a small disk *)
Definition sample_temp (t : gmap path node) (dir : path) : string :=
  ".veil-" +:+ fresh (omap (drop_prefix ".veil-") (children t dir)).

Lemma sample_temp_prefix t dir : startswith (sample_temp t dir) ".veil-" = true.
Proof. apply startswith_app. Qed.

Lemma sample_temp_fresh t dir : t !! (dir ++ [sample_temp t dir]) = None.
Proof.
  destruct (t !! (dir ++ [sample_temp t dir])) as [n|] eqn:Hn; [|done]. exfalso.
  assert (sample_temp t dir ∈ children t dir) as Hin by (apply elem_children; by exists n).
  apply (infinite_is_fresh (omap (drop_prefix ".veil-") (children t dir))).
  apply list_elem_of_omap. exists (sample_temp t dir). split; [done|]. by apply drop_prefix_Some.
Qed.

Definition sample_prefix : path := ["home"; "user"; ".local"].
Definition sample_source : path := ["mnt"; "veil"].
Definition sample_content (name : string) : string := "contents of " +:+ name.
Definition sample_files : list (path * node) :=
  map (λ name, (sample_source ++ [name], File (sample_content name) 420)) FILES.
Definition sample_dirs : list (path * node) :=
  [(["home"], Dir 493); (["home"; "user"], Dir 493); (["mnt"], Dir 493); (["mnt"; "veil"], Dir 493)].
Definition sample_disk : gmap path node := list_to_map (sample_dirs ++ sample_files).

(** The same disk without the licence. *)
Definition sample_incomplete : gmap path node := delete (sample_source ++ ["LICENSE"]) sample_disk.

(** A launcher that another program owns. *)
Definition sample_foreign : gmap path node :=
  <[launcher_of sample_prefix := File "[Desktop Entry]" 420]> sample_disk.

Definition sample_install (act : action) (t : gmap path node) : result () * disk :=
  manage sample_temp act sample_source sample_prefix (no_faults t).

Definition error_message (r : result ()) : string :=
  match r with Err (ValueError m) => m | _ => "" end.

Lemma sample_refused : sample_install Install sample_foreign =
  (Err (ValueError (error_message (sample_install Install sample_foreign).1)),
   (sample_install Install sample_foreign).2).
Proof.
  assert ((sample_install Install sample_foreign).1 =
    Err (ValueError (error_message (sample_install Install sample_foreign).1))) as <-
    by (vm_compute; reflexivity).
  apply surjective_pairing.
Qed.


Lemma missing_input_changes_nothing_witness :
  ∃ e d', sample_install Install sample_incomplete = (Err e, d') ∧ tree d' = sample_incomplete.
Proof.
  apply (missing_input_changes_nothing sample_temp sample_source sample_prefix
    (no_faults sample_incomplete) "LICENSE").
  - unfold FILES. do 3 right. left.
  - vm_compute. reflexivity.
Defined.

(** The disk fails after three of the launcher's bytes have been written. *)
Definition sample_failing : disk :=
  {| tree := sample_disk; faults := replicate 63 None ++ [Some 3] |}.
Lemma install_crash_safe_witness :
  torn sample_disk sample_source sample_prefix (launcher_of sample_prefix)
    (tree (manage sample_temp Install sample_source sample_prefix sample_failing).2
       !! launcher_of sample_prefix).
Proof.
  apply (install_crash_safe sample_temp sample_temp_prefix sample_temp_fresh sample_source
    sample_prefix sample_failing
    (manage sample_temp Install sample_source sample_prefix sample_failing).1).
  apply surjective_pairing.
Defined.

Lemma sample_checks : checks sample_prefix (no_faults sample_disk) = (Ok (), no_faults sample_disk).
Proof. vm_compute. reflexivity. Qed.

Ltac each_vm :=
  lazymatch goal with
  | |- Forall _ ?l => let l' := eval vm_compute in l in change l with l'
  end;
  repeat (apply Forall_cons_2; [vm_compute; (reflexivity || exact I)|]); apply Forall_nil_2.

Lemma sample_room : room sample_disk sample_prefix.
Proof.
  split.
  - intros q Hq.
    assert (Forall (λ q, dir_or_none (sample_disk !! q)) (ancestors (target_of sample_prefix) ++
      ancestors (parent (launcher_of sample_prefix)))) as H.
    { each_vm. }
    by apply (proj1 (Forall_forall _ _) H).
  - intros q Hq m Hm. assert (sample_disk !! q = None) as Hn; [|congruence].
    destruct Hq as [-> | (name & Hname & ->)]; [by vm_compute|].
    assert (Forall (λ name, sample_disk !! (target_of sample_prefix ++ [name]) = None) FILES) as H.
    { each_vm. }
    by apply (proj1 (Forall_forall _ _) H).
Qed.

Lemma sample_inputs name : name ∈ FILES →
  ∃ m, stat sample_disk (sample_source ++ [name]) = Some (File (sample_content name) m).
Proof.
  assert (Forall (λ name, stat sample_disk (sample_source ++ [name]) =
    Some (File (sample_content name) 420)) FILES) as H by each_vm.
  intros Hn. exists 420%Z. by apply (proj1 (Forall_forall _ _) H).
Qed.


Lemma uninstall_frame_witness :
  let d := {| tree := sample_foreign; faults := [None; Some 0] |} in
  tree (manage sample_temp Uninstall sample_source sample_prefix d).2 !! (["home"; "user"]) =
    Some (Dir 493).
Proof.
  intros d. destruct (uninstall_frame sample_temp sample_source sample_prefix d
    (manage sample_temp Uninstall sample_source sample_prefix d).1
    (manage sample_temp Uninstall sample_source sample_prefix d).2
    (surjective_pairing _) ["home"; "user"]) as [H|[[H|H] _]].
  - etransitivity; [exact H|]. vm_compute. reflexivity.
  - exfalso. vm_compute in H. discriminate H.
  - exfalso. vm_compute in H. discriminate H.
Defined.

Lemma sample_connected : connected sample_disk.
Proof. unfold connected. apply (bool_decide_unpack _). vm_compute. exact I. Qed.

Lemma uninstall_exact_witness :
  sample_install Uninstall sample_disk = (Ok (), no_faults (uninstalled sample_prefix sample_disk)).
Proof.
  exact (proj1 (uninstall_exact sample_temp sample_source sample_prefix sample_disk
    sample_checks sample_connected)).
Defined.
