(* ===== verification/DesktopEntry.v ===== *)
(** * Reading back the desktop entry

    The Desktop Entry Specification as the reader of [desktop_entry]'s output: the
    escapes of a string value, the quoting of an [Exec] argument and the field codes.
    The theorem says a launcher that follows it starts the installed program. *)

From S2P Require Import Prelude.
From S2P Require Import PyText.
From S2P Require Import FileSystem.
From S2P Require Import Install.
From Stdlib Require Import Ascii.

Definition bs : ascii := ascii_of_N 92.
Definition dq : ascii := ascii_of_N 34.

(** The escapes of a value of type string. *)
Fixpoint unescape_value (s : string) : option string :=
  match s with
  | "" => Some ""
  | String x s1 =>
      if Ascii.eqb x bs then
        match s1 with
        | "" => None
        | String y s2 =>
            let keep (r : ascii) := String r <$> unescape_value s2 in
            if Ascii.eqb y bs then keep bs
            else if Ascii.eqb y "s" then keep " "%char
            else if Ascii.eqb y "n" then keep (ascii_of_N 10)
            else if Ascii.eqb y "t" then keep (ascii_of_N 9)
            else if Ascii.eqb y "r" then keep (ascii_of_N 13)
            else None
        end
      else String x <$> unescape_value s1
  end.

(** The characters that must be escaped inside a quoted argument. *)
Definition reserved (c : ascii) : bool :=
  Ascii.eqb c bs || Ascii.eqb c dq || Ascii.eqb c "`" || Ascii.eqb c "$".

(** A quoted argument after its opening quote: its text, and what follows it. *)
Fixpoint quoted (s : string) : option (string * string) :=
  match s with
  | "" => None
  | String x s1 =>
      if Ascii.eqb x dq then Some ("", s1)
      else if Ascii.eqb x bs then
        match s1 with
        | "" => None
        | String y s2 =>
            if reserved y then (λ '(a, r), (String y a, r)) <$> quoted s2 else None
        end
      else if reserved x then None
      else (λ '(a, r), (String x a, r)) <$> quoted s1
  end.

(** Field codes: [%%] is a percent sign; no other code occurs in a program name. *)
Fixpoint field_codes (s : string) : option string :=
  match s with
  | "" => Some ""
  | String x s1 =>
      if Ascii.eqb x "%" then
        match s1 with
        | "" => None
        | String y s2 => if Ascii.eqb y "%" then String "%" <$> field_codes s2 else None
        end
      else String x <$> field_codes s1
  end.

(** The program an [Exec] value with one quoted argument runs. *)
Definition exec_program (v : string) : option string :=
  u ← unescape_value v;
  match u with
  | "" => None
  | String x u =>
      if Ascii.eqb x dq then
        '(a, rest) ← quoted u;
        if String.eqb rest "" then field_codes a else None
      else None
  end.

(** ** The writer as a map over characters *)
Definition escape_char (c : ascii) : string :=
  if reserved c then String bs (char1 c) else char1 c.

Lemma escape_chars_map s : escape_chars s = concat_map escape_char s.
Proof.
  unfold escape_chars, backslash, dquote. cbn [fold_left].
  change (String (ascii_of_N 92) "") with (char1 bs). change (String (ascii_of_N 34) "") with (char1 dq).
  change "`" with (char1 "`"). change "$" with (char1 "$").
  rewrite !replace_all_char, !concat_map_concat_map. apply concat_map_ext.
  intros c. destruct c as [[] [] [] [] [] [] [] []]; reflexivity.
Qed.

Lemma exec_value_map target :
  exec_value target = concat_map (subst_char bs (String bs (char1 bs)))
    (char1 dq +:+ concat_map escape_char
      (concat_map (subst_char "%" "%%") (posix (sub target "veil-desktop"))) +:+ char1 dq).
Proof.
  unfold exec_value, backslash. change (String (ascii_of_N 92) "") with (char1 bs).
  rewrite replace_all_char, escape_chars_map. change "%" with (char1 "%"). 
  by rewrite replace_all_char.
Qed.

(** ** The reader undoes it *)
Lemma unescape_other x r : Ascii.eqb x bs = false →
  unescape_value (String x r) = String x <$> unescape_value r.
Proof. intros H. cbn -[Ascii.eqb bs dq]. by rewrite H. Qed.

Lemma unescape_doubled s :
  unescape_value (concat_map (subst_char bs (String bs (char1 bs))) s) = Some s.
Proof.
  induction s as [|x s IH]; [done|]. cbn [concat_map]. unfold subst_char at 1.
  destruct (Ascii.eqb bs x) eqn:Hx.
  - apply Ascii.eqb_eq in Hx. subst x.
    transitivity (String bs <$> unescape_value (concat_map (subst_char bs (String bs (char1 bs))) s));
      [done|by rewrite IH].
  - unfold char1 at 1. rewrite sapp_cons, sapp_nil_l, unescape_other, IH; [done|].
    by rewrite Ascii.eqb_sym.
Qed.

Lemma quoted_reserved y r : reserved y = true →
  quoted (String bs (String y r)) = (λ '(a, r), (String y a, r)) <$> quoted r.
Proof. intros H. cbn -[reserved bs]. by rewrite H. Qed.

Lemma quoted_plain x r : reserved x = false →
  quoted (String x r) = (λ '(a, r), (String x a, r)) <$> quoted r.
Proof.
  intros H. pose proof H as Hr. unfold reserved in H. rewrite !orb_false_iff in H.
  destruct H as [[[H1 H2] _] _]. cbn -[Ascii.eqb reserved bs dq]. by rewrite H1, H2, Hr.
Qed.

Lemma quoted_escaped s r : quoted (concat_map escape_char s +:+ char1 dq +:+ r) = Some (s, r).
Proof.
  induction s as [|x s IH]; [done|]. cbn [concat_map]. rewrite sapp_assoc.
  unfold escape_char at 1. destruct (reserved x) eqn:Hx; unfold char1 at 1;
    rewrite !sapp_cons, sapp_nil_l.
  - by rewrite quoted_reserved, IH.
  - by rewrite quoted_plain, IH.
Qed.

Lemma field_codes_plain x r : Ascii.eqb x "%" = false →
  field_codes (String x r) = String x <$> field_codes r.
Proof. intros H. cbn -[Ascii.eqb bs dq]. by rewrite H. Qed.

Lemma field_codes_doubled s : field_codes (concat_map (subst_char "%" "%%") s) = Some s.
Proof.
  induction s as [|x s IH]; [done|]. cbn [concat_map]. unfold subst_char at 1.
  destruct (Ascii.eqb "%" x) eqn:Hx.
  - apply Ascii.eqb_eq in Hx. subst x.
    transitivity (String "%" <$> field_codes (concat_map (subst_char "%" "%%") s));
      [done|by rewrite IH].
  - unfold char1 at 1. rewrite sapp_cons, sapp_nil_l, field_codes_plain, IH; [done|].
    by rewrite Ascii.eqb_sym.
Qed.

Lemma exec_program_value target :
  exec_program (exec_value target) = Some (posix (sub target "veil-desktop")).
Proof.
  unfold exec_program. rewrite exec_value_map, unescape_doubled.
  transitivity ('(a, rest) ← quoted (concat_map escape_char (concat_map (subst_char "%" "%%")
      (posix (sub target "veil-desktop"))) +:+ char1 dq +:+ "");
    if String.eqb rest "" then field_codes a else None); [by rewrite sapp_nil_r|].
  rewrite quoted_escaped. apply field_codes_doubled.
Qed.

Lemma icon_value_map target :
  icon_value target = concat_map (subst_char bs (String bs (char1 bs))) (posix (sub target "veil.svg")).
Proof. apply replace_all_char. Qed.

(** ** The lines of the entry *)
Definition line_feed : ascii := ascii_of_N 10.

Lemma posix_no_line_feed target name :
  any_char is_control (posix target) = false → any_char is_control name = false →
  any_char (Ascii.eqb line_feed) (posix (target ++ [name])) = false.
Proof.
  intros Ht Hn. apply (any_char_impl _ is_control).
  { intros c Hc. destruct (Ascii.eqb line_feed c) eqn:H; [|done].
    by apply Ascii.eqb_eq in H as <-. }
  unfold posix in *. rewrite any_char_app in *. change (any_char is_control "/") with false in *.
  rewrite orb_false_l in *. rewrite any_char_join in * by done. rewrite existsb_app, Ht. simpl. by rewrite Hn.
Qed.

Lemma any_char_char1 f c : any_char f (char1 c) = f c.
Proof. simpl. by rewrite orb_false_r. Qed.

Lemma exec_value_one_line target : any_char is_control (posix target) = false →
  any_char (Ascii.eqb line_feed) (exec_value target) = false.
Proof.
  intros Ht. rewrite exec_value_map.
  apply (any_char_concat_map _ _ (Ascii.eqb line_feed)).
  { intros c Hc. unfold subst_char. destruct (Ascii.eqb bs c); [done|]. by rewrite any_char_char1. }
  rewrite !any_char_app. change (any_char (Ascii.eqb line_feed) (char1 dq)) with false.
  rewrite orb_false_r. apply (any_char_concat_map _ _ (Ascii.eqb line_feed)).
  { intros c Hc. unfold escape_char. destruct (reserved c); [|by rewrite any_char_char1].
    change (any_char (Ascii.eqb line_feed) (char1 c) = false). by rewrite any_char_char1. }
  apply (any_char_concat_map _ _ (Ascii.eqb line_feed)).
  { intros c Hc. unfold subst_char. destruct (Ascii.eqb "%" c); [done|]. by rewrite any_char_char1. }
  by apply posix_no_line_feed.
Qed.

Lemma icon_value_one_line target : any_char is_control (posix target) = false →
  any_char (Ascii.eqb line_feed) (icon_value target) = false.
Proof.
  intros Ht. rewrite icon_value_map. apply (any_char_concat_map _ _ (Ascii.eqb line_feed)).
  { intros c Hc. unfold subst_char. destruct (Ascii.eqb bs c); [done|]. by rewrite any_char_char1. }
  by apply posix_no_line_feed.
Qed.

(** C8. The entry written for an installation path the checks accept has the program
    under [Exec] and the icon under [Icon]: a reader that follows the specification
    gets exactly the installed paths back, whatever characters they contain. *)
Theorem desktop_entry_read_back t target :
  safe_path t target = Ok () →
  ∃ exec icon,
    split nl (desktop_entry target) !! 5 = Some ("Exec=" +:+ exec) ∧
    split nl (desktop_entry target) !! 6 = Some ("Icon=" +:+ icon) ∧
    exec_program exec = Some (posix (sub target "veil-desktop")) ∧
    unescape_value icon = Some (posix (sub target "veil.svg")).
Proof.
  intros Hs. unfold safe_path in Hs. inv_ok Hs. clear Hs Hs1.
  exists (exec_value target), (icon_value target).
  assert (∀ s, String.append "" s = s) as Hnil by done.
  enough (∃ rest, split nl (desktop_entry target) =
    ["[Desktop Entry]"; "Type=Application"; "Name=Veil"; "Comment=Manage your Veil proxy";
     "Comment[zh_CN]=管理 Veil 代理"; "Exec=" +:+ exec_value target;
     "Icon=" +:+ icon_value target] ++ rest) as [rest Hlines].
  { rewrite Hlines. split_and!; [done|done|apply exec_program_value|].
    rewrite icon_value_map. apply unescape_doubled. }
  eexists. unfold desktop_entry. cbv zeta. change nl with (char1 line_feed).
  do 5 (rewrite split_line by (by vm_compute)).
  rewrite <- (sapp_assoc "Exec="), <- (sapp_assoc "Icon=").
  rewrite split_line by (by apply exec_value_one_line).
  rewrite split_line by (by apply icon_value_one_line). reflexivity.
Qed.

(** A target with a quote, a backslash and a dollar sign. *)
Definition odd_target : path := ["opt"; "it's " +:+ dquote +:+ "$HOME" +:+ backslash].
Lemma desktop_entry_read_back_witness :
  ∃ exec icon,
    split nl (desktop_entry odd_target) !! 5 = Some ("Exec=" +:+ exec) ∧
    split nl (desktop_entry odd_target) !! 6 = Some ("Icon=" +:+ icon) ∧
    exec_program exec = Some (posix (sub odd_target "veil-desktop")) ∧
    unescape_value icon = Some (posix (sub odd_target "veil.svg")).
Proof. apply (desktop_entry_read_back ∅). vm_compute. reflexivity. Defined.
