(* ===== verification/TreeTypes.v ===== *)
(** * The file tree stays a tree

    Every node but the root is in a directory.  The operations of FileSystem.v keep that at every
    point at which they can fail, and so does the installer, which is why nothing it leaves behind
    is out of reach. *)

From S2P Require Import Prelude.
From S2P Require Import PyText.
From S2P Require Import FileSystem.
From S2P Require Import Install.
From Stdlib Require Import Sorted.

(** The type of a tree. *)
Definition in_directory (t : gmap path node) (q : path) : Prop := ∃ mode, node_at t (parent q) = Some (Dir mode).
Definition well_formed (t : gmap path node) : Prop := map_Forall (λ q _, q ≠ [] ∧ in_directory t q) t.

Definition no_dir (n : option node) : Prop := ∀ mode, n ≠ Some (Dir mode).

(** ** Storing and deleting *)
Section changes.
Context (t : gmap path node) (Ht : well_formed t).

Lemma children_in_directory q c n : t !! (q ++ [c]) = Some n → in_directory t (q ++ [c]).
Proof. intros Hn. by apply (Ht _ _ Hn). Qed.
(** A path without a directory has nothing below it. *)
Lemma no_children q r n : q ≠ [] → no_dir (t !! q) → t !! r = Some n → parent r ≠ q.
Proof.
  intros Hq Hd Hr <-. destruct (Ht _ _ Hr) as [_ [mode Hm]]. rewrite node_at_ne in Hm by done. by apply (Hd mode).
Qed.
Lemma keep_directory t' q r : in_directory t r → parent r ≠ q → (∀ r, r ≠ q → t' !! r = t !! r) → in_directory t' r.
Proof.
  intros [mode Hm] Hne Heq. exists mode. destruct (decide (parent r = [])) as [He|He]; [by rewrite He in *|].
  rewrite node_at_ne in * by done. by rewrite Heq.
Qed.

Lemma wf_insert_leaf q n : q ≠ [] → in_directory t q → no_dir (t !! q) → no_dir (Some n) → well_formed (<[q := n]> t).
Proof.
  intros Hq Hin Hd _ r m Hr. destruct (decide (r = q)) as [->|Hne].
  - split; [done|]. apply (keep_directory _ q); [done| |intros; by apply lookup_insert_ne].
    intros He. apply (f_equal length) in He. unfold parent in He. destruct (exists_last Hq) as (a & c & ->).
    rewrite removelast_last, length_app in He. cbn in He. lia.
  - rewrite lookup_insert_ne in Hr by done. destruct (Ht _ _ Hr) as [? Hi]. split; [done|].
    apply (keep_directory _ q); [done|by eapply no_children|intros; by apply lookup_insert_ne].
Qed.
Lemma parent_shorter (q : path) : q ≠ [] → parent q ≠ q.
Proof.
  intros Hq He. apply (f_equal length) in He. unfold parent in He. destruct (exists_last Hq) as (a & c & ->).
  rewrite removelast_last, length_app in He. cbn in He. lia.
Qed.
Lemma wf_insert_dir q mode : q ≠ [] → in_directory t q → well_formed (<[q := Dir mode]> t).
Proof.
  intros Hq Hin r m Hr. assert (∀ r, in_directory t r → in_directory (<[q := Dir mode]> t) r) as Hk.
  { intros r' [m' Hm']. unfold in_directory. destruct (decide (parent r' = q)) as [He|He].
    - exists mode. rewrite He, node_at_ne by done. apply lookup_insert_eq.
    - exists m'. by rewrite node_at_insert_ne. }
  destruct (decide (r = q)) as [->|Hne]; [by split; [|apply Hk]|].
  rewrite lookup_insert_ne in Hr by done. destruct (Ht _ _ Hr) as [? Hi]. split; [done|by apply Hk].
Qed.
Lemma wf_delete q : (∀ r n, t !! r = Some n → parent r ≠ q) → well_formed (delete q t).
Proof.
  intros Hc r n Hr. apply lookup_delete_Some in Hr as [Hne Hr]. destruct (Ht _ _ Hr) as [? Hi]. split; [done|].
  apply (keep_directory _ q); [done|by eapply Hc|intros; by apply lookup_delete_ne].
Qed.
Lemma wf_delete_leaf q : q ≠ [] → no_dir (t !! q) → well_formed (delete q t).
Proof. intros Hq Hd. apply wf_delete. intros r n Hr. by eapply no_children. Qed.
End changes.

(** ** The operations *)
Abbreviation typed m := (keeps (on_tree well_formed) m).

Lemma tick_typed : typed tick.
Proof. by apply within_tick. Qed.
#[local] Hint Resolve tick_typed : within.
(** A file or nothing is replaced by a file, in a directory. *)
Lemma node_at_leaf t q : no_dir (node_at t q) → q ≠ [] ∧ no_dir (t !! q).
Proof.
  intros Hd. destruct (decide (q = [])) as [->|Hq]; [by destruct (Hd 493%Z)|]. by rewrite node_at_ne in Hd.
Qed.
Lemma write_file_typed p data : typed (write_file p data).
Proof.
  intros d Hd. unfold on_tree, write_file in *. fs_unfold. destruct (resolve (tree d) p) as [q|]; [|done].
  destruct (node_at (tree d) (parent q)) as [[|mode|]|] eqn:Hp; try done.
  assert (no_dir (node_at (tree d) q) → ∀ s m, well_formed (<[q := File s m]> (tree d))) as Hi.
  { intros Hq s m. apply node_at_leaf in Hq as [Hq Hn]. apply wf_insert_leaf; [done|done|by exists mode|done|done]. }
  destruct (node_at (tree d) q) as [[]|]; try done; unfold write_at; destruct (faults d) as [|[k|] fs]; cbn;
    first [done | by apply Hi | split; [by apply Hi|done]].
Qed.
Lemma after_tick {A} (k : gmap path node → py disk A) :
  (∀ d, well_formed (tree d) → match k (tree d) d with (Ok _, d') => well_formed (tree d') | (Err _, d') => well_formed (tree d') end) →
  typed (tick;; get_tree ≫= k).
Proof.
  intros Hk. apply within_bind; [apply tick_typed|intros _ d Hd]. specialize (Hk d Hd).
  unfold get_tree, gets, mbind, py_bind. by destruct (k (tree d) d) as [[]].
Qed.
Lemma chmod_typed p mode : typed (chmod p mode).
Proof.
  apply after_tick. intros d Hd. destruct (resolve (tree d) p) as [q|]; [|done].
  destruct (tree d !! q) as [[data m|m|]|] eqn:Hq; try done; destruct (Hd _ _ Hq) as [Hne Hin]; cbn.
  - apply wf_insert_leaf; [done|done|done|by rewrite Hq|done].
  - by apply wf_insert_dir.
Qed.
Lemma unlink_typed p : typed (unlink_ok p).
Proof.
  apply after_tick. intros d Hd. destruct (entry (tree d) p) as [q|]; [|done].
  destruct (tree d !! q) as [[]|] eqn:Hq; try done; cbn; apply wf_delete_leaf; try done;
    try (by destruct (Hd _ _ Hq)); by rewrite Hq.
Qed.
(** [os.replace] of anything but a directory *)
Lemma replace_file_typed p q :
  triple (λ d, well_formed (tree d) ∧ ∀ p', entry (tree d) p = Some p' → no_dir (tree d !! p')) (replace_file p q)
    (λ _, on_tree well_formed) (λ _, on_tree well_formed).
Proof.
  intros d [Hd Hp]. unfold on_tree, replace_file, tick. fs_unfold.
  assert (∀ p' q' n mode, entry (tree d) p = Some p' → tree d !! p' = Some n → no_dir (node_at (tree d) q') →
    node_at (tree d) (parent q') = Some (Dir mode) → well_formed (<[q' := n]> (delete p' (tree d)))) as Hi.
  { intros p' q' n mode He Hn Hq Hm. destruct (Hd _ _ Hn) as [Hne _]. pose proof (Hp _ He) as Hnd.
    apply node_at_leaf in Hq as [Hq Hqd]. apply wf_insert_leaf.
    - by apply wf_delete_leaf.
    - done.
    - apply (keep_directory (tree d) _ p'); [by exists mode| |intros; by apply lookup_delete_ne].
      intros <-. rewrite node_at_ne in Hm by done. by apply (Hnd mode).
    - rewrite lookup_delete. case_decide; [done|exact Hqd].
    - by rewrite <- Hn. }
  destruct (faults d) as [|[k|] fs]; cbn; try done;
    (destruct (entry (tree d) p) as [p'|] eqn:He; [|done]; destruct (entry (tree d) q) as [q'|]; [|done];
     destruct (tree d !! p') as [n|] eqn:Hn; [|done];
     destruct (node_at (tree d) q') as [[]|] eqn:Hq; try done;
     destruct (node_at (tree d) (parent q')) as [[]|] eqn:Hm; try done; cbn; eapply Hi; try done; by rewrite Hq).
Qed.

(** [shutil.rmtree]: the deepest entry that is left has nothing below it. *)
Lemma delete_entries_typed (p : path) l :
  (∀ l1 q l2 c, l = l1 ++ q :: l2 → c ∈ l2 → (length c ≤ length q)%nat) → (∀ q, q ∈ l → q ≠ [] ∧ below p q) →
  triple (λ d, well_formed (tree d) ∧ ∀ q, below p q → is_Some (tree d !! q) → q ∈ l) (for_each delete_entry l)
    (λ _, on_tree well_formed) (λ _, on_tree well_formed).
Proof.
  induction l as [|q l IH]; intros Hs Hb; cbn [for_each]; [by intros d [? _]|].
  apply (triple_bind _ _ _ (λ _ d, well_formed (tree d) ∧ ∀ q, below p q → is_Some (tree d !! q) → q ∈ l)).
  - intros d [Hd Hc]. unfold delete_entry, tick. fs_unfold.
    destruct (Hb q) as [Hq Hbq]; [by left|].
    assert (well_formed (delete q (tree d)) ∧ ∀ r, below p r → is_Some (delete q (tree d) !! r) → r ∈ l) as Hn.
    { split.
      - apply wf_delete; [done|]. intros r n Hr Hp. destruct (Hd _ _ Hr) as [Hne _].
        destruct (exists_last Hne) as (a & c & ->). unfold parent in Hp. rewrite removelast_last in Hp. subst a.
        assert (q ++ [c] ∈ q :: l) as [He | Hin]%elem_of_cons.
        { apply Hc; [|by eexists]. apply below_prefix in Hbq. apply below_prefix. by apply prefix_app_r. }
        + apply (f_equal length) in He. rewrite length_app in He. cbn in He. lia.
        + specialize (Hs [] q l (q ++ [c]) eq_refl Hin). rewrite length_app in Hs. cbn in Hs. lia.
      - intros r Hr [n Hl]. apply lookup_delete_Some in Hl as [Hne Hl].
        assert (r ∈ q :: l) as [-> | ?]%elem_of_cons by (apply Hc; [done|by eexists]); done. }
    destruct (faults d) as [|[k|] fs]; cbn; done.
  - intros []. apply IH; [|intros r Hr; apply Hb; by right].
    intros l1 r l2 c ->. apply (Hs (q :: l1)). done.
Qed.
Lemma deepest_first_sorted l l1 q l2 c : deepest_first l = l1 ++ q :: l2 → c ∈ l2 → (length c ≤ length q)%nat.
Proof.
  intros Hl Hc. assert (merge_sort shallower l = rev l2 ++ q :: rev l1) as Hm.
  { rewrite <- (rev_involutive (merge_sort shallower l)). fold (deepest_first l). rewrite Hl, rev_app_distr. cbn.
    by rewrite <- app_assoc. }
  assert (StronglySorted shallower (merge_sort shallower l)) as Hs.
  { assert (Transitive shallower) by (intros x y z; unfold shallower; lia).
    assert (Total shallower) by (intros x y; unfold shallower; lia). apply (StronglySorted_merge_sort shallower). }
  rewrite Hm in Hs. eapply (StronglySorted_app_1_elem_of _ _ _ c q) in Hs; [done| |by left].
  apply list_elem_of_In, in_rev. rewrite rev_involutive. by apply list_elem_of_In.
Qed.
Lemma rmtree_typed p : p ≠ [] → typed (rmtree p).
Proof.
  intros Hp d Hd. unfold rmtree, get_tree, gets, mbind, py_bind.
  assert (∀ q, q ∈ deepest_first (subtree (tree d) p) ↔ below p q ∧ is_Some (tree d !! q)) as Hin.
  { intros q. by rewrite elem_deepest_first, elem_subtree. }
  pose proof (delete_entries_typed p (deepest_first (subtree (tree d) p)) ltac:(apply deepest_first_sorted)) as Hr.
  specialize (Hr ltac:(intros q [Hb _]%Hin; split; [|done]; intros ->; apply below_prefix in Hb; by apply prefix_nil_inv in Hb)).
  specialize (Hr d ltac:(split; [done|]; intros q Hb Hs; by apply Hin)).
  by destruct (for_each _ _ d) as [[]].
Qed.

(** ** The installer

    The directories it writes into stay free of links. *)
Section installer.
Context (temp_name : gmap path node → path → string).
Context (temp_fresh : ∀ t dir, t !! (dir ++ [temp_name t dir]) = None).
Context (free : list path).

Definition typed_free (t : gmap path node) : Prop := well_formed t ∧ ∀ dir, dir ∈ free → link_free t dir.
Abbreviation kept m := (keeps (on_tree typed_free) m).

(** Operations that add no link keep the directories. *)
Definition links_from (t t' : gmap path node) : Prop := ∀ q, is_link (t' !! q) = true → is_link (t !! q) = true.
Lemma links_from_free t t' p : links_from t t' → link_free t p → link_free t' p.
Proof.
  intros Hl Hp q Hq. specialize (Hp q Hq). specialize (Hl q). destruct (is_link (t' !! q)); [|done]. by rewrite Hl in Hp.
Qed.
Lemma links_insert t q n : is_link (Some n) = false → links_from t (<[q := n]> t).
Proof. intros Hn r. rewrite lookup_insert. case_decide; [by rewrite Hn|done]. Qed.
Lemma links_delete t q : links_from t (delete q t).
Proof. intros r. rewrite lookup_delete. by case_decide. Qed.
Definition free_dirs (t : gmap path node) : Prop := ∀ dir, dir ∈ free → link_free t dir.
Lemma free_insert t q n : is_link (Some n) = false → free_dirs t → free_dirs (<[q := n]> t).
Proof. intros Hn Ht dir Hd. eapply links_from_free; [by apply links_insert|by apply Ht]. Qed.
Lemma free_delete t q : free_dirs t → free_dirs (delete q t).
Proof. intros Ht dir Hd. eapply links_from_free; [by apply links_delete|by apply Ht]. Qed.

Lemma both_kept {A} (m : py disk A) : typed m → keeps (on_tree free_dirs) m → kept m.
Proof. apply keeps_and. Qed.
Lemma unlink_kept p : kept (unlink_ok p).
Proof.
  apply both_kept; [apply unlink_typed|]. unfold unlink_ok. solve_fs; by apply free_delete.
Qed.
Lemma rmtree_kept p : p ≠ [] → kept (rmtree p).
Proof.
  intros Hp. apply both_kept; [by apply rmtree_typed|]. unfold rmtree, delete_entry. solve_fs.
  apply within_modify. intros d Hd. by apply free_delete.
Qed.

(** The directories above one of them are made from the root down. *)
Lemma make_dirs_kept p acc : acc ++ p ∈ free →
  triple (λ d, typed_free (tree d) ∧ ∃ mode, node_at (tree d) acc = Some (Dir mode)) (make_dirs (ancestors_from acc p))
    (λ _, on_tree typed_free) (λ _, on_tree typed_free).
Proof.
  revert acc. induction p as [|c p IH]; intros acc Hf; cbn [ancestors_from make_dirs]; [by intros d [? _]|].
  intros d [[Hd Hl] Ha]. unfold get_tree, gets, mbind at 1, py_bind.
  assert (acc ++ [c] ≠ []) as Hne by apply snoc_ne. assert ((acc ++ [c]) ++ p ∈ free) as Hf' by by rewrite <- app_assoc.
  assert (link_free (tree d) (acc ++ [c])) as Hlf by (eapply link_free_app; by apply Hl).
  rewrite stat_link_free by done. specialize (IH (acc ++ [c]) Hf').
  destruct (tree d !! (acc ++ [c])) as [[|mode|]|] eqn:Hn; [done| |done|].
  - apply (IH d). split; [done|]. exists mode. by rewrite node_at_ne.
  - assert (typed_free (<[acc ++ [c] := Dir 493]> (tree d))) as Ht.
    { split; [|by apply free_insert]. apply wf_insert_dir; [done|done|]. unfold in_directory. by rewrite parent_snoc. }
    unfold tick, put_tree, modify, mbind, py_bind.
    destruct (faults d) as [|[k|] fs]; [|done|]; cbn -[make_dirs]; (apply IH; split; [done|]; exists 493%Z; cbn;
      rewrite node_at_ne by done; apply lookup_insert_eq).
Qed.
Lemma mkdir_kept dir : dir ∈ free → kept (mkdir_p dir).
Proof.
  intros Hf d Hd. pose proof (make_dirs_kept dir [] Hf d) as Hm. unfold mkdir_p, ancestors.
  specialize (Hm ltac:(split; [done|by exists 493%Z])). by destruct (make_dirs _ d) as [[]].
Qed.

(** A temporary file in one of them: it stays a file until it replaces the destination. *)
Definition temp_file (name : path) (d : disk) : Prop := typed_free (tree d) ∧ ∃ data m, tree d !! name = Some (File data m).
Definition in_free (name : path) : Prop := ∃ dir c, dir ∈ free ∧ name = dir ++ [c].

Lemma kept_temp_link_free name d : in_free name → temp_file name d → link_free (tree d) name ∧ name ≠ [].
Proof.
  intros (dir & c & Hd & ->) [[_ Hl] (data & m & Hn)]. split; [|apply snoc_ne]. apply link_free_snoc.
  split; [by apply Hl|by rewrite Hn].
Qed.
Lemma temp_update name d data m fs : in_free name → temp_file name d →
  temp_file name {| tree := <[name := File data m]> (tree d); faults := fs |}.
Proof.
  intros Hf Ht. pose proof (kept_temp_link_free _ _ Hf Ht) as [_ Hne]. destruct Ht as [[Hd Hl] (data0 & m0 & Hn)]. split; cbn.
  - split; [|by apply free_insert]. apply wf_insert_leaf; [done|done|apply (Hd _ _ Hn)|by rewrite Hn|done].
  - eexists _, _. apply lookup_insert_eq.
Qed.
Lemma mkstemp_kept dir : dir ∈ free →
  triple (on_tree typed_free) (mkstemp temp_name dir) (λ name d, temp_file name d ∧ in_free name) (λ _, on_tree typed_free).
Proof.
  intros Hf d [Hd Hl]. unfold on_tree, mkstemp, tick. fs_unfold.
  assert (node_at (tree d) dir ≠ None → ∀ mode, node_at (tree d) dir = Some (Dir mode) → ∀ fs, temp_file (dir ++ [temp_name (tree d) dir])
    {| tree := <[dir ++ [temp_name (tree d) dir] := File "" 384]> (tree d); faults := fs |}) as Hi.
  { intros _ mode Hm fs. split; [|eexists _, _; apply lookup_insert_eq]. split; [|by apply free_insert].
    apply wf_insert_leaf; [done|apply snoc_ne| |by rewrite temp_fresh|done]. exists mode. by rewrite parent_snoc. }
  assert (in_free (dir ++ [temp_name (tree d) dir])) as Hin by (by eexists _, _).
  destruct (faults d) as [|[k|] fs]; cbn; [|done|]; rewrite resolve_link_free by (by apply Hl);
    (destruct (node_at (tree d) dir) as [[|mode|]|] eqn:Hm; [done| |done|done]); cbn; (split; [|done]);
    by eapply Hi.
Qed.
Lemma write_temp_kept name data : in_free name → triple (temp_file name) (write_file name data)
  (λ _, temp_file name) (λ _, temp_file name).
Proof.
  intros Hf d Hd. destruct (kept_temp_link_free _ _ Hf Hd) as [Hlf Hne]. unfold write_file. fs_unfold.
  rewrite resolve_link_free, (node_at_ne _ name) by done.
  destruct (node_at (tree d) (parent name)) as [[]|]; try done. destruct Hd as [Ht (data0 & m0 & Hn)]. rewrite Hn.
  assert (temp_file name d) as Hd by (split; [done|by eexists _, _]).
  unfold write_at. destruct (faults d) as [|[k|] fs]; cbn; by apply temp_update.
Qed.
Lemma chmod_temp_kept name mode : in_free name → triple (temp_file name) (chmod name mode)
  (λ _, temp_file name) (λ _, temp_file name).
Proof.
  intros Hf d Hd. destruct (kept_temp_link_free _ _ Hf Hd) as [Hlf Hne]. unfold chmod, tick. fs_unfold.
  destruct Hd as [Ht (data0 & m0 & Hn)]. assert (temp_file name d) as Hd by (split; [done|by eexists _, _]).
  destruct (faults d) as [|[k|] fs]; cbn; [|by destruct Hd|]; rewrite resolve_link_free, Hn by done; cbn; by apply temp_update.
Qed.
Lemma replace_temp_kept name q : in_free name →
  triple (temp_file name) (replace_file name q) (λ _, on_tree typed_free) (λ _, on_tree typed_free).
Proof.
  intros Hf d Hd. destruct (kept_temp_link_free _ _ Hf Hd) as [Hlf Hne]. destruct Hd as [[Hd Hl] (data & m & Hn)].
  assert (∀ p', entry (tree d) name = Some p' → no_dir (tree d !! p')) as Hp.
  { rewrite link_free_entry by done. intros p' [= <-]. by rewrite Hn. }
  pose proof (replace_file_typed name q d (conj Hd Hp)) as Hw.
  assert (free_dirs (tree (replace_file name q d).2)) as Hfree.
  { unfold replace_file, tick. fs_unfold. destruct (faults d) as [|[k|] fs]; cbn; [|done|];
      rewrite link_free_entry, Hn by done; destruct (entry (tree d) q) as [q'|]; try done;
      destruct (node_at (tree d) q') as [[]|]; try done; destruct (node_at (tree d) (parent q')) as [[]|]; try done;
      cbn; apply free_insert; try done; by apply free_delete. }
  destruct (replace_file name q d) as [[u|e] d1]; by split.
Qed.
Lemma atomic_write_kept dir name data mode : dir ∈ free → kept (atomic_write temp_name (dir ++ [name]) data mode).
Proof.
  intros Hf. unfold atomic_write. rewrite parent_snoc. eapply triple_bind.
  - eapply triple_consequence; [by apply mkstemp_kept|done|intros q d Hd; exact Hd|by intros e d Hd; split].
  - intros q d [Hd Hq]. revert d Hd. eapply (triple_try_finally _ (on_tree typed_free)); [|apply unlink_kept].
    apply (triple_bind _ _ _ (λ _, temp_file q)); [|intros []; apply (triple_bind _ _ _ (λ _, temp_file q)); [|intros []; by apply replace_temp_kept]].
    + eapply triple_consequence; [by apply write_temp_kept|done|done|]. by intros e d [? _].
    + eapply triple_consequence; [by apply chmod_temp_kept|done|done|]. by intros e d [? _].
Qed.
End installer.

Lemma manage_well_formed temp_name (temp_fresh : ∀ t dir, t !! (dir ++ [temp_name t dir]) = None) act source prefix d :
  well_formed (tree d) → well_formed (tree (manage temp_name act source prefix d).2).
Proof.
  intros Hd. unfold manage, mbind at 1, py_bind.
  pose proof (checks_keep (eq (tree d)) prefix d eq_refl) as Hc. unfold on_tree in Hc.
  destruct (checks prefix d) as [[[]|e] d1] eqn:Hck; [|destruct Hc as [Hc _]; cbn; by rewrite <- Hc].
  destruct (checks_safe _ _ _ Hck) as [Ht Hl]. set (free := [target_of prefix; parent (launcher_of prefix)]).
  assert (typed_free free (tree d1)) as H1.
  { rewrite <- Hc. split; [done|]. intros dir Hdir. apply (dirs_free _ prefix Ht Hl).
    apply elem_of_cons in Hdir as [-> | ->%list_elem_of_singleton]; [by left|by right]. }
  assert (target_of prefix ∈ free) as Hf1 by (by left). assert (parent (launcher_of prefix) ∈ free) as Hf2 by (by right; left).
  assert (keeps (on_tree (typed_free free)) match act with Uninstall => uninstall prefix | Install => install temp_name source prefix end) as Hk.
  { destruct act.
    - unfold install, place_files. apply within_bind; [eapply within_keeps, read_inputs_keep|intros contents].
      apply within_bind; [by apply mkdir_kept|intros []]. apply within_bind; [by apply mkdir_kept|intros []].
      apply within_bind; [|intros []; rewrite launcher_snoc; by apply atomic_write_kept].
      apply within_for_each. intros kv _. by apply atomic_write_kept.
    - unfold uninstall. apply within_bind; [apply unlink_kept|intros []]. apply within_get_tree. intros t _.
      apply within_when. intros _. apply rmtree_kept, target_ne. }
  specialize (Hk d1 H1). destruct act; [destruct (install _ _ _ d1) as [[u|e] d2]|destruct (uninstall _ d1) as [[u|e] d2]]; by apply Hk.
Qed.

(** C40. The installer keeps the tree a tree: whatever operation fails and wherever, an
    installation or removal of a well-formed tree ends with a well-formed tree - every file,
    directory and link that is left has a directory above it, also when [shutil.rmtree] stopped
    half way or a replacement was cut short. *)
Theorem installer_well_formed temp_name (temp_fresh : ∀ t dir, t !! (dir ++ [temp_name t dir]) = None) euid act source prefix d :
  well_formed (tree d) → well_formed (tree (main temp_name euid act source prefix d).2).
Proof.
  intros Hd. rewrite main_reports by done. destruct (euid =? 0)%Z; [done|].
  pose proof (manage_well_formed temp_name temp_fresh act source prefix d Hd) as Hm. by destruct (manage _ _ _ _ d).
Qed.

#[export] Instance in_directory_dec t q : Decision (in_directory t q).
Proof.
  refine (match node_at t (parent q) as n return node_at t (parent q) = n → Decision (in_directory t q) with
          | Some (Dir m) => λ H, left (ex_intro _ m H)
          | _ => λ H, right _ end eq_refl); unfold in_directory; rewrite H; by intros [? ?].
Defined.
(** A removal that stops in the middle of the directory, whose disk began as an installation. *)
Definition after_run (act : action) (d : disk) : disk := (main sample_temp 1000 act sample_source sample_prefix d).2.
Definition failing (t : gmap path node) : disk := {| tree := t; faults := replicate 8 None ++ [Some 0] |}.
Lemma sample_well_formed : well_formed sample_disk.
Proof.
  assert (bool_decide (map_Forall (λ q _, q ≠ [] ∧ in_directory sample_disk q) sample_disk) = true) as Hb by (vm_compute; reflexivity).
  exact (bool_decide_eq_true_1 _ Hb).
Qed.
Lemma failing_well_formed t : well_formed t → well_formed (tree (failing t)).
Proof. done. Qed.
Lemma installer_well_formed_witness :
  let installed := after_run Install (no_faults sample_disk) in
  let half := after_run Uninstall (failing (tree installed)) in
  well_formed (tree installed) ∧ well_formed (tree half) ∧
  is_dir (tree half) (target_of sample_prefix) = true ∧
  is_file (tree half) (target_of sample_prefix ++ ["manifest.json"]) = false.
Proof.
  intros installed half. assert (well_formed (tree installed)) as Hi.
  { exact (installer_well_formed sample_temp sample_temp_fresh 1000 Install sample_source sample_prefix (no_faults sample_disk)
      sample_well_formed). }
  split; [exact Hi|]. split; [|split; vm_compute; reflexivity].
  exact (installer_well_formed sample_temp sample_temp_fresh 1000 Uninstall sample_source sample_prefix (failing (tree installed))
    (failing_well_formed _ Hi)).
Defined.
