(* ===== verification/TlsEdits.v ===== *)
(** * Checked source edits

    [replace] of [veil-core/scripts/build.py]: an edit applies only where its anchor
    occurs exactly once.  The lemmas say which texts survive an edit: an occurrence
    that cannot overlap the anchor does. *)

From S2P Require Import Prelude.
From S2P Require Import PyText.
From Stdlib Require Import Ascii.

Definition changed (a : string) : exn :=
  RuntimeError ("upstream source changed: " +:+ stake 80 a).

Definition replace (s a b : string) : result string :=
  if negb (Nat.eqb (count a s) 1) then Err (changed a) else Ok (replace_all a b s).

(** [s[:start] + b + s[end:]] *)
Definition splice (s : string) (start stop : nat) (b : string) : string :=
  stake start s +:+ b +:+ sdrop stop s.

Lemma sapp_split u r x r' : u +:+ r = x +:+ r' →
  (∃ w, u = x +:+ w ∧ r' = w +:+ r) ∨ (∃ w, w ≠ "" ∧ x = u +:+ w ∧ r = w +:+ r').
Proof.
  revert x. induction u as [|c u IH]; intros [|d x].
  - intros H. left. by exists "".
  - intros H. right. by exists (String d x).
  - intros H. left. by exists (String c u).
  - rewrite !sapp_cons. intros [= -> H]. destruct (IH x H) as [(w & -> & ->)|(w & Hw & -> & ->)].
    + left. by exists w.
    + right. by exists w.
Qed.

(** ** What [replace] does *)
Lemma replace_ok s a b t : a ≠ "" →
  replace s a b = Ok t ↔
    ∃ x y, cut a s = Some (x, y) ∧ contains a y = false ∧ t = x +:+ b +:+ y.
Proof.
  intros Ha. unfold replace. destruct (Nat.eqb_spec (count a s) 1) as [Hc|Hc]; simpl.
  - apply count_one in Hc as (x & y & Hc & Hy); [|done].
    rewrite (replace_all_cut _ _ _ x y), replace_all_none by done. split.
    + intros [= <-]. by exists x, y.
    + intros (x' & y' & Hc' & _ & ->). by simplify_eq.
  - split; [done|]. intros (x & y & H1 & H2 & _). destruct Hc. apply count_one; [done|].
    by exists x, y.
Qed.

Lemma replace_error s a b e : replace s a b = Err e → e = changed a ∧ count a s ≠ 1.
Proof.
  unfold replace. destruct (Nat.eqb_spec (count a s) 1) as [Hc|Hc]; simpl; [done|].
  by intros [= <-].
Qed.

(** [replace] succeeds exactly when the anchor occurs once, every other match
    overlapping it, and then puts the new text in its place and keeps everything
    before and after; otherwise it raises [RuntimeError] and names the anchor. *)
Theorem replace_exact s a b :
  a ≠ "" →
  match replace s a b with
  | Ok t => ∃ x y, s = x +:+ a +:+ y ∧ t = x +:+ b +:+ y ∧
      (∀ x' y', s = x' +:+ a +:+ y' → String.length x ≤ String.length x' ∧
         String.length x' < String.length x + String.length a)
  | Err e => e = changed a ∧ count a s ≠ 1
  end.
Proof.
  intros Ha. destruct (replace s a b) as [t|e] eqn:Hr; [|by apply replace_error in Hr].
  apply replace_ok in Hr as (x & y & Hc & Hy & ->); [|done].
  pose proof (cut_eq _ _ _ _ Hc) as Hs. exists x, y. split_and!; [done..|].
  intros x' y' Hs'. split; [by eapply cut_leftmost|].
  destruct (decide (String.length x' < String.length x + String.length a)) as [|Hge]; [done|].
  exfalso. rewrite Hs in Hs'. symmetry in Hs'. rewrite <- (sapp_assoc x) in Hs'.
  destruct (sapp_split _ _ _ _ Hs') as [(w & -> & Hw)|(w & Hne & Hx & _)].
  - apply not_true_iff_false in Hy. apply Hy, contains_true. by exists w, y'.
  - apply (f_equal String.length) in Hx. rewrite !slength_app in Hx.
    destruct w; [done|]. simpl in Hx. lia.
Qed.

(** ** Texts that survive an edit *)

(** [agree u v]: one is a prefix of the other. *)
Fixpoint agree (u v : string) : bool :=
  match u, v with
  | String c u', String d v' => Ascii.eqb c d && agree u' v'
  | _, _ => true
  end.

(** No occurrence of [p] can share a character with an occurrence of [a]. *)
Definition apart (p a : string) : bool :=
  forallb (λ k, negb (agree (sdrop k a) p)) (seq 0 (String.length a)) &&
  forallb (λ k, negb (agree (sdrop k p) a)) (seq 1 (String.length p - 1)).

Lemma agree_app p v q y : p +:+ v = q +:+ y → agree p q = true.
Proof.
  revert q. induction p as [|c p IH]; intros [|d q]; [done..|].
  rewrite !sapp_cons. intros [= -> H]. simpl. by rewrite Ascii.eqb_refl, (IH q).
Qed.

Lemma apart_splits p a x y u v : apart p a = true → u +:+ p +:+ v = x +:+ a +:+ y →
  contains p x = true ∨ contains p y = true.
Proof.
  unfold apart. rewrite andb_true_iff, !forallb_forall. intros [H1 H2] H.
  setoid_rewrite in_seq in H1. setoid_rewrite in_seq in H2. setoid_rewrite contains_true.
  destruct (sapp_split _ _ _ _ H) as [(w & -> & Hw)|(w & Hne & -> & Hw)].
  - destruct (sapp_split _ _ _ _ Hw) as [(w' & -> & Hw')|(w' & _ & -> & ->)]; [|by eauto].
    destruct w' as [|c w']; [right; exists "", v; rewrite sapp_nil_l in *; by symmetry|].
    assert (agree (String c w') p = true) as Hag by (eapply agree_app; symmetry; exact Hw').
    specialize (H1 (String.length w)). rewrite sdrop_app, Hag, slength_app in H1.
    cbn [String.length] in H1. exfalso. by discriminate (H1 ltac:(lia)).
  - destruct (sapp_split _ _ _ _ Hw) as [(w' & -> & Hw')|(w' & _ & -> & ->)]; [|by eauto].
    destruct w' as [|c w']; [left; exists u, ""; by rewrite !sapp_nil_r|].
    assert (agree (String c w') a = true) as Hag by (eapply agree_app; symmetry; exact Hw').
    specialize (H2 (String.length w)). rewrite sdrop_app, Hag, slength_app in H2.
    destruct w; [done|]. cbn [String.length] in H2. exfalso. by discriminate (H2 ltac:(lia)).
Qed.

Lemma replace_keeps p s a b t : a ≠ "" → replace s a b = Ok t → apart p a = true →
  contains p s = true → contains p t = true.
Proof.
  intros Ha (x & y & Hc & _ & ->)%replace_ok Hap Hp; [|done].
  apply cut_eq in Hc. apply contains_true in Hp as (u & v & Hp). rewrite Hc in Hp.
  destruct (apart_splits p a x y u v Hap (eq_sym Hp)); auto with text.
Qed.

Lemma replace_adds p s a b t : a ≠ "" → replace s a b = Ok t →
  contains p b = true → contains p t = true.
Proof. intros Ha (x & y & _ & _ & ->)%replace_ok Hp; auto with text. Qed.

(** ** Hooks

    [has_all hooks s]: every hook occurs in the source.  [after U cur e] are the hooks
    of [U] that the edit [e] adds, or keeps from [cur]. *)
Definition has_all (hooks : list string) (s : string) : bool :=
  forallb (λ h, contains h s) hooks.
Definition edit : Type := string * string.
Definition after (U : list string) (cur : list string) (e : edit) : list string :=
  List.filter (λ h, contains h e.2 || (existsb (String.eqb h) cur && apart h e.1)) U.

(** [f] is a sequence of the edits [es]: the hooks they leave are in its result. *)
Definition tracks (f : string → result string) (es : list edit) : Prop :=
  ∀ U cur s t, f s = Ok t → has_all cur s = true →
    has_all (fold_left (after U) es cur) t = true.

Lemma has_all_spec hooks s : has_all hooks s = true ↔ ∀ h, In h hooks → contains h s = true.
Proof. apply forallb_forall. Qed.

Lemma has_all_subset hooks hooks' s :
  forallb (λ h, existsb (String.eqb h) hooks') hooks = true →
  has_all hooks' s = true → has_all hooks s = true.
Proof.
  rewrite forallb_forall, !has_all_spec. intros Hs H h Hh.
  apply Hs, existsb_exists in Hh as (h' & Hh' & ->%String.eqb_eq). by apply H.
Qed.

Lemma after_replace U cur s a b t : a ≠ "" → replace s a b = Ok t →
  has_all cur s = true → has_all (after U cur (a, b)) t = true.
Proof.
  rewrite !has_all_spec. intros Ha Hr Hc h Hh. apply filter_In in Hh as [_ Hh].
  apply orb_true_iff in Hh as [Hb|Hb]; [by eapply replace_adds|].
  apply andb_true_iff in Hb as [(h' & Hh' & ->%String.eqb_eq)%existsb_exists Hap].
  eapply replace_keeps; [done..|]. by apply Hc.
Qed.

Lemma tracks_ret : tracks (λ s, mret s) [].
Proof. by intros U cur s t [= <-] H. Qed.

Lemma tracks_append x : tracks (λ s, mret (s +:+ x)) [].
Proof.
  intros U cur s t [= <-]. rewrite !has_all_spec. intros H h Hh. by apply contains_app_l, H.
Qed.

Lemma tracks_replace a b : a ≠ "" → tracks (λ s, replace s a b) [(a, b)].
Proof. intros Ha U cur s t H Hc. by eapply after_replace. Qed.

Lemma tracks_edit a b k es : a ≠ "" → tracks k es →
  tracks (λ s, replace s a b ≫= k) ((a, b) :: es).
Proof.
  intros Ha Hk U cur s t H Hc. apply bind_ok in H as (s1 & H1 & H).
  eapply (Hk U); [exact H|]. by eapply after_replace.
Qed.

Lemma tracks_bind f k es es' : tracks f es → tracks k es' →
  tracks (λ s, f s ≫= k) (es ++ es').
Proof.
  intros Hf Hk U cur s t H Hc. apply bind_ok in H as (s1 & H1 & H).
  rewrite fold_left_app. eapply Hk; [exact H|]. by eapply Hf.
Qed.

(** The hooks in the output of a chain of edits, by evaluation. *)
Lemma tracks_hooks f es hooks s t : tracks f es → f s = Ok t →
  forallb (λ h, existsb (String.eqb h) (fold_left (after hooks) es [])) hooks = true →
  has_all hooks t = true.
Proof. intros Hf Hr Hh. eapply has_all_subset; [exact Hh|]. by eapply (Hf hooks []). Qed.

Ltac solve_tracks :=
  first [apply tracks_ret | apply tracks_append | apply tracks_edit; [done|solve_tracks] |
         apply tracks_replace; done | eapply tracks_bind; [solve_tracks|solve_tracks]].

(** ** Texts that an edit removes *)
Lemma cut_before a s x y : a ≠ "" → cut a s = Some (x, y) → contains a x = false.
Proof.
  intros Ha Hc. destruct (contains a x) eqn:Hx; [|done]. apply contains_true in Hx as (u & v & ->).
  pose proof (cut_eq _ _ _ _ Hc) as Hs. rewrite !sapp_assoc in Hs.
  eapply cut_leftmost in Hs; [|exact Hc]. rewrite !slength_app in Hs.
  destruct a; [done|]. simpl in Hs. lia.
Qed.

Lemma contains_apart p b x y : apart p b = true →
  contains p (x +:+ b +:+ y) = true → contains p x = true ∨ contains p y = true.
Proof.
  intros Hap (u & v & H)%contains_true. by eapply apart_splits.
Qed.

(** Replacing a text by one that cannot help to form it removes it. *)
Lemma replace_all_removes a b s : a ≠ "" → apart a b = true →
  contains a (replace_all a b s) = false.
Proof.
  intros Ha Hap. remember (String.length s) as n eqn:Hn. revert s Hn.
  induction (lt_wf n) as [n _ IH]. intros s ->.
  destruct (cut a s) as [[x y]|] eqn:Hc.
  - rewrite (replace_all_cut _ _ _ x y) by done.
    apply not_true_iff_false. intros [Hx|Hy]%contains_apart; [| |done].
    + by rewrite (cut_before a s x y) in Hx.
    + by rewrite (IH (String.length y)) in Hy by eauto using cut_length.
  - apply contains_false in Hc. by rewrite replace_all_none.
Qed.

Lemma replace_keeps_absent p s a b t : a ≠ "" → replace s a b = Ok t → apart p b = true →
  contains p s = false → contains p t = false.
Proof.
  intros Ha (x & y & Hc & _ & ->)%replace_ok Hap Hp; [|done].
  apply not_true_iff_false. intros Ht. apply not_true_iff_false in Hp. apply Hp.
  apply cut_eq in Hc as ->. apply contains_apart in Ht as [H|H]; auto with text.
Qed.

(** Appending a text whose first character does not occur in [p]. *)
Lemma char_in_app a c b : char_in (a +:+ String c b) c = true.
Proof.
  induction a as [|d a IH].
  - rewrite sapp_nil_l. cbn [char_in]. by rewrite Ascii.eqb_refl.
  - rewrite sapp_cons. cbn [char_in]. by rewrite IH, orb_true_r.
Qed.

Lemma contains_append p a c b : char_in p c = false →
  contains p (a +:+ String c b) = true → contains p a = true ∨ contains p (String c b) = true.
Proof.
  rewrite !contains_true. intros Hc (u & v & H).
  destruct (sapp_split _ _ _ _ H) as [(w & -> & Hw)|(w & _ & -> & Hw)]; [|by eauto].
  left. destruct (sapp_split _ _ _ _ Hw) as [(w' & -> & Hw')|(w' & _ & -> & _)]; [|by eauto].
  destruct w' as [|d w'].
  - exists u, "". by rewrite !sapp_nil_r.
  - rewrite sapp_cons in Hw'. injection Hw' as -> _. by rewrite char_in_app in Hc.
Qed.

Lemma replace_exact_witness :
  ∃ x y, "a needle b" = x +:+ "needle" +:+ y ∧ "a pin b" = x +:+ "pin" +:+ y ∧
    (∀ x' y', "a needle b" = x' +:+ "needle" +:+ y' → String.length x ≤ String.length x' ∧
       String.length x' < String.length x + String.length "needle").
Proof.
  assert (H : "needle" ≠ "") by discriminate.
  exact (replace_exact "a needle b" "needle" "pin" H).
Defined.
