(* ===== verification/TlsPatches.v ===== *)
(** * The TLS overlay patches

    [conn_patch], [reader_patch], [read_patch], [padding_patch] and [reality_patch]
    of [veil-core/scripts/build.py], edit by edit, and [module_conn], the way
    [generate] composes them for the copied module.  The Go templates that are
    appended are arguments. *)

From S2P Require Import Prelude.
From S2P Require Import PyText.
From S2P Require Import TlsEdits.
From Stdlib Require Import Ascii.

(** The conditions [conn_patch] adds to [writeRecordLocked]: the fast path is guarded
    when the source has the padding fields. *)
Definition padding_guard (s : string) : string :=
  if contains "veilPadRecords" s then " && c.out.veilPadRecords == 0" else "".

Definition fast_path : string :=
  "	if typ == recordTypeApplicationData && c.vers == VersionTLS13 && !c.buffering && c.bytesSent >= recordSizeBoostThreshold && len(data)>maxPlaintextPADDING_GUARD {
        return c.veilWriteApplicationBatchLocked(data)
    }
	outBufPtr := outBufPool.Get().(*[]byte)".

Definition conn_edits (guard : string) (s : string) : result string :=
  s ← replace s
    "func (c *Conn) writeRecordLocked(typ recordType, data []byte) (int, error) {"
    "func (c *Conn) writeRecordLocked(typ recordType, data []byte) (int, error) {
	if c.veilCryptoClosed { return 0, net.ErrClosed }";
  s ← replace s
    "	activeCall atomic.Int32
"
    "	activeCall atomic.Int32
	veilCryptoClosed bool // protected by out.Mutex
";
  s ← replace s
    "	outBufPtr := outBufPool.Get().(*[]byte)"
    (replace_all "PADDING_GUARD" guard fast_path);
  s ← replace s
    "	hc.cipher = suite.aead(key, iv)"
    "	veilReleaseAEAD(hc.cipher)
	hc.cipher = suite.aead(key, iv)";
  s ← replace s
    "	if x != 0 {
		// io.Writer and io.Closer"
    "	defer c.veilReleaseCrypto()
	if x != 0 {
		// io.Writer and io.Closer";
  mret s.

Definition conn_patch_with (guard batch : string) (s : string) : result string :=
  s ← conn_edits guard s;
  mret (s +:+ batch).
Definition conn_patch (batch : string) (s : string) : result string :=
  conn_patch_with (padding_guard s) batch s.

(** [Conn] and [UConn] have separate [Read] implementations and ticket handlers. *)
Definition read_patch (s : string) : result string :=
  s ← replace s
    "	for c.input.Len() == 0 {
		if err := c.readRecord(); err != nil {
			return 0, err
		}"
    "	if c.activeCall.Load()&1 != 0 { return 0, net.ErrClosed }
	for c.input.Len() == 0 {
        if c.hand.Len()==0 { if err:=c.readRecord();err!=nil{return 0,err} }";
  s ← replace s
    "	n, _ := c.input.Read(b)"
    "	n, _ := c.input.Read(b)
    if c.vers==VersionTLS13 && len(b)>maxPlaintext {
        var err error;n,err=c.veilDrainBufferedRecords(b,n,c.handlePostHandshakeMessage);if err!=nil{return n,err}
    }";
  mret s.

Definition read_call (call : string) : string :=
  "if err := c.readFromUntil(c.conn, " +:+ call +:+ "); err != nil {".

Definition reader_edits (s : string) : result string :=
  s ← replace s
    "	needs := n - c.rawInput.Len()"
    "	if c.veilDraining { return errVeilNeedRecord }
	needs := n - c.rawInput.Len()";
  s ← replace s
    "	c.rawInput.Grow(needs + bytes.MinRead)"
    "	if c.isHandshakeComplete.Load() && c.vers==VersionTLS13 {
        return c.veilReadFromUntil(r,n)
    }
    c.rawInput.Grow(needs+bytes.MinRead)";
  s ← replace s
    "	rawInput "
    "	veilDraining bool // protected by in.Mutex
	rawInput ";
  s ← replace s (read_call "recordHeaderLen")
    (read_call "recordHeaderLen" +:+ "
		if err == errVeilNeedRecord { return err }");
  s ← replace s (read_call "recordHeaderLen+n")
    (read_call "recordHeaderLen+n" +:+ "
		if err == errVeilNeedRecord { return err }");
  read_patch s.

Definition reader_patch (reader : string) (s : string) : result string :=
  s ← reader_edits s;
  mret (s +:+ reader).

Definition padding_patch (s : string) : result string :=
  s ← replace s
    "type halfConn struct {"
    "type halfConn struct {
	veilPadRecords uint8
	veilPadBytes, veilPadLimit uint16 // protected by Conn.out mutex";
  s ← replace s
    "			record[0] = byte(recordTypeApplicationData)"
    "			if recordType(record[0]) == recordTypeApplicationData {
                extra := hc.veilRecordPadding(len(payload))
                record = append(record, make([]byte, extra)...)
                padding += extra
            }
			record[0] = byte(recordTypeApplicationData)";
  mret s.

(** The imports the patched file no longer uses. *)
Definition unused_imports : list string :=
  [ (dquote +:+ "crypto/ed25519" +:+ dquote); (dquote +:+ "crypto/rand" +:+ dquote); (dquote +:+ "crypto/hmac" +:+ dquote); (dquote +:+ "crypto/sha512" +:+ dquote); (dquote +:+ "crypto/x509" +:+ dquote); (dquote +:+ "math/big" +:+ dquote) ].
Fixpoint remove_imports (names : list string) (s : string) : result string :=
  match names with
  | [] => Ok s
  | name :: names => s ← replace s ("	" +:+ name +:+ nl) ""; remove_imports names s
  end.

Definition certificate_text : string :=
  "        certificate, err := veilRealityCertificate(hs.AuthKey)
        if err != nil { return err }
        hs.sigAlg, err = selectSignatureScheme(c.vers, certificate, hs.clientHello.supportedSignatureAlgorithms)
        if err != nil { return err }
        hs.cert = certificate".
Definition reality_signature : string :=
  "func RealityServer(ctx context.Context, conn net.Conn, config *RealityConfig) (*Conn, error) {".
Definition fallback_text : string :=
  "
    return RealityServerWithFallback(ctx, conn, config, nil)
}

// RealityServerWithFallback permits a caller to own fallback forwarding.
// forward runs concurrently, once per direction. first contains any bytes
// already read from src, and is non-nil only for the downstream direction.
// It must finish forwarding before returning. Nil preserves upstream behavior.
func RealityServerWithFallback(ctx context.Context, conn net.Conn, config *RealityConfig, forward func(dst, src net.Conn, first []byte)) (*Conn, error) {
    copyFallback := func(dst, src net.Conn, first []byte, limit *RealityLimitFallback) {
        src = newRateLimitedConn(src, limit)
        if forward != nil {
            forward(dst, src, first)
            return
        }
        if first != nil { dst.Write(first) }
        io.Copy(dst, src)
    }
".
Definition upload : string :=
  "io.Copy(target, newRateLimitedConn(underlying, &config.LimitFallbackUpload))".

Definition reality_patch (s : string) : result string :=
  s ← remove_imports unused_imports s;
  start ← index_from "var realityServerCert = onceValues(" s 0;
  stop ← index_from "
type realityServerHandshakeStateTLS13" s start;
  let s := stake start s +:+ sdrop stop s in
  start ← index_from "		ed25519Priv, signedCert := realityServerCert()" s 0;
  stop ← index_from "
	}
	c.buffering = true" s start;
  let s := stake start s +:+ certificate_text +:+ sdrop stop s in
  s ← replace s reality_signature (reality_signature +:+ fallback_text);
  raise_if (negb (Nat.eqb (count upload s) 2))
    (RuntimeError "upstream REALITY upload paths changed");;
  let s := replace_all upload
    "copyFallback(target, underlying, nil, &config.LimitFallbackUpload)" s in
  replace s
    "conn.Write(s2cSaved)
			io.Copy(underlying, newRateLimitedConn(target, &config.LimitFallbackDownload))"
    "copyFallback(underlying, target, s2cSaved, &config.LimitFallbackDownload)".

(** ** Composition for the copied module: the cover length first, then the padding
    fields, so that the write path sees them. *)
Inductive mode := native | batch | openssl.
#[export] Instance mode_eq_dec : EqDecision mode.
Proof. solve_decision. Defined.

Definition cover_patch (s : string) : result string :=
  replace s
    ("return nil, fmt.Errorf(" +:+ dquote +:+ "payload[0]: %v, padding: %v" +:+ dquote +:+
      ", payload[0], padding)")
    "padding = 0 // A cover length is a hint, not a limit on valid ECDSA/DER.".

Definition module_conn (m : mode) (reader batch_text : string) (s : string) : result string :=
  s ← cover_patch s;
  s ← padding_patch s;
  s ← reader_patch reader s;
  if bool_decide (m = native) then Ok s else conn_patch batch_text s.

(** ** The hooks each patch must leave in its output *)
Definition conn_hooks : list string :=
  [ "if c.veilCryptoClosed { return 0, net.ErrClosed }";
    "veilCryptoClosed bool // protected by out.Mutex";
    "c.veilWriteApplicationBatchLocked(data)";
    "veilReleaseAEAD(hc.cipher)";
    "defer c.veilReleaseCrypto()" ].
Definition read_hooks : list string :=
  [ "if c.activeCall.Load()&1 != 0 { return 0, net.ErrClosed }";
    "if c.hand.Len()==0 { if err:=c.readRecord();err!=nil{return 0,err} }";
    "n,err=c.veilDrainBufferedRecords(b,n,c.handlePostHandshakeMessage)" ].
Definition reader_hooks : list string :=
  [ "if c.veilDraining { return errVeilNeedRecord }";
    "c.veilReadFromUntil(r,n)";
    "veilDraining bool // protected by in.Mutex";
    "if err == errVeilNeedRecord { return err }" ] ++ read_hooks.
Definition padding_hooks : list string :=
  [ "veilPadRecords"; "extra := hc.veilRecordPadding(len(payload))" ].
Definition cover_hooks : list string :=
  [ "padding = 0 // A cover length is a hint," ].

(** The condition of the batch write path, with and without the padding guard. *)
Definition guarded : string := "len(data)>maxPlaintext && c.out.veilPadRecords == 0 {".
Definition unguarded : string := "len(data)>maxPlaintext {".

(** ** The patches as chains of edits *)
Definition guard_text : string := " && c.out.veilPadRecords == 0".

Lemma patch_edits : ∃ pad reader conn conn',
  tracks padding_patch pad ∧ (∀ x, tracks (reader_patch x) reader) ∧
  (∀ x, tracks (conn_patch_with guard_text x) conn) ∧
  (∀ x, tracks (conn_patch_with "" x) conn') ∧
  let new := padding_hooks ++ reader_hooks in
  let all := conn_hooks ++ guarded :: new in
  fold_left (after (cover_hooks ++ new)) (pad ++ reader) cover_hooks = cover_hooks ++ new ∧
  fold_left (after (cover_hooks ++ all)) conn (cover_hooks ++ new) = cover_hooks ++ all ∧
  fold_left (after reader_hooks) reader [] = reader_hooks ∧
  fold_left (after (conn_hooks ++ unguarded :: reader_hooks)) conn' reader_hooks =
    conn_hooks ++ unguarded :: reader_hooks.
Proof.
  cbn zeta. do 4 eexists. split_and!.
  - unfold padding_patch. solve_tracks.
  - intros x. unfold reader_patch, reader_edits, read_patch. solve_tracks.
  - intros x. unfold conn_patch_with, conn_edits. solve_tracks.
  - intros x. unfold conn_patch_with, conn_edits. solve_tracks.
  - vm_compute. reflexivity.
  - vm_compute. reflexivity.
  - vm_compute. reflexivity.
  - vm_compute. reflexivity.
Qed.

Lemma tracks_mono f es s t U hooks cur : tracks f es → f s = Ok t → has_all cur s = true →
  fold_left (after U) es cur = hooks → has_all hooks t = true.
Proof. intros Hf Hr Hc <-. by eapply Hf. Qed.

Lemma has_hook h hooks s : has_all hooks s = true →
  existsb (String.eqb h) hooks = true → contains h s = true.
Proof.
  rewrite has_all_spec. intros H (h' & Hh & ->%String.eqb_eq)%existsb_exists. by apply H.
Qed.

(** The cover edit of [module_conn]: its text is there, and so are the padding fields. *)
Lemma module_conn_padded m reader b s t : module_conn m reader b s = Ok t →
  ∃ s', has_all (cover_hooks ++ padding_hooks ++ reader_hooks) s' = true ∧
    (if bool_decide (m = native) then Ok s' else conn_patch b s') = Ok t.
Proof.
  destruct patch_edits as (pad & reader_es & _ & _ & Hpad & Hreader & _ & _ & Heq & _).
  unfold module_conn. intros H.
  apply bind_ok in H as (s1 & H1 & H). apply bind_ok in H as (s2 & H2 & H).
  apply bind_ok in H as (s3 & H3 & H). exists s3. split; [|done].
  eapply (after_replace cover_hooks []) in H1; [|done..].
  eapply tracks_mono; [eapply tracks_bind; [exact Hpad|exact (Hreader reader)]| |exact H1|exact Heq].
  cbn. apply bind_ok. eauto.
Qed.

(** C5. In every mode the patched connection of the copied module, if the build gets one,
    has the cover-length, padding and reader hooks; with OpenSSL or batching also every
    hook of the write path, whose fast path is then guarded by the padding fields:
    no later edit takes an earlier one away. *)
Theorem module_conn_hooks m reader b s t :
  module_conn m reader b s = Ok t →
  has_all (cover_hooks ++ padding_hooks ++ reader_hooks) t = true ∧
  (m ≠ native → has_all conn_hooks t = true ∧ contains guarded t = true).
Proof.
  destruct patch_edits as (pad & es & conn & _ & _ & _ & Hconn & _ & _ & Heq & _).
  intros (s' & Hs & H)%module_conn_padded. case_bool_decide as Hm; [by injection H as ->|].
  assert (contains "veilPadRecords" s' = true) as Hpad.
  { by eapply has_hook; [exact Hs|]. }
  unfold conn_patch, padding_guard in H. rewrite Hpad in H.
  eapply tracks_mono in H; [|exact (Hconn b)|exact Hs|exact Heq].
  split; [by eapply has_all_subset; [|exact H]|]. intros _.
  split; [by eapply has_all_subset; [|exact H]|by eapply has_hook; [exact H|]].
Qed.

(** ** The standard library's copy *)
Definition std_conn (reader batch_text : string) (s : string) : result string :=
  s ← reader_patch reader s; conn_patch batch_text s.

(** [p] is never in the new text of the edits, nor can it be made at their borders. *)
Definition absent (p : string) (f : string → result string) : Prop :=
  ∀ s t, f s = Ok t → contains p s = false → contains p t = false.

Lemma absent_edit p a b k : a ≠ "" → apart p b = true → absent p k →
  absent p (λ s, replace s a b ≫= k).
Proof.
  intros Ha Hb Hk s t H Hs. apply bind_ok in H as (s1 & H1 & H).
  eapply Hk; [exact H|]. by eapply replace_keeps_absent.
Qed.

Lemma absent_bind p f k : absent p f → absent p k → absent p (λ s, f s ≫= k).
Proof.
  intros Hf Hk s t H Hs. apply bind_ok in H as (s1 & H1 & H). eapply Hk; [exact H|by eapply Hf].
Qed.

Lemma absent_ret p : absent p (λ s, mret s).
Proof. by intros s t [= <-]. Qed.

Lemma absent_append p c x : char_in p c = false → contains p (String c x) = false →
  absent p (λ s, mret (s +:+ String c x)).
Proof.
  intros Hc Hx s t [= <-] Hs. apply not_true_iff_false. intros H.
  apply contains_append in H as [H|H]; congruence.
Qed.

Ltac solve_absent :=
  first [apply absent_ret | apply absent_append; done |
         apply absent_edit; [done|by vm_compute|solve_absent] |
         eapply absent_bind; [solve_absent|solve_absent]].

Definition go_comment (x : string) : Prop := startswith x "//" = true.

Lemma go_comment_cons x : go_comment x → ∃ y, x = String "/"%char y.
Proof. intros (r & ->)%startswith_true. by eexists. Qed.

Lemma reader_patch_absent x : go_comment x → contains "veilPadRecords" x = false →
  absent "veilPadRecords" (reader_patch x).
Proof.
  intros [y ->]%go_comment_cons Hx. unfold reader_patch, reader_edits, read_patch. solve_absent.
Qed.

Lemma conn_patch_absent x : go_comment x → contains "veilPadRecords" x = false →
  absent "veilPadRecords" (conn_patch_with "" x).
Proof. intros [y ->]%go_comment_cons Hx. unfold conn_patch_with, conn_edits. solve_absent. Qed.

(** The standard library's copy is not padded: if neither it nor the templates name the
    padding fields, the patched source does not either (it would not compile), its fast
    path has no guard, and all the other hooks are there. *)
Theorem std_conn_unpadded reader b s t :
  go_comment reader → go_comment b →
  contains "veilPadRecords" s = false → contains "veilPadRecords" reader = false →
  contains "veilPadRecords" b = false →
  std_conn reader b s = Ok t →
  contains "veilPadRecords" t = false ∧ contains unguarded t = true ∧
  has_all (conn_hooks ++ reader_hooks) t = true.
Proof.
  intros Hr Hb Hs Hrp Hbp H. unfold std_conn in H. apply bind_ok in H as (s1 & H1 & H).
  destruct patch_edits as (_ & es & _ & conn & _ & Hreader & _ & Hconn & _ & _ & Heq & Heq').
  pose proof (reader_patch_absent _ Hr Hrp _ _ H1 Hs) as Hs1.
  unfold conn_patch, padding_guard in H. rewrite Hs1 in H.
  pose proof (conn_patch_absent _ Hb Hbp _ _ H Hs1) as Ht.
  split; [done|].
  eapply (tracks_mono _ _ _ _ reader_hooks reader_hooks []) in H1;
    [|exact (Hreader reader)|done|exact Heq].
  eapply tracks_mono in H; [|exact (Hconn b)|exact H1|exact Heq'].
  split; [by eapply has_hook; [exact H|]|by eapply has_all_subset; [|exact H]].
Qed.

(** ** REALITY *)
Definition download : string :=
  "conn.Write(s2cSaved)
			io.Copy(underlying, newRateLimitedConn(target, &config.LimitFallbackDownload))".
Definition forwarded_upload : string :=
  "copyFallback(target, underlying, nil, &config.LimitFallbackUpload)".
Definition forwarded_download : string :=
  "copyFallback(underlying, target, s2cSaved, &config.LimitFallbackDownload)".

Lemma replace_removes s a b t : a ≠ "" → replace s a b = Ok t → apart a b = true →
  contains a t = false.
Proof.
  intros Ha (x & y & Hc & Hy & ->)%replace_ok Hap; [|done]. apply not_true_iff_false.
  intros [Hx|H]%contains_apart; [|congruence|done]. by rewrite (cut_before a s x y) in Hx.
Qed.

Lemma reality_patch_last s t : reality_patch s = Ok t →
  ∃ s', count upload s' = 2 ∧
    replace (replace_all upload forwarded_upload s') download forwarded_download = Ok t.
Proof.
  unfold reality_patch. intros H. do 6 apply bind_ok in H as (? & _ & H).
  apply bind_ok in H as ([] & Hc%raise_if_ok & H). eexists. split; [|exact H].
  by apply negb_false_iff, Nat.eqb_eq in Hc.
Qed.

(** The patched REALITY server has no fallback copy of its own left: both uploads and
    the download go through [copyFallback], and so through the caller's [forward]. *)
Theorem reality_patch_forwards s t :
  reality_patch s = Ok t →
  contains upload t = false ∧ contains download t = false ∧
  contains forwarded_upload t = true ∧ contains forwarded_download t = true.
Proof.
  intros (s' & Hc & H)%reality_patch_last. split_and!.
  - eapply replace_keeps_absent; [|exact H|by vm_compute|by apply replace_all_removes]; done.
  - eapply replace_removes; [|exact H|by vm_compute]; done.
  - eapply replace_keeps; [|exact H|by vm_compute|]; [done|].
    destruct (cut upload s') as [[x y]|] eqn:Hcut.
    + rewrite (replace_all_cut _ _ _ x y) by done. auto with text.
    + apply contains_false, count_zero in Hcut; [congruence|done].
  - eapply replace_adds; [|exact H|by vm_compute]; done.
Qed.

(** ** Sample sources: every anchor once *)
Definition sample_uconn : string :=
  "	for c.input.Len() == 0 {
		if err := c.readRecord(); err != nil {
			return 0, err
		}
	n, _ := c.input.Read(b)".
Definition sample_std : string :=
  "	needs := n - c.rawInput.Len()
	c.rawInput.Grow(needs + bytes.MinRead)
	rawInput 
if err := c.readFromUntil(c.conn, recordHeaderLen); err != nil {
if err := c.readFromUntil(c.conn, recordHeaderLen+n); err != nil {
func (c *Conn) writeRecordLocked(typ recordType, data []byte) (int, error) {
	activeCall atomic.Int32

	outBufPtr := outBufPool.Get().(*[]byte)
	hc.cipher = suite.aead(key, iv)
	if x != 0 {
		// io.Writer and io.Closer" +:+ nl +:+ sample_uconn.
Definition sample_conn : string :=
  ("return nil, fmt.Errorf(" +:+ dquote +:+ "payload[0]: %v, padding: %v" +:+ dquote +:+ ", payload[0], padding)
type halfConn struct {
			record[0] = byte(recordTypeApplicationData)") +:+ nl +:+ sample_std.
Definition sample_reality : string :=
  ("	" +:+ dquote +:+ "crypto/ed25519" +:+ dquote +:+ "
	" +:+ dquote +:+ "crypto/rand" +:+ dquote +:+ "
	" +:+ dquote +:+ "crypto/hmac" +:+ dquote +:+ "
	" +:+ dquote +:+ "crypto/sha512" +:+ dquote +:+ "
	" +:+ dquote +:+ "crypto/x509" +:+ dquote +:+ "
	" +:+ dquote +:+ "math/big" +:+ dquote +:+ "
var realityServerCert = onceValues(
type realityServerHandshakeStateTLS13
		ed25519Priv, signedCert := realityServerCert()
	}
	c.buffering = true
func RealityServer(ctx context.Context, conn net.Conn, config *RealityConfig) (*Conn, error) {
io.Copy(target, newRateLimitedConn(underlying, &config.LimitFallbackUpload))
io.Copy(target, newRateLimitedConn(underlying, &config.LimitFallbackUpload))
conn.Write(s2cSaved)
			io.Copy(underlying, newRateLimitedConn(target, &config.LimitFallbackDownload))
").

Example sample_conn_patched : is_ok (module_conn openssl "// r" "// b" sample_conn) = true.
Proof. vm_compute. reflexivity. Qed.
Example sample_std_patched : is_ok (std_conn "// r" "// b" sample_std) = true.
Proof. vm_compute. reflexivity. Qed.
Example sample_reality_patched : is_ok (reality_patch sample_reality) = true.
Proof. vm_compute. reflexivity. Qed.

Definition text_of (r : result string) : string := match r with Ok t => t | Err _ => "" end.
Lemma ok_text r : is_ok r = true → r = Ok (text_of r).
Proof. by destruct r. Qed.

Lemma module_conn_hooks_witness :
  contains guarded (text_of (module_conn openssl "// r" "// b" sample_conn)) = true.
Proof.
  refine (proj2 (proj2 (module_conn_hooks openssl "// r" "// b" sample_conn _
    (ok_text _ sample_conn_patched)) _)).
  discriminate.
Defined.

Lemma std_conn_unpadded_witness :
  contains unguarded (text_of (std_conn "// r" "// b" sample_std)) = true.
Proof.
  refine (proj1 (proj2 (std_conn_unpadded "// r" "// b" sample_std _ _ _ _ _ _
    (ok_text _ sample_std_patched)))); vm_compute; reflexivity.
Defined.

Lemma reality_patch_forwards_witness :
  contains upload (text_of (reality_patch sample_reality)) = false.
Proof.
  exact (proj1 (reality_patch_forwards sample_reality _ (ok_text _ sample_reality_patched))).
Defined.
