(* ===== verification/Generate.v ===== *)
(** * Generating the overlays

    [generate] of [veil-core/scripts/build.py] over the file system of FileSystem.v:
    the checked module sources are patched into a private copy below
    [.build/<mode>].  The digest, the [go] and [gofmt] commands and the Go root are
    parameters. *)

From S2P Require Import Prelude.
From S2P Require Import PyText.
From S2P Require Import Json.
From S2P Require Import FileSystem.
From S2P Require Import Confined.
From S2P Require Import TlsEdits.
From S2P Require Import TlsPatches.

Definition mode_name (m : mode) : string :=
  match m with native => "native" | batch => "batch" | openssl => "openssl" end.

(** [path.chmod(path.stat().st_mode | 0o200)] unless it is a link *)
Definition make_writable (p : path) : py disk () :=
  t ← get_tree;
  when (negb (is_symlink t p))
    (match stat t p with
     | Some n => chmod p (Z.lor (mode_bits n) 128)
     | None => raise (FileNotFoundError (posix p))
     end).

(** The names [fork.glob("veil*.go")] matches. *)
Definition veil_source (name : string) : bool :=
  startswith name "veil" && endswith name ".go" && (7 <=? String.length name)%nat.

Definition reality_digest : string :=
  "9258864cc512e05302f5eb7d6a95efd7ae64bafcb45cb3b725086368740ab393".
Definition conn_digest : string :=
  "e8027769d42706f263ef78d76ebd6e8a592299407a1f86b88b9ba5217bfe7dba".
Definition uconn_digest : string :=
  "4a34d3717dfc4558980a7f344cb73982656ca3eba2acefb1cb35dd884a073467".
Definition suites_digest : string :=
  "615e81c42d76df677c785f2552ebc07e8bf5fe83c07c35cd77c04e86c8aa8d3d".
Definition std_digest : string :=
  "7e8523d78063ee21bed78a2fc7e8c29baaa3c156a4a25c6e0f9e8da4c7e83e51".

(** The OpenSSL suite takes the place of one function of the source. *)
Definition openssl_suite : string :=
  ("func aeadAESGCMTLS13(key,nonceMask []byte) aead {
 if len(nonceMask)!=aeadNonceLength {panic(" +:+ dquote +:+ "tls: nonce mask length" +:+ dquote +:+ ")}
 ret:=&xorNonceAEAD{aead:veilNewGCM(key)};copy(ret.nonceMask[:],nonceMask);return ret
}
").
Definition suites_patch (suites : string) : result string :=
  a ← index_from "func aeadAESGCMTLS13(" suites 0;
  b ← index_from "
func aeadChaCha20Poly1305" suites a;
  mret (stake a suites +:+ openssl_suite +:+ sdrop b suites).

Section generate.
Context (root : path) (sha256 : string → string).
Context (run : list string → py disk ()) (goroot_of : py disk path).

Definition out_dir (m : mode) : path := root ++ [".build"; mode_name m].
Definition module_dir : path := sub root ".build/mod/github.com/metacubex/utls@v1.8.7".
Definition fork_dir (m : mode) : path := out_dir m ++ ["utls"].
Definition patch_file (name : string) : path := root ++ ["patches"; name].

Definition check_source (p : path) (digest : string) : py disk () :=
  data ← read_file p;
  when (negb (String.eqb (sha256 data) digest))
    (raise (RuntimeError ("unsupported source version: " +:+ posix p))).

(** The private copy of the module, with the patched REALITY server. *)
Definition generate_fork (m : mode) : py disk () :=
  let out := out_dir m in
  let fork := fork_dir m in
  let reality := module_dir ++ ["reality.go"] in
  mkdir_p out;;
  t ← get_tree;
  when (negb (path_exists t module_dir)) (run ["go"; "mod"; "download"]);;
  check_source reality reality_digest;;
  let patched := out ++ ["reality.go"] in
  text ← read_file reality;
  text ← lift (reality_patch text);
  write_file patched text;;
  run ["gofmt"; "-w"; posix patched];;
  t ← get_tree;
  when (negb (path_exists t fork)) (copytree (S (size t)) module_dir fork);;
  t ← get_tree;
  for_each make_writable (fork :: filter (λ q, q ≠ fork) (subtree t fork));;
  copyfile patched (fork ++ ["reality.go"]);;
  copyfile (patch_file "reality_proof.go.in") (fork ++ ["veil_reality_proof.go"]).

(** [reader_patch] and [conn_patch], which read their template after the edits. *)
Definition reader_patch_file (s : string) : py disk string :=
  s ← lift (reader_edits s);
  x ← read_file (patch_file "reader.go.in");
  mret (s +:+ x).
Definition conn_patch_file (s : string) : py disk string :=
  s ← lift (conn_edits (padding_guard s) s);
  x ← read_file (patch_file "batch.go.in");
  mret (s +:+ x).

(** The patched connections of the copy. *)
Definition generate_conns (m : mode) : py disk () :=
  let fork := fork_dir m in
  let conn := module_dir ++ ["conn.go"] in
  check_source conn conn_digest;;
  source ← read_file conn;
  source ← lift (cover_patch source);
  source ← lift (padding_patch source);
  source ← reader_patch_file source;
  patched ← (if bool_decide (m = native) then mret source else conn_patch_file source);
  write_file (fork ++ ["conn.go"]) patched;;
  let uconn := module_dir ++ ["u_conn.go"] in
  check_source uconn uconn_digest;;
  source ← read_file uconn;
  patched ← lift (read_patch source);
  write_file (fork ++ ["u_conn.go"]) patched;;
  copyfile (patch_file "padding.go.in") (fork ++ ["veil_padding.go"]);;
  copyfile (patch_file "padding_test.go.in") (fork ++ ["veil_padding_test.go"]);;
  run (["gofmt"; "-w"] ++ map posix
    [fork ++ ["conn.go"]; fork ++ ["u_conn.go"]; fork ++ ["veil_padding.go"];
     fork ++ ["veil_padding_test.go"]]).

(** The alternative module files. *)
Definition generate_mod (m : mode) : py disk () :=
  let out := out_dir m in
  text ← read_file (root ++ ["go.mod"]);
  write_file (out ++ ["build.mod"])
    (text +:+ nl +:+ "replace github.com/metacubex/utls => " +:+
       dumps (JStr (posix (fork_dir m))) +:+ nl);;
  copyfile (root ++ ["go.sum"]) (out ++ ["build.sum"]).

Definition flags_of (m : mode) : list string :=
  let out := out_dir m in
  match m with
  | native => ["-tags=with_utls"; "-modfile=" +:+ posix (out ++ ["build.mod"])]
  | _ => [ "-tags=with_utls" +:+ (if bool_decide (m = openssl) then ",veil_openssl" else "");
           "-overlay=" +:+ posix (out ++ ["overlay.json"]);
           "-modfile=" +:+ posix (out ++ ["build.mod"]) ]
  end.

Definition write_flags (m : mode) : py disk (list string) :=
  write_file (out_dir m ++ ["flags.json"]) (dumps (JArr (map JStr (flags_of m))));;
  mret (flags_of m).

(** The cipher suites and the optional tests of the copy. *)
Definition generate_suites (m : mode) : py disk () :=
  let fork := fork_dir m in
  suites ← read_file (module_dir ++ ["cipher_suites.go"]);
  suites ← (if bool_decide (m = openssl) then
              suites ← lift (suites_patch suites);
              copyfile (patch_file "openssl.go.in") (fork ++ ["veil_openssl.go"]);;
              mret suites
            else mret suites);
  write_file (fork ++ ["cipher_suites.go"]) suites;;
  t ← get_tree;
  when (path_exists t (patch_file "record_test.go.in"))
    (copyfile (patch_file "record_test.go.in") (fork ++ ["veil_record_test.go"]));;
  copyfile (patch_file "uconn_test.go.in") (fork ++ ["veil_uconn_test.go"]);;
  t ← get_tree;
  when (bool_decide (m = openssl) && path_exists t (patch_file "openssl_test.go.in"))
    (copyfile (patch_file "openssl_test.go.in") (fork ++ ["veil_openssl_test.go"])).

(** The overlay of the standard library's connection. *)
Definition overlay (m : mode) (goroot : path) (tests : bool) : json :=
  JObj [("Replace", JObj (
    [(posix (sub goroot "src/crypto/tls/conn.go"), JStr (posix (out_dir m ++ ["std-conn.go"])))] ++
    (if tests then [(posix (sub goroot "src/crypto/tls/veil_record_test.go"),
                     JStr (posix (patch_file "record_test.go.in")))] else [])))].

Definition generate_overlay (m : mode) : py disk () :=
  let out := out_dir m in
  let fork := fork_dir m in
  goroot ← goroot_of;
  let std_source := sub goroot "src/crypto/tls/conn.go" in
  check_source (module_dir ++ ["conn.go"]) conn_digest;;
  check_source (module_dir ++ ["cipher_suites.go"]) suites_digest;;
  check_source std_source std_digest;;
  let std := out ++ ["std-conn.go"] in
  source ← read_file std_source;
  source ← reader_patch_file source;
  patched ← conn_patch_file source;
  write_file std patched;;
  generate_suites m;;
  t ← get_tree;
  let veil := filter (λ name, veil_source name = true) (children t fork) in
  run (["gofmt"; "-w"] ++ map posix
    ([std; fork ++ ["conn.go"]; fork ++ ["cipher_suites.go"]] ++ map (λ name, fork ++ [name]) veil));;
  t ← get_tree;
  write_file (out ++ ["overlay.json"])
    (dumps_indent 2 (overlay m goroot (path_exists t (patch_file "record_test.go.in"))) +:+ nl).

Definition generate (m : mode) : py disk (list string) :=
  generate_fork m;;
  generate_conns m;;
  generate_mod m;;
  when (negb (bool_decide (m = native))) (generate_overlay m);;
  write_flags m.

(** The main program, once the arguments are parsed *)
Definition build_output (m : mode) (output : option string) : string :=
  match output with
  | Some (String c s) => String c s
  | _ => posix (root ++ [".build"; "veil-" +:+ mode_name m])
  end.
Definition build_main (m : mode) (generate_only : bool) (package : string) (output : option string) : py disk () :=
  flags ← generate m;
  when (negb generate_only)
    (run (["go"; "build"] ++ flags ++ ["-trimpath"; "-o"; build_output m output; package])).
End generate.

(** ** Only the private directory changes *)
Lemma mode_name_mod x : mode_name x ≠ "mod".
Proof. by destruct x. Qed.

Lemma module_dir_ne root : module_dir root ≠ [].
Proof. by destruct root. Qed.

Section frame.
Context (root : path) (sha256 : string → string).
Context (run : list string → py disk ()) (goroot_of : py disk path).
Context (m : mode) (t0 : gmap path node).
Abbreviation out := (out_dir root m).

Context (out_free : link_free t0 out).

#[local] Instance out_confinable : Confinable (λ _, False) out t0.
Proof. split; [|done|tauto]. unfold out_dir. by destruct root. Qed.

Abbreviation private := (Confined.private (λ _, False) out t0).

Lemma make_writable_private q : below out q → keeps (on_tree private) (make_writable q).
Proof.
  intros Hq. apply within_get_tree. intros t Ht. apply within_when. intros _.
  destruct (stat t q); solve_fs. by apply chmod_private.
Qed.

Lemma check_source_private p digest : keeps (on_tree private) (check_source sha256 p digest).
Proof. unfold check_source. solve_fs. Qed.

(** What is relied on: [gofmt -w] rewrites the files it is given and [go env] nothing;
    the module has been downloaded. *)
Context (gofmt_files : ∀ files, Forall (below out) files →
  keeps (on_tree private) (run (["gofmt"; "-w"] ++ map posix files))).
Context (goroot_pure : keeps (on_tree private) goroot_of).
Context (module_free : link_free t0 (module_dir root)).
Context (module_there : is_Some (t0 !! module_dir root)).

Lemma module_dir_eq : module_dir root = root ++ [".build"; "mod"; "github.com"; "metacubex"; "utls@v1.8.7"].
Proof. reflexivity. Qed.
Lemma out_eq : out = root ++ [".build"; mode_name m].
Proof. reflexivity. Qed.

Lemma module_path_outside l : ¬ below out (module_dir root ++ l).
Proof.
  intros [k Hk]%below_prefix. rewrite module_dir_eq, out_eq, <- !app_assoc in Hk.
  apply app_inv_head in Hk. simpl in Hk. injection Hk as Hk _. by destruct (mode_name_mod m).
Qed.

Lemma module_path_not_above l : module_dir root ++ l ∉ ancestors out.
Proof.
  intros [_ [k Hk]]%elem_ancestors. rewrite module_dir_eq, out_eq, <- !app_assoc in Hk.
  apply app_inv_head in Hk. simpl in Hk. injection Hk as Hk _. by destruct (mode_name_mod m).
Qed.

Lemma module_kept t l : private t → t !! (module_dir root ++ l) = t0 !! (module_dir root ++ l).
Proof.
  intros [H _]. destruct (H _ (module_path_outside l) id) as [|(_ & Ha & _)]; [done|].
  by apply module_path_not_above in Ha.
Qed.

(** The module directory is seen, and its files read, as they were at the start. *)
Lemma module_dir_free t : private t → link_free t (module_dir root).
Proof.
  intros [H _] q Hq. destruct (decide (below out q)) as [Hb|Hb].
  - exfalso. apply below_prefix in Hb. apply elem_ancestors in Hq as [_ Hq].
    apply (module_path_outside []). rewrite app_nil_r. apply below_prefix. by transitivity q.
  - destruct (H q Hb id) as [-> | (_ & _ & ->)]; [by apply module_free|done].
Qed.

Lemma module_exists t : private t → path_exists t (module_dir root) = true.
Proof.
  intros Ht. pose proof (module_kept t [] Ht) as Hk. rewrite !app_nil_r in Hk.
  unfold path_exists. rewrite stat_link_free; [|apply module_dir_ne|by apply module_dir_free].
  rewrite Hk. by destruct module_there as [n ->].
Qed.

Lemma fork_below : below out (fork_dir root m).
Proof. apply below_out. Qed.

Lemma fork_file_below name : below out (fork_dir root m ++ [name]).
Proof. apply below_snoc, fork_below. Qed.

Lemma gofmt_private p : below out p → keeps (on_tree private) (run ["gofmt"; "-w"; posix p]).
Proof. intros Hp. apply (gofmt_files [p]). by constructor. Qed.

#[local] Hint Resolve read_private check_source_private write_private copyfile_private
  copytree_private make_writable_private gofmt_private below_out fork_below
  fork_file_below : within.

(** A module source that was checked is, at the start, one of the pinned digest. *)
Definition pinned (name digest : string) : Prop :=
  ∃ data mode, t0 !! (module_dir root ++ [name]) = Some (File data mode) ∧ sha256 data = digest.
Context (module_regular : ∀ name, is_link (t0 !! (module_dir root ++ [name])) = false).

Lemma check_module name digest :
  gives (on_tree private) (λ _, pinned name digest)
    (check_source sha256 (module_dir root ++ [name]) digest).
Proof.
  intros d Hd. unfold check_source, read_file. fs_unfold.
  assert (stat (tree d) (module_dir root ++ [name]) = t0 !! (module_dir root ++ [name])) as Hs.
  { rewrite stat_link_free; [by apply module_kept|apply snoc_ne|].
    apply link_free_snoc. split; [by apply module_dir_free|]. by rewrite module_kept. }
  destruct d as [t fs]. unfold tick. simpl in *.
  destruct fs as [|[k|] fs]; cbn; [|done|]; rewrite Hs;
    (destruct (t0 !! (module_dir root ++ [name])) as [[data mode| |]|] eqn:Hn; [|done..]; cbn;
     destruct (String.eqb_spec (sha256 data) digest); cbn; [|done];
     split; [done|]; by exists data, mode).
Qed.

(** Walk over the steps that only keep the invariant. *)
Ltac step_private :=
  first [apply gives_get_tree; intros ? ? |
         apply gives_step; [solve [solve_fs]|intros ?]].

Lemma writable_private t q :
  q ∈ fork_dir root m :: filter (λ q, q ≠ fork_dir root m) (subtree t (fork_dir root m)) →
  keeps (on_tree private) (make_writable q).
Proof.
  intros [-> | Hq]%elem_of_cons; [auto with within|].
  apply list_elem_of_filter in Hq as [_ [Hq _]%elem_subtree].
  apply make_writable_private. apply below_prefix in Hq. apply below_prefix.
  transitivity (fork_dir root m); [|done]. apply below_prefix, fork_below.
Qed.

Lemma generate_fork_gives :
  gives (on_tree private) (λ _, pinned "reality.go" reality_digest) (generate_fork root sha256 run m).
Proof.
  unfold generate_fork.
  apply gives_step; [apply mkdir_private, below_refl|intros _].
  apply gives_get_tree. intros t Ht. rewrite (module_exists t Ht).
  apply gives_step; [apply within_ret|intros _].
  eapply gives_bind; [apply check_module|intros ? Hpin].
  apply gives_const; [|exact Hpin]. solve_fs.
  by eapply writable_private.
Qed.

Lemma patch_files_private s :
  keeps (on_tree private) (reader_patch_file root s) ∧ keeps (on_tree private) (conn_patch_file root s).
Proof. split; unfold reader_patch_file, conn_patch_file; solve_fs. Qed.

Lemma generate_conns_gives :
  gives (on_tree private)
    (λ _, pinned "conn.go" conn_digest ∧ pinned "u_conn.go" uconn_digest)
    (generate_conns root sha256 run m).
Proof.
  unfold generate_conns. eapply gives_bind; [apply check_module|intros ? Hconn].
  do 3 step_private. apply gives_step; [apply patch_files_private|intros ?].
  apply gives_step; [case_bool_decide; [solve_fs|apply patch_files_private]|intros ?].
  step_private. eapply gives_bind; [apply check_module|intros ? Huconn].
  do 5 step_private.
  apply gives_const; [|done].
  apply (gofmt_files [_; _; _; _]). repeat constructor; apply fork_file_below.
Qed.

Lemma generate_mod_private : keeps (on_tree private) (generate_mod root m).
Proof. unfold generate_mod. solve_fs. Qed.

Lemma suites_private : keeps (on_tree private) (generate_suites root m).
Proof. unfold generate_suites. solve_fs. Qed.

Lemma generate_overlay_gives :
  gives (on_tree private) (λ _, pinned "cipher_suites.go" suites_digest)
    (generate_overlay root sha256 run goroot_of m).
Proof.
  unfold generate_overlay. step_private. step_private.
  eapply gives_bind; [apply check_module|intros ? Hpin]. apply gives_const; [|exact Hpin].
  apply within_bind; [auto with within|intros _]. apply within_bind; [auto with within|intros ?].
  apply within_bind; [apply patch_files_private|intros ?].
  apply within_bind; [apply patch_files_private|intros ?].
  apply within_bind; [auto with within|intros _].
  apply within_bind; [apply suites_private|intros _].
  apply within_get_tree. intros t Ht. apply within_bind; [|intros _; solve_fs].
  apply gofmt_files. repeat constructor; [apply below_out|apply fork_file_below..|].
  apply Forall_fmap, Forall_true. intros name. apply fork_file_below.
Qed.

Lemma generate_gives :
  gives (on_tree private)
    (λ flags, flags = flags_of root m ∧ pinned "reality.go" reality_digest ∧
      pinned "conn.go" conn_digest ∧ pinned "u_conn.go" uconn_digest ∧
      (m ≠ native → pinned "cipher_suites.go" suites_digest))
    (generate root sha256 run goroot_of m).
Proof.
  unfold generate. eapply gives_bind; [apply generate_fork_gives|intros ? H1].
  eapply gives_bind; [apply generate_conns_gives|intros ? [H2 H3]].
  apply gives_step; [apply generate_mod_private|intros _].
  eapply (gives_bind _ (λ _, m ≠ native → pinned "cipher_suites.go" suites_digest)).
  - case_bool_decide as Hm; simpl.
    + by apply gives_ret.
    + eapply gives_imp; [apply generate_overlay_gives|auto].
  - intros _ H4. unfold write_flags. step_private. by apply gives_ret.
Qed.
End frame.

(** ** The contract of [generate] *)

(** The directories of the checkout: no link on the way to the private directory, below
    it or in the downloaded module. *)
Record workspace_ok (root : path) (m : mode) (t : gmap path node) : Prop := {
  ws_out : link_free t (out_dir root m);
  ws_private : ∀ q, below (out_dir root m) q → is_link (t !! q) = false;
  ws_module : link_free t (module_dir root);
  ws_there : is_Some (t !! module_dir root);
  ws_regular : ∀ name, is_link (t !! (module_dir root ++ [name])) = false }.

(** [gofmt -w] rewrites only the files it is given, [go env] nothing. *)
Record tools_ok (root : path) (run : list string → py disk ()) (goroot_of : py disk path)
    (m : mode) (t : gmap path node) : Prop := {
  tools_gofmt : ∀ files, Forall (below (out_dir root m)) files →
    keeps (on_tree (private (λ _, False) (out_dir root m) t)) (run (["gofmt"; "-w"] ++ map posix files));
  tools_goroot : keeps (on_tree (private (λ _, False) (out_dir root m) t)) goroot_of }.

Lemma generate_triple root sha256 run goroot_of m d :
  workspace_ok root m (tree d) → tools_ok root run goroot_of m (tree d) →
  match generate root sha256 run goroot_of m d with
  | (Ok flags, d') => private (λ _, False) (out_dir root m) (tree d) (tree d') ∧ flags = flags_of root m ∧
      pinned root sha256 (tree d) "reality.go" reality_digest ∧
      pinned root sha256 (tree d) "conn.go" conn_digest ∧
      pinned root sha256 (tree d) "u_conn.go" uconn_digest ∧
      (m ≠ native → pinned root sha256 (tree d) "cipher_suites.go" suites_digest)
  | (Err _, d') => private (λ _, False) (out_dir root m) (tree d) (tree d')
  end.
Proof.
  intros [H1 H2 H3 H4 H5] [T1 T2].
  pose proof (generate_gives root sha256 run goroot_of m (tree d) H1 T1 T2 H3 H4 H5 d) as H.
  assert (on_tree (private (λ _, False) (out_dir root m) (tree d)) d) as Hd by (split; [by left|done]).
  specialize (H Hd). destruct (generate _ _ _ _ m d) as [[flags|e] d']; tauto.
Qed.



(** The program builds only from sources of the pinned digests, with the flags of the mode. *)
Lemma build_main_runs root sha256 run goroot_of m only package output d d' :
  workspace_ok root m (tree d) → tools_ok root run goroot_of m (tree d) →
  build_main root sha256 run goroot_of m only package output d = (Ok (), d') →
  pinned root sha256 (tree d) "conn.go" conn_digest ∧
  ∃ d1, generate root sha256 run goroot_of m d = (Ok (flags_of root m), d1) ∧
    if only then d' = d1 else
    run (["go"; "build"] ++ flags_of root m ++ ["-trimpath"; "-o"; build_output root m output; package]) d1 = (Ok (), d').
Proof.
  intros Hw Ht. unfold build_main, mbind at 1, py_bind.
  pose proof (generate_triple root sha256 run goroot_of m d Hw Ht) as H.
  destruct (generate _ _ _ _ m d) as [[flags|e] d1]; [|done]. destruct H as (_ & -> & _ & Hp & _).
  intros Hr. split; [done|]. exists d1. split; [done|]. destruct only; [by injection Hr|exact Hr].
Qed.

(** ** A sample checkout *)
Definition sample_root : path := ["src"].
Definition sample_tree : gmap path node :=
  list_to_map ([
    (["src"], Dir 493); (["src"; ".build"], Dir 493); (["src"; "patches"], Dir 493);
    (["src"; "go.mod"], File "module veil" 420); (["src"; "go.sum"], File "" 420);
    (["src"; ".build"; "mod"], Dir 493); (["src"; ".build"; "mod"; "github.com"], Dir 493);
    (["src"; ".build"; "mod"; "github.com"; "metacubex"], Dir 493);
    (module_dir sample_root, Dir 365);
    (module_dir sample_root ++ ["reality.go"], File sample_reality 292);
    (module_dir sample_root ++ ["conn.go"], File sample_conn 292);
    (module_dir sample_root ++ ["u_conn.go"], File sample_uconn 292)] ++
    map (λ name, (patch_file sample_root name, File "// template" 420))
      ["reader.go.in"; "reality_proof.go.in"; "padding.go.in"; "padding_test.go.in"]).
Definition sample_disk : disk := no_faults sample_tree.
Definition sample_sha256 (s : string) : string :=
  if String.eqb s sample_reality then reality_digest
  else if String.eqb s sample_conn then conn_digest
  else if String.eqb s sample_uconn then uconn_digest else "".
Definition sample_run (args : list string) : py disk () := mret ().
Definition sample_goroot : py disk path := mret ["go"].

Lemma sample_no_links : no_links sample_tree.
Proof. unfold no_links. apply (bool_decide_unpack _). vm_compute. exact I. Qed.

Lemma sample_workspace : workspace_ok sample_root native sample_tree.
Proof.
  split; try (intros ? ?; apply no_links_lookup, sample_no_links).
  - by exists (Dir 365).
  - intros name. apply no_links_lookup, sample_no_links.
Qed.

Lemma sample_tools : tools_ok sample_root sample_run sample_goroot native sample_tree.
Proof. split; intros; apply within_ret. Qed.


Lemma sample_generated :
  generate sample_root sample_sha256 sample_run sample_goroot native sample_disk =
    (Ok (flags_of sample_root native),
     (generate sample_root sample_sha256 sample_run sample_goroot native sample_disk).2).
Proof.
  assert ((generate sample_root sample_sha256 sample_run sample_goroot native sample_disk).1 =
    Ok (flags_of sample_root native)) as <- by (vm_compute; reflexivity).
  apply surjective_pairing.
Qed.

