(* ===== verification/Ci.v ===== *)
(** * CI routing

    [.github/scripts/ci.py]: which jobs a change needs ([scopes], [changes]) and the
    gate that checks their results ([check_gate], [gate]), and the comparison of the protocol's
    test vectors ([vectors]).  The environment and [git diff] are parameters. *)

From S2P Require Import Prelude.
From S2P Require Import PyText.
From S2P Require Import PyBytes.
From S2P Require Import Json.
From S2P Require Import Numbers.
From S2P Require Import FileSystem.
From Stdlib Require Import Ascii.

Definition SCOPES : list string := ["core"; "service"; "interop"; "cross"; "windows"; "desktop"].

(** The jobs one changed path adds to the set. *)
Definition selected_by (p : string) : list string :=
  if String.eqb p "PROTOCOL.md" then ["interop"]
  else if endswith p ".md" || String.eqb p "LICENSE" then []
  else if startswith p "veil-core/" then SCOPES
  else if startswith p "veil-service/" then ["service"; "cross"; "windows"; "desktop"]
  else if startswith p "veil-desktop/" then ["desktop"]
  else if startswith p "interop/rust/" then ["interop"]
  else SCOPES.

Definition scopes (paths : list string) : list (string * bool) :=
  let selected : gset string :=
    fold_left (λ sel p, sel ∪ list_to_set (selected_by p)) paths ∅ in
  map (λ name, (name, bool_decide (name ∈ selected))) SCOPES.

(** [re.fullmatch(r"[0-9a-f]{40}", base)] *)
Definition is_lower_hex (c : ascii) : bool := is_digit c || in_range "a" "f" c.
Definition is_sha (base : string) : bool :=
  all_chars is_lower_hex base && Nat.eqb (String.length base) 40.
(** [int(base, 16)] is not zero *)
Definition nonzero_hex (base : string) : bool := any_char (λ c, negb (Ascii.eqb c "0")) base.

Definition nul : string := String (ascii_of_N 0) "".
Definition output_lines (selected : list (string * bool)) : string :=
  join "" (map (λ kv, kv.1 +:+ "=" +:+ bool_lower kv.2 +:+ nl) selected).

(** [open(p, "a").write(text)] *)
Definition append_file (p : path) (text : string) : py disk () :=
  t ← get_tree;
  match stat t p with
  | Some (File old _) => write_file p (old +:+ text)
  | _ => write_file p text
  end.

Section ci.
Context (environ : list (string * string)) (cwd : path).
(** The return code and the output of [git diff]. *)
Context (git_diff : string → py disk (Z * string)).

Definition getenv (k : string) : result string :=
  match dict_get k environ with Some v => Ok v | None => Err (KeyError k) end.
(** The path a text names. *)
Definition path_of (s : string) : path :=
  let parts := filter (λ c, c ≠ "" ∧ c ≠ ".") (split "/" s) in
  if startswith s "/" then parts else cwd ++ parts.

Definition base_of (kind : string) (event : json) : result string :=
  if String.eqb kind "pull_request" then
    pr ← jitem "pull_request" event; b ← jitem "base" pr; s ← jitem "sha" b; jstr s
  else
    match event with
    | JObj kvs => match dict_get "before" kvs with Some v => jstr v | None => Ok "" end
    | _ => Err AttributeError
    end.

Definition select (kind base : string) : py disk (list (string * bool)) :=
  if (String.eqb kind "push" || String.eqb kind "pull_request") && is_sha base && nonzero_hex base
  then
    '(code, out) ← git_diff base;
    if (code =? 0)%Z
    then mret (scopes (filter (λ p, p ≠ "") (split nul out)))
    else mret (map (λ name, (name, true)) SCOPES)
  else mret (map (λ name, (name, true)) SCOPES).

Definition changes : py disk () :=
  event_path ← lift (getenv "GITHUB_EVENT_PATH");
  text ← read_file (path_of event_path);
  event ← lift (loads text);
  kind ← lift (getenv "GITHUB_EVENT_NAME");
  base ← lift (base_of kind event);
  selected ← select kind base;
  output ← lift (getenv "GITHUB_OUTPUT");
  append_file (path_of output) (output_lines selected).

(** One turn of the loop of [check_gate]. *)
Definition check_job (needs outputs : json) (name : string) : result () :=
  required ← jitem name outputs;
  job ← jitem name needs;
  res ← jitem "result" job;
  raise_if (negb (equals_text "true" required || equals_text "false" required))
    (ValueError ("invalid routing output: " +:+ name));;
  raise_if (negb (equals_text "success" res) &&
            negb (equals_text "false" required && equals_text "skipped" res))
    (ValueError (name +:+ ": required=" +:+ shown required +:+ ", result=" +:+ shown res)).

Fixpoint check_jobs (needs outputs : json) (names : list string) : result () :=
  match names with
  | [] => Ok ()
  | name :: names => check_job needs outputs name;; check_jobs needs outputs names
  end.

Definition check_gate (needs : json) : result () :=
  ch ← jitem "changes" needs;
  res ← jitem "result" ch;
  raise_if (negb (equals_text "success" res))
    (ValueError "change detection failed or was cancelled");;
  ch ← jitem "changes" needs;
  outputs ← jitem "outputs" ch;
  check_jobs needs outputs SCOPES.

Definition gate : py disk () :=
  text ← lift (getenv "CI_NEEDS");
  needs ← lift (loads text);
  summary ← lift (getenv "GITHUB_STEP_SUMMARY");
  append_file (path_of summary) ("| Check | Result |" +:+ nl +:+ "| --- | --- |" +:+ nl);;
  jobs ← lift (match needs with JObj kvs => Ok kvs | _ => Err AttributeError end);
  for_each (λ kv, res ← lift (jitem "result" kv.2);
                  append_file (path_of summary) ("| " +:+ kv.1 +:+ " | " +:+ shown res +:+ " |" +:+ nl))
    jobs;;
  lift (check_gate needs).

(** The JSON block of the section of the test vectors. *)
Definition fence : string := "```".
Definition expected_vectors (document : string) : result json :=
  section ← after_first ("## 11. 固定测试向量" +:+ nl) document;
  block ← after_first (fence +:+ "json" +:+ nl) section;
  loads (before_first (nl +:+ fence) block).
Definition vectors (p : string) : py disk () :=
  document ← read_file (cwd ++ ["PROTOCOL.md"]);
  expected ← lift (expected_vectors document);
  text ← read_file (path_of p);
  actual ← lift (loads text);
  lift (raise_if (negb (json_eqb actual expected))
    (ValueError "Rust vectors differ from the standalone protocol specification")).

Definition main (args : list string) : py disk () :=
  match args with
  | ["changes"] => changes
  | ["gate"] => gate
  | ["vectors"; p] => vectors p
  | _ => raise (SystemExit 1)
  end.
End ci.

(** The block may be laid out in another way than the peer's file. *)
Example vectors_1 :
  let text := "# Veil" +:+ nl +:+ "## 11. 固定测试向量" +:+ nl +:+ fence +:+ "json" +:+ nl +:+
    "{" +:+ dquote +:+ "n" +:+ dquote +:+ ":" +:+ nl +:+ " [1, 2]}" +:+ nl +:+ fence +:+ nl in
  let vectors_of peer := vectors ["repo"] "out.json"
    (no_faults (list_to_map [(["repo"], Dir 493); (["repo"; "PROTOCOL.md"], File text 420);
                             (["repo"; "out.json"], File peer 420)])) in
  (vectors_of "{ }").1 = Err (ValueError "Rust vectors differ from the standalone protocol specification") ∧
  (vectors_of ("{" +:+ dquote +:+ "n" +:+ dquote +:+ ": [1,2]}")).1 = Ok ().
Proof. by vm_compute. Qed.

(** ** Routing *)
Lemma scopes_selected paths name :
  name ∈ fold_left (λ sel p, sel ∪ list_to_set (selected_by p)) paths (∅ : gset string) ↔
  ∃ p, p ∈ paths ∧ name ∈ selected_by p.
Proof.
  enough (∀ sel : gset string,
    name ∈ fold_left (λ sel p, sel ∪ list_to_set (selected_by p)) paths sel ↔
    name ∈ sel ∨ ∃ p, p ∈ paths ∧ name ∈ selected_by p) as H by (rewrite H; set_solver).
  induction paths as [|p paths IH]; intros sel; simpl; [set_solver|]. rewrite IH. set_solver.
Qed.

(** A job the change needs: some changed path selects it. *)
Definition needed (paths : list string) (name : string) : bool :=
  existsb (λ p, bool_decide (name ∈ selected_by p)) paths.

Lemma needed_selected paths name :
  needed paths name = true ↔ ∃ p, p ∈ paths ∧ name ∈ selected_by p.
Proof.
  unfold needed. rewrite existsb_exists. setoid_rewrite bool_decide_eq_true.
  by setoid_rewrite list_elem_of_In.
Qed.

Lemma scopes_get paths name : name ∈ SCOPES →
  dict_get name (scopes paths) = Some (needed paths name).
Proof.
  intros Hn. unfold scopes. rewrite (dict_get_map _ _ _ Hn). f_equal.
  apply eq_true_iff_eq. rewrite bool_decide_eq_true, needed_selected. apply scopes_selected.
Qed.



(** ** The gate *)

(** The context of the gate job: the outputs [changes] wrote and a result per job. *)
Definition context_of (selected : list (string * bool)) (res : string → string) : json :=
  JObj (("changes", JObj [("result", JStr "success");
           ("outputs", JObj (map (λ kv, (kv.1, JStr (bool_lower kv.2))) selected))]) ::
        map (λ name, (name, JObj [("result", JStr (res name))])) SCOPES).

Definition passes (selected : bool) (res : string) : bool :=
  String.eqb res "success" || (negb selected && String.eqb res "skipped").

Lemma check_job_context selected res outputs needs name :
  jitem name outputs = Ok (JStr (bool_lower selected)) →
  jitem name needs = Ok (JObj [("result", JStr res)]) →
  is_ok (check_job needs outputs name) = passes selected res.
Proof.
  intros H1 H2. unfold check_job. rewrite H1, H2. unfold passes.
  destruct selected; simpl; destruct (String.eqb res "success"); simpl; try done;
    by destruct (String.eqb res "skipped").
Qed.

Lemma check_jobs_context needs outputs sel res names :
  (∀ name, name ∈ names → jitem name outputs = Ok (JStr (bool_lower (sel name))) ∧
     jitem name needs = Ok (JObj [("result", JStr (res name))])) →
  is_ok (check_jobs needs outputs names) = forallb (λ name, passes (sel name) (res name)) names.
Proof.
  induction names as [|name names IH]; intros H; [done|]. simpl.
  destruct (H name ltac:(by left)) as [H1 H2].
  rewrite <- (check_job_context _ _ _ _ _ H1 H2).
  destruct (check_job needs outputs name) as [[]|]; [|done]. simpl. apply IH.
  intros n Hn. apply H. by right.
Qed.

(** C14. End to end: with the outputs [changes] writes for a list of changed paths, the gate
    passes exactly when every job that some path needs succeeded and every other one
    succeeded or was skipped; a failed, cancelled or wrongly skipped job stops it. *)
Theorem gate_enforces_routing paths res :
  is_ok (check_gate (context_of (scopes paths) res)) =
    forallb (λ name, passes (needed paths name) (res name)) SCOPES.
Proof.
  unfold check_gate, context_of. cbn -[scopes check_jobs SCOPES].
  apply check_jobs_context. intros name Hn. split.
  - unfold scopes. rewrite map_map. unfold jitem. rewrite (dict_get_map _ _ _ Hn).
    do 3 f_equal. pose proof (scopes_get paths name Hn) as H. unfold scopes in H.
    rewrite (dict_get_map _ _ _ Hn) in H. by injection H.
  - unfold jitem. cbn [dict_get]. rewrite decide_False; [by rewrite (dict_get_map _ _ _ Hn)|].
    intros ->. assert (bool_decide ("changes" ∈ SCOPES) = false) as H by by vm_compute.
    by rewrite bool_decide_true in H.
Qed.

(** ** What [changes] writes *)
Definition everything : list (string * bool) := map (λ name, (name, true)) SCOPES.

(** The routing of an event: by the diff where the base is a real commit and [git] knows
    it, and everything otherwise. *)
Definition routed (kind base : string) (code : Z) (out : string) : list (string * bool) :=
  if (String.eqb kind "push" || String.eqb kind "pull_request") && is_sha base && nonzero_hex base
     && (code =? 0)%Z
  then scopes (filter (λ p, p ≠ "") (split nul out)) else everything.

Section changes_run.
Context (environ : list (string * string)) (cwd : path).
Context (git_diff : string → py disk (Z * string)) (code : Z) (out : string).
Context (t : gmap path node) (git_reads : ∀ base, git_diff base (no_faults t) = (Ok (code, out), no_faults t)).

Lemma append_file_run dir name old text mode m :
  link_free t dir → node_at t dir = Some (Dir m) → t !! (dir ++ [name]) = Some (File old mode) →
  append_file (dir ++ [name]) text (no_faults t) =
    (Ok (), no_faults (<[dir ++ [name] := File (old +:+ text) mode]> t)).
Proof.
  intros Hfree Hdir Hold. unfold append_file, mbind, py_bind, get_tree, gets. cbn [tree no_faults].
  rewrite stat_link_free; [|apply snoc_ne|apply link_free_snoc; by rewrite Hold].
  rewrite Hold. by eapply write_file_run.
Qed.

(** [changes] appends one [name=true] or [name=false] line per job to the output file and
    changes nothing else; the jobs are the ones the diff needs, and all of them when the
    event has no usable base or the diff fails. *)
Theorem changes_writes event_path output dir name old mode m text event kind base :
  dict_get "GITHUB_EVENT_PATH" environ = Some event_path →
  dict_get "GITHUB_EVENT_NAME" environ = Some kind →
  dict_get "GITHUB_OUTPUT" environ = Some output →
  (∃ em, stat t (path_of cwd event_path) = Some (File text em)) →
  loads text = Ok event → base_of kind event = Ok base →
  path_of cwd output = dir ++ [name] →
  link_free t dir → node_at t dir = Some (Dir m) → t !! (dir ++ [name]) = Some (File old mode) →
  changes environ cwd git_diff (no_faults t) =
    (Ok (), no_faults (<[dir ++ [name] :=
       File (old +:+ output_lines (routed kind base code out)) mode]> t)).
Proof.
  intros E1 E2 E3 [em Hs] Hl Hb Ho Hfree Hdir Hold.
  unfold changes, getenv, mbind, py_bind, lift. rewrite E1, E2, E3. cbv beta iota.
  assert (read_file (path_of cwd event_path) (no_faults t) = (Ok text, no_faults t)) as Hread.
  { unfold read_file, tick, no_faults. fs_unfold. cbn. by rewrite Hs. }
  rewrite Hread, Hl, Hb.
  assert (select git_diff kind base (no_faults t) = (Ok (routed kind base code out), no_faults t)) as Hsel.
  { unfold select, routed. destruct ((_ || _) && is_sha base && nonzero_hex base); [|done].
    unfold mbind, py_bind. rewrite git_reads. simpl. by destruct (code =? 0)%Z. }
  rewrite Hsel, Ho. by eapply append_file_run.
Qed.
End changes_run.

Lemma changes_writes_witness :
  let event := JObj [("before", JStr "9f86d081884c7d659a2feaa0c55ad015a3bf4f1b")] in
  let t : gmap path node := list_to_map [(["ci"], Dir 493); (["ci"; "event"], File (dumps event) 420);
    (["ci"; "out"], File "" 420)] in
  let environ := [("GITHUB_EVENT_PATH", "/ci/event"); ("GITHUB_EVENT_NAME", "push");
    ("GITHUB_OUTPUT", "/ci/out")] in
  changes environ [] (λ _, mret (0%Z, "README.md" +:+ nul +:+ "veil-desktop/a.rs" +:+ nul)) (no_faults t) =
    (Ok (), no_faults (<[["ci"; "out"] := File (output_lines
       [("core", false); ("service", false); ("interop", false); ("cross", false);
        ("windows", false); ("desktop", true)]) 420]> t)).
Proof.
  intros event t environ.
  refine (eq_trans (changes_writes environ [] _ 0 ("README.md" +:+ nul +:+ "veil-desktop/a.rs" +:+ nul)
    t _ "/ci/event" "/ci/out" ["ci"] "out" "" 420 493 (dumps event) event "push"
    "9f86d081884c7d659a2feaa0c55ad015a3bf4f1b" _ _ _ _ _ _ _ _ _ _) _).
  - intros base. reflexivity.
  - reflexivity.
  - reflexivity.
  - reflexivity.
  - exists 420%Z. vm_compute. reflexivity.
  - vm_compute. reflexivity.
  - reflexivity.
  - vm_compute. reflexivity.
  - intros q Hq. apply (proj1 (Forall_forall (λ q, is_link (t !! q) = false) (ancestors ["ci"]))); [|done].
    repeat constructor.
  - reflexivity.
  - vm_compute. reflexivity.
  - vm_compute. reflexivity.
Defined.
