(* ===== verification/Package.v ===== *)
(** * The service packages

    [veil-service/scripts/package.py]: the staged installation, its manifest, the archive
    (a normalised tar for Linux, a zip for Windows) and its publication, over the file
    system of FileSystem.v and the commands of Tools.v. *)

From S2P Require Import Prelude.
From S2P Require Import PyText.
From S2P Require Import PyBytes.
From S2P Require Import Json.
From S2P Require Import FileSystem.
From S2P Require Import Confined.
From S2P Require Import Tools.
From S2P Require Import SampleTools.
From S2P Require Import Publish.
#[local] Open Scope Z_scope.

Definition ARCHES : list (string * env) :=
  [("amd64", []); ("arm64", []); ("armv7", [("GOARM", "7")])].

Definition archive_stem (version target arch : string) : string :=
  "veil-" +:+ version +:+ "-" +:+ target +:+ "-" +:+ arch.
Definition archive_suffix (target : string) : string :=
  if String.eqb target "linux" then ".tar.gz" else ".zip".
(** The directory of the documents inside the package. *)
Definition docs_dir (target : string) : string :=
  if String.eqb target "linux" then "share/veil/" else "".

(** The [filter] of the tar archive. *)
Definition normalize (epoch : Z) (info : tar_info) : tar_info :=
  {| t_name := t_name info; t_type := t_type info;
     t_mode := if is_dir_type info || contains "/bin/" (t_name info)
                  || endswith (t_name info) "/install.sh" then 493 else 420;
     t_owner := {| uid := 0; gid := 0; uname := "root"; gname := "root"; mtime := epoch |} |}.

(** The header of a file of the zip archive. *)
Definition zip_entry (epoch : Z) (name : string) : zip_info :=
  {| z_name := name; z_time := gmtime (Z.max epoch 315532800); z_system := 3;
     z_attr := Z.shiftl 33188 16 |}.

Section package.
Context `{Tools} (root repo : path) (python : string).

Definition package_env (target arch : string) : result env :=
  extra ← dict_index id arch ARCHES;
  Ok (dict_or (dict_or environ
    [("GOOS", target); ("GOARCH", if String.eqb arch "armv7" then "arm" else arch);
     ("CGO_ENABLED", "0")]) extra).

Definition build_command (e : env) (stage : path) (target version : string) : command :=
  {| argv := [python; posix (sub root "scripts/build.py"); "batch"; "--output-dir";
              posix (if String.eqb target "linux" then stage ++ ["bin"] else stage);
              "--version"; version];
     cwd := None; env_of := Some e |}.

(** The files copied into the package, and where. *)
Definition copies (target : string) : list (path * string) :=
  let linux := String.eqb target "linux" in
  let docs := docs_dir target in
  [ (root ++ ["platform"; if linux then "systemd" else "windows"; "README.md"], docs +:+ "README.md");
    (repo ++ ["LICENSE"], docs +:+ "LICENSE");
    (repo ++ ["THIRD_PARTY.md"], docs +:+ "THIRD_PARTY.md") ] ++
  (if linux then
    [ (sub root "platform/systemd/veil-system", "bin/veil-system");
      (sub root "platform/systemd/veil@.service", "lib/systemd/system/veil@.service");
      (sub root "platform/systemd/veil.conf", "lib/sysusers.d/veil.conf");
      (sub root "platform/systemd/install.sh", "install.sh") ]
   else []).

Definition copy_inputs (stage : path) (target : string) : py disk () :=
  for_each (λ '(source, relative),
    mkdir_p (parent (sub stage relative));; copyfile source (sub stage relative)) (copies target).

Definition git (args : list string) : command :=
  {| argv := "git" :: args; cwd := Some repo; env_of := None |}.

Definition hash_files (stage : path) (files : list path) : py disk (list (string * json)) :=
  mapM_py (λ p, data ← read_file p; mret (relative stage p, JStr (sha256 data))) files.

Definition manifest_of (version commit : string) (dirty : bool) (target arch go : string)
    (hashes : list (string * json)) : json :=
  JObj [("version", JStr version); ("commit", JStr commit); ("dirty", JBool dirty);
        ("target", JStr (target +:+ "/" +:+ arch)); ("backend", JStr "batch");
        ("cgo", JBool false); ("go", JStr go); ("sha256", JObj hashes)].

Definition make_manifest (stage : path) (e : env) (version target arch : string) : py disk json :=
  commit ← check_output (git ["rev-parse"; "HEAD"]);
  status ← check_output (git ["status"; "--porcelain"]);
  go ← check_output {| argv := ["go"; "version"]; cwd := None; env_of := Some e |};
  t ← get_tree;
  hashes ← hash_files stage (filter (λ p, is_file t p = true) (rglob t stage));
  mret (manifest_of version (strip commit) (negb (String.eqb (strip status) ""))
          target arch (strip go) hashes).

(** [int(os.environ.get(...) or the commit's time)] *)
Definition epoch_of : py disk Z :=
  text ← (match dict_get "SOURCE_DATE_EPOCH" environ with
          | Some (String c s) => mret (String c s)
          | _ => text ← check_output (git ["show"; "-s"; "--format=%ct"; "HEAD"]); mret (strip text)
          end);
  lift (py_int text).

(** The archive of the staged files, written to [pending]. *)
Definition pack_zip (epoch : Z) (name : string) (stage pending : path) : py disk () :=
  write_file pending "";;
  names ← iterdir stage;
  es ← mapM_py (λ n, data ← read_file (stage ++ [n]); mret (zip_entry epoch (name +:+ "/" +:+ n), data))
         (sort_strings names);
  write_file pending (zip_bytes es).

Definition pack_tar (epoch : Z) (name : string) (stage pending : path) : py disk () :=
  write_file pending "";;
  t ← get_tree;
  es ← tar_add (S (size t)) (normalize epoch) stage name;
  write_file pending (gzip_bytes epoch (tar_bytes es)).

Definition stage_files (stage : path) (e : env) (version target arch : string) : py disk () :=
  run (build_command e stage target version);;
  copy_inputs stage target;;
  manifest ← make_manifest stage e version target arch;
  write_file (sub stage (docs_dir target +:+ "manifest.json")) (dumps_indent 2 manifest +:+ nl).

Definition archive_name (version target arch : string) : string :=
  archive_stem version target arch +:+ archive_suffix target.

(** The work in the temporary directory, up to the complete archive. *)
Definition fill (e : env) (version target arch : string) (temp : path) : py disk () :=
  let name := archive_stem version target arch in
  let stage := temp ++ [name] in
  stage_files stage e version target arch;;
  epoch ← epoch_of;
  let pending := temp ++ [archive_name version target arch] in
  if String.eqb target "windows" then pack_zip epoch name stage pending
  else pack_tar epoch name stage pending.

Definition package (version arch : string) (output : path) (target : string) : py disk path :=
  e ← lift (package_env target arch);
  mkdir_p output;;
  let archive := archive_name version target arch in
  with_temporary ".package-" output (λ temp,
    fill e version target arch temp;;
    publish (temp ++ [archive]) (output ++ [archive]);;
    mret (output ++ [archive])).

(** [main]: [SystemExit 2] is [parser.error]. *)
Definition native_arch (machine : string) : option string :=
  dict_get (lower machine)
    [("x86_64", "amd64"); ("amd64", "amd64"); ("aarch64", "arm64"); ("arm64", "arm64");
     ("armv7l", "armv7")].

Record arguments := {
  a_version : string; a_target : option string; a_arch : option string; a_output : option path }.

Definition main (machine : string) (a : arguments) : py disk path :=
  let target := default "linux" (a_target a) in
  lift (raise_if (negb (bool_decide (target ∈ ["linux"; "windows"]))) (SystemExit 2));;
  lift (raise_if (match a_arch a with Some x => negb (bool_decide (x ∈ ARCHES.*1)) | None => false end)
    (SystemExit 2));;
  lift (raise_if (negb (is_version (a_version a))) (SystemExit 2));;
  arch ← lift (from_option_or (SystemExit 2)
    (match a_arch a with Some x => Some x | None => native_arch machine end));
  lift (raise_if (String.eqb target "windows" && String.eqb arch "armv7") (SystemExit 2));;
  t ← get_tree;
  output ← lift (from_option_or (OSError "too many links")
    (resolve t (default (root ++ [".build"; "releases"]) (a_output a))));
  package (a_version a) arch output target.
End package.

(** ** What a published archive holds *)
Section archives.
Context `{Tools}.

(** A zip of [name]: every entry has the fixed header, the manifest is the one of the
    build, and it lists the digest of every other file. *)
Definition manifest_text (version commit : string) (dirty : bool) (target arch go : string)
    (hashes : list (string * json)) : string :=
  dumps_indent 2 (manifest_of version commit dirty target arch go hashes) +:+ nl.

Definition zip_of (version target arch commit : string) (dirty : bool) (go : string)
    (hashes : list (string * json)) (files : list (string * string)) (data : string) : Prop :=
  let name := archive_stem version target arch in
  (∃ epoch, data = zip_bytes (map (λ f, (zip_entry epoch (name +:+ "/" +:+ f.1), f.2)) files)) ∧
  Sorted String.le files.*1 ∧
  ("manifest.json", manifest_text version commit dirty target arch go hashes) ∈ files ∧
  ∀ n content, (n, content) ∈ files → n ≠ "manifest.json" → (n, JStr (sha256 content)) ∈ hashes.

Definition good_zip (version target arch data : string) : Prop :=
  ∃ commit dirty go hashes files, zip_of version target arch commit dirty go hashes files data.

(** A tar of [name]: every entry belongs to root, has the time of the release, a mode of
    the two allowed ones, and lies in one directory. *)
Definition good_tar (version target arch data : string) : Prop :=
  let name := archive_stem version target arch in
  ∃ epoch es,
    data = gzip_bytes epoch (tar_bytes es) ∧
    Forall (λ e, t_owner e.1 = {| uid := 0; gid := 0; uname := "root"; gname := "root"; mtime := epoch |} ∧
      (t_mode e.1 = 493 ∨ t_mode e.1 = 420) ∧ startswith (t_name e.1) name = true) es.
End archives.

Section fill.
Context `{ToolsLaws} (R : path → Prop) (root repo : path) (python version target arch : string).
Context (e : env) (temp : path) (t1 : gmap path node) `{!Confinable R temp t1}.
Abbreviation private := (private R temp t1).
Abbreviation name := (archive_stem version target arch).
Abbreviation stage := (temp ++ [name]).
Abbreviation pending := (temp ++ [archive_name version target arch]).

(** The build writes below its output directory and in the scratch space only. *)
Context (run_private : keeps (on_tree private) (run (build_command root python e stage target version))).

#[local] Hint Resolve read_private write_private copyfile_private mkdir_private below_app : within.

Lemma copy_inputs_private : keeps (on_tree private) (copy_inputs root repo stage target).
Proof.
  unfold copy_inputs. apply within_for_each. intros [source relative] _.
  assert (below temp (parent (sub stage relative)) ∧ below temp (sub stage relative)) as [H1 H2].
  { unfold sub, parent. rewrite removelast_app by apply split_ne_nil. split; apply stage_below. }
  solve_fs.
Qed.

Lemma check_output_private c : keeps (on_tree private) (check_output c).
Proof. apply check_output_reads. Qed.
#[local] Hint Resolve copy_inputs_private check_output_private : within.

Lemma make_manifest_private : keeps (on_tree private) (make_manifest repo stage e version target arch).
Proof. unfold make_manifest, hash_files. solve_fs. Qed.

Lemma stage_files_private : keeps (on_tree private) (stage_files root repo python stage e version target arch).
Proof.
  apply within_bind; [exact run_private|intros _]. apply within_bind; [auto with within|intros _].
  apply within_bind; [apply make_manifest_private|intros v]. unfold sub. apply write_private, stage_below.
Qed.

Lemma epoch_private : keeps (on_tree private) (epoch_of repo).
Proof. unfold epoch_of. solve_fs. Qed.

(** *** The zip archive *)

Abbreviation staged := (staged R temp t1 name).

Lemma elem_rglob t p q : q ∈ rglob t p ↔ q ≠ p ∧ below p q ∧ is_Some (t !! q).
Proof. unfold rglob. by rewrite merge_sort_Permutation, list_elem_of_filter, elem_subtree. Qed.

Lemma relative_snoc p n : relative p (p ++ [n]) = n.
Proof. unfold relative. by rewrite drop_app_length. Qed.

Lemma make_manifest_gives :
  triple (on_tree private) (make_manifest repo stage e version target arch)
    (λ v d, private (tree d) ∧ ∃ commit dirty go hashes,
       v = manifest_of version commit dirty target arch go hashes ∧
       ∀ n content, file_at (tree d) (stage ++ [n]) = Some content → (n, JStr (sha256 content)) ∈ hashes)
    (λ _, on_tree private).
Proof.
  unfold make_manifest.
  do 3 (apply private_step; [apply check_output_private|intros ?|done]).
  intros d Hd. set (t := tree d). unfold on_tree in Hd.
  pose proof (read_all_gives t (λ p, p) (λ p data, (relative stage p, JStr (sha256 data)))
    (filter (λ p, is_file t p = true) (rglob t stage)) d eq_refl) as Hread.
  unfold hash_files, at_tree, on_tree in *. fs_unfold. fold t.
  destruct (mapM_py _ _ d) as [[hashes|x] d']; [|by rewrite Hread]. destruct Hread as [Ht' Hh].
  rewrite Ht'. split; [done|]. do 4 eexists. split; [done|]. intros n content Hf.
  assert (stage ++ [n] ∈ filter (λ p, is_file t p = true) (rglob t stage)) as Hin.
  { pose proof Hf as Hf'. rewrite (private_file_at t) in Hf' by (done || apply stage_below).
    apply list_elem_of_filter. split.
    - unfold is_file. unfold file_at in Hf. by destruct (stat t _) as [[]|].
    - apply elem_rglob. split_and!; [|apply below_app|].
      + intros Heq. by apply (dir_ne_snoc stage n).
      + by destruct (t !! (stage ++ [n])). }
  destruct (Forall2_elem_l _ _ _ _ Hh Hin) as (y & Hy & content' & Hc & ->).
  rewrite Hf in Hc. injection Hc as <-. by rewrite relative_snoc in Hy.
Qed.

Lemma stage_files_staged : target ≠ "linux" →
  triple (on_tree private) (stage_files root repo python stage e version target arch)
    (λ _ d, ∃ commit dirty go hashes,
       staged hashes (manifest_text version commit dirty target arch go hashes) (tree d))
    (λ _, on_tree private).
Proof.
  intros Hl. unfold stage_files, docs_dir. rewrite (proj2 (String.eqb_neq target "linux") Hl).
  assert (sub stage ("" +:+ "manifest.json") = stage ++ ["manifest.json"]) as -> by reflexivity.
  apply private_step; [exact run_private|intros _|done].
  apply private_step; [apply copy_inputs_private|intros _|done].
  eapply triple_bind; [apply make_manifest_gives|]. intros v d [Hd (commit & dirty & go & hashes & -> & Hh)].
  pose proof (write_manifest_staged R temp t1 name hashes
    (manifest_text version commit dirty target arch go hashes) d (conj Hd Hh)) as Hw.
  destruct (write_file _ _ d) as [[[]|x] d']; [by do 4 eexists|done].
Qed.

Lemma good_zip_of t epoch hashes commit dirty go es :
  staged hashes (manifest_text version commit dirty target arch go hashes) t →
  Forall2 (λ n entry, ∃ data, file_at t (stage ++ [n]) = Some data ∧
             entry = (zip_entry epoch (name +:+ "/" +:+ n), data)) (sort_strings (children t stage)) es →
  good_zip version target arch (zip_bytes es).
Proof.
  intros (Hp & Hm & Hh) Hes. destruct (sort_strings_spec (children t stage)) as [Hsort Hin].
  set (names := sort_strings (children t stage)) in *.
  exists commit, dirty, go, hashes, (map (λ n, (n, default "" (file_at t (stage ++ [n])))) names).
  assert (∀ n, n ∈ names → is_Some (file_at t (stage ++ [n]))) as Hfile.
  { intros n Hn. destruct (Forall2_elem_l _ _ _ _ Hes Hn) as (? & _ & data & Hd & _). by exists data. }
  split_and!.
  - exists epoch. f_equal. rewrite map_map. clear Hsort Hin Hfile.
    induction Hes as [|n entry l k (data & Hd & ->) _ IH]; [done|].
    rewrite map_cons. f_equal; [by rewrite Hd|exact IH].
  - change (Sorted String.le (map fst (map (λ n, (n, default "" (file_at t (stage ++ [n])))) names))).
    by rewrite map_map, map_id.
  - apply list_elem_of_fmap. exists "manifest.json". rewrite Hm. split; [done|].
    apply Hin, elem_children. rewrite private_file_at in Hm by (done || apply stage_below).
    by destruct (t !! (stage ++ ["manifest.json"])).
  - intros n content Hf Hn. apply list_elem_of_fmap in Hf as (n' & [= <- ->] & Hn').
    destruct (Hfile n Hn') as [data Hd]. rewrite Hd. by apply Hh.
Qed.

Lemma pack_zip_gives epoch hashes commit dirty go :
  triple (λ d, staged hashes (manifest_text version commit dirty target arch go hashes) (tree d))
    (pack_zip epoch name stage pending)
    (λ _ d, on_tree private d ∧
       ∃ data m, tree d !! pending = Some (File data m) ∧ good_zip version target arch data)
    (λ _, on_tree private).
Proof.
  intros d Hd. unfold pack_zip. set (text := manifest_text _ _ _ _ _ _ _) in *.
  pose proof (write_private_gives (tree d) pending "" (proj1 Hd) (below_app _ _) d eq_refl) as H1.
  unfold mbind, py_bind. destruct (write_file pending "" d) as [[[]|x] d1]; [|done].
  destruct H1 as [Hp1 [m1 Ht1]]. assert (staged hashes text (tree d1)) as Hs1
    by (rewrite Ht1; by apply staged_insert). clear Ht1 Hd d. set (t := tree d1) in *.
  pose proof (iterdir_gives t stage (private_link_free t stage Hp1 (below_app _ _)) d1 eq_refl) as H2.
  destruct (iterdir stage d1) as [[names|x] d2]; [|by unfold on_tree; rewrite H2].
  destruct H2 as [Ht2 ->].
  pose proof (read_all_gives t (λ n, stage ++ [n]) (λ n data, (zip_entry epoch (name +:+ "/" +:+ n), data))
    (sort_strings (children t stage)) d2 Ht2) as H3.
  destruct (mapM_py _ _ d2) as [[es|x] d3]; [|by unfold on_tree; rewrite H3].
  destruct H3 as [Ht3 Hes]. unfold at_tree in Ht3. rewrite <-Ht3 in Hs1, Hp1.
  pose proof (write_private_gives (tree d3) pending (zip_bytes es) Hp1 (below_app _ _) d3 eq_refl) as H4.
  destruct (write_file pending _ d3) as [[[]|x] d4]; [|done]. destruct H4 as [Hp4 [m4 Ht4]].
  split; [done|]. exists (zip_bytes es), m4. split; [by rewrite Ht4, lookup_insert_eq|].
  rewrite Ht3 in Hs1. by eapply good_zip_of.
Qed.

(** *** The tar archive *)
Lemma pack_tar_gives epoch :
  triple (on_tree private) (pack_tar epoch name stage pending)
    (λ _ d, on_tree private d ∧
       ∃ data m, tree d !! pending = Some (File data m) ∧ good_tar version target arch data)
    (λ _, on_tree private).
Proof.
  unfold pack_tar. apply private_step; [by apply write_private, below_app| |done].
  intros _ d Hd. unfold get_tree, gets, mbind, py_bind.
  pose proof (tar_add_gives private (normalize epoch) (S (size (tree d))) stage name d Hd) as Ht.
  destruct (tar_add _ _ _ _ d) as [[es|x] d1]; [|by destruct Ht]. destruct Ht as [Hp1 Hes].
  pose proof (write_private_gives (tree d1) pending (gzip_bytes epoch (tar_bytes es)) Hp1
    (below_app _ _) d1 eq_refl) as Hw.
  destruct (write_file pending _ d1) as [[[]|x] d2]; [|done]. destruct Hw as [Hp2 [m Ht2]].
  split; [done|]. eexists _, m. split; [by rewrite Ht2, lookup_insert_eq|].
  exists epoch, es. split; [done|]. eapply Forall_impl; [exact Hes|]. intros e' (i & -> & Hi).
  unfold normalize. cbn. split_and!; [done| |done]. destruct (_ || _); auto.
Qed.

Definition good_archive (data : string) : Prop :=
  if String.eqb target "windows" then good_zip version target arch data
  else good_tar version target arch data.

Lemma fill_gives :
  triple (on_tree private) (fill root repo python e version target arch temp)
    (λ _ d, on_tree private d ∧
       ∃ data m, tree d !! pending = Some (File data m) ∧ good_archive data)
    (λ _, on_tree private).
Proof.
  unfold fill, good_archive. destruct (String.eqb_spec target "windows") as [Ht|Ht].
  - eapply triple_bind; [apply stage_files_staged; by subst|].
    intros ? d (commit & dirty & go & hashes & Hs).
    assert (keeps (on_tree (eq (tree d))) (epoch_of repo)) as He.
    { unfold epoch_of. apply within_bind; [|intros; solve_fs].
      destruct (dict_get _ environ) as [[]|]; try apply within_ret;
        (apply within_bind; [apply check_output_reads|intros; apply within_ret]). }
    specialize (He d eq_refl). unfold mbind, py_bind, on_tree in *.
    destruct (epoch_of repo d) as [[epoch|x] d1]; [|destruct He as [<- _]; apply Hs].
    rewrite He in Hs. by eapply pack_zip_gives.
  - apply private_step; [apply stage_files_private|intros _|done].
    apply private_step; [apply epoch_private|intros epoch; apply pack_tar_gives|done].
Qed.
End fill.

(** ** The contract of [package] *)


(** ** A sample build *)
Definition sample_sources : gmap path node :=
  list_to_map [
    (["r"], Dir 493); (["r"; "LICENSE"], File "GPL" 420); (["r"; "THIRD_PARTY.md"], File "notices" 420);
    (["r"; "s"], Dir 493); (["r"; "s"; "platform"], Dir 493); (["r"; "s"; "platform"; "windows"], Dir 493);
    (["r"; "s"; "platform"; "windows"; "README.md"], File "read me" 420); (["out"], Dir 493);
    (["out"; "veil-1.2.3-windows-amd64.zip"], File "an old archive" 420) ].
Definition sample_build : Tools := sample_tools (λ _, mret ()) (λ _, "abc").
Definition sample_packaged : result path * disk :=
  @package sample_build ["r"; "s"] ["r"] "python3" "1.2.3" "amd64" ["out"] "windows" (no_faults sample_sources).

