(* ===== verification/WindowsCheck.v ===== *)
(** * The check of a Windows package

    [verify] of [veil-service/scripts/windows_package_check.py]: the layout, the manifest,
    the digests and the executable headers of an archive.  The main theorem composes it
    with the packager: what [package] publishes is accepted. *)

From S2P Require Import Prelude.
From S2P Require Import PyText.
From S2P Require Import PyBytes.
From S2P Require Import Json.
From S2P Require Import JsonRoundtrip.
From S2P Require Import FileSystem.
From S2P Require Import Tools.
From S2P Require Import SampleTools.
From S2P Require Import Package.
From Stdlib Require Import Ascii.
#[local] Open Scope Z_scope.

Definition FILES : list string := ["veild.exe"; "veilctl.exe"; "README.md"; "LICENSE"; "THIRD_PARTY.md"].
Definition MACHINES : list (string * Z) := [("windows/amd64", 34404); ("windows/arm64", 43620)].

(** [archive.stem]: the name without its last suffix. *)
Definition stem (name : string) : string :=
  match rev (split "." name) with
  | last :: ((_ :: _) as front) =>
      let base := join "." (rev front) in
      if String.eqb base "" || String.eqb last "" then name else base
  | _ => name
  end.

Example stem_1 : map stem ["veil-1.2.3-windows-amd64.zip"; ".zip"; "zip"; "a."] =
  ["veil-1.2.3-windows-amd64"; ".zip"; "zip"; "a."].
Proof. reflexivity. Qed.

(** [struct.unpack_from("<I"/"<H", data, at)]: [struct.error] beyond the end. *)
Definition byte_at (s : string) (i : nat) : option Z :=
  match String.get i s with Some c => Some (Z.of_N (N_of_ascii c)) | None => None end.
Definition struct_error : exn := RuntimeError "unpack_from requires a larger buffer".
Definition u16_le (s : string) (i : nat) : result Z :=
  from_option_or struct_error (a ← byte_at s i; b ← byte_at s (S i); Some (a + 256 * b)).
Definition u32_le (s : string) (i : nat) : result Z :=
  from_option_or struct_error
    (a ← byte_at s i; b ← byte_at s (i + 1); c ← byte_at s (i + 2); d ← byte_at s (i + 3);
     Some (a + 256 * b + 65536 * c + 16777216 * d)).
Definition sslice (i j : nat) (s : string) : string := stake (j - i) (sdrop i s).

(** [assert b, message] *)
Definition assert_that (b : bool) (message : string) : result () :=
  raise_if (negb b) (AssertionError message).

Definition mz : string := "MZ".
Definition pe_mark : string := "PE" +:+ String (ascii_of_N 0) (String (ascii_of_N 0) "").

(** The executable header of one program. *)
Definition check_program (machine : Z) (name data : string) : result () :=
  assert_that (String.eqb (sslice 0 2 data) mz) (name +:+ ": not a Windows executable");;
  offset ← u32_le data 60;
  let offset := Z.to_nat offset in
  assert_that (String.eqb (sslice offset (offset + 4) data) pe_mark) (name +:+ ": missing PE header");;
  found ← u16_le data (offset + 4);
  assert_that (found =? machine) (name +:+ ": wrong architecture").

(** [set(v) == FILES]; other values than objects and arrays have no such set of keys. *)
Definition keys_are_files (v : json) : result bool :=
  match v with
  | JObj kvs => Ok (bool_decide (list_to_set kvs.*1 =@{gset string} list_to_set FILES))
  | JArr l =>
      keys ← mapR (λ x, match x with JArr _ | JObj _ => Err TypeError
                                   | JStr s => Ok (Some s) | _ => Ok None end) l;
      Ok (bool_decide (Forall is_Some keys) &&
          bool_decide (list_to_set (omap id keys) =@{gset string} list_to_set FILES))
  | JStr _ => Ok false
  | _ => Err TypeError
  end.

(** [manifest["target"] in MACHINES], with the value found. *)
Definition machine_of (v : json) : result Z :=
  match v with
  | JStr s => from_option_or (AssertionError "unexpected target") (dict_get s MACHINES)
  | JArr _ | JObj _ => Err TypeError
  | _ => Err (AssertionError "unexpected target")
  end.

Definition check_digest (digest : string → string) (hashes : json) (kv : string * string) : result () :=
  h ← jitem kv.1 hashes;
  assert_that (equals_text (digest kv.2) h) kv.1.

(** The checks of the manifest against the other files. *)
Definition check_contents (digest : string → string) (archive_stem : string) (manifest : json)
    (contents : list (string * string)) : result () :=
  target ← jitem "target" manifest;
  machine ← machine_of target;
  backend ← jitem "backend" manifest;
  assert_that (equals_text "batch" backend) "";;
  cgo ← jitem "cgo" manifest;
  assert_that (is_false cgo) "";;
  hashes ← jitem "sha256" manifest;
  same ← keys_are_files hashes;
  assert_that same "incomplete file manifest";;
  version ← jitem "version" manifest;
  assert_that (String.eqb archive_stem ("veil-" +:+ shown version +:+ "-" +:+ replace_all "/" "-" (shown target))) "";;
  mapR (check_digest digest hashes) contents;;
  mapR (λ name, data ← dict_index id name contents; check_program machine name data)
    ["veild.exe"; "veilctl.exe"];;
  Ok ().

Section verify.
Context (digest : string → string) (zip_read : string → option (list (string * string))).

(** [package.read(name)]: the last member of that name. *)
Definition read_member (entries : list (string * string)) (name : string) : result string :=
  dict_index id name (rev entries).

Definition read_archive (name data : string) : result (json * list (string * string)) :=
  entries ← from_option_or (RuntimeError "not a zip file") (zip_read data);
  let names := map (λ n, stem name +:+ "/" +:+ n) (FILES ++ ["manifest.json"]) in
  assert_that (bool_decide (sort_strings entries.*1 = sort_strings names)) "unexpected package layout";;
  contents ← mapR (λ n, data ← read_member entries n;
                    Ok (default "" (last (split "/" n)), data)) names;
  text ← dict_index id "manifest.json" contents;
  let contents := filter (λ kv, kv.1 ≠ "manifest.json") contents in
  manifest ← loads text;
  check_contents digest (stem name) manifest contents;;
  Ok (manifest, contents).

Definition verify (archive : path) : py disk (json * list (string * string)) :=
  text ← read_file (with_name archive (name_of archive +:+ ".sha256"));
  recorded ← lift (get_at (words text) 0);
  data ← read_file archive;
  lift (assert_that (String.eqb (digest data) recorded) "archive digest mismatch");;
  data ← read_file archive;
  lift (read_archive (name_of archive) data).
End verify.

(** [main]: [os_name], [sys.executable], the directory of the scripts, the one of temporary
    files, and [str] of a path, which is the system's. *)
Section main.
Context `{Tools} (zip_read : string → option (list (string * string))).
Context (os_name executable : string) (scripts temp : path) (text_of : path → string).

Definition command_of (argv : list string) : command := {| argv := argv; cwd := None; env_of := None |}.
Definition check_version (manifest : json) (root : path) (name : string) : py disk () :=
  version ← check_output (command_of [text_of (root ++ [name]); "-version"]);
  v ← lift (jitem "version" manifest);
  target ← lift (jitem "target" manifest);
  lift (assert_that (String.eqb (strip version) ("Veil " +:+ shown v +:+ " (" +:+ shown target +:+ ")")) version).
Definition run_package (manifest : json) (contents : list (string * string)) (root : path) : py disk () :=
  for_each (λ kv, write_file (root ++ [kv.1]) kv.2) contents;;
  for_each (check_version manifest root) ["veild.exe"; "veilctl.exe"];;
  run (command_of [executable; text_of (scripts ++ ["windows_smoke.py"]); "--bin-dir"; text_of root]).
Definition main (archive : path) (run_it : bool) : py disk () :=
  lift (raise_if (run_it && negb (String.eqb os_name "nt")) (SystemExit 2));;
  t ← get_tree;
  archive ← lift (from_option_or (OSError "too many links") (FileSystem.resolve t archive));
  '(manifest, contents) ← verify Tools.sha256 zip_read archive;
  when run_it (with_temporary "veil cli package " temp (run_package manifest contents)).
End main.

(** ** Executables *)

(** Little-endian fields. *)
Definition char_z (z : Z) : ascii := ascii_of_N (Z.to_N (z mod 256)).
Definition le16 (z : Z) : string := String (char_z z) (String (char_z (z / 256)) "").
Definition le32 (z : Z) : string := le16 z +:+ le16 (z / 65536).

(** A program for [machine]: the DOS header points at the PE header. *)
Definition program (machine : Z) (data : string) : Prop :=
  ∃ dos stub rest,
    String.length dos = 58%nat ∧ Z.of_nat (64 + String.length stub) < 2 ^ 32 ∧
    data = mz +:+ dos +:+ le32 (Z.of_nat (64 + String.length stub)) +:+ stub +:+ pe_mark
             +:+ le16 machine +:+ rest.

Lemma char_z_value z : Z.of_N (N_of_ascii (char_z z)) = z mod 256.
Proof.
  unfold char_z. pose proof (Z.mod_pos_bound z 256 eq_refl).
  rewrite N_ascii_embedding by lia. lia.
Qed.

Lemma u16_le_app a z b : 0 <= z < 65536 → u16_le (a +:+ le16 z +:+ b) (String.length a) = Ok z.
Proof.
  intros Hz. unfold u16_le, byte_at. rewrite <- (Nat.add_0_r (String.length a)) at 1.
  replace (S (String.length a)) with (String.length a + 1)%nat by lia.
  rewrite !sget_app. change (String.get 0 (le16 z +:+ b)) with (Some (char_z z)).
  change (String.get 1 (le16 z +:+ b)) with (Some (char_z (z / 256))).
  cbn [mbind option_bind from_option_or]. rewrite !char_z_value. f_equal. Z.to_euclidean_division_equations. lia.
Qed.

Lemma u32_le_app a z b : 0 <= z < 2 ^ 32 → u32_le (a +:+ le32 z +:+ b) (String.length a) = Ok z.
Proof.
  intros Hz. unfold u32_le, byte_at. rewrite <- (Nat.add_0_r (String.length a)) at 1.
  rewrite !sget_app. change (String.get 0 (le32 z +:+ b)) with (Some (char_z z)).
  change (String.get 1 (le32 z +:+ b)) with (Some (char_z (z / 256))).
  change (String.get 2 (le32 z +:+ b)) with (Some (char_z (z / 65536))).
  change (String.get 3 (le32 z +:+ b)) with (Some (char_z (z / 65536 / 256))).
  cbn [mbind option_bind from_option_or]. rewrite !char_z_value. f_equal.
  change (2 ^ 32) with 4294967296 in Hz. Z.to_euclidean_division_equations. lia.
Qed.

Lemma program_accepted machine name data : 0 <= machine < 65536 →
  program machine data → check_program machine name data = Ok ().
Proof.
  intros Hm (dos & stub & rest & Hdos & Hlen & ->). unfold check_program.
  set (off := Z.of_nat (64 + String.length stub)) in *.
  assert (sslice 0 2 (mz +:+ dos +:+ le32 off +:+ stub +:+ pe_mark +:+ le16 machine +:+ rest) = mz) as ->
    by reflexivity.
  cbn [assert_that]. rewrite String.eqb_refl. cbn [negb raise_if mbind result_bind].
  assert (u32_le (mz +:+ dos +:+ le32 off +:+ stub +:+ pe_mark +:+ le16 machine +:+ rest) 60 = Ok off) as ->.
  { rewrite <- sapp_assoc. replace 60%nat with (String.length (mz +:+ dos)).
    - apply u32_le_app. lia.
    - rewrite slength_app, Hdos. reflexivity. }
  cbn [mbind result_bind]. cbv zeta.
  assert (mz +:+ dos +:+ le32 off +:+ stub +:+ pe_mark +:+ le16 machine +:+ rest =
    (mz +:+ dos +:+ le32 off +:+ stub) +:+ pe_mark +:+ le16 machine +:+ rest) as ->
    by (by rewrite !sapp_assoc).
  assert (Z.to_nat off = String.length (mz +:+ dos +:+ le32 off +:+ stub)) as ->.
  { rewrite !slength_app, Hdos. change (String.length mz) with 2%nat.
    change (String.length (le32 off)) with 4%nat. lia. }
  unfold sslice. replace (_ + 4 - _)%nat with 4%nat by lia. rewrite sdrop_app.
  change (stake 4 (pe_mark +:+ le16 machine +:+ rest)) with pe_mark.
  rewrite String.eqb_refl. cbn [negb raise_if mbind result_bind assert_that].
  rewrite <- sapp_assoc. change 4%nat with (String.length pe_mark). rewrite <- slength_app.
  rewrite u16_le_app by done. cbn. by rewrite Z.eqb_refl.
Qed.

(** ** What the packager publishes is accepted *)
Lemma stem_zip s : s ≠ "" → stem (s +:+ ".zip") = s.
Proof.
  intros Hs. unfold stem. change (s +:+ ".zip") with (s +:+ char1 "."%char +:+ "zip").
  change "." with (char1 "."%char) at 1. rewrite split_char_app.
  change (split (char1 "."%char) "zip") with ["zip"]. rewrite rev_app_distr. simpl app.
  pose proof (split_ne_nil (char1 "."%char) s) as Hne.
  destruct (rev (split (char1 ".") s)) as [|x l] eqn:Hr.
  { apply (f_equal (@rev string)) in Hr. by rewrite rev_involutive in Hr. }
  rewrite <- Hr, rev_involutive.
  change "." with (char1 "."%char). rewrite join_split by done. by destruct s.
Qed.

Lemma member_name (a n : string) : any_char (Ascii.eqb "/") n = false →
  default "" (last (split "/" (a +:+ "/" +:+ n))) = n.
Proof.
  intros Hn. change "/" with (char1 "/"%char). rewrite split_char_app, (split_char_none _ _ Hn).
  by rewrite last_snoc.
Qed.

Lemma manifest_apart : "manifest.json" ∉ FILES.
Proof. by apply (bool_decide_eq_false_1 ("manifest.json" ∈ FILES)). Qed.

Lemma files_plain n : n ∈ FILES ++ ["manifest.json"] → any_char (Ascii.eqb "/") n = false.
Proof.
  intros Hn. apply (proj1 (Forall_forall (λ n, any_char (Ascii.eqb "/") n = false) (FILES ++ ["manifest.json"]))); [|done].
  repeat constructor.
Qed.

Section accepted.
Context `{Tools} (zip_read : string → option (list (string * string))).
Context (zip_reads : ∀ es, zip_read (zip_bytes es) = Some (map (λ e, (z_name e.1, e.2)) es)).
Context (version arch commit : string) (dirty : bool) (go : string).
Context (hashes : list (string * json)) (files : list (string * string)) (data : string).
Context (zipped : zip_of version "windows" arch commit dirty go hashes files data).
Context (layout : files.*1 ≡ₚ FILES ++ ["manifest.json"]).
Context (listed : list_to_set hashes.*1 =@{gset string} list_to_set FILES).

Abbreviation manifest := (manifest_of version commit dirty "windows" arch go hashes).
Abbreviation name := (archive_stem version "windows" arch).
Context (printable : plain manifest = true).

(** The contents by name. *)
Definition content (n : string) : string := default "" (dict_get n files).

Lemma files_NoDup : NoDup files.*1.
Proof. rewrite layout. apply (bool_decide_unpack _). by vm_compute. Qed.

Lemma content_elem n : n ∈ FILES ++ ["manifest.json"] → (n, content n) ∈ files.
Proof.
  intros Hn. rewrite <- layout in Hn. unfold content.
  destruct (dict_get n files) as [c|] eqn:Hc; [by apply dict_get_elem|].
  by apply dict_get_None in Hc.
Qed.

Lemma content_manifest : content "manifest.json" = manifest_text version commit dirty "windows" arch go hashes.
Proof.
  destruct zipped as (_ & _ & Hm & _). unfold content.
  by rewrite (elem_dict_get _ _ _ files_NoDup Hm).
Qed.

Lemma hashes_NoDup : NoDup hashes.*1.
Proof.
  pose proof printable as Hp. cbn [plain manifest_of] in Hp. apply andb_true_iff in Hp as [Hp _].
  cbn [forallb snd plain] in Hp. rewrite !andb_true_iff in Hp.
  by apply (bool_decide_eq_true_1 _), Hp.
Qed.

Lemma content_hash n : n ∈ FILES → dict_get n hashes = Some (JStr (sha256 (content n))).
Proof.
  intros Hn. apply elem_dict_get; [exact hashes_NoDup|].
  destruct zipped as (_ & _ & _ & Hh). apply Hh.
  - apply content_elem. apply elem_of_app. by left.
  - intros ->. by apply manifest_apart.
Qed.

Lemma read_entries n : n ∈ FILES ++ ["manifest.json"] →
  read_member (map (λ f, (name +:+ "/" +:+ f.1, f.2)) files) (name +:+ "/" +:+ n) = Ok (content n).
Proof.
  intros Hn. unfold read_member, dict_index. rewrite (elem_dict_get _ (content n)); [done| |].
  - rewrite map_rev, <- (Permutation_rev _). change (NoDup (map fst (map (λ f, (name +:+ "/" +:+ f.1, f.2)) files))).
    rewrite map_map. change (NoDup (map (λ f : string * string, (λ n, name +:+ "/" +:+ n) f.1) files)).
    rewrite <- map_map. apply NoDup_fmap_2; [|exact files_NoDup].
    intros a b Hab. by apply sapp_inv_head, sapp_inv_head in Hab.
  - rewrite <- (Permutation_rev _).
    apply list_elem_of_fmap. exists (n, content n). split; [done|by apply content_elem].
Qed.

Context (machine : Z) (machine_found : dict_get ("windows/" +:+ arch) MACHINES = Some machine).
Context (programs : ∀ n c, n ∈ ["veild.exe"; "veilctl.exe"] → (n, c) ∈ files → program machine c).

Definition checked_contents : list (string * string) := map (λ n, (n, content n)) FILES.

Lemma arch_cases : (arch = "amd64" ∨ arch = "arm64") ∧ 0 <= machine < 65536.
Proof.
  pose proof machine_found as Hm. apply dict_get_elem in Hm.
  apply elem_of_cons in Hm as [[= Ha ->]|[[= Ha ->]|[]%not_elem_of_nil]%elem_of_cons]; auto with lia.
Qed.

Lemma manifest_items :
  jitem "target" manifest = Ok (JStr ("windows" +:+ "/" +:+ arch)) ∧
  jitem "backend" manifest = Ok (JStr "batch") ∧ jitem "cgo" manifest = Ok (JBool false) ∧
  jitem "sha256" manifest = Ok (JObj hashes) ∧ jitem "version" manifest = Ok (JStr version).
Proof. repeat split. Qed.

Lemma digests_accepted : mapR (check_digest sha256 (JObj hashes)) checked_contents = Ok (map (λ _, ()) FILES).
Proof.
  unfold checked_contents. rewrite mapR_map. apply (mapR_all _ (λ _, ())). intros n Hn.
  unfold check_digest. cbn [jitem fst snd]. rewrite (content_hash n Hn). simpl.
  by rewrite String.eqb_refl.
Qed.

Lemma programs_accepted :
  mapR (λ n, data ← dict_index id n checked_contents; check_program machine n data)
    ["veild.exe"; "veilctl.exe"] = Ok (map (λ _, ()) ["veild.exe"; "veilctl.exe"]).
Proof.
  apply (mapR_all _ (λ _, ())). intros n Hn.
  assert (n ∈ FILES) as Hf by (apply (elem_of_app ["veild.exe"; "veilctl.exe"]); by left). unfold dict_index, checked_contents.
  rewrite (dict_get_map _ _ _ Hf). apply program_accepted; [apply arch_cases|].
  apply (programs n); [done|]. apply content_elem, elem_of_app. by left.
Qed.

Lemma machine_of_target : machine_of (JStr ("windows" +:+ "/" +:+ arch)) = Ok machine.
Proof. unfold machine_of. change ("windows" +:+ "/" +:+ arch) with ("windows/" +:+ arch). by rewrite machine_found. Qed.

Lemma stem_matches :
  assert_that (String.eqb name ("veil-" +:+ shown (JStr version) +:+ "-" +:+
    replace_all "/" "-" (shown (JStr ("windows" +:+ "/" +:+ arch))))) "" = Ok ().
Proof.
  unfold assert_that, shown. assert (replace_all "/" "-" ("windows" +:+ "/" +:+ arch) = "windows-" +:+ arch) as ->
    by (by destruct (proj1 arch_cases) as [-> | ->]).
  by rewrite (proj2 (String.eqb_eq _ _) eq_refl).
Qed.

Lemma contents_accepted : check_contents sha256 name manifest checked_contents = Ok ().
Proof.
  unfold check_contents. destruct manifest_items as (-> & -> & -> & -> & ->).
  cbn [mbind result_bind]. rewrite machine_of_target. cbn [mbind result_bind assert_that equals_text is_false
    negb raise_if keys_are_files String.eqb].
  rewrite (bool_decide_true _ listed). change (assert_that (String.eqb "batch" "batch") "") with (Ok ()).
  cbn [mbind result_bind assert_that negb raise_if]. rewrite stem_matches.
  cbn [mbind result_bind]. rewrite digests_accepted. cbn [mbind result_bind].
  by rewrite programs_accepted.
Qed.

Lemma members_accepted :
  mapR (λ n, data ← read_member (map (λ f, (name +:+ "/" +:+ f.1, f.2)) files) n;
             Ok (default "" (last (split "/" n)), data))
    (map (λ n, name +:+ "/" +:+ n) (FILES ++ ["manifest.json"])) =
  Ok (map (λ n, (n, content n)) (FILES ++ ["manifest.json"])).
Proof.
  rewrite mapR_map. apply mapR_all. intros n Hn. rewrite (read_entries n Hn).
  cbn [mbind result_bind]. by rewrite member_name by (by apply files_plain).
Qed.

Lemma others : filter (λ kv, kv.1 ≠ "manifest.json") (map (λ n, (n, content n)) (FILES ++ ["manifest.json"])) =
  checked_contents.
Proof. reflexivity. Qed.

Lemma names_accepted :
  sort_strings (map (λ f, (name +:+ "/" +:+ f.1, f.2)) files).*1 =
  sort_strings (map (λ n, name +:+ "/" +:+ n) (FILES ++ ["manifest.json"])).
Proof.
  apply sort_strings_eq.
  rewrite <- (fmap_Permutation (λ n, name +:+ "/" +:+ n) _ _ layout).
  by rewrite <- !list_fmap_compose.
Qed.

Lemma entries_accepted : zip_read data = Some (map (λ f, (name +:+ "/" +:+ f.1, f.2)) files).
Proof.
  destruct zipped as ([epoch ->] & _). rewrite zip_reads. f_equal. by rewrite map_map.
Qed.

Lemma text_accepted : loads (content "manifest.json") = Ok manifest.
Proof. rewrite content_manifest. by apply loads_line. Qed.

Lemma manifest_read :
  dict_index id "manifest.json" (map (λ n, (n, content n)) (FILES ++ ["manifest.json"])) =
  Ok (content "manifest.json").
Proof. unfold dict_index. by rewrite dict_get_map by (apply elem_of_app; right; by left). Qed.

Lemma archive_accepted :
  read_archive sha256 zip_read (name +:+ ".zip") data = Ok (manifest, checked_contents).
Proof.
  unfold read_archive. rewrite entries_accepted, stem_zip by done. cbn [from_option_or mbind result_bind].
  rewrite (bool_decide_true _ names_accepted), members_accepted.
  cbn [assert_that negb raise_if mbind result_bind]. rewrite manifest_read. cbn [mbind result_bind].
  rewrite text_accepted. cbn [mbind result_bind]. rewrite others, contents_accepted. reflexivity.
Qed.
End accepted.

(** C18. What the packager publishes for Windows passes the check: a zip of the packager that
    holds the expected files, with programs of the target's machine, and the checksum file
    next to it give back the manifest and the contents. *)
Theorem published_accepted `{Tools} zip_read t output version arch commit dirty go hashes files data machine :
  (∀ es, zip_read (zip_bytes es) = Some (map (λ e, (z_name e.1, e.2)) es)) →
  zip_of version "windows" arch commit dirty go hashes files data →
  files.*1 ≡ₚ FILES ++ ["manifest.json"] →
  list_to_set hashes.*1 =@{gset string} list_to_set FILES →
  plain (manifest_of version commit dirty "windows" arch go hashes) = true →
  dict_get ("windows/" +:+ arch) MACHINES = Some machine →
  (∀ n c, n ∈ ["veild.exe"; "veilctl.exe"] → (n, c) ∈ files → program machine c) →
  let name := archive_name version "windows" arch in
  file_at t (output ++ [name]) = Some data →
  file_at t (output ++ [name +:+ ".sha256"]) = Some (checksum_line sha256 name data) →
  is_word (sha256 data) = true →
  verify sha256 zip_read (output ++ [name]) (no_faults t) =
    (Ok (manifest_of version commit dirty "windows" arch go hashes, checked_contents files), no_faults t).
Proof.
  intros Hzip Hof Hl Hh Hp Hm Hprog name Hd Hs Hw. unfold verify, mbind, py_bind, with_name.
  rewrite parent_snoc, name_of_snoc, !read_file_no_faults, Hs. unfold lift at 1.
  unfold checksum_line.
  assert (get_at (words (sha256 data +:+ "  " +:+ name +:+ nl)) 0 = Ok (sha256 data)) as ->.
  { change ("  " +:+ name +:+ nl) with (String " " (" " +:+ name +:+ nl)). by rewrite words_first. }
  rewrite read_file_no_faults, Hd. unfold lift, assert_that. rewrite String.eqb_refl. cbn [negb raise_if].
  rewrite read_file_no_faults, Hd. unfold name, archive_name, archive_suffix. cbn [String.eqb].
  f_equal. by eapply archive_accepted.
Qed.

(** ** A sample package *)
Definition sample_program : string :=
  mz +:+ String.string_of_list_ascii (repeat "."%char 58) +:+ le32 64 +:+ "" +:+ pe_mark +:+ le16 34404 +:+ "code".
Definition sample_hashes : list (string * json) := map (λ n, (n, JStr (sample_digest n))) FILES.
Definition sample_package : list (string * string) :=
  [ ("LICENSE", "GPL"); ("README.md", "read"); ("THIRD_PARTY.md", "");
    ("manifest.json", manifest_text "1.2.3" "abc" false "windows" "amd64" "go1.25" sample_hashes);
    ("veilctl.exe", sample_program); ("veild.exe", sample_program) ].
Definition sample_archive : string :=
  sample_zip (map (λ f, (zip_entry 0 (archive_stem "1.2.3" "windows" "amd64" +:+ "/" +:+ f.1), f.2)) sample_package).
Definition sample_output : gmap path node :=
  list_to_map [(["out"], Dir 493);
    (["out"; "veil-1.2.3-windows-amd64.zip"], File sample_archive 420);
    (["out"; "veil-1.2.3-windows-amd64.zip.sha256"],
       File (checksum_line sample_digest "veil-1.2.3-windows-amd64.zip" sample_archive) 420)].

Lemma sample_hash n c : n ∈ FILES → (n, JStr (sample_digest c)) ∈ sample_hashes.
Proof. intros Hn. apply list_elem_of_fmap. by exists n. Qed.

Lemma sample_zip_of :
  @zip_of (sample_tools (λ _, mret ()) (λ _, "")) "1.2.3" "windows" "amd64" "abc" false "go1.25"
    sample_hashes sample_package sample_archive.
Proof.
  split_and!.
  - by exists 0.
  - apply (bool_decide_unpack _). by vm_compute.
  - unfold sample_package. do 3 right. left.
  - intros n content Hin. revert Hin.
    apply (proj1 (Forall_forall (λ f, f.1 ≠ "manifest.json" → (f.1, JStr (sample_digest f.2)) ∈ sample_hashes) sample_package)).
    unfold sample_package. repeat (constructor; [cbn [fst snd]; intros Hn; first [by destruct Hn|
      apply sample_hash; apply (bool_decide_unpack _); by vm_compute]|]).
    constructor.
Qed.

Lemma sample_programs n c : n ∈ ["veild.exe"; "veilctl.exe"] → (n, c) ∈ sample_package → program 34404 c.
Proof.
  intros Hn Hin. revert Hin Hn.
  apply (proj1 (Forall_forall (λ f, f.1 ∈ ["veild.exe"; "veilctl.exe"] → program 34404 f.2) sample_package)).
  unfold sample_package. repeat (constructor; [cbn [fst snd]; intros Hn; first [by apply (bool_decide_eq_true_2 _) in Hn|
    by exists (String.string_of_list_ascii (repeat "."%char 58)), "", "code"]|]).
  constructor.
Qed.

Lemma published_accepted_witness :
  verify sample_digest sample_unzip ["out"; "veil-1.2.3-windows-amd64.zip"] (no_faults sample_output) =
    (Ok (manifest_of "1.2.3" "abc" false "windows" "amd64" "go1.25" sample_hashes,
         checked_contents sample_package), no_faults sample_output).
Proof.
  apply (@published_accepted (sample_tools (λ _, mret ()) (λ _, "")) sample_unzip sample_output ["out"]
    "1.2.3" "amd64" "abc" false "go1.25" sample_hashes sample_package sample_archive 34404).
  - exact sample_zip_read.
  - exact sample_zip_of.
  - apply (bool_decide_unpack _). by vm_compute.
  - reflexivity.
  - by vm_compute.
  - reflexivity.
  - exact sample_programs.
  - by vm_compute.
  - by vm_compute.
  - reflexivity.
Defined.
