(* ===== verification/DesktopPackage.v ===== *)
(** * The desktop packages

    [veil-desktop/scripts/package.py]: the staged program, its manifest, the archive and its
    publication, with the contract of Publish.v. *)

From S2P Require Import Prelude.
From S2P Require Import PyText.
From S2P Require Import PyBytes.
From S2P Require Import Json.
From S2P Require Import FileSystem.
From S2P Require Import Confined.
From S2P Require Import Tools.
From S2P Require Import SampleTools.
From S2P Require Import Publish.
#[local] Open Scope Z_scope.

Definition desktop_name (version target arch : string) : string :=
  "veil-desktop-" +:+ version +:+ "-" +:+ target +:+ "-" +:+ arch.
Definition desktop_archive (version target arch : string) : string :=
  desktop_name version target arch +:+ (if String.eqb target "windows" then ".zip" else ".tar.gz").

(** [platform] is [platform.system()], [now] the time [tarfile] puts into the gzip header,
    [localtime] the date [zipfile] gives a file of some time. *)
Section desktop.
Context `{Tools} (root repo : path) (python platform : string) (now : Z) (localtime : Z → list Z).

Definition desktop_env (target arch : string) : result env :=
  let e := dict_or environ [("GOOS", target); ("GOARCH", arch)] in
  if String.eqb target "windows" then Ok (dict_set "CGO_ENABLED" "0" e)
  else if negb (String.eqb platform "Linux")
       then Err (ValueError "Linux desktop releases require a native Linux build host")
       else Ok e.

Definition desktop_binary (stage : path) (target : string) : path :=
  stage ++ [if String.eqb target "windows" then "veil-desktop.exe" else "veil-desktop"].

Definition desktop_build (e : env) (stage : path) (target version : string) : command :=
  {| argv := [python; posix (sub root "scripts/build.py"); "--version"; version; "--output";
              posix (desktop_binary stage target)];
     cwd := None; env_of := Some e |}.

Definition desktop_copies (stage : path) (target : string) : py disk () :=
  for_each (λ source, copyfile source (stage ++ [name_of source]))
    [root ++ ["README.md"]; repo ++ ["LICENSE"]; repo ++ ["THIRD_PARTY.md"]];;
  when (String.eqb target "linux")
    (copyfile (sub root "scripts/install.py") (stage ++ ["install.py"]);;
     copyfile (sub root "assets/veil.svg") (stage ++ ["veil.svg"])).

Definition repo_git (args : list string) : command :=
  {| argv := "git" :: args; cwd := Some repo; env_of := None |}.

Definition desktop_manifest (version target arch commit : string) (dirty : bool) (go : string)
    (hashes : list (string * json)) : json :=
  JObj [("version", JStr version); ("target", JStr (target +:+ "/" +:+ arch)); ("backend", JStr "batch");
        ("commit", JStr commit); ("dirty", JBool dirty); ("go", JStr go); ("sha256", JObj hashes)].

Definition hash_children (stage : path) : py disk (list (string * json)) :=
  names ← iterdir stage;
  mapM_py (λ n, data ← read_file (stage ++ [n]); mret (n, JStr (sha256 data))) (sort_strings names).

Definition desktop_stage (e : env) (version target arch : string) (stage : path) : py disk () :=
  run (desktop_build e stage target version);;
  desktop_copies stage target;;
  commit ← check_output (repo_git ["rev-parse"; "HEAD"]);
  status ← check_output (repo_git ["status"; "--porcelain"]);
  go ← check_output {| argv := ["go"; "version"]; cwd := None; env_of := Some e |};
  hashes ← hash_children stage;
  write_file (stage ++ ["manifest.json"])
    (dumps_indent 2 (desktop_manifest version target arch (strip commit)
       (negb (String.eqb (strip status) "")) (strip go) hashes) +:+ nl).

(** [out.write(p, name)] of a zip archive: the mode and the time are the file's. *)
Definition zip_write (p : path) (name : string) : py disk (zip_info * string) :=
  t ← get_tree;
  let info name mode := {| z_name := name; z_time := localtime (mtime (owner_of p));
                           z_system := 3; z_attr := Z.shiftl mode 16 |} in
  match stat t p with
  | Some (Dir mode) => mret (info (name +:+ "/") (16384 + mode), "")
  | Some (File _ mode) => data ← read_file p; mret (info name (32768 + mode), data)
  | _ => raise (FileNotFoundError (posix p))
  end.

Definition desktop_pack (name target : string) (stage pending : path) : py disk () :=
  write_file pending "";;
  if String.eqb target "windows" then
    names ← iterdir stage;
    es ← mapM_py (λ n, zip_write (stage ++ [n]) (name +:+ "/" +:+ n)) (sort_strings names);
    write_file pending (zip_bytes es)
  else
    t ← get_tree;
    es ← tar_add (S (size t)) id stage name;
    write_file pending (gzip_bytes now (tar_bytes es)).

Definition desktop_fill (e : env) (version target arch : string) (temp : path) : py disk () :=
  let name := desktop_name version target arch in
  desktop_stage e version target arch (temp ++ [name]);;
  desktop_pack name target (temp ++ [name]) (temp ++ [desktop_archive version target arch]).

Definition desktop_package (version target arch : string) (output : path) : py disk () :=
  mkdir_p output;;
  e ← lift (desktop_env target arch);
  let archive := desktop_archive version target arch in
  with_temporary ".desktop-" output (λ temp,
    desktop_fill e version target arch temp;;
    publish (temp ++ [archive]) (output ++ [archive]);;
    mret ()).

(** [main]: [system] is [platform.system().lower()], [machine] [platform.machine()]. *)
Definition desktop_main (system machine version : string) (target arch : option string)
    (output : option path) : py disk () :=
  let allowed (o : option string) l :=
    match o with Some x => bool_decide (x ∈ l) | None => true end in
  lift (raise_if (negb (allowed target ["linux"; "windows"]) || negb (allowed arch ["amd64"; "arm64"]))
    (SystemExit 2));;
  lift (raise_if (negb (is_version version)) (SystemExit 2));;
  let target := default system target in
  let arch := match arch with
              | Some a => Some a
              | None => dict_get machine [("x86_64", "amd64"); ("AMD64", "amd64");
                                          ("aarch64", "arm64"); ("ARM64", "arm64")]
              end in
  lift (raise_if (negb (bool_decide (target ∈ ["linux"; "windows"]))) (SystemExit 2));;
  arch ← lift (from_option_or (SystemExit 2) arch);
  t ← get_tree;
  output ← lift (from_option_or (OSError "too many links")
    (resolve t (default (root ++ [".build"; "releases"]) output)));
  desktop_package version target arch output.

(** ** What a published archive holds *)
Definition desktop_text (version target arch commit : string) (dirty : bool) (go : string)
    (hashes : list (string * json)) : string :=
  dumps_indent 2 (desktop_manifest version target arch commit dirty go hashes) +:+ nl.

(** The zip holds the manifest, and the manifest the digest of every other file. *)
Definition desktop_zip (version target arch data : string) : Prop :=
  let name := desktop_name version target arch in
  ∃ commit dirty go hashes es,
    data = zip_bytes es ∧
    (∃ i, (i, desktop_text version target arch commit dirty go hashes) ∈ es ∧
          z_name i = name +:+ "/manifest.json") ∧
    Forall (λ e, ∃ n, z_name e.1 = name +:+ "/" +:+ n +:+ "/" ∧ e.2 = "" ∨
                      z_name e.1 = name +:+ "/" +:+ n ∧ (n = "manifest.json" ∨ (n, JStr (sha256 e.2)) ∈ hashes)) es.
Definition desktop_tar (version target arch data : string) : Prop :=
  ∃ es, data = gzip_bytes now (tar_bytes es) ∧
    Forall (λ e, startswith (t_name e.1) (desktop_name version target arch) = true) es.
Definition desktop_good (version target arch data : string) : Prop :=
  if String.eqb target "windows" then desktop_zip version target arch data
  else desktop_tar version target arch data.
End desktop.

Section desktop_fill.
Context `{ToolsLaws} (R : path → Prop) (root repo : path) (python platform : string) (now : Z).
Context (localtime : Z → list Z) (e : env) (version target arch : string).
Context (temp : path) (t1 : gmap path node) `{!Confinable R temp t1}.
Abbreviation private := (private R temp t1).
Abbreviation name := (desktop_name version target arch).
Abbreviation stage := (temp ++ [name]).
Abbreviation pending := (temp ++ [desktop_archive version target arch]).
Abbreviation staged := (staged R temp t1 name).

Context (run_private : keeps (on_tree private) (run (desktop_build root python e stage target version))).

#[local] Hint Resolve read_private write_private copyfile_private below_app stage_below : within.

Lemma desktop_copies_private : keeps (on_tree private) (desktop_copies root repo stage target).
Proof. unfold desktop_copies. solve_fs. Qed.

Lemma hash_children_gives :
  triple (on_tree private) (hash_children stage)
    (λ hashes d, private (tree d) ∧ hashed temp name hashes (tree d)) (λ _, on_tree private).
Proof.
  intros d Hd. unfold on_tree in Hd. set (t := tree d) in *. unfold hash_children.
  pose proof (iterdir_gives t stage (private_link_free t stage Hd (below_app _ _)) d eq_refl) as Hi.
  unfold mbind, py_bind, at_tree, on_tree in *.
  destruct (iterdir stage d) as [[names|x] d1]; [|by rewrite Hi]. destruct Hi as [Ht1 ->].
  pose proof (read_all_gives t (λ n, stage ++ [n]) (λ n data, (n, JStr (sha256 data)))
    (sort_strings (children t stage)) d1 Ht1) as Hr. unfold at_tree, mbind, py_bind in *.
  destruct (mapM_py _ _ d1) as [[hashes|x] d2]; [|by rewrite Hr]. destruct Hr as [-> Hh].
  split; [done|]. intros n content Hf.
  assert (n ∈ sort_strings (children t stage)) as Hn.
  { apply sort_strings_spec, elem_children. rewrite private_file_at in Hf by (done || apply stage_below).
    by destruct (t !! (stage ++ [n])). }
  destruct (Forall2_elem_l _ _ _ _ Hh Hn) as (y & Hy & content' & Hc & ->).
  rewrite Hf in Hc. by injection Hc as <-.
Qed.

Lemma desktop_stage_staged :
  triple (on_tree private) (desktop_stage root repo python e version target arch stage)
    (λ _ d, ∃ commit dirty go hashes,
       staged hashes (desktop_text version target arch commit dirty go hashes) (tree d))
    (λ _, on_tree private).
Proof.
  unfold desktop_stage. apply private_step; [exact run_private|intros _|done].
  apply private_step; [exact desktop_copies_private|intros _|done].
  do 3 (apply private_step; [apply check_output_reads|intros ?|done]).
  eapply triple_bind; [apply hash_children_gives|]. intros hashes d [Hp Hh].
  pose proof (write_manifest_staged R temp t1 name hashes
    (desktop_text version target arch (strip a) (negb (String.eqb (strip a0) "")) (strip a1) hashes)
    d (conj Hp Hh)) as Hw.
  unfold desktop_text in Hw. destruct (write_file _ _ d) as [[[]|x] d']; [by do 4 eexists|done].
Qed.

(** One member of the zip. *)
Definition member (t : gmap path node) (n : string) (entry : zip_info * string) : Prop :=
  z_name entry.1 = name +:+ "/" +:+ n +:+ "/" ∧ entry.2 = "" ∧ (∃ m, stat t (stage ++ [n]) = Some (Dir m)) ∨
  z_name entry.1 = name +:+ "/" +:+ n ∧ file_at t (stage ++ [n]) = Some entry.2.

Lemma zip_write_gives t n :
  triple (at_tree t) (zip_write localtime (stage ++ [n]) (name +:+ "/" +:+ n))
    (λ entry d, at_tree t d ∧ member t n entry) (λ _, at_tree t).
Proof.
  intros d Hd. unfold zip_write, get_tree, gets, mbind, py_bind. unfold at_tree in Hd. rewrite Hd.
  destruct (stat t (stage ++ [n])) as [[data m|m|l]|] eqn:Hs; try done.
  - pose proof (read_file_gives t (stage ++ [n]) d Hd) as Hr.
    destruct (read_file _ d) as [[data'|x] d1]; [|done]. destruct Hr as [? Hf]. split; [done|]. by right.
  - split; [done|]. left. cbn. split_and!; [by rewrite !sapp_assoc|done|by exists m].
Qed.

Lemma mapM_member t l :
  triple (at_tree t) (mapM_py (λ n, zip_write localtime (stage ++ [n]) (name +:+ "/" +:+ n)) l)
    (λ es d, at_tree t d ∧ Forall2 (member t) l es) (λ _, at_tree t).
Proof.
  induction l as [|n l IH]; simpl; [by apply triple_ret|].
  eapply triple_bind; [apply zip_write_gives|]. intros entry d [Hd Hm].
  specialize (IH d Hd). unfold mbind, py_bind, mret, py_ret.
  destruct (mapM_py _ l d) as [[es|x] d']; [|done]. destruct IH. split; [done|]. by constructor.
Qed.

Lemma members_zip t commit dirty go hashes es :
  staged hashes (desktop_text version target arch commit dirty go hashes) t →
  Forall2 (member t) (sort_strings (children t stage)) es →
  desktop_zip version target arch (zip_bytes es).
Proof.
  intros (Hp & Hm & Hh) Hes. exists commit, dirty, go, hashes, es. split_and!; [done| |].
  - assert ("manifest.json" ∈ sort_strings (children t stage)) as Hn.
    { apply sort_strings_spec, elem_children. rewrite private_file_at in Hm by (done || apply stage_below).
      by destruct (t !! (stage ++ ["manifest.json"])). }
    destruct (Forall2_elem_l _ _ _ _ Hes Hn) as ([i c] & Hin & [(_ & _ & m & Hd)|[Hi Hc]]).
    + unfold file_at in Hm. by rewrite Hd in Hm.
    + cbn in *. rewrite Hm in Hc. injection Hc as <-. exists i. split; [done|]. by rewrite Hi.
  - apply Forall_forall. intros entry Hin.
    destruct (Forall2_elem_r _ _ _ _ Hes Hin) as (n & _ & [(H1 & H2 & _)|[H1 H2]]); exists n; [by left|].
    right. split; [done|]. destruct (decide (n = "manifest.json")); [by left|]. right. by apply Hh.
Qed.

Lemma desktop_pack_gives hashes commit dirty go :
  triple (λ d, staged hashes (desktop_text version target arch commit dirty go hashes) (tree d))
    (desktop_pack now localtime name target stage pending)
    (λ _ d, on_tree private d ∧
       ∃ data m, tree d !! pending = Some (File data m) ∧ desktop_good now version target arch data)
    (λ _, on_tree private).
Proof.
  intros d Hd. unfold desktop_pack, desktop_good. set (text := desktop_text _ _ _ _ _ _ _) in *.
  pose proof (write_private_gives (tree d) pending "" (proj1 Hd) (below_app _ _) d eq_refl) as H1.
  unfold mbind at 1, py_bind at 1. destruct (write_file pending "" d) as [[[]|x] d1]; [|done].
  destruct H1 as [Hp1 [m1 Ht1]]. assert (staged hashes text (tree d1)) as Hs1
    by (rewrite Ht1; by apply staged_insert). clear Ht1 Hd d.
  destruct (String.eqb target "windows").
  - unfold mbind, py_bind. set (t := tree d1) in *.
    pose proof (iterdir_gives t stage (private_link_free t stage Hp1 (below_app _ _)) d1 eq_refl) as H2.
    destruct (iterdir stage d1) as [[names|x] d2]; [|by unfold on_tree; rewrite H2].
    destruct H2 as [Ht2 ->]. pose proof (mapM_member t (sort_strings (children t stage)) d2 Ht2) as H3.
    destruct (mapM_py _ _ d2) as [[es|x] d3]; [|by unfold on_tree; rewrite H3].
    destruct H3 as [Ht3 Hes]. unfold at_tree in Ht3. rewrite <-Ht3 in Hp1.
    pose proof (write_private_gives (tree d3) pending (zip_bytes es) Hp1 (below_app _ _) d3 eq_refl) as H4.
    destruct (write_file pending _ d3) as [[[]|x] d4]; [|done]. destruct H4 as [Hp4 [m4 Ht4]].
    split; [done|]. exists (zip_bytes es), m4. split; [by rewrite Ht4, lookup_insert_eq|].
    by eapply members_zip.
  - unfold get_tree, gets, mbind, py_bind.
    pose proof (tar_add_gives private id (S (size (tree d1))) stage name d1 Hp1) as Ht.
    destruct (tar_add _ _ _ _ d1) as [[es|x] d2]; [|by destruct Ht]. destruct Ht as [Hp2 Hes].
    pose proof (write_private_gives (tree d2) pending (gzip_bytes now (tar_bytes es)) Hp2
      (below_app _ _) d2 eq_refl) as Hw.
    destruct (write_file pending _ d2) as [[[]|x] d3]; [|done]. destruct Hw as [Hp3 [m Ht3]].
    split; [done|]. eexists _, m. split; [by rewrite Ht3, lookup_insert_eq|].
    exists es. split; [done|]. eapply Forall_impl; [exact Hes|]. by intros e' (i & -> & Hi).
Qed.

Lemma desktop_fill_gives :
  triple (on_tree private) (desktop_fill root repo python now localtime e version target arch temp)
    (λ _ d, on_tree private d ∧
       ∃ data m, tree d !! pending = Some (File data m) ∧ desktop_good now version target arch data)
    (λ _, on_tree private).
Proof.
  unfold desktop_fill. eapply triple_bind; [apply desktop_stage_staged|].
  intros ? d (commit & dirty & go & hashes & Hs). by eapply desktop_pack_gives.
Qed.
End desktop_fill.

(** C19. The desktop packager under any failure: only the archive, its checksum file, the
    directories above, a temporary directory and the scratch space of the build change,
    and the archive is the old one or a complete one, whose manifest has the digest of
    every other file of a zip, and whose entries of a tar lie in one directory. *)
Theorem desktop_atomic `{ToolsLaws} R `{!Apart R output} `{∀ q, Decision (R q)}
    root repo python platform now localtime version target arch d q :
  link_free (tree d) output →
  is_link (tree d !! (output ++ [desktop_archive version target arch +:+ ".sha256"])) = false →
  (∀ e temp t1, Confinable R temp t1 → keeps (on_tree (private R temp t1))
     (run (desktop_build root python e (temp ++ [desktop_name version target arch]) target version))) →
  left_over R ".desktop-" output (desktop_archive version target arch)
    (desktop_good now version target arch) (tree d) q
    (tree (desktop_package root repo python platform now localtime version target arch output d).2 !! q).
Proof.
  intros Hfree Hsum Hrun. set (t0 := tree d).
  assert (keeps (on_tree (ok R ".desktop-" output (desktop_archive version target arch)
    (desktop_good now version target arch) t0))
    (desktop_package root repo python platform now localtime version target arch output)) as Hk.
  { unfold desktop_package. apply within_bind; [by apply mkdir_ok|intros _].
    apply within_bind; [by apply within_lift|intros e]. apply with_temporary_safe; [done..|].
    intros temp t1 Hc _. by apply desktop_fill_gives, Hrun. }
  assert (ok R ".desktop-" output (desktop_archive version target arch)
    (desktop_good now version target arch) t0 (tree d)) as Hok by (intros q'; apply left_same).
  specialize (Hk d Hok). destruct (desktop_package _ _ _ _ _ _ _ _ _ _ d) as [[p|x] d']; apply Hk.
Qed.

(** ** A build that fails *)
Definition sample_release : gmap path node :=
  list_to_map [(["out"], Dir 493); (["out"; "veil-desktop-1.2.3-linux-amd64.tar.gz"], File "an old archive" 420)].
Definition failing_build : Tools := sample_tools (λ _, raise (CalledProcessError 2)) (λ _, "").
Definition sample_failure : result () * disk :=
  @desktop_package failing_build ["r"; "d"] ["r"] "python3" "Linux" 0 gmtime "1.2.3" "linux" "amd64" ["out"]
    (no_faults sample_release).

Lemma desktop_atomic_witness :
  sample_failure.1 = Err (CalledProcessError 2) ∧
  left_over (λ _, False) ".desktop-" ["out"] "veil-desktop-1.2.3-linux-amd64.tar.gz"
    (@desktop_good failing_build 0 "1.2.3" "linux" "amd64") sample_release
    ["out"; "veil-desktop-1.2.3-linux-amd64.tar.gz"]
    (tree sample_failure.2 !! ["out"; "veil-desktop-1.2.3-linux-amd64.tar.gz"]).
Proof.
  split; [by vm_compute|].
  apply (@desktop_atomic failing_build _ (λ _, False) ["out"] _ _ ["r"; "d"] ["r"] "python3" "Linux" 0 gmtime
    "1.2.3" "linux" "amd64" (no_faults sample_release)).
  - intros q Hq. apply (proj1 (Forall_forall (λ q, is_link (sample_release !! q) = false) (ancestors ["out"]))); [|done].
    repeat constructor.
  - by vm_compute.
  - intros. by apply within_raise.
Defined.
