(* ===== verification/Build.v ===== *)
(** * Building the service and the desktop

    [veil-service/scripts/build.py] and [veil-desktop/scripts/build.py]: both take the flags
    of the core's generator, replace its module file by their own, and run the Go
    commands with them. *)

From S2P Require Import Prelude.
From S2P Require Import PyText.
From S2P Require Import PyBytes.
From S2P Require Import Json.
From S2P Require Import JsonRoundtrip.
From S2P Require Import FileSystem.
From S2P Require Import Tools.
From S2P Require Import TlsPatches.
From S2P Require Import Generate.
#[local] Open Scope Z_scope.

(** [core]: the generator of the core at its directory; [go]: [subprocess.run] of a command
    in the program's directory; [environ] and [os_name] of this process. *)
Section build.
Context (root core : path) (core_generate : mode → py disk (list string)).
Context (go : list string → py disk ()) (environ : env) (os_name : string).

Definition modfile_flag (f : string) : bool := startswith f "-modfile=".

Definition utls_replacement (m : string) : string :=
  nl +:+ "replace github.com/metacubex/utls => " +:+ dumps (JStr (posix (core ++ [".build"; m; "utls"]))) +:+ nl.

(** [prepare] of the service *)
Definition service_mod (m : mode) (text : string) : string :=
  replace_all "replace veil => ../veil-core" ("replace veil => " +:+ dumps (JStr (posix core))) text
    +:+ utls_replacement (mode_name m).

Definition build_dir (m : mode) : path := root ++ [".build"; mode_name m].

Definition own_flags (m : mode) (flags : list string) : list string :=
  filter (λ f, modfile_flag f = false) flags ++ ["-modfile=" +:+ posix (build_dir m ++ ["build.mod"])].

Definition prepare (m : mode) : py disk (list string) :=
  flags ← core_generate m;
  let out := build_dir m in
  mkdir_p out;;
  text ← read_file (root ++ ["go.mod"]);
  write_file (out ++ ["build.mod"]) (service_mod m text);;
  copyfile (root ++ ["go.sum"]) (out ++ ["build.sum"]);;
  let flags := own_flags m flags in
  write_file (out ++ ["flags.json"]) (dumps (JArr (map JStr flags)) +:+ nl);;
  mret flags.

Definition exe_suffix : string :=
  let goos := default "" (dict_get "GOOS" environ) in
  if String.eqb goos "windows" || (String.eqb goos "" && String.eqb os_name "nt") then ".exe" else "".

Record service_args := {
  s_mode : mode; s_check : bool; s_race : bool; s_generate_only : bool;
  s_output_dir : option path; s_version : string; s_program : list string }.

Definition test_command (flags : list string) (race : bool) : list string :=
  ["test"] ++ flags ++ (if race then ["-race"] else []) ++ ["-count=1"; "-timeout=120s"; "./..."].
Definition vet_command (flags : list string) : list string := ["vet"] ++ flags ++ ["./..."].

Definition service_build_command (flags : list string) (version name : string) (output : path) : list string :=
  ["build"] ++ flags ++
  ["-trimpath"; "-ldflags=-X veil-service/internal/buildinfo.Version=" +:+ version; "-o";
   posix (output ++ [name +:+ exe_suffix]); "./cmd/" +:+ name].

Definition service_main (a : service_args) : py disk () :=
  lift (raise_if (negb (forallb (λ p, bool_decide (p ∈ ["veild"; "veilctl"; "veil-rpc"])) (s_program a))) (SystemExit 2));;
  lift (raise_if (negb (is_version (s_version a))) (SystemExit 2));;
  flags ← prepare (s_mode a);
  if s_generate_only a then mret ()
  else if s_check a then
    go (["go"] ++ test_command flags (s_race a));; go (["go"] ++ vet_command flags)
  else
    let dir := default (root ++ [".build"]) (s_output_dir a) in
    mkdir_p dir;;
    for_each (λ name,
      t ← get_tree;
      output ← lift (from_option_or (OSError "too many links") (resolve t dir));
      go (["go"] ++ service_build_command flags (s_version a) name output))
      (match s_program a with [] => ["veild"; "veilctl"] | l => l end).

(** [main] of the desktop: [repo] is the directory above, [core] its core. *)
Record desktop_args := {
  d_version : string; d_check : bool; d_race : bool; d_debug : bool; d_output : option path }.

Definition desktop_mod (repo : path) (text : string) : string :=
  fold_left (λ gomod name, replace_all ("../" +:+ name) (dumps (JStr (posix (repo ++ [name])))) gomod)
    ["veil-core"; "veil-service"] text
  +:+ utls_replacement "batch".

Definition tags_flag (debug : bool) : string :=
  "-tags=with_utls,webkit2_41,production" +:+ (if debug then ",debug" else "").

Definition desktop_flags (debug : bool) (flags : list string) : list string :=
  filter (λ f, modfile_flag f || startswith f "-tags=" = false) flags ++
  [tags_flag debug; "-modfile=" +:+ posix (root ++ [".build"; "build.mod"])].

(** [out.mkdir(exist_ok=True)], without the parents. *)
Definition mkdir_one (p : path) : py disk () :=
  t ← get_tree;
  match stat t p, stat t (parent p) with
  | Some (Dir _), _ => mret ()
  | Some _, _ => raise (FileExistsError (posix p))
  | None, Some (Dir _) => tick;; put_tree (<[p := Dir 493]> t)
  | None, _ => raise (FileNotFoundError (posix p))
  end.

Definition desktop_build_command (flags : list string) (version : string) (output : path) : list string :=
  ["build"] ++ flags ++
  ["-trimpath"; "-ldflags=-X main.version=" +:+ version +:+
     (if String.eqb exe_suffix "" then "" else " -H=windowsgui"); "-o"; posix output; "."].

Definition desktop_build_main (repo : path) (a : desktop_args) : py disk () :=
  lift (raise_if (negb (is_version (d_version a))) (SystemExit 2));;
  flags ← core_generate batch;
  let out := root ++ [".build"] in
  mkdir_one out;;
  text ← read_file (root ++ ["go.mod"]);
  write_file (out ++ ["build.mod"]) (desktop_mod repo text);;
  copyfile (root ++ ["go.sum"]) (out ++ ["build.sum"]);;
  let flags := desktop_flags (d_debug a) flags in
  if d_check a then
    go (["go"] ++ test_command flags (d_race a));; go (["go"] ++ vet_command flags)
  else
    let output := default (out ++ ["veil-desktop" +:+ exe_suffix]) (d_output a) in
    mkdir_p (parent output);;
    t ← get_tree;
    output ← lift (from_option_or (OSError "too many links") (resolve t output));
    go (["go"] ++ desktop_build_command flags (d_version a) output).
End build.

(** ** The prepared module *)

(** A checkout the build can prepare: its module files, and room for the generated ones. *)
Record build_ready (root : path) (m : mode) (text sums : string) (t : gmap path node) : Prop := {
  ready_free : link_free t (build_dir root m);
  ready_dirs : ∀ q, q ∈ ancestors (build_dir root m) → dir_or_none (t !! q);
  ready_mod : ∃ k, t !! (root ++ ["go.mod"]) = Some (File text k);
  ready_sum : ∃ k, t !! (root ++ ["go.sum"]) = Some (File sums k);
  ready_out : ∀ n, writable (t !! (build_dir root m ++ [n])) = true }.

Section prepared.
Context (root core : path) (m : mode) (text sums : string) (t : gmap path node).
Context (ready : build_ready root m text sums t).
Abbreviation out := (build_dir root m).
Abbreviation t1 := (with_dirs (ancestors out) t).

(** The tree with files written into the build directory. *)
Definition written (files : list (string * string)) : gmap path node :=
  foldl (λ t f, <[out ++ [f.1] := File f.2 (old_mode (t !! (out ++ [f.1])))]> t) t1 files.

Lemma written_other files q : (∀ n, q ≠ out ++ [n]) → written files !! q = t1 !! q.
Proof.
  intros Hq. unfold written. generalize t1. induction files as [|f files IH]; intros t'; [done|].
  simpl. rewrite IH, lookup_insert_ne; [done|]. intros He. by apply (Hq f.1).
Qed.

Lemma written_snoc files f : written (files ++ [f]) =
  <[out ++ [f.1] := File f.2 (old_mode (written files !! (out ++ [f.1])))]> (written files).
Proof. unfold written. by rewrite foldl_app. Qed.

Lemma written_writable files n : writable (written files !! (out ++ [n])) = true.
Proof.
  induction files as [|f files IH] using rev_ind.
  - unfold written. simpl. rewrite with_dirs_lookup. pose proof (ready_out _ _ _ _ _ ready n) as H.
    destruct (t !! (out ++ [n])) as [[]|]; try done. case_bool_decide as Hin; [|done].
    apply elem_ancestors in Hin as [_ [k Hk]]. exfalso.
    apply (f_equal length) in Hk. rewrite !length_app in Hk. simpl in Hk. lia.
  - rewrite written_snoc, lookup_insert. by case_decide.
Qed.

Lemma written_free files : link_free (written files) out.
Proof.
  intros q Hq. rewrite written_other; [|].
  - by apply (link_free_with_dirs _ _ _ (ready_free _ _ _ _ _ ready)).
  - intros n ->. apply elem_ancestors in Hq as [_ [k Hk]].
    apply (f_equal length) in Hk. rewrite !length_app in Hk. simpl in Hk. lia.
Qed.

Lemma out_in : out ∈ ancestors out.
Proof. apply ancestors_self. unfold build_dir. by destruct root. Qed.

Lemma written_dir files : ∃ k, node_at (written files) out = Some (Dir k).
Proof.
  rewrite node_at_ne by (apply (ancestor_nonempty out out), out_in).
  rewrite written_other by (intros n Hn; by apply (dir_ne_snoc out n)).
  apply with_dirs_dir; [apply out_in|]. apply (ready_dirs _ _ _ _ _ ready), out_in.
Qed.

Lemma write_written files n data :
  write_file (out ++ [n]) data (no_faults (written files)) = (Ok (), no_faults (written (files ++ [(n, data)]))).
Proof.
  destruct (written_dir files) as [k Hk].
  rewrite (write_run _ _ _ _ k); [|apply written_free|done|apply written_writable]. by rewrite written_snoc.
Qed.

Lemma read_source files n data k : t !! (root ++ [n]) = Some (File data k) →
  read_file (root ++ [n]) (no_faults (written files)) = (Ok data, no_faults (written files)).
Proof.
  intros Hn. apply (read_run _ _ _ _ k).
  - pose proof (written_free files) as H. unfold build_dir in H. by eapply link_free_app.
  - rewrite written_other; [by apply with_dirs_some|]. intros n' Hq. unfold build_dir in Hq.
    apply (f_equal length) in Hq. rewrite !length_app in Hq. simpl in Hq. lia.
Qed.

Lemma written_file_at files n : file_at (written files) (out ++ [n]) =
  match written files !! (out ++ [n]) with Some (File data _) => Some data | _ => None end.
Proof.
  apply file_at_free; [apply written_free|]. pose proof (written_writable files n) as H.
  by destruct (written files !! (out ++ [n])) as [[]|].
Qed.

Lemma written_last files n data : file_at (written (files ++ [(n, data)])) (out ++ [n]) = Some data.
Proof. by rewrite written_file_at, written_snoc, lookup_insert_eq. Qed.

Lemma written_skip files n n' data : n ≠ n' →
  file_at (written (files ++ [(n', data)])) (out ++ [n]) = file_at (written files) (out ++ [n]).
Proof.
  intros Hn. rewrite !written_file_at, written_snoc, lookup_insert_ne; [done|]. simpl. apply snoc_neq. auto.
Qed.

(** The generated files. *)
Definition prepared_files (flags : list string) : list (string * string) :=
  [("build.mod", service_mod core m text); ("build.sum", sums);
   ("flags.json", dumps (JArr (map JStr (own_flags root m flags))) +:+ nl)].

Lemma prepare_run core_generate flags t0 : core_generate m (no_faults t0) = (Ok flags, no_faults t) →
  prepare root core core_generate m (no_faults t0) =
    (Ok (own_flags root m flags), no_faults (written (prepared_files flags))).
Proof.
  intros Hg. unfold prepare, mbind, py_bind. rewrite Hg. unfold mkdir_p.
  rewrite make_dirs_run.
  2: { intros q Hq. destruct (ancestors_link_free t out q (ready_free _ _ _ _ _ ready) Hq).
       split_and!; [done..|]. exact (ready_dirs _ _ _ _ _ ready q Hq). }
  destruct (ready_mod _ _ _ _ _ ready) as [k1 H1], (ready_sum _ _ _ _ _ ready) as [k2 H2].
  change t1 with (written []). rewrite (read_source [] _ _ _ H1), write_written.
  unfold copyfile, mbind, py_bind. rewrite (read_source _ _ _ _ H2), !write_written. reflexivity.
Qed.
End prepared.

(** The service's [prepare] returns the core's flags with the module file replaced by its
    own, leaves the other flags and their order alone, and writes the flags so that
    [flags.json] reads back as them; its module file is the one the flag names, with the
    replacements of the core and of the patched TLS fork. *)
Theorem prepared_flags root core core_generate m flags t0 t text sums :
  core_generate m (no_faults t0) = (Ok flags, no_faults t) → build_ready root m text sums t →
  forallb ascii_text flags = true → ascii_text (posix (build_dir root m ++ ["build.mod"])) = true →
  ∃ flags' t', prepare root core core_generate m (no_faults t0) = (Ok flags', no_faults t') ∧
    filter (λ f, modfile_flag f = false) flags' = filter (λ f, modfile_flag f = false) flags ∧
    filter (λ f, modfile_flag f = true) flags' = ["-modfile=" +:+ posix (build_dir root m ++ ["build.mod"])] ∧
    file_at t' (build_dir root m ++ ["build.mod"]) = Some (service_mod core m text) ∧
    ∃ line, file_at t' (build_dir root m ++ ["flags.json"]) = Some line ∧ loads line = Ok (JArr (map JStr flags')).
Proof.
  intros Hg Hr Ha Hp. exists (own_flags root m flags), (written root m t (prepared_files root core m text sums flags)).
  assert (modfile_flag ("-modfile=" +:+ posix (build_dir root m ++ ["build.mod"])) = true) as Hm
    by (apply startswith_app).
  split_and!.
  - by apply prepare_run.
  - unfold own_flags. rewrite filter_app, filter_cons_False, filter_nil, app_nil_r by (by rewrite Hm).
    apply filter_all. by intros f [Hf _]%list_elem_of_filter.
  - unfold own_flags. rewrite filter_app, filter_cons_True, filter_nil by done.
    rewrite filter_none; [done|]. intros f [Hf _]%list_elem_of_filter. by rewrite Hf.
  - etransitivity; [apply (written_skip _ _ _ _ _ Hr [_; _]); discriminate|].
    etransitivity; [apply (written_skip _ _ _ _ _ Hr [_]); discriminate|].
    apply (written_last _ _ _ _ _ Hr []).
  - eexists. split; [apply (written_last _ _ _ _ _ Hr [_; _])|]. apply loads_line.
    apply forallb_forall. intros v (f & <- & [Hf|[<-|[]]]%in_app_iff)%in_map_iff; [|exact Hp].
    apply list_elem_of_In, list_elem_of_filter in Hf as [_ Hf%list_elem_of_In].
    exact (proj1 (forallb_forall _ _) Ha f Hf).
Qed.

(** ** A sample checkout *)
Definition sample_checkout : gmap path node :=
  list_to_map [(["r"], Dir 493); (["r"; "go.mod"], File "replace veil => ../veil-core" 420); (["r"; "go.sum"], File "" 420)].
Definition sample_flags : list string := flags_of ["c"] batch.

Lemma prepared_flags_witness :
  ∃ flags' t', prepare ["r"] ["c"] (λ _, mret sample_flags) batch (no_faults sample_checkout) = (Ok flags', no_faults t') ∧
    filter (λ f, modfile_flag f = false) flags' = filter (λ f, modfile_flag f = false) sample_flags ∧
    filter (λ f, modfile_flag f = true) flags' = ["-modfile=" +:+ posix (build_dir ["r"] batch ++ ["build.mod"])] ∧
    file_at t' (build_dir ["r"] batch ++ ["build.mod"]) =
      Some (service_mod ["c"] batch "replace veil => ../veil-core") ∧
    ∃ line, file_at t' (build_dir ["r"] batch ++ ["flags.json"]) = Some line ∧ loads line = Ok (JArr (map JStr flags')).
Proof.
  apply (prepared_flags ["r"] ["c"] (λ _, mret sample_flags) batch sample_flags sample_checkout sample_checkout
    "replace veil => ../veil-core" "").
  - reflexivity.
  - split.
    + intros q Hq. apply no_links_lookup. apply (bool_decide_unpack _). by vm_compute.
    + intros q Hq. apply (proj1 (Forall_forall (λ q, dir_or_none (sample_checkout !! q)) (ancestors (build_dir ["r"] batch)))); [|done].
      repeat constructor.
    + by exists 420.
    + by exists 420.
    + intros n. destruct (sample_checkout !! _) as [[]|] eqn:Hn; try done; exfalso;
        apply elem_of_list_to_map_2 in Hn; unfold build_dir in Hn;
        repeat (apply elem_of_cons in Hn as [Hn|Hn]; [discriminate Hn|]); by apply elem_of_nil in Hn.
  - by vm_compute.
  - by vm_compute.
Defined.
