(* ===== verification/Drivers.v ===== *)
(** * The drivers of the Go toolchain

    [veil-core/scripts/bench_build.py], [check.py] and [cross_check.py], and cross_check.py of
    veil-service: each takes the flags of the generator and runs [go] with them; the checks report every run in a JSON file and by
    their exit status.  What they print is left out. *)

From S2P Require Import Prelude.
From S2P Require Import PyText.
From S2P Require Import PyBytes.
From S2P Require Import Json.
From S2P Require Import JsonRoundtrip.
From S2P Require Import Numbers.
From S2P Require Import FileSystem.
From S2P Require Import Confined.
From S2P Require Import Tools.
From S2P Require Import TlsPatches.
From S2P Require Import Generate.
From S2P Require Import Build.
#[local] Open Scope Z_scope.

(** [root], [ENV] and [generate] of build.py; [run]: [subprocess.run(..., check=True)]; [runs]:
    the return code and the output of a command; [monotonic]: [time.monotonic()]. *)
Section drivers.
Context (root : path) (ENV : env) (generate : mode → py disk (list string)).
Context (run : command → py disk ()) (runs : command → py disk (Z * string)) (monotonic : py disk num).

Definition build_root : path := root ++ [".build"].
Definition in_root (argv : list string) (e : env) : command :=
  {| argv := argv; cwd := Some root; env_of := Some e |}.

(** ** bench_build.py *)
Definition singbox : string := "github.com/sagernet/sing-box@v1.15.0-alpha.9".
Definition singbox_source : path := sub root (".build/mod/" +:+ singbox).
Definition singbox_work : path := build_root ++ ["sing-box-src"].
Definition singbox_mod (m : mode) : path := build_root ++ ["singbox-" +:+ mode_name m +:+ ".mod"].
Definition singbox_sum (m : mode) : path := build_root ++ ["singbox-" +:+ mode_name m +:+ ".sum"].
Definition singbox_content (m : mode) (text : string) : string :=
  if bool_decide (m = native) then text
  else text +:+ nl +:+ "replace github.com/metacubex/utls => " +:+ posix (build_root ++ [mode_name m; "utls"]) +:+ nl.
Definition singbox_command (m : mode) (flags : list string) : list string :=
  ["go"; "build"] ++ filter (λ f, modfile_flag f = false) flags ++
  ["-mod=mod"; "-modfile=" +:+ posix (singbox_mod m); "-trimpath"; "-o";
   posix (build_root ++ ["singbox-" +:+ mode_name m]); "./cmd/sing-box"].
Definition bench_build (m : mode) : py disk () :=
  flags ← generate m;
  t ← get_tree;
  when (negb (path_exists t singbox_source)) (run (in_root ["go"; "mod"; "download"; singbox] ENV));;
  t ← get_tree;
  when (negb (path_exists t singbox_work)) (copytree (S (size t)) singbox_source singbox_work);;
  content ← read_file (singbox_source ++ ["go.mod"]);
  write_file (singbox_mod m) (singbox_content m content);;
  copyfile (singbox_source ++ ["go.sum"]) (singbox_sum m);;
  run {| argv := singbox_command m flags; cwd := Some singbox_work; env_of := Some ENV |}.

(** ** What the checks report *)

(** [any(row["returncode"] for row in rows)] *)
Definition row_failed (row : json) : bool :=
  match jitem "returncode" row with Ok v => truthy v | Err _ => false end.
Definition exit_status {A} (rows : list json) : py disk A :=
  raise (SystemExit (if existsb row_failed rows then 1 else 0)).
Definition report (rows : list json) : string := dumps_indent 2 (JArr rows) +:+ nl.

(** ** check.py *)
Record check_args := { c_mode : mode; c_race : bool; c_stdlib : bool }.

Definition utls_module : string := "github.com/metacubex/utls".
Definition test_flags (a : check_args) (flags : list string) : list string :=
  ["go"; "test"] ++ flags ++ (if c_race a then ["-race"] else []) ++ ["-count=1"; "-timeout=120s"].
Definition utls_tests (m : mode) : string :=
  match m with
  | native => "TestVeilPadding"
  | _ => "TestVeil|TestDynamicRecordSizing|Test.*Close|Test(Client)?KeyUpdate|TestFailedWrite"
  end.
Definition check_commands (a : check_args) (flags : list string) : list (list string) :=
  [test_flags a flags ++ ["./..."]; test_flags a flags ++ [utls_module; "-run"; utls_tests (c_mode a)]] ++
  (if c_stdlib a then [["go"; "test"] ++ flags ++ ["-short"; "-timeout=180s"; "crypto/tls"]] else []).

Definition test_env (command : list string) : env :=
  if bool_decide (utls_module ∈ command) then dict_set "GODEBUG" "cryptocustomrand=1" ENV else ENV.
Definition check_row (command : list string) (seconds : num) (code : Z) (output : string) : json :=
  JObj [("command", JArr (map JStr command)); ("GODEBUG", JStr (default "" (dict_get "GODEBUG" (test_env command))));
        ("seconds", json_of seconds); ("returncode", JNum code); ("output", JStr output)].
(** One turn of the loop; [break] after the first failure. *)
Fixpoint check_loop (commands : list (list string)) : py disk (list json) :=
  match commands with
  | [] => mret []
  | command :: commands =>
      start ← monotonic;
      '(code, output) ← runs (in_root command (test_env command));
      stop ← monotonic;
      seconds ← lift (d ← num_sub stop start; num_round 3 d);
      rows ← (if code =? 0 then check_loop commands else mret []);
      mret (check_row command seconds code output :: rows)
  end.
Definition check_name (a : check_args) : string :=
  mode_name (c_mode a) +:+ (if c_race a then "-race" else "") +:+ (if c_stdlib a then "-stdlib" else "") +:+ ".json".
Definition check_main (a : check_args) : py disk () :=
  flags ← generate (c_mode a);
  rows ← check_loop (check_commands a flags);
  mkdir_one (build_root ++ ["validation"]);;
  write_file (build_root ++ ["validation"; check_name a]) (report rows);;
  exit_status rows.

(** ** cross_check.py *)
Definition targets : list (string * string) :=
  [("linux", "amd64"); ("linux", "arm64"); ("linux", "arm"); ("linux", "mips"); ("linux", "mipsle");
   ("freebsd", "amd64"); ("windows", "amd64"); ("windows", "arm64"); ("android", "arm64")].
Definition target_name (t : string * string) : string := t.1 +:+ "/" +:+ t.2.
(** [argparse] admits one of the [choices] only. *)
Definition selected_targets (selected : option string) : list (string * string) :=
  match selected with Some s => filter (λ t, target_name t = s) targets | None => targets end.

Definition cross_folder : path := build_root ++ ["cross"].
Definition cross_env (t : string * string) : env :=
  let e := dict_or ENV [("GOOS", t.1); ("GOARCH", t.2); ("CGO_ENABLED", "0")] in
  let e := if String.eqb t.2 "arm" then dict_set "GOARM" "7" e else e in
  if bool_decide (t.2 ∈ ["mips"; "mipsle"]) then dict_set "GOMIPS" "softfloat" e else e.
Definition cross_command (flags : list string) (t : string * string) : list string :=
  ["go"; "build"] ++ flags ++ ["-buildvcs=false"; "-trimpath"] ++
  if String.eqb t.1 "android" then ["./core"; "./inbound"]
  else ["-o"; posix (cross_folder ++ ["veil-" +:+ t.1 +:+ "-" +:+ t.2 +:+
                                       (if String.eqb t.1 "windows" then ".exe" else "")]); "./cmd/veil"].
Definition cross_row (flags : list string) (t : string * string) (code : Z) (output : string) : json :=
  JObj [("os", JStr t.1); ("arch", JStr t.2); ("scope", JStr (if String.eqb t.1 "android" then "packages" else "cli"));
        ("command", JArr (map JStr (cross_command flags t))); ("returncode", JNum code); ("output", JStr output)].
Definition cross_file (selected : option string) : string :=
  match selected with Some s => replace_all "/" "-" s | None => "results" end +:+ ".json".
(** The file is written again after every target. *)
Fixpoint cross_loop (selected : option string) (flags : list string) (l : list (string * string)) (rows : list json) :
    py disk (list json) :=
  match l with
  | [] => mret rows
  | t :: l =>
      '(code, output) ← runs (in_root (cross_command flags t) (cross_env t));
      let rows := rows ++ [cross_row flags t code output] in
      write_file (cross_folder ++ [cross_file selected]) (report rows);;
      cross_loop selected flags l rows
  end.
Definition cross_main (selected : option string) : py disk () :=
  flags ← generate native;
  mkdir_one cross_folder;;
  rows ← cross_loop selected flags (selected_targets selected) [];
  exit_status rows.

(** ** cross_check.py of the service; [root] is its directory, [generate] its [prepare]. *)
Record service_target := { t_goos : string; t_goarch : string; t_extra : env; t_packages : list string }.
Definition with_rpc : list string := ["./cmd/veild"; "./cmd/veilctl"; "./cmd/veil-rpc"].
Definition without_rpc : list string := ["./cmd/veild"; "./cmd/veilctl"].
Definition target_of (x : string * string * env * list string) : service_target :=
  let '(goos, goarch, extra, packages) := x in
  {| t_goos := goos; t_goarch := goarch; t_extra := extra; t_packages := packages |}.
Definition service_targets : list service_target := map target_of
  [("linux", "amd64", [], with_rpc); ("linux", "arm64", [], with_rpc); ("linux", "arm", [("GOARM", "7")], with_rpc);
   ("linux", "mips", [("GOMIPS", "softfloat")], with_rpc); ("linux", "mipsle", [("GOMIPS", "softfloat")], with_rpc);
   ("freebsd", "amd64", [], without_rpc); ("windows", "amd64", [], without_rpc); ("windows", "arm64", [], without_rpc);
   ("android", "arm64", [], ["veil/service"; "./control"])].
(** An empty selection selects all, as none does. *)
Definition chosen_targets (selected : option string) : list service_target :=
  match selected with
  | Some (String c s) => filter (λ t, target_name (t_goos t, t_goarch t) = String c s) service_targets
  | _ => service_targets
  end.
Definition service_env (t : service_target) : env :=
  dict_or (dict_or ENV [("GOOS", t_goos t); ("GOARCH", t_goarch t); ("CGO_ENABLED", "0")]) (t_extra t).
Definition service_command (flags : list string) (t : service_target) : command :=
  in_root (["go"; "build"] ++ flags ++ t_packages t) (service_env t).
Definition service_row (t : service_target) (code : Z) (output : string) : json :=
  JObj [("goos", JStr (t_goos t)); ("goarch", JStr (t_goarch t));
        ("options", JObj (map (λ kv, (kv.1, JStr kv.2)) (t_extra t))); ("packages", JArr (map JStr (t_packages t)));
        ("returncode", JNum code); ("output", JStr output)].
Definition service_file (selected : option string) : string :=
  match selected with Some (String c s) => replace_all "/" "-" (String c s) | _ => "results" end +:+ ".json".
Definition service_build (flags : list string) (t : service_target) : py disk json :=
  '(code, output) ← runs (service_command flags t); mret (service_row t code output).
Definition service_cross (selected : option string) : py disk () :=
  flags ← generate batch;
  mkdir_one cross_folder;;
  rows ← mapM_py (service_build flags) (chosen_targets selected);
  write_file (cross_folder ++ [service_file selected]) (report rows);;
  exit_status rows.
End drivers.

(** ** The reports *)

(** A file that was written whole is read back, wherever its path leads. *)
Lemma walk_insert t q data mode acc cs : is_link (t !! q) = false →
  ∀ fuel, walk (<[q := File data mode]> t) fuel acc cs = walk t fuel acc cs.
Proof.
  intros Hq fuel. revert acc cs. induction fuel as [|fuel IH]; intros acc cs; revert acc;
    induction cs as [|c cs IHc]; intros acc; try done; cbn [walk]; rewrite lookup_insert;
    (case_decide as He; [subst q; destruct (t !! (acc ++ [c])) as [[]|]; try done; apply IHc|]);
    destruct (t !! (acc ++ [c])) as [[]|]; done || (apply IHc || apply IH).
Qed.

Lemma write_reads p data : triple (λ _, True) (write_file p data)
  (λ _ d, file_at (tree d) p = Some data) (λ e _, os_error e).
Proof.
  intros [t fs] _. unfold write_file, mbind, py_bind, get_tree, gets. cbn [tree].
  destruct (resolve t p) as [q|] eqn:Hr; [|done].
  destruct (node_at t (parent q)) as [[|k|]|]; try (by destruct (node_at t q) as [[]|]); [].
  assert (∀ mode, is_link (t !! q) = false → q ≠ [] →
    match write_at q data mode {| tree := t; faults := fs |} with
    | (Ok _, d) => file_at (tree d) p = Some data | (Err e, _) => os_error e end) as Hw.
  { intros mode Hl Hne. unfold write_at. destruct fs as [|[n|] fs]; cbn; try done;
      unfold file_at, stat, resolve in *; rewrite walk_insert by done; rewrite Hr; cbn;
      by rewrite node_at_ne, lookup_insert_eq by done. }
  destruct q as [|c q]; [done|]. cbn [node_at] in *.
  destruct (t !! (c :: q)) as [[]|]; try done; by apply Hw.
Qed.

(** The exceptions that are not [SystemExit]. *)
Definition not_exit (e : exn) : Prop := match e with SystemExit _ => False | _ => True end.
Lemma os_not_exit e : os_error e → not_exit e.
Proof. by destruct e. Qed.
Lemma seconds_not_exit a b e : (d ← num_sub a b; num_round 3 d) = Err e → not_exit e.
Proof.
  destruct a, b; cbn; unfold floats, to_float, checked; repeat case_match; cbn; intros; simplify_eq; try done;
    repeat case_match; simplify_eq; done.
Qed.
Lemma mkdir_one_not_exit p : raises not_exit (mkdir_one p).
Proof.
  eapply within_weaken; [|exact os_not_exit]. rewrite no_invariant. unfold mkdir_one. solve_fs.
Qed.

(** [prepare] of the service is such a generator when the one of the core is. *)
Lemma prepare_not_exit root core core_generate m :
  (∀ m, raises not_exit (core_generate m)) → raises not_exit (prepare root core core_generate m).
Proof.
  intros Hg. unfold prepare. apply within_bind; [apply Hg|intros flags]. cbv zeta.
  eapply within_weaken; [|exact os_not_exit]. rewrite no_invariant. solve_fs; rewrite <- no_invariant.
  - apply make_dirs_os.
  - rewrite no_invariant. unfold copyfile. solve_fs.
Qed.

(** What a list of commands leads to: a row per command that was run, up to the first failure. *)
Inductive reports (environment : env) : list (list string) → list json → Prop :=
| reports_end : reports environment [] []
| reports_failure c cs seconds code output : code ≠ 0 →
    reports environment (c :: cs) [check_row environment c seconds code output]
| reports_success c cs rows seconds output : reports environment cs rows →
    reports environment (c :: cs) (check_row environment c seconds 0 output :: rows).

Section reports.
Context (root : path) (ENV : env) (generate : mode → py disk (list string)).
Context (runs : command → py disk (Z * string)) (monotonic : py disk num).
Context (generate_returns : ∀ m, raises not_exit (generate m)) (runs_return : ∀ c, raises not_exit (runs c))
  (monotonic_returns : raises not_exit monotonic).
#[local] Abbreviation rows_of Q m := (triple (λ _ : disk, True) m Q (λ e _, not_exit e)).

Lemma returns_triple {A} P (m : py disk A) : raises not_exit m → triple P m (λ _ _, True) (λ e _, not_exit e).
Proof. intros Hm. eapply triple_consequence; [exact Hm|done|done|]. by intros e s []. Qed.
Lemma write_triple p data : rows_of (λ _ d, file_at (tree d) p = Some data) (write_file p data).
Proof. eapply triple_consequence; [apply write_reads|done..|]. intros e s. apply os_not_exit. Qed.

Lemma seconds_triple a b : rows_of (λ _ _, True) (lift (d ← num_sub a b; num_round 3 d)).
Proof.
  intros s _. unfold lift. destruct (d ← num_sub a b; num_round 3 d) as [?|e] eqn:He; [done|]. by eapply seconds_not_exit.
Qed.

Lemma check_loop_reports commands :
  rows_of (λ rows _, reports ENV commands rows) (check_loop root ENV runs monotonic commands).
Proof.
  induction commands as [|c cs IH]; cbn [check_loop]; [apply triple_ret; constructor|].
  eapply triple_bind; [by apply returns_triple|intros start]. eapply triple_bind; [by apply returns_triple|intros [code output]].
  eapply triple_bind; [by apply returns_triple|intros stop].
  eapply triple_bind; [apply seconds_triple|].
  intros seconds. destruct (Z.eqb_spec code 0) as [->|Hc].
  - eapply triple_bind; [apply IH|]. intros rows. apply triple_ret. intros s Hr. by apply reports_success.
  - eapply triple_bind; [by apply (triple_ret _ _ (λ rows _, rows = []))|]. intros rows. apply triple_ret. intros s ->. by apply reports_failure.
Qed.

(** The rows of a cross build: one per target. *)
Definition cross_rows (flags : list string) : list (string * string) → list json → Prop :=
  Forall2 (λ t row, ∃ code output, row = cross_row root flags t code output).

Lemma cross_loop_reports selected flags l before rows :
  cross_rows flags before rows → before ++ l ≠ [] →
  triple (λ d, before ≠ [] → file_at (tree d) (cross_folder root ++ [cross_file selected]) = Some (report rows))
    (cross_loop root ENV runs selected flags l rows)
    (λ rows d, cross_rows flags (before ++ l) rows ∧
               file_at (tree d) (cross_folder root ++ [cross_file selected]) = Some (report rows))
    (λ e _, not_exit e).
Proof.
  revert before rows. induction l as [|t l IH]; intros before rows Hr Hne; cbn [cross_loop].
  - rewrite app_nil_r in *. apply triple_ret. intros d Hd. split; [done|by apply Hd].
  - eapply triple_bind; [by apply returns_triple, runs_return|]. intros [code output].
    eapply triple_bind; [apply write_triple|]. intros [].
    eapply triple_consequence; [apply (IH (before ++ [t]) (rows ++ [cross_row root flags t code output]))| |by rewrite <-app_assoc|done].
    + apply Forall2_app; [done|]. constructor; [|done]. by exists code, output.
    + by destruct before.
    + intros d Hd _. exact Hd.
Qed.

(** What the exit status says of the rows. *)
Definition status (rows : list json) : Z := if existsb row_failed rows then 1 else 0.
Lemma status_zero rows : status rows = 0 ↔ Forall (λ row, row_failed row = false) rows.
Proof.
  unfold status. induction rows as [|row rows IH]; cbn; [by split|]. rewrite Forall_cons, <- IH.
  destruct (row_failed row); cbn; split; [done|by intros []|done|by intros [_ ?]].
Qed.
Lemma exit_triple (Q : list json → disk → Prop) rows :
  triple (Q rows) (exit_status rows) (λ (_ : ()) _, False)
    (λ e d, match e with SystemExit c => c = status rows ∧ Q rows d | _ => True end).
Proof. intros d Hd. by split. Qed.

(** [m] ends with the exit status of rows in [Q], or with another exception. *)
Definition exits {A} (P : disk → Prop) (m : py disk A) (Q : list json → disk → Prop) : Prop :=
  triple P m (λ _ _, False) (λ e d, match e with SystemExit c => ∃ rows, c = status rows ∧ Q rows d | _ => True end).

Lemma exits_bind {A B} P (m : py disk A) (k : A → py disk B) R Q :
  triple P m R (λ e _, not_exit e) → (∀ a, exits (R a) (k a) Q) → exits P (m ≫= k) Q.
Proof.
  intros Hm Hk. eapply triple_bind; [|exact Hk].
  eapply triple_consequence; [exact Hm|done|done|]. by intros [] d.
Qed.
Lemma exits_status {A} P rows : exits P (exit_status (A := A) rows) (λ rows' d, rows' = rows ∧ P d).
Proof. intros d Hd. by exists rows. Qed.

Lemma exits_imp {A} P Q (Q' : list json → disk → Prop) (m : py disk A) :
  exits P m Q → (∀ rows d, Q rows d → Q' rows d) → exits P m Q'.
Proof.
  intros Hm HQ. eapply triple_consequence; [exact Hm|done|done|]. intros [] d; try done.
  intros (rows & Hc & Hr). exists rows. split; [done|by apply HQ].
Qed.
Lemma exits_known {A B} P (m : py disk A) (k : A → py disk B) (φ : A → Prop) Q :
  triple P m (λ a _, φ a) (λ e _, not_exit e) → (∀ a, φ a → exits (λ _, True) (k a) Q) → exits P (m ≫= k) Q.
Proof. intros Hm Hk. eapply exits_bind; [exact Hm|]. intros a d Ha. by apply Hk. Qed.
Lemma exits_run {A} P Q (m : py disk A) d : exits P m Q → P d →
  match m d with
  | (Err (SystemExit c), d') => ∃ rows, c = status rows ∧ Q rows d'
  | (r, _) => is_ok r = false
  end.
Proof. intros Hm HP. specialize (Hm d HP). destruct (m d) as [[a|e] d']; [done|]. by destruct e. Qed.

(** The flags are what the generator returned. *)
Lemma flags_triple m d : triple (eq d) (generate m) (λ flags _, (generate m d).1 = Ok flags) (λ e _, not_exit e).
Proof.
  intros d' <-. pose proof (generate_returns m d I) as Hg. destruct (generate m d) as [[flags|e] d1]; [done|]. apply Hg.
Qed.

Lemma check_main_exits a d : exits (eq d) (check_main root ENV generate runs monotonic a)
  (λ rows d', ∃ flags, (generate (c_mode a) d).1 = Ok flags ∧ reports ENV (check_commands a flags) rows ∧
    file_at (tree d') (build_root root ++ ["validation"; check_name a]) = Some (report rows)).
Proof.
  eapply exits_known; [apply flags_triple|]. intros flags Hflags.
  eapply exits_known; [apply check_loop_reports|]. intros rows Hrows.
  eapply exits_bind; [apply returns_triple, mkdir_one_not_exit|intros []].
  eapply exits_bind; [apply write_triple|intros []].
  eapply exits_imp; [apply exits_status|]. intros rows' d' [-> Hd']. by exists flags.
Qed.

Lemma cross_main_exits selected d : selected_targets selected ≠ [] →
  exits (eq d) (cross_main root ENV generate runs selected)
  (λ rows d', ∃ flags, (generate native d).1 = Ok flags ∧ cross_rows flags (selected_targets selected) rows ∧
    file_at (tree d') (cross_folder root ++ [cross_file selected]) = Some (report rows)).
Proof.
  intros Hs. eapply exits_known; [apply flags_triple|]. intros flags Hflags.
  eapply exits_bind; [apply returns_triple, mkdir_one_not_exit|intros []].
  pose proof (cross_loop_reports selected flags (selected_targets selected) [] [] (List.Forall2_nil _) Hs) as Hl.
  eapply exits_bind; [intros d' _; exact (Hl d' (λ H, False_ind _ (H eq_refl)))|].
  intros rows. eapply exits_imp; [apply exits_status|]. intros rows' d' [-> [Hr Hd']]. by exists flags.
Qed.

(** The rows of the service: one per target. *)
Definition service_rows : list service_target → list json → Prop :=
  Forall2 (λ t row, ∃ code output, row = service_row t code output).
Lemma service_builds flags l : rows_of (λ rows _, service_rows l rows) (mapM_py (service_build root ENV runs flags) l).
Proof.
  induction l as [|t l IH]; cbn [mapM_py]; [apply triple_ret; constructor|].
  eapply (triple_bind _ _ _ (λ row _, ∃ code output, row = service_row t code output)).
  - eapply triple_bind; [by apply returns_triple, runs_return|]. intros [code output]. apply triple_ret. by eauto.
  - intros row d Hrow. pose proof (IH d I) as Hl. unfold mbind, py_bind.
    destruct (mapM_py _ l d) as [[rows|e] d']; [by constructor|done].
Qed.
Lemma service_cross_exits selected d : exits (eq d) (service_cross root ENV generate runs selected)
  (λ rows d', service_rows (chosen_targets selected) rows ∧
    file_at (tree d') (cross_folder root ++ [service_file selected]) = Some (report rows)).
Proof.
  eapply exits_bind; [apply returns_triple, generate_returns|intros flags].
  eapply exits_bind; [apply returns_triple, mkdir_one_not_exit|intros []].
  eapply exits_known; [apply service_builds|]. intros rows Hrows.
  eapply exits_bind; [apply write_triple|intros []].
  eapply exits_imp; [apply exits_status|]. by intros rows' d' [-> Hd'].
Qed.

Lemma reports_length commands rows : reports ENV commands rows → status rows = 0 → length rows = length commands.
Proof.
  intros Hr. rewrite status_zero. induction Hr as [|c cs s code o Hc|c cs rows s o Hr IH]; [by intros _| |].
  - intros [H _]%Forall_cons. exfalso. by apply Hc, Z.eqb_eq, negb_false_iff.
  - intros [_ H]%Forall_cons. cbn. by rewrite IH.
Qed.
End reports.


(** ** A run of the checks: the second command fails. *)
Definition sample_go (c : command) : py disk (Z * string) :=
  mret (if bool_decide (utls_module ∈ argv c) then (1, "FAIL") else (0, "ok")).
Definition sample_build : disk := no_faults (list_to_map [(["r"], Dir 493); (["r"; ".build"], Dir 493)]).
Definition sample_check : check_args := {| c_mode := native; c_race := true; c_stdlib := true |}.
Definition sample_clock : py disk num := mret (Int 0).

Example checks_stop : ∃ d, check_main ["r"] [] (λ _, mret ["-tags=x"]) sample_go sample_clock sample_check sample_build =
  (Err (SystemExit 1), d) ∧
  file_at (tree d) ["r"; ".build"; "validation"; "native-race-stdlib.json"] = Some (report
    (map (λ '(c, code, out), check_row [] c (Int 0) code out)
       (combine (combine (take 2 (check_commands sample_check ["-tags=x"])) [0; 1]) ["ok"; "FAIL"]))).
Proof. eexists. by split; [reflexivity|vm_compute]. Qed.

