(* ===== verification/Routers.v ===== *)
(** * The router packages

    [veil-service/scripts/openwrt_package.py] and [opnsense_bundle.py]: the packages of the
    daemon and of LuCI as [ipk] or [apk], and the bundle that OPNsense builds natively. *)

From S2P Require Import Prelude.
From S2P Require Import PyText.
From S2P Require Import PyBytes.
From S2P Require Import FileSystem.
From S2P Require Import Confined.
From S2P Require Import Tools.
From S2P Require Import SampleTools.
From S2P Require Import Publish.
From Stdlib Require Import Ascii.
#[local] Open Scope Z_scope.

(** ** OpenWrt *)
Definition target (architecture : string) : result env :=
  if String.eqb architecture "x86_64" then Ok [("GOARCH", "amd64")]
  else if startswith architecture "aarch64_" then Ok [("GOARCH", "arm64")]
  else if startswith architecture "arm_" then Ok [("GOARCH", "arm"); ("GOARM", "5")]
  else if startswith architecture "mipsel_" then Ok [("GOARCH", "mipsle"); ("GOMIPS", "softfloat")]
  else if startswith architecture "mips_" then Ok [("GOARCH", "mips"); ("GOMIPS", "softfloat")]
  else Err (ValueError "unsupported package architecture").

Definition exec_mode (executable : bool) : Z := if executable then 493 else 420.

Definition copy (source root : path) (relative : string) (executable : bool) : py disk () :=
  let out := sub root relative in
  mkdir_p (parent out);;
  copyfile source out;;
  chmod out (exec_mode executable).

Definition write (root : path) (relative text : string) (executable : bool) : py disk () :=
  let out := sub root relative in
  mkdir_p (parent out);;
  write_file out text;;
  chmod out (exec_mode executable).

Inductive format := ipk | apk.
#[export] Instance format_eq_dec : EqDecision format.
Proof. solve_decision. Defined.

Record openwrt_args := {
  o_sdk : option path; o_format : format; o_apk_tool : option path; o_po2lmo : path;
  o_architecture : string; o_version : string; o_output_dir : option path }.

(** The versions and architectures the regular expressions admit. *)
Definition openwrt_version (s : string) : bool :=
  fullmatch_head is_digit (λ c, is_alnum c || char_in ".+-" c) 63 s.
Definition openwrt_architecture (s : string) : bool :=
  negb (String.eqb s "") && all_chars (λ c, is_lower c || is_digit c || char_in "_" c) s.

Definition prerm : string := ("#!/bin/sh
[ -n " +:+ dquote +:+ "$IPKG_INSTROOT" +:+ dquote +:+ " ] && exit 0
/etc/init.d/veil stop
if [ " +:+ dquote +:+ "$1" +:+ dquote +:+ " = remove ]; then /etc/init.d/veil disable; fi
").
Definition postinst : string := ("#!/bin/sh
[ -n " +:+ dquote +:+ "$IPKG_INSTROOT" +:+ dquote +:+ " ] && exit 0
uci set luci.languages.zh_cn=" +:+ dquote +:+ "简体中文" +:+ dquote +:+ "
uci commit luci
/etc/init.d/rpcd reload
rm -f /tmp/luci-indexcache*
").
Definition pre_upgrade : string := "#!/bin/sh
/etc/init.d/veil stop
".
Definition pre_deinstall : string := "#!/bin/sh
/etc/init.d/veil stop
/etc/init.d/veil disable
".

(** The two packages of a build: name, architecture, dependencies, description. *)
Record package_info := { p_name : string; p_arch : string; p_depends : string; p_description : string }.
Definition engine_info (architecture : string) : package_info :=
  {| p_name := "veil"; p_arch := architecture; p_depends := "ca-bundle, rpcd";
     p_description := "Veil SOCKS5 and HTTP proxy with local control" |}.
Definition app_info : package_info :=
  {| p_name := "luci-app-veil"; p_arch := "all"; p_depends := "veil, luci-base";
     p_description := "Veil configuration and status for LuCI (English and Chinese)" |}.

Definition control_text (i : package_info) (version : string) : string :=
  "Package: " +:+ p_name i +:+ nl +:+ "Version: " +:+ version +:+ nl +:+ "Architecture: " +:+ p_arch i +:+ nl +:+
  "Maintainer: Project Veil" +:+ nl +:+ "Section: net" +:+ nl +:+ "License: GPL-3.0-or-later" +:+ nl +:+
  "Installed-Size: 0" +:+ nl +:+ "Depends: " +:+ p_depends i +:+ nl +:+
  "Description: " +:+ p_description i +:+ nl.

Definition artifact_name (f : format) (i : package_info) (version : string) : string :=
  match f with
  | ipk => p_name i +:+ "_" +:+ version +:+ "_" +:+ p_arch i +:+ ".ipk"
  | apk => p_name i +:+ "-" +:+ version +:+ ".apk"
  end.

(** The arguments of [apk mkpkg]. *)
Definition mkpkg_command (tool : string) (root artifact : path) (i : package_info) (version : string)
    (scripts : list (string * path)) : list string :=
  [tool; "mkpkg"; "--files"; posix root; "--output"; posix artifact] ++
  mjoin (map (λ '(key, value), ["--info"; key +:+ ":" +:+ value])
    [("name", p_name i); ("version", version);
     ("arch", if String.eqb (p_arch i) "all" then "noarch" else p_arch i);
     ("depends", replace_all "," "" (p_depends i)); ("description", p_description i);
     ("license", "GPL-3.0-or-later"); ("url", "https://github.com/RC-CHN/Project-Veil")]) ++
  mjoin (map (λ '(kind, p), ["--script"; kind +:+ ":" +:+ posix p]) scripts).

(** [repo] is the parent of the service's directory [root]; [euid] is [os.geteuid()]. *)
Section openwrt.
Context `{Tools} (root : path) (python : string) (euid : Z).
Abbreviation platform := (root ++ ["platform"; "openwrt"]).

Definition openwrt_build_command (e : env) (version : string) (binaries : path) : command :=
  {| argv := [python; posix (sub root "scripts/build.py"); "batch"; "--version"; version; "--output-dir";
              posix binaries; "--program"; "veild"; "--program"; "veilctl"; "--program"; "veil-rpc"];
     cwd := None; env_of := Some e |}.

(** The files of the daemon. *)
Definition engine_files (binaries engine : path) : py disk () :=
  copy (binaries ++ ["veild"]) engine "usr/sbin/veild" true;;
  copy (binaries ++ ["veilctl"]) engine "usr/bin/veilctl" true;;
  copy (binaries ++ ["veil-rpc"]) engine "usr/libexec/rpcd/veil" true;;
  copy (platform ++ ["veil"]) engine "etc/init.d/veil" true;;
  copy (parent root ++ ["LICENSE"]) engine "usr/share/veil/LICENSE" false;;
  copy (parent root ++ ["THIRD_PARTY.md"]) engine "usr/share/veil/THIRD_PARTY.md" false;;
  write engine "lib/upgrade/keep.d/veil" ("/etc/veil/" +:+ nl) false;;
  write engine "CONTROL/prerm" prerm true.

(** The files of the LuCI application. *)
Definition app_files (version : string) (compiler app : path) : py disk () :=
  for_each (λ '(source_dir, prefix),
    let base := platform ++ ["luci-app-veil"; source_dir] in
    t ← get_tree;
    for_each (λ source,
      t ← get_tree;
      when (is_file t source)
        (copy source app (join "/" (prefix ++ drop (length base) source)) false))
      (filter (λ q, q ≠ base) (subtree t base)))
    [("root", []); ("htdocs", ["www"])];;
  for_each (λ name, copy (root ++ ["webui"; name]) app ("www/luci-static/resources/veil/" +:+ name) false)
    ["connections.js"; "connections.css"; "i18n.js"];;
  let adapter := sub app "www/luci-static/resources/view/veil.js" in
  text ← read_file adapter;
  write_file adapter (replace_all "__VEIL_UI_VERSION__" version text);;
  let translation := sub app "usr/lib/lua/luci/i18n/veil.zh-cn.lmo" in
  mkdir_p (parent translation);;
  run {| argv := [posix compiler; posix (sub platform "luci-app-veil/po/zh_Hans/veil.po"); posix translation];
         cwd := None; env_of := None |};;
  write app "CONTROL/postinst" postinst true.

(** [os.chown(p, 0, 0)]: the tree records no owners. *)
Definition chown_root (p : path) : py disk () :=
  t ← get_tree;
  tick;;
  match stat t p with Some _ => mret () | None => raise (FileNotFoundError (posix p)) end.

(** The [apk] of one package: its scripts move out of the tree, which becomes root's. *)
Definition make_apk (e : env) (tool folder pkg artifact : path) (i : package_info) (version : string) : py disk () :=
  let hooks := folder ++ [p_name i +:+ "-hooks"] in
  rename_dir (pkg ++ ["CONTROL"]) hooks;;
  scripts ← (if String.eqb (p_name i) "veil" then
      write hooks "pre-upgrade" pre_upgrade true;;
      write hooks "pre-deinstall" pre_deinstall true;;
      mret (map (λ k, (k, hooks ++ [k])) ["pre-upgrade"; "pre-deinstall"])
    else mret (map (λ k, (k, hooks ++ ["postinst"])) ["post-install"; "post-upgrade"]));
  t ← get_tree;
  for_each (λ entry,
    chown_root entry;;
    t ← get_tree;
    when (is_dir t entry) (chmod entry 493))
    (pkg :: filter (λ q, q ≠ pkg) (subtree t pkg));;
  t ← get_tree;
  tool ← lift (from_option_or (OSError "too many links") (resolve t tool));
  run {| argv := mkpkg_command (posix tool) pkg artifact i version scripts; cwd := None; env_of := Some e |}.

Definition make_package (e : env) (ipkg tool : option path) (f : format) (folder output pkg : path)
    (i : package_info) (version : string) : py disk () :=
  write pkg "CONTROL/control" (control_text i version) false;;
  let artifact := output ++ [artifact_name f i version] in
  match f with
  | ipk => run {| argv := ["sh"; posix (default [] ipkg); posix pkg; posix output]; cwd := None; env_of := Some e |}
  | apk => make_apk e (default [] tool) folder pkg artifact i version
  end;;
  data ← read_file artifact;
  write_file (with_name artifact (name_of artifact +:+ ".sha256")) (checksum_line sha256 (name_of artifact) data).

(** The work in the temporary directory. *)
Definition openwrt_build (platform_env package_env : env) (ipkg tool : option path) (compiler : path) (f : format)
    (architecture version : string) (output folder : path) : py disk () :=
  let binaries := folder ++ ["bin"] in
  let engine := folder ++ ["veil"] in
  let app := folder ++ ["luci-app-veil"] in
  run (openwrt_build_command (dict_or (dict_or environ [("GOOS", "linux"); ("CGO_ENABLED", "0")]) platform_env)
         version binaries);;
  engine_files binaries engine;;
  app_files version compiler app;;
  for_each (λ '(pkg, i), make_package package_env ipkg tool f folder output pkg i version)
    [(engine, engine_info architecture); (app, app_info)].

Definition is_file_opt (t : gmap path node) (p : option path) : bool :=
  match p with Some p => is_file t p | None => false end.
Definition resolve_opt (p : option path) : py disk (option path) :=
  match p with
  | None => mret None
  | Some p => t ← get_tree; q ← lift (from_option_or (OSError "too many links") (resolve t p)); mret (Some q)
  end.

(** The checks of [main] before anything is written; [SystemExit 2] is [parser.error]. *)
Definition openwrt_checks (a : openwrt_args) : py disk (env * option path * path) :=
  lift (raise_if (negb (openwrt_version (o_version a))) (SystemExit 2));;
  lift (raise_if (negb (openwrt_architecture (o_architecture a))) (SystemExit 2));;
  platform_env ← lift (match target (o_architecture a) with
                       | Err (ValueError _) => Err (SystemExit 2) | r => r end);
  sdk ← resolve_opt (o_sdk a);
  let ipkg := (λ p, sub p "scripts/ipkg-build") <$> sdk in
  t ← get_tree;
  compiler ← lift (from_option_or (OSError "too many links") (resolve t (o_po2lmo a)));
  lift (raise_if (negb (is_file t compiler)) (SystemExit 2));;
  lift (raise_if (bool_decide (o_format a = ipk) && negb (is_file_opt t ipkg)) (SystemExit 2));;
  lift (raise_if (bool_decide (o_format a = apk) && negb (is_file_opt t (o_apk_tool a))) (SystemExit 2));;
  lift (raise_if (bool_decide (o_format a = apk) && negb (euid =? 0)) (SystemExit 2));;
  mret (platform_env, ipkg, compiler).

Definition package_environ : py disk env :=
  epoch ← (match dict_get "SOURCE_DATE_EPOCH" environ with
           | Some (String c s) => mret (String c s)
           | _ => text ← check_output {| argv := ["git"; "show"; "-s"; "--format=%ct"; "HEAD"];
                                         cwd := Some root; env_of := None |};
                  mret (strip text)
           end);
  mret (dict_or environ [("TAR", "tar --owner=0 --group=0"); ("SOURCE_DATE_EPOCH", epoch)]).

Definition openwrt_main (a : openwrt_args) : py disk () :=
  '(platform_env, ipkg, compiler) ← openwrt_checks a;
  t ← get_tree;
  output ← lift (from_option_or (OSError "too many links")
    (resolve t (default (root ++ [".build"; "openwrt"]) (o_output_dir a))));
  mkdir_p output;;
  package_env ← package_environ;
  with_temporary ".openwrt-" output (λ folder,
    openwrt_build platform_env package_env ipkg (o_apk_tool a) compiler (o_format a)
      (o_architecture a) (o_version a) output folder).
End openwrt.

(** ** OPNsense *)
Definition opnsense_version (s : string) : bool :=
  fullmatch_head is_digit (λ c, is_alnum c || char_in ".+" c) 63 s.

Definition bundle_name (version : string) : string := "veil-opnsense-build-" +:+ version +:+ ".tar.gz".

Definition build_script (version revision : string) : string :=
  ("#!/bin/sh
set -eu
cd " +:+ dquote +:+ "$(dirname " +:+ dquote +:+ "$0" +:+ dquote +:+ ")" +:+ dquote +:+ "
[ " +:+ dquote +:+ "$(uname -s)" +:+ dquote +:+ " = FreeBSD ] || { echo " +:+ dquote +:+ "Run inside OPNsense" +:+ dquote +:+ " >&2; exit 1; }
abi=$(/usr/local/sbin/opnsense-version -v | cut -d. -f1,2)
make -C net/veil PLUGIN_VERSION=") +:+ version +:+ " PLUGIN_HASH=" +:+ revision +:+ (" PLUGIN_ABI=" +:+ dquote +:+ "$abi" +:+ dquote +:+ " PLUGIN_ARCH=amd64 package
").

(** The header of a file of the bundle. *)
Definition bundle_info (folder p : path) (mode : Z) (o : owner) : tar_info :=
  {| t_name := relative folder p; t_type := RegType;
     t_mode := if Z.land mode 73 =? 0 then 420 else 493;
     t_owner := {| uid := 0; gid := 0; uname := "root"; gname := "wheel"; mtime := mtime o |} |}.

Section opnsense.
Context `{Tools} (root : path) (python : string) (now : Z).

Definition opnsense_build_command (version : string) (binaries : path) : command :=
  {| argv := [python; posix (sub root "scripts/build.py"); "batch"; "--version"; version; "--output-dir"; posix binaries];
     cwd := None; env_of := Some (dict_or environ [("GOOS", "freebsd"); ("GOARCH", "amd64"); ("CGO_ENABLED", "0")]) |}.

(** [path.mkdir(parents=True)] of a directory that must not exist. *)
Definition mkdir_new (p : path) : py disk () :=
  t ← get_tree;
  if path_exists t p then raise (FileExistsError (posix p)) else mkdir_p p.

(** The port with its shared files, binaries and permissions. *)
Definition fill_port (plugins : path) (version : string) (folder : path) : py disk () :=
  let port := folder ++ ["net"; "veil"] in
  for_each (λ name, t ← get_tree; copytree (S (size t)) (plugins ++ [name]) (folder ++ [name]))
    ["Mk"; "Scripts"; "Templates"];;
  t ← get_tree;
  copytree (S (size t)) (root ++ ["platform"; "opnsense"]) port;;
  let shared := sub port "src/opnsense/www/js/veil/shared" in
  mkdir_p shared;;
  for_each (λ name, copyfile (root ++ ["webui"; name]) (shared ++ [name]))
    ["connections.js"; "connections.css"; "i18n.js"];;
  let view := sub port "src/opnsense/mvc/app/views/OPNsense/Veil/index.volt" in
  text ← read_file view;
  write_file view (replace_all "__VEIL_UI_VERSION__" version text);;
  run (opnsense_build_command version (sub port "src/bin"));;
  let rc := sub port "src/etc/rc.d/veil" in
  mkdir_p (parent rc);;
  copyfile (root ++ ["platform"; "freebsd"; "veil"]) rc;;
  for_each (λ p, chmod p 493)
    [rc; sub port "src/opnsense/scripts/veil/control.php"; sub port "src/etc/rc.syshook.d/start/91-veil"];;
  let license_dir := sub port "src/share/veil" in
  mkdir_new license_dir;;
  for_each (λ name, copyfile (parent root ++ [name]) (license_dir ++ [name])) ["LICENSE"; "THIRD_PARTY.md"].

(** One file of the bundle; what is no file is skipped. *)
Definition bundle_file (folder p : path) : py disk (list (tar_info * string)) :=
  t ← get_tree;
  match stat t p with
  | Some (File _ mode) => data ← read_file p; mret [(bundle_info folder p mode (owner_of p), data)]
  | _ => mret []
  end.

Definition bundle (version : string) (plugins output folder : path) : py disk () :=
  fill_port plugins version folder;;
  revision ← check_output {| argv := ["git"; "rev-parse"; "HEAD"]; cwd := Some root; env_of := None |};
  write_file (folder ++ ["build.sh"]) (build_script version (strip revision));;
  chmod (folder ++ ["build.sh"]) 493;;
  let artifact := output ++ [bundle_name version] in
  write_file artifact "";;
  t ← get_tree;
  es ← mapM_py (bundle_file folder) (rglob t folder);
  write_file artifact (gzip_bytes now (tar_bytes (mjoin es)));;
  data ← read_file artifact;
  write_file (with_name artifact (name_of artifact +:+ ".sha256"))
    (checksum_line sha256 (name_of artifact) data).

Definition opnsense_main (plugins : path) (version : string) (output_dir : option path) : py disk () :=
  lift (raise_if (negb (opnsense_version version)) (SystemExit 2));;
  t ← get_tree;
  lift (raise_if (negb (is_file t (plugins ++ ["Mk"; "plugins.mk"]))) (SystemExit 2));;
  output ← lift (from_option_or (OSError "too many links")
    (resolve t (default (root ++ [".build"; "opnsense"]) output_dir)));
  mkdir_p output;;
  with_temporary ".opnsense-" output (bundle version plugins output).
End opnsense.

(** ** Only the output directory changes *)
Section confined.
Context `{ToolsLaws} (R : path → Prop) (root : path) (python : string) (output : path) (t0 : gmap path node).
Context `{!Confinable R output t0}.
Abbreviation private := (private R output t0).

(** The tools write into the output directory and their scratch space only. *)
Context (run_private : ∀ c, keeps (on_tree private) (run c)).

Lemma sub_below p s : below output p → below output (sub p s) ∧ below output (parent (sub p s)).
Proof.
  intros Hp. unfold sub, parent. rewrite removelast_app by apply split_ne_nil.
  split; (eapply below_trans; [exact Hp|apply below_app]).
Qed.

Lemma copy_private source p s x : below output p → keeps (on_tree private) (copy source p s x).
Proof.
  intros Hp. destruct (sub_below p s Hp). unfold copy.
  apply within_bind; [by apply mkdir_private|intros _].
  apply within_bind; [by apply copyfile_private|intros _]. by apply chmod_private.
Qed.

Lemma write_text_private p s text x : below output p → keeps (on_tree private) (write p s text x).
Proof.
  intros Hp. destruct (sub_below p s Hp). unfold write.
  apply within_bind; [by apply mkdir_private|intros _].
  apply within_bind; [by apply write_private|intros _]. by apply chmod_private.
Qed.

Lemma check_output_kept c : keeps (on_tree private) (check_output c).
Proof. apply check_output_reads. Qed.

#[local] Hint Resolve copy_private write_text_private run_private read_private write_private mkdir_private
  chmod_private copyfile_private copytree_private check_output_kept below_snoc below_app : within.

Lemma engine_private binaries p : below output p → keeps (on_tree private) (engine_files root binaries p).
Proof. intros Hp. unfold engine_files. solve_fs. Qed.

Lemma app_private version compiler p : below output p → keeps (on_tree private) (app_files root version compiler p).
Proof.
  intros Hp. unfold app_files.
  pose proof (proj1 (sub_below p "www/luci-static/resources/view/veil.js" Hp)).
  pose proof (proj2 (sub_below p "usr/lib/lua/luci/i18n/veil.zh-cn.lmo" Hp)).
  apply within_bind; [|intros _; solve_fs]. apply within_for_each. intros [d prefix] _.
  apply within_get_tree. intros t _. solve_fs.
Qed.

Lemma apk_private e tool folder p artifact i version : below output folder → below output p →
  keeps (on_tree private) (make_apk e tool folder p artifact i version).
Proof.
  intros Hf Hp. unfold make_apk.
  assert (below output (folder ++ [p_name i +:+ "-hooks"])) as Hh by (by apply below_snoc).
  apply within_bind; [by apply rename_private|intros _].
  apply within_bind; [solve_fs|intros scripts]. apply within_get_tree. intros t _.
  apply within_bind; [|intros _; solve_fs]. apply within_for_each. intros q Hq.
  assert (below output q) as Hb.
  { apply elem_of_cons in Hq as [-> | Hq]; [done|].
    apply list_elem_of_filter in Hq as [_ [Hq _]%elem_subtree]. exact (below_trans _ _ Hp Hq). }
  unfold chown_root. apply within_bind; [solve_fs|intros _]. solve_fs.
Qed.

Lemma package_private e ipkg tool f folder p i version : below output folder → below output p →
  keeps (on_tree private) (make_package e ipkg tool f folder output p i version).
Proof.
  intros Hf Hp. unfold make_package, with_name. rewrite parent_snoc.
  apply within_bind; [by apply write_text_private|intros _].
  apply within_bind; [destruct f; [apply run_private|by apply apk_private]|intros _].
  apply within_bind; [apply read_private|intros data]. apply write_private, below_app.
Qed.

Lemma openwrt_build_private pe ke ipkg tool compiler f architecture version folder : below output folder →
  keeps (on_tree private) (openwrt_build root python pe ke ipkg tool compiler f architecture version output folder).
Proof.
  intros Hf. unfold openwrt_build.
  apply within_bind; [apply run_private|intros _].
  apply within_bind; [by apply engine_private, below_snoc|intros _].
  apply within_bind; [by apply app_private, below_snoc|intros _].
  apply within_for_each. intros [p i] Hin. apply package_private; [done|].
  assert (p = folder ++ ["veil"] ∨ p = folder ++ ["luci-app-veil"]) as [-> | ->]; [|by apply below_snoc..].
  apply elem_of_cons in Hin as [[= -> _]|[[= -> _]|[]%not_elem_of_nil]%elem_of_cons]; auto.
Qed.

Lemma openwrt_private euid a : o_output_dir a = Some output →
  keeps (on_tree private) (openwrt_main root python euid a).
Proof.
  intros Ho. unfold openwrt_main. apply within_bind.
  { unfold openwrt_checks, resolve_opt. destruct (o_sdk a); solve_fs. }
  intros [[pe ipkg] compiler]. apply within_get_tree. intros t Ht. rewrite Ho. cbn [default].
  rewrite resolve_link_free by (apply private_link_free; [done|apply below_refl]).
  apply within_lift_ok. apply within_bind; [apply mkdir_private, below_refl|intros _].
  apply within_bind; [unfold package_environ; solve_fs|intros ke].
  apply with_temporary_private. intros folder Hf. by apply openwrt_build_private.
Qed.

Lemma fill_port_private plugins version folder : below output folder →
  keeps (on_tree private) (fill_port root python plugins version folder).
Proof.
  intros Hf. unfold fill_port. assert (below output (folder ++ ["net"; "veil"])) as Hp
    by (exact (below_trans _ _ Hf (below_app _ _))).
  pose proof (λ s, proj1 (sub_below _ s Hp)) as Hsub. pose proof (λ s, proj2 (sub_below _ s Hp)) as Hpar.
  assert (∀ s n, below output (sub (folder ++ ["net"; "veil"]) s ++ [n])) as Hsnoc by (intros; by apply below_snoc).
  unfold mkdir_new. solve_fs.
  - by apply copytree_private, below_snoc.
  - apply chmod_private. rename select (_ ∈ _) into Hin.
    by repeat (apply elem_of_cons in Hin as [->|Hin]; [apply Hsub|]); apply elem_of_nil in Hin.
Qed.

Lemma opnsense_private now plugins version :
  keeps (on_tree private) (opnsense_main root python now plugins version (Some output)).
Proof.
  unfold opnsense_main. apply within_bind; [by apply within_lift; intros|intros _].
  apply within_get_tree. intros t Ht. apply within_bind; [by apply within_lift; intros|intros _].
  cbn [default]. rewrite resolve_link_free by (apply private_link_free; [done|apply below_refl]).
  apply within_lift_ok. apply within_bind; [apply mkdir_private, below_refl|intros _].
  apply with_temporary_private. intros folder Hf. unfold bundle, with_name, bundle_file. rewrite parent_snoc.
  pose proof (below_snoc folder "build.sh" Hf).
  apply within_bind; [by apply fill_port_private|intros _]. solve_fs.
Qed.
End confined.

(** C20. Whatever fails, the router builders change nothing outside the output directory but
    the directories above it and the scratch space of the tools they run; the packages
    and the bundle are staged and written inside it. *)
Theorem routers_confined `{ToolsLaws} R root python euid now output a plugins version d q :
  Confinable R output (tree d) → (∀ q, below output q → is_link (tree d !! q) = false) →
  (∀ c, keeps (on_tree (private R output (tree d))) (run c)) →
  o_output_dir a = Some output → ¬ below output q → ¬ R q →
  (∀ t', t' = tree (openwrt_main root python euid a d).2 ∨
         t' = tree (opnsense_main root python now plugins version (Some output) d).2 →
    t' !! q = tree d !! q ∨ (tree d !! q = None ∧ q ∈ ancestors output ∧ t' !! q = Some (Dir 493))).
Proof.
  intros Hc Hl Hrun Ho Hq Hr t' Ht'.
  assert (on_tree (private R output (tree d)) d) as Hd by (split; [by left|done]).
  assert (private R output (tree d) t') as [Hp _]; [|by apply Hp].
  destruct Ht' as [-> | ->].
  - pose proof (openwrt_private R root python output (tree d) Hrun euid a Ho d Hd) as Hk.
    destruct (openwrt_main _ _ _ _ d) as [[?|?] d']; apply Hk.
  - pose proof (opnsense_private R root python output (tree d) Hrun now plugins version d Hd) as Hk.
    destruct (opnsense_main _ _ _ _ _ _ d) as [[?|?] d']; apply Hk.
Qed.

(** ** A checkout whose tools are missing *)
Definition sample_openwrt : openwrt_args :=
  {| o_sdk := Some ["sdk"]; o_format := ipk; o_apk_tool := None; o_po2lmo := ["po2lmo"];
     o_architecture := "x86_64"; o_version := "1.2.3-1"; o_output_dir := Some ["out"] |}.
Definition sample_router_tree : gmap path node :=
  list_to_map [(["sdk"], Dir 493); (["sdk"; "scripts"], Dir 493); (["sdk"; "scripts"; "ipkg-build"], File "" 493);
    (["po2lmo"], File "" 493); (["keep"], File "mine" 420)].
Definition sample_routers : Tools := sample_tools (λ _, mret ()) (λ _, "abc").

Lemma routers_confined_witness :
  tree (@openwrt_main sample_routers ["r"] "python3" 0 sample_openwrt (no_faults sample_router_tree)).2
    !! ["keep"] = Some (File "mine" 420).
Proof.
  destruct (@routers_confined sample_routers _ (λ _, False) ["r"] "python3" 0 0 ["out"] sample_openwrt ["p"] "1.2.3"
    (no_faults sample_router_tree) ["keep"] ltac:(split; [done| |tauto]; intros q Hq; apply no_links_lookup;
      apply (bool_decide_unpack _); by vm_compute)
    ltac:(intros q _; apply no_links_lookup; apply (bool_decide_unpack _); by vm_compute)
    ltac:(intros c; apply within_ret) eq_refl
    ltac:(apply (bool_decide_eq_false_1 _); by vm_compute) ltac:(tauto) _ (or_introl eq_refl)) as [Hk|(Hn & _)].
  - etransitivity; [exact Hk|]. by vm_compute.
  - by vm_compute in Hn.
Defined.
