(* ===== verification/Release.v ===== *)
(** * Release verification

    [.github/scripts/release.py]: the files a release must hold ([payload]), the check of
    one package manifest and of the whole folder ([verify]), and its publication ([main]).  The digest and the readers
    of zip and tar archives are parameters. *)

From S2P Require Import Prelude.
From S2P Require Import PyText.
From S2P Require Import PyBytes.
From S2P Require Import Json.
From S2P Require Import FileSystem.
From S2P Require Import Tools.
From S2P Require Import SampleTools.
From S2P Require Import Package.
From S2P Require Import DesktopPackage.
From S2P Require Import Routers.

Definition targets : list (string * string * string) :=
  [ ("linux", "amd64", "tar.gz"); ("linux", "arm64", "tar.gz"); ("linux", "armv7", "tar.gz");
    ("windows", "amd64", "zip"); ("windows", "arm64", "zip") ].

Definition payload (version : string) : list string :=
  let files := map (λ '(target, arch, suffix),
    "veil-" +:+ version +:+ "-" +:+ target +:+ "-" +:+ arch +:+ "." +:+ suffix) targets in
  let files := files ++
    [ "veil-desktop-" +:+ version +:+ "-linux-amd64.tar.gz";
      "veil-desktop-" +:+ version +:+ "-windows-amd64.zip";
      "veil_" +:+ version +:+ "-1_x86_64.ipk";
      "luci-app-veil_" +:+ version +:+ "-1_all.ipk";
      "veil-" +:+ version +:+ "-r1.apk";
      "luci-app-veil-" +:+ version +:+ "-r1.apk";
      "veil-opnsense-build-" +:+ version +:+ ".tar.gz" ] in
  sort_strings files.

Definition checksum_name (name : string) : string := name +:+ ".sha256".

Definition verify_manifest (raw version commit : string) : result () :=
  manifest ← loads raw;
  v ← jitem "version" manifest;
  let mismatch := ValueError "package manifest does not match the clean release commit" in
  if negb (equals_text version v) then Err mismatch
  else
    c ← jitem "commit" manifest;
    if negb (equals_text commit c) then Err mismatch
    else d ← jitem "dirty" manifest; raise_if (negb (is_false d)) mismatch.

Section release.
Context (sha256 : string → string).
(** The names and contents of the members of an archive; [None]: not an archive. *)
Context (zip_members tar_members : string → option (list (string * string))).

Definition bad_archive : exn := RuntimeError "not an archive".

Definition check_members (members : option (list (string * string)))
    (name version commit : string) : result () :=
  ms ← from_option_or bad_archive members;
  match filter (λ m, endswith m.1 "/manifest.json" = true) ms with
  | [m] => verify_manifest m.2 version commit
  | _ => Err (ValueError ("missing or duplicate manifest: " +:+ name))
  end.

Definition check_archive (name data version commit : string) : result () :=
  if endswith name ".zip" then check_members (zip_members data) name version commit
  else if endswith name ".tar.gz" && negb (contains "opnsense" name)
       then check_members (tar_members data) name version commit
       else Ok ().

(** One turn of the loop of [verify]; the archive is opened again from the folder. *)
Definition check_asset (folder : path) (version commit name : string) : py disk string :=
  data ← read_file (folder ++ [name]);
  recorded ← read_file (folder ++ [checksum_name name]);
  when (negb (String.eqb recorded (checksum_line sha256 name data)))
    (raise (ValueError ("checksum mismatch: " +:+ name)));;
  (if endswith name ".zip" || (endswith name ".tar.gz" && negb (contains "opnsense" name))
   then data ← read_file (folder ++ [name]); lift (check_archive name data version commit)
   else mret ());;
  mret (checksum_line sha256 name data).

Definition expected_names (version : string) : list string :=
  payload version ++ map checksum_name (payload version).

Definition verify (folder : path) (version commit : string) : py disk (list string) :=
  let names := payload version in
  listing ← iterdir folder;
  when (negb (bool_decide (list_to_set listing =@{gset string} list_to_set (expected_names version))))
    (raise (ValueError "release payload is missing files or contains unexpected files"));;
  lines ← mapM_py (check_asset folder version commit) names;
  write_file (folder ++ ["SHA256SUMS"]) (join "" lines);;
  mret (names ++ map checksum_name names ++ ["SHA256SUMS"]).

(** ** Specification *)

Definition asset_ok (t : gmap path node) (folder : path) (version commit name : string) : Prop :=
  ∃ data, file_at t (folder ++ [name]) = Some data ∧
    file_at t (folder ++ [checksum_name name]) = Some (checksum_line sha256 name data) ∧
    check_archive name data version commit = Ok ().

Definition release_ok (t : gmap path node) (folder : path) (version commit : string) : Prop :=
  list_to_set (children t folder) =@{gset string} list_to_set (expected_names version) ∧
  ∀ name, name ∈ payload version → asset_ok t folder version commit name.

(** The lines of the checksum file, for the contents on the disk. *)
Definition sums (t : gmap path node) (folder : path) (version : string) : string :=
  join "" (map (λ name, checksum_line sha256 name (default "" (file_at t (folder ++ [name])))) (payload version)).

Lemma check_archive_other name data version commit :
  endswith name ".zip" || (endswith name ".tar.gz" && negb (contains "opnsense" name)) = false →
  check_archive name data version commit = Ok ().
Proof. unfold check_archive. by intros [-> ->]%orb_false_iff. Qed.

Lemma check_asset_run t folder version commit name :
  match check_asset folder version commit name (no_faults t) with
  | (Ok line, d') => d' = no_faults t ∧ asset_ok t folder version commit name ∧
      line = checksum_line sha256 name (default "" (file_at t (folder ++ [name])))
  | (Err _, d') => d' = no_faults t ∧ ¬ asset_ok t folder version commit name
  end.
Proof.
  unfold check_asset, mbind, py_bind. rewrite !read_file_no_faults. unfold asset_ok.
  destruct (file_at t (folder ++ [name])) as [data|] eqn:Hd; [|split; [done|]; naive_solver].
  rewrite read_file_no_faults.
  destruct (file_at t (folder ++ [checksum_name name])) as [sum|]; [|split; [done|]; naive_solver].
  destruct (String.eqb_spec sum (checksum_line sha256 name data)) as [->|Hne]; simpl.
  2: { split; [done|]. intros (data' & [= <-] & [= ->] & _). done. }
  destruct (endswith name ".zip" || _) eqn:Hk.
  - rewrite read_file_no_faults, Hd. unfold lift.
    destruct (check_archive name data version commit) as [[]|e] eqn:Hc.
    + split_and!; [done| |done]. by exists data.
    + split; [done|]. intros (data' & [= <-] & _ & H). congruence.
  - simpl. split_and!; [done| |done]. exists data. split_and!; [done..|].
    by apply check_archive_other.
Qed.

Lemma check_assets_run t folder version commit names :
  match mapM_py (check_asset folder version commit) names (no_faults t) with
  | (Ok lines, d') => d' = no_faults t ∧
      (∀ name, name ∈ names → asset_ok t folder version commit name) ∧
      lines = map (λ name, checksum_line sha256 name (default "" (file_at t (folder ++ [name])))) names
  | (Err _, d') => d' = no_faults t ∧
      ¬ (∀ name, name ∈ names → asset_ok t folder version commit name)
  end.
Proof.
  induction names as [|n names IH]; simpl; [split_and!; [done|set_solver|done]|].
  unfold mbind, py_bind. pose proof (check_asset_run t folder version commit n) as H1.
  destruct (check_asset folder version commit n (no_faults t)) as [[l|e] d1]; destruct H1 as [-> H1].
  2: { split; [done|]. intros H. apply H1, H. by left. }
  destruct H1 as [H1 ->].
  destruct (mapM_py _ names (no_faults t)) as [[ls|e] d2]; destruct IH as [-> IH].
  2: { split; [done|]. intros H. apply IH. intros name Hn. apply H. by right. }
  destruct IH as [IH ->]. simpl. split_and!; [done| |done].
  intros name [->|Hn]%elem_of_cons; auto.
Qed.

Lemma sums_not_expected version : "SHA256SUMS" ∉ expected_names version.
Proof.
  unfold expected_names, payload. intros [H|H]%elem_of_app.
  - rewrite sort_strings_perm in H. cbn in H.
    repeat (apply elem_of_cons in H as [H|H]; [discriminate H|]). by apply elem_of_nil in H.
  - apply list_elem_of_fmap in H as (n & Hn & H). rewrite sort_strings_perm in H. cbn in H.
    repeat (apply elem_of_cons in H as [->|H]; [discriminate Hn|]). by apply elem_of_nil in H.
Qed.

Lemma write_new_run t dir name data m :
  link_free t dir → node_at t dir = Some (Dir m) → t !! (dir ++ [name]) = None →
  write_file (dir ++ [name]) data (no_faults t) =
    (Ok (), no_faults (<[dir ++ [name] := File data 420]> t)).
Proof.
  intros Hfree Hdir Hnew. unfold write_file. fs_unfold. change (tree (no_faults t)) with t.
  rewrite resolve_link_free by (apply link_free_snoc; split; [done|by rewrite Hnew]).
  by rewrite parent_snoc, Hdir, node_at_ne, Hnew by apply snoc_ne.
Qed.

(** [verify] accepts a folder exactly when it holds the expected files and no other, every
    recorded checksum is the digest of its file, and every package that has a manifest is of
    the released version and clean commit; it then adds [SHA256SUMS], one line per package,
    and names the files to upload.  A refusal changes nothing. *)
Theorem verify_exact t folder version commit m :
  link_free t folder → node_at t folder = Some (Dir m) →
  match verify folder version commit (no_faults t) with
  | (Ok assets, d') => release_ok t folder version commit ∧
      assets = expected_names version ++ ["SHA256SUMS"] ∧
      d' = no_faults (<[folder ++ ["SHA256SUMS"] := File (sums t folder version) 420]> t)
  | (Err _, d') => d' = no_faults t ∧ ¬ release_ok t folder version commit
  end.
Proof.
  intros Hfree Hdir. unfold verify, mbind, py_bind.
  assert (iterdir folder (no_faults t) = (Ok (children t folder), no_faults t)) as ->.
  { unfold iterdir, tick, no_faults. fs_unfold. cbn. by rewrite resolve_link_free, Hdir. }
  case_bool_decide as Hlist; simpl; [|by split; [|intros [? _]]].
  pose proof (check_assets_run t folder version commit (payload version)) as Hrun.
  destruct (mapM_py _ _ _) as [[ls|e] d1]; destruct Hrun as [-> Hrun]; [|by split; [|intros [_ ?]]].
  destruct Hrun as [Hok ->]. rewrite (write_new_run _ _ _ _ m); try done.
  - split_and!; [by split| |done]. unfold expected_names. by rewrite <-app_assoc.
  - destruct (t !! (folder ++ ["SHA256SUMS"])) eqn:He; [|done]. exfalso.
    assert ("SHA256SUMS" ∈ children t folder) as Hin by (apply elem_children; by rewrite He).
    apply (sums_not_expected version), (elem_of_list_to_set (C:=gset string)).
    rewrite <-Hlist. by apply elem_of_list_to_set.
Qed.
End release.

(** ** A complete folder *)
Definition sample_manifest : string :=
  dumps (JObj [("version", JStr "1.2.3"); ("commit", JStr "abc"); ("dirty", JBool false)]).
Definition sample_members (data : string) : option (list (string * string)) :=
  Some [("veil/README.md", ""); ("veil/manifest.json", data)].
Definition sample_release : gmap path node :=
  list_to_map ((["r"], Dir 493) ::
    map (λ name, (["r"; name], File sample_manifest 420)) (payload "1.2.3") ++
    map (λ name, (["r"; checksum_name name],
      File (checksum_line sample_digest name sample_manifest) 420)) (payload "1.2.3")).

(** ** The files the release workflow builds *)
Definition built (version : string) : list string :=
  map (λ '(target, arch), archive_name version target arch)
    [("linux", "amd64"); ("linux", "arm64"); ("linux", "armv7"); ("windows", "amd64"); ("windows", "arm64")] ++
  map (λ target, desktop_archive version target "amd64") ["linux"; "windows"] ++
  map (λ i, artifact_name ipk i (version +:+ "-1")) [engine_info "x86_64"; app_info] ++
  map (λ i, artifact_name apk i (version +:+ "-r1")) [engine_info "x86_64"; app_info] ++
  [bundle_name version].

(** The payload the release check expects is exactly what the builders name their
    archives for the workflow's targets, architectures and version suffixes. *)
Theorem payload_built version : payload version ≡ₚ built version.
Proof.
  unfold payload. rewrite sort_strings_perm. apply reflexive_eq.
  unfold built, archive_name, archive_stem, desktop_archive, desktop_name. cbn -[String.append].
  by rewrite !sapp_assoc.
Qed.

(** ** [main] *)

(** [re.fullmatch(r"[0-9]+\.[0-9]+\.[0-9]+", version)] *)
Definition is_stable (version : string) : bool :=
  match split "." version with
  | [a; b; c] => forallb (λ x, negb (String.eqb x "") && all_chars is_digit x) [a; b; c]
  | _ => false
  end.
Example is_stable_1 : map is_stable ["1.20.3"; "1.2"; "1..3"; "1.2.3.4"; "1.2.3-rc1"; ""] =
  [true; false; false; false; false; false].
Proof. reflexivity. Qed.

Section main.
Context `{Tools} (zip_members tar_members : string → option (list (string * string))).

Definition create_command (folder : path) (tag : string) (assets : list string) : command :=
  {| argv := ["gh"; "release"; "create"; tag; "--verify-tag"; "--title"; "Veil " +:+ tag; "--notes-file";
              ".github/releases/" +:+ tag +:+ ".md"] ++ map (λ name, posix (folder ++ [name])) assets;
     cwd := None; env_of := None |}.
Definition main (version : string) (folder : path) (publish : bool) : py disk () :=
  lift (raise_if (negb (is_stable version)) (SystemExit 2));;
  commit ← check_output {| argv := ["git"; "rev-parse"; "HEAD"]; cwd := None; env_of := None |};
  assets ← verify Tools.sha256 zip_members tar_members folder version (strip commit);
  when publish (run (create_command folder ("v" +:+ version) assets)).

End main.

(** The tools log the commands they run. *)
Definition logging_tools : Tools :=
  sample_tools (λ c, write_file ["log"] (join " " (argv c))) (λ _, "abc" +:+ nl).

