(* ===== verification/Catalog.v ===== *)
(** * The translation catalogue

    [catalog] of [veil-service/scripts/openwrt_check.py], the reader of the LuCI
    translations, with the coverage check of its [main]. *)

From S2P Require Import Prelude.
From S2P Require Import PyText.
From S2P Require Import PyBytes.
From S2P Require Import Json.
From Stdlib Require Import Ascii.

(** ** [ast.literal_eval] of one string literal

    Between single or double quotation marks; the name of a character after a backslash and N is
    not looked up.  The state between two characters: after a backslash, in a hexadecimal escape
    with digits left, in an octal one. *)
Definition dquote_code : ascii := ascii_of_N 34.
Definition quote_code : ascii := ascii_of_N 39.
Definition backslash_code : ascii := ascii_of_N 92.
Definition newline_code : ascii := ascii_of_N 10.
Definition python_escape (c : ascii) : option N :=
  match N_of_ascii c with
  | 34 => Some 34 | 39 => Some 39 | 92 => Some 92 | 97 => Some 7 | 98 => Some 8 | 102 => Some 12
  | 110 => Some 10 | 114 => Some 13 | 116 => Some 9 | 118 => Some 11 | _ => None
  end%N.
Definition octal_digit (c : ascii) : option N :=
  let n := N_of_ascii c in if ((48 <=? n) && (n <=? 55))%N then Some (n - 48)%N else None.
Definition hexa_digits (c : ascii) : option nat :=
  if Ascii.eqb c "x" then Some 2%nat else if Ascii.eqb c "u" then Some 4%nat else if Ascii.eqb c "U" then Some 8%nat else None.
Inductive literal_state := Plain | Escaped | Hexa (more : nat) (n : N) | Octal (more : nat) (n : N).
Fixpoint literal_body (q : ascii) (st : literal_state) (s : string) : result string :=
  match s with
  | "" => Err SyntaxError
  | String c s1 =>
      let plain :=
        if Ascii.eqb c q then (if String.eqb (strip s1) "" then Ok "" else Err SyntaxError)
        else if Ascii.eqb c newline_code then Err SyntaxError
        else if Ascii.eqb c backslash_code then literal_body q Escaped s1
        else t ← literal_body q Plain s1; Ok (String c t) in
      match st with
      | Plain => plain
      | Escaped =>
          if Ascii.eqb c newline_code then literal_body q Plain s1
          else if Ascii.eqb c "N" then Err SyntaxError
          else match python_escape c, hexa_digits c, octal_digit c with
               | Some n, _, _ => t ← literal_body q Plain s1; Ok (utf8_char n +:+ t)
               | None, Some k, _ => literal_body q (Hexa k 0) s1
               | None, None, Some d => literal_body q (Octal 2 d) s1
               | None, None, None => t ← literal_body q Plain s1; Ok (String backslash_code (String c t))
               end
      | Hexa more n =>
          d ← from_option_or SyntaxError (hex_value c);
          match more with
          | S (S more) => literal_body q (Hexa (S more) (16 * n + d)) s1
          | _ =>
              raise_if (1114111 <? 16 * n + d)%N SyntaxError;;
              t ← literal_body q Plain s1; Ok (utf8_char (16 * n + d) +:+ t)
          end
      | Octal more n =>
          match more, octal_digit c with
          | S more, Some d => literal_body q (Octal more (8 * n + d)) s1
          | _, _ => t ← plain; Ok (utf8_char n +:+ t)
          end
      end
  end.
Definition literal_eval (s : string) : result string :=
  match lstrip s with
  | String c s1 =>
      if Ascii.eqb c dquote_code || Ascii.eqb c quote_code then literal_body c Plain s1
      else Err (ValueError "malformed node or string")
  | "" => Err SyntaxError
  end.
Example literal_1 : map literal_eval ["'a\tb\x41\101\7\u00e9\q'"; "'a"; "'\x4'"; "'\"] =
  [Ok ("a" +:+ String (ascii_of_N 9) ("bAA" +:+ String (ascii_of_N 7) ("é" +:+ "\q"))); Err SyntaxError; Err SyntaxError;
   Err SyntaxError].
Proof. reflexivity. Qed.

(** ** [catalog] *)
Inductive field := Key | Value.
Record state := { entries : list (string * string); key : option string; value : string; at_field : option field }.

(** The end of an entry: what a blank line does. *)
Definition flush (c : state) : result state :=
  match key c with
  | Some (String a k) =>
      let k := String a k in
      match dict_get k (entries c) with
      | Some _ => Err (ValueError ("duplicate translation: " +:+ k))
      | None => Ok {| entries := dict_set k (value c) (entries c); key := None; value := ""; at_field := None |}
      end
  | _ => Ok {| entries := entries c; key := None; value := ""; at_field := None |}
  end.

Definition read_line (c : state) (line : string) : result state :=
  if String.eqb (strip line) "" then flush c
  else if startswith line "#" then Ok c
  else if startswith line "msgid " then
    k ← literal_eval (sdrop 6 line);
    Ok {| entries := entries c; key := Some k; value := value c; at_field := Some Key |}
  else if startswith line "msgstr " then
    v ← literal_eval (sdrop 7 line);
    Ok {| entries := entries c; key := key c; value := v; at_field := Some Value |}
  else match startswith line dquote, at_field c with
       | true, Some Key =>
           t ← literal_eval line;
           Ok {| entries := entries c; key := Some (default "" (key c) +:+ t); value := value c; at_field := Some Key |}
       | true, Some Value =>
           t ← literal_eval line;
           Ok {| entries := entries c; key := key c; value := value c +:+ t; at_field := Some Value |}
       | _, _ => Err (ValueError ("unsupported catalog entry: " +:+ line))
       end.

Fixpoint read_lines (c : state) (lines : list string) : result state :=
  match lines with [] => Ok c | l :: ls => c ← read_line c l; read_lines c ls end.

Definition start : state := {| entries := []; key := None; value := ""; at_field := None |}.
Definition catalog (text : string) : result (list (string * string)) :=
  c ← read_lines start (splitlines text ++ [""]); Ok (entries c).

(** The coverage of [labels] by one catalogue; [is_po]: the translated one. *)
Definition check_labels (labels : list string) (relative : string) (es : list (string * string)) : result () :=
  let missing := filter (λ l, l ∉ es.*1) labels in
  raise_if (negb (bool_decide (missing = [])))
    (ValueError (relative +:+ ": untranslated labels: " +:+ list_repr (sort_strings missing)));;
  raise_if (endswith relative ".po" && existsb (λ l, String.eqb (default "" (dict_get l es)) "") labels)
    (ValueError "Chinese translations must not be empty").

(** ** Printing literals *)
Section literal.
Context (q : ascii) (q_mark : q ∈ [dquote_code; quote_code]).

(** A literal with the mark [q] around it. *)
Definition escape (c : ascii) : string :=
  if Ascii.eqb c newline_code then String backslash_code "n"
  else if Ascii.eqb c q || Ascii.eqb c backslash_code then String backslash_code (String c "")
  else String c "".
Definition marked (s : string) : string := String q (concat_map escape s +:+ String q "").

Lemma mark_cases : q = dquote_code ∨ q = quote_code.
Proof. apply elem_of_cons in q_mark as [-> | Hq]; [by left|right]. by apply list_elem_of_singleton in Hq. Qed.
Lemma body_plain c s : Ascii.eqb c q = false → Ascii.eqb c newline_code = false → Ascii.eqb c backslash_code = false →
  literal_body q Plain (String c s) = (t ← literal_body q Plain s; Ok (String c t)).
Proof. intros H1 H2 H3. cbn [literal_body]. by rewrite H1, H2, H3. Qed.
Lemma body_escape c n s : Ascii.eqb c newline_code = false → Ascii.eqb c "N" = false → python_escape c = Some n →
  literal_body q Plain (String backslash_code (String c s)) = (t ← literal_body q Plain s; Ok (utf8_char n +:+ t)).
Proof.
  intros H1 H2 H3. assert (Ascii.eqb backslash_code q = false) as Hq by (by destruct mark_cases as [-> | ->]).
  cbn [literal_body]. by rewrite Hq, H1, H2, H3.
Qed.
Lemma body_end r : strip r = "" → literal_body q Plain (String q r) = Ok "".
Proof. intros Hr. cbn [literal_body]. by rewrite Ascii.eqb_refl, Hr. Qed.

Lemma literal_body_escape s r : strip r = "" → literal_body q Plain (concat_map escape s +:+ String q r) = Ok s.
Proof.
  intros Hr. induction s as [|c s IH]; [by apply body_end|]. cbn [concat_map]. rewrite sapp_assoc. unfold escape at 1.
  set (rest := concat_map escape s +:+ String q r) in *.
  destruct (Ascii.eqb c newline_code) eqn:Hn.
  - apply Ascii.eqb_eq in Hn as ->. change (String backslash_code "n" +:+ rest) with (String backslash_code (String "n" rest)).
    rewrite (body_escape "n" 10) by reflexivity. by rewrite IH.
  - destruct (Ascii.eqb c q || Ascii.eqb c backslash_code) eqn:Hq.
    + assert (c = q ∨ c = backslash_code) as Hc.
      { apply orb_true_iff in Hq as [Hc|Hc]; apply Ascii.eqb_eq in Hc; auto. }
      change (String backslash_code (String c "") +:+ rest) with (String backslash_code (String c rest)).
      rewrite (body_escape c (N_of_ascii c)), IH; destruct Hc as [-> | ->]; try destruct mark_cases as [-> | ->]; reflexivity.
    + apply orb_false_iff in Hq as [Hd Hb]. rewrite !sapp_cons, sapp_nil_l, body_plain by done. by rewrite IH.
Qed.
Lemma literal_eval_marked s : literal_eval (marked s) = Ok s.
Proof.
  pose proof (literal_body_escape s "" eq_refl) as Hb. unfold literal_eval, marked.
  assert (∀ t, lstrip (String q t) = String q t) as -> by (by destruct mark_cases as [-> | ->]).
  assert (Ascii.eqb q dquote_code || Ascii.eqb q quote_code = true) as -> by (by destruct mark_cases as [-> | ->]).
  exact Hb.
Qed.
End literal.

(** ** Printing a catalogue *)

(** The lines of an entry whose texts are broken into pieces. *)
Abbreviation quoted := (marked dquote_code).
Record entry := { e_key : string; e_keys : list string; e_value : string; e_values : list string }.
Definition key_of (e : entry) : string := e_key e +:+ join "" (e_keys e).
Definition value_of (e : entry) : string := e_value e +:+ join "" (e_values e).
Definition entry_lines (e : entry) : list string :=
  ("msgid " +:+ quoted (e_key e)) :: map quoted (e_keys e) ++
  ("msgstr " +:+ quoted (e_value e)) :: map quoted (e_values e) ++ [""].
Definition print (es : list entry) : string := join "" (map (λ l, l +:+ nl) (mjoin (map entry_lines es))).

(** ** Reading back *)
Lemma literal_eval_quoted s : literal_eval (quoted s) = Ok s.
Proof. apply literal_eval_marked. left. Qed.

Lemma read_lines_app c l1 l2 : read_lines c (l1 ++ l2) = (c ← read_lines c l1; read_lines c l2).
Proof.
  revert c. induction l1 as [|l l1 IH]; intros c; [done|]. simpl.
  destruct (read_line c l) as [c'|]; [apply IH|done].
Qed.

Lemma strip_head c s : is_space c = false → String.eqb (strip (String c s)) "" = false.
Proof.
  intros Hc. unfold strip. simpl. rewrite Hc. unfold rstrip, srev at 2. simpl. rewrite srev_app_acc.
  fold (srev s). apply String.eqb_neq. intros He. apply (f_equal srev) in He. rewrite srev_involutive in He.
  revert He. induction (srev s) as [|x t IH].
  - rewrite sapp_nil_l. cbn [lstrip]. by rewrite Hc.
  - rewrite sapp_cons. cbn [lstrip]. by destruct (is_space x).
Qed.

Lemma read_msgid c k : read_line c ("msgid " +:+ quoted k) =
  Ok {| entries := entries c; key := Some k; value := value c; at_field := Some Key |}.
Proof.
  unfold read_line. change ("msgid " +:+ quoted k) with (String "m" ("sgid " +:+ quoted k)).
  rewrite strip_head by done. change (startswith (String "m" ("sgid " +:+ quoted k)) "#") with false.
  change (startswith (String "m" ("sgid " +:+ quoted k)) "msgid ") with true.
  change (sdrop 6 (String "m" ("sgid " +:+ quoted k))) with (quoted k). by rewrite literal_eval_quoted.
Qed.

Lemma read_msgstr c v : read_line c ("msgstr " +:+ quoted v) =
  Ok {| entries := entries c; key := key c; value := v; at_field := Some Value |}.
Proof.
  unfold read_line. change ("msgstr " +:+ quoted v) with (String "m" ("sgstr " +:+ quoted v)).
  rewrite strip_head by done. change (startswith (String "m" ("sgstr " +:+ quoted v)) "#") with false.
  change (startswith (String "m" ("sgstr " +:+ quoted v)) "msgid ") with false.
  change (startswith (String "m" ("sgstr " +:+ quoted v)) "msgstr ") with true.
  change (sdrop 7 (String "m" ("sgstr " +:+ quoted v))) with (quoted v). by rewrite literal_eval_quoted.
Qed.

Lemma read_quoted c s : read_line c (quoted s) =
  match at_field c with
  | Some Key => Ok {| entries := entries c; key := Some (default "" (key c) +:+ s); value := value c; at_field := Some Key |}
  | Some Value => Ok {| entries := entries c; key := key c; value := value c +:+ s; at_field := Some Value |}
  | None => Err (ValueError ("unsupported catalog entry: " +:+ quoted s))
  end.
Proof.
  unfold read_line. rewrite literal_eval_quoted. unfold quoted at 1. rewrite strip_head by done.
  change (startswith (quoted s) "#") with false. change (startswith (quoted s) "msgid ") with false.
  change (startswith (quoted s) "msgstr ") with false. change (startswith (quoted s) dquote) with true.
  by destruct (at_field c) as [[]|].
Qed.

Lemma read_keys es k v ks :
  read_lines {| entries := es; key := Some k; value := v; at_field := Some Key |} (map quoted ks) =
  Ok {| entries := es; key := Some (k +:+ join "" ks); value := v; at_field := Some Key |}.
Proof.
  revert k. induction ks as [|x ks IH]; intros k; [by rewrite sapp_nil_r|].
  rewrite map_cons, join_nil_cons. cbn [read_lines]. rewrite read_quoted. cbn -[read_lines].
  by rewrite IH, sapp_assoc.
Qed.

Lemma read_values es k v vs :
  read_lines {| entries := es; key := k; value := v; at_field := Some Value |} (map quoted vs) =
  Ok {| entries := es; key := k; value := v +:+ join "" vs; at_field := Some Value |}.
Proof.
  revert v. induction vs as [|x vs IH]; intros v; [by rewrite sapp_nil_r|].
  rewrite map_cons, join_nil_cons. cbn [read_lines]. rewrite read_quoted. cbn -[read_lines].
  by rewrite IH, sapp_assoc.
Qed.

(** The state between two entries. *)
Definition between (es : list (string * string)) : state :=
  {| entries := es; key := None; value := ""; at_field := None |}.

Lemma read_entry es e : key_of e ≠ "" → key_of e ∉ es.*1 →
  read_lines (between es) (entry_lines e) = Ok (between (es ++ [(key_of e, value_of e)])).
Proof.
  intros Hk Hnew. unfold entry_lines. cbn [read_lines]. rewrite read_msgid. cbn [mbind result_bind].
  rewrite read_lines_app. cbn [entries value between]. rewrite read_keys. cbn [mbind result_bind read_lines].
  rewrite read_msgstr. cbn [mbind result_bind entries key]. rewrite read_lines_app, read_values.
  cbn [mbind result_bind read_lines]. fold (key_of e) (value_of e).
  unfold read_line. cbn [String.eqb strip]. change (String.eqb (strip "") "") with true. cbv iota.
  unfold flush. cbn [key entries value]. destruct (key_of e) as [|a k] eqn:Hke; [done|].
  rewrite (proj2 (dict_get_None _ _) Hnew). by rewrite dict_set_new.
Qed.

Lemma read_entries_list es l : Forall (λ e, key_of e ≠ "") l → NoDup (es ++ map (λ e, (key_of e, value_of e)) l).*1 →
  read_lines (between es) (mjoin (map entry_lines l)) = Ok (between (es ++ map (λ e, (key_of e, value_of e)) l)).
Proof.
  intros Hl. revert es. induction Hl as [|e l He _ IH]; intros es Hnd; [by rewrite app_nil_r|].
  change (mjoin (map entry_lines (e :: l))) with (entry_lines e ++ mjoin (map entry_lines l)).
  rewrite read_lines_app, read_entry; [|done|].
  - cbn [mbind result_bind]. rewrite IH; by rewrite <- app_assoc.
  - rewrite fmap_app in Hnd. apply NoDup_app in Hnd as (_ & Hd & _).
    intros Hin. apply (Hd _ Hin). by left.
Qed.

(** The lines of a text. *)
Lemma split_lines ls : Forall (λ l, any_char (Ascii.eqb newline_code) l = false) ls →
  split nl (join "" (map (λ l, l +:+ nl) ls)) = ls ++ [""].
Proof.
  induction 1 as [|l ls Hl _ IH]; [done|]. rewrite map_cons, join_nil_cons, sapp_assoc.
  change nl with (char1 newline_code) at 1 2. rewrite split_char_app, split_char_none by done.
  change (char1 newline_code) with nl. by rewrite IH.
Qed.

Lemma splitlines_lines ls : Forall (λ l, any_char (Ascii.eqb newline_code) l = false) ls →
  splitlines (join "" (map (λ l, l +:+ nl) ls)) = ls.
Proof.
  intros Hls. unfold splitlines. rewrite split_lines by done.
  destruct (String.eqb_spec (join "" (map (λ l, l +:+ nl) ls)) "") as [He|He].
  - destruct ls as [|l ls]; [done|]. rewrite map_cons, join_nil_cons, sapp_assoc in He. by destruct l.
  - rewrite last_snoc. cbv zeta. by rewrite removelast_last.
Qed.

Lemma quoted_line s : any_char (Ascii.eqb newline_code) (quoted s) = false.
Proof.
  unfold quoted. simpl. rewrite any_char_app, orb_false_r.
  induction s as [|c s IH]; [done|]. simpl. rewrite any_char_app, IH, orb_false_r. unfold escape.
  destruct (Ascii.eqb c newline_code) eqn:Hn; [done|]. destruct (_ || _); cbn -[newline_code Ascii.eqb];
    by rewrite (Ascii.eqb_sym newline_code c), Hn.
Qed.

Lemma entry_lines_plain l : Forall (λ l, any_char (Ascii.eqb newline_code) l = false) (mjoin (map entry_lines l)).
Proof.
  assert (∀ ss, Forall (λ l, any_char (Ascii.eqb newline_code) l = false) (map quoted ss)) as Hq
    by (intros ss; apply Forall_fmap, Forall_true; intros; apply quoted_line).
  induction l as [|e l IH]; [constructor|].
  change (mjoin (map entry_lines (e :: l))) with (entry_lines e ++ mjoin (map entry_lines l)).
  apply Forall_app. split; [|done]. unfold entry_lines. constructor; [apply quoted_line|].
  apply Forall_app. split; [done|]. constructor; [apply quoted_line|].
  apply Forall_app. split; [done|]. by repeat constructor.
Qed.

(** A printed catalogue reads back: entries with distinct non-empty keys, their texts
    broken over any number of lines and with any characters, are the ones [catalog]
    returns, in their order. *)
Theorem catalog_print l :
  Forall (λ e, key_of e ≠ "") l → NoDup (map key_of l) →
  catalog (print l) = Ok (map (λ e, (key_of e, value_of e)) l).
Proof.
  intros Hk Hnd. unfold catalog, print. rewrite splitlines_lines by apply entry_lines_plain.
  rewrite read_lines_app. change start with (between []). rewrite (read_entries_list [] l Hk).
  - cbn [mbind result_bind read_lines]. unfold read_line. change (String.eqb (strip "") "") with true. done.
  - rewrite app_nil_l. change (NoDup (map fst (map (λ e, (key_of e, value_of e)) l))). by rewrite map_map.
Qed.

Lemma catalog_print_witness :
  catalog (print [ {| e_key := ""; e_keys := ["Add"; " connection"]; e_value := "添加"; e_values := [] |};
                   {| e_key := "a" +:+ nl; e_keys := []; e_value := dquote; e_values := [""] |} ]) =
  Ok [("Add connection", "添加"); ("a" +:+ nl, dquote)].
Proof.
  refine (eq_trans (catalog_print _ _ _) _).
  - by repeat constructor.
  - apply (bool_decide_unpack _). by vm_compute.
  - reflexivity.
Defined.
