(* ===== verification/Shapes.v ===== *)
(** * Traffic shapes

    What the captures of [veil-core/scripts/probe.py] and [browser_shapes.py] keep of a
    connection, and the features [traffic_shapes.py] and [browser_shapes.py] derive from it:
    records, wire bytes, bursts and their summaries. *)

From S2P Require Import Prelude.
From S2P Require Import PyText.
From S2P Require Import PyBytes.
From S2P Require Import TlsRecord.
From S2P Require Import Json.
From S2P Require Import Numbers.
From Stdlib Require Import SpecFloat.
#[local] Open Scope Z_scope.

(** ** Captures *)
Inductive direction := Up | Down.
#[export] Instance direction_eq_dec : EqDecision direction.
Proof. solve_decision. Defined.
Definition direction_name (d : direction) : string := match d with Up => "up" | Down => "down" end.

(** An entry of [events]: [time] is [time.monotonic()]. *)
Record tap_event := { e_direction : direction; e_bytes : Z; e_time : float }.
(** What a capture has of one connection: both threads extend it.  [ends] is set when the
    thread of a direction ends, in that order. *)
Record tap_state := {
  wire : direction → bytes; events : list tap_event; errors : list string;
  ends : list (direction * string) }.
Definition extend (d : direction) (data : bytes) (w : direction → bytes) : direction → bytes :=
  λ x, if decide (x = d) then w x ++ data else w x.
Definition empty_tap : tap_state :=
  {| wire := λ _, []; events := []; errors := []; ends := [] |}.

(** A piece one of the threads received, in the order the threads ran. *)
Record piece := { p_direction : direction; p_data : bytes; p_time : float }.
Definition tap_event_of (x : piece) : tap_event :=
  {| e_direction := p_direction x; e_bytes := zlen (p_data x); e_time := p_time x |}.

(** [probe.Capture]: a piece that does not fit is forwarded and counted, but not kept. *)
Definition capture_limit : Z := Z.shiftl 16 20.
Definition pump (st : tap_state) (x : piece) : tap_state :=
  let d := p_direction x in
  {| wire := if zlen (wire st d) + zlen (p_data x) <=? capture_limit
             then extend d (p_data x) (wire st) else wire st;
     events := events st ++ [tap_event_of x]; errors := errors st; ends := ends st |}.

(** [browser_shapes.CaptureGroup]: a piece that does not fit ends its direction with an error. *)
Definition group_limit : Z := Z.shiftl 4 20.
Definition set_ends (l : list (direction * string)) (st : tap_state) : tap_state :=
  {| wire := wire st; events := events st; errors := errors st; ends := l |}.
Definition set_errors (l : list string) (st : tap_state) : tap_state :=
  {| wire := wire st; events := events st; errors := l; ends := ends st |}.
Definition end_of (st : tap_state) (d : direction) : option string := dict_get d (ends st).
Definition group_pump (st : tap_state) (x : piece) : tap_state :=
  let d := p_direction x in
  match end_of st d with
  | Some _ => st
  | None =>
      if group_limit <? zlen (wire st d) + zlen (p_data x) then
        {| wire := wire st; events := events st; errors := errors st ++ ["fixture capture limit"];
           ends := dict_set d "capture-error" (ends st) |}
      else
        {| wire := extend d (p_data x) (wire st); events := events st ++ [tap_event_of x];
           errors := errors st; ends := ends st |}
  end.
Definition run_pump (step : tap_state → piece → tap_state) (l : list piece) : tap_state :=
  fold_left step l empty_tap.

(** ** [shapes] *)
Record burst := { b_direction : direction; b_bytes : Z; b_time : float }.
(** The last burst is kept at the head while the events are read. *)
Definition add_event (bursts : list burst) (e : tap_event) : list burst :=
  match bursts with
  | b :: bs =>
      if decide (b_direction b = e_direction e) then
        {| b_direction := b_direction b; b_bytes := b_bytes b + e_bytes e; b_time := b_time b |} :: bs
      else {| b_direction := e_direction e; b_bytes := e_bytes e; b_time := e_time e |} :: b :: bs
  | [] => [{| b_direction := e_direction e; b_bytes := e_bytes e; b_time := e_time e |}]
  end.
Definition bursts_of (es : list tap_event) : list burst := rev (fold_left add_event es []).

(** [round((b.pop("time") - start) * 1000, 3)] *)
Definition time_ms (start : float) (b : burst) : result num :=
  d ← num_sub (Float (b_time b)) (Float start); ms ← num_mul d (Int 1000); num_round 3 ms.
Definition burst_json (start : float) (b : burst) : result json :=
  ms ← time_ms start b;
  Ok (JObj [("direction", JStr (direction_name (b_direction b))); ("bytes", JNum (b_bytes b));
            ("time_ms", json_of ms)]).

(** The features of a connection, as the dictionary the scripts write. *)
Record shape := {
  s_records : direction → list (Z * Z); s_wire : direction → Z; s_bursts : list json }.
Definition start_time (es : list tap_event) : float :=
  match es with e :: _ => e_time e | [] => S754_zero false end.
Definition shapes (st : tap_state) : result shape :=
  up ← records (wire st Up);
  down ← records (wire st Down);
  bs ← mapR (burst_json (start_time (events st))) (bursts_of (events st));
  let lengths := map (λ r : Z * bytes, (r.1, zlen r.2)) in
  Ok {| s_records := λ d, match d with Up => lengths up | Down => lengths down end;
        s_wire := λ d, zlen (wire st d); s_bursts := bs |}.

(** What the threads of a group do, one step after the other: the acceptor takes a
    connection and dials the destination, or fails to and ends; the two threads of
    connection [i] receive a piece each, or end. *)
Inductive group_step :=
| Accepted
| Refused (msg : string)
| Received (i : nat) (x : piece)
| Ended (i : nat) (d : direction) (outcome : string).
(** [errors] is one list of the group: a thread extends what it finds. *)
Record group_state := { accepting : bool; connections : list tap_state; group_errors : list string }.
Definition empty_group : group_state := {| accepting := true; connections := []; group_errors := [] |}.
Definition at_connection (g : group_state) (i : nat) (f : tap_state → tap_state) : group_state :=
  match connections g !! i with
  | None => g
  | Some st =>
      let st' := f (set_errors (group_errors g) st) in
      {| accepting := accepting g; connections := <[i := st']> (connections g); group_errors := errors st' |}
  end.
Definition end_direction (d : direction) (outcome : string) (st : tap_state) : tap_state :=
  match end_of st d with Some _ => st | None => set_ends (dict_set d outcome (ends st)) st end.
Definition group_next (g : group_state) (x : group_step) : group_state :=
  match x with
  | Accepted =>
      if accepting g then
        {| accepting := true; connections := connections g ++ [empty_tap]; group_errors := group_errors g |}
      else g
  | Refused msg =>
      if accepting g then
        {| accepting := false; connections := connections g; group_errors := group_errors g ++ [msg] |}
      else g
  | Received i x => at_connection g i (λ st, group_pump st x)
  | Ended i d outcome => at_connection g i (end_direction d outcome)
  end.
Definition run_group (l : list group_step) : group_state := fold_left group_next l empty_group.

(** [CaptureGroup.result]: the connections that carried anything, unless a capture failed. *)
Definition carried (st : tap_state) : bool :=
  negb (bool_decide (wire st Up = [])) || negb (bool_decide (wire st Down = [])).
Definition group_result (g : group_state) : result (list (shape * list (direction * string))) :=
  raise_if (negb (bool_decide (group_errors g = []))) (RuntimeError ("capture failed: " +:+ join "; " (group_errors g)));;
  mapR (λ st, s ← shapes st; Ok (s, ends st)) (filter (λ st, carried st = true) (connections g)).

(** ** [browser_shapes.summarize] *)

(** The rows of the browser measurement, with what the summary reads. *)
Record browser_row := { r_protocol : string; r_parallel : bool; r_group : string; r_connections : list shape }.
Abbreviation row_group := (string * bool * string)%type.
Definition group_of (r : browser_row) : row_group := (r_protocol r, r_parallel r, r_group r).
Definition group_leb (a b : row_group) : bool :=
  let '(p, x, g) := a in let '(q, y, h) := b in
  if negb (String.eqb p q) then sleb p q
  else if negb (Bool.eqb x y) then negb x else sleb g h.
Definition group_le (a b : row_group) : Prop := group_leb a b = true.
#[export] Instance group_le_dec a b : Decision (group_le a b).
Proof. unfold group_le. apply _. Defined.

Definition sum_by {A} (f : A → Z) (l : list A) : Z := foldr (λ x n, f x + n) 0 l.
Definition both {A} (f : direction → A) : list A := [f Up; f Down].
(** [sum(... for a, b in zip(records, records[1:]))]: two full-size records of application
    data whose lengths differ by one step of the estimate. *)
Definition ramp_pair (p : (Z * Z) * (Z * Z)) : bool :=
  let '((t, n), (u, m)) := p in
  (t =? u) && (u =? 23) && (4096 <? n) && (n <? m) && (m <=? 16401) && (m - n =? 1186).
Definition ramps (rs : list (Z * Z)) : Z := sum_by (λ p, if ramp_pair p then 1 else 0) (zip rs (tail rs)).

Record features := { f_connections : Z; f_bursts : Z; f_records : Z; f_wire_bytes : Z; f_ramp_pairs : Z }.
Definition features_of (r : browser_row) : features :=
  let cs := r_connections r in
  {| f_connections := zlen cs;
     f_bursts := sum_by (λ c, zlen (s_bursts c)) cs;
     f_records := sum_by (λ c, sum_by zlen (both (s_records c))) cs;
     f_wire_bytes := sum_by (λ c, sum_by id (both (s_wire c))) cs;
     f_ramp_pairs := sum_by (λ c, sum_by ramps (both (s_records c))) cs |}.
Definition feature_names : list (string * (features → Z)) :=
  [("connections", f_connections); ("bursts", f_bursts); ("records", f_records);
   ("wire_bytes", f_wire_bytes); ("ramp_pairs", f_ramp_pairs)].
Definition feature_median (fs : list features) (x : string * (features → Z)) : result (string * json) :=
  m ← median (map (λ f, Int (x.2 f)) fs); Ok (x.1, json_of m).
Definition summarize_group (rows : list browser_row) (g : row_group) : result json :=
  let samples := filter (λ r, group_of r = g) rows in
  let fs := map features_of samples in
  medians ← mapR (feature_median fs) feature_names;
  let '(protocol, parallel, group) := g in
  Ok (JObj [("protocol", JStr protocol); ("parallel", JBool parallel); ("group", JStr group);
            ("samples", JNum (zlen samples));
            ("samples_with_ramp", JNum (zlen (filter (λ f, (0 <? f_ramp_pairs f) = true) fs)));
            ("median", JObj medians)]).
Definition summarize (rows : list browser_row) : result (list json) :=
  mapR (summarize_group rows) (merge_sort group_le (remove_dups (map group_of rows))).

(** ** The summary of [traffic_shapes.main] *)
Record traffic_row := { t_workload : string; t_group : string; t_shape : shape }.
(** [dict(Counter(str(n) for r in selected for t, n in r["records"][d] if t == 23))] *)
Definition application_lengths (selected : list traffic_row) (d : direction) : list (string * Z) :=
  counter (map (λ p : Z * Z, str p.2)
    (filter (λ p : Z * Z, p.1 = 23) (selected ≫= λ r, s_records (t_shape r) d))).
Definition traffic_group (rows : list traffic_row) (workload group : string) : result json :=
  let selected := filter (λ r, t_workload r = workload ∧ t_group r = group) rows in
  wire ← median (map (λ r, Int (sum_by id (both (s_wire (t_shape r))))) selected);
  bursts ← median (map (λ r, Int (zlen (s_bursts (t_shape r)))) selected);
  Ok (JObj [("median_wire_bytes", json_of wire); ("median_bursts", json_of bursts);
    ("application_record_lengths", JObj (map (λ d,
       (direction_name d, JObj (map (λ '(k, n), (k, JNum n)) (application_lengths selected d)))) [Up; Down]))]).
Definition traffic_summary (rows : list traffic_row) : result json :=
  ws ← mapR (λ w,
    gs ← mapR (λ g, v ← traffic_group rows w g; Ok (g, v)) ["https"; "before"; "after"];
    Ok (w, JObj gs)) ["fresh"; "reuse"];
  Ok (JObj ws).

(** ** What a capture holds *)

(** Everything received in one direction. *)
Definition received (d : direction) (l : list piece) : bytes :=
  concat (map p_data (filter (λ x, p_direction x = d) l)).

Lemma received_snoc d l x :
  received d (l ++ [x]) = received d l ++ (if decide (p_direction x = d) then p_data x else []).
Proof.
  unfold received. rewrite filter_app, map_app, concat_app. f_equal. rewrite filter_cons, filter_nil.
  case_decide; [|done]. cbn. by rewrite app_nil_r.
Qed.
Lemma zlen_app {A} (a b : list A) : zlen (a ++ b) = zlen a + zlen b.
Proof. unfold zlen. rewrite length_app. lia. Qed.
Lemma run_pump_snoc step l x : run_pump step (l ++ [x]) = step (run_pump step l) x.
Proof. unfold run_pump. by rewrite fold_left_app. Qed.
Lemma extend_other d e data w : d ≠ e → extend e data w d = w d.
Proof. intros. unfold extend. by rewrite decide_False. Qed.
Lemma extend_same d data w : extend d data w d = w d ++ data.
Proof. unfold extend. by rewrite decide_True. Qed.

Lemma pump_kept l d :
  zlen (wire (run_pump pump l) d) <= capture_limit ∧
  (zlen (received d l) <= capture_limit → wire (run_pump pump l) d = received d l).
Proof.
  induction l as [|x l [IHb IHe]] using rev_ind; [done|]. rewrite run_pump_snoc, received_snoc.
  set (st := run_pump pump l) in *. unfold pump; cbn. case_decide as Hd.
  - subst d. rewrite zlen_app. 
    destruct (Z.leb_spec (zlen (wire st (p_direction x)) + zlen (p_data x)) capture_limit) as [Hle | Hgt].
    + rewrite extend_same, zlen_app. split; [done|]. intros Ht. rewrite IHe; [done|]. unfold zlen in *. lia.
    + split; [done|]. intros Ht. exfalso. rewrite IHe in Hgt by (unfold zlen in *; lia). lia.
  - rewrite app_nil_r. destruct (_ <=? _); [rewrite extend_other by congruence|]; done.
Qed.

(** A piece of a direction that has not ended: it is kept, or the group has an error. *)
Lemma group_pump_live st x : end_of st (p_direction x) = None →
  errors (group_pump st x) = errors st ++ ["fixture capture limit"] ∨
  group_pump st x = {| wire := extend (p_direction x) (p_data x) (wire st);
                       events := events st ++ [tap_event_of x]; errors := errors st; ends := ends st |} ∧
  zlen (wire st (p_direction x)) + zlen (p_data x) <= group_limit.
Proof.
  intros He. unfold group_pump. rewrite He. destruct (Z.ltb_spec group_limit (zlen (wire st (p_direction x)) + zlen (p_data x))).
  - by left.
  - by right.
Qed.
Lemma group_pump_bounded st x :
  (∀ d, zlen (wire st d) <= group_limit) → ∀ d, zlen (wire (group_pump st x) d) <= group_limit.
Proof.
  intros Hb d. unfold group_pump. destruct (end_of st _); [done|].
  destruct (Z.ltb_spec group_limit (zlen (wire st (p_direction x)) + zlen (p_data x))); cbn; [done|].
  destruct (decide (d = p_direction x)) as [-> | Hd].
  - by rewrite extend_same, zlen_app.
  - by rewrite extend_other.
Qed.

(** The pieces of connection [i], in their order. *)
Definition piece_of (i : nat) (x : group_step) : option piece :=
  match x with Received j x => if decide (j = i) then Some x else None | _ => None end.
Definition pieces_of (i : nat) (l : list group_step) : list piece := omap (piece_of i) l.
(** A thread only receives on a connection that was accepted, in a direction that has not ended. *)
Definition possible (g : group_state) (x : group_step) : Prop :=
  match x with
  | Received i x => ∃ st, connections g !! i = Some st ∧ end_of st (p_direction x) = None
  | _ => True
  end.
Definition run_possible (l : list group_step) : Prop :=
  ∀ l1 x l2, l = l1 ++ x :: l2 → possible (run_group l1) x.

Lemma run_group_snoc l x : run_group (l ++ [x]) = group_next (run_group l) x.
Proof. unfold run_group. by rewrite fold_left_app. Qed.
Lemma run_possible_snoc l x : run_possible (l ++ [x]) → run_possible l ∧ possible (run_group l) x.
Proof.
  intros Hp. split; [|by apply (Hp l x [])]. intros l1 y l2 ->. apply (Hp l1 y (l2 ++ [x])). by rewrite <- app_assoc.
Qed.

(** What holds of every connection is kept by a step that keeps it. *)
Lemma at_connection_forall (P : tap_state → Prop) g i f :
  (∀ st l, P st → P (f (set_errors l st))) → Forall P (connections g) → Forall P (connections (at_connection g i f)).
Proof.
  intros Hf Hc. unfold at_connection. destruct (connections g !! i) as [st|] eqn:Hi; [|done]. cbn.
  apply Forall_insert; [done|]. apply Hf. by eapply Forall_lookup_1 in Hi.
Qed.

Lemma end_direction_wire d o st : wire (end_direction d o st) = wire st.
Proof. unfold end_direction. by destruct (end_of st d). Qed.
Lemma end_direction_events d o st : events (end_direction d o st) = events st.
Proof. unfold end_direction. by destruct (end_of st d). Qed.
Lemma end_direction_errors d o st : errors (end_direction d o st) = errors st.
Proof. unfold end_direction. by destruct (end_of st d). Qed.

Lemma run_group_bounded l : Forall (λ st, ∀ d, zlen (wire st d) <= group_limit) (connections (run_group l)).
Proof.
  induction l as [|x l IH] using rev_ind; [constructor|]. rewrite run_group_snoc.
  destruct x as [|msg|i x|i d o]; cbn.
  - destruct (accepting _); [|done]. cbn. apply Forall_app. split; [done|]. by constructor.
  - by destruct (accepting _).
  - apply at_connection_forall; [|done]. intros st es Hb. by apply group_pump_bounded.
  - apply at_connection_forall; [|done]. intros st es Hb d'. rewrite end_direction_wire. apply Hb.
Qed.

(** A connection has all its pieces. *)
Definition complete (l : list group_step) (i : nat) (st : tap_state) : Prop :=
  (∀ d, wire st d = received d (pieces_of i l)) ∧ events st = map tap_event_of (pieces_of i l).
Definition all_complete (l : list group_step) : Prop :=
  (∀ i st, connections (run_group l) !! i = Some st → complete l i st) ∧
  (∀ i, (length (connections (run_group l)) ≤ i)%nat → pieces_of i l = []).

Lemma pieces_of_snoc i l x : pieces_of i (l ++ [x]) = pieces_of i l ++ option_list (piece_of i x).
Proof. unfold pieces_of. rewrite omap_app. cbn. by destruct (piece_of i x). Qed.

Lemma complete_other l x i st : piece_of i x = None → complete l i st → complete (l ++ [x]) i st.
Proof. unfold complete. rewrite pieces_of_snoc. intros ->. cbn. by rewrite app_nil_r. Qed.

Lemma complete_same l x i st e es : piece_of i e = Some x → complete l i st →
  complete (l ++ [e]) i {| wire := extend (p_direction x) (p_data x) (wire st);
    events := events st ++ [tap_event_of x]; errors := es; ends := ends st |}.
Proof.
  intros He [Hw Hv]. unfold complete. rewrite pieces_of_snoc, He. cbn. split.
  - intros d. rewrite received_snoc. case_decide as Hd.
    + subst d. by rewrite extend_same, Hw.
    + by rewrite extend_other, Hw, app_nil_r by congruence.
  - by rewrite map_app, Hv.
Qed.

Lemma group_complete l : run_possible l → group_errors (run_group l) = [] → all_complete l.
Proof.
  induction l as [|x l IH] using rev_ind; [done|]. intros [Hl Hx]%run_possible_snoc He.
  rewrite run_group_snoc in He.
  assert (group_errors (run_group l) = []) as Hn.
  { destruct x as [|msg|i x|i d o]; cbn in He, Hx.
    - by destruct (accepting _).
    - destruct (accepting _); [|done]. by apply app_nil in He as [? _].
    - destruct Hx as (st & Hi & Hd). unfold at_connection in He. rewrite Hi in He. cbn in He.
      destruct (group_pump_live (set_errors (group_errors (run_group l)) st) x Hd) as [Hg | [Hg _]]; rewrite Hg in He; [|done].
      by apply app_nil in He as [? _].
    - unfold at_connection in He. destruct (_ !! _); [|done]. cbn in He. by rewrite end_direction_errors in He. }
  destruct (IH Hl Hn) as [Hc Hs]. unfold all_complete. rewrite run_group_snoc.
  destruct x as [|msg|i x|i d o]; cbn in *.
  - destruct (accepting (run_group l)); cbn.
    + split.
      * intros i st Hi. apply complete_other; [done|]. apply lookup_app_Some in Hi as [Hi | [Hge Hi]]; [by apply Hc|].
        apply list_lookup_singleton_Some in Hi as [_ <-]. unfold complete. by rewrite (Hs i).
      * intros i Hi. rewrite length_app in Hi. cbn in Hi. rewrite pieces_of_snoc, (Hs i) by lia. done.
    + split; [|intros i Hi; by rewrite pieces_of_snoc, (Hs i)]. intros i st Hi. apply complete_other; [done|by apply Hc].
  - destruct (accepting (run_group l)); cbn in *; [by destruct (group_errors (run_group l))|].
    split; [|intros i Hi; by rewrite pieces_of_snoc, (Hs i)]. intros i st Hi. apply complete_other; [done|by apply Hc].
  - destruct Hx as (st & Hi & Hd). unfold at_connection in *. rewrite Hi in He |- *. cbn in He |- *.
    destruct (group_pump_live (set_errors (group_errors (run_group l)) st) x Hd) as [Hg | [Hg _]];
      rewrite Hg in He; [by apply app_nil in He as [_ ?]|]. rewrite Hg. cbn.
    pose proof (lookup_lt_Some _ _ _ Hi) as Hlt. split.
    + intros j st' Hj. destruct (decide (j = i)) as [-> | Hne].
      * rewrite list_lookup_insert_eq in Hj by done. injection Hj as <-.
        apply complete_same; [cbn; by rewrite decide_True|by apply Hc].
      * rewrite list_lookup_insert_ne in Hj by done. apply complete_other; [cbn; by rewrite decide_False|by apply Hc].
    + intros j Hj. rewrite length_insert in Hj. rewrite pieces_of_snoc, (Hs j Hj). cbn. by rewrite decide_False by lia.
  - unfold at_connection. destruct (connections (run_group l) !! i) as [st|] eqn:Hi; cbn.
    + split.
      * intros j st' Hj. apply complete_other; [done|]. destruct (decide (j = i)) as [-> | Hne].
        -- rewrite list_lookup_insert_eq in Hj by (by eapply lookup_lt_Some). injection Hj as <-. unfold complete.
           rewrite end_direction_wire, end_direction_events. by apply (Hc i st).
        -- rewrite list_lookup_insert_ne in Hj by done. by apply Hc.
      * intros j Hj. rewrite length_insert in Hj. by rewrite pieces_of_snoc, (Hs j Hj).
    + split; [|intros j Hj; by rewrite pieces_of_snoc, (Hs j)]. intros j st' Hj. apply complete_other; [done|by apply Hc].
Qed.


(** A capture can have a hole: a piece that does not fit is dropped, a later one is kept. *)
Theorem capture_gap : ∃ l, ¬ wire (run_pump pump l) Up `prefix_of` received Up l.
Proof.
  assert (∃ big : bytes, zlen big = capture_limit - 1) as [big Hb].
  { exists (replicate (Z.to_nat (capture_limit - 1)) Byte.x00). unfold zlen. rewrite length_replicate.
    apply Z2Nat.id. by apply Z.leb_le. }
  set (p data := {| p_direction := Up; p_data := data; p_time := S754_zero false |}).
  exists [p big; p [Byte.x00; Byte.x00]; p [Byte.x01]].
  assert (wire (run_pump pump [p big; p [Byte.x00; Byte.x00]; p [Byte.x01]]) Up = big ++ [Byte.x01]) as ->.
  { unfold run_pump, pump. cbn -[zlen capture_limit extend Z.add Z.leb]. rewrite Hb. change (zlen []) with 0.
    replace (0 + (capture_limit - 1) <=? capture_limit) with true by (symmetry; by apply Z.leb_le).
    rewrite extend_same. cbn -[zlen capture_limit extend Z.add Z.leb]. rewrite Hb.
    change (zlen [Byte.x00; Byte.x00]) with 2. change (zlen [Byte.x01]) with 1.
    replace (capture_limit - 1 + 2 <=? capture_limit) with false by (symmetry; by apply Z.leb_gt).
    rewrite extend_same. cbn -[zlen capture_limit extend Z.add Z.leb]. rewrite Hb.
    replace (capture_limit - 1 + 1 <=? capture_limit) with true by (symmetry; by apply Z.leb_le).
    by rewrite !extend_same. }
  unfold received. rewrite !filter_cons_True, filter_nil by done. cbn.
  intros Hp. apply prefix_app_inv in Hp. by apply prefix_cons_inv_1 in Hp.
Qed.

(** ** Bursts *)

(** A burst stands for a run: consecutive events of one direction, with their bytes and the
    time of the first. *)
Definition run_bytes (r : list tap_event) : Z := foldr (λ e n, e_bytes e + n) 0 r.
Definition burst_run (b : burst) (r : list tap_event) : Prop :=
  Forall (λ e, e_direction e = b_direction b) r ∧ b_bytes b = run_bytes r ∧ Some (b_time b) = e_time <$> head r.
Fixpoint alternating (bs : list burst) : Prop :=
  match bs with
  | b :: tl => match tl with c :: _ => b_direction b ≠ b_direction c | [] => True end ∧ alternating tl
  | [] => True
  end.

Lemma run_bytes_snoc r e : run_bytes (r ++ [e]) = run_bytes r + e_bytes e.
Proof. induction r as [|x r IH]; cbn; [lia|]. unfold run_bytes in *. rewrite IH. lia. Qed.

(** Reading one event: the runs so far, the last one first, like the bursts. *)
Lemma add_event_runs bs rs e :
  Forall2 burst_run bs rs → alternating bs →
  ∃ rs', Forall2 burst_run (add_event bs e) rs' ∧ alternating (add_event bs e) ∧
    concat (rev rs') = concat (rev rs) ++ [e].
Proof.
  intros Hr Ha. assert (∀ d, d = {| b_direction := e_direction e; b_bytes := e_bytes e; b_time := e_time e |} → burst_run d [e]) as Hnew.
  { intros d ->. split; [by constructor|]. split; [cbn; lia|done]. }
  destruct Hr as [|b r bs rs (Hd & Hb & Ht) Hr]; cbn.
  { exists [[e]]. split; [constructor; [by apply Hnew|constructor]|done]. }
  destruct (decide (b_direction b = e_direction e)) as [He | He].
  - exists ((r ++ [e]) :: rs). split_and!.
    + constructor; [|done]. split; [|split]; cbn.
      * apply Forall_app. split; [done|]. by constructor.
      * by rewrite run_bytes_snoc, Hb.
      * rewrite Ht. by destruct r.
    + done.
    + cbn. by rewrite !concat_app, <- app_assoc; cbn; rewrite !app_nil_r.
  - exists ([e] :: r :: rs). split_and!.
    + constructor; [by apply Hnew|]. by constructor.
    + split; [by intros ?|done].
    + cbn. by rewrite !concat_app.
Qed.

Lemma alternating_snoc bs b : alternating (bs ++ [b]) ↔
  alternating bs ∧ match last bs with Some c => b_direction c ≠ b_direction b | None => True end.
Proof.
  induction bs as [|c bs IH]; [done|]. destruct bs as [|d bs]; [cbn; naive_solver|].
  change ((c :: d :: bs) ++ [b]) with (c :: (d :: bs) ++ [b]). cbn [alternating app] in *. rewrite IH. cbn [last]. naive_solver.
Qed.
Lemma alternating_rev bs : alternating bs → alternating (rev bs).
Proof.
  induction bs as [|b bs IH]; [done|]. cbn [rev]. intros [Hb Ha]. apply alternating_snoc. split; [by apply IH|].
  destruct bs as [|c bs]; [done|]. cbn [rev]. by rewrite last_snoc.
Qed.

(** C28. The bursts refine the events: for every list of events they are its division into
    maximal runs of one direction, in order - each burst has the bytes and the first time of
    its run, neighbours differ in direction, and the runs are the events. *)
Theorem bursts_refine es : ∃ runs, concat runs = es ∧ Forall2 burst_run (bursts_of es) runs ∧ alternating (bursts_of es).
Proof.
  assert (∃ rs, Forall2 burst_run (fold_left add_event es []) rs ∧ alternating (fold_left add_event es []) ∧
    concat (rev rs) = es) as (rs & Hr & Ha & He).
  { induction es as [|e es (rs & Hr & Ha & He)] using rev_ind; [by exists []|]. rewrite fold_left_app. cbn.
    destruct (add_event_runs _ _ e Hr Ha) as (rs' & ? & ? & Hc). exists rs'. by rewrite Hc, He. }
  exists (rev rs). split; [done|]. split; [|by apply alternating_rev]. unfold bursts_of. rewrite !rev_alt. by apply Forall2_reverse.
Qed.
