(* ===== verification/Relay.v ===== *)
(** * The threads of a tap

    [Capture] of [veil-core/scripts/probe.py]: one thread accepts and connects, and one per
    direction receives, keeps, counts and forwards.  A run is a list of moves, one per statement
    that touches what the threads share, in any order of the threads; what the capture then holds
    is what [pump] of Shapes.v makes of the pieces one after the other. *)

From S2P Require Import Prelude.
From S2P Require Import PyText.
From S2P Require Import PyBytes.
From S2P Require Import Numbers.
From S2P Require Import Shapes.
From Stdlib Require SpecFloat Strings.Byte.
#[local] Open Scope Z_scope.

(** ** The threads *)

(** What the thread of a direction does next, with the piece at hand. *)
Inductive phase :=
| Waiting
| Keeping (data : bytes)
| Counting (data : bytes)
| Sending (data : bytes)
| Leaving
| Finished.
#[export] Instance phase_eq_dec : EqDecision phase.
Proof. solve_decision. Defined.
(** What the thread of [run] does; [Over] is [done.is_set()]. *)
Inductive main_phase := Accepting | Connecting | Pumping | Over.
#[export] Instance main_phase_eq_dec : EqDecision main_phase.
Proof. solve_decision. Defined.

Record relay := {
  main : main_phase;
  tap : tap_state;                  (* [wire] and [events] *)
  taken : direction → bytes;        (* received from the source of a direction *)
  forwarded : direction → bytes;    (* sent to its destination *)
  at_ : direction → phase }.
Definition new_relay : relay :=
  {| main := Accepting; tap := empty_tap; taken := λ _, []; forwarded := λ _, []; at_ := λ _, Waiting |}.

Inductive move :=
| Accept_ok | Accept_error | Connect_ok | Connect_error | Join
| Recv (d : direction) (n : nat)      (* [src.recv(131072)] returns [n] bytes *)
| Recv_end (d : direction)            (* it returns none *)
| Recv_error (d : direction)
| Keep (d : direction)
| Count (d : direction) (time : float)
| Send_ok (d : direction)
| Send_error (d : direction) (n : nat) (* [n] bytes were sent before the error *)
| Shutdown (d : direction).           (* of the destination, which may fail *)

Definition set_main (m : main_phase) (s : relay) : relay :=
  {| main := m; tap := tap s; taken := taken s; forwarded := forwarded s; at_ := at_ s |}.
Definition set_tap (t : tap_state) (s : relay) : relay :=
  {| main := main s; tap := t; taken := taken s; forwarded := forwarded s; at_ := at_ s |}.
Definition go (d : direction) (p : phase) (s : relay) : relay :=
  {| main := main s; tap := tap s; taken := taken s; forwarded := forwarded s;
     at_ := λ x, if decide (x = d) then p else at_ s x |}.
Definition take_in (d : direction) (data : bytes) (s : relay) : relay :=
  {| main := main s; tap := tap s; taken := extend d data (taken s); forwarded := forwarded s; at_ := at_ s |}.
Definition send_out (d : direction) (data : bytes) (s : relay) : relay :=
  {| main := main s; tap := tap s; taken := taken s; forwarded := extend d data (forwarded s); at_ := at_ s |}.

(** [if len(self.wire[direction]) + len(data) <= 16 << 20: self.wire[direction].extend(data)] *)
Definition keep (d : direction) (data : bytes) (t : tap_state) : tap_state :=
  {| wire := if zlen (wire t d) + zlen data <=? capture_limit then extend d data (wire t) else wire t;
     events := events t; errors := errors t; ends := ends t |}.
Definition count_piece (x : piece) (t : tap_state) : tap_state :=
  {| wire := wire t; events := events t ++ [tap_event_of x]; errors := errors t; ends := ends t |}.
Definition piece_in (d : direction) (data : bytes) (time : float) : piece :=
  {| p_direction := d; p_data := data; p_time := time |}.

Definition recv_size : nat := Z.to_nat 131072.
Section threads.
(** All that the source of a direction will send. *)
Context (input : direction → bytes).

Definition pump_move (d : direction) (x : move) (s : relay) : option relay :=
  match x, at_ s d with
  | Recv _ n, Waiting =>
      let data := take n (drop (length (taken s d)) (input d)) in
      if decide (n ≠ 0%nat ∧ (n ≤ recv_size)%nat ∧ length data = n)
      then Some (go d (Keeping data) (take_in d data s)) else None
  | Recv_end _, Waiting => if decide (taken s d = input d) then Some (go d Leaving s) else None
  | Recv_error _, Waiting => Some (go d Leaving s)
  | Keep _, Keeping data => Some (go d (Counting data) (set_tap (keep d data (tap s)) s))
  | Count _ time, Counting data => Some (go d (Sending data) (set_tap (count_piece (piece_in d data time) (tap s)) s))
  | Send_ok _, Sending data => Some (go d Waiting (send_out d data s))
  | Send_error _ n, Sending data => Some (go d Leaving (send_out d (take n data) s))
  | Shutdown _, Leaving => Some (go d Finished s)
  | _, _ => None
  end.
(** A move of a thread that is not there to make it is none. *)
Definition relay_next (s : relay) (x : move) : option relay :=
  match x, main s with
  | Accept_ok, Accepting => Some (set_main Connecting s)
  | Accept_error, Accepting => Some (set_main Over s)
  | Connect_ok, Connecting => Some (set_main Pumping s)
  | Connect_error, Connecting => Some (set_main Over s)
  | Join, Pumping => if decide (at_ s Up = Finished ∧ at_ s Down = Finished) then Some (set_main Over s) else None
  | (Recv d _ | Recv_end d | Recv_error d | Keep d | Count d _ | Send_ok d | Send_error d _ | Shutdown d), Pumping =>
      pump_move d x s
  | _, _ => None
  end.
Definition run_relay (l : list move) : option relay :=
  fold_left (λ o x, s ← o; relay_next s x) l (Some new_relay).
End threads.

Example relay_1 : 
  let input d := match d with Up => [Byte.x01; Byte.x02; Byte.x03] | Down => [Byte.x04] end in
  let zero := SpecFloat.S754_zero false in
  (s ← run_relay input [Accept_ok; Connect_ok; Recv Up 2; Recv Down 1; Keep Up; Keep Down; Count Down zero; Send_ok Down;
                        Count Up zero; Recv_end Down; Send_ok Up; Shutdown Down; Recv Up 1; Keep Up; Count Up zero;
                        Send_error Up 0; Shutdown Up; Join];
   Some (map (λ e, (e_direction e, e_bytes e)) (events (tap s)), both (wire (tap s)), both (forwarded s), main s)) =
  Some ([(Down, 1); (Up, 2); (Up, 1)], [[Byte.x01; Byte.x02; Byte.x03]; [Byte.x04]], [[Byte.x01; Byte.x02]; [Byte.x04]], Over).
Proof. vm_compute. reflexivity. Qed.

(** ** What the threads hold *)
Section invariant.
Context (input : direction → bytes).

(** The pieces that were counted, and what a thread has in hand beyond them. *)
Definition in_hand (p : phase) : bytes := match p with Keeping data | Counting data => data | _ => [] end.
Definition unsent (p : phase) : bytes := match p with Keeping data | Counting data | Sending data => data | _ => [] end.
Definition kept_of (ps : list piece) (d : direction) (p : phase) : bytes :=
  match p with
  | Counting data => wire (keep d data (run_pump pump ps)) d
  | _ => wire (run_pump pump ps) d
  end.
Record thread_ok (ps : list piece) (clean : bool) (s : relay) (d : direction) : Prop := {
  ok_taken : taken s d = received d ps ++ in_hand (at_ s d);
  ok_wire : wire (tap s) d = kept_of ps d (at_ s d);
  ok_input : taken s d `prefix_of` input d;
  ok_sent : match at_ s d with
            | Leaving | Finished => forwarded s d `prefix_of` taken s d ∧ (clean = true → forwarded s d = input d)
            | p => forwarded s d ++ unsent p = taken s d
            end }.

Definition fails_in (d : direction) (x : move) : bool :=
  match x with Recv_error e | Send_error e _ => bool_decide (e = d) | _ => false end.
Definition clean (d : direction) (l : list move) : bool := negb (existsb (fails_in d) l).
Lemma clean_snoc d l x : clean d (l ++ [x]) = clean d l && negb (fails_in d x).
Proof. unfold clean. rewrite existsb_app. cbn. by rewrite orb_false_r, negb_orb. Qed.

Definition relay_ok (l : list move) (s : relay) : Prop :=
  ∃ ps, events (tap s) = map tap_event_of ps ∧ (∀ d, thread_ok ps (clean d l) s d) ∧
    match main s with
    | Pumping => True
    | Over => ∀ d, at_ s d = Finished ∨ at_ s d = Waiting
    | _ => ∀ d, at_ s d = Waiting
    end.

Lemma keep_wire d data t : wire (keep d data t) d =
  if zlen (wire t d) + zlen data <=? capture_limit then wire t d ++ data else wire t d.
Proof. unfold keep. cbn. destruct (_ <=? _); [apply extend_same|done]. Qed.
Lemma keep_other d e data t : e ≠ d → wire (keep d data t) e = wire t e.
Proof. intros. unfold keep. cbn. destruct (_ <=? _); [by apply extend_other|done]. Qed.
Lemma pump_wire ps d data time : wire (run_pump pump (ps ++ [piece_in d data time])) d = wire (keep d data (run_pump pump ps)) d.
Proof. by rewrite run_pump_snoc. Qed.
Lemma pump_wire_other ps d e data time : e ≠ d →
  wire (run_pump pump (ps ++ [piece_in d data time])) e = wire (run_pump pump ps) e.
Proof. intros. rewrite run_pump_snoc. cbn. destruct (_ <=? _); [by apply extend_other|done]. Qed.

(** The thread of the other direction does not notice. *)
Lemma kept_of_more ps d e data time p : e ≠ d → kept_of (ps ++ [piece_in d data time]) e p = kept_of ps e p.
Proof. intros Hne. unfold kept_of. destruct p; rewrite ?keep_wire, pump_wire_other by done; done. Qed.
Lemma thread_more ps d e data time c s : e ≠ d → thread_ok ps c s e → thread_ok (ps ++ [piece_in d data time]) c s e.
Proof.
  intros Hne [H1 H2 H3 H4]. split; [|by rewrite kept_of_more|done|done].
  rewrite received_snoc, decide_False by (cbn; congruence). by rewrite app_nil_r.
Qed.
Lemma thread_same ps c c' s s' e :
  taken s' e = taken s e → wire (tap s') e = wire (tap s) e → forwarded s' e = forwarded s e → at_ s' e = at_ s e →
  (c' = true → c = true) → thread_ok ps c s e → thread_ok ps c' s' e.
Proof.
  intros Ht Hw Hf Ha Hc [H1 H2 H3 H4]. split; rewrite ?Ht, ?Hw, ?Hf, ?Ha; try done.
  destruct (at_ s e); try done; destruct H4; naive_solver.
Qed.

Definition direction_of (x : move) : option direction :=
  match x with
  | Recv d _ | Recv_end d | Recv_error d | Keep d | Count d _ | Send_ok d | Send_error d _ | Shutdown d => Some d
  | _ => None
  end.
(** A statement of a pump thread. *)
Lemma pump_move_ok ps l d x s s' : direction_of x = Some d → pump_move input d x s = Some s' →
  events (tap s) = map tap_event_of ps → (∀ e, thread_ok ps (clean e l) s e) →
  main s' = main s ∧ ∃ ps', events (tap s') = map tap_event_of ps' ∧ ∀ e, thread_ok ps' (clean e (l ++ [x])) s' e.
Proof.
  intros Hx Hs He Ht. pose proof (Ht d) as [H1 H2 H3 H4].
  assert (∀ e, clean e (l ++ [x]) = true → clean e l = true) as Hcl.
  { intros e. rewrite clean_snoc. by intros [? _]%andb_true_iff. }
  assert (∀ ps' s1, (∀ e, e ≠ d → taken s1 e = taken s e ∧ wire (tap s1) e = wire (tap s) e ∧
      forwarded s1 e = forwarded s e ∧ at_ s1 e = at_ s e) →
    (ps' = ps ∨ ∃ data time, ps' = ps ++ [piece_in d data time]) → thread_ok ps' (clean d (l ++ [x])) s1 d →
    ∀ e, thread_ok ps' (clean e (l ++ [x])) s1 e) as Hall.
  { intros ps' s1 Ho Hps Hd e. destruct (decide (e = d)) as [->|Hne]; [done|].
    destruct (Ho e Hne) as (? & ? & ? & ?). apply (thread_same ps' (clean e l) _ s); try done; [by apply Hcl|].
    destruct Hps as [-> | (data & time & ->)]; [apply Ht|apply thread_more; [done|apply Ht]]. }
  assert (∀ p s1 e, e ≠ d → at_ (go d p s1) e = at_ s1 e) as Hgo by (intros; cbn; by rewrite decide_False).
  destruct x; try done; injection Hx as ->; unfold pump_move in Hs; destruct (at_ s d) as [|data|data|data| |] eqn:Hp; try done;
    try (case_decide as Hcond; [|done]); injection Hs as <-; (split; [done|]).
  - exists ps. split; [done|]. apply Hall; [|by left|].
    { intros e Hne. cbn. by rewrite extend_other, decide_False. }
    destruct Hcond as (_ & _ & Hlen). split; cbn; rewrite ?extend_same, ?decide_True by done; cbn.
    + cbn in H1. by rewrite app_nil_r in H1; rewrite H1.
    + exact H2.
    + destruct H3 as [rest Hr]. rewrite Hr, drop_app_length. exists (drop n rest). by rewrite <- app_assoc, take_drop.
    + cbn in H4. rewrite app_nil_r in H4. by rewrite H4.
  - exists ps. split; [done|]. apply Hall; [intros e Hne; cbn; by rewrite decide_False|by left|].
    split; cbn; rewrite ?decide_True by done; cbn; try done.
    cbn in H4. rewrite app_nil_r in H4. rewrite H4. by split.
  - exists ps. split; [done|]. apply Hall; [intros e Hne; cbn; by rewrite decide_False|by left|].
    split; cbn; rewrite ?decide_True by done; cbn; try done.
    cbn in H4. rewrite app_nil_r in H4. rewrite H4. split; [done|]. rewrite clean_snoc. cbn.
    rewrite bool_decide_true by done. by rewrite andb_false_r.
  - exists ps. split; [done|]. apply Hall; [intros e Hne; split_and!; [done|exact (keep_other d e data (tap s) Hne)|done|by rewrite Hgo]|by left|].
    split; cbn; rewrite ?decide_True by done; cbn; try done.
    pose proof (keep_wire d data (tap s)) as Hk. pose proof (keep_wire d data (run_pump pump ps)) as Hk'. cbn in Hk, Hk'.
    rewrite Hk, Hk'. cbn in H2. by rewrite H2.
  - exists (ps ++ [piece_in d data time]). split; [by cbn; rewrite He, map_app|].
    apply Hall; [intros e Hne; cbn; by rewrite decide_False|right; by eexists _, _|].
    split; cbn; rewrite ?decide_True by done; cbn; try done.
    + rewrite received_snoc, decide_True by done. cbn. by rewrite app_nil_r.
    + by rewrite pump_wire.
  - exists ps. split; [done|]. apply Hall; [intros e Hne; cbn; by rewrite extend_other, decide_False|by left|].
    split; cbn; rewrite ?extend_same, ?decide_True by done; cbn; try done. by rewrite app_nil_r.
  - exists ps. split; [done|]. apply Hall; [intros e Hne; cbn; by rewrite extend_other, decide_False|by left|].
    split; cbn; rewrite ?extend_same, ?decide_True by done; cbn; try done. split.
    + rewrite <- H4. exists (drop n data). by rewrite <- app_assoc, take_drop.
    + rewrite clean_snoc. cbn. rewrite bool_decide_true by done. by rewrite andb_false_r.
  - exists ps. split; [done|]. apply Hall; [intros e Hne; cbn; by rewrite decide_False|by left|].
    split; cbn; rewrite ?decide_True by done; cbn; try done. destruct H4 as [? H5]. split; [done|]. intros Hc. by apply H5, Hcl.
Qed.
Lemma relay_next_ok l s x s' : relay_ok l s → relay_next input s x = Some s' → relay_ok (l ++ [x]) s'.
Proof.
  intros (ps & He & Ht & Hm) Hs.
  assert (∀ m, direction_of x = None → match m with
      | Pumping => True | Over => ∀ d, at_ s d = Finished ∨ at_ s d = Waiting | _ => ∀ d, at_ s d = Waiting end →
    relay_ok (l ++ [x]) (set_main m s)) as Hmain.
  { intros m Hx Hw. exists ps. split; [done|]. split; [|by destruct m]. intros d.
    apply (thread_same ps (clean d l) _ s); try done. rewrite clean_snoc. by intros [? _]%andb_true_iff. }
  assert (∀ d, direction_of x = Some d → main s = Pumping → pump_move input d x s = Some s' → relay_ok (l ++ [x]) s') as Hpump.
  { intros d Hx Hp Hd. destruct (pump_move_ok ps l d x s s' Hx Hd He Ht) as (Hms & ps' & He' & Ht').
    exists ps'. split; [done|]. split; [done|]. by rewrite Hms, Hp. }
  unfold relay_next in Hs. destruct x; destruct (main s) eqn:Hms; try done; try (by eapply Hpump);
    try (case_decide as Hc; [|done]); injection Hs as <-; apply Hmain; try done; cbn; try (intros d; right; apply Hm).
  intros []; left; apply Hc.
Qed.
Lemma run_relay_ok l s : run_relay input l = Some s → relay_ok l s.
Proof.
  revert s. induction l as [|x l IH] using rev_ind; intros s.
  - intros [= <-]. exists []. split; [done|]. split; [|done]. intros d. split; try done. by exists (input d).
  - unfold run_relay. rewrite fold_left_app. cbn. fold (run_relay input l). intros Hs.
    destruct (run_relay input l) as [s1|]; [|done]. eapply relay_next_ok; [by apply IH|exact Hs].
Qed.
Lemma events_pump ps : events (run_pump pump ps) = map tap_event_of ps.
Proof. induction ps as [|x ps IH] using rev_ind; [done|]. by rewrite run_pump_snoc, map_app, <- IH. Qed.
End invariant.

(** C36. The threads of a capture, in every order of their statements and whatever fails: at any
    time what was counted and what was forwarded of a direction is a prefix of what was received,
    which is a prefix of what the source sends; and when the capture is done it holds exactly
    what the sequential [pump] makes of the pieces in the order in which they were counted - no
    piece is lost, doubled or attributed to the other direction by the interleaving, and a
    direction of at most 16 MiB is kept whole.  Without an error in its thread everything a
    source sent has been received, counted and forwarded. *)
Theorem relay_refines input l s : run_relay input l = Some s → ∃ ps,
  events (tap s) = events (run_pump pump ps) ∧
  (∀ d, received d ps `prefix_of` taken s d ∧ forwarded s d `prefix_of` taken s d ∧ taken s d `prefix_of` input d) ∧
  (main s = Over → ∀ d,
     wire (tap s) d = wire (run_pump pump ps) d ∧ received d ps = taken s d ∧
     (zlen (taken s d) <= 2 ^ 24 → wire (tap s) d = taken s d) ∧
     (at_ s d = Finished → clean d l = true → forwarded s d = input d ∧ taken s d = input d)).
Proof.
  intros (ps & He & Ht & Hm)%run_relay_ok. exists ps. rewrite events_pump. split; [done|]. split.
  - intros d. destruct (Ht d) as [H1 _ H3 H4]. split; [rewrite H1; by eexists|]. split; [|done].
    destruct (at_ s d); try (by destruct H4); rewrite <- H4; by eexists.
  - intros Ho d. rewrite Ho in Hm. destruct (Ht d) as [H1 H2 H3 H4].
    assert (in_hand (at_ s d) = [] ∧ kept_of ps d (at_ s d) = wire (run_pump pump ps) d) as [Hi Hk] by (by destruct (Hm d) as [-> | ->]).
    rewrite Hi, app_nil_r in H1. rewrite Hk in H2. split; [done|]. split; [done|]. split.
    + rewrite H2, H1. apply pump_kept.
    + intros Hf Hc. rewrite Hf in H4. destruct H4 as [Hp Hs]. specialize (Hs Hc). split; [done|].
      rewrite Hs in Hp. apply (anti_symm prefix); done.
Qed.

(** Two directions at once, each in one piece, ended by the sources. *)
Definition sample_input (d : direction) : bytes := match d with Up => [Byte.x01; Byte.x02] | Down => [Byte.x03] end.
Definition sample_moves : list move :=
  let zero := SpecFloat.S754_zero false in
  [Accept_ok; Connect_ok; Recv Up 2; Recv Down 1; Keep Down; Keep Up; Count Up zero; Count Down zero; Send_ok Down;
   Send_ok Up; Recv_end Up; Recv_end Down; Shutdown Up; Shutdown Down; Join].
Lemma relay_refines_witness : ∃ s, run_relay sample_input sample_moves = Some s ∧ main s = Over ∧
  both (forwarded s) = both sample_input ∧ ∃ ps, events (tap s) = events (run_pump pump ps).
Proof.
  destruct (run_relay sample_input sample_moves) as [s|] eqn:Hs.
  - exists s. split; [reflexivity|]. split; [by vm_compute in Hs; injection Hs as <-|].
    split; [by vm_compute in Hs; injection Hs as <-|].
    destruct (relay_refines sample_input sample_moves s Hs) as (ps & He & _). by exists ps.
  - exfalso. vm_compute in Hs. discriminate Hs.
Defined.
