(* ===== verification/Machine.v ===== *)
(** * The machine the measurements run on

    Processes, files, control pipes and ports as the scripts see them: every system call
    is a [call] that the operating system answers from the history of the calls before it
    ([Os]), and the world keeps what this program holds - the processes it has not reaped,
    the text files and the descriptors it has not closed.  A theorem for every [Os] covers
    every order of answers, failures included. *)

From S2P Require Import Prelude.
From S2P Require Import PyText.
From S2P Require Import PyBytes.
From S2P Require Import Json.
From S2P Require Import FileSystem.
From S2P Require Import Tools.
From S2P Require Import Numbers.
From S2P Require Import Shapes.
#[local] Open Scope Z_scope.

(** ** System calls *)

(** Where a standard stream of a process goes. *)
Inductive stream := Inherit | DevNull | Pipe | ToFile (h : nat).
#[export] Instance stream_eq_dec : EqDecision stream.
Proof. solve_decision. Defined.

Record popen := {
  cmd : list string; penv : option env; stdin : stream; stdout : stream; stderr : stream;
  new_session : bool }.

(** A process or a file is named by the number this program gave it, a capture by its
    port; times are in milliseconds. *)
Inductive call : Type → Type :=
| FreePort : call Z
| Connect (host : string) (port timeout : Z) : call ()
| Sleep (time : Z) : call ()
| Popen (o : popen) : call Z
| Poll (p : nat) : call (option Z)
| Terminate (p : nat) : call ()
| Kill (p : nat) : call ()
| Wait (p : nat) (timeout : option Z) : call Z
| Ready (p : nat) (timeout : Z) : call bool
| Readline (p : nat) : call string
| Send (p : nat) (text : string) : call ()
| CloseInput (p : nat) : call ()
| Run (check : bool) (c : command) : call ()
| CheckOutput (c : command) : call string
| Open (p : path) (mode : string) : call ()
| Write (h : nat) (text : string) : call ()
| Flush (h : nat) : call ()
| Rewind (h : nat) : call ()
| ReadOpen (h : nat) : call string
| Close (h : nat) : call ()
| ReadText (p : path) : call string
| WriteText (p : path) (text : string) : call ()
| Chmod (p : path) (mode : Z) : call ()
| Mkdir (p : path) (parents exist_ok : bool) : call ()
| Exists (p : path) : call bool
| Unlink (p : path) : call ()
| Mkfifo (p : path) : call ()
| OpenFifo (p : path) : call ()
| WriteFd (h : nat) (text : string) : call ()
| SelectFd (h : nat) (timeout : Z) : call bool
| ReadFd (h : nat) (size : Z) : call string
| CloseFd (h : nat) : call ()
| Dial (host : string) (port timeout : Z) : call ()
| Listen : call Z
| Accept (h : nat) : call ()
| SetTimeout (h : nat) (time : Z) : call ()
| SendAll (h : nat) (data : bytes) : call ()
| Recv (h : nat) (size : Z) : call bytes
| ShutdownWrite (h : nat) : call ()
| WrapTls (h : nat) (cafile name : string) : call ()
| PeerCertificate (h : nat) : call bytes
| TlsSession (h : nat) : call (string * string * option string)
| Unwrap (h : nat) : call ()
| HttpRead (h : nat) : call (Z * bytes)
| ServeSite (cert key : string) : call Z
| StopSite (port : Z) : call ()
| ServeEcho (h : nat) : call ()
| Communicate (p : nat) (timeout : Z) : call (string * Z)
| KillGroup (pid : Z) : call ()
| RunCaptured (argv : list string) (input : option string) (timeout : Z) : call (Z * string * string)
| RunFor (argv : list string) (input : option bytes) (quiet : bool) (timeout : option Z) : call Z
| CheckBytes (argv : list string) (input : option bytes) : call bytes
| TempFolder (prefix : string) (dir : path) : call path
| RemoveTree (p : path) : call ()
| Now : call float
| Getpid : call Z
| Urandom (size : Z) : call bytes
| ReadInput : call string
| Print (text : string) : call ()
| TapOpen (port : Z) : call Z
| TapPieces (tap : Z) : call (list piece)
| TapDone (tap : Z) (timeout : Z) : call bool
| TapWire (tap : Z) : call (list (string * bytes))
| TapClose (tap : Z) : call ()
| GroupOpen (port : Z) (delay : num) : call Z
| GroupSteps (tap : Z) : call (list group_step)
| GroupStop (tap : Z) : call bool
| Sysconf (name : string) : call Z
| Which (name : string) : call bool
| Glob (p : path) (pattern : string) : call (list path)
| Rglob (p : path) : call (list path)
| IsFile (p : path) : call bool
| Resolve (p : path) : call path
| ReadLink (p : path) : call string
| ReadBytes (p : path) : call string
| Affinity : call (list Z)
| Stat (p : path) : call (Z * Z)
| UserId (name : string) : call Z
| ExtractArchive (p dest : path) : call ()
| RunEnv (argv : list string) (e : env) : call (Z * string * string)
| Symlink (p target : path) : call ()
| Iterdir (p : path) : call (list path)
| CopyFile (p q : path) : call ()
| OpenUrl (url : string) (timeout : Z) : call ()
| ConnectEx (host : string) (port timeout : Z) : call Z
| BindHttp : call Z
| WrapHttp (port : Z) (cert key : path) : call ()
| ServeHttp (port : Z) : call ()
| ShutdownHttp (port : Z) : call ()
| CloseHttp (port : Z) : call ()
| InetQuery (ids : list Z) : call (Z * list (Z * string))
| InetSet (number : Z) (texts : list (Z * string)) : call ()
| InetNotify (option : Z) : call ()
| GlobalFree (pointer : Z) : call ()
| FindWindow (title : string) : call (option Z)
| WindowVisible (h : Z) : call Z
| WindowRect (h : Z) : call (Z * Z * Z * Z)
| ShowWindow (h : option Z) (command : Z) : call ()
| MoveWindow (h : option Z) (rect : Z * Z * Z * Z) : call ()
| PostMessage (h : option Z) (message wparam lparam : Z) : call ()
| Release : call string.

Record event := Event { answer : Type; question : call answer; reply : result answer }.

(** What the operating system answers after the calls so far, the last one first. *)
Class Os := os : ∀ A, list event → call A → result A.
Arguments os {_} {A} past c.

Record world := {
  past : list event;
  fresh : nat;
  running : gmap nat popen;   (* the processes not reaped *)
  codes : gmap nat Z;         (* the exit codes of the others *)
  texts : gmap nat path;      (* the open text files *)
  fds : gmap nat path }.      (* the open descriptors *)

(** A process, as [subprocess.Popen] returns it. *)
Record proc := { p_id : nat; pid : Z; args : list string }.

Definition nothing : world :=
  {| past := []; fresh := 0; running := ∅; codes := ∅; texts := ∅; fds := ∅ |}.

Section machine.
Context `{Os}.

Definition ask {A} (c : call A) : py world A := λ w,
  let r := os (past w) c in
  (r, {| past := Event A c r :: past w; fresh := fresh w; running := running w;
         codes := codes w; texts := texts w; fds := fds w |}).

(** ** Processes *)
Definition started (o : popen) (w : world) : world :=
  {| past := past w; fresh := S (fresh w); running := <[fresh w := o]> (running w);
     codes := delete (fresh w) (codes w); texts := texts w; fds := fds w |}.
Definition reaped (p : nat) (code : Z) (w : world) : world :=
  {| past := past w; fresh := fresh w; running := delete p (running w);
     codes := <[p := code]> (codes w); texts := texts w; fds := fds w |}.

Definition popen_proc (o : popen) : py world proc :=
  id ← gets fresh;
  pid ← ask (Popen o);
  modify (started o);;
  mret {| p_id := id; pid := pid; args := cmd o |}.

(** The exit code is kept once it is known. *)
Definition returncode (p : proc) : py world (option Z) := gets (λ w, codes w !! p_id p).
Definition poll (p : proc) : py world (option Z) :=
  known ← returncode p;
  match known with
  | Some c => mret (Some c)
  | None =>
      r ← ask (Poll (p_id p));
      match r with Some c => modify (reaped (p_id p) c);; mret (Some c) | None => mret None end
  end.
Definition wait (p : proc) (timeout : option Z) : py world Z :=
  known ← returncode p;
  match known with
  | Some c => mret c
  | None => c ← ask (Wait (p_id p) timeout); modify (reaped (p_id p) c);; mret c
  end.
(** [output, _ = p.communicate(timeout)] of a process just started *)
Definition communicate (p : proc) (timeout : Z) : py world string :=
  '(output, c) ← ask (Communicate (p_id p) timeout);
  modify (reaped (p_id p) c);;
  mret output.
(** [terminate] and [kill] send nothing to a process that has exited. *)
Definition signal (c : call ()) (p : proc) : py world () :=
  r ← poll p; match r with Some _ => mret () | None => ask c end.
Definition terminate (p : proc) : py world () := signal (Terminate (p_id p)) p.
Definition kill (p : proc) : py world () := signal (Kill (p_id p)) p.

(** ** Text files and descriptors *)
Definition opened (p : path) (w : world) : world :=
  {| past := past w; fresh := S (fresh w); running := running w; codes := codes w;
     texts := <[fresh w := p]> (texts w); fds := fds w |}.
Definition closed (h : nat) (w : world) : world :=
  {| past := past w; fresh := fresh w; running := running w; codes := codes w;
     texts := delete h (texts w); fds := fds w |}.
Definition fd_opened (p : path) (w : world) : world :=
  {| past := past w; fresh := S (fresh w); running := running w; codes := codes w;
     texts := texts w; fds := <[fresh w := p]> (fds w) |}.
Definition fd_closed (h : nat) (w : world) : world :=
  {| past := past w; fresh := fresh w; running := running w; codes := codes w;
     texts := texts w; fds := delete h (fds w) |}.

Definition open_text (p : path) (mode : string) : py world nat :=
  id ← gets fresh; ask (Open p mode);; modify (opened p);; mret id.
(** Closing a closed file does nothing; a failing [close] has closed the descriptor. *)
Definition close_text (h : nat) : py world () :=
  o ← gets (λ w, texts w !! h);
  match o with Some _ => modify (closed h);; ask (Close h) | None => mret () end.
Definition open_fifo (p : path) : py world nat :=
  id ← gets fresh; ask (OpenFifo p);; modify (fd_opened p);; mret id.
(** [os.close]: a descriptor that is not open is an error. *)
Definition bad_descriptor : exn := OSError "Bad file descriptor".
Definition close_fd (h : nat) : py world () :=
  o ← gets (λ w, fds w !! h);
  match o with Some _ => modify (fd_closed h);; ask (CloseFd h) | None => raise bad_descriptor end.

(** [os.write], [select.select] and [os.read] of a descriptor *)
Definition on_fd {A} (h : nat) (c : call A) : py world A :=
  o ← gets (λ w, fds w !! h);
  match o with Some _ => ask c | None => raise bad_descriptor end.

(** [root / text]: an absolute text replaces the root. *)
Definition join_path (root : path) (text : string) : path :=
  match drop_prefix "/" text with Some t => split "/" t | None => sub root text end.

(** [with open(path, mode) as file: file.write(text)] *)
Definition write_to (p : path) (mode text : string) : py world () :=
  h ← open_text p mode; try_finally (ask (Write h text)) (close_text h).

(** [json.loads(path.read_text())] *)
Definition read_json (p : path) : py world json := text ← ask (ReadText p); lift (loads text).
End machine.

(** ** Documented behaviour

    Signals and the closing of a file do not fail, [poll] answers, and a [wait] without a
    timeout returns. *)
Class Calm `(Os) : Prop := {
  calm_poll : ∀ h p, is_ok (os h (Poll p)) = true;
  calm_terminate : ∀ h p, os h (Terminate p) = Ok ();
  calm_kill : ∀ h p, os h (Kill p) = Ok ();
  calm_wait : ∀ h p, is_ok (os h (Wait p None)) = true;
  calm_timeout : ∀ h p t e, os h (Wait p (Some t)) = Err e → e = TimeoutExpired;
  calm_close : ∀ h f, os h (Close f) = Ok ();
  calm_close_fd : ∀ h f, os h (CloseFd f) = Ok () }.

(** ** What a step leaves alone

    A process with an exit code is not running; the descriptors are numbered. *)
Definition tidy (w : world) : Prop :=
  (∀ i, is_Some (codes w !! i) → running w !! i = None) ∧
  (∀ i, is_Some (fds w !! i) → (i < fresh w)%nat).

Lemma nothing_tidy : tidy nothing.
Proof. split; cbn; intros i; rewrite lookup_empty; by intros [? [=]]. Qed.

(** Nothing beyond [R] runs, nothing beyond [T] is open, the descriptors are [F]. *)
Definition frame (R : gmap nat popen) (T F : gmap nat path) (w : world) : Prop :=
  tidy w ∧ running w ⊆ R ∧ texts w ⊆ T ∧ fds w = F.

(** A quiet computation starts no process and opens nothing. *)
Abbreviation quiet m := (∀ R T F, keeps (frame R T F) m).

Section quiet.
Context `{Os}.

Lemma ask_quiet {A} (c : call A) : quiet (ask c).
Proof. intros R T F w Hw. unfold ask. by destruct (os (past w) c). Qed.

Lemma frame_reaped R T F p c w : frame R T F w → frame R T F (reaped p c w).
Proof.
  intros ([Hc Hf] & HR & ? & ?). split; [|split; [|done]].
  - split; [|done]. intros i [x Hi]. cbn in *. destruct (decide (i = p)) as [->|Hne].
    + by rewrite lookup_delete_eq.
    + rewrite lookup_insert_ne in Hi by done. rewrite lookup_delete_ne by done. eauto.
  - cbn. etrans; [apply delete_subseteq|done].
Qed.

Lemma frame_closed R T F h w : frame R T F w → frame R T F (closed h w).
Proof.
  intros (? & ? & ? & ?). split; [done|]. split; [done|]. split; [|done].
  cbn. etrans; [apply delete_subseteq|done].
Qed.

Lemma reaped_quiet p c : quiet (modify (reaped p c)).
Proof. intros R T F w Hw. by apply frame_reaped. Qed.
Lemma closed_quiet h : quiet (modify (closed h)).
Proof. intros R T F w Hw. by apply frame_closed. Qed.
#[local] Hint Resolve ask_quiet reaped_quiet closed_quiet : within.

Lemma poll_quiet p : quiet (poll p).
Proof. intros R T F. unfold poll, returncode. solve_within. Qed.
Lemma wait_quiet p t : quiet (wait p t).
Proof. intros R T F. unfold wait, returncode. solve_within. Qed.
Lemma communicate_quiet p t : quiet (communicate p t).
Proof. intros R T F. unfold communicate. solve_within. Qed.
#[local] Hint Resolve poll_quiet : within.
Lemma signal_quiet c p : quiet (signal c p).
Proof. intros R T F. unfold signal. solve_within. Qed.
Lemma close_text_quiet h : quiet (close_text h).
Proof. intros R T F. unfold close_text. solve_within. Qed.
Lemma on_fd_quiet {A} h (c : call A) : quiet (on_fd h c).
Proof. intros R T F. unfold on_fd. solve_within. Qed.
Lemma mapM_quiet {A B} (f : A → py world B) l : (∀ x, quiet (f x)) → quiet (mapM_py f l).
Proof. intros Hf R T F. apply within_mapM. intros x _. apply Hf. Qed.
Lemma read_json_quiet p : quiet (read_json p).
Proof. intros R T F. unfold read_json. solve_within. Qed.
End quiet.
#[export] Hint Resolve ask_quiet communicate_quiet poll_quiet wait_quiet signal_quiet close_text_quiet on_fd_quiet
  read_json_quiet : within.

(** ** Runs on a calm machine *)

(** [w'] is [w] after calls: what is held is the same. *)
Definition same (w w' : world) : Prop :=
  tidy w' ∧ running w' = running w ∧ texts w' = texts w ∧ fds w' = fds w ∧ codes w' = codes w ∧ fresh w' = fresh w.
(** [w'] is [w] without the process [p]. *)
Definition without (p : nat) (w w' : world) : Prop :=
  tidy w' ∧ running w' = delete p (running w) ∧ texts w' = texts w ∧ fds w' = fds w ∧ fresh w' = fresh w.

Section calm.
Context `{Calm}.

Lemma ask_run {A} (c : call A) w : tidy w → ∃ w', ask c w = (os (past w) c, w') ∧ same w w'.
Proof. intros Hw. eexists. split; [reflexivity|]. repeat split; apply Hw. Qed.

Lemma reaped_without p c w : tidy w → without p w (reaped p c w).
Proof.
  intros Hw. assert (frame (running w) (texts w) (fds w) w) as Hf by done.
  by destruct (frame_reaped _ _ _ p c w Hf).
Qed.

Lemma known_without p w : tidy w → is_Some (codes w !! p) → without p w w.
Proof. intros Hw Hc. repeat split; try apply Hw. rewrite delete_id; [done|]. by apply Hw. Qed.

Lemma without_same p w1 w2 w3 : same w1 w2 → without p w2 w3 → without p w1 w3.
Proof.
  intros (_ & Hr & Ht & Hf & _ & Hn) (? & Hr' & Ht' & Hf' & Hn'). split; [done|].
  by rewrite Hr', Hr, Ht', Ht, Hf', Hf, Hn', Hn.
Qed.

Lemma same_trans w1 w2 w3 : same w1 w2 → same w2 w3 → same w1 w3.
Proof.
  intros (_ & Hr & Ht & Hf & Hc & Hn) (? & Hr' & Ht' & Hf' & Hc' & Hn'). split; [done|].
  by rewrite Hr', Hr, Ht', Ht, Hf', Hf, Hc', Hc, Hn', Hn.
Qed.

(** [poll] answers: the process has exited and is reaped, or it runs. *)
Lemma poll_run p w : tidy w → ∃ r w', poll p w = (Ok r, w') ∧
  match r with Some _ => without (p_id p) w w' | None => same w w' end.
Proof.
  intros Hw. unfold poll, returncode, gets, mbind, py_bind.
  destruct (codes w !! p_id p) as [c|] eqn:Hc.
  - exists (Some c), w. split; [done|]. by apply known_without.
  - pose proof (calm_poll (past w) (p_id p)) as Ho.
    destruct (ask_run (Poll (p_id p)) w Hw) as (w1 & -> & Hs).
    destruct (os (past w) (Poll (p_id p))) as [[c|]|]; [| |done].
    + exists (Some c), (reaped (p_id p) c w1). split; [done|].
      apply (without_same _ w w1); [done|]. apply reaped_without, Hs.
    + by exists None, w1.
Qed.

(** [wait] returns with the process reaped, or its timeout has passed. *)
Lemma wait_run p t w : tidy w → ∃ r w', wait p t w = (r, w') ∧
  match r with
  | Ok _ => without (p_id p) w w'
  | Err e => e = TimeoutExpired ∧ t ≠ None ∧ same w w'
  end.
Proof.
  intros Hw. unfold wait, returncode, gets, mbind, py_bind.
  destruct (codes w !! p_id p) as [c|] eqn:Hc.
  - exists (Ok c), w. split; [done|]. by apply known_without.
  - destruct (ask_run (Wait (p_id p) t) w Hw) as (w1 & -> & Hs).
    pose proof (calm_wait (past w) (p_id p)) as Hn. pose proof (calm_timeout (past w) (p_id p)) as Ht.
    destruct (os (past w) (Wait (p_id p) t)) as [c|e] eqn:Ho.
    + exists (Ok c), (reaped (p_id p) c w1). split; [done|].
      apply (without_same _ w w1); [done|]. apply reaped_without, Hs.
    + exists (Err e), w1. split; [done|]. destruct t as [t|]; [|by rewrite Ho in Hn].
      split; [by eapply Ht|done].
Qed.

(** A signal to a process that runs or has just exited. *)
Lemma signal_run c p w : tidy w → (∀ h, os h c = Ok ()) →
  ∃ w', signal c p w = (Ok (), w') ∧ (same w w' ∨ without (p_id p) w w').
Proof.
  intros Hw Hc. unfold signal, mbind, py_bind.
  destruct (poll_run p w Hw) as ([x|] & w1 & -> & H1); [exists w1; by split; [|right]|].
  destruct (ask_run c w1) as (w2 & -> & H2); [apply H1|]. rewrite Hc.
  exists w2. split; [done|left]. by eapply same_trans.
Qed.

(** At most [p] is gone. *)
Definition at_most (p : nat) (w w' : world) : Prop := same w w' ∨ without p w w'.

Lemma without_at_most p w1 w2 w3 : without p w1 w2 → at_most p w2 w3 → without p w1 w3.
Proof.
  intros (_ & Hr & Ht & Hf & Hn) [(? & Hr' & Ht' & Hf' & _ & Hn') | (? & Hr' & Ht' & Hf' & Hn')];
    (split; [done|]); rewrite Hr', Hr, Ht', Ht, Hf', Hf, Hn', Hn; [done|]. by rewrite delete_delete_eq.
Qed.
Lemma at_most_trans p w1 w2 w3 : at_most p w1 w2 → at_most p w2 w3 → at_most p w1 w3.
Proof.
  intros [H1 | H1] H2.
  - destruct H2 as [H2 | H2]; [left; by eapply same_trans|right; by eapply without_same].
  - right. by eapply without_at_most.
Qed.
Lemma at_most_without p w1 w2 w3 : at_most p w1 w2 → without p w2 w3 → without p w1 w3.
Proof. intros [H1 | H1] H2; [by eapply without_same|eapply without_at_most; [exact H1|by right]]. Qed.
Lemma at_most_tidy p w w' : at_most p w w' → tidy w'.
Proof. by intros [H1 | H1]; destruct H1. Qed.
End calm.
