(* ===== verification/Sockets.v ===== *)
(** * Sockets

    The clients of the tests: connections as descriptors of the machine, the exact reads of
    [traffic_shapes.receive], [network_smoke.read] and [browser_hello.read_exact], and the
    SOCKS and TLS handshakes of [traffic_shapes.connect]. *)

From S2P Require Import Prelude.
From S2P Require Import PyText.
From S2P Require Import PyBytes.
From S2P Require Import FileSystem.
From S2P Require Import Machine.
From Stdlib Require Import Ascii Strings.Byte.
#[local] Open Scope Z_scope.

Definition socket_name : path := ["socket"].
Definition crlf : string := String (ascii_of_N 13) nl.
(** [s.encode()] *)
Definition encode (s : string) : bytes := map byte_of_ascii (String.list_ascii_of_string s).

Section sockets.
Context `{Os}.

(** ** Opening and closing

    [socket.create_connection], [listen] on a free port of 127.0.0.1, and [accept]. *)
Definition dial (host : string) (port timeout : Z) : py world nat :=
  h ← gets fresh; ask (Dial host port timeout);; modify (fd_opened socket_name);; mret h.
Definition accept (listener : nat) : py world nat :=
  h ← gets fresh; on_fd listener (Accept listener);; modify (fd_opened socket_name);; mret h.
(** Closing a closed socket does nothing. *)
Definition close_socket (h : nat) : py world () :=
  o ← gets (λ w, fds w !! h);
  match o with Some _ => modify (fd_closed h);; ask (CloseFd h) | None => mret () end.
(** [with c: m] *)
Definition with_socket {A} (h : nat) (m : py world A) : py world A := try_finally m (close_socket h).
(** [except BaseException: c.close(); raise] *)
Definition close_on_error {A} (h : nat) (m : py world A) : py world A :=
  try_except m (λ e, Some (close_socket h;; raise e)).

Definition send_all (h : nat) (data : bytes) : py world () := on_fd h (SendAll h data).
Definition recv (h : nat) (size : Z) : py world bytes := on_fd h (Recv h size).

(** ** Exact reads

    The three readers differ in the error for a stream that ends early.  Every turn receives
    at least a byte, so [size] turns are enough. *)
Fixpoint read_loop (fuel : nat) (e : exn) (h : nat) (size : Z) (data : bytes) : py world bytes :=
  if size <=? zlen data then mret data else
  match fuel with
  | O => raise (RuntimeError "unreachable")
  | S fuel =>
      part ← recv h (size - zlen data);
      match part with [] => raise e | _ => read_loop fuel e h size (data ++ part) end
  end.
Definition read_with (e : exn) (h : nat) (size : Z) : py world bytes := read_loop (Z.to_nat size) e h size [].
Definition receive : nat → Z → py world bytes := read_with (EOFError "SOCKS handshake truncated").

(** ** [connect] *)

(** [socket.inet_aton] of four decimal numbers; its other notations are not used. *)
Definition bad_address : exn := OSError "illegal IP address string passed to inet_aton".
Definition octet (s : string) : result Byte.byte :=
  z ← from_option_or bad_address (parse_nat s); raise_if (255 <? z) bad_address;; Ok (z_byte z).
Definition inet_aton (s : string) : result bytes :=
  octets ← mapR octet (split "." s); raise_if (negb (length octets =? 4)%nat) bad_address;; Ok octets.
(** [port.to_bytes(2, "big")] *)
Definition port_bytes (p : Z) : result bytes :=
  raise_if (negb ((0 <=? p) && (p <? 65536))) OverflowError;; Ok (u16 p).

Definition greeting : bytes := [x05; x01; x00].
Definition socks_open (h : nat) (target : string * Z) : py world () :=
  send_all h greeting;;
  choice ← receive h 2;
  lift (raise_if (negb (bool_decide (choice = [x05; x00]))) (ValueError "SOCKS authentication"));;
  address ← lift (inet_aton target.1);
  port ← lift (port_bytes target.2);
  send_all h ([x05; x01; x00; x01] ++ address ++ port);;
  reply ← receive h 10;
  lift (raise_if (negb (bool_decide (take 4 reply = [x05; x00; x00; x01]))) (ValueError "SOCKS open failed")).

(** The context of the callers trusts [cafile]. *)
Definition connect (cafile : string) (endpoint : string * Z) (target : option (string * Z)) : py world nat :=
  h ← dial endpoint.1 endpoint.2 5000;
  close_on_error h
    (match target with Some t => socks_open h t | None => mret () end;;
     on_fd h (WrapTls h cafile "cover.test");;
     mret h).
End sockets.

(** ** Sockets are given up *)

(** [opens m]: what [m] returns is a new descriptor, the only thing it holds. *)
Definition opens (m : py world nat) : Prop := ∀ R T F,
  triple (frame R T F) m (λ h w, F !! h = None ∧ frame R T (<[h := socket_name]> F) w)
    (λ _ w, frame R T F w ∧ True).

Section framed.
Context `{Os}.

Lemma fd_opened_frame R T F w : frame R T F w →
  F !! fresh w = None ∧ frame R T (<[fresh w := socket_name]> F) (fd_opened socket_name w).
Proof.
  intros ((Hc & Hd) & HR & HT & HF). split.
  - destruct (F !! fresh w) eqn:Hf; [|done]. rewrite <- HF in Hf. pose proof (Hd (fresh w)) as Hlt.
    rewrite Hf in Hlt. specialize (Hlt ltac:(eauto)). lia.
  - split; [split; [done|]|split; [done|split; [done|by cbn; rewrite HF]]].
    cbn. intros i Hi. destruct (decide (i = fresh w)) as [-> | Hne]; [lia|].
    rewrite lookup_insert_ne in Hi by done. specialize (Hd i Hi). lia.
Qed.

(** A call and then a new descriptor. *)
Lemma opens_after {A} (m : py world A) :
  quiet m → (∀ w, fresh (m w).2 = fresh w) → opens (h ← gets fresh; m;; modify (fd_opened socket_name);; mret h).
Proof.
  intros Hm Hn R T F w Hw. unfold gets, modify, mbind, py_bind. specialize (Hm R T F w Hw). specialize (Hn w).
  destruct (m w) as [[a|e] w1]; [|done]. cbn in Hn |- *. rewrite <- Hn. by apply fd_opened_frame.
Qed.
Lemma dial_opens host port timeout : opens (dial host port timeout).
Proof. apply opens_after; [apply ask_quiet|done]. Qed.
Lemma accept_opens l : opens (accept l).
Proof.
  apply opens_after; [apply on_fd_quiet|]. intros w. unfold on_fd, gets, mbind, py_bind. by destruct (fds w !! l).
Qed.

(** Closing gives the descriptor up, also when it fails. *)
Lemma close_socket_frame R T F h : F !! h = None →
  triple (frame R T (<[h := socket_name]> F)) (close_socket h) (λ _, frame R T F) (λ _ w, frame R T F w ∧ True).
Proof.
  intros Hh w (Hw & HR & HT & HF). unfold close_socket, gets, modify, mbind, py_bind.
  rewrite HF, lookup_insert_eq.
  assert (frame R T F (fd_closed h w)) as Hc.
  { split; [|split; [done|split; [done|]]].
    - split; [apply Hw|]. cbn. intros i Hi. apply Hw. destruct (decide (i = h)) as [-> | Hne].
      + by rewrite lookup_delete_eq in Hi; destruct Hi.
      + by rewrite lookup_delete_ne in Hi.
    - cbn. by rewrite HF, delete_insert_id. }
  pose proof (ask_quiet (CloseFd h) R T F _ Hc) as Ha. by destruct (ask (CloseFd h) _) as [[u|e] w1].
Qed.

Lemma with_socket_frame {A} R T F h (m : py world A) : F !! h = None → quiet m →
  triple (frame R T (<[h := socket_name]> F)) (with_socket h m) (λ _, frame R T F) (λ _ w, frame R T F w ∧ True).
Proof.
  intros Hh Hm w Hw. specialize (Hm _ _ _ w Hw). unfold with_socket, try_finally.
  destruct (m w) as [r w1]. assert (frame R T (<[h := socket_name]> F) w1) as H1 by (destruct r; [done|apply Hm]).
  pose proof (close_socket_frame R T F h Hh w1 H1) as Hc.
  destruct (close_socket h w1) as [[u|e] w2]; [|done]. by destruct r.
Qed.

(** [with open() as c: m] holds nothing at the end. *)
Lemma socket_quiet {A} (o : py world nat) (k : nat → py world A) :
  opens o → (∀ h, quiet (k h)) → quiet (h ← o; with_socket h (k h)).
Proof.
  intros Ho Hk R T F. eapply triple_bind; [apply Ho|]. intros h w [Hh Hw]. by apply with_socket_frame.
Qed.

(** A body that may close the socket itself. *)
Definition owned R T F (h : nat) (w : world) : Prop := frame R T (<[h := socket_name]> F) w ∨ frame R T F w.
Lemma quiet_owned {A} R T F h (m : py world A) : quiet m → keeps (owned R T F h) m.
Proof.
  intros Hm w [Hw | Hw]; specialize (Hm _ _ _ w Hw); destruct (m w) as [[a|e] w1].
  - by left.
  - split; [left; apply Hm|done].
  - by right.
  - split; [right; apply Hm|done].
Qed.
Lemma close_socket_owned R T F h : F !! h = None →
  triple (owned R T F h) (close_socket h) (λ _, frame R T F) (λ _ w, frame R T F w ∧ True).
Proof.
  intros Hh w [Hw | Hw]; [by apply close_socket_frame|].
  unfold close_socket, gets, mbind, py_bind. assert (fds w !! h = None) as -> by by rewrite (proj2 (proj2 (proj2 Hw))).
  done.
Qed.
Lemma close_socket_keeps R T F h : F !! h = None → keeps (owned R T F h) (close_socket h).
Proof.
  intros Hh. eapply triple_consequence; [by apply close_socket_owned|done| |]; [by right|].
  intros e w [Hw _]. split; [by right|done].
Qed.
Lemma socket_owned_quiet {A} (o : py world nat) (k : nat → py world A) :
  opens o → (∀ R T F h, F !! h = None → keeps (owned R T F h) (k h)) → quiet (h ← o; with_socket h (k h)).
Proof.
  intros Ho Hk R T F. eapply triple_bind; [apply Ho|]. intros h w [Hh Hw].
  specialize (Hk R T F h Hh w (or_introl Hw)). unfold with_socket, try_finally. destruct (k h w) as [r w1].
  assert (owned R T F h w1) as H1 by (destruct r; [done|apply Hk]).
  pose proof (close_socket_owned R T F h Hh w1 H1) as Hc.
  destruct (close_socket h w1) as [[u|e] w2]; [|done]. by destruct r.
Qed.

(** A handshake on a new socket that is closed when it fails. *)
Lemma close_on_error_frame R T F h (m : py world nat) : F !! h = None →
  (∀ R T F, gives (frame R T F) (λ h', h' = h) m) →
  triple (frame R T (<[h := socket_name]> F)) (close_on_error h m)
    (λ h w, F !! h = None ∧ frame R T (<[h := socket_name]> F) w) (λ _ w, frame R T F w ∧ True).
Proof.
  intros Hh Hm w Hw. unfold close_on_error, try_except, mbind, py_bind. specialize (Hm _ _ _ w Hw).
  destruct (m w) as [[a|e] w1]; [by destruct Hm as [Hm ->]|]. destruct Hm as [Hm _].
  pose proof (close_socket_frame R T F h Hh w1 Hm) as Hc. unfold raise.
  by destruct (close_socket h w1) as [[u|e'] w2].
Qed.
Lemma close_on_error_opens (o : py world nat) (k : nat → py world nat) :
  opens o → (∀ h R T F, gives (frame R T F) (λ h', h' = h) (k h)) → opens (h ← o; close_on_error h (k h)).
Proof.
  intros Ho Hk R T F. eapply triple_bind; [apply Ho|]. intros h w [Hh Hw]. by apply close_on_error_frame.
Qed.

Lemma send_all_quiet h data : quiet (send_all h data).
Proof. apply on_fd_quiet. Qed.
Lemma recv_quiet h n : quiet (recv h n).
Proof. apply on_fd_quiet. Qed.
#[local] Hint Resolve send_all_quiet recv_quiet : within.
Lemma read_loop_quiet fuel e h size data : quiet (read_loop fuel e h size data).
Proof. intros R T F. revert data. induction fuel as [|fuel IH]; intros data; simpl; solve_within. Qed.
Lemma read_with_quiet e h size : quiet (read_with e h size).
Proof. intros R T F. apply read_loop_quiet. Qed.
#[local] Hint Resolve read_with_quiet : within.
Lemma socks_open_quiet h t : quiet (socks_open h t).
Proof. intros R T F. unfold socks_open, receive. solve_within. Qed.
#[local] Hint Resolve socks_open_quiet : within.

Lemma connect_opens cafile endpoint target : opens (connect cafile endpoint target).
Proof.
  apply close_on_error_opens; [apply dial_opens|]. intros h R T F.
  apply gives_step; [destruct target; solve_within|intros []].
  apply gives_step; [solve_within|intros []]. by apply gives_ret.
Qed.
End framed.
#[export] Hint Resolve send_all_quiet recv_quiet read_with_quiet socks_open_quiet : within.

(** ** Exact reads *)

(** What the calls so far received on a socket. *)
Definition part_of (h : nat) (e : event) : bytes :=
  match e with
  | Event _ c r =>
      match c in call A return result A → bytes with
      | Recv g _ => λ r, if decide (g = h) then match r with Ok b => b | Err _ => [] end else []
      | _ => λ _, []
      end r
  end.
Fixpoint taken (h : nat) (l : list event) : bytes :=
  match l with [] => [] | e :: l => taken h l ++ part_of h e end.

(** What the calls so far sent on it. *)
Definition sent_part (h : nat) (e : event) : bytes :=
  match question e with SendAll g d => if decide (g = h) then d else [] | _ => [] end.
Fixpoint sent (h : nat) (l : list event) : bytes :=
  match l with [] => [] | e :: l => sent h l ++ sent_part h e end.

(** [b] was received on [h], and nothing else happened to it. *)
Definition heard (h : nat) (b : bytes) (w w' : world) : Prop :=
  fds w' = fds w ∧ sent h (past w') = sent h (past w) ∧ taken h (past w') = taken h (past w) ++ b.
Lemma heard_refl h w : heard h [] w w.
Proof. unfold heard. by rewrite app_nil_r. Qed.
Lemma heard_trans h a b w1 w2 w3 : heard h a w1 w2 → heard h b w2 w3 → heard h (a ++ b) w1 w3.
Proof. intros (Hf & Hs & Ht) (Hf' & Hs' & Ht'). unfold heard. by rewrite Hf', Hs', Ht', Hf, Hs, Ht, app_assoc. Qed.

(** The other end sends [data], and then [fin] is what [recv] gives: [recv] returns some of
    the next bytes, at most as many as asked for, while there are any. *)
Class Ends `(Os) (h : nat) (data : bytes) (fin : result bytes) : Prop := {
  ends_recv : ∀ l n, 0 < n → let rest := drop (length (taken h l)) data in ∃ k,
    os l (Recv h n) = (if decide (rest = []) then fin else Ok (take k rest)) ∧
    (k ≤ Z.to_nat n)%nat ∧ (k = O ↔ rest = []) }.
(** The stream is shut down after [data]. *)
Abbreviation Sends H h data := (@Ends H h data (Ok [])).

Section exact.
Context `{Os} {h : nat} {data : bytes} {fin : result bytes} `{!Ends H h data fin}.

(** What [w] has still to receive. *)
Definition still (w : world) : bytes := drop (length (taken h (past w))) data.
Definition received_bytes (r : result bytes) : bytes := match r with Ok b => b | Err _ => [] end.

Lemma recv_ends n w : is_Some (fds w !! h) → 0 < n →
  ∃ k w', let r := if decide (still w = []) then fin else Ok (take k (still w)) in
  recv h n w = (r, w') ∧ heard h (received_bytes r) w w' ∧ (k ≤ Z.to_nat n)%nat ∧ (k = O ↔ still w = []).
Proof.
  intros [q Hq] Hn. destruct (ends_recv (past w) n Hn) as (k & Ho & Hk & He).
  unfold recv, on_fd, gets, ask, mbind, py_bind. rewrite Hq, Ho. fold (still w) in He |- *.
  exists k. eexists. split; [done|]. split; [|by split]. unfold heard. cbn. by rewrite decide_True, app_nil_r.
Qed.

Lemma still_heard k w w' : heard h (take k (still w)) w w' → still w' = drop k (still w).
Proof.
  intros (_ & _ & Ht). unfold still. rewrite Ht, length_app, <- drop_drop. fold (still w). rewrite length_take.
  destruct (Nat.le_ge_cases k (length (still w))).
  - by rewrite Nat.min_l.
  - by rewrite Nat.min_r, !drop_ge by done.
Qed.
End exact.

(** Two parts of what is taken. *)
Lemma take_parts {A} k m (l : list A) : (k ≤ m)%nat →
  take k l ++ take (m - length (take k l)) (drop k l) = take m l.
Proof.
  intros Hk. rewrite length_take. destruct (Nat.le_ge_cases k (length l)).
  - rewrite Nat.min_l by done. rewrite <- (take_drop k (take m l)).
    by rewrite take_take, Nat.min_l, skipn_firstn_comm by done.
  - by rewrite (drop_ge l k), take_nil, app_nil_r, !take_ge by lia.
Qed.

(** Documented behaviour: the timeout of an open socket can be set. *)
Class SetsTimeout `(Os) : Prop := { set_timeout_ok : ∀ l h t, os l (SetTimeout h t) = Ok () }.

Section reads.
Context `{Os} {h : nat} {data : bytes} `{!Sends H h data}.
Abbreviation still := (still (h := h) (data := data)).

Lemma recv_run n w : is_Some (fds w !! h) → 0 < n →
  ∃ k w', recv h n w = (Ok (take k (still w)), w') ∧ heard h (take k (still w)) w w' ∧
    (k ≤ Z.to_nat n)%nat ∧ (take k (still w) = [] ↔ still w = []).
Proof.
  intros Hf Hn. destruct (recv_ends n w Hf Hn) as (k & w' & Hr & Hh & Hk & He).
  destruct (decide (still w = [])) as [Hz | Hz].
  - exists O, w'. split_and!; [done|done|lia|done].
  - exists k, w'. split_and!; try done. destruct k; [naive_solver|]. by destruct (still w).
Qed.

Lemma read_loop_run fuel e size got w :
  is_Some (fds w !! h) → (Z.to_nat size ≤ fuel + length got)%nat → (length got ≤ Z.to_nat size)%nat → 0 <= size →
  let m := (Z.to_nat size - length got)%nat in
  ∃ w', read_loop fuel e h size got w =
      (if decide (m ≤ length (still w))%nat then Ok (got ++ take m (still w)) else Err e, w') ∧
    heard h (take m (still w)) w w'.
Proof.
  assert (∀ got w, length got = Z.to_nat size → let m := (Z.to_nat size - length got)%nat in
    heard h (take m (still w)) w w ∧
    (if decide (m ≤ length (still w))%nat then Ok (got ++ take m (still w)) else Err e) = Ok got) as Hend.
  { intros got0 w0 -> m. replace m with O by lia. rewrite decide_True by lia. cbn [take]. rewrite app_nil_r.
    split; [apply heard_refl|done]. }
  revert got w. induction fuel as [|fuel IH]; intros got w Hf Hfuel Hgot Hsize m; cbn [read_loop]; unfold zlen;
    destruct (Z.leb_spec size (Z.of_nat (length got))) as [Hle | Hgt]; try lia.
  1,2: exists w; subst m; destruct (Hend got w) as [? ->]; [lia|done].
  destruct (recv_run (size - Z.of_nat (length got)) w Hf) as (k & w1 & Hr & Hh & Hk & He); [lia|].
  unfold mbind at 1, py_bind. rewrite Hr. destruct (take k (still w)) as [|b part] eqn:Hp.
  - assert (still w = []) as Hz by (by apply He). rewrite Hz, take_nil.
    exists w1. rewrite decide_False by (cbn; lia). done.
  - rewrite <- Hp in Hh |- *. assert (length (take k (still w)) ≤ k)%nat as Hlk by (rewrite length_take; lia).
    assert (0 < length (take k (still w)))%nat as Hpos by (rewrite Hp; cbn; lia).
    specialize (IH (got ++ take k (still w)) w1). rewrite length_app, (still_heard _ _ _ Hh) in IH.
    destruct IH as (w2 & -> & Hh2); [by rewrite (proj1 Hh)|lia..|]. exists w2.
    assert (take k (still w) ++ take (Z.to_nat size - (length got + length (take k (still w)))) (drop k (still w)) =
            take m (still w)) as Htake.
    { rewrite <- (take_parts k m) by lia. do 2 f_equal. lia. }
    split; [|rewrite <- Htake; by eapply heard_trans]. rewrite <- app_assoc, Htake, length_drop, length_take in *. f_equal.
    destruct (decide (m ≤ length (still w))%nat).
    + by rewrite decide_True by lia.
    + by rewrite decide_False by lia.
Qed.

Lemma read_with_run e size w : is_Some (fds w !! h) →
  ∃ w', read_with e h size w =
      (if decide (size <= zlen (still w)) then Ok (take (Z.to_nat size) (still w)) else Err e, w') ∧
    heard h (take (Z.to_nat size) (still w)) w w'.
Proof.
  intros Hf. unfold read_with. destruct (Z.le_gt_cases 0 size) as [Hs | Hs].
  - destruct (read_loop_run (Z.to_nat size) e size [] w Hf) as (w' & Hr & Ht); [cbn; lia..|].
    cbn [length app] in Hr, Ht. rewrite Nat.sub_0_r in Hr, Ht. exists w'. rewrite Hr. split; [|done]. f_equal.
    unfold zlen. destruct (decide (Z.to_nat size ≤ length (still w))%nat).
    + by rewrite decide_True by lia.
    + by rewrite decide_False by lia.
  - exists w. replace (Z.to_nat size) with O by lia. cbn [read_loop take]. unfold zlen.
    rewrite (proj2 (Z.leb_le _ _)) by (cbn; lia). rewrite decide_True by lia. split; [done|apply heard_refl].
Qed.
End reads.

(** C30. Exact reads: whatever parts the stream arrives in, the reader returns exactly the next
    [size] bytes of the stream and takes no more; when the stream ends before that it raises
    the error of its caller, with the rest taken.  Nothing is sent. *)
Theorem read_exact `{H : Os} h data `{!Sends H h data} e size w : is_Some (fds w !! h) →
  let rest := drop (length (taken h (past w))) data in
  ∃ w', read_with e h size w = (if decide (size <= zlen rest) then Ok (take (Z.to_nat size) rest) else Err e, w') ∧
    taken h (past w') = taken h (past w) ++ take (Z.to_nat size) rest ∧ sent h (past w') = sent h (past w).
Proof.
  intros Hf rest. destruct (read_with_run (H := H) (h := h) (data := data) e size w Hf) as (w' & Hr & _ & Hs & Ht). by exists w'.
Qed.

(** A sender whose bytes arrive one by one. *)
Definition slow_sender (data : bytes) (fin : result bytes) : Os := λ A l c,
  match c in call A return result A with
  | Recv h n =>
      match drop (length (taken 0 l)) data with
      | [] => fin
      | b :: _ => Ok [b]
      end
  | SendAll _ _ | SetTimeout _ _ | CloseFd _ => Ok ()
  | _ => Err (OSError "unused")
  end.
#[export] Instance slow_ends data fin : @Ends (slow_sender data fin) 0 data fin.
Proof.
  split. intros l n Hn. cbn. set (rest := drop _ data). destruct rest as [|b rest].
  - exists O. split_and!; [done|lia|done].
  - exists 1%nat. split_and!; [done|lia|done].
Qed.
#[export] Instance slow_timeout data fin : @SetsTimeout (slow_sender data fin).
Proof. by split. Qed.
Definition one_socket : world :=
  {| past := []; fresh := 1; running := ∅; codes := ∅; texts := ∅; fds := {[ 0%nat := socket_name ]} |}.

Lemma read_exact_witness :
  (∃ w', @read_with (slow_sender greeting (Ok [])) (EOFError "") 0 2 one_socket = (Ok [x05; x01], w') ∧
     taken 0 (past w') = [x05; x01] ∧ sent 0 (past w') = []) ∧
  ∃ w', @read_with (slow_sender greeting (Ok [])) (EOFError "") 0 4 one_socket = (Err (EOFError ""), w') ∧
     taken 0 (past w') = greeting ∧ sent 0 (past w') = [].
Proof.
  split.
  - exact (@read_exact (slow_sender greeting (Ok [])) 0 greeting (slow_ends _ _) (EOFError "") 2 one_socket ltac:(by eexists)).
  - exact (@read_exact (slow_sender greeting (Ok [])) 0 greeting (slow_ends _ _) (EOFError "") 4 one_socket ltac:(by eexists)).
Defined.
