(* ===== verification/Base64.v ===== *)
(** * Base64

    [base64.b64encode] as text, and the URL-safe encoding without padding of the secrets. *)

From S2P Require Import Prelude.
From S2P Require Import PyText.
From S2P Require Import PyBytes.
From S2P Require Import Sockets.
From Stdlib Require Import Ascii Strings.Byte.
#[local] Open Scope Z_scope.

(** [base64.b64encode(data).decode()] *)
Definition b64_digit (n : Z) : ascii :=
  ascii_of_N (Z.to_N (if n <? 26 then 65 + n else if n <? 52 then 71 + n
                      else if n <? 62 then n - 4 else if n =? 62 then 43 else 47)).
Definition b64_group (n : Z) (k : nat) : string :=
  stake k (String (b64_digit (n / 262144)) (String (b64_digit (n / 4096 mod 64))
    (String (b64_digit (n / 64 mod 64)) (String (b64_digit (n mod 64)) "")))).
Fixpoint b64encode (l : bytes) : string :=
  match l with
  | [] => ""
  | [a] => b64_group (65536 * byte_z a) 2 +:+ "=="
  | [a; b] => b64_group (65536 * byte_z a + 256 * byte_z b) 3 +:+ "="
  | a :: b :: c :: l => b64_group (65536 * byte_z a + 256 * byte_z b + byte_z c) 4 +:+ b64encode l
  end.
Example b64_1 : map (λ s, b64encode (encode s)) ["foobar"; "fooba"; "foob"; "~~?>"] =
  ["Zm9vYmFy"; "Zm9vYmE="; "Zm9vYg=="; "fn4/Pg=="].
Proof. reflexivity. Qed.

(** [base64.urlsafe_b64encode(data).rstrip(b"=").decode()] *)
Definition url_char (c : ascii) : ascii :=
  if Ascii.eqb c "+" then "-"%char else if Ascii.eqb c "/" then "_"%char else c.
Fixpoint unpadded (s : string) : string :=
  match s with
  | String c s => if Ascii.eqb c "=" && all_chars (Ascii.eqb "=") s then "" else String (url_char c) (unpadded s)
  | "" => ""
  end.
Definition urlsafe (data : bytes) : string := unpadded (b64encode data).
Example urlsafe_1 : map (λ s, urlsafe (encode s)) ["foobar"; "fooba"; "foob"; "~~?>"] = ["Zm9vYmFy"; "Zm9vYmE"; "Zm9vYg"; "fn4_Pg"].
Proof. reflexivity. Qed.
