(* ===== verification/Fixtures.v ===== *)
(** * Local test fixtures

    [veil-core/scripts/fixtures.py]: the credentials, the configurations of both proxies
    and the subprocesses of the local tests. *)

From S2P Require Import Prelude.
From S2P Require Import PyText.
From S2P Require Import PyBytes.
From S2P Require Import Json.
From S2P Require Import FileSystem.
From S2P Require Import Tools.
From S2P Require Import Machine.
#[local] Open Scope Z_scope.

(** The dictionary of [fixture]. *)
Record credentials := { folder : path; cert : string; key : string; keys : json }.

(** [f"127.0.0.1:{port}"] *)
Definition loopback (p : Z) : string := "127.0.0.1:" +:+ str p.

(** A command: the program and its arguments. *)
Abbreviation program := (path * list string)%type.
Definition program_argv (c : program) : list string := posix c.1 :: c.2.

Section fixtures.
Context `{Os} (ROOT : path) (ENV : env).

Definition port : py world Z := ask FreePort.

Definition save (p : path) (obj : json) : py world path :=
  ask (WriteText p (dumps_indent 2 obj +:+ nl));; ask (Chmod p 384);; mret p.

(** ** [fixture] *)
Definition certificate_command (rsa : bool) (cert key : path) : list string :=
  ["openssl"; "req"; "-x509"; "-newkey"] ++
  (if rsa then ["rsa:2048"] else ["ec"; "-pkeyopt"; "ec_paramgen_curve:P-256"]) ++
  ["-nodes"; "-keyout"; posix key; "-out"; posix cert; "-days"; "1"; "-subj"; "/CN=cover.test";
   "-addext"; "subjectAltName=DNS:cover.test"].
Definition plain (argv : list string) : command := {| argv := argv; cwd := None; env_of := None |}.

Definition fixture (folder : path) (rsa : bool) : py world credentials :=
  ask (Mkdir folder true true);;
  let cert := folder ++ ["cert.pem"] in
  let key := folder ++ ["key.pem"] in
  ask (Run true (plain (certificate_command rsa cert key)));;
  ask (Chmod key 384);;
  text ← ask (CheckOutput (plain [posix (sub ROOT ".build/veil-native"); "-keygen"]));
  keys ← lift (loads text);
  mret {| folder := folder; cert := posix cert; key := posix key; keys := keys |}.

(** ** Processes *)
Definition spawn_argv (command : list string) (cores : option string) : list string :=
  match cores with
  | Some (String c s) => ["taskset"; "-c"; String c s] ++ command
  | _ => command
  end.
Definition spawn (command : list string) (cores : option string) (procs : Z)
    (stdin stdout stderr : stream) : py world proc :=
  popen_proc {| cmd := spawn_argv command cores; penv := Some (dict_or ENV [("GOMAXPROCS", str procs)]);
                stdin := stdin; stdout := stdout; stderr := stderr;
    new_session := false |}.

(** [n] attempts are left. *)
Definition exited (p : proc) : exn := RuntimeError ("process exited: " +:+ list_repr (args p)).
Definition attempt (p : Z) (timeout : Z) : py world bool :=
  try_except (ask (Connect "127.0.0.1" p timeout);; mret true)
    (catch_if is_os_error (ask (Sleep 10);; mret false)).
Fixpoint wait_loop (n : nat) (p : Z) (process : proc) : py world () :=
  match n with
  | O => raise (TimeoutError "listener did not start")
  | S n =>
      code ← poll process;
      match code with
      | Some _ => raise (exited process)
      | None => up ← attempt p 50; if (up : bool) then mret () else wait_loop n p process
      end
  end.
Definition wait_port (p : Z) (process : proc) : py world () := wait_loop 300 p process.

Definition stop (p : proc) : py world () :=
  code ← poll p;
  match code with
  | Some _ => mret ()
  | None =>
      terminate p;;
      try_except (wait p (Some 5000);; mret ())
        (catch_if (λ e, bool_decide (e = TimeoutExpired)) (kill p;; wait p None;; mret ()))
  end.

(** ** [configurations] *)
Definition contains_reality (variant : string) : bool := contains "reality" variant.
Definition is_veil (variant : string) : bool := startswith variant "veil".
Definition is_opt (variant : string) : bool := contains "opt" variant.

(** The [tls] objects of the server and the client. *)
Definition veil_tls (f : credentials) (reality : bool) (cover : Z) : result (json * json) :=
  let common := [("mode", JStr (if reality then "reality" else "tls")); ("server_name", JStr "cover.test")] in
  if reality then
    private ← jitem "reality_private_key" (keys f);
    short ← jitem "short_id" (keys f);
    public ← jitem "reality_public_key" (keys f);
    Ok (JObj (common ++ [("reality_private_key", private); ("short_id", short);
                         ("cover_address", JStr (loopback cover))]),
        JObj (common ++ [("reality_public_key", public); ("short_id", short)]))
  else
    Ok (JObj (common ++ [("certificate", JStr (cert f)); ("private_key_file", JStr (key f))]),
        JObj (common ++ [("ca_file", JStr (cert f))])).
Definition veil_configs (f : credentials) (reality : bool) (sp cp cover : Z) : result (json * json) :=
  '(st, ct) ← veil_tls f reality cover;
  secret ← jitem "secret" (keys f);
  Ok (JObj [("role", JStr "server"); ("listen", JStr (loopback sp)); ("secret", secret); ("tls", st);
            ("max_connections", JNum 128); ("idle_seconds", JNum 60)],
      JObj [("role", JStr "client"); ("listen", JStr (loopback cp)); ("server", JStr (loopback sp));
            ("secret", secret); ("tls", ct); ("max_connections", JNum 128); ("idle_seconds", JNum 60)]).

Definition anytls_tls (f : credentials) (reality : bool) (cover : Z) : result (json * json) :=
  let common := [("enabled", JBool true); ("server_name", JStr "cover.test");
                 ("min_version", JStr "1.3"); ("max_version", JStr "1.3")] in
  if reality then
    private ← jitem "reality_private_key" (keys f);
    short ← jitem "short_id" (keys f);
    public ← jitem "reality_public_key" (keys f);
    Ok (JObj (common ++
          [("reality", JObj [("enabled", JBool true);
              ("handshake", JObj [("server", JStr "127.0.0.1"); ("server_port", JNum cover)]);
              ("private_key", private); ("short_id", JArr [short]); ("max_time_difference", JStr "1m")])]),
        JObj (common ++
          [("utls", JObj [("enabled", JBool true); ("fingerprint", JStr "chrome")]);
           ("reality", JObj [("enabled", JBool true); ("public_key", public); ("short_id", short)])]))
  else
    Ok (JObj (common ++ [("certificate_path", JStr (cert f)); ("key_path", JStr (key f))]),
        JObj (common ++ [("certificate_path", JStr (cert f))])).
Definition anytls_configs (f : credentials) (reality : bool) (sp cp cover : Z) : result (json * json) :=
  '(st, ct) ← anytls_tls f reality cover;
  secret ← jitem "secret" (keys f);
  let log := ("log", JObj [("level", JStr "error")]) in
  Ok (JObj [log;
            ("inbounds", JArr [JObj [("type", JStr "anytls"); ("listen", JStr "127.0.0.1"); ("listen_port", JNum sp);
               ("users", JArr [JObj [("name", JStr "test"); ("password", secret)]]); ("tls", st)]]);
            ("outbounds", JArr [JObj [("type", JStr "direct")]])],
      JObj [log;
            ("inbounds", JArr [JObj [("type", JStr "socks"); ("listen", JStr "127.0.0.1"); ("listen_port", JNum cp)]]);
            ("outbounds", JArr [JObj [("type", JStr "anytls"); ("server", JStr "127.0.0.1"); ("server_port", JNum sp);
               ("password", secret); ("tls", ct)]])]).

(** The programs of the server and the client, and the arguments before the file. *)
Definition programs (variant : string) : string * string :=
  let base := if is_veil variant then "veil-" else "singbox-" in
  if is_opt variant then (base +:+ "openssl", base +:+ "batch") else (base +:+ "native", base +:+ "native").
Definition config_args (variant : string) : list string :=
  if is_veil variant then ["-config"] else ["run"; "-c"].
Definition binaries (variant : string) : path :=
  ROOT ++ [".build"] ++ (if endswith variant "-previous" then ["previous"] else []).

Definition configurations (f : credentials) (variant : string) (sp cp cover : Z) : py world (program * program) :=
  let reality := contains_reality variant in
  '(server, client) ← lift (if is_veil variant then veil_configs f reality sp cp cover
                            else anytls_configs f reality sp cp cover);
  sf ← save (folder f ++ ["server.json"]) server;
  cf ← save (folder f ++ ["client.json"]) client;
  let '(sb, cb) := programs variant in
  mret ((binaries variant ++ [sb], config_args variant ++ [posix sf]),
        (binaries variant ++ [cb], config_args variant ++ [posix cf])).
End fixtures.

(** ** Processes *)
Section processes.
Context `{Os}.

Lemma attempt_quiet p t : quiet (attempt p t).
Proof. intros R T F. unfold attempt. solve_within. Qed.
#[local] Hint Resolve attempt_quiet : within.
Lemma wait_loop_quiet n p process : quiet (wait_loop n p process).
Proof. intros R T F. induction n as [|n IH]; simpl; solve_within. Qed.
#[local] Hint Resolve wait_loop_quiet : within.
Lemma wait_port_quiet p process : quiet (wait_port p process).
Proof. intros R T F. unfold wait_port. solve_within. Qed.
Lemma stop_quiet p : quiet (stop p).
Proof. intros R T F. unfold stop, terminate, kill. solve_within. Qed.
Lemma save_quiet p v : quiet (save p v).
Proof. intros R T F. unfold save. solve_within. Qed.
Lemma fixture_quiet ROOT folder rsa : quiet (fixture ROOT folder rsa).
Proof. intros R T F. unfold fixture. solve_within. Qed.
#[local] Hint Resolve save_quiet : within.
Lemma configurations_quiet ROOT f variant sp cp cover : quiet (configurations ROOT f variant sp cp cover).
Proof. intros R T F. unfold configurations. solve_within. Qed.
End processes.
#[export] Hint Resolve wait_port_quiet stop_quiet save_quiet fixture_quiet configurations_quiet : within.

Section stop.
Context `{Calm}.

Lemma stop_run p w : tidy w → ∃ w', stop p w = (Ok (), w') ∧ without (p_id p) w w'.
Proof.
  intros Hw. unfold stop, terminate, kill, try_except, mbind, py_bind.
  destruct (poll_run p w Hw) as ([x|] & w1 & -> & H1); [by exists w1|].
  destruct (signal_run (Terminate (p_id p)) p w1) as (w2 & -> & H2); [apply H1|intros; apply calm_terminate|].
  assert (at_most (p_id p) w w2) as H12 by (eapply at_most_trans; [by left|exact H2]).
  destruct (wait_run p (Some 5000) w2) as ([x|e] & w3 & -> & H3); [by eapply at_most_tidy| |].
  { exists w3. split; [done|]. by eapply at_most_without. }
  destruct H3 as (-> & _ & H3). unfold catch_if. rewrite bool_decide_eq_true_2 by done.
  destruct (signal_run (Kill (p_id p)) p w3) as (w4 & -> & H4); [apply H3|intros; apply calm_kill|].
  assert (at_most (p_id p) w w4) as H14 by (eapply at_most_trans; [exact H12|eapply at_most_trans; [by left|exact H4]]).
  destruct (wait_run p None w4) as ([x|e] & w5 & -> & H5); [by eapply at_most_tidy| |].
  - exists w5. split; [done|]. by eapply at_most_without.
  - by destruct H5 as (_ & [] & _).
Qed.
End stop.

(** ** [wait_port] *)

(** The connection attempts to a port so far. *)
Definition connects_to (p : Z) (e : event) : bool :=
  match question e with Connect _ q _ => q =? p | _ => false end.
Definition attempts (p : Z) (h : list event) : nat :=
  length (filter (λ e, connects_to p e = true) h).

(** The process keeps running, and its port answers from the [k]th attempt on. *)
Class Listening `(Os) (p : Z) (process : proc) (k : nat) : Prop := {
  listening_runs : ∀ h, os h (Poll (p_id process)) = Ok None;
  listening_sleep : ∀ h, os h (Sleep 10) = Ok ();
  listening_opens : ∀ h, os h (Connect "127.0.0.1" p 50) =
    if (attempts p h <? k)%nat then Err (ConnectionError "refused") else Ok () }.

Section listening.
Context `{Listening}.

Lemma attempts_cons e h :
  attempts p (e :: h) = if connects_to p e then S (attempts p h) else attempts p h.
Proof. unfold attempts. rewrite filter_cons. by destruct (connects_to p e). Qed.

Lemma attempt_run w : ∃ w', codes w' = codes w ∧ attempts p (past w') = S (attempts p (past w)) ∧
  attempt p 50 w = (Ok (negb (attempts p (past w) <? k)%nat), w').
Proof.
  unfold attempt, ask, try_except, mbind, py_bind. rewrite listening_opens.
  destruct (_ <? k)%nat; cbn -[attempts]; [rewrite listening_sleep|]; eexists;
    (split_and!; [| |reflexivity]); try done; cbn [past]; rewrite !attempts_cons; cbn; by rewrite Z.eqb_refl.
Qed.

Lemma wait_loop_run n w : codes w !! p_id process = None → (attempts p (past w) ≤ k)%nat →
  let a := attempts p (past w) in
  let '(r, w') := wait_loop n p process w in
  if (k <? a + n)%nat then r = Ok () ∧ attempts p (past w') = S k
  else r = Err (TimeoutError "listener did not start") ∧ attempts p (past w') = (a + n)%nat.
Proof.
  revert w. induction n as [|n IH]; intros w Hc Hk; cbv zeta; simpl.
  { rewrite (proj2 (Nat.ltb_ge _ _)) by lia. split; [done|lia]. }
  unfold poll, returncode, gets, mbind, py_bind. rewrite Hc.
  unfold ask at 1. rewrite listening_runs. cbn [mret py_ret].
  match goal with |- context [attempt p 50 ?w1] => destruct (attempt_run w1) as (w2 & Hc2 & Ha2 & ->) end.
  cbn [past] in Ha2 |- *. cbn [codes] in Hc2. rewrite attempts_cons in Ha2 |- *. cbn [connects_to question] in Ha2 |- *.
  destruct (Nat.ltb_spec (attempts p (past w)) k) as [Hlt | Hge]; cbn [negb].
  - specialize (IH w2). rewrite Hc2, Ha2 in IH. specialize (IH Hc Hlt). cbv zeta in IH.
    destruct (wait_loop n p process w2) as [r w']. by rewrite Nat.add_succ_comm in IH.
  - assert ((k <? attempts p (past w) + S n)%nat = true) as -> by (apply Nat.ltb_lt; lia).
    split; [done|]. rewrite Ha2. lia.
Qed.
End listening.

(** C22. [wait_port] makes progress: while the process runs it tries the port once after the
    other and returns with the first attempt that is answered, if that is one of three
    hundred; otherwise it raises [TimeoutError] after exactly three hundred attempts. *)
Theorem wait_port_answers `{Listening} w :
  codes w !! p_id process = None → attempts p (past w) = O →
  let '(r, w') := wait_port p process w in
  if (k <? 300)%nat then r = Ok () ∧ attempts p (past w') = S k
  else r = Err (TimeoutError "listener did not start") ∧ attempts p (past w') = 300%nat.
Proof.
  intros Hc Ha. unfold wait_port. pose proof (wait_loop_run 300 w Hc) as Hrun.
  cbv zeta in Hrun. rewrite Ha in Hrun. apply Hrun. lia.
Qed.

(** A listener that answers the third attempt. *)
Definition third_attempt : Os := λ A h c,
  match c in call A return result A with
  | Poll _ => Ok None
  | Sleep _ => Ok ()
  | Connect _ _ _ => if (attempts 8080 h <? 2)%nat then Err (ConnectionError "refused") else Ok ()
  | _ => Err (OSError "unused")
  end.
Definition listener : proc := {| p_id := 0; pid := 100; args := ["server"] |}.
#[export] Instance third_listening : @Listening third_attempt 8080 listener 2.
Proof. by split. Qed.

Lemma wait_port_answers_witness :
  let '(r, w') := @wait_port third_attempt 8080 listener nothing in r = Ok () ∧ attempts 8080 (past w') = 3%nat.
Proof. exact (@wait_port_answers third_attempt 8080 listener 2 third_listening nothing eq_refl eq_refl). Defined.

(** [stop] ends: on a calm machine it returns with the process reaped, whether the process
    had exited, exits on the signal or has to be killed, and touches nothing else. *)
Theorem stop_reaps `{Calm} p w : tidy w →
  ∃ w', stop p w = (Ok (), w') ∧ running w' = delete (p_id p) (running w) ∧
    texts w' = texts w ∧ fds w' = fds w.
Proof.
  intros Hw. destruct (stop_run p w Hw) as (w' & Hr & _ & ? & ? & ? & _). eauto 10.
Qed.

(** A process that ignores the first signal. *)
Definition stubborn : Os := λ A h c,
  match c in call A return result A with
  | Poll _ => Ok None
  | Terminate _ | Kill _ | Close _ | CloseFd _ => Ok ()
  | Wait _ t => match t with Some _ => Err TimeoutExpired | None => Ok (-9) end
  | _ => Err (OSError "unused")
  end.
#[export] Instance stubborn_calm : @Calm stubborn.
Proof. split; try done. by intros h p t e [= <-]. Qed.
Definition one_server : world :=
  started {| cmd := ["server"]; penv := None; stdin := Inherit; stdout := Inherit; stderr := Inherit;
    new_session := false |} nothing.

Lemma stop_reaps_witness :
  ∃ w', @stop stubborn listener one_server = (Ok (), w') ∧ running w' = delete 0%nat (running one_server) ∧
    texts w' = texts one_server ∧ fds w' = fds one_server.
Proof.
  refine (@stop_reaps stubborn stubborn_calm listener one_server _).
  split; cbn; intros i; [rewrite delete_empty|]; rewrite lookup_empty; by intros [? [=]].
Defined.

(** ** The configurations of the two ends *)

(** The client dials where the server listens, with the same secret and the same name, and
    trusts the server: by its certificate, or by the public key of its key pair. *)
Definition trusts (f : credentials) (reality veil : bool) (st ct : json) : Prop :=
  jitem "server_name" ct = jitem "server_name" st ∧
  if reality then
    if veil then
      jitem "short_id" ct = jitem "short_id" st ∧ jitem "mode" ct = jitem "mode" st ∧
      jitem "reality_private_key" st = jitem "reality_private_key" (keys f) ∧
      jitem "reality_public_key" ct = jitem "reality_public_key" (keys f)
    else ∃ sr cr short, jitem "reality" st = Ok sr ∧ jitem "reality" ct = Ok cr ∧
      jitem "short_id" sr = Ok (JArr [short]) ∧ jitem "short_id" cr = Ok short ∧
      jitem "private_key" sr = jitem "reality_private_key" (keys f) ∧
      jitem "public_key" cr = jitem "reality_public_key" (keys f)
  else if veil then jitem "ca_file" ct = jitem "certificate" st
  else jitem "certificate_path" ct = jitem "certificate_path" st.
Definition veil_agree (f : credentials) (reality : bool) (server client : json) : Prop :=
  jitem "server" client = jitem "listen" server ∧ jitem "secret" client = jitem "secret" server ∧
  ∃ st ct, jitem "tls" server = Ok st ∧ jitem "tls" client = Ok ct ∧ trusts f reality true st ct.
Definition anytls_agree (f : credentials) (reality : bool) (server client : json) : Prop :=
  ∃ i o u st ct, jitem "inbounds" server = Ok (JArr [i]) ∧ jitem "outbounds" client = Ok (JArr [o]) ∧
    jitem "users" i = Ok (JArr [u]) ∧ jitem "tls" i = Ok st ∧ jitem "tls" o = Ok ct ∧
    jitem "server" o = jitem "listen" i ∧ jitem "server_port" o = jitem "listen_port" i ∧
    jitem "password" o = jitem "password" u ∧ trusts f reality false st ct.
Definition agree (f : credentials) (variant : string) : json → json → Prop :=
  (if is_veil variant then veil_agree else anytls_agree) f (contains_reality variant).

Lemma veil_tls_trusts f reality cover st ct :
  veil_tls f reality cover = Ok (st, ct) → trusts f reality true st ct.
Proof.
  unfold veil_tls, trusts. intros Hc. destruct reality; [|by injection Hc as <- <-].
  repeat (apply bind_ok in Hc as (? & ? & Hc)). injection Hc as <- <-. split_and!; (done || by symmetry).
Qed.
Lemma anytls_tls_trusts f reality cover st ct :
  anytls_tls f reality cover = Ok (st, ct) → trusts f reality false st ct.
Proof.
  unfold anytls_tls, trusts. intros Hc. destruct reality; [|by injection Hc as <- <-].
  repeat (apply bind_ok in Hc as (? & ? & Hc)). injection Hc as <- <-. split; [done|]. do 3 eexists. split_and!; try reflexivity; by symmetry.
Qed.

Lemma configs_agree f variant sp cp cover server client :
  (if is_veil variant then veil_configs f (contains_reality variant) sp cp cover
   else anytls_configs f (contains_reality variant) sp cp cover) = Ok (server, client) →
  agree f variant server client.
Proof.
  unfold agree, veil_configs, anytls_configs. destruct (is_veil variant); intros Hc.
  - apply bind_ok in Hc as ([st ct] & Ht%veil_tls_trusts & Hc).
    apply bind_ok in Hc as (secret & Hs & Hc). injection Hc as <- <-.
    split; [done|]. split; [done|]. by exists st, ct.
  - apply bind_ok in Hc as ([st ct] & Ht%anytls_tls_trusts & Hc).
    apply bind_ok in Hc as (secret & Hs & Hc). injection Hc as <- <-.
    do 3 eexists. exists st, ct. by split_and!.
Qed.

Section configurations.
Context `{Os} (ROOT : path).

(** The calls of [save]. *)
Definition saved (p : path) (obj : json) (h : list event) : list event :=
  Event () (Chmod p 384) (Ok ()) :: Event () (WriteText p (dumps_indent 2 obj +:+ nl)) (Ok ()) :: h.
Lemma save_ok p obj w q w' :
  save p obj w = (Ok q, w') → q = p ∧ past w' = saved p obj (past w).
Proof.
  unfold save, ask, mbind, py_bind. intros Hs.
  destruct (os (past w) _) as [[]|] eqn:H1; cbn [past] in Hs; [|done].
  destruct (os _ (Chmod p 384)) as [[]|]; [|done]. by injection Hs as <- <-.
Qed.

(** C23. The two ends fit together: when [configurations] returns, it has written, with mode
    0600, a server and a client configuration that agree - address, port, secret, server
    name, short id, keys or certificate - for every variant, and each command names the file
    written for it. *)
Theorem configurations_agree f variant sp cp cover w s c w' :
  configurations ROOT f variant sp cp cover w = (Ok (s, c), w') →
  let sf := folder f ++ ["server.json"] in let cf := folder f ++ ["client.json"] in
  ∃ server client, agree f variant server client ∧
    past w' = saved cf client (saved sf server (past w)) ∧
    last (program_argv s) = Some (posix sf) ∧ last (program_argv c) = Some (posix cf).
Proof.
  unfold configurations, mbind, py_bind, lift. intros Hc.
  destruct (if is_veil variant then _ else _) as [[server client]|] eqn:Hv; [|done].
  destruct (save (folder f ++ ["server.json"]) server w) as [[sf|] w1] eqn:H1; [|done].
  apply save_ok in H1 as [-> H1].
  destruct (save (folder f ++ ["client.json"]) client w1) as [[cf|] w2] eqn:H2; [|done].
  apply save_ok in H2 as [-> H2]. destruct (programs variant) as [sb cb]. injection Hc as <- <- <-.
  exists server, client. split; [by eapply configs_agree|]. split; [by rewrite H2, H1|].
  unfold program_argv. cbn [fst snd]. by rewrite !app_comm_cons, !last_snoc.
Qed.
End configurations.

Definition sample_keys : json :=
  JObj [("secret", JStr "s3cret"); ("short_id", JStr "0123"); ("reality_private_key", JStr "priv");
        ("reality_public_key", JStr "pub")].
Definition sample_credentials : credentials :=
  {| folder := ["t"]; cert := "/t/cert.pem"; key := "/t/key.pem"; keys := sample_keys |}.
(** A machine on which files can be written. *)
Definition writable_machine : Os := λ A h c,
  match c in call A return result A with WriteText _ _ | Chmod _ _ => Ok () | _ => Err (OSError "unused") end.

Lemma configurations_agree_witness :
  ∃ server client, agree sample_credentials "veil-opt-reality" server client ∧
    past (@configurations writable_machine ["r"] sample_credentials "veil-opt-reality" 1 2 3 nothing).2 =
      saved ["t"; "client.json"] client (saved ["t"; "server.json"] server []) ∧
    last (program_argv (["r"; ".build"; "veil-openssl"], ["-config"; "/t/server.json"])) = Some (posix ["t"; "server.json"]) ∧
    last (program_argv (["r"; ".build"; "veil-batch"], ["-config"; "/t/client.json"])) = Some (posix ["t"; "client.json"]).
Proof. exact (@configurations_agree writable_machine ["r"] sample_credentials "veil-opt-reality" 1 2 3 nothing _ _ _ eq_refl). Defined.
