(* ===== verification/WinInet.v ===== *)
(** * The settings and the window of the desktop program

    [veil-desktop/scripts/gui/windows.py]: the proxy settings of the user through WinINet, and
    the operations on the window that the acceptance test starts one by one. *)

From S2P Require Import Prelude.
From S2P Require Import PyText.
From S2P Require Import PyBytes.
From S2P Require Import Json.
From S2P Require Import Tools.
From S2P Require Import Machine.
#[local] Open Scope Z_scope.

(** The dictionary of [snapshot] and [write]. *)
Record settings := { flags : Z; server : string; bypass : string; pac : string }.
#[export] Instance settings_eq_dec : EqDecision settings.
Proof. solve_decision. Defined.
Definition settings_json (s : settings) : json :=
  JObj [("flags", JNum (flags s)); ("server", JStr (server s)); ("bypass", JStr (bypass s)); ("pac", JStr (pac s))].

(** A text in memory ends at its first zero. *)
Fixpoint until_nul (s : string) : string :=
  match s with
  | String c s => if Ascii.eqb c Ascii.zero then "" else String c (until_nul s)
  | "" => ""
  end.
(** A number stored in a [DWORD] *)
Definition dword (z : Z) : Z := z mod 2 ^ 32.

Section windows.
Context `{Os}.

(** ** [snapshot]

    The call fills the options of the given ids: a number, and three pointers to memory that the
    caller owns. *)
Definition wstring_at (x : Z * string) : string := if x.1 =? 0 then "" else until_nul x.2.
Definition take_text (x : Z * string) : py world string :=
  (if x.1 =? 0 then mret () else ask (GlobalFree x.1));; mret (wstring_at x).
Definition snapshot_ids : list Z := [10; 2; 3; 4].
Definition snapshot : py world settings :=
  '(number, texts) ← ask (InetQuery snapshot_ids);
  texts ← mapM_py take_text texts;
  lift match texts with
       | [a; b; c] => Ok {| flags := dword number; server := a; bypass := b; pac := c |}
       | _ => Err IndexError
       end.

(** ** [write] *)
Definition write_options (s : settings) : list (Z * string) := [(2, server s); (3, bypass s); (4, pac s)].
Definition write (s : settings) : py world () :=
  ask (InetSet (dword (flags s)) (write_options s));;
  for_each (λ n, ask (InetNotify n)) [39; 37].

(** ** [window] and the commands *)
Definition rect_json (r : Z * Z * Z * Z) : json := let '(a, b, c, d) := r in JArr [JNum a; JNum b; JNum c; JNum d].
Definition window : py world json :=
  h ← ask (FindWindow "Veil");
  rect ← match h with Some h => ask (WindowRect h) | None => mret (0, 0, 0, 0) end;
  visible ← match h with Some h => v ← ask (WindowVisible h); mret (negb (v =? 0)) | None => mret false end;
  mret (JObj [("hwnd", match h with Some h => JNum h | None => JNull end); ("visible", JBool visible); ("rect", rect_json rect)]).
Definition windows_cli (argv : list string) : py world () :=
  command ← lift (from_option_or IndexError (argv !! 1%nat));
  if String.eqb command "proxy" then s ← snapshot; ask (Print (dumps (settings_json s)))
  else if String.eqb command "show" then h ← ask (FindWindow "Veil"); ask (ShowWindow h 5)
  else if String.eqb command "resize" then h ← ask (FindWindow "Veil"); ask (MoveWindow h (0, 0, 680, 720))
  else if String.eqb command "window" then v ← window; ask (Print (dumps v))
  else if String.eqb command "close" then h ← ask (FindWindow "Veil"); ask (PostMessage h 16 0 0)
  else mret ().
End windows.

(** ** The documented behaviour of WinINet

    The settings of the user: what this program set last, or [start]. *)
Definition option_text (i : Z) (l : list (Z * string)) : string := until_nul (default "" (dict_get i l)).
Definition settings_of (number : Z) (texts : list (Z * string)) : settings :=
  {| flags := dword number; server := option_text 2 texts; bypass := option_text 3 texts; pac := option_text 4 texts |}.
Definition set_by (e : event) : option settings :=
  match e with
  | Event _ c (Ok _) => match c with InetSet number texts => Some (settings_of number texts) | _ => None end
  | _ => None
  end.
Fixpoint current (start : settings) (past : list event) : settings :=
  match past with
  | [] => start
  | e :: past => default (current start past) (set_by e)
  end.

(** A pointer to [s], or the null pointer for a text that is not set.  The query is answered so
    as long as no process was started that may change the settings itself. *)
Definition points_to (x : Z * string) (s : string) : Prop := wstring_at x = s.
Definition starts {A} (c : call A) : bool := match c with Popen _ => true | _ => false end.
Definition started_one (past : list event) : bool := existsb (λ e, starts (question e)) past.
Class Inet `(Os) (start : settings) : Prop := {
  inet_query : ∀ h number texts, started_one h = false → os h (InetQuery snapshot_ids) = Ok (number, texts) →
    dword number = flags (current start h) ∧
    Forall2 points_to texts [server (current start h); bypass (current start h); pac (current start h)] }.

(** Windows refused the last call that sets: it was to set [s]. *)
Definition is_set (e : event) : bool := match question e with InetSet _ _ => true | _ => false end.
Definition refused_set (s : settings) (e : event) : Prop :=
  ∃ err, e = Event () (InetSet (dword (flags s)) (write_options s)) (Err err).
Definition write_refused (s : settings) (past : list event) : Prop :=
  ∃ e, List.find is_set past = Some e ∧ refused_set s e.
(** The settings are [s], or could not be written. *)
Definition put_back (start s : settings) (w : world) : Prop :=
  current start (past w) = s ∨ write_refused s (past w).
(** What is read back is written as it is. *)
Definition canonical (s : settings) : Prop := settings_of (dword (flags s)) (write_options s) = s.

Definition sets {A} (c : call A) : bool := match c with InetSet _ _ => true | _ => false end.
(** An invariant of the history that only the calls in [touches] can break. *)
Definition blind (touches : ∀ A, call A → bool) (I : world → Prop) : Prop :=
  ∀ w w' A (c : call A) r, touches A c = false → past w' = Event A c r :: past w → I w → I w'.

Lemma until_nul_idem s : until_nul (until_nul s) = until_nul s.
Proof. induction s as [|c s IH]; [done|]. cbn. destruct (Ascii.eqb c Ascii.zero) eqn:Hc; [done|]. cbn. by rewrite Hc, IH. Qed.
Lemma until_nul_wstring x : until_nul (wstring_at x) = wstring_at x.
Proof. unfold wstring_at. destruct (x.1 =? 0); [done|apply until_nul_idem]. Qed.
Lemma dword_idem z : dword (dword z) = dword z.
Proof. unfold dword. by rewrite Z.mod_mod. Qed.
Lemma canonical_read number x y z :
  canonical {| flags := dword number; server := wstring_at x; bypass := wstring_at y; pac := wstring_at z |}.
Proof.
  transitivity {| flags := dword (dword (dword number)); server := until_nul (wstring_at x);
                  bypass := until_nul (wstring_at y); pac := until_nul (wstring_at z) |}; [reflexivity|].
  by rewrite !dword_idem, !until_nul_wstring.
Qed.

Section settings_kept.
Context `{Os} (start s : settings).

Lemma ask_blind touches I {A} (c : call A) : blind touches I → touches A c = false → keeps I (ask c).
Proof.
  intros HI Hc w Hw. pose proof (HI w (ask c w).2 A c (os (past w) c) Hc eq_refl Hw) as H1.
  unfold ask in *. cbn in *. by destruct (os (past w) c).
Qed.
Lemma put_back_blind : blind (@sets) (put_back start s).
Proof.
  intros w w' A c r Hc Hp Hw. unfold put_back, write_refused. rewrite Hp. cbn [current List.find].
  assert (is_set (Event A c r) = false) as -> by (by destruct c).
  assert (set_by (Event A c r) = None) as -> by (by destruct r; [|done]; destruct c). exact Hw.
Qed.
(** On a machine that does what is documented, [snapshot] reads the settings. *)
Definition unset (w : world) : Prop := current start (past w) = s ∧ started_one (past w) = false.
Definition sets_or_starts A (c : call A) : bool := sets c || starts c.
Lemma unset_blind : blind sets_or_starts unset.
Proof.
  intros w w' A c r [Hc Hs]%orb_false_iff Hp [Hw Hn]. unfold unset. rewrite Hp. cbn [current].
  split; [|change (starts c || started_one (past w) = false); by rewrite Hs, Hn].
  by assert (set_by (Event A c r) = None) as -> by (by destruct r; [|done]; destruct c).
Qed.
Lemma take_text_gives I x : blind sets_or_starts I → gives I (λ v, v = wstring_at x) (take_text x).
Proof.
  intros HI. unfold take_text. apply gives_step.
  - destruct (x.1 =? 0); [apply within_ret|by eapply ask_blind].
  - intros []. by apply gives_ret.
Qed.
Lemma take_texts_gives I l : blind sets_or_starts I → gives I (λ v, v = map wstring_at l) (mapM_py take_text l).
Proof.
  intros HI. induction l as [|x l IH]; cbn; [by apply gives_ret|].
  eapply gives_bind; [by apply take_text_gives|intros y ->].
  eapply gives_bind; [exact IH|intros ys ->]. by apply gives_ret.
Qed.
Lemma snapshot_gives `{!Inet H start} : gives unset (λ v, v = s ∧ canonical v) snapshot.
Proof.
  intros w Hw. unfold snapshot, mbind at 1, py_bind.
  pose proof (ask_blind sets_or_starts unset (InetQuery snapshot_ids) unset_blind eq_refl w Hw) as Ha. revert Ha.
  unfold ask at 1 2. destruct (os (past w) (InetQuery snapshot_ids)) as [[number texts]|e] eqn:Hq; [|done].
  destruct (inet_query _ _ _ (proj2 Hw) Hq) as [Hn Ht]. rewrite (proj1 Hw) in Hn, Ht.
  inversion Ht as [|x ? l ? Hx Ht1]; subst. inversion Ht1 as [|y ? l1 ? Hy Ht2]; subst.
  inversion Ht2 as [|z ? l2 ? Hz Ht3]; subst. inversion Ht3; subst.
  match goal with |- unset ?w1 → _ => generalize w1 end. revert w Hw Hq. intros _ _ _.
  change (gives unset (λ v, v = s ∧ canonical v)
    (texts ← mapM_py take_text [x; y; z];
     lift match texts with
          | [a; b; c] => Ok {| flags := dword number; server := a; bypass := b; pac := c |}
          | _ => Err IndexError end)).
  eapply gives_bind; [apply take_texts_gives, unset_blind|intros ts ->]. cbn [map].
  apply gives_ret. split; [|apply canonical_read].
  unfold points_to in *. rewrite Hn, Hx, Hy, Hz. by destruct s.
Qed.

(** [write] leaves the settings written, or Windows refused them. *)
Lemma write_puts_back : canonical s → triple (λ _, True) (write s) (λ _, put_back start s) (λ _, put_back start s).
Proof.
  intros Hs w _. unfold write, mbind, py_bind, ask at 1.
  destruct (os (past w) (InetSet (dword (flags s)) (write_options s))) as [[]|err] eqn:Ho.
  - match goal with |- context [for_each _ _ ?w1] => assert (put_back start s w1) as H1 by (left; apply Hs) end.
    revert H1. match goal with |- put_back _ _ ?w1 → _ => generalize w1 end. intros w1 H1.
    assert (keeps (put_back start s) (for_each (λ n, ask (InetNotify n)) [39; 37])) as Hk.
    { apply within_for_each. intros n _. eapply ask_blind; [apply put_back_blind|done]. }
    specialize (Hk w1 H1). destruct (for_each _ _ w1) as [[u|e] w2]; [done|apply Hk].
  - right. eexists. cbn [List.find past]. split; [reflexivity|]. by eexists.
Qed.
End settings_kept.

(** Texts without zeros stay so. *)
Lemma current_canonical start h : canonical start → canonical (current start h).
Proof.
  intros Hs. induction h as [|e h IH]; [done|]. cbn [current].
  assert (∀ s, set_by e = Some s → canonical s) as He; [|by destruct (set_by e) as [s|]; [apply He|]].
  destruct e as [A c [a|err]]; [|done]. destruct c; try done. intros s [= <-].
  apply (canonical_read number (1, default "" (dict_get 2 texts)) (1, default "" (dict_get 3 texts))
    (1, default "" (dict_get 4 texts))).
Qed.
(** An answer that follows the history. *)
Definition answer_query (s : settings) : Z * list (Z * string) := (flags s, [(1, server s); (2, bypass s); (3, pac s)]).
Lemma answer_query_inet `{Os} start : canonical start →
  (∀ h, os h (InetQuery snapshot_ids) = Ok (answer_query (current start h))) → Inet H start.
Proof.
  intros Hs Ho. split. intros h number texts _. rewrite Ho. intros [= <- <-].
  pose proof (current_canonical start h Hs) as Hc. unfold canonical, settings_of in Hc.
  destruct (current start h) as [f a b c]. cbn [write_options server bypass pac] in Hc.
  injection Hc as Hf Ha Hb Hp. rewrite dword_idem in Hf. by repeat constructor.
Qed.

Section quiet.
Context `{Os}.
Lemma take_text_quiet x : quiet (take_text x).
Proof. intros R T F. unfold take_text. solve_within. Qed.
#[local] Hint Resolve take_text_quiet : within.
Lemma snapshot_quiet : quiet snapshot.
Proof. intros R T F. unfold snapshot. solve_within. Qed.
Lemma write_quiet s : quiet (write s).
Proof. intros R T F. unfold write. solve_within. Qed.
End quiet.
#[export] Hint Resolve snapshot_quiet write_quiet : within.
