(* ===== verification/Labels.v ===== *)
(** * The translations of the web interfaces

    [veil-service/scripts/check_webui.py] and the main program of openwrt_check.py: the labels of
    the pages are searched in the JavaScript and HTML sources, and each must have a translation. *)

From S2P Require Import Prelude.
From S2P Require Import PyText.
From S2P Require Import PyBytes.
From S2P Require Import Json.
From S2P Require Import Numbers.
From S2P Require Import FileSystem.
From S2P Require Import Tools.
From S2P Require Import Machine.
From S2P Require Import Fixtures.
From S2P Require Import Catalog.
From Stdlib Require Import Ascii.

(** ** [re.findall]

    [at_] is the match at the start of a text, with the rest after it; matches do not overlap:
    [skip] characters belong to the last one. *)
Fixpoint find_all {A} (at_ : string → option (A * string)) (skip : nat) (s : string) : list A :=
  match s with
  | "" => []
  | String _ s' =>
      match skip with
      | S skip => find_all at_ skip s'
      | O =>
          match at_ s with
          | Some (a, rest) => a :: find_all at_ (pred (String.length s - String.length rest)) s'
          | None => find_all at_ 0 s'
          end
      end
  end.

(** A literal in single quotation marks, after the first: a mark after a backslash does not end it. *)
Fixpoint js_literal (s : string) : option (string * string) :=
  match s with
  | "" => None
  | String c s1 =>
      if Ascii.eqb c quote_code then Some (String c "", s1)
      else if Ascii.eqb c backslash_code then
        match s1 with
        | String d s2 =>
            if Ascii.eqb d newline_code then None
            else '(l, rest) ← js_literal s2; Some (String c (String d l), rest)
        | "" => None
        end
      else '(l, rest) ← js_literal s1; Some (String c l, rest)
  end.
(** A call of one of the named functions with a literal, spaces around it and a comma after it. *)
Fixpoint after_name (names : list string) (s : string) : option string :=
  match names with
  | [] => None
  | n :: names => match drop_prefix (n +:+ "(") s with Some rest => Some rest | None => after_name names s end
  end.
Definition call_at (names : list string) (s : string) : option (string * string) :=
  rest ← after_name names s;
  match lstrip rest with
  | String c rest =>
      if Ascii.eqb c quote_code then
        '(l, rest) ← js_literal rest;
        let rest := lstrip rest in
        let rest := lstrip (default rest (drop_prefix "," rest)) in
        rest ← drop_prefix ")" rest;
        Some (String c l, rest)
      else None
  | "" => None
  end.
Definition find_calls (names : list string) (s : string) : list string := find_all (call_at names) 0 s.
(** The labels of a page: [ast.literal_eval] of what was found. *)
Definition page_labels (names : list string) (text : string) : result (list string) :=
  mapR literal_eval (find_calls names text).

(** The attribute [data-i18n] with a value of at least one character. *)
Definition attribute_at (s : string) : option (string * string) :=
  rest ← drop_prefix ("data-i18n=" +:+ dquote) s;
  let '(v, rest) := span (λ c, negb (Ascii.eqb c dquote_code)) rest in
  if String.eqb v "" then None else rest ← drop_prefix dquote rest; Some (v, rest).
Definition find_attributes (s : string) : list string := find_all attribute_at 0 s.

Definition shared_names : list string := ["_"; "tr"].
Definition luci_names : list string := ["_"].
Example find_1 :
  find_calls shared_names ("x = _( 'a\'b' ,); tr('c');tr('d' + e); _('f''g'); __('h')" +:+ nl) = ["'a\'b'"; "'c'"; "'h'"] ∧
  find_attributes ("<a data-i18n=" +:+ dquote +:+ "k" +:+ dquote +:+ "> data-i18n=" +:+ dquote +:+ dquote) = ["k"].
Proof. split; reflexivity. Qed.

(** ** The programs *)
Section labels.
Context `{Os} (ROOT : path).

Definition node_check (p : path) : py world () := ask (Run true (plain ["node"; "--check"; posix p])).
Definition webui : path := ROOT ++ ["webui"].
Definition opnsense : path := sub ROOT "platform/opnsense/src/opnsense".

(** [check] of check_webui.py *)
Definition check_page (p : path) : py world (list string) :=
  node_check p;; text ← ask (ReadText p); lift (page_labels shared_names text).
(** [json.loads(source[source.index("{"):].rstrip().removesuffix(";"))] *)
Definition removesuffix_semicolon (s : string) : string :=
  match srev s with String c r => if Ascii.eqb c ";" then srev r else s | "" => s end.
Definition read_translations (source : string) : result json :=
  n ← index_from "{" source 0; loads (removesuffix_semicolon (rstrip (sdrop n source))).
Definition untranslated (translations : json) (label : string) : result (list string) :=
  zh ← jitem "zh" translations; v ← jget label zh; Ok (if truthy v then [] else [label]).
Definition missing_labels (translations : json) (labels : list string) : result (list string) :=
  (λ l : list (list string), mjoin l) <$> mapR (untranslated translations) (sort_strings (remove_dups labels)).
Definition check_webui : py world () :=
  a ← check_page (webui ++ ["connections.js"]);
  b ← check_page (sub opnsense "www/js/veil/page.js");
  view ← ask (ReadText (sub opnsense "mvc/app/views/OPNsense/Veil/index.volt"));
  source ← ask (ReadText (webui ++ ["i18n.js"]));
  translations ← lift (read_translations source);
  missing ← lift (missing_labels translations (a ++ b ++ find_attributes view));
  lift (raise_if (negb (bool_decide (missing = [])))
    (ValueError ("Shared Chinese labels missing: " +:+ list_repr missing)));;
  node_check (webui ++ ["i18n.js"]).

(** [main] of openwrt_check.py *)
Definition luci : path := sub ROOT "platform/openwrt/luci-app-veil".
Definition check_catalogue (labels : list string) (relative text : string) : result () :=
  es ← catalog text; check_labels (remove_dups labels) relative es.
Definition luci_read : json := JObj [("ubus", JObj [("veil", JArr [JStr "status"; JStr "connections"])])].
Definition check_acl (text : string) : result () :=
  acl ← loads text; app ← jitem "luci-app-veil" acl; read ← jitem "read" app;
  raise_if (negb (json_eqb read luci_read)) (ValueError "read-only LuCI must not expose credentials or mutations").
Definition openwrt_main : py world () :=
  check_webui;;
  let source := sub luci "htdocs/luci-static/resources/view/veil.js" in
  node_check source;;
  node_check (sub ROOT "scripts/luci_smoke.cjs");;
  text ← ask (ReadText source);
  labels ← lift (page_labels luci_names text);
  for_each (λ relative, text ← ask (ReadText (sub luci relative)); lift (check_catalogue labels relative text))
    ["po/templates/veil.pot"; "po/zh_Hans/veil.po"];;
  acl ← ask (ReadText (sub luci "root/usr/share/rpcd/acl.d/luci-app-veil.json"));
  lift (check_acl acl);;
  files ← ask (Rglob (luci ++ ["root"]));
  for_each (λ p, text ← ask (ReadText p); lift (loads text ≫= λ _, Ok ()))
    (filter (λ p, endswith (name_of p) ".json" = true) files).
End labels.

(** ** Sources with calls *)

(** A call in a source: what stands before it, its spaces, its comma and its label. *)
Record call_site := {
  filler : string; c_name : string; gap1 : string; c_label : string; gap2 : string; c_comma : bool; gap3 : string }.
Definition call_text (c : call_site) : string :=
  c_name c +:+ "(" +:+ gap1 c +:+ marked quote_code (c_label c) +:+ gap2 c +:+ (if c_comma c then "," else "") +:+ gap3 c +:+ ")".
Fixpoint source_text (cs : list call_site) (tail : string) : string :=
  match cs with [] => tail | c :: cs => filler c +:+ call_text c +:+ source_text cs tail end.
(** No call of the functions stands in the text. *)
Definition without_calls (names : list string) (s : string) : Prop := ∀ n, n ∈ names → contains (n +:+ "(") s = false.
Definition site_ok (names : list string) (c : call_site) : Prop :=
  c_name c ∈ names ∧ without_calls names (filler c) ∧
  all_chars is_space (gap1 c) = true ∧ all_chars is_space (gap2 c) = true ∧ all_chars is_space (gap3 c) = true.

(** *** [find_all] *)
Lemma length_sapp a b : String.length (a +:+ b) = (String.length a + String.length b)%nat.
Proof. induction a as [|c a IH]; [done|]. rewrite sapp_cons. cbn [String.length]. rewrite IH. lia. Qed.
Lemma find_all_skip {A} (at_ : string → option (A * string)) s r : find_all at_ (String.length s) (s +:+ r) = find_all at_ 0 r.
Proof. induction s as [|c s IH]; [done|]. rewrite sapp_cons. cbn [String.length find_all]. exact IH. Qed.
Lemma find_all_match {A} (at_ : string → option (A * string)) s r a :
  s ≠ "" → at_ (s +:+ r) = Some (a, r) → find_all at_ 0 (s +:+ r) = a :: find_all at_ 0 r.
Proof.
  intros Hs Ha. destruct s as [|c s]; [done|]. rewrite sapp_cons in *. cbn [find_all]. rewrite Ha. f_equal.
  assert (pred (String.length (String c (s +:+ r)) - String.length r) = String.length s) as ->; [|apply find_all_skip].
  cbn [String.length]. rewrite length_sapp. lia.
Qed.
Lemma find_all_filler {A} (at_ : string → option (A * string)) f r :
  (∀ p s, f = p +:+ s → s ≠ "" → at_ (s +:+ r) = None) → find_all at_ 0 (f +:+ r) = find_all at_ 0 r.
Proof.
  induction f as [|c f IH]; intros Hf; [done|]. rewrite sapp_cons. cbn [find_all].
  rewrite <- sapp_cons, (Hf "" (String c f)) by done. apply IH. intros p s -> Hs. by apply (Hf (String c p)).
Qed.

(** *** A call is found *)
Lemma js_literal_marked l r :
  js_literal (concat_map (escape quote_code) l +:+ String quote_code r) =
  Some (concat_map (escape quote_code) l +:+ String quote_code "", r).
Proof.
  induction l as [|c l IH]; [done|]. cbn [concat_map]. rewrite !sapp_assoc. unfold escape at 1 3.
  set (rest := concat_map (escape quote_code) l +:+ String quote_code r) in *.
  set (lit := concat_map (escape quote_code) l +:+ String quote_code "") in *.
  destruct (Ascii.eqb c newline_code) eqn:Hn; [|destruct (Ascii.eqb c quote_code || Ascii.eqb c backslash_code) eqn:Hq].
  - change (js_literal (String backslash_code (String "n" rest)) = Some (String backslash_code (String "n" lit), r)).
    cbn [js_literal]. change (Ascii.eqb backslash_code quote_code) with false. change (Ascii.eqb "n" newline_code) with false.
    rewrite Ascii.eqb_refl. cbv iota. by rewrite IH.
  - change (js_literal (String backslash_code (String c rest)) = Some (String backslash_code (String c lit), r)).
    cbn [js_literal]. change (Ascii.eqb backslash_code quote_code) with false.
    rewrite Ascii.eqb_refl, Hn. cbv iota. by rewrite IH.
  - apply orb_false_iff in Hq as [Hq Hb]. rewrite !sapp_cons, !sapp_nil_l. cbn [js_literal]. rewrite Hq, Hb. by rewrite IH.
Qed.
Lemma lstrip_gap g s : all_chars is_space g = true → lstrip (g +:+ s) = lstrip s.
Proof.
  induction g as [|c g IH]; [done|]. cbn [all_chars]. intros [Hc Hg]%andb_true_iff. rewrite sapp_cons. cbn [lstrip].
  rewrite Hc. by apply IH.
Qed.
Lemma known_names names : names ∈ [shared_names; luci_names] → names = shared_names ∨ names = luci_names.
Proof. intros [-> | Hn]%elem_of_cons; [by left|right]. by apply list_elem_of_singleton in Hn. Qed.
Lemma shared_cases n : n ∈ shared_names → n = "_" ∨ n = "tr".
Proof. intros [-> | Hn]%elem_of_cons; [by left|right]. by apply list_elem_of_singleton in Hn. Qed.
Lemma luci_cases n : n ∈ luci_names → n = "_".
Proof. apply list_elem_of_singleton. Qed.

Section sites.
Context (names : list string) (names_known : names ∈ [shared_names; luci_names]).

Lemma name_cases n : n ∈ names → n = "_" ∨ n = "tr".
Proof.
  destruct (known_names _ names_known) as [-> | ->]; [apply shared_cases|]. intros ->%luci_cases. by left.
Qed.
Lemma after_name_call n s : n ∈ names → after_name names (n +:+ "(" +:+ s) = Some s.
Proof.
  destruct (known_names _ names_known) as [-> | ->].
  - intros [-> | ->]%shared_cases; reflexivity.
  - intros ->%luci_cases. reflexivity.
Qed.
Lemma call_at_site c r : site_ok names c → call_at names (call_text c +:+ r) = Some (marked quote_code (c_label c), r).
Proof.
  intros (Hn & _ & H1 & H2 & H3). unfold call_at, call_text. rewrite !sapp_assoc, after_name_call by done.
  cbn [mbind option_bind]. unfold marked at 1. rewrite lstrip_gap, !sapp_cons, !sapp_assoc, sapp_cons, sapp_nil_l by done.
  change (lstrip (String quote_code ?x)) with (String quote_code x).
  cbv beta iota. rewrite Ascii.eqb_refl, js_literal_marked. cbn [mbind option_bind]. rewrite lstrip_gap by done.
  destruct (c_comma c).
  - change (lstrip ("," +:+ ?x)) with ("," +:+ x). change (drop_prefix "," ("," +:+ ?x)) with (Some x). cbn [default].
    unfold id. rewrite lstrip_gap by done. reflexivity.
  - rewrite sapp_nil_l, lstrip_gap by done. reflexivity.
Qed.

(** The text after a filler: a call, or the end. *)
Definition starts (r : string) : Prop := r = "" ∨ ∃ n r', n ∈ names ∧ r = n +:+ r'.
Lemma name_absent n s r : n ∈ names → contains (n +:+ "(") s = false → s ≠ "" → starts r → drop_prefix (n +:+ "(") (s +:+ r) = None.
Proof.
  intros Hn Hc Hs Hr.
  assert (∀ x d, r = String d x → d = "_"%char ∨ d = "t"%char) as Hd.
  { intros x d ->. destruct Hr as [? | (m & r' & Hm & He)]; [done|].
    destruct (name_cases m Hm) as [-> | ->]; injection He as -> _; auto. }
  destruct (drop_prefix (n +:+ "(") (s +:+ r)) as [x|] eqn:Hx; [exfalso|done]. apply drop_prefix_Some in Hx.
  destruct s as [|a s]; [done|]. destruct (name_cases n Hn) as [-> | ->]; rewrite !sapp_cons, ?sapp_nil_l in Hx; injection Hx as -> Hx.
  - destruct s as [|b s]; [rewrite sapp_nil_l in Hx; by destruct (Hd _ _ Hx)|].
    rewrite sapp_cons in Hx. injection Hx as -> _. assert (contains ("_" +:+ "(") (String "_" (String "(" s)) = true) as Ht; [|by rewrite Hc in Ht].
    apply contains_true. by exists "", s.
  - destruct s as [|b s]; [rewrite sapp_nil_l in Hx; by destruct (Hd _ _ Hx)|].
    rewrite sapp_cons in Hx. injection Hx as -> Hx.
    destruct s as [|d s]; [rewrite sapp_nil_l in Hx; by destruct (Hd _ _ Hx)|].
    rewrite sapp_cons in Hx. injection Hx as -> _.
    assert (contains ("tr" +:+ "(") (String "t" (String "r" (String "(" s))) = true) as Ht; [|by rewrite Hc in Ht].
    apply contains_true. by exists "", s.
Qed.
Lemma call_at_filler f r : without_calls names f → starts r →
  ∀ p s, f = p +:+ s → s ≠ "" → call_at names (s +:+ r) = None.
Proof.
  intros Hf Hr p s -> Hs. assert (after_name names (s +:+ r) = None) as Ha; [|unfold call_at; by rewrite Ha].
  assert (∀ n, n ∈ names → contains (n +:+ "(") s = false) as Hc.
  { intros n Hn. destruct (contains (n +:+ "(") s) eqn:Ht; [|done].
    pose proof (contains_app_r (n +:+ "(") p s Ht) as Hp. by rewrite (Hf n Hn) in Hp. }
  destruct (known_names _ names_known) as [Hn | Hn]; rewrite Hn at 1; unfold shared_names, luci_names; cbn [after_name];
    rewrite !name_absent; try done; rewrite ?Hn; try (by left); try (by right; left); apply Hc; rewrite Hn; by repeat constructor.
Qed.

Lemma find_calls_source cs tail : Forall (site_ok names) cs → without_calls names tail →
  find_calls names (source_text cs tail) = map (λ c, marked quote_code (c_label c)) cs.
Proof.
  intros Hcs Ht. unfold find_calls. induction Hcs as [|c cs Hc Hcs IH]; cbn [source_text map].
  - rewrite <- (sapp_nil_r tail), find_all_filler; [done|]. apply call_at_filler; [done|by left].
  - rewrite find_all_filler.
    + rewrite (find_all_match _ _ _ (marked quote_code (c_label c))).
      * by rewrite IH.
      * unfold call_text. destruct Hc as (Hn & _). by destruct (name_cases _ Hn) as [-> | ->].
      * by apply call_at_site.
    + apply call_at_filler; [apply Hc|]. right. unfold call_text. rewrite !sapp_assoc. eexists _, _. split; [apply Hc|done].
Qed.
Lemma page_labels_source cs tail : Forall (site_ok names) cs → without_calls names tail →
  page_labels names (source_text cs tail) = Ok (map c_label cs).
Proof.
  intros Hcs Ht. unfold page_labels. rewrite find_calls_source by done.
  rewrite <- (map_map c_label (marked quote_code)). rewrite mapR_map.
  rewrite (mapR_all _ id); [by rewrite map_id|]. intros l _. apply literal_eval_marked. right; left.
Qed.
End sites.

(** *** What the checks accept *)
Definition pairs_of (es : list entry) : list (string * string) := map (λ e, (key_of e, value_of e)) es.
Lemma dict_get_entry es e : NoDup (map key_of es) → e ∈ es → dict_get (key_of e) (pairs_of es) = Some (value_of e).
Proof.
  induction es as [|x es IH]; [by intros _ ?%not_elem_of_nil|]. cbn [map]. intros [Hx Hn]%NoDup_cons He. cbn.
  apply elem_of_cons in He as [-> | He]; [by rewrite decide_True|]. rewrite decide_False; [by apply IH|].
  intros Hk. apply Hx. rewrite <- Hk. apply list_elem_of_In, in_map. by apply list_elem_of_In.
Qed.
Lemma entry_key es l : l ∈ (pairs_of es).*1 → ∃ e, e ∈ es ∧ key_of e = l.
Proof.
  intros (x & -> & Hx)%list_elem_of_fmap. apply list_elem_of_In, in_map_iff in Hx as (e & <- & He).
  exists e. split; [by apply list_elem_of_In|done].
Qed.
(** A label has an entry, which is translated in the translated catalogue. *)
Definition has_entry (relative : string) (es : list entry) (l : string) : Prop :=
  ∃ e, e ∈ es ∧ key_of e = l ∧ (endswith relative ".po" = true → value_of e ≠ "").
Lemma check_labels_ok labels relative es : NoDup (map key_of es) →
  check_labels labels relative (pairs_of es) = Ok () ↔ Forall (has_entry relative es) labels.
Proof.
  intros Hn. unfold check_labels. rewrite bind_ok. setoid_rewrite raise_if_ok. rewrite Forall_forall. split.
  - intros (_ & Hm & Hv) l Hl. apply negb_false_iff, bool_decide_eq_true in Hm.
    assert (l ∈ (pairs_of es).*1) as Hk.
    { destruct (decide (l ∈ (pairs_of es).*1)) as [?|Hx]; [done|exfalso].
      apply (not_elem_of_nil l). rewrite <- Hm. by apply list_elem_of_filter. }
    apply entry_key in Hk as (e & He & <-). exists e. split; [done|]. split; [done|]. intros Hpo Hz. rewrite Hpo in Hv.
    apply andb_false_iff in Hv as [?|Hv]; [done|].
    assert (existsb (λ l, String.eqb (default "" (dict_get l (pairs_of es))) "") labels = true) as Ht; [|by rewrite Hv in Ht].
    apply existsb_exists. exists (key_of e). split; [by apply list_elem_of_In|]. rewrite dict_get_entry by done. cbn. by rewrite Hz.
  - intros Hl. exists (). split.
    + apply negb_false_iff, bool_decide_eq_true, elem_of_nil_inv. intros l [Hx Hin]%list_elem_of_filter.
      destruct (Hl l Hin) as (e & He & <- & _). apply Hx. apply list_elem_of_fmap. exists (key_of e, value_of e).
      split; [done|]. apply list_elem_of_In, (in_map (λ e, (key_of e, value_of e))). by apply list_elem_of_In.
    + destruct (endswith relative ".po") eqn:Hpo; [|done]. cbn [andb].
      destruct (existsb _ labels) eqn:Hx; [exfalso|done]. apply existsb_exists in Hx as (l & Hin & Hx).
      apply list_elem_of_In in Hin. destruct (Hl l Hin) as (e & He & <- & Hv). rewrite dict_get_entry in Hx by done.
      apply String.eqb_eq in Hx. by apply Hv.
Qed.

Lemma untranslated_ok kvs l : untranslated (JObj [("zh", JObj kvs)]) l =
  Ok (if truthy (default JNull (dict_get l kvs)) then [] else [l]).
Proof. done. Qed.
Lemma missing_labels_ok kvs labels :
  missing_labels (JObj [("zh", JObj kvs)]) labels = Ok [] ↔ Forall (λ l, truthy (default JNull (dict_get l kvs)) = true) labels.
Proof.
  unfold missing_labels. rewrite (mapR_all _ (λ l, if truthy (default JNull (dict_get l kvs)) then [] else [l])) by done.
  cbn [fmap result_fmap]. rewrite Forall_forall. split.
  - intros [= Hm] l Hl. destruct (truthy _) eqn:Ht; [done|exfalso]. apply (not_elem_of_nil l). rewrite <- Hm.
    apply list_elem_of_join. exists [l]. split; [by left|].
    assert (l ∈ sort_strings (remove_dups labels)) as Hs by (apply (proj2 (sort_strings_spec _)); by apply elem_of_remove_dups).
    apply list_elem_of_In, in_map_iff. exists l. rewrite Ht. split; [done|by apply list_elem_of_In].
  - intros Hl. f_equal. apply elem_of_nil_inv. intros x (m & Hx & Hm)%list_elem_of_join.
    apply list_elem_of_In, in_map_iff in Hm as (l & <- & Hm). apply list_elem_of_In in Hm.
    apply (proj1 (proj2 (sort_strings_spec _) l)) in Hm. rewrite elem_of_remove_dups in Hm.
    rewrite (Hl l Hm) in Hx. by apply not_elem_of_nil in Hx.
Qed.


Definition sample_sites : list call_site :=
  [ {| filler := "E('a', {}, "; c_name := "_"; gap1 := " "; c_label := "Don't"; gap2 := ""; c_comma := true; gap3 := nl |};
    {| filler := " + t("; c_name := "tr"; gap1 := ""; c_label := "Add"; gap2 := ""; c_comma := false; gap3 := "" |} ].
Definition sample_entries : list entry :=
  [ {| e_key := "Don't"; e_keys := []; e_value := "不"; e_values := [] |};
    {| e_key := "Add"; e_keys := []; e_value := ""; e_values := [] |} ].
