(* ===== verification/Interfaces.v ===== *)
(** * The interfaces of the desktop program and of OPNsense

    [veil-desktop/scripts/check_frontend.py] and [veil-service/scripts/opnsense_check.py]: the
    labels of the desktop pages are handed to a program for node, and the permission of the
    OPNsense status page must name three patterns and no other. *)

From S2P Require Import Prelude.
From S2P Require Import PyText.
From S2P Require Import PyBytes.
From S2P Require Import Json.
From S2P Require Import FileSystem.
From S2P Require Import Tools.
From S2P Require Import Machine.
From S2P Require Import Fixtures.
From S2P Require Import Catalog.
From S2P Require Import Labels.
From Stdlib Require Import Ascii.
#[local] Open Scope Z_scope.

(** ** Searches for labels of letters *)
Definition is_letter (c : ascii) : bool := in_range "a" "z" c || in_range "A" "Z" c.
(** [\w]; a byte of a character outside ASCII is taken for a letter. *)
Definition is_word (c : ascii) : bool := is_letter c || is_digit c || Ascii.eqb c "_" || (128 <=? N_of_ascii c)%N.
Definition letters (s : string) : option (string * string) :=
  let '(v, rest) := span is_letter s in if String.eqb v "" then None else Some (v, rest).
(** The attribute [data-i18n] with letters as its value *)
Definition i18n_at (s : string) : option (string * string) :=
  rest ← drop_prefix ("data-i18n=" +:+ dquote) s;
  '(v, rest) ← letters rest;
  rest ← drop_prefix dquote rest;
  Some (v, rest).
(** A call of [t] with letters between two quotation marks of one kind *)
Definition label_call_at (s : string) : option (string * string) :=
  rest ← drop_prefix "t(" s;
  match rest with
  | String q rest =>
      if Ascii.eqb q quote_code || Ascii.eqb q dquote_code then
        '(v, rest) ← letters rest;
        rest ← drop_prefix (String q ")") rest;
        Some (v, rest)
      else None
  | "" => None
  end.
(** [\b] before a word: [word] says whether the character before the text belongs to one. *)
Fixpoint find_words {A} (at_ : string → option (A * string)) (word : bool) (skip : nat) (s : string) : list A :=
  match s with
  | "" => []
  | String c s' =>
      match skip with
      | S skip => find_words at_ (is_word c) skip s'
      | O =>
          match (if word then None else at_ s) with
          | Some (a, rest) => a :: find_words at_ (is_word c) (pred (String.length s - String.length rest)) s'
          | None => find_words at_ (is_word c) 0 s'
          end
      end
  end.
Definition frontend_labels (html app : string) : list string :=
  remove_dups (find_all i18n_at 0 html ++ find_words label_call_at false 0 app).
Example frontend_1 :
  find_words label_call_at false 0 "t('a');at('b') +t('c'')t('d') t('e1') _t('f')" = ["a"; "d"] ∧
  find_all i18n_at 0 ("<b data-i18n=" +:+ dquote +:+ "k" +:+ dquote +:+ " data-i18n=" +:+ dquote +:+ "k1" +:+ dquote) = ["k"].
Proof. split; reflexivity. Qed.

Section frontend.
Context `{Os} (ROOT : path).

Definition node_program : string :=
  nl +:+ join nl
    ["const fs = require('fs'), vm = require('vm'), assert = require('assert/strict');";
     "const context = { window: {} };";
     "vm.runInNewContext(fs.readFileSync(process.argv[1], 'utf8'), context);";
     "const { en, zh } = context.window.messages;";
     "assert.deepEqual(Object.keys(en).sort(), Object.keys(zh).sort());";
     "for (const key of JSON.parse(process.argv[2])) {";
     "  assert.ok(en[key] && zh[key], 'Missing translation: ' + key);";
     "}";
     "console.log('Desktop English/Chinese labels and JS syntax passed.');"] +:+ nl.
Definition frontend : path := ROOT ++ ["frontend"].
Definition node_labels (labels : list string) : list string :=
  ["node"; "-e"; node_program; posix (frontend ++ ["i18n.js"]); dumps (JArr (map JStr (sort_strings labels)))].
Definition frontend_main : py world () :=
  for_each (λ script, node_check (frontend ++ [script])) ["app.js"; "i18n.js"];;
  html ← ask (ReadText (frontend ++ ["index.html"]));
  app ← ask (ReadText (frontend ++ ["app.js"]));
  ask (Run true (plain (node_labels (frontend_labels html app))));;
  ask (Run true (plain ["python3"; posix (sub (parent ROOT) "veil-service/scripts/check_webui.py")])).
End frontend.

(** ** OPNsense

    A parsed document; the parser of the standard library is an argument. *)
Inductive xml := Element (tag : string) (text : option string) (children : list xml).
Definition tag_of (x : xml) : string := let '(Element t _ _) := x in t.
Definition text_of (x : xml) : option string := let '(Element _ t _) := x in t.
Definition children_of (x : xml) : list xml := let '(Element _ _ l) := x in l.
(** [findall("./a/b/c")] *)
Fixpoint findall (tags : list string) (x : xml) : list xml :=
  match tags with
  | [] => [x]
  | t :: tags => children_of x ≫= λ y, if String.eqb (tag_of y) t then findall tags y else []
  end.
Definition status_tags : list string := ["page-veil-status"; "patterns"; "pattern"].
Definition status_patterns : list string := ["ui/veil/*"; "api/veil/service/status"; "api/veil/service/connections"].
(** Equality of the sets of two lists *)
Definition same_set {A} `{EqDecision A} (a b : list A) : bool := bool_decide (a ⊆ b ∧ b ⊆ a).
Definition check_status (acl : xml) : result () :=
  raise_if (negb (same_set (map text_of (findall status_tags acl)) (map Some status_patterns)))
    (ValueError "Status permission must not grant credential reads or mutation").

Section opnsense.
Context `{Os} (ROOT : path) (parse : string → result xml).

Definition plugin : path := sub ROOT "platform/opnsense".
Definition parse_file (p : path) : py world xml := text ← ask (ReadText p); lift (parse text).
Definition opnsense_main : py world () :=
  let app := sub plugin "src/opnsense" in
  check_webui ROOT;;
  node_check (sub app "www/js/veil/page.js");;
  node_check (sub ROOT "scripts/opnsense_smoke.cjs");;
  files ← ask (Rglob plugin);
  for_each (λ p, parse_file p;; mret ()) (filter (λ p, endswith (name_of p) ".xml" = true) files);;
  acl ← parse_file (sub app "mvc/app/models/OPNsense/Veil/ACL/ACL.xml");
  lift (check_status acl);;
  hooks ← ask (Glob plugin "+*");
  for_each (λ p, ask (Run true (plain ["sh"; "-n"; posix p]))) (sub plugin "src/etc/rc.syshook.d/start/91-veil" :: hooks).
End opnsense.

(** The permissions of the status page are the three patterns, whatever their order, and the
    other pages of the document do not count. *)
Lemma check_status_ok acl : check_status acl = Ok () ↔
  ∀ t, (∃ x, x ∈ findall status_tags acl ∧ text_of x = t) ↔ ∃ s, s ∈ status_patterns ∧ t = Some s.
Proof.
  unfold check_status, same_set. rewrite raise_if_ok, negb_false_iff, bool_decide_eq_true.
  assert (∀ A (f : xml → A) l t, t ∈ map f l ↔ ∃ x, x ∈ l ∧ f x = t) as Hm.
  { intros A f l t. rewrite list_elem_of_In, in_map_iff. setoid_rewrite list_elem_of_In. naive_solver. }
  assert (∀ t, t ∈ map Some status_patterns ↔ ∃ s, s ∈ status_patterns ∧ t = Some s) as Hs.
  { intros t. rewrite list_elem_of_In, in_map_iff. setoid_rewrite list_elem_of_In. naive_solver. }
  setoid_rewrite <- Hm. setoid_rewrite <- Hs. split; [intros [H1 H2] t; split; [apply H1|apply H2]|].
  intros H. split; intros t; apply H.
Qed.
Definition sample_acl (patterns : list string) : xml :=
  Element "acl" None
    [Element "page-veil-manage" None [Element "patterns" None [Element "pattern" (Some "api/veil/settings/*") []]];
     Element "page-veil-status" None [Element "name" (Some "Status") []; Element "patterns" None
       (map (λ s, Element "pattern" (Some s) []) patterns)]].
Example check_status_1 : check_status (sample_acl (rev status_patterns)) = Ok () ∧
  is_ok (check_status (sample_acl ("api/veil/settings/*" :: status_patterns))) = false.
Proof. by vm_compute. Qed.
