(* ===== verification/Stack.v ===== *)
(** * Exit stacks

    [contextlib.ExitStack], as [traffic_shapes.trial], [browser_shapes.trial] and the acceptance
    test of the desktop program use it: the callbacks are data, unwound from the last to the first, and what a trial launched is
    covered by a callback. *)

From S2P Require Import Prelude.
From S2P Require Import PyText.
From S2P Require Import PyBytes.
From S2P Require Import FileSystem.
From S2P Require Import Tools.
From S2P Require Import Machine.
From S2P Require Import Fixtures.
From S2P Require Import WinInet.
#[local] Open Scope Z_scope.

(** [CloseLog]: the exit of [enter_context(open(...))]; [RemoveProfile]: [shutil.rmtree] with
    [ignore_errors]. *)
Inductive callback :=
| RemoveProfile (p : path)
| CloseLog (h : nat)
| StopProcess (p : proc)
| CloseTap (t : Z)
| CloseGroup (t : Z)
| RestoreSettings (s : settings).

(** The machine, the lists of the processes and of the servers, and the stack, the last
    callback first. *)
Record scope := { host : world; launched : list proc; served : list Z; callbacks : list callback }.
Definition empty_scope (w : world) : scope := {| host := w; launched := []; served := []; callbacks := [] |}.
Definition with_host (w : world) (s : scope) : scope :=
  {| host := w; launched := launched s; served := served s; callbacks := callbacks s |}.
Definition add_callback (c : callback) (s : scope) : scope :=
  {| host := host s; launched := launched s; served := served s; callbacks := c :: callbacks s |}.
Definition add_launched (p : proc) (s : scope) : scope :=
  {| host := host s; launched := launched s ++ [p]; served := served s; callbacks := callbacks s |}.
Definition add_served (port : Z) (s : scope) : scope :=
  {| host := host s; launched := launched s; served := served s ++ [port]; callbacks := callbacks s |}.

Definition inside {A} (m : py world A) : py scope A := λ s,
  let '(r, w) := m (host s) in (r, with_host w s).
Definition push (c : callback) : py scope () := modify (add_callback c).

Section stack.
Context `{Os} (ENV : env).

(** [CaptureGroup.close]: nothing the second time, also when the first failed. *)
Definition stops_group (t : Z) (e : event) : bool :=
  match question e with GroupStop u => u =? t | _ => false end.
Definition close_group (t : Z) : py world () :=
  stopped ← gets (λ w, existsb (stops_group t) (past w));
  if (stopped : bool) then mret () else
  ended ← ask (GroupStop t);
  lift (raise_if (negb ended) (RuntimeError "capture did not stop")).

Definition run_callback (c : callback) : py world () :=
  match c with
  | RemoveProfile p => try_except (ask (RemoveTree p)) (catch_if is_os_error (mret ()))
  | CloseLog h => close_text h
  | StopProcess p => stop p
  | CloseTap t => ask (TapClose t)
  | CloseGroup t => close_group t
  | RestoreSettings s => write s
  end.

(** An exception of a callback replaces the outcome, and the others still run. *)
Fixpoint unwind {A} (cs : list callback) (r : result A) : world → result A * world := λ w,
  match cs with
  | [] => (r, w)
  | c :: cs =>
      let '(x, w1) := run_callback c w in
      unwind cs (match x with Ok _ => r | Err e => Err e end) w1
  end.
Definition exit_stack {A} (body : py scope A) : py world A := λ w,
  let '(r, s) := body (empty_scope w) in unwind (callbacks s) r (host s).

(** The local function [launch] of the two trials. *)
Definition launch (folder : path) (command : list string) : py scope proc :=
  n ← gets (λ s, length (launched s));
  log ← inside (open_text (folder ++ ["process-" +:+ str (Z.of_nat n) +:+ ".log"]) "w");
  push (CloseLog log);;
  p ← inside (spawn ENV command None 1 Inherit (ToFile log) (ToFile log));
  push (StopProcess p);;
  modify (add_launched p);;
  mret p.
End stack.

(** ** What the stack covers *)
Definition stopped_by (c : callback) : option nat := match c with StopProcess p => Some (p_id p) | _ => None end.
Definition closed_by (c : callback) : option nat := match c with CloseLog h => Some h | _ => None end.

(** What is held beyond [w0] is given up by one of [cs]. *)
Definition covered (w0 : world) (cs : list callback) (w : world) : Prop :=
  tidy w ∧
  (∀ i o, running w !! i = Some o → running w0 !! i = Some o ∨ i ∈ omap stopped_by cs) ∧
  (∀ i q, texts w !! i = Some q → texts w0 !! i = Some q ∨ i ∈ omap closed_by cs) ∧
  fds w = fds w0.
Definition covers (w0 : world) (s : scope) : Prop := covered w0 (callbacks s) (host s).

(** Nothing is held beyond [w0]. *)
Definition restored (w0 w : world) : Prop := frame (running w0) (texts w0) (fds w0) w.

Lemma covered_empty w0 w : covered w0 [] w ↔ restored w0 w.
Proof.
  unfold covered, restored, frame. rewrite !map_subseteq_spec. split.
  - intros (? & Hr & Ht & ?). split; [done|]. split; [|split; [|done]].
    + intros i o Hi. by destruct (Hr i o Hi) as [? | ?%not_elem_of_nil].
    + intros i q Hi. by destruct (Ht i q Hi) as [? | ?%not_elem_of_nil].
  - intros (? & Hr & Ht & ?). split; [done|]. split; [|split; [|done]]; intros; left; auto.
Qed.

Section covers.
Context `{Os} (w0 : world).

Lemma covered_frame cs w w' :
  covered w0 cs w → frame (running w) (texts w) (fds w) w' → covered w0 cs w'.
Proof.
  intros (_ & Hr & Ht & Hf) (? & Hr' & Ht' & Hf'). split; [done|]. split; [|split; [|congruence]].
  - intros i o Hi. apply Hr. by eapply lookup_weaken.
  - intros i o Hi. apply Ht. by eapply lookup_weaken.
Qed.

Lemma covered_without p cs w w' : covered w0 (StopProcess p :: cs) w → without (p_id p) w w' → covered w0 cs w'.
Proof.
  intros (_ & Hr & Ht & Hf) (? & Hr' & Ht' & Hf' & _). cbn in Hr, Ht. split; [done|].
  rewrite Hr', Ht', Hf'. split; [|by split]. intros i o [Hne Hi]%lookup_delete_Some.
  destruct (Hr i o Hi) as [? | [? | ?]%elem_of_cons]; [by left|done|by right].
Qed.
Lemma covered_more cs cs' w : cs ⊆ cs' → covered w0 cs w → covered w0 cs' w.
Proof.
  intros Hs (? & Hr & Ht & ?). split; [done|]. split; [|split; [|done]].
  - intros i o Hi. destruct (Hr i o Hi) as [? | (c & ? & ?)%list_elem_of_omap]; [by left|right].
    apply list_elem_of_omap. eauto.
  - intros i o Hi. destruct (Ht i o Hi) as [? | (c & ? & ?)%list_elem_of_omap]; [by left|right].
    apply list_elem_of_omap. eauto.
Qed.

Lemma inside_covers {A} (m : py world A) : quiet m → keeps (covers w0) (inside m).
Proof.
  intros Hm s Hs. unfold inside. specialize (Hm (running (host s)) (texts (host s)) (fds (host s)) (host s)).
  destruct (m (host s)) as [r w].
  assert (frame (running (host s)) (texts (host s)) (fds (host s)) w) as Hw.
  { assert (frame (running (host s)) (texts (host s)) (fds (host s)) (host s)) as H0 by (by split; [apply Hs|]).
    specialize (Hm H0). destruct r; [done|apply Hm]. }
  destruct r; [|split; [|done]]; by eapply covered_frame.
Qed.

Lemma push_covers c : keeps (covers w0) (push c).
Proof.
  intros s (? & Hr & Ht & ?). split; [done|]. split; [|split; [|done]].
  - intros i o Hi. destruct (Hr i o Hi) as [? | Hin]; [by left|right]. cbn. destruct (stopped_by c); [by right|done].
  - intros i o Hi. destruct (Ht i o Hi) as [? | Hin]; [by left|right]. cbn. destruct (closed_by c); [by right|done].
Qed.
Lemma add_launched_covers p : keeps (covers w0) (modify (add_launched p)).
Proof. by intros s Hs. Qed.

(** An open log is covered by its exit, a process that was started by its [stop]. *)
Lemma covered_ask {A} (c : call A) cs w : covered w0 cs w → covered w0 cs (ask c w).2.
Proof.
  intros Hw. eapply covered_frame; [exact Hw|].
  pose proof (ask_quiet c (running w) (texts w) (fds w) w) as Hq. assert (frame (running w) (texts w) (fds w) w) as Hf by
    (by split; [apply Hw|]). specialize (Hq Hf). by destruct (ask c w) as [[a|e] w']; [|destruct Hq].
Qed.
Lemma open_covered p mode cs :
  triple (covered w0 cs) (open_text p mode) (λ h, covered w0 (CloseLog h :: cs)) (λ _, covered w0 cs).
Proof.
  intros w Hw. pose proof (covered_ask (Open p mode) cs w Hw) as Ha. revert Ha.
  unfold open_text, gets, modify, mbind, py_bind, ask. destruct (os (past w) (Open p mode)) as [[]|e]; [|done].
  cbn [mret py_ret snd]. intros ((Hc & Hd) & Hr & Ht & Hf). split; [|split; [|split; [|done]]]; cbn in *.
  - split; [done|]. cbn. intros i Hi. specialize (Hd i Hi). lia.
  - done.
  - intros i q [[-> _] | [_ Hi]]%lookup_insert_Some; [by right; left|].
    destruct (Ht i q Hi); [by left|by right; right].
Qed.
Lemma popen_covered o cs :
  triple (covered w0 cs) (popen_proc o) (λ p, covered w0 (StopProcess p :: cs)) (λ _, covered w0 cs).
Proof.
  intros w Hw. pose proof (covered_ask (Popen o) cs w Hw) as Ha. revert Ha.
  unfold popen_proc, gets, modify, mbind, py_bind, ask. destruct (os (past w) (Popen o)) as [pid|e]; [|done].
  cbn [mret py_ret snd]. intros ((Hc & Hd) & Hr & Ht & Hf). split; [|split; [|split; [|done]]]; cbn in *.
  - split; cbn.
    + intros i Hi. destruct (decide (i = fresh w)) as [-> | Hne].
      * by rewrite lookup_delete_eq in Hi; destruct Hi.
      * rewrite lookup_delete_ne in Hi by done. rewrite lookup_insert_ne by done. by apply Hc.
    + intros i Hi. specialize (Hd i Hi). lia.
  - intros i q [[-> _] | [_ Hi]]%lookup_insert_Some; [by right; left|].
    destruct (Hr i q Hi); [by left|by right; right].
  - done.
Qed.
Lemma open_log_covers {A} p mode (k : nat → py scope A) :
  (∀ h, keeps (covers w0) (k h)) → keeps (covers w0) (h ← inside (open_text p mode); push (CloseLog h);; k h).
Proof.
  intros Hk s Hs. pose proof (open_covered p mode (callbacks s) (host s) Hs) as Ho.
  unfold mbind at 1, py_bind, inside. destruct (open_text p mode (host s)) as [[h|e] w]; [|done]. by apply Hk.
Qed.
Lemma start_covers {A} o (k : proc → py scope A) :
  (∀ p, keeps (covers w0) (k p)) → keeps (covers w0) (p ← inside (popen_proc o); push (StopProcess p);; k p).
Proof.
  intros Hk s Hs. pose proof (popen_covered o (callbacks s) (host s) Hs) as Ho.
  unfold mbind at 1, py_bind, inside. destruct (popen_proc o (host s)) as [[p|e] w]; [|done]. by apply Hk.
Qed.

Lemma launch_covers ENV folder command : keeps (covers w0) (launch ENV folder command).
Proof.
  unfold launch. apply within_bind; [apply within_gets|]. intros n.
  apply open_log_covers. intros h. apply start_covers. intros p.
  apply within_bind; [apply add_launched_covers|]. intros []. apply within_ret.
Qed.

Lemma close_group_quiet t : quiet (close_group t).
Proof. intros R T F. unfold close_group. solve_within. Qed.
End covers.
#[export] Hint Resolve inside_covers push_covers launch_covers close_group_quiet : within.

(** ** Unwinding gives everything up *)
Section unwind.
Context `{Calm} (w0 : world).

Lemma run_callback_covered c cs w : covered w0 (c :: cs) w → covered w0 cs (run_callback c w).2.
Proof.
  intros (Hw & Hr & Ht & Hf).
  assert (stopped_by c = None → closed_by c = None → quiet (run_callback c) → covered w0 cs (run_callback c w).2) as Hquiet.
  { intros H1 H2 Hq. specialize (Hq (running w) (texts w) (fds w) w).
    assert (covered w0 cs w) as Hc by (cbn in Hr, Ht; rewrite H1 in Hr; rewrite H2 in Ht; done).
    destruct (run_callback c w) as [[u|e] w']; eapply covered_frame; try done; by apply Hq. }
  destruct c as [p|h|p|t|t|s]; cbn [run_callback].
  - apply Hquiet; [done..|]. intros R T F. cbn. solve_within.
  - pose proof (close_text_quiet h (running w) (texts w) (fds w) w) as Hq. cbn in Hr, Ht.
    revert Hq. unfold close_text, gets, modify, mbind, py_bind, ask.
    destruct (texts w !! h) as [q|] eqn:Hh.
    + rewrite calm_close. cbn. intros Hq. destruct Hq as (? & HR & HT & HF); [done|].
      split; [done|]. split; [done|]. split; [|done]. cbn. intros i x [Hne Hi]%lookup_delete_Some.
      destruct (Ht i x Hi) as [? | [? | ?]%elem_of_cons]; [by left|done|by right].
    + intros _. split; [done|]. split; [done|]. split; [|done]. intros i x Hi.
      destruct (Ht i x Hi) as [? | [-> | ?]%elem_of_cons]; [by left| |by right]. cbn in Hi. by rewrite Hh in Hi.
  - destruct (stop_run p w Hw) as (w' & -> & Hw'). eapply covered_without; [|exact Hw']. exact (conj Hw (conj Hr (conj Ht Hf))).
  - apply Hquiet; [done..|]. intros R T F. cbn. solve_within.
  - apply Hquiet; [done..|]. intros R T F. apply close_group_quiet.
  - apply Hquiet; [done..|]. apply write_quiet.
Qed.

Lemma unwind_restored {A} cs (r : result A) w : covered w0 cs w → restored w0 (unwind cs r w).2.
Proof.
  revert r w. induction cs as [|c cs IH]; intros r w Hw; cbn [unwind]; [by apply covered_empty|].
  pose proof (run_callback_covered c cs w Hw) as Hc. destruct (run_callback c w) as [x w1]. by apply IH.
Qed.

(** The callback that was pushed first runs last, whatever the others do. *)
Lemma unwind_last {A} cs c (r : result A) w :
  (unwind (cs ++ [c]) r w).2 = (run_callback c (unwind cs r w).2).2.
Proof.
  revert r w. induction cs as [|d cs IH]; intros r w; cbn [app unwind snd];
    [destruct (run_callback c w) as [x w1]; reflexivity|].
  destruct (run_callback d w) as [x w1]. apply IH.
Qed.

(** A body that covers what it holds leaves nothing. *)
Lemma exit_stack_restored {A} (body : py scope A) :
  tidy w0 → keeps (covers w0) body → restored w0 (exit_stack body w0).2.
Proof.
  intros Hw Hb. unfold exit_stack. specialize (Hb (empty_scope w0)).
  destruct (body (empty_scope w0)) as [r s]. apply unwind_restored.
  assert (covers w0 (empty_scope w0)) as He by (by apply covered_empty).
  specialize (Hb He). destruct r; [done|apply Hb].
Qed.
End unwind.

(** ** [with] statements and [finally] clauses on the machine *)

(** What restores every machine is quiet, and the other way round. *)
Lemma restored_quiet {A} (m : py world A) : (∀ w, tidy w → restored w (m w).2) → quiet m.
Proof.
  intros Hm R T F w (Hw & HR & HT & HF). destruct (Hm w Hw) as (Hw' & HR' & HT' & HF').
  assert (frame R T F (m w).2) as Hf.
  { split; [done|]. split; [by etrans|]. split; [by etrans|]. by rewrite HF'. }
  by destruct (m w) as [[a|e] w'].
Qed.
Lemma quiet_restored {A} (m : py world A) w : quiet m → tidy w → restored w (m w).2.
Proof.
  intros Hm Hw. specialize (Hm (running w) (texts w) (fds w) w).
  assert (frame (running w) (texts w) (fds w) w) as Hf by done. specialize (Hm Hf).
  destruct (m w) as [[a|e] w']; [done|apply Hm].
Qed.

Section with_statements.
Context `{Calm}.

(** A process that is used and then reaped by [c]. *)
Definition reaps (c : proc → py world ()) : Prop :=
  ∀ p w, tidy w → ∃ w', c p w = (Ok (), w') ∧ without (p_id p) w w'.
Lemma stop_reaps_it : reaps stop.
Proof. exact stop_run. Qed.
(** A new process runs until it is reaped. *)
Lemma popen_frame R T F o :
  triple (frame R T F) (popen_proc o) (λ p, frame (<[p_id p := o]> R) T F) (λ _ w, frame R T F w ∧ True).
Proof.
  intros w Hw. unfold popen_proc, gets, modify, mbind, py_bind, mret, py_ret.
  pose proof (ask_quiet (Popen o) R T F w Hw) as Ha.
  destruct (ask (Popen o) w) as [[pid|e] w1] eqn:Hask; [|done].
  assert (fresh w1 = fresh w) as Hn by (unfold ask in Hask; by injection Hask as _ <-).
  destruct Ha as ((Hco & Hd) & HR & HT & HF). split; [|split; [|done]].
  - split; cbn; rewrite Hn.
    + intros i Hi. destruct (decide (i = fresh w)) as [-> | Hne].
      * by rewrite lookup_delete_eq in Hi; destruct Hi.
      * rewrite lookup_delete_ne in Hi by done. rewrite lookup_insert_ne by done. by apply Hco.
    + intros i Hi. specialize (Hd i Hi). lia.
  - cbn. rewrite Hn. by apply insert_mono.
Qed.
Lemma reaps_frame R T F c p o : reaps c →
  triple (frame (<[p_id p := o]> R) T F) (c p) (λ _, frame R T F) (λ _ _, False).
Proof.
  intros Hc w H2. destruct (Hc p w) as (w3 & -> & H3); [apply H2|].
  destruct H3 as (Ht & Hr & Htx & Hfd & _), H2 as (_ & HR & HT & HF). split; [done|]. rewrite Hr, Htx, Hfd.
  split; [|done]. etrans; [by apply delete_mono|]. rewrite delete_insert_eq. apply delete_subseteq.
Qed.
Lemma finally_reaps {A} R T F c p o (m : py world A) : reaps c → quiet m →
  triple (frame (<[p_id p := o]> R) T F) (try_finally m (c p)) (λ _, frame R T F) (λ _ w, frame R T F w ∧ True).
Proof.
  intros Hc Hm w Hw. specialize (Hm _ _ _ w Hw). unfold try_finally. destruct (m w) as [r w1].
  assert (frame (<[p_id p := o]> R) T F w1) as H1 by (destruct r; [done|apply Hm]).
  pose proof (reaps_frame R T F c p o Hc w1 H1) as H2. destruct (c p w1) as [[u|e] w2]; [|done]. by destruct r.
Qed.
Lemma process_quiet {A} o (k : proc → py world A) c :
  reaps c → (∀ p, quiet (k p)) → quiet (p ← popen_proc o; try_finally (k p) (c p)).
Proof. intros Hc Hk R T F. eapply triple_bind; [apply popen_frame|]. intros p. by apply finally_reaps. Qed.

(** [with open(...) as f: m] *)
Lemma text_quiet {A} q mode (k : nat → py world A) :
  (∀ h, quiet (k h)) → quiet (h ← open_text q mode; try_finally (k h) (close_text h)).
Proof.
  intros Hk R T F w Hw. unfold open_text, gets, modify, try_finally, mbind, py_bind, mret, py_ret.
  pose proof (ask_quiet (Open q mode) R T F w Hw) as Ha.
  destruct (ask (Open q mode) w) as [[[]|e] w1] eqn:Hask; [|done].
  assert (fresh w1 = fresh w) as Hn by (unfold ask in Hask; by injection Hask as _ <-).
  assert (frame R (<[fresh w := q]> T) F (opened q w1)) as Hs.
  { destruct Ha as ((Hco & Hd) & HR & HT & HF). split; [|split; [done|split; [|done]]].
    - split; [done|]. cbn. intros i Hi. specialize (Hd i Hi). lia.
    - cbn. rewrite Hn. by apply insert_mono. }
  specialize (Hk (fresh w) _ _ _ _ Hs). destruct (k (fresh w) (opened q w1)) as [r w2].
  assert (frame R (<[fresh w := q]> T) F w2) as H2 by (destruct r; [done|apply Hk]).
  assert (∃ w3, close_text (fresh w) w2 = (Ok (), w3) ∧ frame R T F w3) as (w3 & -> & H3); [|by destruct r].
  destruct H2 as (Ht & HR & HT & HF). unfold close_text, gets, modify, ask, mbind, py_bind.
  destruct (texts w2 !! fresh w) as [x|] eqn:Hx; [rewrite calm_close|]; eexists; (split; [done|]);
    (split; [done|]); (split; [done|]); (split; [|done]); cbn.
  - etrans; [by apply delete_mono|]. rewrite delete_insert_eq. apply delete_subseteq.
  - apply map_subseteq_spec. intros i y Hi. assert (i ≠ fresh w) by congruence.
    apply (lookup_weaken _ _ _ _ Hi) in HT. by rewrite lookup_insert_ne in HT.
Qed.
End with_statements.

(** Nothing is held after a quiet step and a computation that restores. *)
Lemma restored_after `{Os} {A B} (m : py world A) (k : A → py world B) w :
  quiet m → (∀ a w1, tidy w1 → restored w1 (k a w1).2) → tidy w → restored w ((m ≫= k) w).2.
Proof.
  intros Hm Hk Hw. specialize (Hm (running w) (texts w) (fds w) w). unfold mbind, py_bind.
  assert (frame (running w) (texts w) (fds w) w) as Hs by done. specialize (Hm Hs).
  destruct (m w) as [[a|e] w1]; cbn; [|apply Hm]. destruct Hm as (H1 & HR & HT & HF).
  destruct (Hk a w1 H1) as (? & HR' & HT' & HF'). split; [done|]. split; [by etrans|]. split; [by etrans|].
  by rewrite HF', HF.
Qed.
