(* ===== verification/Perf.v ===== *)
(** * The counters of the benchmarks

    [line], [cpu], [rss] and the class [Perf] of [veil-core/scripts/benchmark.py]: the
    output of a load generator, the process counters of the kernel, and a [perf stat]
    that is switched through two control pipes. *)

From S2P Require Import Prelude.
From S2P Require Import PyText.
From S2P Require Import PyBytes.
From S2P Require Import Json.
From S2P Require Import Numbers.
From S2P Require Import FileSystem.
From S2P Require Import Tools.
From S2P Require Import Machine.
From S2P Require Import Fixtures.
#[local] Open Scope Z_scope.

(** The attributes of a [Perf]. *)
Record counter := {
  ctl : path; ack : path; csv : path; cf : nat; af : nat; log : nat; p : proc }.

Section perf.
Context `{Os}.

Definition line (process : proc) (timeout : Z) : py world json :=
  ready ← ask (Ready (p_id process) timeout);
  lift (raise_if (negb ready) (TimeoutError "benchmark output timeout"));;
  raw ← ask (Readline (p_id process));
  lift (raise_if (String.eqb raw "") (RuntimeError "benchmark exited early"));;
  lift (loads raw).

Definition field (fields : list string) (i : nat) : result Z := t ← get_at fields i; py_int t.
Definition cpu (pid : Z) : py world num :=
  text ← ask (ReadText ["proc"; str pid; "stat"]);
  rest ← lift (after_first ") " text);
  let fields := words rest in
  user ← lift (field fields 11);
  system ← lift (field fields 12);
  ticks ← ask (Sysconf "SC_CLK_TCK");
  lift (num_div (Int (user + system)) (Int ticks)).
Definition rss (pid : Z) : py world Z :=
  text ← ask (ReadText ["proc"; str pid; "statm"]);
  pages ← lift (field (words text) 1);
  size ← ask (Sysconf "SC_PAGE_SIZE");
  mret (pages * size).

(** ** [Perf] *)
Definition perf_command (pid : Z) (ctl ack csv : path) : list string :=
  ["sudo"; "-n"; "perf"; "stat"; "-p"; str pid; "--delay=-1";
   "--control=fifo:" +:+ posix ctl +:+ "," +:+ posix ack; "-x,"; "-e";
   "task-clock,cycles,instructions"; "-o"; posix csv].
Definition perf_attach (pid : Z) (ctl ack csv logfile : path) : py world counter :=
  ask (Mkfifo ctl);;
  ask (Mkfifo ack);;
  cf ← open_fifo ctl;
  af ← open_fifo ack;
  log ← open_text logfile "w";
  p ← popen_proc {| cmd := perf_command pid ctl ack csv; penv := None;
                    stdin := Inherit; stdout := ToFile log; stderr := ToFile log;
    new_session := false |};
  mret {| ctl := ctl; ack := ack; csv := csv; cf := cf; af := af; log := log; p := p |}.
Definition perf_init (pid : Z) (folder : path) : py world counter :=
  perf_attach pid (folder ++ ["perf.ctl"]) (folder ++ ["perf.ack"]) (folder ++ ["perf.csv"]) (folder ++ ["perf.log"]).

Definition perf_switch (c : counter) (s : string) : py world () :=
  on_fd (cf c) (WriteFd (cf c) (s +:+ nl));;
  ready ← on_fd (af c) (SelectFd (af c) 10000);
  lift (raise_if (negb ready) (RuntimeError "perf control timeout"));;
  reply ← on_fd (af c) (ReadFd (af c) 4096);
  lift (raise_if (negb (contains "ack" reply)) (RuntimeError "perf did not acknowledge")).

Definition interrupt (pid : Z) : command := plain ["sudo"; "-n"; "kill"; "-INT"; str pid].
Definition perf_close (c : counter) : py world () :=
  code ← poll (p c);
  match code with
  | Some _ => mret ()
  | None => ask (Run true (interrupt (pid (p c))));; wait (p c) (Some 10000);; mret ()
  end;;
  close_fd (cf c);;
  close_fd (af c);;
  ask (Unlink (ctl c));;
  ask (Unlink (ack c));;
  close_text (log c).

(** The rows [value,unit,event,...] of the report; a value that is no number is skipped. *)
Definition perf_row (values : list (string * float)) (row : string) : result (list (string * float)) :=
  let f := split "," row in
  match f with
  | a :: _ :: name :: _ =>
      match float_of_text a with
      | Ok x => Ok (dict_set name x values)
      | Err e => if is_value_error e then Ok values else Err e
      end
  | _ => Ok values
  end.
Fixpoint perf_rows (values : list (string * float)) (rows : list string) : result (list (string * float)) :=
  match rows with [] => Ok values | r :: rows => v ← perf_row values r; perf_rows v rows end.
Definition perf_values (c : counter) : py world (list (string * float)) :=
  text ← ask (ReadText (csv c));
  values ← lift (perf_rows [] (splitlines text));
  if num_leb (match dict_get "task-clock" values with Some x => Float x | None => Int 0 end) (Int 0)
  then again ← ask (ReadText (csv c)); raise (RuntimeError ("no task-clock measurement: " +:+ again))
  else mret values.
(** [values["task-clock"]], [values.get(k)] *)
Definition task_clock (values : list (string * float)) : result num := Float <$> dict_index id "task-clock" values.
Definition json_float (o : option float) : json := match o with Some x => json_of (Float x) | None => JNull end.
Definition json_values (values : list (string * float)) : json := JObj (map (λ '(k, x), (k, json_of (Float x))) values).
End perf.
