(* ===== verification/Rig.v ===== *)
(** * A test rig

    The local lists of a trial - the processes it launched, the logs it opened and its
    counters - beside the machine, the processes every trial starts, and the proof rules
    for its cleanup: whatever fails, what a trial launched is in its lists. *)

From S2P Require Import Prelude.
From S2P Require Import PyText.
From S2P Require Import PyBytes.
From S2P Require Import Json.
From S2P Require Import Numbers.
From S2P Require Import FileSystem.
From S2P Require Import Tools.
From S2P Require Import Machine.
From S2P Require Import Fixtures.
From S2P Require Import Perf.
#[local] Open Scope Z_scope.

(** [meter]: the single counter of [benchmark.trial], not [None] once it is made; [tap]: the
    capture of [reality_benchmark.trial]; [inlet]: the listener of [network_smoke]. *)
Record rig := {
  machine : world; procs : list proc; logs : list nat; counters : list counter;
  meter : option counter; tap : option Z; inlet : option nat }.
Definition empty_rig (w : world) : rig :=
  {| machine := w; procs := []; logs := []; counters := []; meter := None; tap := None; inlet := None |}.
Definition with_machine (w : world) (s : rig) : rig :=
  {| machine := w; procs := procs s; logs := logs s; counters := counters s; meter := meter s;
     tap := tap s; inlet := inlet s |}.
Definition add_proc (p : proc) (s : rig) : rig :=
  {| machine := machine s; procs := procs s ++ [p]; logs := logs s; counters := counters s; meter := meter s;
     tap := tap s; inlet := inlet s |}.
Definition add_log (h : nat) (s : rig) : rig :=
  {| machine := machine s; procs := procs s; logs := logs s ++ [h]; counters := counters s; meter := meter s;
     tap := tap s; inlet := inlet s |}.
Definition set_counters (l : list counter) (s : rig) : rig :=
  {| machine := machine s; procs := procs s; logs := logs s; counters := l; meter := meter s;
     tap := tap s; inlet := inlet s |}.
Definition set_meter (c : option counter) (s : rig) : rig :=
  {| machine := machine s; procs := procs s; logs := logs s; counters := counters s; meter := c;
     tap := tap s; inlet := inlet s |}.
Definition set_tap (t : option Z) (s : rig) : rig :=
  {| machine := machine s; procs := procs s; logs := logs s; counters := counters s; meter := meter s;
     tap := t; inlet := inlet s |}.
Definition set_inlet (l : option nat) (s : rig) : rig :=
  {| machine := machine s; procs := procs s; logs := logs s; counters := counters s; meter := meter s;
     tap := tap s; inlet := l |}.

(** A step of the machine, and a trial with lists of its own. *)
Definition on {A} (m : py world A) : py rig A := λ s,
  let '(r, w) := m (machine s) in (r, with_machine w s).
Definition with_rig {A} (m : py rig A) : py world A := λ w,
  let '(r, s) := m (empty_rig w) in (r, machine s).

Section rig.
Context `{Os} (ROOT : path) (ENV : env).

(** A process with a log of its own; [stdout] is that log unless it is given. *)
Definition launch_in (folder : path) (command : list string) (cores : string) (gomax : Z)
    (stdin : stream) (stdout : option stream) : py rig proc :=
  n ← gets (λ s, length (procs s));
  log ← on (open_text (folder ++ ["process-" +:+ str (Z.of_nat n) +:+ ".log"]) "w");
  modify (add_log log);;
  p ← on (spawn ENV command (Some cores) gomax stdin (default (ToFile log) stdout) (ToFile log));
  modify (add_proc p);;
  mret p.

Definition cover_command (f : credentials) (port : Z) : list string :=
  ["openssl"; "s_server"; "-accept"; loopback port; "-cert"; cert f; "-key"; key f; "-tls1_3";
   "-ciphersuites"; "TLS_AES_128_GCM_SHA256"; "-groups"; "X25519"; "-www"; "-alpn"; "http/1.1"].
Definition backend_command (peer : path) (port : Z) : list string :=
  [posix peer; "-role"; "backend"; "-listen"; loopback port].
Definition benchpeer : path := sub ROOT ".build/benchpeer".

(** The capture [capture(("127.0.0.1", port))] is an object of the caller: it has a port,
    and is named by it. *)
Definition start_tap (port : Z) : py world Z := ask (TapOpen port).

(** [path.write_text(json.dumps(f(json.loads(path.read_text()))))] *)
Definition edit_json (p : path) (f : json → result json) : py world () :=
  v ← read_json p; v ← lift (f v); ask (WriteText p (dumps v)).
(** [v["tls"][k] = x], [v["tls"].update(kvs)] *)
Definition set_tls (k : string) (x : json) (v : json) : result json :=
  tls ← jitem "tls" v; tls ← jset k x tls; jset "tls" tls v.
Definition update_tls (kvs : list (string * json)) (v : json) : result json :=
  tls ← jitem "tls" v; tls ← jupdate kvs tls; jset "tls" tls v.
(** [cfg["server"] = f"127.0.0.1:{port}"] *)
Definition set_server (port : Z) (cfg : json) : result json := jset "server" (JStr (loopback port)) cfg.
(** [binaries / command[0].name] in place of the program *)
Definition relocate (binaries : path) (c : program) : program := (binaries ++ [name_of c.1], c.2).

(** The load generator says that it is ready. *)
Definition await_ready (load : proc) : py rig () :=
  ready ← on (line load 90000);
  ready ← lift (jget "ready" ready);
  lift (raise_if (negb (truthy ready)) (RuntimeError "load not ready")).
Definition go (load : proc) : py rig () := on (ask (Send (p_id load) ("go" +:+ nl))).
(** [counters.append(Perf(pid, folder / name))] in a new directory *)
Definition keep_counter (init : py world counter) : py rig counter :=
  c ← on init;
  cs ← gets counters;
  modify (set_counters (cs ++ [c]));;
  mret c.
Definition add_counter (folder : path) (name : string) (process : proc) : py rig counter :=
  on (ask (Mkdir (folder ++ [name]) false false));;
  keep_counter (perf_init (pid process) (folder ++ [name])).
Definition switch_all (s : string) : py rig () :=
  cs ← gets counters; for_each (λ c, on (perf_switch c s)) cs.
(** [counter = counters.pop(0); counter.close(); values = counter.values()] *)
Definition pop_counter : py rig counter :=
  cs ← gets counters;
  match cs with [] => raise IndexError | c :: cs => modify (set_counters cs);; mret c end.
Definition pop_values : py rig (list (string * float)) :=
  c ← pop_counter; on (perf_close c);; on (perf_values c).
Definition flush_logs : py rig () := ls ← gets logs; for_each (λ l, on (ask (Flush l))) ls.

(** The two loops of a [finally] clause. *)
Definition stop_all : py rig () := ps ← gets procs; for_each (λ p, on (stop p)) (rev ps).
Definition close_logs : py rig () := ls ← gets logs; for_each (λ l, on (close_text l)) ls.
Definition close_counters : py rig () := cs ← gets counters; for_each (λ c, on (perf_close c)) cs.

(** The counters of a finished proxy in its log:
    [stopped accepted=(\d+) rejected=(\d+) completed=(\d+) failed=(\d+)]. *)
Fixpoint match_counts (labels : list string) (s : string) : option (list string) :=
  match labels with
  | [] => Some []
  | l :: labels =>
      rest ← drop_prefix l s;
      let '(d, rest) := span is_digit rest in
      if String.eqb d "" then None else ds ← match_counts labels rest; Some (d :: ds)
  end.
Definition count_labels : list string :=
  ["stopped accepted="; " rejected="; " completed="; " failed="].
Fixpoint search_counts (s : string) : option (list string) :=
  match match_counts count_labels s with
  | Some ds => Some ds
  | None => match s with String _ s => search_counts s | "" => None end
  end.
(** [dict(zip(names, map(int, match.groups())))] *)
Record stats := { accepted : Z; rejected : Z; completed : Z; failed : Z }.
Definition parse_stats (log missing : string) : result stats :=
  ds ← from_option_or (RuntimeError missing) (search_counts log);
  ns ← mapR py_int ds;
  match ns with
  | [a; r; c; f] => Ok {| accepted := a; rejected := r; completed := c; failed := f |}
  | _ => Err (ValueError missing)
  end.
Definition stats_repr (s : stats) : string :=
  "{'accepted': " +:+ str (accepted s) +:+ ", 'rejected': " +:+ str (rejected s) +:+
  ", 'completed': " +:+ str (completed s) +:+ ", 'failed': " +:+ str (failed s) +:+ "}".
Definition stats_json (s : stats) : json :=
  JObj [("accepted", JNum (accepted s)); ("rejected", JNum (rejected s));
        ("completed", JNum (completed s)); ("failed", JNum (failed s))].
End rig.

(** ** What a trial holds

    The perf process runs as root and is stopped by its counter; it and its log are the only
    things that may be left behind when a counter cannot be built. *)
Definition perf_process (o : popen) : Prop := take 3 (cmd o) = ["sudo"; "-n"; "perf"].
Definition perf_log (p : path) : Prop := name_of p = "perf.log" ∨ name_of p = "log".

(** The descriptors of the counters of a rig. *)
Definition counter_fds (c : counter) : list nat := [cf c; af c].
Definition open_counters (s : rig) : list counter := counters s ++ option_list (meter s).
Definition rig_fds (s : rig) : list nat := open_counters s ≫= counter_fds.

(** What may still be given up since [w0]: the processes [ps], the logs [hs] and the open
    counters [cs]. *)
Definition pending (w0 : world) (ps : list proc) (hs : list nat) (cs : list counter) (w : world) : Prop :=
  tidy w ∧
  (∀ i o, running w !! i = Some o → running w0 !! i = Some o ∨ i ∈ map p_id ps ∨ perf_process o) ∧
  (∀ i q, texts w !! i = Some q → texts w0 !! i = Some q ∨ i ∈ hs ∨ perf_log q) ∧
  NoDup (cs ≫= counter_fds) ∧ (∀ i, i ∈ cs ≫= counter_fds → is_Some (fds w !! i)).

Section held.
Context (w0 : world).

(** Everything held since [w0] is in the lists, and the counters are open. *)
Definition held (s : rig) : Prop := pending w0 (procs s) (logs s) (open_counters s) (machine s).

(** Nothing is held beyond [w0]. *)
Definition released (w : world) : Prop :=
  (∀ i o, running w !! i = Some o → running w0 !! i = Some o ∨ perf_process o) ∧
  (∀ i q, texts w !! i = Some q → texts w0 !! i = Some q ∨ perf_log q).

(** The same, in a consistent machine. *)
Definition settled (w : world) : Prop := tidy w ∧ released w.

Lemma released_frame w1 w : frame (running w0) (texts w0) (fds w0) w1 →
  (∀ i o, running w !! i = Some o → running w1 !! i = Some o ∨ perf_process o) →
  (∀ i q, texts w !! i = Some q → texts w1 !! i = Some q ∨ perf_log q) → released w.
Proof.
  intros (_ & HR & HT & _) Hr Ht. split.
  - intros i o Hi. destruct (Hr i o Hi) as [Hi1 | ?]; [left; by eapply lookup_weaken|by right].
  - intros i o Hi. destruct (Ht i o Hi) as [Hi1 | ?]; [left; by eapply lookup_weaken|by right].
Qed.

Lemma held_empty : tidy w0 → held (empty_rig w0).
Proof.
  intros Ht. split; [done|]. split; [by left|]. split; [by left|].
  split; [constructor|]. by intros i ?%not_elem_of_nil.
Qed.

Lemma held_frame s w :
  held s → frame (running (machine s)) (texts (machine s)) (fds (machine s)) w → held (with_machine w s).
Proof.
  intros (_ & Hr & Ht & Hn & Hf) (? & Hr' & Ht' & Hf'). split; [done|].
  split; [|split; [|split; [done|]]].
  - intros i o Hi. apply Hr. by eapply lookup_weaken.
  - intros i o Hi. apply Ht. by eapply lookup_weaken.
  - intros i Hi. cbn. rewrite Hf'. by apply Hf.
Qed.

Lemma on_held {A} (m : py world A) : quiet m → keeps held (on m).
Proof.
  intros Hm s Hs. unfold on.
  specialize (Hm (running (machine s)) (texts (machine s)) (fds (machine s)) (machine s)).
  destruct (m (machine s)) as [r w].
  assert (frame (running (machine s)) (texts (machine s)) (fds (machine s)) w) as Hw.
  { assert (frame (running (machine s)) (texts (machine s)) (fds (machine s)) (machine s)) as H0
      by (by split; [apply Hs|]).
    specialize (Hm H0). destruct r; [done|apply Hm]. }
  destruct r; [|split; [|done]]; by apply held_frame.
Qed.

(** A quiet step before a continuation that does not keep [held] by itself. *)
Lemma on_run {A} (m : py world A) s : quiet m → held s →
  let '(r, w) := m (machine s) in held (with_machine w s).
Proof.
  intros Hm Hs. pose proof (on_held m Hm s Hs) as H. unfold on in H.
  destruct (m (machine s)) as [[a|e] w]; [done|apply H].
Qed.
End held.
#[export] Hint Resolve on_held : within.

Section launching.
Context `{Os} (w0 : world).
Abbreviation held := (held w0).

Lemma held_opened s p : held s → held (add_log (fresh (machine s)) (with_machine (opened p (machine s)) s)).
Proof.
  intros ((Hc & Hd) & Hr & Ht & Hn & Hf). split; [|split; [|split; [|by split]]].
  - split; [done|]. intros i Hi. cbn in *. specialize (Hd i Hi). lia.
  - done.
  - cbn. intros i q [[-> _] | [_ Hi]]%lookup_insert_Some.
    + right; left. apply elem_of_app. right. by apply list_elem_of_singleton.
    + destruct (Ht i q Hi) as [? | [? | ?]]; [by left| |by right; right].
      right; left. apply elem_of_app. by left.
Qed.

Lemma held_started s o p : held s → p_id p = fresh (machine s) →
  held (add_proc p (with_machine (started o (machine s)) s)).
Proof.
  intros ((Hc & Hd) & Hr & Ht & Hn & Hf) Hp. split; [|split; [|split; [done|by split]]].
  - split; cbn.
    + intros i Hi. destruct (decide (i = fresh (machine s))) as [-> | Hne].
      * rewrite lookup_delete_eq in Hi. by destruct Hi.
      * rewrite lookup_delete_ne in Hi by done. rewrite lookup_insert_ne by done. by apply Hc.
    + intros i Hi. specialize (Hd i Hi). lia.
  - cbn. rewrite map_app. intros i q [[<- _] | [_ Hi]]%lookup_insert_Some.
    + right; left. apply elem_of_app. right. rewrite <- Hp. by apply list_elem_of_singleton.
    + destruct (Hr i q Hi) as [? | [? | ?]]; [by left| |by right; right].
      right; left. apply elem_of_app. by left.
Qed.

(** Opening a log and keeping it in the list. *)
Lemma open_log_held {A} p mode (k : nat → py rig A) :
  (∀ h, keeps held (k h)) →
  keeps held (h ← on (open_text p mode); modify (add_log h);; k h).
Proof.
  intros Hk s Hs. unfold on, open_text, gets, modify, mbind, py_bind.
  pose proof (on_run w0 (ask (Open p mode)) s (ask_quiet _) Hs) as Ha. unfold ask in *.
  destruct (os (past (machine s)) (Open p mode)) as [[]|e]; [|done]. cbn [mret py_ret].
  apply Hk. exact (held_opened _ p Ha).
Qed.

(** Starting a process and keeping it in the list. *)
Lemma start_held {A} o (k : proc → py rig A) :
  (∀ p, keeps held (k p)) →
  keeps held (p ← on (popen_proc o); modify (add_proc p);; k p).
Proof.
  intros Hk s Hs. unfold on, popen_proc, gets, modify, mbind, py_bind.
  pose proof (on_run w0 (ask (Popen o)) s (ask_quiet _) Hs) as Ha. unfold ask in *.
  destruct (os (past (machine s)) (Popen o)) as [pid|e]; [|done]. cbn [mret py_ret].
  apply Hk. exact (held_started _ o {| p_id := fresh (machine s); pid := pid; args := cmd o |} Ha eq_refl).
Qed.

Lemma launch_in_held ENV folder command cores gomax i o :
  keeps held (launch_in ENV folder command cores gomax i o).
Proof.
  unfold launch_in. apply within_bind; [apply within_gets|]. intros n.
  apply open_log_held. intros h. apply start_held. intros p. apply within_ret.
Qed.
End launching.
#[export] Hint Resolve launch_in_held : within.

(** ** Building a counter *)
Section counters.
Context `{Os} (w0 : world).
Abbreviation held := (held w0).

(** The descriptors [X] are open and belong to no counter of the rig yet. *)
Definition spare (X : list nat) (s : rig) : Prop :=
  held s ∧ NoDup (X ++ rig_fds s) ∧ ∀ i, i ∈ X → is_Some (fds (machine s) !! i).

(** A step that changes no list, keeps [held] and closes no descriptor. *)
Lemma spare_step X s w :
  spare X s → held (with_machine w s) → fds (machine s) ⊆ fds w → spare X (with_machine w s).
Proof.
  intros (_ & Hn & Hx) Hs Hf. split; [done|]. split; [done|]. intros i Hi.
  destruct (Hx i Hi) as [q Hq]. exists q. by eapply lookup_weaken.
Qed.

Lemma on_spare {A} X (m : py world A) :
  quiet m → triple (spare X) (on m) (λ _, spare X) (λ _ s, held s ∧ True).
Proof.
  intros Hm s Hs. pose proof (on_run w0 m s Hm (proj1 Hs)) as Hh.
  specialize (Hm (running (machine s)) (texts (machine s)) (fds (machine s)) (machine s)). unfold on.
  destruct (m (machine s)) as [[a|e] w]; [|done].
  apply spare_step; [done..|]. destruct Hm as (_ & _ & _ & ->); [|done]. split; [apply Hs|done].
Qed.

Lemma open_fifo_spare X p :
  triple (spare X) (on (open_fifo p)) (λ h, spare (h :: X)) (λ _ s, held s ∧ True).
Proof.
  intros s (Hs & Hn & Hx). unfold on, open_fifo, gets, modify, mbind, py_bind.
  pose proof (on_run w0 (ask (OpenFifo p)) s (ask_quiet _) Hs) as Ha. unfold ask in *.
  destruct (os (past (machine s)) (OpenFifo p)) as [[]|e]; [|done]. cbn [mret py_ret].
  destruct Hs as ((Hc & Hd) & Hr & Ht & Hn' & Hf).
  assert (∀ i, is_Some (fds (machine s) !! i) → i ≠ fresh (machine s)) as Hne.
  { intros i Hi ->. specialize (Hd _ Hi). lia. }
  assert (∀ i, is_Some (fds (machine s) !! i) → is_Some (<[fresh (machine s) := p]> (fds (machine s)) !! i)) as Hup.
  { intros i Hi. by rewrite lookup_insert_ne by (symmetry; by apply Hne). }
  split; [split; [|split; [done|split; [done|split; [done|]]]]|split].
  - split; [done|]. cbn. intros i Hi. destruct (decide (i = fresh (machine s))) as [-> | Hi']; [lia|].
    rewrite lookup_insert_ne in Hi by done. specialize (Hd i Hi). lia.
  - intros i Hi. apply Hup, Hf, Hi.
  - apply NoDup_cons. split; [|done]. intros [Hi | Hi]%elem_of_app; [apply Hx in Hi|apply Hf in Hi];
      by apply Hne in Hi.
  - cbn. intros i [-> | Hi]%elem_of_cons; [by rewrite lookup_insert_eq|]. apply Hup, Hx, Hi.
Qed.

(** The log and the process of a counter may stay. *)
Lemma perf_log_spare X p : perf_log p →
  triple (spare X) (on (open_text p "w")) (λ _, spare X) (λ _ s, held s ∧ True).
Proof.
  intros Hp s Hs. destruct Hs as (Hs & Hn & Hx). unfold on, open_text, gets, modify, mbind, py_bind.
  pose proof (on_run w0 (ask (Open p "w")) s (ask_quiet _) Hs) as Ha. unfold ask in *.
  destruct (os (past (machine s)) _) as [[]|e]; [|done]. cbn [mret py_ret].
  destruct Ha as ((Hc & Hd) & Hr & Ht & Hn' & Hf).
  split; [split; [|split; [done|split; [|by split]]]|by split].
  - split; [done|]. intros i Hi. cbn in *. specialize (Hd i Hi). lia.
  - cbn. intros i q [[_ <-] | [_ Hi]]%lookup_insert_Some; [|by apply Ht].
    by right; right.
Qed.

Lemma perf_process_spare X o : perf_process o →
  triple (spare X) (on (popen_proc o)) (λ _, spare X) (λ _ s, held s ∧ True).
Proof.
  intros Ho s (Hs & Hn & Hx). unfold on, popen_proc, gets, modify, mbind, py_bind.
  pose proof (on_run w0 (ask (Popen o)) s (ask_quiet _) Hs) as Ha. unfold ask in *.
  destruct (os (past (machine s)) (Popen o)) as [pid|e]; [|done]. cbn [mret py_ret].
  pose proof (held_started w0 _ o {| p_id := fresh (machine s); pid := pid; args := cmd o |} Ha eq_refl) as Hst.
  split; [|by split]. destruct Hst as (Ht' & _ & Htx & Hn' & Hf'). destruct Ha as (_ & Hr & _ & _ & _).
  split; [done|]. split; [|by split]. cbn. intros i q [[<- <-] | [_ Hi]]%lookup_insert_Some; [by right; right|].
  by apply (Hr i q Hi).
Qed.

Lemma triple_on_bind {A B} P (m : py world A) (k : A → py world B) Q E :
  triple P (on m ≫= λ a, on (k a)) Q E → triple P (on (m ≫= k)) Q E.
Proof.
  intros Hm s Hs. specialize (Hm s Hs). unfold on, mbind, py_bind in *.
  destruct (m (machine s)) as [[a|e] w]; [|done]. cbn in Hm. by destruct (k a w) as [r w2].
Qed.

Lemma spare_swap i j s : spare [i; j] s → spare [j; i] s.
Proof.
  intros (Hs & Hn & Hx). split; [done|]. split.
  - eapply NoDup_Permutation_proper; [|exact Hn]. cbn. constructor.
  - intros x Hi. apply Hx. by rewrite elem_of_cons, list_elem_of_singleton in Hi |- *; destruct Hi; [right|left].
Qed.

Ltac spare_next := apply triple_on_bind; eapply triple_bind; [apply on_spare, ask_quiet|intros ?].
Lemma perf_attach_spare pid ctl ack csv logfile : perf_log logfile →
  triple (spare []) (on (perf_attach pid ctl ack csv logfile))
    (λ c s, spare (counter_fds c) s ∧ Perf.csv c = csv) (λ _ s, held s ∧ True).
Proof.
  intros Hl. unfold perf_attach. do 2 spare_next.
  do 2 (apply triple_on_bind; eapply triple_bind; [apply open_fifo_spare|intros ?]).
  apply triple_on_bind; eapply triple_bind; [by apply perf_log_spare|intros ?].
  apply triple_on_bind; eapply triple_bind; [apply perf_process_spare; reflexivity|intros ?].
  intros s Hs. split; [by apply spare_swap|done].
Qed.
Lemma perf_init_spare pid folder :
  triple (spare []) (on (perf_init pid folder))
    (λ c s, spare (counter_fds c) s ∧ csv c = folder ++ ["perf.csv"]) (λ _ s, held s ∧ True).
Proof. apply perf_attach_spare. left. apply name_of_snoc. Qed.

Lemma held_spare s : held s → spare [] s.
Proof. intros Hs. split; [done|]. split; [apply Hs|]. by intros i ?%not_elem_of_nil. Qed.

(** A new counter becomes the counter of the rig, or one of its counters. *)
Lemma spare_held c f s :
  spare (counter_fds c) s → machine (f s) = machine s → procs (f s) = procs s → logs (f s) = logs s →
  rig_fds (f s) ⊆+ counter_fds c ++ rig_fds s → held (f s).
Proof.
  intros ((? & ? & ? & Hn' & Hf) & Hn & Hx) Hm Hp Hl Hfds. unfold held, pending. rewrite Hm, Hp, Hl.
  split; [done|]. split; [done|]. split; [done|].
  apply submseteq_Permutation in Hfds as [k Hk]. split.
  - rewrite Hk in Hn. by apply NoDup_app in Hn as [Hn _].
  - intros i Hi. assert (i ∈ counter_fds c ++ rig_fds s) as Hin by (rewrite Hk; apply elem_of_app; by left).
    apply elem_of_app in Hin as [Hin | Hin]; auto.
Qed.

Lemma keep_counter_held init (Q : counter → Prop) :
  triple (spare []) (on init) (λ c s, spare (counter_fds c) s ∧ Q c) (λ _ s, held s ∧ True) →
  keeps held (keep_counter init).
Proof.
  intros Hi. unfold keep_counter.
  eapply triple_consequence; [|apply held_spare|intros c s Hs; exact Hs|intros e s Hs; exact Hs].
  eapply triple_bind; [apply Hi|]. intros c s [Hs _]. cbn.
  apply (spare_held c (set_counters (counters s ++ [c]))); try done.
  unfold rig_fds, open_counters. cbn [counters meter set_counters]. rewrite !bind_app. cbn.
  apply Permutation_submseteq. solve_Permutation.
Qed.
Lemma add_counter_held folder name process : keeps held (add_counter folder name process).
Proof.
  unfold add_counter. apply within_bind; [apply on_held, ask_quiet|]. intros _.
  eapply keep_counter_held, perf_init_spare.
Qed.

Lemma perf_meter_held {A} pid folder (k : counter → py rig A) E :
  (∀ c, csv c = folder ++ ["perf.csv"] → triple (λ s, held s ∧ meter s = Some c) (k c) (λ _, held) E) →
  (∀ e s, held s → E e s) →
  triple held (c ← on (perf_init pid folder); modify (set_meter (Some c));; k c) (λ _, held) E.
Proof.
  intros Hk HE. eapply triple_bind.
  - eapply triple_consequence; [apply perf_init_spare|apply held_spare|intros c s Hs; exact Hs|].
    intros e s [Hs _]. by apply HE.
  - intros c s [Hs Hcsv]. apply Hk; [done|]. split; [|done].
    apply (spare_held c (set_meter (Some c))); try done.
    unfold rig_fds, open_counters. cbn [counters meter set_meter]. rewrite !bind_app. cbn.
    rewrite (comm (++) _ [cf c; af c]). do 2 apply submseteq_skip. by apply submseteq_inserts_r.
Qed.
End counters.
#[export] Hint Resolve add_counter_held : within.

(** ** Closing a counter *)
Section closing.
Context `{Os} (w0 : world).
Abbreviation held := (held w0).

Lemma perf_switch_quiet c t : quiet (perf_switch c t).
Proof. intros R T F. unfold perf_switch. solve_within. Qed.
Lemma line_quiet p t : quiet (line p t).
Proof. intros R T F. unfold line. solve_within. Qed.
Lemma cpu_quiet p : quiet (cpu p).
Proof. intros R T F. unfold cpu. solve_within. Qed.
Lemma rss_quiet p : quiet (rss p).
Proof. intros R T F. unfold rss. solve_within. Qed.
Lemma perf_values_quiet c : quiet (perf_values c).
Proof. intros R T F. unfold perf_values. solve_within. Qed.
Lemma edit_json_quiet p f : quiet (edit_json p f).
Proof. intros R T F. unfold edit_json. solve_within. Qed.
Lemma port_quiet : quiet port.
Proof. intros R T F. unfold port. solve_within. Qed.
Lemma start_tap_quiet p : quiet (start_tap p).
Proof. intros R T F. unfold start_tap. solve_within. Qed.
Lemma returncode_quiet p : quiet (returncode p).
Proof. intros R T F. unfold returncode. solve_within. Qed.

#[local] Hint Resolve perf_switch_quiet line_quiet : within.

(** The descriptors [X] belong to no counter of the rig. *)
Definition clear (X : list nat) (s : rig) : Prop := held s ∧ ∀ i, i ∈ X → i ∉ rig_fds s.

Lemma on_clear {A} X (m : py world A) : quiet m → keeps (clear X) (on m).
Proof.
  intros Hm s [Hs Hx]. pose proof (on_held w0 m Hm s Hs) as Hh. unfold on in *.
  destruct (m (machine s)) as [[a|e] w]; [by split|]. split; [|done]. split; [apply Hh|done].
Qed.

Lemma close_fd_clear X h : h ∈ X → keeps (clear X) (on (close_fd h)).
Proof.
  intros Hh s ((Hw & Hr & Ht & Hn & Hf) & Hx). unfold on, close_fd, gets, modify, mbind, py_bind, ask.
  assert (∀ w', tidy w' → running w' = running (machine s) → texts w' = texts (machine s) →
    fds w' = fds (machine s) ∨ fds w' = delete h (fds (machine s)) → clear X (with_machine w' s)) as Hc.
  { intros w' Hw' Hr' Ht' Hf'. split; [|done]. split; [done|]. cbn. rewrite Hr', Ht'.
    split; [done|]. split; [done|]. split; [done|]. intros i Hi.
    destruct Hf' as [-> | ->]; [by apply Hf|]. rewrite lookup_delete_ne; [by apply Hf|].
    intros <-. by apply (Hx h). }
  destruct (fds (machine s) !! h) as [q|] eqn:Hq.
  - assert (clear X (with_machine (fd_closed h (machine s)) s)) as Hd.
    { apply Hc; [|done|done|by right]. destruct Hw as [Hw1 Hw2]. split; [done|]. cbn. intros i Hi. apply Hw2.
      destruct (decide (i = h)) as [-> | Hne]; [by rewrite Hq|]. by rewrite lookup_delete_ne in Hi. }
    by destruct (os _ (CloseFd h)).
  - split; [|done]. destruct s; by apply Hc; [..|left].
Qed.

Ltac clear_next := eapply triple_on_bind, within_bind; [|intros ?].
Lemma perf_close_clear c : keeps (clear (counter_fds c)) (on (perf_close c)).
Proof.
  unfold perf_close. clear_next; [apply on_clear, poll_quiet|]. clear_next.
  { apply on_clear. intros R T F. solve_within. }
  clear_next; [apply close_fd_clear; left|]. clear_next; [apply close_fd_clear; right; left|].
  apply on_clear. intros R T F. solve_within.
Qed.

Lemma await_ready_held p : keeps held (await_ready p).
Proof. unfold await_ready. solve_within. Qed.
Lemma go_held p : keeps held (go p).
Proof. unfold go. solve_within. Qed.
Lemma switch_all_held t : keeps held (switch_all t).
Proof. unfold switch_all. solve_within. Qed.
Lemma flush_logs_held : keeps held flush_logs.
Proof. unfold flush_logs. solve_within. Qed.
Lemma set_tap_held t : keeps held (modify (set_tap t)).
Proof. by intros s Hs. Qed.

Lemma pop_values_held : keeps held pop_values.
Proof.
  unfold pop_values. eapply (triple_bind _ _ _ (λ c, clear (counter_fds c))).
  - intros s Hs. unfold pop_counter, gets, modify, raise, mbind, py_bind, mret, py_ret.
    destruct (counters s) as [|c cs] eqn:Hcs; [done|].
    destruct Hs as (? & ? & ? & Hn & Hf). unfold open_counters in Hn, Hf. rewrite Hcs in Hn, Hf.
    change ((c :: cs) ++ option_list (meter s)) with ([c] ++ cs ++ option_list (meter s)) in Hn, Hf.
    rewrite bind_app in Hn, Hf. apply NoDup_app in Hn as (_ & Hd & Hn). split.
    + split; [done|]. split; [done|]. split; [done|]. split; [done|]. intros i Hi. apply Hf, elem_of_app. by right.
    + intros i Hi. exact (Hd i Hi).
  - intros c. eapply (triple_bind _ _ _ (λ _, held)); [|intros []; apply on_held, perf_values_quiet].
    eapply triple_consequence; [apply perf_close_clear|done| |].
    + by intros [] s [Hs _].
    + by intros e s [[Hs _] _].
Qed.
End closing.
#[export] Hint Resolve perf_switch_quiet line_quiet cpu_quiet rss_quiet perf_values_quiet edit_json_quiet
  port_quiet start_tap_quiet returncode_quiet set_tap_held pop_values_held
  await_ready_held go_held switch_all_held flush_logs_held : within.

(** ** Cleaning up *)

(** Documented behaviour: [sudo kill -INT] works, perf exits within ten seconds of it, and a
    pipe that exists can be removed. *)
Class PerfStops `(Os) : Prop := {
  interrupt_ok : ∀ h pid, os h (Run true (interrupt pid)) = Ok ();
  perf_exits : ∀ h p, is_ok (os h (Wait p (Some 10000))) = true;
  unlink_ok : ∀ h p, os h (Unlink p) = Ok () }.

(** [runs P m Q]: from [P], [m] returns and is in [Q]. *)
Abbreviation runs P m Q := (triple P m Q (λ _ _, False)).

Section cleanup.
Context `{Calm} `{!PerfStops H}.

Lemma runs_quiet {A} R T F (m : py world A) :
  quiet m → (∀ w, tidy w → is_ok (m w).1 = true) → runs (frame R T F) m (λ _, frame R T F).
Proof.
  intros Hm Hok w Hw. specialize (Hok w (proj1 Hw)). specialize (Hm R T F w Hw).
  by destruct (m w) as [[a|e] w'].
Qed.

Lemma ask_runs {A} R T F (c : call A) :
  (∀ h, is_ok (os h c) = true) → runs (frame R T F) (ask c) (λ _, frame R T F).
Proof. intros Hc. apply runs_quiet; [apply ask_quiet|]. intros w _. apply Hc. Qed.

Lemma poll_runs R T F p : runs (frame R T F) (poll p) (λ _, frame R T F).
Proof.
  apply runs_quiet; [apply poll_quiet|]. intros w Hw. by destruct (poll_run p w Hw) as (r & w' & -> & _).
Qed.

Lemma wait_perf_runs R T F p : runs (frame R T F) (wait p (Some 10000)) (λ _, frame R T F).
Proof.
  apply runs_quiet; [apply wait_quiet|]. intros w Hw. unfold wait, returncode, gets, mbind, py_bind, ask.
  destruct (codes w !! p_id p); [done|]. pose proof (perf_exits (past w) (p_id p)) as Hp.
  by destruct (os (past w) _).
Qed.

Lemma close_fd_runs R T F h : is_Some (F !! h) → runs (frame R T F) (close_fd h) (λ _, frame R T (delete h F)).
Proof.
  intros [q Hq] w ((Hc & Hf) & HR & HT & HF). unfold close_fd, gets, modify, mbind, py_bind, ask.
  rewrite HF, Hq, calm_close_fd. split; [split|split; [done|split; [done|]]]; cbn.
  - done.
  - intros i Hi. apply Hf. destruct (decide (i = h)) as [-> | Hne]; [by rewrite HF, Hq|].
    by rewrite lookup_delete_ne in Hi.
  - by rewrite HF.
Qed.

Lemma close_text_runs R T F h : runs (frame R T F) (close_text h) (λ _, frame R (delete h T) F).
Proof.
  intros w (Hw & HR & HT & HF). unfold close_text, gets, modify, mbind, py_bind, ask.
  destruct (texts w !! h) as [q|] eqn:Hq; [rewrite calm_close|]; (split; [done|split; [done|split; [|done]]]); cbn.
  - by apply delete_mono.
  - apply map_subseteq_spec. intros i x Hi. rewrite lookup_delete_ne.
    + by eapply lookup_weaken.
    + intros ->. congruence.
Qed.

Lemma stop_runs R T F p : runs (frame R T F) (stop p) (λ _, frame (delete (p_id p) R) T F).
Proof.
  intros w (Hw & HR & HT & HF). destruct (stop_run p w Hw) as (w' & -> & Ht & Hr & Htx & Hf & _).
  split; [done|]. rewrite Hr, Htx, Hf. split; [by apply delete_mono|done].
Qed.

(** The descriptors without those of a counter. *)
Definition without_counter (c : counter) (F : gmap nat path) : gmap nat path := delete (af c) (delete (cf c) F).
Lemma perf_close_runs R T F c :
  NoDup (counter_fds c) → (∀ i, i ∈ counter_fds c → is_Some (F !! i)) →
  runs (frame R T F) (perf_close c) (λ _, frame R T (without_counter c F)).
Proof.
  intros Hn Hf. unfold perf_close. eapply triple_bind; [apply poll_runs|intros code].
  eapply (triple_bind _ _ _ (λ _, frame R T F)); [|intros ?; eapply triple_bind].
  - destruct code as [x|]; [by intros w Hw|].
    eapply triple_bind; [apply ask_runs; intros; by rewrite interrupt_ok|]. intros [].
    eapply triple_bind; [apply wait_perf_runs|]. by intros x w Hw.
  - apply close_fd_runs, Hf. left.
  - intros []. apply NoDup_cons in Hn as [Hn _].
    eapply triple_bind; [apply (close_fd_runs _ _ _ (af c))|].
    { rewrite lookup_delete_ne; [apply Hf; right; by left|]. intros He. apply Hn. rewrite He. by left. }
    intros []. do 2 (eapply triple_bind; [apply ask_runs; intros; by rewrite unlink_ok|intros []]).
    eapply triple_consequence; [apply (close_text_runs R T)|done| |done].
    intros _ w (? & ? & HT & ?). split; [done|]. split; [done|]. split; [|done].
    etrans; [exact HT|]. apply delete_subseteq.
Qed.

(** ** The loops of a [finally] clause *)

(** The rig [s0] with another machine. *)
Definition at_rig (s0 : rig) (P : world → Prop) (s : rig) : Prop :=
  P (machine s) ∧ s = with_machine (machine s) s0.

Lemma on_at {A} s0 P (m : py world A) Q : runs P m Q → runs (at_rig s0 P) (on m) (λ a, at_rig s0 (Q a)).
Proof.
  intros Hm s [Hp Hs]. specialize (Hm _ Hp). unfold on. destruct (m (machine s)) as [[a|e] w]; [|done].
  split; [done|]. by rewrite Hs.
Qed.

(** A loop over resources that are given up one after the other. *)
Lemma for_each_at {A} s0 (f : A → py world ()) (P : list A → world → Prop) :
  (∀ x l, runs (P (x :: l)) (f x) (λ _, P l)) →
  ∀ l, runs (at_rig s0 (P l)) (for_each (λ x, on (f x)) l) (λ _, at_rig s0 (P [])).
Proof.
  intros Hf l. induction l as [|x l IH]; simpl; [by intros s Hs|].
  eapply triple_bind; [apply on_at, Hf|]. intros []. apply IH.
Qed.

Lemma stop_pending w0 hs cs p ps :
  runs (pending w0 (p :: ps) hs cs) (stop p) (λ _, pending w0 ps hs cs).
Proof.
  intros w (Hw & Hr & Ht & Hn & Hf).
  pose proof (stop_runs (running w) (texts w) (fds w) p w) as Hs.
  destruct (stop p w) as [[a|e] w']; [|by apply Hs].
  destruct Hs as (? & HR & HT & HF); [done|]. split; [done|]. split; [|split; [|split; [done|by rewrite HF]]].
  - intros i o Hi. apply (lookup_weaken _ _ _ _ Hi) in HR as [Hne HR]%lookup_delete_Some.
    destruct (Hr i o HR) as [? | [Hin | ?]]; [by left| |by right; right].
    cbn in Hin. apply elem_of_cons in Hin as [-> | Hin]; [done|]. by right; left.
  - intros i q Hi. apply Ht. by eapply lookup_weaken.
Qed.

Lemma close_pending w0 ps cs h hs :
  runs (pending w0 ps (h :: hs) cs) (close_text h) (λ _, pending w0 ps hs cs).
Proof.
  intros w (Hw & Hr & Ht & Hn & Hf).
  pose proof (close_text_runs (running w) (texts w) (fds w) h w) as Hs.
  destruct (close_text h w) as [[a|e] w']; [|by apply Hs].
  destruct Hs as (? & HR & HT & HF); [done|]. split; [done|]. split; [|split; [|split; [done|by rewrite HF]]].
  - intros i q Hi. apply Hr. by eapply lookup_weaken.
  - intros i q Hi. apply (lookup_weaken _ _ _ _ Hi) in HT as [Hne HT]%lookup_delete_Some.
    destruct (Ht i q HT) as [? | [Hin | ?]]; [by left| |by right; right].
    apply elem_of_cons in Hin as [-> | Hin]; [done|]. by right; left.
Qed.

Lemma counter_pending w0 ps hs c cs :
  runs (pending w0 ps hs (c :: cs)) (perf_close c) (λ _, pending w0 ps hs cs).
Proof.
  intros w (Hw & Hr & Ht & Hn & Hf). change ((c :: cs) ≫= counter_fds) with (counter_fds c ++ (cs ≫= counter_fds)) in *.
  apply NoDup_app in Hn as (Hc & Hd & Hn).
  pose proof (perf_close_runs (running w) (texts w) (fds w) c Hc) as Hs.
  specialize (Hs ltac:(intros i Hi; apply Hf, elem_of_app; by left) w).
  destruct (perf_close c w) as [[a|e] w']; [|by apply Hs].
  destruct Hs as (? & HR & HT & HF); [done|]. split; [done|]. split; [|split; [|split; [done|]]].
  - intros i q Hi. apply Hr. by eapply lookup_weaken.
  - intros i q Hi. apply Ht. by eapply lookup_weaken.
  - intros i Hi. rewrite HF. unfold without_counter. rewrite !lookup_delete_ne.
    + apply Hf, elem_of_app. by right.
    + intros <-. apply (Hd (cf c)); [left|done].
    + intros <-. apply (Hd (af c)); [right; left|done].
Qed.
End cleanup.

(** From [held], the loops give up everything, in the order of the scripts. *)
Section finally.
Context `{Calm} `{!PerfStops H} (w0 : world).

Lemma pending_rev ps hs cs w : pending w0 ps hs cs w → pending w0 (rev ps) hs cs w.
Proof.
  intros (? & Hr & ?). split; [done|]. split; [|done]. intros i o Hi.
  destruct (Hr i o Hi) as [? | [Hin | ?]]; [by left| |by right; right]. right; left.
  rewrite map_rev. apply list_elem_of_In, in_rev. rewrite rev_involutive. by apply list_elem_of_In.
Qed.

(** The loops, from a rig whose machine is pending. *)
Lemma close_counters_runs s :
  runs (at_rig s (pending w0 (procs s) (logs s) (counters s))) close_counters
    (λ _, at_rig s (pending w0 (procs s) (logs s) [])).
Proof.
  intros s' Hs. unfold close_counters, gets, mbind, py_bind.
  replace (counters s') with (counters s) by (by rewrite (proj2 Hs)).
  apply (for_each_at s perf_close (λ l, pending w0 (procs s) (logs s) l)); [|done].
  intros; apply counter_pending.
Qed.
Lemma stop_all_runs s cs :
  runs (at_rig s (pending w0 (procs s) (logs s) cs)) stop_all (λ _, at_rig s (pending w0 [] (logs s) cs)).
Proof.
  intros s' Hs. unfold stop_all, gets, mbind, py_bind.
  replace (procs s') with (procs s) by (by rewrite (proj2 Hs)).
  apply (for_each_at s stop (λ l, pending w0 l (logs s) cs)); [intros; apply stop_pending|].
  split; [apply pending_rev, Hs|apply Hs].
Qed.
Lemma close_logs_runs s cs :
  runs (at_rig s (pending w0 [] (logs s) cs)) close_logs (λ _, at_rig s (pending w0 [] [] cs)).
Proof.
  intros s' Hs. unfold close_logs, gets, mbind, py_bind.
  replace (logs s') with (logs s) by (by rewrite (proj2 Hs)).
  apply (for_each_at s close_text (λ l, pending w0 [] l cs)); [|done]. intros; apply close_pending.
Qed.

Lemma pending_released cs w : pending w0 [] [] cs w → released w0 w.
Proof.
  intros (_ & Hr & Ht & _). split.
  - intros i o Hi. destruct (Hr i o Hi) as [? | [?%not_elem_of_nil | ?]]; [by left|done|by right].
  - intros i q Hi. destruct (Ht i q Hi) as [? | [?%not_elem_of_nil | ?]]; [by left|done|by right].
Qed.

Lemma pending_quiet {A} ps hs cs (m : py world A) : quiet m → keeps (pending w0 ps hs cs) m.
Proof.
  intros Hm w (Hw & Hr & Ht & Hn & Hf). specialize (Hm (running w) (texts w) (fds w) w).
  assert (frame (running w) (texts w) (fds w) (m w).2 → pending w0 ps hs cs (m w).2) as Hp.
  { intros (Hw' & HR & HT & HF). split; [done|]. rewrite HF. split_and!; try done.
    - intros i o Hi. apply Hr. by eapply lookup_weaken.
    - intros i o Hi. apply Ht. by eapply lookup_weaken. }
  destruct (m w) as [[a|e] w']; [apply Hp, Hm|split; [apply Hp, Hm|]]; done.
Qed.
(** A quiet step between the loops. *)
Lemma on_at_rig s (m : py world ()) ps hs cs :
  quiet m → (∀ w, is_ok (m w).1 = true) →
  runs (at_rig s (pending w0 ps hs cs)) (on m) (λ _, at_rig s (pending w0 ps hs cs)).
Proof.
  intros Hm Hok. apply on_at. intros w Hw. specialize (Hok w). pose proof (pending_quiet ps hs cs m Hm w Hw) as Hp.
  by destruct (m w) as [[a|e] w'].
Qed.

(** A [finally] clause that gives up the processes and the logs of any rig. *)
Definition emptied (s : rig) : Prop := ∃ cs, pending w0 [] [] cs (machine s).
Definition gives_up (finish : py rig ()) : Prop :=
  ∀ s, held w0 s → triple (λ s', s' = s) finish (λ _, emptied) (λ _, emptied).

Lemma held_pending s : held w0 s → pending w0 (procs s) (logs s) (counters s) (machine s).
Proof.
  intros (? & ? & ? & Hn & Hi). unfold open_counters in Hn, Hi. rewrite bind_app in Hn, Hi.
  split_and!; try done.
  - by apply NoDup_app in Hn as [Hn _].
  - intros i Hin. apply Hi, elem_of_app. by left.
Qed.
Lemma gives_up_any finish (left : rig → list counter) :
  (∀ s, runs (at_rig s (pending w0 (procs s) (logs s) (counters s))) finish
     (λ _, at_rig s (pending w0 [] [] (left s)))) → gives_up finish.
Proof.
  intros Hf s Hs. eapply triple_consequence; [apply (Hf s)| |by intros u s' [Hp _]; eexists|done].
  intros s' ->. split; [by apply held_pending|by destruct s].
Qed.
Lemma gives_up_counters finish :
  (∀ s, runs (at_rig s (pending w0 (procs s) (logs s) (counters s))) finish
     (λ _, at_rig s (pending w0 [] [] []))) → gives_up finish.
Proof. apply (gives_up_any finish (λ _, [])). Qed.

(** A trial whose body keeps what it holds in its lists releases it. *)
Lemma with_rig_gives_up {A} (P : rig → Prop) (body : py rig A) (finish : py rig ()) :
  P (empty_rig w0) → triple P body (λ _, held w0) (λ _ s, held w0 s ∧ True) → gives_up finish →
  settled w0 (with_rig (try_finally body finish) w0).2.
Proof.
  intros Ht Hb Hf. unfold with_rig, try_finally.
  specialize (Hb (empty_rig w0) Ht). destruct (body (empty_rig w0)) as [r s].
  assert (held w0 s) as Hs by (destruct r; [done|apply Hb]).
  specialize (Hf s Hs s eq_refl). assert (∀ s2, emptied s2 → settled w0 (machine s2)) as Hp.
  { intros s2 [cs Hc]. split; [apply Hc|by eapply pending_released]. }
  destruct (finish s) as [[u|e] s2]; destruct r; by apply Hp.
Qed.
End finally.

(** Documented behaviour: the report of a closed counter has a positive [task-clock]. *)
Definition has_clock (text : string) : Prop := ∃ values,
  perf_rows [] (splitlines text) = Ok values ∧
  num_leb (match dict_get "task-clock" values with Some x => Float x | None => Int 0 end) (Int 0) = false.
Class Metered `(Os) : Prop := {
  metered_csv : ∀ h folder, ∃ text, os h (ReadText (folder ++ ["perf.csv"])) = Ok text ∧ has_clock text }.

(** The single counter first. *)
Lemma pending_meter w0 s c : held w0 s → meter s = Some c →
  pending w0 (procs s) (logs s) (c :: counters s) (machine s).
Proof.
  intros (? & ? & ? & Hn & Hf) Hm. unfold open_counters in Hn, Hf. rewrite Hm in Hn, Hf.
  assert (counters s ++ option_list (Some c) ≡ₚ c :: counters s) as Hperm by (cbn; solve_Permutation).
  rewrite Hperm in Hn. split_and!; try done. intros i. rewrite <- Hperm. apply Hf.
Qed.

(** The counter of the rig, closed and read. *)
Lemma close_meter_held `{Calm} `{!PerfStops H} `{!Metered H} w0 folder c {A} (k : list (string * float) → py rig A) :
  csv c = folder ++ ["perf.csv"] → (∀ v, keeps (held w0) (k v)) →
  triple (λ s, held w0 s ∧ meter s = Some c)
    (on (perf_close c);; v ← on (perf_values c); modify (set_meter None);; k v)
    (λ _, held w0) (λ _ s, held w0 s ∧ True).
Proof.
  intros Hcsv Hk s [Hs Hm].
  pose proof (pending_meter w0 s c Hs Hm) as Hp.
  pose proof (counter_pending w0 (procs s) (logs s) c (counters s) _ Hp) as Hc.
  unfold mbind, py_bind, on at 1. destruct (perf_close c (machine s)) as [[u|e] w1]; [|done].
  destruct (metered_csv (past w1) folder) as (text & Ht & values & Hv & Hpos).
  unfold on, perf_values, ask, lift, mbind, py_bind. cbn [machine with_machine]. rewrite Hcsv, Ht, Hv, Hpos.
  apply Hk. destruct Hc as (? & ? & ? & Hn & Hf). unfold held, open_counters. cbn. rewrite app_nil_r. by split_and!.
Qed.

(** ** Programs that release what they hold *)

(** Whatever is held before is held after, and nothing else. *)
Abbreviation releases m := (∀ w0, keeps (settled w0) m).

Lemma settled_refl w : tidy w → settled w w.
Proof. intros Hw. split; [done|]. by split; left. Qed.
Lemma settled_trans w0 w1 w2 : settled w0 w1 → settled w1 w2 → settled w0 w2.
Proof.
  intros [_ [Hr Ht]] [Hw [Hr' Ht']]. split; [done|]. split.
  - intros i o Hi. destruct (Hr' i o Hi) as [? | ?]; [by apply Hr|by right].
  - intros i q Hi. destruct (Ht' i q Hi) as [? | ?]; [by apply Ht|by right].
Qed.
Lemma releases_step {A} (m : py world A) : (∀ w, tidy w → settled w (m w).2) → releases m.
Proof.
  intros Hm w0 w Hw. specialize (Hm w (proj1 Hw)). pose proof (settled_trans _ _ _ Hw Hm) as Ht.
  by destruct (m w) as [[a|e] w2].
Qed.
Lemma releases_released {A} (m : py world A) w : releases m → tidy w → released w (m w).2.
Proof.
  intros Hm Hw. specialize (Hm w w (settled_refl w Hw)). by destruct (m w) as [[a|e] w2]; [|destruct Hm as [Hm _]]; apply Hm.
Qed.
Lemma quiet_releases {A} (m : py world A) : quiet m → releases m.
Proof.
  intros Hm. apply releases_step. intros w Hw. specialize (Hm (running w) (texts w) (fds w) w).
  assert (frame (running w) (texts w) (fds w) (m w).2) as Hf.
  { destruct (m w) as [[a|e] w2]; [by apply Hm|]. destruct Hm as [Hm _]; [by split|exact Hm]. }
  split; [apply Hf|]. by eapply released_frame; [exact Hf|left|left].
Qed.
Lemma with_rig_releases {A} (body : py rig A) (finish : py rig ()) :
  (∀ w0, keeps (held w0) body) → (∀ w0, gives_up w0 finish) → releases (with_rig (try_finally body finish)).
Proof.
  intros Hb Hf. apply releases_step. intros w Hw.
  apply (with_rig_gives_up w (held w)); [by apply held_empty|apply Hb|apply Hf].
Qed.
Lemma with_rig_steps {A} (P : world → rig → Prop) (body : py rig A) (finish : py rig ()) :
  (∀ w, tidy w → P w (empty_rig w)) →
  (∀ w, triple (P w) body (λ _, held w) (λ _ s, held w s ∧ True)) → (∀ w0, gives_up w0 finish) →
  releases (with_rig (try_finally body finish)).
Proof. intros HP Hb Hf. apply releases_step. intros w Hw. apply (with_rig_gives_up w (P w)); [by apply HP|apply Hb|apply Hf]. Qed.
#[export] Hint Resolve quiet_releases : within.
