(* ===== verification/SampleMachine.v ===== *)
(** * A sample machine

    An operating system on which every trial runs to its end, for the witnesses: ports count
    up, every process starts and exits when it is told to, and the programs print what the
    trials expect. *)

From S2P Require Import Prelude.
From S2P Require Import PyText.
From S2P Require Import PyBytes.
From S2P Require Import Json.
From S2P Require Import FileSystem.
From S2P Require Import Tools.
From S2P Require Import Shapes.
From S2P Require Import Machine.
From S2P Require Import Fixtures.
From S2P Require Import Perf.
From S2P Require Import Rig.
From Stdlib Require SpecFloat.
#[local] Open Scope Z_scope.

Definition sample_row : json :=
  JObj [("bytes", JNum 1073741824); ("seconds", JReal "2.0"); ("requests", JNum 100); ("mode", JStr "S");
        ("connections", JNum 1); ("p50_us", JNum 7); ("p99_us", JNum 9)].
Definition sample_config : json := JObj [("tls", JObj [("mode", JStr "reality")]); ("server", JStr "127.0.0.1:1")].
Definition sample_page : json :=
  JObj [("responses", JArr [JObj [("protocol", JStr "h2")]])].
(** A SOCKS reply that grants the request, and a TLS record without content. *)
Definition sample_reply : bytes :=
  [Byte.x05; Byte.x00; Byte.x00; Byte.x01; Byte.x00; Byte.x00; Byte.x00; Byte.x00; Byte.x00; Byte.x00].
Definition sample_piece : piece :=
  {| p_direction := Up; p_data := [Byte.x16; Byte.x03; Byte.x01; Byte.x00; Byte.x00];
     p_time := SpecFloat.S754_zero false |}.
(** What a file holds; [completed] is the counter in the logs of the proxies. *)
Definition sample_text (completed : Z) (p : path) : string :=
  let name := name_of p in
  if String.eqb name "stat" then "1 (veil) S 1 1 1 0 -1 0 0 0 0 0 250 50 0 0"
  else if String.eqb name "statm" then "900 300 0"
  else if String.eqb name "perf.csv" then
    "1500.5,msec,task-clock,1" +:+ nl +:+ "<not counted>,,cycles" +:+ nl +:+ "7,,instructions" +:+ nl
  else if String.eqb name "status" then "Name: veil" +:+ nl +:+ "VmHWM: 900 kB" +:+ nl
  else if String.eqb name "tcp" then "local remote state" +:+ nl +:+ "0: 0100007F:4E22 0100007F:4E25 01" +:+ nl
  else if endswith name ".json" then dumps sample_config
  else "veil: stopped accepted=2 rejected=0 completed=" +:+ str completed +:+ " failed=1" +:+ nl.
(** A process was told to go after the last one was started. *)
Fixpoint sent (h : list event) : bool :=
  match h with
  | [] => false
  | e :: h => match question e with Send _ _ => true | Popen _ => false | _ => sent h end
  end.

Definition sample_os (completed : Z) : Os := λ A h c,
  match c in call A return result A with
  | FreePort => Ok (20000 + zlen h)
  | Popen _ => Ok (100 + zlen h)
  | Poll _ => Ok None
  | Wait _ _ => Ok 0
  | Ready _ _ => Ok true
  | Readline _ => Ok (if sent h then dumps sample_row else dumps (JObj [("ready", JBool true)]))
  | CheckOutput _ => Ok (dumps sample_keys)
  | Exists _ => Ok false
  | ReadText p => Ok (sample_text completed p)
  | SelectFd _ _ => Ok true
  | ReadFd _ _ => Ok "ack"
  | Sysconf name => Ok (if String.eqb name "SC_CLK_TCK" then 100 else 4096)
  | Which _ => Ok true
  | IsFile _ => Ok true
  | Resolve p => Ok p
  | Glob p _ => Ok [p ++ ["benchpeer"]]
  | Rglob p => Ok [p ++ ["main.go"]]
  | ReadLink p => Ok (posix p)
  | ReadBytes _ => Ok "bytes"
  | Affinity => Ok [14; 17; 18; 22]
  | Release => Ok "6.1"
  | Recv _ n => Ok (if n <=? 10 then take (Z.to_nat n) sample_reply else [])
  | Listen => Ok 8000
  | PeerCertificate _ => Ok []
  | TlsSession _ => Ok ("TLS_AES_128_GCM_SHA256", "TLSv1.3", Some "http/1.1")
  | HttpRead _ => Ok (200, [Byte.x78; Byte.x78; Byte.x78])
  | ServeSite _ _ => Ok 8443
  | Communicate _ _ => Ok (dumps sample_page, 0)
  | RunCaptured _ _ _ => Ok (0, "", "")
  | RunFor _ _ _ _ => Ok 0
  | ReadOpen _ => Ok "log"
  | Stat _ => Ok (1000, 448)
  | UserId _ => Ok 1000
  | RunEnv _ _ => Ok (0, "", "")
  | Iterdir _ => Ok []
  | ConnectEx _ _ _ => Ok 111
  | BindHttp => Ok (9000 + zlen h)
  | InetQuery ids => Ok (1, map (λ _, (0, "")) (tail ids))
  | FindWindow _ => Ok (Some 7)
  | WindowVisible _ => Ok 1
  | WindowRect _ => Ok (0, 0, 680, 720)
  | ExtractArchive _ _ | Symlink _ _ | CopyFile _ _ | OpenUrl _ _ | WrapHttp _ _ _ | ServeHttp _ | ShutdownHttp _
  | CloseHttp _ | InetSet _ _ | InetNotify _ | GlobalFree _ | ShowWindow _ _ | MoveWindow _ _ | PostMessage _ _ _ _ => Ok ()
  | CheckBytes _ _ => Ok []
  | TempFolder prefix dir => Ok (dir ++ [prefix])
  | Now => Ok (SpecFloat.S754_zero false)
  | Getpid => Ok 99
  | Urandom n => Ok (repeat Byte.x07 (Z.to_nat n))
  | ReadInput => Ok ""
  | TapPieces _ => Ok [sample_piece]
  | GroupOpen p _ => Ok (p + 1)
  | GroupSteps _ => Ok [Accepted; Received 0 sample_piece]
  | GroupStop _ => Ok true
  | Dial _ _ _ | Accept _ | SetTimeout _ _ | SendAll _ _ | ShutdownWrite _ | WrapTls _ _ _ | Unwrap _ | StopSite _
  | ServeEcho _ | KillGroup _ | RemoveTree _ | Print _ => Ok ()
  | TapOpen p => Ok (p + 1)
  | TapDone _ _ => Ok true
  | TapWire _ => Ok []
  | TapClose _ | Connect _ _ _ | Sleep _ | Terminate _ | Kill _ | Send _ _ | CloseInput _ | Run _ _
  | Open _ _ | Write _ _ | Flush _ | Rewind _ | Close _ | WriteText _ _ | Chmod _ _ | Mkdir _ _ _ | Unlink _
  | Mkfifo _ | OpenFifo _ | WriteFd _ _ | CloseFd _ => Ok ()
  end.
#[export] Instance sample_calm n : @Calm (sample_os n).
Proof. by split. Qed.
#[export] Instance sample_perf n : @PerfStops (sample_os n).
Proof. by split. Qed.
#[export] Instance sample_metered n : @Metered (sample_os n).
Proof.
  split. intros h folder. cbn [os sample_os]. unfold sample_text. rewrite name_of_snoc. cbn [String.eqb Ascii.eqb Bool.eqb].
  eexists. split; [reflexivity|]. eexists. split; vm_compute; reflexivity.
Qed.
