(* ===== verification/Benchmark.v ===== *)
(** * The throughput benchmark

    [trial], [summarize], [metadata] and the main program of
    [veil-core/scripts/benchmark.py]. *)

From S2P Require Import Prelude.
From S2P Require Import PyText.
From S2P Require Import PyBytes.
From S2P Require Import Json.
From S2P Require Import Numbers.
From S2P Require Import FileSystem.
From S2P Require Import Tools.
From S2P Require Import Machine.
From S2P Require Import Fixtures.
From S2P Require Import Perf.
From S2P Require Import Stack.
From S2P Require Import Rig.
From S2P Require Import SampleMachine.
#[local] Open Scope Z_scope.

(** ** [summarize] *)

(** The key of a group; a variant or mode that is no text is refused (the trials only make
    texts). *)
Definition group_key : Type := string * string * Z.
Definition row_key (r : json) : result group_key :=
  variant ← jitem "variant" r; variant ← jstr variant;
  mode ← jitem "mode" r; mode ← jstr mode;
  n ← jitem "connections" r;
  match n with JNum n => Ok (variant, mode, n) | _ => Err TypeError end.
Definition key_leb (a b : group_key) : bool :=
  let '(v, m, n) := a in let '(v', m', n') := b in
  if negb (String.eqb v v') then sleb v v' else if negb (String.eqb m m') then sleb m m' else n <=? n'.
Definition key_le (a b : group_key) : Prop := key_leb a b = true.
#[export] Instance key_le_dec a b : Decision (key_le a b).
Proof. unfold key_le. apply _. Defined.

(** [groups.setdefault(key, []).append(r)] for every row *)
Definition add_row (groups : list (group_key * list json)) (kr : group_key * json) :=
  dict_set kr.1 (default [] (dict_get kr.1 groups) ++ [kr.2]) groups.
Definition group_rows (rows : list json) : result (list (group_key * list json)) :=
  keys ← mapR row_key rows; Ok (fold_left add_row (zip keys rows) []).

Definition has_key (k : string) (v : json) : bool :=
  match v with JObj kvs => bool_decide (k ∈ kvs.*1) | _ => false end.
Definition metrics : list string :=
  ["gib_per_cpu_second"; "gib_per_second"; "server_cpu_utilization"; "server_rss_bytes";
   "client_rss_bytes"; "p50_us"; "p99_us"].
Definition metric_median (rs : list json) (k : string) : result (string * json) :=
  xs ← mapR (jnum k) rs; m ← median xs; Ok (k, json_of m).
Definition summary_row (g : group_key * list json) : result json :=
  let '(variant, mode, n, rs) := g in
  medians ← mapR (metric_median rs) (filter (λ k, has_key k (default JNull (head rs)) = true) metrics);
  Ok (JObj ([("variant", JStr variant); ("mode", JStr mode); ("connections", JNum n);
             ("repetitions", JNum (zlen rs))] ++ medians)).
Definition group_le (a b : group_key * list json) : Prop := key_le a.1 b.1.
#[export] Instance group_le_dec a b : Decision (group_le a b).
Proof. unfold group_le. apply _. Defined.
Definition summarize (rows : list json) : result (list json) :=
  groups ← group_rows rows; mapR summary_row (merge_sort group_le groups).

Section benchmark.
Context `{Os} (ROOT : path) (ENV : env).
(** [hashlib.sha256(data).hexdigest()]; and the [configurations] of this module, which
    [delayed_benchmark.py] replaces by its own. *)
Context (sha256 : string → string).
Context (configurations : credentials → string → Z → Z → Z → py world (program * program)).

(** ** [trial] *)
Definition launch (folder : path) (command : list string) (cores : string) (gomax : Z) : py rig proc :=
  launch_in ENV folder command cores gomax Inherit None.
Definition trial_folder (f : credentials) (index : nat) (variant mode : string) (connections : Z) : path :=
  folder f ++ [pad3 index +:+ "-" +:+ variant +:+ "-" +:+ mode +:+ str connections].
Definition load_command (cp backendp : Z) (mode : string) (connections size rounds : Z) : list string :=
  [posix (benchpeer ROOT); "-socks"; loopback cp; "-target"; loopback backendp; "-mode"; mode;
   "-connections"; str connections; "-bytes"; str size; "-rounds"; str rounds].

(** The processes of a trial: the server, the client and the load generator. *)
Definition start_load (folder : path) (command : list string) : py rig proc :=
  errlog ← on (open_text (folder ++ ["load.log"]) "w");
  modify (add_log errlog);;
  load ← on (spawn ENV command (Some "18,19,20,21") 4 Pipe Pipe (ToFile errlog));
  modify (add_proc load);;
  mret load.
Definition start_all (f : credentials) (folder : path) (variant : string) (coverp backendp sp cp : Z)
    (command : list string) : py rig (proc * proc * proc) :=
  cover ← launch folder (cover_command f coverp) "16,17" 2;
  on (wait_port coverp cover);;
  backend ← launch folder (backend_command (benchpeer ROOT) backendp) "16,17" 2;
  on (wait_port backendp backend);;
  '(sc, cc) ← on (configurations f variant sp cp coverp);
  server ← launch folder (program_argv sc) "14" 1;
  on (wait_port sp server);;
  client ← launch folder (program_argv cc) "22,23,24,25" 4;
  on (wait_port cp client);;
  load ← start_load folder command;
  mret (server, client, load).

(** The row of the result file. *)
Definition gib : num := Int (2 ^ 30).
Definition derived (variant : string) (index : nat) (values : list (string * float))
    (before after : num * num) (measured : json) : result json :=
  clock ← task_clock values;
  seconds ← num_div clock (Int 1000);
  server ← num_sub after.1 before.1;
  client ← num_sub after.2 before.2;
  bytes ← jnum "bytes" measured;
  b1 ← num_div bytes gib; per_cpu ← num_div b1 seconds;
  wall ← jnum "seconds" measured;
  per_second ← num_div b1 wall;
  utilization ← num_div seconds wall;
  jupdate [("variant", JStr variant); ("index", JNum (Z.of_nat index));
           ("server_cpu_seconds", json_of seconds); ("server_process_cpu_seconds", json_of server);
           ("client_process_cpu_seconds", json_of client);
           ("cycles", json_float (dict_get "cycles" values));
           ("instructions", json_float (dict_get "instructions" values));
           ("gib_per_cpu_second", json_of per_cpu); ("gib_per_second", json_of per_second);
           ("server_cpu_utilization", json_of utilization)] measured.

Definition both_cpu (server client : proc) : py rig (num * num) :=
  a ← on (cpu (pid server)); b ← on (cpu (pid client)); mret (a, b).
Definition measure (folder : path) (variant : string) (index : nat) (server client load : proc) : py rig json :=
  await_ready load;;
  perf ← on (perf_init (pid server) folder);
  modify (set_meter (Some perf));;
  on (perf_switch perf "enable");;
  before ← both_cpu server client;
  go load;;
  measured ← on (line load 90000);
  on (perf_switch perf "disable");;
  after ← both_cpu server client;
  server_rss ← on (rss (pid server));
  client_rss ← on (rss (pid client));
  measured ← lift (jupdate [("server_rss_bytes", JNum server_rss); ("client_rss_bytes", JNum client_rss)] measured);
  on (perf_close perf);;
  values ← on (perf_values perf);
  modify (set_meter None);;
  on (wait load (Some 5000));;
  lift (derived variant index values before after measured).

(** The [finally] clause. *)
Definition finish : py rig () :=
  perf ← gets meter;
  match perf with Some c => on (perf_close c) | None => mret () end;;
  stop_all;;
  close_logs.

Definition trial (f : credentials) (variant mode : string) (connections size rounds : Z) (index : nat) : py world json :=
  let folder := trial_folder f index variant mode connections in
  ask (Mkdir folder false false);;
  coverp ← port; backendp ← port; sp ← port; cp ← port;
  with_rig (try_finally
    ('(server, client, load) ← start_all f folder variant coverp backendp sp cp
       (load_command cp backendp mode connections size rounds);
     measure folder variant index server client load)
    finish).

(** ** [metadata] *)
Definition binary_names : list string :=
  ["veil-native"; "veil-batch"; "veil-openssl"; "singbox-native"; "singbox-batch"; "singbox-openssl"; "benchpeer"].
Definition hash_path (base : path) (p : path) : py world (string * json) :=
  data ← ask (ReadBytes p); mret (relative base p, JStr (sha256 data)).
(** The paths that satisfy [keep], hashed, in the order of [ps]. *)
Fixpoint hash_paths (keep : path → py world bool) (base : path) (ps : list path) (d : list (string * json)) :
    py world (list (string * json)) :=
  match ps with
  | [] => mret d
  | p :: ps =>
      k ← keep p;
      if (k : bool) then kv ← hash_path base p; hash_paths keep base ps (dict_set kv.1 kv.2 d)
      else hash_paths keep base ps d
  end.
Definition is_binary (p : path) : py world bool :=
  file ← ask (IsFile p);
  mret (file && bool_decide (name_of p ∈ binary_names)).
Definition is_source (p : path) : py world bool :=
  file ← ask (IsFile p);
  mret (file && negb (bool_decide ("__pycache__" ∈ p))).
Fixpoint hash_listed (listing : path → call (list path)) (keep : path → py world bool) (base : path)
    (dirs : list path) (d : list (string * json)) : py world (list (string * json)) :=
  match dirs with
  | [] => mret d
  | dir :: dirs =>
      ps ← ask (listing dir);
      d ← hash_paths keep base ps d;
      hash_listed listing keep base dirs d
  end.

Definition go_version : py world string :=
  found ← ask (Which "go");
  if (found : bool) then ask (CheckOutput (plain ["go"; "version"]))
  else mret "not in test PATH; binaries were built separately".
Definition metadata (arguments : json) : py world json :=
  lscpu ← ask (CheckOutput (plain ["lscpu"]));
  go ← go_version;
  openssl ← ask (CheckOutput (plain ["openssl"; "version"]));
  let build := ROOT ++ [".build"] in
  binaries ← hash_listed (λ d, Glob d "*") is_binary build [build; build ++ ["previous"]] [];
  sources ← hash_listed Rglob is_source ROOT
    (map (λ d, ROOT ++ [d]) ["cmd"; "core"; "inbound"; "internal"; "patches"; "scripts"]) [];
  mret (JObj [("arguments", arguments); ("cpu", JStr lscpu); ("go", JStr go); ("openssl", JStr openssl);
    ("cpu_affinity", JObj [("server", JStr "14"); ("backend_cover", JStr "16,17"); ("load", JStr "18-21");
                           ("client", JStr "22-25")]);
    ("binary_sha256", JObj binaries); ("source_sha256", JObj sources)]).

(** ** The main program *)
Record bench_args := {
  a_out : string; a_variants : string; a_modes : string; a_connections : string; a_reps : Z;
  a_gib : num; a_rounds : Z }.
Definition bench_vars (a : bench_args) : json :=
  JObj [("out", JStr (a_out a)); ("variants", JStr (a_variants a)); ("modes", JStr (a_modes a));
        ("connections", JStr (a_connections a)); ("reps", JNum (a_reps a)); ("gib", json_of (a_gib a));
        ("rounds", JNum (a_rounds a))].
Definition job : Type := string * string * Z.
Definition jobs (a : bench_args) : result (list job) :=
  ns ← mapR py_int (split "," (a_connections a));
  Ok (v ← split "," (a_variants a); m ← split "," (a_modes a); n ← ns; _ ← seqZ 0 (a_reps a); [(v, m, n)]).

(** [run]: one trial of a job at its index; the results so far are rewritten after each. *)
Definition record (folder : path) (rows : list json) (row : json) : py world (list json) :=
  let rows := rows ++ [row] in
  write_to (folder ++ ["raw.jsonl"]) "a" (dumps row +:+ nl);;
  summary ← lift (summarize rows);
  ask (WriteText (folder ++ ["summary.json"]) (dumps_indent 2 (JArr summary) +:+ nl));;
  mret rows.
Fixpoint run_jobs (run : nat → job → py world json) (folder : path) (i : nat) (rows : list json) (js : list job) :
    py world (list json) :=
  match js with
  | [] => mret rows
  | j :: js => row ← run i j; rows ← record folder rows row; run_jobs run folder (S i) rows js
  end.

(** [shuffle] is [random.Random(20260927).shuffle]. *)
Context (shuffle : list job → list job).
Definition main (a : bench_args) : py world (list json) :=
  folder ← ask (Resolve (join_path ROOT (a_out a)));
  ask (Mkdir folder true true);;
  old ← ask (Exists (folder ++ ["raw.jsonl"]));
  lift (raise_if old (SystemExit 1));;
  f ← fixture ROOT folder false;
  js ← lift (jobs a);
  info ← metadata (bench_vars a);
  ask (WriteText (folder ++ ["metadata.json"]) (dumps_indent 2 info +:+ nl));;
  run_jobs (λ i '(v, m, n), size ← lift (num_mul (a_gib a) gib ≫= num_trunc);
                            trial f v m n size (a_rounds a) i) folder 0 [] (shuffle js).
End benchmark.

(** ** What a trial leaves behind *)
Section trial_held.
Context `{Os} (ROOT : path) (ENV : env) (w0 : world).
Context (configure : credentials → string → Z → Z → Z → py world (program * program)).
Context (configure_quiet : ∀ f variant sp cp cover, quiet (configure f variant sp cp cover)).
Abbreviation held := (held w0).

Lemma start_load_held folder command : keeps held (start_load ENV folder command).
Proof.
  unfold start_load, spawn. apply open_log_held. intros h. apply start_held. intros p. apply within_ret.
Qed.
#[local] Hint Resolve start_load_held configure_quiet : within.
Lemma start_all_held f folder variant coverp backendp sp cp command :
  keeps held (start_all ROOT ENV configure f folder variant coverp backendp sp cp command).
Proof. unfold start_all, launch. solve_within. Qed.

(** A step while the counter [c] is open. *)
Definition metered (c : counter) (s : rig) : Prop := held s ∧ meter s = Some c.
Lemma on_metered {A} c (m : py world A) : quiet m → keeps (metered c) (on m).
Proof.
  intros Hm s [Hs Hc]. pose proof (on_held w0 m Hm s Hs) as Hh. unfold on in *.
  destruct (m (machine s)) as [[a|e] w]; [by split|]. by destruct Hh.
Qed.

Lemma then_metered {A B} c (m : py rig A) (k : A → py rig B) :
  keeps (metered c) m → (∀ a, triple (metered c) (k a) (λ _, held) (λ _ s, held s ∧ True)) →
  triple (metered c) (m ≫= k) (λ _, held) (λ _ s, held s ∧ True).
Proof.
  intros Hm Hk. eapply triple_bind; [|exact Hk].
  eapply triple_consequence; [exact Hm|done|done|]. by intros e s [[Hs _] _].
Qed.
End trial_held.
#[export] Hint Resolve on_metered : within.

Section trial_released.
Context `{Calm} `{!PerfStops H} (ROOT : path) (ENV : env).

Lemma bench_measure_held `{!Metered H} w0 folder variant index server client load :
  keeps (held w0) (measure folder variant index server client load).
Proof.
  unfold measure. apply within_bind; [auto with within|intros _].
  apply perf_meter_held; [|by intros e s Hs]. intros c Hcsv.
  do 9 (apply (then_metered w0 c); [unfold both_cpu, go; solve_within|intros ?]).
  apply (close_meter_held w0 folder c); [done|]. intros v. solve_within.
Qed.

(** The [finally] clause, whether a counter is open or not. *)
Lemma finish_gives_up w0 : gives_up w0 finish.
Proof.
  intros s Hs s' ->. unfold finish, gets, mbind, py_bind.
  assert (∃ cs w, (match meter s with Some c => on (perf_close c) | None => mret () end) s = (Ok (), with_machine w s) ∧
    pending w0 (procs s) (logs s) cs w) as (cs & w & -> & Hp).
  { destruct (meter s) as [c|] eqn:Hm.
    - pose proof (pending_meter w0 s c Hs Hm) as Hp. pose proof (counter_pending _ _ _ _ _ _ Hp) as Hc.
      unfold on. destruct (perf_close c (machine s)) as [[[]|e] w]; [|done]. by exists (counters s), w.
    - exists (open_counters s), (machine s). split; [by destruct s|done]. }
  assert (at_rig s (pending w0 (procs s) (logs s) cs) (with_machine w s)) as Ha by done.
  pose proof (stop_all_runs w0 s cs _ Ha) as H1. destruct (stop_all _) as [[[]|e] s1]; [|done].
  pose proof (close_logs_runs w0 s cs _ H1) as H2. destruct (close_logs _) as [[[]|e] s2]; [|done].
  exists cs. apply H2.
Qed.

(** Unless the counter fails after it was closed, a trial cleans up after itself, with
    configurations that only make calls. *)
Lemma bench_trial_releases `{!Metered H} configure f variant mode connections size rounds index :
  (∀ f variant sp cp cover, quiet (configure f variant sp cp cover)) →
  releases (trial ROOT ENV configure f variant mode connections size rounds index).
Proof.
  intros Hq w0. unfold trial. apply within_bind; [solve_within|intros _].
  do 4 (apply within_bind; [solve_within|intros ?]).
  apply with_rig_releases; [intros w|intros w; apply finish_gives_up].
  apply within_bind; [by apply start_all_held|]. intros [[server client] load]. apply bench_measure_held.
Qed.
Lemma write_to_quiet p mode text : quiet (write_to p mode text).
Proof. apply text_quiet. intros h R T F. solve_within. Qed.
#[local] Hint Resolve write_to_quiet : within.
Lemma run_jobs_releases run folder i rows js :
  (∀ i j, releases (run i j)) → releases (run_jobs run folder i rows js).
Proof.
  intros Hr w0. revert i rows. induction js as [|j js IH]; intros i rows; cbn [run_jobs]; unfold record; solve_within.
Qed.

Lemma hash_paths_quiet sha256 keep base ps d : (∀ p, quiet (keep p)) → quiet (hash_paths sha256 keep base ps d).
Proof.
  intros Hk R T F. revert d. induction ps as [|p ps IH]; intros d; cbn [hash_paths]; unfold hash_path; solve_within.
Qed.
Lemma hash_listed_quiet sha256 listing keep base dirs d :
  (∀ p, quiet (keep p)) → quiet (hash_listed sha256 listing keep base dirs d).
Proof.
  intros Hk R T F. revert d. induction dirs as [|dir dirs IH]; intros d; cbn [hash_listed]; [solve_within|].
  pose proof hash_paths_quiet. solve_within.
Qed.
Lemma metadata_quiet sha256 arguments : quiet (metadata ROOT sha256 arguments).
Proof.
  intros R T F. unfold metadata, go_version.
  assert (∀ p, quiet (is_binary p)) by (intros p R' T' F'; unfold is_binary; solve_within).
  assert (∀ p, quiet (is_source p)) by (intros p R' T' F'; unfold is_source; solve_within).
  pose proof hash_listed_quiet. solve_within.
Qed.
Lemma bench_main_releases `{!Metered H} sha256 configure shuffle a :
  (∀ f variant sp cp cover, quiet (configure f variant sp cp cover)) →
  releases (main ROOT ENV sha256 configure shuffle a).
Proof.
  intros Hq w0. unfold main. pose proof (metadata_quiet sha256).
  do 8 (apply within_bind; [solve_within|intros ?]).
  apply run_jobs_releases. intros i [[v m] n] w. pose proof bench_trial_releases. solve_within.
Qed.

End trial_released.
#[export] Hint Resolve write_to_quiet metadata_quiet : within.

(** The sample machine with an empty report. *)
Definition no_report : Os := λ A h c,
  match c in call A return result A with
  | ReadText p => if String.eqb (name_of p) "perf.csv" then Ok "" else @os (sample_os 116) _ h (ReadText p)
  | c => @os (sample_os 116) _ h c
  end.
#[export] Instance no_report_calm : @Calm no_report.
Proof. by split. Qed.
#[export] Instance no_report_perf : @PerfStops no_report.
Proof. by split. Qed.

(** On it the whole trial ends with the wrong exception and its five processes running. *)
Definition closed_counter : counter :=
  {| ctl := []; ack := []; csv := []; cf := 7; af := 8; log := 9; p := listener |}.
Definition closed_rig : rig :=
  set_meter (Some closed_counter) (empty_rig
    {| past := []; fresh := 10; running := ∅; codes := {[0%nat := 0]}; texts := ∅; fds := ∅ |}).
