(* ===== verification/Summarize.v ===== *)
(** * Bootstrap intervals of the benchmark

    [veil-core/scripts/summarize.py]: the medians of one variant with those of its baselines, and
    the bootstrap interval of each ratio.  Also what both summaries are computed from: the rows
    of a key, in the order of the file. *)

From S2P Require Import Prelude.
From S2P Require Import PyText.
From S2P Require Import PyBytes.
From S2P Require Import Json.
From S2P Require Import Numbers.
From S2P Require Import FileSystem.
From S2P Require Import Tools.
From S2P Require Import Machine.
From S2P Require Import Benchmark.
From Stdlib Require SpecFloat.
#[local] Open Scope Z_scope.

Definition candidate : string := "veil-opt-reality".
Definition baselines : list string :=
  ["anytls-native-tls"; "anytls-native-reality"; "anytls-opt-reality"; "veil-opt-reality-previous"; "veil-native-reality"].
Definition metric_of (mode : string) : string := if bool_decide (mode ∈ ["U"; "D"]) then "gib_per_cpu_second" else "p99_us".
(** [statistics.median(r[key] for r in rs)] *)
Definition median_of (key : string) (rs : list json) : result num := xs ← mapR (jnum key) rs; median xs.

(** The seeded generator: the index [floor(random() * n)] at a place of its stream.  The state of
    a computation is the place. *)
Section bootstrap.
Context (index : nat → nat → nat).

(** [rng.choices(x, k=len(x))] *)
Definition choice (x : list num) : py nat num :=
  i ← gets (λ s, index s (length x)); modify S;; lift (get_at x i).
Definition choices (x : list num) : py nat (list num) := mapM_py (λ _, choice x) (seq 0 (length x)).
Definition resample (x y : list num) : py nat num :=
  a ← choices x; a ← lift (median a);
  b ← choices y; b ← lift (median b);
  lift (num_div a b).
Definition resamples : nat := Z.to_nat 10000.
Definition ratios (x y : list num) : py nat (list num) :=
  l ← mapM_py (λ _, resample x y) (seq 0 resamples); mret (merge_sort num_le l).

Definition comparison (mode : string) (rs base : list json) : py nat json :=
  let metric := metric_of mode in
  x ← lift (mapR (jnum metric) rs);
  y ← lift (mapR (jnum metric) base);
  l ← ratios x y;
  my ← lift (median y); mx ← lift (median x);
  ratio ← lift (num_div mx my);
  low ← lift (get_at l 249); high ← lift (get_at l (Z.to_nat 9749));
  wall ← lift (median_of "gib_per_second" base);
  mret (JObj [("metric", JStr metric); ("baseline_median", json_of my); ("candidate_median", json_of mx);
              ("ratio", json_of ratio); ("bootstrap_95_ratio", JArr [json_of low; json_of high]);
              ("baseline_wall_gib_s", json_of wall)]).
Fixpoint comparisons (rows_of : group_key → list json) (mode : string) (n : Z) (rs : list json) (names : list string) :
    py nat (list (string * json)) :=
  match names with
  | [] => mret []
  | name :: names =>
      match rows_of (name, mode, n) with
      | [] => comparisons rows_of mode n rs names
      | base => c ← comparison mode rs base; cs ← comparisons rows_of mode n rs names; mret ((name, c) :: cs)
      end
  end.
Definition result_row (rows_of : group_key → list json) (g : group_key * list json) : py nat json :=
  let '(_, mode, n, rs) := g in
  cpu ← lift (median_of "gib_per_cpu_second" rs);
  wall ← lift (median_of "gib_per_second" rs);
  rss ← lift (xs ← mapR (λ r, x ← jnum "server_rss_bytes" r; num_div x (Int (2 ^ 20))) rs; median xs);
  cs ← comparisons rows_of mode n rs baselines;
  mret (JObj [("mode", JStr mode); ("connections", JNum n); ("repetitions", JNum (zlen rs));
              ("veil_cpu_efficiency", json_of cpu); ("veil_wall_gib_s", json_of wall); ("veil_server_rss_mib", json_of rss);
              ("comparisons", JObj cs)]).
Definition is_candidate (g : group_key * list json) : Prop := g.1.1.1 = candidate.
Definition bootstrap_summary (rows : list json) : py nat (list json) :=
  groups ← lift (group_rows rows);
  mapM_py (result_row (λ k, default [] (dict_get k groups))) (filter is_candidate (merge_sort group_le groups)).
End bootstrap.

(** A generator that takes the places in turn resamples the sample itself. *)
Example resample_1 :
  (l ← mapM_py (λ _, resample (λ s n, Nat.modulo s n) [Int 10; Int 12; Int 17] [Int 24; Int 20; Int 40]) [(); ()];
   lift (mapR (λ x, num_mul x (Int 2)) l)) 0%nat = (Ok (repeat (Float (SpecFloat.S754_finite false 4503599627370496 (-52))) 2), 12%nat).
Proof. vm_compute. reflexivity. Qed.

(** ** The program *)
Record bootstrap_args := { b_raw : string; b_output : option string }.
Section program.
Context `{Os} (index : nat → nat → nat) (cwd : path).
Definition bootstrap_main (a : bootstrap_args) : py world () :=
  text ← ask (ReadText (join_path cwd (b_raw a)));
  rows ← lift (mapR loads (filter (λ s, strip s ≠ "") (splitlines text)));
  out ← lift (bootstrap_summary index rows 0%nat).1;
  let text := dumps_indent 2 (JArr out) +:+ nl in
  match b_output a with
  | Some (String c s) => ask (WriteText (join_path cwd (String c s)) text)
  | _ => ask (Print text)
  end.
End program.

(** ** The rows of a key *)
Definition rows_of (rows : list json) (k : group_key) : list json := filter (λ r, row_key r = Ok k) rows.

Lemma key_le_lex v m n v' m' n' : key_le (v, m, n) (v', m', n') ↔
  v ≠ v' ∧ String.le v v' ∨ v = v' ∧ (m ≠ m' ∧ String.le m m' ∨ m = m' ∧ n <= n').
Proof.
  unfold key_le, key_leb, sleb, String.le.
  destruct (String.eqb_spec v v'); cbn; [destruct (String.eqb_spec m m'); cbn|]; rewrite ?Is_true_true, ?Z.leb_le; tauto.
Qed.
#[local] Instance key_le_trans : Transitive key_le.
Proof.
  intros [[v m] n] [[v' m'] n'] [[v'' m''] n'']. rewrite !key_le_lex.
  assert (∀ a b c : string, a ≠ b → String.le a b → String.le b c → a ≠ c ∧ String.le a c) as Hlt.
  { intros a b c Hab H1 H2. split; [|by etrans]. intros ->. by apply Hab, (anti_symm String.le). }
  intros [[H1 H2] | [-> H]] [[H1' H2'] | [-> H']]; [left; by eapply Hlt|by left..|right].
  split; [done|]. destruct H as [[H1 H2] | [-> H]], H' as [[H1' H2'] | [-> H']]; [left; by eapply Hlt|by left..|right].
  split; [done|lia].
Qed.
#[local] Instance key_le_total : Total key_le.
Proof.
  intros [[v m] n] [[v' m'] n']. rewrite !key_le_lex.
  destruct (decide (v = v')) as [->|]; [|destruct (total String.le v v'); naive_solver].
  destruct (decide (m = m')) as [->|]; [|destruct (total String.le m m'); naive_solver].
  destruct (Z.le_total n n'); naive_solver.
Qed.
#[local] Instance key_le_antisymm : AntiSymm eq key_le.
Proof.
  intros [[v m] n] [[v' m'] n']. rewrite !key_le_lex.
  intros [[H1 H2] | [-> [[H1 H2] | [-> H]]]] [[H1' H2'] | [H' [[H3 H4] | [H5 H6]]]]; try done.
  - by destruct H1; apply (anti_symm String.le).
  - by destruct H1; apply (anti_symm String.le).
  - f_equal; lia.
Qed.
#[local] Instance group_le_total : Total group_le.
Proof. intros a b. apply (total key_le). Qed.

(** [groups.setdefault(key, []).append(r)] *)
Lemma add_rows_get l d k : dict_get k (fold_left add_row l d) =
  match filter (λ kr, kr.1 = k) l with
  | [] => dict_get k d
  | l' => Some (default [] (dict_get k d) ++ l'.*2)
  end.
Proof.
  revert d. induction l as [|[k' r] l IH]; intros d; [done|]. cbn [fold_left]. rewrite IH. unfold add_row. cbn [fst snd].
  rewrite dict_get_set, filter_cons. cbn [fst]. destruct (decide (k = k')) as [->|Hne].
  - rewrite decide_True by done. destruct (filter _ l) as [|x l']; [by rewrite fmap_cons|].
    simpl. by rewrite <- app_assoc.
  - rewrite decide_False by done. done.
Qed.
Lemma add_rows_NoDup l d : NoDup d.*1 → NoDup (fold_left add_row l d).*1.
Proof. revert d. induction l as [|x l IH]; intros d Hd; [done|]. apply IH. by apply dict_set_NoDup. Qed.

Section groups.
Context (rows : list json) (ks : list group_key) (Hks : mapR row_key rows = Ok ks).
Abbreviation groups := (fold_left add_row (zip ks rows) []).

Lemma zip_rows k : (filter (λ kr : group_key * json, kr.1 = k) (zip ks rows)).*2 = rows_of rows k.
Proof.
  apply mapR_ok in Hks. unfold rows_of. induction Hks as [|r k' rows' ks' Hr _ IH]; [done|].
  cbn [zip_with]. rewrite !filter_cons. cbn [fst]. destruct (decide (k' = k)) as [->|Hne].
  - rewrite decide_True by done. rewrite fmap_cons. cbn [snd]. by rewrite IH.
  - rewrite decide_False by congruence. exact IH.
Qed.
Lemma groups_get k : default [] (dict_get k groups) = rows_of rows k.
Proof. rewrite add_rows_get, <- zip_rows. by destruct (filter _ _). Qed.
Lemma groups_keys k : k ∈ groups.*1 ↔ k ∈ ks.
Proof.
  assert (dict_get k groups = None ↔ k ∉ ks) as Hn.
  { rewrite add_rows_get. destruct (filter _ _) as [|x l] eqn:Hf.
    - split; [|done]. intros _ Hk. apply mapR_ok in Hks. apply list_elem_of_lookup in Hk as [i Hi].
      destruct (Forall2_lookup_r _ _ _ _ _ Hks Hi) as (r & Hr & _).
      assert ((k, r) ∈ filter (λ kr : group_key * json, kr.1 = k) (zip ks rows)) as Hx.
      { apply list_elem_of_filter. split; [done|]. apply list_elem_of_lookup. exists i.
        by rewrite lookup_zip_with, Hi, Hr. }
      rewrite Hf in Hx. by apply not_elem_of_nil in Hx.
    - split; [done|]. intros []. assert (x ∈ filter (λ kr : group_key * json, kr.1 = k) (zip ks rows)) as Hx by (rewrite Hf; left).
      apply list_elem_of_filter in Hx as [<- Hx]. destruct x as [k r]. cbn in *. by apply elem_of_zip_l in Hx. }
  rewrite dict_get_None in Hn. destruct (decide (k ∈ groups.*1)), (decide (k ∈ ks)); tauto.
Qed.
Lemma sorted_groups : merge_sort group_le groups = map (λ k, (k, rows_of rows k)) (merge_sort key_le (remove_dups ks)).
Proof.
  assert (NoDup groups.*1) as Hnd by (apply add_rows_NoDup; constructor).
  assert ((merge_sort group_le groups).*1 = merge_sort key_le (remove_dups ks)) as <-.
  { apply (Sorted_unique key_le).
    - pose proof (Sorted_merge_sort group_le groups) as Hs. revert Hs. generalize (merge_sort group_le groups). clear.
      induction 1 as [|x l _ IH Hx]; constructor; [done|]. destruct Hx; by constructor.
    - apply (Sorted_merge_sort key_le).
    - rewrite merge_sort_Permutation, merge_sort_Permutation. apply NoDup_Permutation; [done|apply NoDup_remove_dups|].
      intros k. by rewrite groups_keys, elem_of_remove_dups. }
  rewrite map_map. symmetry. rewrite <- map_id. apply map_ext_in. intros [k rs] Hin%list_elem_of_In.
  rewrite merge_sort_Permutation in Hin. cbn. f_equal. rewrite <- groups_get.
  by rewrite (elem_dict_get k rs) by done.
Qed.
End groups.

(** ** The two summaries *)
Lemma mapM_py_ext {S A B} (f g : A → py S B) l : (∀ x s, f x s = g x s) → ∀ s, mapM_py f l s = mapM_py g l s.
Proof.
  intros Hf. induction l as [|x l IH]; intros s; [done|]. cbn. unfold mbind, py_bind. rewrite Hf.
  destruct (g x s) as [[y|e] s1]; [|done]. by rewrite IH.
Qed.
Lemma comparisons_ext index f g mode n rs names s : (∀ k, f k = g k) →
  comparisons index f mode n rs names s = comparisons index g mode n rs names s.
Proof.
  intros Hf. revert s. induction names as [|name names IH]; intros s; [done|]. cbn. rewrite Hf.
  destruct (g (name, mode, n)) as [|r base]; [apply IH|]. unfold mbind, py_bind.
  destruct (comparison index mode rs (r :: base) s) as [[c|e] s1]; [|done]. by rewrite IH.
Qed.

Lemma result_row_ext index f g x s : (∀ k, f k = g k) → result_row index f x s = result_row index g x s.
Proof.
  intros Hf. destruct x as [[[v m] n] rs]. unfold result_row, mbind, py_bind, lift.
  repeat (match goal with |- context [match ?x with Ok _ => _ | Err _ => _ end] => lazymatch type of x with result num => destruct x end end; [|done]).
  by rewrite (comparisons_ext index f g).
Qed.

