(* ===== verification/DelayedBenchmark.v ===== *)
(** * The delayed benchmark

    [veil-core/scripts/delayed_benchmark.py]: the trials of Benchmark.v behind a network
    delay in a namespace of its own, with the retransmissions of each trial. *)

From S2P Require Import Prelude.
From S2P Require Import PyText.
From S2P Require Import PyBytes.
From S2P Require Import Json.
From S2P Require Import Numbers.
From S2P Require Import FileSystem.
From S2P Require Import Tools.
From S2P Require Import Machine.
From S2P Require Import Fixtures.
From S2P Require Import Rig.
From S2P Require Import Benchmark.
#[local] Open Scope Z_scope.

(** The arguments: [delayed_bench] has the shared ones. *)
Record delayed_args := {
  delayed_bench : bench_args; cold_reps : Z; delay_ms : num; loss_percent : num }.
Definition delayed_vars (a : delayed_args) : json :=
  let b := delayed_bench a in
  JObj [("out", JStr (a_out b)); ("variants", JStr (a_variants b)); ("modes", JStr (a_modes b));
        ("connections", JStr (a_connections b)); ("reps", JNum (a_reps b)); ("cold_reps", JNum (cold_reps a));
        ("gib", json_of (a_gib b)); ("rounds", JNum (a_rounds b)); ("delay_ms", json_of (delay_ms a));
        ("loss_percent", json_of (loss_percent a))].
(** [f"{x}"] of a number *)
Definition num_text (x : num) : string := match x with Int z => str z | Float f => float_repr f end.

Section delayed.
Context `{Os} (ROOT : path) (ENV : env) (environ : env) (sha256 : string → string).

(** ** [configure] *)
Definition tc (args : list string) : py world () := ask (Run true (plain (["sudo"; "-n"; "tc"] ++ args))).

(** The namespace of this process is not the one of the first process, and is marked. *)
Definition isolated : py world bool :=
  if bool_decide (dict_get "VEIL_ISOLATED_NETNS" environ = Some "1") then
    own ← ask (ReadLink ["proc"; "self"; "ns"; "net"]);
    first ← ask (CheckOutput (plain ["sudo"; "-n"; "readlink"; "/proc/1/ns/net"]));
    mret (negb (String.eqb own (strip first)))
  else mret false.

Definition netem (a : delayed_args) (verb : string) (loss : list string) : list string :=
  ["qdisc"; verb; "dev"; "lo"; "parent"; "1:3"; "handle"; "30:"; "netem"; "delay";
   num_text (delay_ms a) +:+ "ms"] ++ loss ++ ["limit"; "10000"].
Definition port_filter (sp : Z) (direction : string) : list string :=
  ["filter"; "add"; "dev"; "lo"; "protocol"; "ip"; "parent"; "1:"; "prio"; "1"; "u32"; "match"; "ip";
   direction; str sp; "0xffff"; "flowid"; "1:3"].
Definition configure (a : delayed_args) (f : credentials) (variant : string) (sp cp cover : Z) :
    py world (program * program) :=
  own ← isolated;
  lift (raise_if (negb own) (RuntimeError "requires a separate network namespace"));;
  ask (Run false (plain ["sudo"; "-n"; "tc"; "qdisc"; "del"; "dev"; "lo"; "root"]));;
  tc ["qdisc"; "add"; "dev"; "lo"; "root"; "handle"; "1:"; "prio"];;
  tc (netem a "add" []);;
  when (negb (num_eqb (loss_percent a) (Int 0)))
    (tc (netem a "change" ["loss"; "random"; num_text (loss_percent a) +:+ "%"]));;
  for_each (λ direction, tc (port_filter sp direction)) ["sport"; "dport"];;
  configurations ROOT f variant sp cp cover.

(** ** [retransmissions] *)
Definition tcp_error : exn := RuntimeError "missing TCP counters".
Fixpoint find_tcp (lines : list string) : result Z :=
  match lines with
  | [] => Err tcp_error
  | l :: rest =>
      if startswith l "Tcp:" then
        next ← from_option_or IndexError (head rest);
        n ← dict_index id "RetransSegs" (dict_update (zip (tail (words l)) (tail (words next))) []);
        py_int n
      else find_tcp rest
  end.
Definition retransmissions : py world Z :=
  text ← ask (ReadText ["proc"; "net"; "snmp"]); lift (find_tcp (splitlines text)).

(** ** The main program *)
Definition job_group (a : delayed_args) (vm : string * string) : result (list job) :=
  let '(v, mode) := vm in
  let cold := String.eqb mode "C" in
  ns ← (if cold then Ok [1] else mapR py_int (split "," (a_connections (delayed_bench a))) : result (list Z));
  Ok (n ← ns; _ ← seqZ 0 (if cold then cold_reps a else a_reps (delayed_bench a)); [(v, mode, n)]).
Definition delayed_jobs (a : delayed_args) : result (list job) :=
  let b := delayed_bench a in
  (λ l : list (list job), mjoin l) <$>
  mapR (job_group a) (list_prod (split "," (a_variants b)) (split "," (a_modes b))).
Definition valid_delay (a : delayed_args) : bool :=
  num_leb (Int 0) (delay_ms a) && num_leb (Int 0) (loss_percent a) && num_leb (loss_percent a) (Int 100).

(** One job: the trial between two readings of the retransmissions. *)
Definition delayed_trial (a : delayed_args) (f : credentials) (i : nat) (j : job) : py world json :=
  let '(variant, mode, n) := j in
  let b := delayed_bench a in
  before ← retransmissions;
  size ← lift (num_mul (a_gib b) gib ≫= num_trunc);
  row ← trial ROOT ENV (configure a) f variant mode n size (if String.eqb mode "C" then 1 else a_rounds b) i;
  after ← retransmissions;
  row ← lift (jset "tcp_retransmissions_with_warmup" (JNum (after - before)) row);
  text ← ask (CheckOutput (plain ["sudo"; "-n"; "tc"; "-s"; "-j"; "qdisc"; "show"; "dev"; "lo"]));
  qdisc ← lift (loads text);
  lift (jset "qdisc" qdisc row).

Context (shuffle : list job → list job).
Definition delayed_main (a : delayed_args) : py world (list json) :=
  lift (raise_if (negb (valid_delay a)) (SystemExit 2));;
  let folder := join_path ROOT (a_out (delayed_bench a)) in
  ask (Mkdir folder true true);;
  old ← ask (Exists (folder ++ ["raw.jsonl"]));
  lift (raise_if old (SystemExit 1));;
  f ← fixture ROOT folder false;
  js ← lift (delayed_jobs a);
  info ← metadata ROOT sha256 (delayed_vars a);
  netns ← ask (ReadLink ["proc"; "self"; "ns"; "net"]);
  info ← lift (jupdate [("scope", JStr "isolated netns, proxy TCP port only"); ("netns", JStr netns)] info);
  ask (WriteText (folder ++ ["metadata.json"]) (dumps_indent 2 info +:+ nl));;
  run_jobs (delayed_trial a f) folder 0 [] (shuffle js).
End delayed.

(** ** What a run leaves *)
Section releases.
Context `{Calm} `{!PerfStops H} `{!Metered H} (ROOT : path) (ENV environ : env).

Lemma configure_quiet a f variant sp cp cover : quiet (configure ROOT environ a f variant sp cp cover).
Proof. intros R T F. unfold configure, isolated, tc. solve_within. Qed.
Lemma delayed_trial_releases a f i j : releases (delayed_trial ROOT ENV environ a f i j).
Proof.
  intros w0. destruct j as [[variant mode] n]. unfold delayed_trial, retransmissions.
  pose proof bench_trial_releases. pose proof configure_quiet. solve_within.
Qed.
Lemma delayed_main_releases sha256 shuffle a : releases (delayed_main ROOT ENV environ sha256 shuffle a).
Proof.
  intros w0. unfold delayed_main. cbv zeta. pose proof (metadata_quiet ROOT sha256).
  do 10 (apply within_bind; [solve_within|intros ?]).
  apply run_jobs_releases. intros i j. apply delayed_trial_releases.
Qed.
End releases.
