(* ===== verification/RealityBenchmark.v ===== *)
(** * Cold tunnels and short streams

    [trial] and the main program of [veil-core/scripts/reality_benchmark.py]. *)

From S2P Require Import Prelude.
From S2P Require Import PyText.
From S2P Require Import PyBytes.
From S2P Require Import Json.
From S2P Require Import Numbers.
From S2P Require Import FileSystem.
From S2P Require Import Tools.
From S2P Require Import Machine.
From S2P Require Import Fixtures.
From S2P Require Import Perf.
From S2P Require Import Rig.
From S2P Require Import Benchmark.
#[local] Open Scope Z_scope.

(** The arguments of [trial] that choose a workload. *)
Record setup := {
  mode : string; rounds : Z; optimized : bool; with_capture : bool;
  client_tls : list (string * json); server_tls : list (string * json) }.

Section reality.
Context `{Os} (ROOT : path) (ENV : env).

Definition launch (folder : path) (command : list string) (cores : string) : py rig proc :=
  launch_in ENV folder command cores 1 Inherit None.
Definition launch_load (folder : path) (command : list string) (cores : string) : py rig proc :=
  launch_in ENV folder command cores 1 Pipe (Some Pipe).

(** The overrides of the two configuration files. *)
Definition override (f : credentials) (o : string * list (string * json)) : py rig () :=
  match o.2 with
  | [] => mret ()
  | kvs => on (edit_json (folder f ++ [o.1 +:+ ".json"]) (update_tls kvs))
  end.

Definition handshake_command (f : credentials) (binaries : path) (x : setup) (tap : option Z) (bp : Z) : list string :=
  [posix (binaries ++ [if optimized x then "handshakebench-batch" else "handshakebench-native"]);
   "-config"; posix (folder f ++ ["client.json"]); "-target"; loopback bp; "-rounds"; str (rounds x);
   "-warmup"; match tap with Some _ => "0" | None => "16" end].
Definition stream_command (x : setup) (cp bp : Z) : list string :=
  [posix (benchpeer ROOT); "-socks"; loopback cp; "-target"; loopback bp; "-mode"; mode x;
   "-connections"; "1"; "-rounds"; str (rounds x)].

Definition start_server (f : credentials) (binaries : path) (x : setup) (folder : path)
    (coverp bp sp cp : Z) : py rig (proc * program) :=
  cover ← launch folder (cover_command f coverp) "16";
  on (wait_port coverp cover);;
  backend ← launch folder (backend_command (benchpeer ROOT) bp) "17";
  on (wait_port bp backend);;
  let variant := if optimized x then "veil-opt-reality" else "veil-native-reality" in
  '(sc, cc) ← on (configurations ROOT f variant sp cp coverp);
  for_each (override f) [("client", client_tls x); ("server", server_tls x)];;
  server ← launch folder (program_argv (relocate binaries sc)) "14";
  on (wait_port sp server);;
  mret (server, relocate binaries cc).

(** The capture of the caller, between the client and the server. *)
Definition attach_tap (f : credentials) (x : setup) (sp : Z) : py rig (option Z) :=
  if with_capture x then
    tap ← on (start_tap sp);
    modify (set_tap (Some tap));;
    on (edit_json (folder f ++ ["client.json"]) (set_server tap));;
    mret (Some tap)
  else mret None.

Definition start_client (f : credentials) (binaries : path) (x : setup) (folder : path) (cc : program)
    (tap : option Z) (bp cp : Z) : py rig (proc * proc) :=
  if String.eqb (mode x) "H" then
    load ← launch_load folder (handshake_command f binaries x tap bp) "22";
    mret (load, load)
  else
    client ← launch folder (program_argv cc) "22";
    on (wait_port cp client);;
    load ← launch_load folder (stream_command x cp bp) "18";
    mret (client, load).

(** The counters of one process, added to the row. *)
Definition add_perf (row : json) (name : string) : py rig json :=
  values ← pop_values;
  row ← lift (jset (name +:+ "_perf") (json_values values) row);
  clock ← lift (task_clock values);
  ms ← lift (num_mul clock (Int 1000));
  requests ← lift (jnum "requests" row);
  per_request ← lift (num_div ms requests);
  lift (jset (name +:+ "_cpu_us_per_request") (json_of per_request) row).
Fixpoint add_perfs (row : json) (names : list string) : py rig json :=
  match names with [] => mret row | n :: names => row ← add_perf row n; add_perfs row names end.

Definition run_load (folder : path) (tap : option Z) (server client load : proc) : py rig json :=
  await_ready load;;
  match tap with
  | None =>
      for_each (λ '(name, process), add_counter folder name process;; mret ()) [("server", server); ("client", client)];;
      switch_all "enable"
  | Some _ => mret ()
  end;;
  go load;;
  row ← on (line load 90000);
  switch_all "disable";;
  cs ← gets counters;
  add_perfs row (match cs with [] => [] | _ => ["server"; "client"] end).

Definition finish_load (load : proc) : py rig () :=
  on (ask (CloseInput (p_id load)));;
  on (wait load (Some 5000));;
  code ← on (returncode load);
  lift (raise_if (match code with Some c => negb (c =? 0) | None => false end) (RuntimeError "load failed")).
Definition read_tap (tap : option Z) (row : json) : py rig json :=
  match tap with
  | None => mret row
  | Some tap =>
      on (ask (TapDone tap 5000));;
      on (ask (TapClose tap));;
      wire ← on (ask (TapWire tap));
      lift (jset "capture" (JObj (map (λ '(d, b), (d, JStr (hex b))) wire)) row)
  end.

(** The check of the server's counters: one failure is the probe of [wait_port]. *)
Definition expected_stats (x : setup) (tap : option Z) (s : stats) : bool :=
  (completed s =? rounds x + match tap with Some _ => 0 | None => 16 end) && (rejected s =? 0) && (failed s =? 1).
Definition check_server (x : setup) (folder : path) (tap : option Z) (row : json) : py rig json :=
  log ← on (ask (ReadText (folder ++ ["process-2.log"])));
  stats ← lift (parse_stats log "missing server completion counters");
  row ← lift (jset "server_stats" (stats_json stats) row);
  lift (raise_if (negb (expected_stats x tap stats)) 
    (RuntimeError ("unexpected server counters: " +:+ stats_repr stats)));;
  requests ← lift (jnum "requests" row);
  seconds ← lift (jnum "seconds" row);
  rate ← lift (num_div requests seconds);
  lift (jset "requests_per_second" (json_of rate) row).

Definition body (f : credentials) (binaries : path) (x : setup) (folder : path) : py rig json :=
  coverp ← on port; bp ← on port; sp ← on port; cp ← on port;
  '(server, cc) ← start_server f binaries x folder coverp bp sp cp;
  tap ← attach_tap f x sp;
  '(client, load) ← start_client f binaries x folder cc tap bp cp;
  row ← run_load folder tap server client load;
  finish_load load;;
  row ← read_tap tap row;
  on (stop client);;
  on (stop server);;
  flush_logs;;
  check_server x folder tap row.

Definition close_tap : py rig () :=
  tap ← gets tap; match tap with Some t => on (ask (TapClose t)) | None => mret () end.
Definition finish : py rig () := close_counters;; stop_all;; close_tap;; close_logs.

Definition trial (f : credentials) (binaries : path) (x : setup) (folder : path) : py world json :=
  ask (Mkdir folder true false);;
  with_rig (try_finally (body f binaries x folder) finish).
End reality.

(** ** The main program *)
Record reality_args := {
  ra_before : string; ra_after : string; ra_out : string; ra_modes : string; ra_reps : Z; ra_rounds : Z;
  ra_native : bool; ra_fingerprint : option string; ra_padding : bool }.
Definition reality_vars (a : reality_args) : json :=
  JObj [("before", JStr (ra_before a)); ("after", JStr (ra_after a)); ("out", JStr (ra_out a));
        ("modes", JStr (ra_modes a)); ("reps", JNum (ra_reps a)); ("rounds", JNum (ra_rounds a));
        ("native", JBool (ra_native a));
        ("fingerprint", match ra_fingerprint a with Some x => JStr x | None => JNull end);
        ("record_padding", JBool (ra_padding a))].
Definition padding_override (a : reality_args) : list (string * json) :=
  if ra_padding a then [("record_padding", JBool true)] else [].
Definition client_override (a : reality_args) : list (string * json) :=
  match ra_fingerprint a with Some (String c x) => [("fingerprint", JStr (String c x))] | _ => [] end
  ++ padding_override a.
Definition valid_workload (a : reality_args) : bool :=
  (1 <=? ra_reps a) && (1 <=? ra_rounds a) &&
  forallb (λ m, bool_decide (m ∈ ["H"; "S"])) (split "," (ra_modes a)).

(** A version, a mode, a repetition and the number of its pair. *)
Definition reality_job : Type := string * string * Z * nat.
Section reality_main.
Context `{Os} (ROOT : path) (ENV : env) (sha256 : string → string).
(** The seeded generator: the order of the blocks, and the order of the versions of a pair. *)
Context (shuffle : list (string * Z) → list (string * Z)) (order : nat → list string → list string).

Definition versions (a : reality_args) : list (string * path) :=
  [("before", join_path ROOT (ra_before a)); ("after", join_path ROOT (ra_after a))].
Definition reality_jobs (a : reality_args) : list reality_job :=
  let blocks := shuffle (m ← split "," (ra_modes a); r ← seqZ 0 (ra_reps a); [(m, r)]) in
  mjoin (imap (λ k '(mode, repeat), map (λ v, (v, mode, repeat, k)) (order k (versions a).*1)) blocks).

(** The digests of the compared binaries, by version. *)
Fixpoint hash_patterns (dir : path) (patterns : list string) (d : list (string * json)) :
    py world (list (string * json)) :=
  match patterns with
  | [] => mret d
  | pattern :: patterns =>
      ps ← ask (Glob dir pattern);
      d ← hash_paths sha256 (λ p, ask (IsFile p)) dir ps d;
      hash_patterns dir patterns d
  end.
Definition hash_version (v : string * path) : py world (string * json) :=
  d ← hash_patterns v.2 ["veil-*"; "handshakebench-*"] []; mret (v.1, JObj d).

Definition setup_of (a : reality_args) (version mode : string) : setup :=
  let after := String.eqb version "after" in
  {| mode := mode; rounds := ra_rounds a; optimized := negb (ra_native a); with_capture := false;
     client_tls := if after then client_override a else []; server_tls := if after then padding_override a else [] |}.
Definition reality_run (a : reality_args) (f : credentials) (folder : path) (index : nat) (j : reality_job) : py world () :=
  let '(version, mode, repeat, k) := j in
  binaries ← lift (dict_index id version (versions a));
  row ← trial ROOT ENV f binaries (setup_of a version mode)
          (folder ++ [pad3 index +:+ "-" +:+ version +:+ "-" +:+ mode]);
  row ← lift (jupdate [("version", JStr version); ("repetition", JNum repeat); ("pair", JNum (Z.of_nat k))] row);
  write_to (folder ++ ["raw.jsonl"]) "a" (dumps row +:+ nl).
Fixpoint reality_loop (a : reality_args) (f : credentials) (folder : path) (i : nat) (js : list reality_job) : py world () :=
  match js with [] => mret () | j :: js => reality_run a f folder i j;; reality_loop a f folder (S i) js end.

Definition reality_main (a : reality_args) : py world () :=
  lift (raise_if (negb (valid_workload a)) (SystemExit 2));;
  let folder := join_path ROOT (ra_out a) in
  old ← ask (Exists folder);
  lift (raise_if old (SystemExit 1));;
  f ← fixture ROOT folder false;
  info ← metadata ROOT sha256 (reality_vars a);
  info ← lift (jset "cpu_affinity" (JObj [("server", JNum 14); ("client", JNum 22); ("cover", JNum 16);
                                         ("backend", JNum 17); ("SOCKS_load", JNum 18)]) info);
  hashes ← mapM_py hash_version (versions a);
  info ← lift (jset "comparison_binary_sha256" (JObj hashes) info);
  ask (WriteText (folder ++ ["metadata.json"]) (dumps_indent 2 info +:+ nl));;
  reality_loop a f folder 0 (reality_jobs a).
End reality_main.

Section held.
Context `{Os} (ROOT : path) (ENV : env) (w0 : world).
Abbreviation held := (held w0).

Lemma override_held f o : keeps held (override f o).
Proof. unfold override. solve_within. Qed.
#[local] Hint Resolve override_held : within.
Lemma start_server_held f b x folder coverp bp sp cp :
  keeps held (start_server ROOT ENV f b x folder coverp bp sp cp).
Proof. unfold start_server, launch. solve_within. Qed.
Lemma attach_tap_held f x sp : keeps held (attach_tap f x sp).
Proof. unfold attach_tap. solve_within. Qed.
Lemma start_client_held f b x folder cc t bp cp : keeps held (start_client ROOT ENV f b x folder cc t bp cp).
Proof. unfold start_client, launch, launch_load. solve_within. Qed.
Lemma add_perfs_held row names : keeps held (add_perfs row names).
Proof. revert row. induction names as [|n names IH]; intros row; simpl; [apply within_ret|]. unfold add_perf. solve_within. Qed.
#[local] Hint Resolve start_server_held attach_tap_held start_client_held add_perfs_held : within.
Lemma run_load_held folder t server client load : keeps held (run_load folder t server client load).
Proof. unfold run_load. solve_within. Qed.
Lemma check_server_held x folder t row : keeps held (check_server x folder t row).
Proof. unfold check_server. solve_within. Qed.
#[local] Hint Resolve run_load_held check_server_held : within.
Lemma reality_body_held f b x folder : keeps held (body ROOT ENV f b x folder).
Proof. unfold body, finish_load, read_tap. solve_within. Qed.
End held.

(** Documented behaviour of the caller's capture: closing it does not fail. *)
Class TapCloses `(Os) : Prop := { tap_close_ok : ∀ h t, os h (TapClose t) = Ok () }.

Section finish.
Context `{Calm} `{!PerfStops H} `{!TapCloses H} (w0 : world).

Lemma close_tap_runs s ps hs cs :
  runs (at_rig s (pending w0 ps hs cs)) close_tap (λ _, at_rig s (pending w0 ps hs cs)).
Proof.
  intros s' Hs. unfold close_tap, gets, mbind, py_bind. destruct (Rig.tap s') as [t|]; [|done].
  apply (on_at_rig w0 s (ask (TapClose t)) ps hs cs); [apply ask_quiet| |done].
  intros w. cbn. by rewrite tap_close_ok.
Qed.

Lemma reality_finish_runs s :
  runs (at_rig s (pending w0 (procs s) (logs s) (counters s))) finish (λ _, at_rig s (pending w0 [] [] [])).
Proof.
  unfold finish. eapply triple_bind; [apply close_counters_runs|intros []].
  eapply triple_bind; [apply stop_all_runs|intros []].
  eapply triple_bind; [apply close_tap_runs|intros []]. apply close_logs_runs.
Qed.

End finish.

Section released.
Context `{Calm} `{!PerfStops H} `{!TapCloses H}.
Lemma reality_releases ROOT ENV f b x folder : releases (trial ROOT ENV f b x folder).
Proof.
  intros w0. unfold trial. apply within_bind; [solve_within|intros _].
  apply with_rig_releases; [intros w; apply reality_body_held|]. intros w. apply gives_up_counters, reality_finish_runs.
Qed.
Lemma reality_loop_releases ROOT ENV a f folder i js : releases (reality_loop ROOT ENV a f folder i js).
Proof.
  intros w0. revert i. pose proof reality_releases. pose proof write_to_quiet.
  induction js as [|j js IH]; intros i; cbn [reality_loop]; [solve_within|].
  unfold reality_run. solve_within.
Qed.
Lemma hash_version_quiet sha256 v : quiet (hash_version sha256 v).
Proof.
  intros R T F. unfold hash_version. apply within_bind; [|solve_within].
  assert (∀ dir ps d, quiet (hash_patterns sha256 dir ps d)) as Hp; [|apply Hp].
  clear. intros dir ps d R T F. revert d. pose proof hash_paths_quiet.
  induction ps as [|p ps IH]; intros d; cbn [hash_patterns]; solve_within.
Qed.
Lemma reality_main_releases ROOT ENV sha256 shuffle order a : releases (reality_main ROOT ENV sha256 shuffle order a).
Proof.
  intros w0. unfold reality_main. cbv zeta. pose proof (metadata_quiet ROOT sha256).
  pose proof hash_version_quiet. pose proof reality_loop_releases. solve_within.
Qed.
End released.
