(* ===== verification/ProbeRun.v ===== *)
(** * The differential probe

    [tls_fetch], [sample], [run_profile] and the main program of
    [veil-core/scripts/probe.py]. *)

From S2P Require Import Prelude.
From S2P Require Import PyText.
From S2P Require Import PyBytes.
From S2P Require Import TlsRecord.
From S2P Require Import ClientHello.
From S2P Require Import Json.
From S2P Require Import Numbers.
From S2P Require Import FileSystem.
From S2P Require Import Tools.
From S2P Require Import Shapes.
From S2P Require Import Machine.
From S2P Require Import Sockets.
From S2P Require Import Fixtures.
From S2P Require Import Rig.
From S2P Require Import SampleMachine.
From S2P Require Import Benchmark.
From S2P Require Import RealityBenchmark.
From Stdlib Require Import Strings.Byte.
#[local] Open Scope Z_scope.

(** ** [bytes.decode(errors="replace")]

    [seen] is the part of a sequence read so far and [need] the ranges of its other bytes; a
    broken sequence becomes one U+FFFD, and its last byte is read again. *)
Definition byte_text (b : Byte.byte) : string := String (Ascii.ascii_of_byte b) "".
Definition bytes_text (l : bytes) : string := foldr (λ b s, byte_text b +:+ s) "" l.
Definition replacement : string := bytes_text [xef; xbf; xbd].
Definition tail_range : Z * Z := (128, 191).
Definition sequence (n : Z) : option (list (Z * Z)) :=
  if n <? 128 then Some []
  else if (194 <=? n) && (n <=? 223) then Some [tail_range]
  else if n =? 224 then Some [(160, 191); tail_range]
  else if n =? 237 then Some [(128, 159); tail_range]
  else if (225 <=? n) && (n <=? 239) then Some [tail_range; tail_range]
  else if n =? 240 then Some [(144, 191); tail_range; tail_range]
  else if (241 <=? n) && (n <=? 243) then Some [tail_range; tail_range; tail_range]
  else if n =? 244 then Some [(128, 143); tail_range; tail_range]
  else None.
Definition decode_start (b : Byte.byte) (go : string → list (Z * Z) → string) : string :=
  match sequence (byte_z b) with
  | None => replacement +:+ go "" []
  | Some [] => byte_text b +:+ go "" []
  | Some need => go (byte_text b) need
  end.
Fixpoint decode_from (seen : string) (need : list (Z * Z)) (l : bytes) : string :=
  match l with
  | [] => if decide (need = []) then "" else replacement
  | b :: l =>
      match need with
      | [] => decode_start b (λ s n, decode_from s n l)
      | (lo, hi) :: need =>
          if (lo <=? byte_z b) && (byte_z b <=? hi) then
            match need with
            | [] => seen +:+ byte_text b +:+ decode_from "" [] l
            | _ => decode_from (seen +:+ byte_text b) need l
            end
          else replacement +:+ decode_start b (λ s n, decode_from s n l)
      end
  end.
Definition decode_replace (l : bytes) : string := decode_from "" [] l.
Example decode_1 :
  decode_replace [x48; xc3; xa9; xe2; x82; x41; xff; xf0; x9f] =
  "H" +:+ bytes_text [xc3; xa9] +:+ replacement +:+ "A" +:+ replacement +:+ replacement.
Proof. reflexivity. Qed.

(** [data.split(b"\r\n")[0]] *)
Fixpoint first_line (l : bytes) : bytes :=
  match l with
  | x0d :: x0a :: _ => []
  | b :: l => b :: first_line l
  | [] => []
  end.

(** [type(e).__name__] and [str(e)] of the errors [delayed_http] reports. *)
Definition os_error_name (e : exn) : string :=
  match e with
  | FileNotFoundError _ => "FileNotFoundError"
  | FileExistsError _ => "FileExistsError"
  | TimeoutError _ => "TimeoutError"
  | ConnectionError _ => "ConnectionError"
  | ConnectionResetError => "ConnectionResetError"
  | ProcessLookupError => "ProcessLookupError"
  | SSLError name _ => name
  | _ => "OSError"
  end.
Definition os_error_text (e : exn) : string :=
  match e with
  | OSError m | FileNotFoundError m | FileExistsError m | TimeoutError m | ConnectionError m | SSLError _ m => m
  | ConnectionResetError => "[Errno 104] Connection reset by peer"
  | ProcessLookupError => "[Errno 3] No such process"
  | _ => ""
  end.

(** The result of [sample]. *)
Record observation := { o_bytes : Z; o_records : list (Z * Z); o_outcome : string; o_seconds : num }.
Definition observation_json (o : observation) : json :=
  JObj [("bytes", JNum (o_bytes o));
    ("records", JArr (map (λ '(t, n), JObj [("type", JNum t); ("length", JNum n)]) (o_records o)));
    ("outcome", JStr (o_outcome o)); ("seconds", json_of (o_seconds o))].

(** The two readers stop at 65536 bytes; every turn receives at least a byte. *)
Definition read_limit : Z := 65536.

Section probe.
Context `{Os} (ROOT : path) (ENV : env) (sha256 : bytes → string).

(** ** [tls_fetch] *)
Fixpoint drain (fuel : nat) (c : nat) (data : bytes) : py world bytes :=
  if read_limit <=? zlen data then mret data else
  match fuel with
  | O => raise (RuntimeError "unreachable")
  | S fuel =>
      part ← recv c 4096;
      match part with [] => mret data | _ => drain fuel c (data ++ part) end
  end.
Definition http_request : bytes := encode
  ("GET / HTTP/1.1" +:+ crlf +:+ "Host: cover.test" +:+ crlf +:+ "Connection: close" +:+ crlf +:+ crlf).
(** The connection and the TLS stream on it are one socket: the inner [with] closes both. *)
Definition tls_exchange (cafile : string) (pause : Z) (c : nat) : py world json :=
  on_fd c (WrapTls c cafile "cover.test");;
  der ← on_fd c (PeerCertificate c);
  '(cipher, version, alpn) ← on_fd c (TlsSession c);
  ask (Sleep pause);;
  send_all c http_request;;
  data ← drain (Z.to_nat read_limit) c [];
  try_except (on_fd c (Unwrap c);; close_socket c) (catch_if is_os_error (mret ()));;
  mret (JObj [("certificate_sha256", JStr (sha256 der)); ("version", JStr version); ("cipher", JStr cipher);
    ("alpn", match alpn with Some a => JStr a | None => JNull end);
    ("status", JStr (decode_replace (first_line data)))]).
Definition tls_fetch (port : Z) (cafile : string) (pause : Z) : py world json :=
  c ← dial "127.0.0.1" port 3000; with_socket c (tls_exchange cafile pause c).

(** ** [sample] *)
(** [c.recv]: a part, or the outcome that ends the loop. *)
Definition recv_or (c : nat) (size : Z) : py world (bytes + string) :=
  try_except (part ← recv c size; mret (inl part))
    (λ e, match e with
          | TimeoutError _ => Some (mret (inr "timeout"))
          | ConnectionResetError => Some (mret (inr "reset"))
          | _ => None
          end).
(** The outcome is ["timeout"] until something else ends the loop. *)
Fixpoint collect (fuel : nat) (c : nat) (data : bytes) : py world (bytes * string) :=
  if read_limit <=? zlen data then mret (data, "timeout") else
  match fuel with
  | O => raise (RuntimeError "unreachable")
  | S fuel =>
      r ← recv_or c (read_limit - zlen data);
      match r with
      | inr outcome => mret (data, outcome)
      | inl [] => mret (data, "eof")
      | inl part => collect fuel c (data ++ part)
      end
  end.
Definition exchange (payload : bytes) (timeout : Z) (c : nat) : py world (bytes * string) :=
  on_fd c (SetTimeout c timeout);;
  when (negb (bool_decide (payload = []))) (send_all c payload);;
  collect (Z.to_nat read_limit) c [].
Definition sample (port : Z) (payload : bytes) : py world observation :=
  started ← ask Now;
  '(data, outcome) ← (c ← dial "127.0.0.1" port 2000; with_socket c (exchange payload 1200 c));
  ended ← ask Now;
  elapsed ← lift (num_sub (Float ended) (Float started));
  seconds ← lift (num_round 4 elapsed);
  mret {| o_bytes := zlen data; o_records := sample_records data; o_outcome := outcome; o_seconds := seconds |}.

(** ** [run_profile] *)
Definition launch_plain (dir : path) (command : list string) : py rig proc :=
  launch_in ENV dir command "" 1 Inherit None.

Definition probe_cover (f : credentials) (profile : string) (coverp : Z) : list string :=
  if String.eqb profile "go-tls" then
    [posix (sub ROOT ".build/probepeer"); "-role"; "cover"; "-listen"; loopback coverp; "-cert"; cert f;
     "-key"; key f; "-timeout"; "2s"]
  else
    ["openssl"; "s_server"; "-accept"; loopback coverp; "-cert"; cert f; "-key"; key f; "-tls1_3"; "-ciphersuites";
     if String.eqb profile "openssl-rsa" then "TLS_AES_256_GCM_SHA384" else "TLS_AES_128_GCM_SHA256";
     "-groups"; "X25519"; "-www"; "-alpn"; "http/1.1"].
Definition upstream_command (dir : path) (upstream_port : Z) : list string :=
  [posix (sub ROOT ".build/probepeer"); "-role"; "upstream-reality"; "-listen"; loopback upstream_port;
   "-config"; posix (dir ++ ["server.json"])].
Definition probe_edit (fingerprint : option string) (padding : bool) (name : string) (cfg : json) : result json :=
  cfg ← match fingerprint with
        | Some (String c x) =>
            if String.eqb name "client" then set_tls "fingerprint" (JStr (String c x)) cfg else Ok cfg
        | _ => Ok cfg
        end;
  if padding then set_tls "record_padding" (JBool true) cfg else Ok cfg.

(** A reference and its port *)
Definition start_cover (f : credentials) (profile : string) (dir : path) (coverp : Z) : py rig proc :=
  cover ← launch_plain dir (probe_cover f profile coverp); on (wait_port coverp cover);; mret cover.
Definition start_upstream (dir : path) (upstream_port : Z) : py rig proc :=
  upstream ← launch_plain dir (upstream_command dir upstream_port); on (wait_port upstream_port upstream);; mret upstream.
(** [reset_reference]: [cover] and [upstream] of the closure are replaced. *)
Definition reset_reference (f : credentials) (profile : string) (dir : path) (coverp upstream_port : Z)
    (refs : proc * proc) : py rig (proc * proc) :=
  on (stop refs.2);;
  on (stop refs.1);;
  cover ← start_cover f profile dir coverp;
  upstream ← start_upstream dir upstream_port;
  mret (cover, upstream).

(** The endpoints by name, in the order of the dictionary. *)
Definition endpoints_of (coverp upstream_port sp : Z) : list (string * Z) :=
  [("direct", coverp); ("upstream_reality", upstream_port); ("via_veil", sp)].
Definition fetch_normal (cafile : string) (e : string * Z) : py world (string * json) :=
  v ← tls_fetch e.2 cafile 0; mret (e.1, v).
Definition fetch_delayed (cafile : string) (e : string * Z) : py world (string * json) :=
  v ← try_except (tls_fetch e.2 cafile 1300)
        (λ x, if is_os_error x then
                Some (mret (JObj [("error", JStr (os_error_name x)); ("message", JStr (os_error_text x))]))
              else None);
  mret (e.1, v).
(** [len({json.dumps(v, sort_keys=True) for v in values}) == 1] *)
Definition all_equal (vs : list json) : bool := bool_decide (length (remove_dups (map dumps_sorted vs)) = 1%nat).

Definition load_argv (cp bp : Z) : list string :=
  [posix (benchpeer ROOT); "-socks"; loopback cp; "-target"; loopback bp; "-mode"; "E"; "-rounds"; "32"; "-connections"; "1"].
(** The valid session: the client through the capture, a backend and the load. *)
Definition valid_session (f : credentials) (dir : path) (cc : program) (tap cp bp : Z) : py rig json :=
  on (edit_json (dir ++ ["client.json"]) (set_server tap));;
  client ← launch_plain dir (program_argv cc);
  on (wait_port cp client);;
  backend ← launch_plain dir (backend_command (benchpeer ROOT) bp);
  on (wait_port bp backend);;
  '(code, output, error) ← on (ask (RunCaptured (load_argv cp bp) (Some ("go" +:+ nl)) 10000));
  on (stop client);;
  mret (JObj [("returncode", JNum code); ("output", JStr output); ("error", JStr error)]).

Definition histogram_json (h : histogram_info) : json :=
  JObj [("record_histogram", JObj (map (λ '(k, n), (k, JNum n)) (record_histogram h)));
    ("first_records", JArr (map (λ '(t, n), JArr [JNum t; JNum n]) (first_records h)));
    ("parsed_bytes", JNum (Z.of_nat (parsed_bytes h))); ("captured_bytes", JNum (Z.of_nat (captured_bytes h)))].
Definition event_json (e : tap_event) : json :=
  JObj [("direction", JStr (direction_name (e_direction e))); ("bytes", JNum (e_bytes e));
        ("time", JReal (float_repr (e_time e)))].

Definition invalid_header : bytes := encode "not a TLS ClientHello".
Definition probe_inputs (hello changed : bytes) : list (string * bytes) :=
  [("empty", []); ("truncated_record", [x16; x03; x01; x00]); ("invalid_header", invalid_header);
   ("captured_reality_hello", hello); ("modified_reality_auth", changed)].

(** [repeats] observations of an endpoint; the references are reset after each of the upstream. *)
Fixpoint observe (reset : proc * proc → py rig (proc * proc)) (e : string * Z) (data : bytes) (repeats : nat)
    (refs : proc * proc) : py rig (list json * (proc * proc)) :=
  match repeats with
  | O => mret ([], refs)
  | S repeats =>
      o ← on (sample e.2 data);
      refs ← (if String.eqb e.1 "upstream_reality" then reset refs else mret refs);
      '(rest, refs) ← observe reset e data repeats refs;
      mret (observation_json o :: rest, refs)
  end.
Fixpoint observe_endpoints (reset : proc * proc → py rig (proc * proc)) (data : bytes) (repeats : nat)
    (es : list (string * Z)) (refs : proc * proc) : py rig (list (string * json) * (proc * proc)) :=
  match es with
  | [] => mret ([], refs)
  | e :: es =>
      '(os, refs) ← observe reset e data repeats refs;
      '(rest, refs) ← observe_endpoints reset data repeats es refs;
      mret ((e.1, JArr os) :: rest, refs)
  end.
Fixpoint differential (reset : proc * proc → py rig (proc * proc)) (repeats : nat) (es : list (string * Z))
    (inputs : list (string * bytes)) (refs : proc * proc) : py rig (list (string * json) * (proc * proc)) :=
  match inputs with
  | [] => mret ([], refs)
  | i :: inputs =>
      '(row, refs) ← observe_endpoints reset i.2 repeats es refs;
      '(rest, refs) ← differential reset repeats es inputs refs;
      mret ((i.1, JObj row) :: rest, refs)
  end.
Definition unavailable (hello : bytes) (e : string * Z) : py world (string * json) :=
  o ← sample e.2 hello; mret (e.1, observation_json o).

(** The arguments of [run_profile]. *)
Record probe_setup := { q_profile : string; q_repeats : Z; q_fingerprint : option string; q_padding : bool }.
Definition probe_scope : string := "owned loopback only; differential observations, not anti-detection certification".

(** The references, the server and what a normal client sees of each. *)
Definition probe_start (f : credentials) (x : probe_setup) (dir : path) (coverp sp cp upstream_port : Z) :
    py rig (proc * proc * program) :=
  cover ← start_cover f (q_profile x) dir coverp;
  '(sc, cc) ← on (configurations ROOT f "veil-opt-reality" sp cp coverp);
  for_each (λ name, on (edit_json (dir ++ [name +:+ ".json"]) (probe_edit (q_fingerprint x) (q_padding x) name)))
    ["client"; "server"];;
  on (edit_json (dir ++ ["server.json"]) (jset "handshake_seconds" (JNum 1)));;
  server ← launch_plain dir (program_argv sc);
  on (wait_port sp server);;
  upstream ← start_upstream dir upstream_port;
  mret (cover, upstream, cc).
(** The capture after the session, and what is kept of it. *)
Definition read_capture (tap : Z) : py rig tap_state :=
  on (ask (TapDone tap 4000));;
  on (ask (TapClose tap));;
  pieces ← on (ask (TapPieces tap));
  mret (run_pump pump pieces).

Definition probe_body (f : credentials) (x : probe_setup) (dir : path) : py rig json :=
  coverp ← on port; sp ← on port; cp ← on port; bp ← on port; upstream_port ← on port;
  '(cover, upstream, cc) ← probe_start f x dir coverp sp cp upstream_port;
  let endpoints := endpoints_of coverp upstream_port sp in
  normal ← on (mapM_py (fetch_normal (cert f)) endpoints);
  delayed ← on (mapM_py (fetch_delayed (cert f)) endpoints);
  tap ← on (start_tap sp);
  modify (set_tap (Some tap));;
  session ← valid_session f dir cc tap cp bp;
  st ← read_capture tap;
  hello ← lift (captured_hello (wire st Up));
  changed ← lift (modified_auth hello);
  '(table, refs) ← differential (reset_reference f (q_profile x) dir coverp upstream_port) (Z.to_nat (q_repeats x))
                     endpoints (probe_inputs hello changed) (cover, upstream);
  on (stop refs.1);;
  without_cover ← on (mapM_py (unavailable hello) (tail endpoints));
  let result := JObj
    [("scope", JStr probe_scope); ("profile", JStr (q_profile x));
     ("normal_tls", JObj (normal ++ [("equal", JBool (all_equal normal.*2))])); ("delayed_http", JObj delayed);
     ("valid_session", session);
     ("record_shapes", JObj (map (λ d, (direction_name d, histogram_json (histogram (wire st d)))) [Up; Down]));
     ("read_chunks", JArr (map event_json (events st))); ("differential", JObj table);
     ("cover_unavailable", JObj without_cover)] in
  on (ask (WriteText (dir ++ ["result.json"]) (dumps_indent 2 result +:+ nl)));;
  mret result.
(** The capture first, then the processes and the logs. *)
Definition probe_finish : py rig () := close_tap;; stop_all;; close_logs.
Definition run_profile (x : probe_setup) (dir : path) : py world json :=
  f ← fixture ROOT dir (String.eqb (q_profile x) "openssl-rsa");
  with_rig (try_finally (probe_body f x dir) probe_finish).

(** ** The main program *)
Record probe_args := {
  p_out : string; p_profiles : string; p_reps : Z; p_fingerprint : option string; p_padding : bool }.
Definition known_profiles : list string := ["openssl-ecdsa"; "openssl-rsa"; "go-tls"].
Definition setup_for (a : probe_args) (profile : string) : probe_setup :=
  {| q_profile := profile; q_repeats := p_reps a; q_fingerprint := p_fingerprint a; q_padding := p_padding a |}.
Definition probe_one (a : probe_args) (out : path) (profile : string) : py world (string * json) :=
  lift (raise_if (negb (bool_decide (profile ∈ known_profiles))) (SystemExit 2));;
  r ← run_profile (setup_for a profile) (sub out profile);
  mret (profile, r).
Definition probe_main (a : probe_args) : py world () :=
  let out := join_path ROOT (p_out a) in
  old ← ask (Exists out);
  lift (raise_if old (SystemExit 1));;
  results ← mapM_py (probe_one a out) (split "," (p_profiles a));
  ask (WriteText (out ++ ["result.json"]) (dumps_indent 2 (JObj (dict_update results [])) +:+ nl)).
End probe.

(** ** What a run leaves *)
Section held.
Context `{Os} (ROOT : path) (ENV : env) (sha256 : bytes → string) (w0 : world).
Abbreviation held := (held w0).

Lemma drain_quiet fuel c data : quiet (drain fuel c data).
Proof. intros R T F. revert data. induction fuel as [|fuel IH]; intros data; simpl; solve_within. Qed.
Lemma recv_or_quiet c n : quiet (recv_or c n).
Proof.
  intros R T F. unfold recv_or. apply within_try_any; [solve_within|].
  intros e k. destruct e; try done; intros [= <-]; apply within_ret.
Qed.
#[local] Hint Resolve drain_quiet recv_or_quiet : within.
Lemma collect_quiet fuel c data : quiet (collect fuel c data).
Proof. intros R T F. revert data. induction fuel as [|fuel IH]; intros data; simpl; solve_within. Qed.
#[local] Hint Resolve collect_quiet : within.
Lemma exchange_quiet payload t c : quiet (exchange payload t c).
Proof. intros R T F. unfold exchange. solve_within. Qed.
Lemma sample_quiet p payload : quiet (sample p payload).
Proof.
  intros R T F. unfold sample. apply within_bind; [solve_within|intros started].
  apply within_bind; [|solve_within].
  apply (socket_quiet (dial "127.0.0.1" p 2000)); [apply dial_opens|]. intros h. apply exchange_quiet.
Qed.

Lemma tls_exchange_owned R T F cafile pause h :
  F !! h = None → keeps (owned R T F h) (tls_exchange sha256 cafile pause h).
Proof.
  intros Hh. unfold tls_exchange.
  apply within_bind; [apply quiet_owned, on_fd_quiet|intros []].
  apply within_bind; [apply quiet_owned, on_fd_quiet|intros der].
  apply within_bind; [apply quiet_owned, on_fd_quiet|intros [[cipher version] alpn]].
  apply within_bind; [apply quiet_owned, ask_quiet|intros []].
  apply within_bind; [apply quiet_owned, send_all_quiet|intros []].
  apply within_bind; [apply quiet_owned, drain_quiet|intros data].
  apply within_bind; [|intros []; apply within_ret].
  apply within_try_any; [|intros e k; apply catch_if_keeps, within_ret].
  apply within_bind; [apply quiet_owned, on_fd_quiet|intros []]. by apply close_socket_keeps.
Qed.
Lemma tls_fetch_quiet p cafile pause : quiet (tls_fetch sha256 p cafile pause).
Proof. apply socket_owned_quiet; [apply dial_opens|]. intros. by apply tls_exchange_owned. Qed.
#[local] Hint Resolve sample_quiet tls_fetch_quiet : within.

Lemma fetch_normal_quiet cafile e : quiet (fetch_normal sha256 cafile e).
Proof. intros R T F. unfold fetch_normal. solve_within. Qed.
Lemma fetch_delayed_quiet cafile e : quiet (fetch_delayed sha256 cafile e).
Proof.
  intros R T F. unfold fetch_delayed. apply within_bind; [|solve_within].
  apply within_try_any; [solve_within|]. intros x k. destruct (is_os_error x); [|done]. intros [= <-]. apply within_ret.
Qed.
Lemma unavailable_quiet hello e : quiet (unavailable hello e).
Proof. intros R T F. unfold unavailable. solve_within. Qed.
Lemma start_cover_held f profile dir p : keeps held (start_cover ROOT ENV f profile dir p).
Proof. unfold start_cover, launch_plain. solve_within. Qed.
Lemma start_upstream_held dir p : keeps held (start_upstream ROOT ENV dir p).
Proof. unfold start_upstream, launch_plain. solve_within. Qed.
#[local] Hint Resolve fetch_normal_quiet fetch_delayed_quiet unavailable_quiet start_cover_held start_upstream_held : within.
Lemma reset_reference_held f profile dir p q refs : keeps held (reset_reference ROOT ENV f profile dir p q refs).
Proof. unfold reset_reference. solve_within. Qed.

(** The loops, for a reset that keeps what it holds in the lists. *)
Section loops.
Context (reset : proc * proc → py rig (proc * proc)) (Hreset : ∀ refs, keeps held (reset refs)).
Lemma observe_held e data n refs : keeps held (observe reset e data n refs).
Proof. revert refs. induction n as [|n IH]; intros refs; simpl; solve_within. Qed.
Lemma observe_endpoints_held data n es refs : keeps held (observe_endpoints reset data n es refs).
Proof. revert refs. pose proof observe_held. induction es as [|e es IH]; intros refs; simpl; solve_within. Qed.
Lemma differential_held n es inputs refs : keeps held (differential reset n es inputs refs).
Proof. revert refs. pose proof observe_endpoints_held. induction inputs as [|i inputs IH]; intros refs; simpl; solve_within. Qed.
End loops.

Lemma probe_start_held f x dir coverp sp cp up : keeps held (probe_start ROOT ENV f x dir coverp sp cp up).
Proof. unfold probe_start, launch_plain. solve_within. Qed.
Lemma valid_session_held f dir cc tap cp bp : keeps held (valid_session ROOT ENV f dir cc tap cp bp).
Proof. unfold valid_session, launch_plain. solve_within. Qed.
Lemma read_capture_held tap : keeps held (read_capture tap).
Proof. unfold read_capture. solve_within. Qed.
#[local] Hint Resolve probe_start_held valid_session_held read_capture_held differential_held reset_reference_held : within.
Lemma probe_body_held f x dir : keeps held (probe_body ROOT ENV sha256 f x dir).
Proof.
  pose proof (λ c l, mapM_quiet _ l (fetch_normal_quiet c)). pose proof (λ c l, mapM_quiet _ l (fetch_delayed_quiet c)).
  pose proof (λ h l, mapM_quiet _ l (unavailable_quiet h)). unfold probe_body. solve_within.
Qed.
End held.

Section finish.
Context `{Calm} `{!PerfStops H} `{!TapCloses H}.

Lemma probe_finish_runs w0 s :
  runs (at_rig s (pending w0 (procs s) (logs s) (counters s))) probe_finish
    (λ _, at_rig s (pending w0 [] [] (counters s))).
Proof.
  unfold probe_finish. eapply triple_bind; [apply close_tap_runs|intros []].
  eapply triple_bind; [apply stop_all_runs|intros []]. apply close_logs_runs.
Qed.
Lemma probe_releases ROOT ENV sha256 x dir : releases (run_profile ROOT ENV sha256 x dir).
Proof.
  intros w0. unfold run_profile. apply within_bind; [solve_within|intros f].
  apply with_rig_releases; [intros w; apply probe_body_held|]. intros w. apply (gives_up_any _ _ counters), probe_finish_runs.
Qed.
Lemma probe_main_releases ROOT ENV sha256 a : releases (probe_main ROOT ENV sha256 a).
Proof. intros w0. unfold probe_main, probe_one. cbv zeta. pose proof probe_releases. solve_within. Qed.
End finish.

(** ** What [sample] observes *)

(** The outcome for the end of a stream. *)
Definition outcome_of (fin : result bytes) : result string :=
  match fin with
  | Ok _ => Ok "eof"
  | Err (TimeoutError _) => Ok "timeout"
  | Err ConnectionResetError => Ok "reset"
  | Err e => Err e
  end.

Section observes.
Context `{H : Os} {h : nat} {data : bytes} {fin : result bytes} `{!@Ends H h data fin}.
Context (Hfin : ∀ b, fin = Ok b → b = []).

Abbreviation still := (still (h := h) (data := data)).

Lemma recv_or_run n w : is_Some (fds w !! h) → 0 < n →
  ∃ k w', heard h (take k (still w)) w w' ∧ (k ≤ Z.to_nat n)%nat ∧ (still w ≠ [] → 0 < k)%nat ∧
    recv_or h n w = (if decide (still w = []) then
                       match fin with Ok _ => Ok (inl []) | Err _ => inr <$> outcome_of fin end
                     else Ok (inl (take k (still w))), w').
Proof.
  intros Hf Hn. destruct (recv_ends n w Hf Hn) as (k & w' & Hr & Hh & Hk & He).
  unfold recv_or, try_except, mbind, py_bind. rewrite Hr.
  destruct (decide (still w = [])) as [Hz | Hz].
  - exists O, w'. cbn [take]. destruct fin as [b|e]; [rewrite (Hfin b eq_refl) in *|].
    + by split_and!; [|lia|..].
    + split_and!; [done|lia|done|]. by destruct e.
  - exists k, w'. split_and!; try done. intros _. destruct k; [naive_solver|lia].
Qed.

(** The buffer as a number. *)
Lemma limit_tests (limit : nat) : limit = Z.to_nat read_limit → ∀ l : bytes,
  (read_limit <=? zlen l) = bool_decide (limit ≤ length l)%nat ∧
  Z.to_nat (read_limit - zlen l) = (limit - length l)%nat ∧
  ((length l < limit)%nat → 0 < read_limit - zlen l).
Proof.
  assert (0 <= read_limit) as Hpos by done. intros -> l. unfold zlen. split; [|split; [lia|lia]].
  destruct (Z.leb_spec read_limit (Z.of_nat (length l))).
  - symmetry. apply bool_decide_eq_true_2. lia.
  - symmetry. apply bool_decide_eq_false_2. lia.
Qed.

Lemma collect_run limit fuel got w : limit = Z.to_nat read_limit →
  is_Some (fds w !! h) → (limit ≤ fuel + length got)%nat → (length got ≤ limit)%nat →
  (collect fuel h got w).1 =
    if decide (length got + length (still w) < limit)%nat then o ← outcome_of fin; Ok (got ++ still w, o)
    else Ok (got ++ take (limit - length got) (still w), "timeout").
Proof.
  intros Hl. pose proof (limit_tests limit Hl) as Hlim. clear Hl.
  revert got w. induction fuel as [|fuel IH]; intros got w Hf Hfuel Hgot; cbn [collect];
    destruct (Hlim got) as (-> & Hsub & Hpos).
  all: destruct (decide (limit ≤ length got)%nat) as [Hge | Hge].
  1,3: rewrite bool_decide_eq_true_2, decide_False by lia; replace (limit - length got)%nat with O by lia;
       cbn [take]; by rewrite app_nil_r.
  { lia. }
  rewrite bool_decide_eq_false_2 by done.
  destruct (recv_or_run (read_limit - zlen got) w Hf) as (k & w1 & Hh & Hk & Hk0 & Hr); [apply Hpos; lia|].
  rewrite Hsub in Hk. unfold mbind at 1, py_bind. rewrite Hr.
  destruct (decide (still w = [])) as [Hz | Hz].
  - rewrite Hz. cbn [length]. rewrite decide_True by lia. rewrite app_nil_r.
    destruct fin as [b|e]; [done|]. by destruct e.
  - assert (0 < length (still w))%nat as Hrest by (destruct (still w); [done|cbn; lia]). specialize (Hk0 Hz).
    destruct (take k (still w)) as [|b part] eqn:Hp.
    { apply (f_equal length) in Hp. rewrite length_take in Hp. cbn in Hp. lia. }
    rewrite <- Hp in Hh |- *. specialize (IH (got ++ take k (still w)) w1).
    rewrite (still_heard _ _ _ Hh), length_app, length_drop, (proj1 Hh) in IH.
    pose proof (take_parts k (limit - length got) (still w) Hk) as Hparts.
    rewrite length_take in IH, Hparts. rewrite IH by (try done; lia).
    destruct (decide (length got + length (still w) < limit)%nat).
    + rewrite decide_True by lia. by rewrite <- app_assoc, take_drop.
    + rewrite decide_False by lia. rewrite <- app_assoc, <- Hparts. do 5 f_equal. lia.
Qed.

(** C31. What a probe observes of an endpoint: the first 65536 bytes it sends, in whatever parts
    they arrive, with how the stream ended before that - closed, silent or reset; a stream that
    fills the buffer is reported as silent.  Any other error of the socket is raised. *)
Theorem sample_observes w : is_Some (fds w !! h) →
  let rest := drop (length (taken h (past w))) data in
  (collect (Z.to_nat read_limit) h [] w).1 =
    if decide (zlen rest < 2 ^ 16) then o ← outcome_of fin; Ok (rest, o)
    else Ok (take (Z.to_nat (2 ^ 16)) rest, "timeout").
Proof.
  intros Hf rest. rewrite (collect_run (Z.to_nat read_limit)) by (try done; cbn; lia).
  cbn [length app]. rewrite Nat.sub_0_r. fold rest (still w).
  change (2 ^ 16) with read_limit. assert (0 <= read_limit) by done. unfold zlen. change rest with (still w).
  destruct (decide (0 + length (still w) < Z.to_nat read_limit)%nat).
  - by rewrite decide_True by lia.
  - by rewrite decide_False by lia.
Qed.
End observes.

Lemma sample_observes_witness :
  (@collect (slow_sender greeting (Err (TimeoutError ""))) (Z.to_nat read_limit) 0 [] one_socket).1 =
    Ok (greeting, "timeout") ∧
  (@collect (slow_sender greeting (Ok [])) (Z.to_nat read_limit) 0 [] one_socket).1 = Ok (greeting, "eof").
Proof.
  split.
  - refine (@sample_observes (slow_sender greeting (Err (TimeoutError ""))) 0 greeting (Err (TimeoutError ""))
      (slow_ends _ _) _ one_socket ltac:(by eexists)). done.
  - refine (@sample_observes (slow_sender greeting (Ok [])) 0 greeting (Ok []) (slow_ends _ _) _ one_socket ltac:(by eexists)).
    by intros b [= <-].
Defined.

(** On the sample machine, where the capture holds no ClientHello, a run ends with that error. *)
Definition sample_probe : probe_setup :=
  {| q_profile := "go-tls"; q_repeats := 2; q_fingerprint := Some "chrome149"; q_padding := true |}.
Example run_profile_1 :
  (@run_profile (sample_os 1) ["r"] [] (λ _, "d") sample_probe ["t"] nothing).1
  = Err (RuntimeError "no captured ClientHello").
Proof. vm_compute. reflexivity. Qed.
