(* ===== verification/Smoke.v ===== *)
(** * The two-host smoke test

    [veil-core/scripts/network_smoke.py]: the echo target, the SOCKS client with its checks,
    and the two roles. *)

From S2P Require Import Prelude.
From S2P Require Import PyText.
From S2P Require Import PyBytes.
From S2P Require Import Json.
From S2P Require Import Numbers.
From S2P Require Import FileSystem.
From S2P Require Import Tools.
From S2P Require Import Machine.
From S2P Require Import Sockets.
From S2P Require Import Fixtures.
From S2P Require Import Rig.
From Stdlib Require Import Strings.Byte SpecFloat.
#[local] Open Scope Z_scope.

Section smoke.
Context `{Os} (base : path) (environ : env).

Definition read : nat → Z → py world bytes := read_with (EOFError "truncated response").

(** [port] and [stop] are those of fixtures.py. *)
Fixpoint smoke_wait (n : nat) (p : Z) (process : proc) (host : string) : py world () :=
  match n with
  | O => raise (TimeoutError "listener startup")
  | S n =>
      code ← poll process;
      match code with
      | Some _ => raise (RuntimeError "proxy exited")
      | None =>
          up ← try_except (ask (Connect host p 100);; mret true)
                 (catch_if is_os_error (ask (Sleep 10);; mret false));
          if (up : bool) then mret () else smoke_wait n p process host
      end
  end.
Definition smoke_port (p : Z) (process : proc) (host : string) : py world () := smoke_wait 300 p process host.

(** ** [target] *)
Definition upload_limit : Z := 256 * 1024.
(** Every turn receives at least a byte, so [upload_limit + 1] turns are enough. *)
Fixpoint upload (fuel : nat) (c : nat) (data : bytes) : py world () :=
  match fuel with
  | O => raise (RuntimeError "unreachable")
  | S fuel =>
      part ← recv c 16384;
      match part with
      | [] => send_all c data
      | _ =>
          let data := data ++ part in
          if upload_limit <? zlen data then raise (ValueError "test payload limit") else upload fuel c data
      end
  end.
(** The loop runs until the stream ends: [fuel] turns of it. *)
Fixpoint echo_blocks (fuel : nat) (c : nat) : py world () :=
  match fuel with
  | O => raise (RuntimeError "out of fuel")
  | S fuel => data ← read c 64; send_all c data;; echo_blocks fuel c
  end.
Definition ends_quietly (e : exn) : bool :=
  is_os_error e || match e with EOFError _ => true | _ => false end.
Definition serve (fuel : nat) (c : nat) : py world () :=
  mode ← read c 1;
  if bool_decide (mode = [x48]) then upload (Z.to_nat (upload_limit + 1)) c []
  else if bool_decide (mode = [x45]) then echo_blocks fuel c
  else mret ().
Definition handle (fuel : nat) (c : nat) : py world () :=
  with_socket c
    (on_fd c (SetTimeout c 15000);; try_except (serve fuel c) (catch_if ends_quietly (mret ()))).

(** ** [socks] *)
Definition check (b : bool) : result () := raise_if (negb b) (AssertionError "").
Definition socks (p target_port : Z) : py world nat :=
  c ← dial "127.0.0.1" p 5000;
  on_fd c (SetTimeout c 10000);;
  close_on_error c
    (send_all c greeting;;
     choice ← read c 2;
     lift (check (bool_decide (choice = [x05; x00])));;
     port ← lift (port_bytes target_port);
     send_all c ([x05; x01; x00; x01; x7f; x00; x00; x01] ++ port);;
     reply ← read c 10;
     status ← lift (get_at reply 1);
     lift (raise_if (negb (byte_z status =? 0)) (ConnectionError ("SOCKS status " +:+ str (byte_z status))));;
     mret c).

(** ** [client_checks] *)
Context (shake : bytes) (sha512 : string → bytes).

(** [(time.monotonic() - start) * 1000] *)
Definition since (start : float) : py world num :=
  now ← ask Now; d ← lift (num_sub (Float now) (Float start)); lift (num_mul d (Int 1000)).
(** An upload that comes back whole, and then the end of the stream. *)
Definition integrity (p target_port : Z) (payload : bytes) : py world num :=
  start ← ask Now;
  t ← (c ← socks p target_port;
       with_socket c
         (t ← since start;
          send_all c (x48 :: payload);;
          on_fd c (ShutdownWrite c);;
          back ← read c (zlen payload);
          lift (check (bool_decide (back = payload)));;
          rest ← recv c 1;
          lift (check (bool_decide (rest = [])));;
          mret t));
  ask (Sleep 50);;
  mret t.
Fixpoint echo_rounds (c : nat) (ns : list Z) : py world (list num) :=
  match ns with
  | [] => mret []
  | i :: ns =>
      let data := sha512 (str i) in
      start ← ask Now;
      send_all c data;;
      back ← read c 64;
      lift (check (bool_decide (back = data)));;
      t ← since start;
      ts ← echo_rounds c ns;
      mret (t :: ts)
  end.
Definition echoes (p target_port : Z) : py world (list num) :=
  c ← socks p target_port;
  with_socket c
    (send_all c [x45];;
     ts ← echo_rounds c (seqZ 0 32);
     on_fd c (ShutdownWrite c);;
     rest ← recv c 1;
     lift (check (bool_decide (rest = [])));;
     mret ts).
Definition is_connection_error (e : exn) : bool :=
  match e with ConnectionError _ | ConnectionResetError => true | _ => false end.
Definition refused (p refused_port : Z) : py world () :=
  try_except
    (c ← socks p refused_port; with_socket c (raise (AssertionError "unreachable target reported success")))
    (catch_if is_connection_error (mret ())).
(** The proxy is stopped while a stream is open. *)
Definition cancel (p target_port : Z) (process : proc) : py world (string * num) :=
  c ← socks p target_port;
  with_socket c
    (send_all c [x45];;
     start ← ask Now;
     stop process;;
     outcome ← try_except (rest ← recv c 1; lift (check (bool_decide (rest = [])));; mret "eof")
                 (catch_if (λ e, bool_decide (e = ConnectionResetError)) (mret "reset"));
     t ← since start;
     mret (outcome, t)).

(** The four echo clients run one after the other here; their timings are merged. *)
Definition client_checks (p target_port refused_port : Z) (process : proc) : py world json :=
  opens ← mapM_py (λ _, integrity p target_port shake) [0; 1; 2];
  rows ← mapM_py (λ _, echoes p target_port) [0; 1; 2; 3];
  let timings := merge_sort num_le (mjoin rows) in
  refused p refused_port;;
  '(outcome, cancelled) ← cancel p target_port process;
  first ← lift (get_at opens 0);
  p50 ← lift (median timings);
  q ← lift (float_of_text "0.99");
  index ← lift (num_mul (Int (zlen timings)) (Float q));
  index ← lift (num_trunc index);
  p99 ← lift (get_at timings (Z.to_nat index));
  mret (JObj [("result", JStr "pass"); ("cold_open_ms", json_of first);
    ("reused_open_ms", JArr (map json_of (tail opens))); ("half_close_rounds", JNum 3);
    ("verified_payload_bytes", JNum (zlen shake * 3)); ("echo_connections", JNum 4);
    ("echo_requests", JNum (zlen timings)); ("echo_p50_ms", json_of p50); ("echo_p99_ms", json_of p99);
    ("active_cancel_ms", json_of cancelled); ("active_cancel_outcome", JStr outcome);
    ("target_failure_rejected", JBool true)]).

(** ** The two roles *)
Inductive role := Server | Client.
Definition role_name (r : role) : string := match r with Server => "server" | Client => "client" end.
Record smoke_args := {
  m_role : role; m_binary : string; m_reality : bool; m_server_ip : string;
  m_server_port : option Z; m_target_port : Z; m_refused_port : Z }.
Definition mode_text (a : smoke_args) : string := if m_reality a then "reality" else "tls".

Definition smoke_launch (a : smoke_args) (command : list string) : py rig proc :=
  n ← gets (λ s, length (procs s));
  log ← on (open_text (base ++ [role_name (m_role a) +:+ "-" +:+ mode_text a +:+ "-" +:+ str (Z.of_nat n) +:+ ".log"]) "w");
  modify (add_log log);;
  p ← on (popen_proc {| cmd := command; penv := Some (dict_or environ [("GOMAXPROCS", "2")]); stdin := DevNull;
                        stdout := ToFile log; stderr := ToFile log; new_session := false |});
  modify (add_proc p);;
  mret p.
Definition smoke_cover (cp : Z) : list string :=
  ["openssl"; "s_server"; "-accept"; loopback cp; "-cert"; posix (base ++ ["cert.pem"]); "-key";
   posix (base ++ ["key.pem"]); "-tls1_3"; "-ciphersuites"; "TLS_AES_128_GCM_SHA256"; "-groups"; "X25519";
   "-www"; "-alpn"; "http/1.1"].
Definition address (host : string) (p : Z) : string := host +:+ ":" +:+ str p.
Definition smoke_common (a : smoke_args) : list (string * json) :=
  [("mode", JStr (mode_text a)); ("server_name", JStr "cover.test")].

(** [socket.socket()], [bind] and [listen] on a free port *)
Definition listen : py world (nat * Z) :=
  h ← gets fresh; p ← ask Listen; modify (fd_opened socket_name);; mret (h, p).
(** The configuration of the server, its port and that of the target *)
Definition server_role (a : smoke_args) (keys : json) : py rig (json * Z * Z) :=
  '(l, target_port) ← on listen;
  modify (set_inlet (Some l));;
  on (ask (ServeEcho l));;
  cp ← on port; sp ← on port;
  tls ← (if m_reality a then
           cover ← smoke_launch a (smoke_cover cp);
           on (smoke_port cp cover "127.0.0.1");;
           private ← lift (jitem "reality_private_key" keys);
           short ← lift (jitem "short_id" keys);
           mret [("reality_private_key", private); ("short_id", short); ("cover_address", JStr (loopback cp))]
         else
           mret [("certificate", JStr (posix (base ++ ["cert.pem"])));
                 ("private_key_file", JStr (posix (base ++ ["key.pem"])))]);
  secret ← lift (jitem "secret" keys);
  mret (JObj [("role", JStr "server"); ("listen", JStr (address (m_server_ip a) sp)); ("secret", secret);
              ("tls", JObj (smoke_common a ++ tls))], sp, target_port).
Definition port_text (p : option Z) : string := match p with Some p => str p | None => "None" end.
Definition client_role (a : smoke_args) (keys : json) : py rig (json * Z) :=
  sp ← on port;
  tls ← lift (if m_reality a then
                public ← jitem "reality_public_key" keys;
                short ← jitem "short_id" keys;
                Ok [("reality_public_key", public); ("short_id", short)]
              else Ok [("ca_file", JStr (posix (base ++ ["cert.pem"])))]);
  secret ← lift (jitem "secret" keys);
  mret (JObj [("role", JStr "client"); ("listen", JStr (loopback sp));
              ("server", JStr (m_server_ip a +:+ ":" +:+ port_text (m_server_port a)));
              ("secret", secret); ("tls", JObj (smoke_common a ++ tls))], sp).

Definition start_proxy (a : smoke_args) (cfg : json) (sp : Z) (host : string) : py rig proc :=
  let config := base ++ [role_name (m_role a) +:+ ".json"] in
  on (ask (WriteText config (dumps cfg)));;
  on (ask (Chmod config 384));;
  process ← smoke_launch a [posix (sub base (m_binary a)); "-config"; posix config];
  on (smoke_port sp process host);;
  mret process.
Definition smoke_body (a : smoke_args) (keys : json) : py rig () :=
  match m_role a with
  | Server =>
      '(cfg, sp, target_port) ← server_role a keys;
      start_proxy a cfg sp (m_server_ip a);;
      refused_port ← on port;
      on (ask (Print (dumps (JObj [("ready", JBool true); ("server_port", JNum sp); ("target_port", JNum target_port);
                                   ("refused_port", JNum refused_port)]))));;
      on (ask ReadInput);;
      mret ()
  | Client =>
      '(cfg, sp) ← client_role a keys;
      process ← start_proxy a cfg sp "127.0.0.1";
      r ← on (client_checks sp (m_target_port a) (m_refused_port a) process);
      on (ask (Print (dumps r)))
  end.
Definition pidfile (a : smoke_args) : path := base ++ [role_name (m_role a) +:+ ".pid"].
Definition close_inlet : py rig () :=
  l ← gets inlet; match l with Some l => on (close_socket l) | None => mret () end.
Definition remove_pidfile (a : smoke_args) : py world () :=
  try_except (ask (Unlink (pidfile a)))
    (λ e, match e with FileNotFoundError _ => Some (mret ()) | _ => None end).
Definition smoke_finish (a : smoke_args) : py rig () :=
  stop_all;; close_inlet;; close_logs;; on (remove_pidfile a).
Definition smoke_main (a : smoke_args) : py world () :=
  pid ← ask Getpid;
  ask (WriteText (pidfile a) (str pid));;
  keys ← read_json (base ++ ["config.json"]);
  with_rig (try_finally (smoke_body a keys) (smoke_finish a)).
End smoke.

(** ** What a role leaves *)

Section quiet.
Context `{Os} `{!SetsTimeout H}.

Lemma smoke_wait_quiet n p process host : quiet (smoke_wait n p process host).
Proof. intros R T F. induction n as [|n IH]; simpl; solve_within. Qed.
Lemma set_timeout_runs R T F h t :
  triple (frame R T (<[h := socket_name]> F)) (on_fd h (SetTimeout h t)) (λ _, frame R T (<[h := socket_name]> F)) (λ _ _, False).
Proof.
  intros w Hw. pose proof (on_fd_quiet h (SetTimeout h t) _ _ _ w Hw) as Hq. revert Hq.
  unfold on_fd, gets, ask, mbind, py_bind. rewrite (proj2 (proj2 (proj2 Hw))), lookup_insert_eq, set_timeout_ok. done.
Qed.
Lemma socks_opens p t : opens (socks p t).
Proof.
  intros R T F. unfold socks. eapply triple_bind; [apply dial_opens|]. intros h w [Hh Hw].
  revert w Hw. eapply triple_bind.
  - eapply triple_consequence; [apply set_timeout_runs|done|done|done].
  - intros []. apply close_on_error_frame; [done|]. clear. intros R T F. unfold read.
    do 3 (apply gives_step; [solve_within|intros ?]). apply gives_step; [solve_within|intros ?].
    do 4 (apply gives_step; [solve_within|intros ?]). by apply gives_ret.
Qed.
Lemma since_quiet start : quiet (since start).
Proof. intros R T F. unfold since. solve_within. Qed.
#[local] Hint Resolve since_quiet : within.

Lemma socks_quiet {A} p t (k : nat → py world A) : (∀ c, quiet (k c)) → quiet (c ← socks p t; with_socket c (k c)).
Proof. apply socket_quiet, socks_opens. Qed.
Lemma integrity_quiet p t payload : quiet (integrity p t payload).
Proof.
  intros R T F. unfold integrity. apply within_bind; [solve_within|intros start].
  apply within_bind; [|solve_within]. apply socks_quiet. intros c R' T' F'. unfold read. solve_within.
Qed.
Context (sha512 : string → bytes).
Lemma echo_rounds_quiet c ns : quiet (echo_rounds sha512 c ns).
Proof. intros R T F. induction ns as [|n ns IH]; simpl; unfold read; solve_within. Qed.
#[local] Hint Resolve echo_rounds_quiet : within.
Lemma echoes_quiet p t : quiet (echoes sha512 p t).
Proof. apply socks_quiet. intros c R T F. solve_within. Qed.
Lemma refused_quiet p t : quiet (refused p t).
Proof.
  intros R T F. unfold refused. apply within_try_any; [|intros e k; apply catch_if_keeps, within_ret].
  apply socks_quiet. intros c R' T' F'. solve_within.
Qed.
Lemma cancel_quiet p t process : quiet (cancel p t process).
Proof. apply socks_quiet. intros c R T F. solve_within. Qed.
#[local] Hint Resolve integrity_quiet echoes_quiet refused_quiet cancel_quiet : within.
Lemma client_checks_quiet shake p t r process : quiet (client_checks shake sha512 p t r process).
Proof. intros R T F. unfold client_checks. solve_within. Qed.
End quiet.

Section held.
Context `{Os} `{!SetsTimeout H} (base : path) (environ : env) (w0 : world).
Abbreviation held := (held w0).

Lemma smoke_launch_held a command : keeps held (smoke_launch base environ a command).
Proof.
  unfold smoke_launch. apply within_bind; [apply within_gets|]. intros n.
  apply open_log_held. intros h. apply start_held. intros p. apply within_ret.
Qed.
Lemma set_inlet_held l : keeps held (modify (set_inlet l)).
Proof. by intros s Hs. Qed.
(** A new descriptor is none of the counters'. *)
Lemma listen_held : keeps held (on listen).
Proof.
  intros s Hs. unfold on, listen, gets, modify, mbind, py_bind.
  pose proof (on_run w0 (ask Listen) s (ask_quiet _) Hs) as Ha. unfold ask in *.
  destruct (os (past (machine s)) Listen) as [p|e]; [|done].
  destruct Ha as ((Hc & Hd) & Hr & Ht & Hn & Hf). split_and!; [|done|done|done|]; cbn in *.
  - split; [done|]. intros i Hi. cbn in Hi |- *. destruct (decide (i = fresh (machine s))) as [-> | Hne]; [lia|].
    rewrite lookup_insert_ne in Hi by done. specialize (Hd i Hi). lia.
  - intros i Hi. destruct (decide (i = fresh (machine s))) as [-> | Hne]; [by rewrite lookup_insert_eq|].
    rewrite lookup_insert_ne by done. by apply Hf.
Qed.
Lemma smoke_port_quiet p process host : quiet (smoke_port p process host).
Proof. intros R T F. apply smoke_wait_quiet. Qed.
#[local] Hint Resolve smoke_launch_held set_inlet_held listen_held smoke_port_quiet : within.
Lemma server_role_held a keys : keeps held (server_role base environ a keys).
Proof. unfold server_role. solve_within. Qed.
Lemma client_role_held a keys : keeps held (client_role base a keys).
Proof. unfold client_role. solve_within. Qed.
Lemma start_proxy_held a cfg sp host : keeps held (start_proxy base environ a cfg sp host).
Proof. unfold start_proxy. solve_within. Qed.
#[local] Hint Resolve server_role_held client_role_held start_proxy_held : within.
Lemma smoke_body_held shake sha512 a keys : keeps held (smoke_body base environ shake sha512 a keys).
Proof. unfold smoke_body. pose proof client_checks_quiet. solve_within. Qed.
End held.

Section finish.
Context `{Calm} (base : path) (w0 : world).

(** Without counters any descriptor may be closed. *)
Lemma close_socket_pending ps hs l :
  runs (pending w0 ps hs []) (close_socket l) (λ _, pending w0 ps hs []).
Proof.
  intros w ((Hc & Hd) & Hr & Ht & Hn & Hf). unfold close_socket, gets, modify, ask, mbind, py_bind.
  destruct (fds w !! l) as [q|]; [rewrite calm_close_fd|]; (split_and!; [|done|done|done|by intros i ?%not_elem_of_nil]); [|done].
  split; [done|]. cbn. intros i Hi. apply Hd. destruct (decide (i = l)) as [-> | Hne].
  - by rewrite lookup_delete_eq in Hi; destruct Hi.
  - by rewrite lookup_delete_ne in Hi.
Qed.
Lemma close_inlet_runs s ps hs :
  runs (at_rig s (pending w0 ps hs [])) close_inlet (λ _, at_rig s (pending w0 ps hs [])).
Proof.
  intros s' Hs. unfold close_inlet, gets, mbind, py_bind. destruct (inlet s') as [l|]; [|done].
  apply (on_at s _ (close_socket l) _ (close_socket_pending ps hs l)), Hs.
Qed.

Lemma smoke_gives_up `{!PerfStops H} a : gives_up w0 (smoke_finish base a).
Proof.
  intros s Hs. unfold smoke_finish.
  assert (∀ A (P : rig → Prop) (m : py rig A) Q, runs P m Q → triple P m Q (λ _, emptied w0)) as Hany.
  { intros A P m Q Hm. eapply triple_consequence; [exact Hm|by auto..|by intros]. }
  assert (triple (at_rig s (pending w0 (procs s) (logs s) [])) (smoke_finish base a) (λ _, emptied w0) (λ _, emptied w0)) as Hf.
  { eapply triple_bind; [apply Hany, stop_all_runs|intros []].
    eapply triple_bind; [apply Hany, close_inlet_runs|intros []].
    eapply triple_bind; [apply Hany, close_logs_runs|intros []].
    intros s' [Hp _]. pose proof (pending_quiet w0 [] [] [] (remove_pidfile base a)) as Hq. unfold on.
    specialize (Hq ltac:(intros R T F; unfold remove_pidfile; apply within_try_any;
      [solve_within|intros e k; destruct e; intros [= <-]; apply within_ret]) _ Hp).
    destruct (remove_pidfile base a (machine s')) as [[u|e] w']; exists []; apply Hq. }
  intros s' ->. apply Hf. split; [|by destruct s]. apply held_pending in Hs as (? & ? & ? & _). split_and!; try done.
  - constructor.
  - by intros i ?%not_elem_of_nil.
Qed.
End finish.

Lemma smoke_releases `{Calm} `{!PerfStops H} `{!SetsTimeout H} base environ shake sha512 a :
  releases (smoke_main base environ shake sha512 a).
Proof.
  intros w0. unfold smoke_main. do 3 (apply within_bind; [solve_within|intros ?]).
  apply with_rig_releases; [intros w; by apply smoke_body_held|intros w; by apply smoke_gives_up].
Qed.

(** ** What the target echoes *)

(** Documented behaviour: an open socket takes what is sent. *)
Class Sinks `(Os) (h : nat) : Prop := { sinks : ∀ l d, os l (SendAll h d) = Ok () }.

Section echo.
Context `{H : Os} {h : nat} {data : bytes} `{!Sends H h data} `{!@Sinks H h}.
Abbreviation still := (still (h := h) (data := data)).

(** [b] was sent on [h], and nothing was received. *)
Definition said (b : bytes) (w w' : world) : Prop :=
  fds w' = fds w ∧ sent h (past w') = sent h (past w) ++ b ∧ taken h (past w') = taken h (past w).
Lemma send_all_run d w : is_Some (fds w !! h) → ∃ w', send_all h d w = (Ok (), w') ∧ said d w w'.
Proof.
  intros [q Hq]. unfold send_all, on_fd, gets, ask, mbind, py_bind. rewrite Hq, sinks. eexists. split; [done|].
  unfold said. cbn. by rewrite decide_True, app_nil_r.
Qed.
Lemma still_said b w w' : said b w w' → still w' = still w.
Proof. intros (_ & _ & Ht). unfold Sockets.still. by rewrite Ht. Qed.

(** An upload within the limit is sent back whole. *)
Lemma upload_run limit fuel got w : limit = Z.to_nat upload_limit → is_Some (fds w !! h) →
  (limit < fuel + length got)%nat → (length got ≤ limit)%nat →
  ∃ w', fds w' = fds w ∧
    upload fuel h got w = (if decide (length got + length (still w) ≤ limit)%nat then Ok ()
                           else Err (ValueError "test payload limit"), w') ∧
    sent h (past w') = sent h (past w) ++
      if decide (length got + length (still w) ≤ limit)%nat then got ++ still w else [].
Proof.
  intros Hl. assert (∀ l : bytes, (upload_limit <? zlen l) = bool_decide (limit < length l)%nat) as Hlim.
  { assert (0 <= upload_limit) by done. intros l. unfold zlen. destruct (Z.ltb_spec upload_limit (Z.of_nat (length l))).
    - symmetry. apply bool_decide_eq_true_2. lia.
    - symmetry. apply bool_decide_eq_false_2. lia. }
  clear Hl. revert got w. induction fuel as [|fuel IH]; intros got w Hf Hfuel Hgot; [lia|]. cbn [upload].
  destruct (recv_run 16384 w Hf) as (k & w1 & Hr & Hh & _ & He); [done|].
  unfold mbind at 1, py_bind. rewrite Hr. destruct (take k (still w)) as [|b part] eqn:Hp.
  - assert (still w = []) as Hz by (by apply He). rewrite Hz. cbn [length]. rewrite Nat.add_0_r, !decide_True by done.
    destruct Hh as (Hw1 & Hs1 & _). destruct (send_all_run got w1) as (w2 & Hs & Hw2 & Hs2 & _); [by rewrite Hw1|].
    exists w2. rewrite Hs, Hs2, Hw2, Hw1, Hs1, app_nil_r. done.
  - rewrite <- Hp in Hh |- *. rewrite Hlim.
    assert (length (take k (still w)) + length (drop k (still w)) = length (still w))%nat as Hlen
      by by rewrite <- length_app, take_drop.
    destruct (decide (limit < length (got ++ take k (still w)))%nat) as [Hgt | Hle].
    + rewrite bool_decide_eq_true_2 by done. rewrite length_app in Hgt. rewrite !decide_False by lia.
      exists w1. destruct Hh as (-> & -> & _). by rewrite app_nil_r.
    + rewrite bool_decide_eq_false_2 by done. rewrite length_app in Hle.
      assert (0 < length (take k (still w)))%nat by (rewrite Hp; cbn; lia).
      destruct (IH (got ++ take k (still w)) w1) as (w2 & Hf2 & Hu & Hs); [by rewrite (proj1 Hh)|rewrite length_app; lia..|].
      rewrite (still_heard _ _ _ Hh), length_app, <- Nat.add_assoc, Hlen in Hu, Hs. rewrite <- app_assoc, take_drop in Hs.
      exists w2. rewrite Hf2, Hu, Hs. by destruct Hh as (-> & -> & _).
Qed.

(** Blocks are echoed until the stream ends. *)
Lemma echo_run fuel w : is_Some (fds w !! h) → (length (still w) < 64 * fuel)%nat →
  ∃ w', fds w' = fds w ∧ echo_blocks fuel h w = (Err (EOFError "truncated response"), w') ∧
    sent h (past w') = sent h (past w) ++ take (64 * (length (still w) / 64)) (still w).
Proof.
  revert w. induction fuel as [|fuel IH]; intros w Hf Hfuel; [lia|]. cbn [echo_blocks]. unfold read.
  destruct (read_with_run (EOFError "truncated response") 64 w Hf) as (w1 & Hr & Hh).
  unfold mbind at 1, py_bind. rewrite Hr. change (Z.to_nat 64) with 64%nat in *. unfold zlen.
  destruct (decide (64 <= Z.of_nat (length (still w)))) as [Hge | Hlt].
  - destruct (send_all_run (take 64 (still w)) w1) as (w2 & Hs & Hsaid); [by rewrite (proj1 Hh)|].
    unfold mbind, py_bind. rewrite Hs.
    assert (still w2 = drop 64 (still w)) as Hst by by rewrite (still_said _ _ _ Hsaid), (still_heard _ _ _ Hh).
    destruct (IH w2) as (w3 & Hf3 & He & Hs3).
    + by rewrite (proj1 Hsaid), (proj1 Hh).
    + rewrite Hst, length_drop. lia.
    + exists w3. split; [by rewrite Hf3, (proj1 Hsaid), (proj1 Hh)|]. split; [done|].
      rewrite Hs3, (proj1 (proj2 Hsaid)), (proj1 (proj2 Hh)), Hst, length_drop, <- app_assoc. f_equal.
      set (n := (length (still w) / 64)%nat). assert ((length (still w) - 64) / 64 = n - 1)%nat as ->.
      { unfold n. replace (length (still w)) with ((length (still w) - 64) + 1 * 64)%nat at 2 by lia.
        rewrite Nat.div_add by done. lia. }
      assert (1 ≤ n)%nat by (apply Nat.div_le_lower_bound; lia).
      rewrite <- (take_parts 64 (64 * n)) by lia. rewrite length_take, Nat.min_l by lia. do 2 f_equal. lia.
  - exists w1. split; [apply Hh|]. split; [done|]. rewrite Nat.div_small by lia. cbn [take Nat.mul]. rewrite app_nil_r. apply Hh.
Qed.
End echo.

(** What the target sends back to a client that sends [mode :: body] and shuts its side down. *)
Definition echoed (mode : Byte.byte) (body : bytes) : bytes :=
  if decide (mode = x48) then if decide (zlen body <= 2 ^ 18) then body else []
  else if decide (mode = x45) then take (64 * (length body / 64)) body else [].
Definition echo_result (mode : Byte.byte) (body : bytes) : result () :=
  if decide (mode = x48 ∧ ¬ zlen body <= 2 ^ 18) then Err (ValueError "test payload limit") else Ok ().

Section target.
Context `{H : Os} {h : nat} {mode : Byte.byte} {body : bytes} `{!Sends H h (mode :: body)} `{!@Sinks H h}.

Lemma serve_run fuel w : is_Some (fds w !! h) → taken h (past w) = [] → sent h (past w) = [] →
  (length body < 64 * fuel)%nat →
  ∃ w', fds w' = fds w ∧ sent h (past w') = echoed mode body ∧
    try_except (serve fuel h) (catch_if ends_quietly (mret ())) w = (echo_result mode body, w').
Proof.
  intros Hf Ht Hs Hfuel. unfold serve, try_except, read.
  destruct (read_with_run (H := H) (h := h) (data := mode :: body) (EOFError "truncated response") 1 w Hf) as (w1 & Hr & Hh).
  assert (still (h := h) (data := mode :: body) w = mode :: body) as Hst by by unfold still; rewrite Ht.
  rewrite Hst in Hr, Hh. rewrite decide_True in Hr by (unfold zlen; cbn [length]; lia).
  change (take (Z.to_nat 1) (mode :: body)) with [mode] in *.
  assert (still (h := h) (data := mode :: body) w1 = body) as H1.
  { rewrite (still_heard 1 w w1) by by rewrite Hst. by rewrite Hst. }
  destruct Hh as (Hf1 & Hs1 & _). rewrite <- Hf1 in Hf. rewrite Hs in Hs1.
  unfold mbind, py_bind. rewrite Hr. unfold echoed, echo_result.
  destruct (decide (mode = x48)) as [-> | Hne].
  - rewrite bool_decide_eq_true_2 by done.
    destruct (upload_run (data := x48 :: body) (Z.to_nat upload_limit) (Z.to_nat (upload_limit + 1)) [] w1 eq_refl Hf)
      as (w2 & Hf2 & Hu & Hs2); [cbn [length]; unfold upload_limit; lia..|].
    rewrite Hu, H1 in *. cbn [length app Nat.add] in *. change (2 ^ 18) with upload_limit.
    assert (0 <= upload_limit) by done. unfold zlen. exists w2. split; [by rewrite Hf2|]. rewrite Hs2, Hs1.
    destruct (decide (length body ≤ Z.to_nat upload_limit)%nat).
    + rewrite decide_True by lia. rewrite decide_False by (intros [_ []]; lia). done.
    + rewrite decide_False by lia. rewrite decide_True by (split; [done|lia]). done.
  - rewrite bool_decide_eq_false_2 by (by intros [= ->]). rewrite (decide_False (P := mode = x48 ∧ _)) by naive_solver.
    destruct (decide (mode = x45)) as [-> | Hne2].
    + rewrite bool_decide_eq_true_2 by done.
      destruct (echo_run (data := x45 :: body) fuel w1 Hf) as (w2 & Hf2 & He & Hs2); [by rewrite H1|].
      rewrite He. cbn. exists w2. rewrite Hs2, Hf2, Hs1, H1. done.
    + rewrite bool_decide_eq_false_2 by (by intros [= ->]). by exists w1.
Qed.
End target.

(** C32. The echo target of the smoke test: to a client that sends a mode and a body and shuts
    its side down, an upload is answered by the whole body if it has at most 256 KiB and refused
    with [ValueError] and no answer otherwise, the echo mode is answered by the complete blocks
    of 64 bytes and nothing of the last, partial one, and another mode is not answered.  The
    handler ends, and closes its socket on every way out. *)
Theorem target_echoes `{H : Os} h mode body `{!Sends H h (mode :: body)} `{!@Sinks H h} `{!SetsTimeout H}
    (Hclose : ∀ l, os l (CloseFd h) = Ok ()) fuel w :
  is_Some (fds w !! h) → taken h (past w) = [] → sent h (past w) = [] → (length body < 64 * fuel)%nat →
  ∃ w', handle fuel h w = (echo_result mode body, w') ∧ sent h (past w') = echoed mode body ∧
    fds w' = delete h (fds w).
Proof.
  intros [q Hf] Ht Hs Hfuel. unfold handle, with_socket, try_finally, on_fd, gets, ask, mbind, py_bind.
  rewrite Hf, set_timeout_ok.
  match goal with |- context [try_except _ _ ?w1] => set (w0 := w1) end.
  destruct (serve_run (h := h) (mode := mode) (body := body) fuel w0) as (w2 & Hf2 & Hs2 & Hr); [by exists q|cbn; by rewrite ?Ht, ?Hs, ?app_nil_r..|done|].
  rewrite Hr. unfold close_socket, gets, modify, ask, mbind, py_bind. rewrite Hf2. cbn [fds w0]. rewrite Hf, Hclose.
  eexists. split; [reflexivity|]. cbn. rewrite app_nil_r, Hf2. done.
Qed.

#[export] Instance slow_sinks data fin : @Sinks (slow_sender data fin) 0.
Proof. by split. Qed.

Lemma target_echoes_witness :
  (∃ w', @handle (slow_sender (x48 :: greeting) (Ok [])) 1 0 one_socket = (Ok (), w') ∧ sent 0 (past w') = greeting ∧
     fds w' = delete 0%nat (fds one_socket)) ∧
  ∃ w', @handle (slow_sender (x45 :: greeting) (Ok [])) 1 0 one_socket = (Ok (), w') ∧ sent 0 (past w') = [] ∧
     fds w' = delete 0%nat (fds one_socket).
Proof.
  split.
  - exact (@target_echoes (slow_sender (x48 :: greeting) (Ok [])) 0 x48 greeting _ _ _ (λ _, eq_refl) 1 one_socket
      ltac:(by eexists) eq_refl eq_refl ltac:(cbn; lia)).
  - exact (@target_echoes (slow_sender (x45 :: greeting) (Ok [])) 0 x45 greeting _ _ _ (λ _, eq_refl) 1 one_socket
      ltac:(by eexists) eq_refl eq_refl ltac:(cbn; lia)).
Defined.
