(* ===== verification/Demo.v ===== *)
(** * The demonstration

    [veil-core/scripts/demo.py]: a page is fetched through the SOCKS port of a client, the
    REALITY tunnel and an owned HTTPS target. *)

From S2P Require Import Prelude.
From S2P Require Import PyText.
From S2P Require Import PyBytes.
From S2P Require Import Json.
From S2P Require Import FileSystem.
From S2P Require Import Tools.
From S2P Require Import Machine.
From S2P Require Import Fixtures.
From S2P Require Import Rig.
From S2P Require Import SampleMachine.
From S2P Require Import Sockets.
From S2P Require Import ProbeRun.
From S2P Require Import Smoke.
From Stdlib Require Import Strings.Byte.
#[local] Open Scope Z_scope.

(** [bytes.decode()]: a [UnicodeDecodeError], which is a [ValueError], or the text. *)
Fixpoint valid_utf8 (need : list (Z * Z)) (l : bytes) : bool :=
  match l, need with
  | [], _ => bool_decide (need = [])
  | b :: l, [] => match sequence (byte_z b) with Some need => valid_utf8 need l | None => false end
  | b :: l, (lo, hi) :: need => (lo <=? byte_z b) && (byte_z b <=? hi) && valid_utf8 need l
  end.
Definition decode (l : bytes) : result string :=
  raise_if (negb (valid_utf8 [] l)) (ValueError "utf-8");; Ok (bytes_text l).

Section demo.
Context `{Os} (ROOT : path) (ENV : env) (fuel : nat).

Definition demo_read : nat → Z → py world bytes := read_with (EOFError "truncated SOCKS reply").
(** The loop has no limit; [fuel] is the number of its turns. *)
Fixpoint receive_all (fuel : nat) (c : nat) (data : bytes) : py world bytes :=
  match fuel with
  | O => raise (RuntimeError "unreachable")
  | S fuel =>
      p ← recv c 65536;
      match p with [] => mret data | _ => receive_all fuel c (data ++ p) end
  end.

Definition demo_result (status : string) (size : Z) : json :=
  JObj [("result", JStr "pass"); ("path", JStr "HTTPS -> SOCKS5 -> Veil/REALITY -> owned HTTPS target");
        ("status", JStr status); ("response_bytes", JNum size); ("certificate_verification", JBool true)].
Definition demo_page (c : nat) : py world () :=
  send_all c http_request;;
  data ← receive_all fuel c [];
  status ← lift (decode (first_line data));
  lift (check (contains "200" status));;
  ask (Print (dumps_indent 2 (demo_result status (zlen data)))).
(** The connection and the TLS stream on it are one socket: the inner [with] closes both. *)
Definition demo_exchange (f : credentials) (coverp : Z) (raw : nat) : py world () :=
  send_all raw greeting;;
  choice ← demo_read raw 2;
  lift (check (bool_decide (choice = [x05; x00])));;
  port ← lift (port_bytes coverp);
  send_all raw ([x05; x01; x00; x01; x7f; x00; x00; x01] ++ port);;
  reply ← demo_read raw 10;
  status ← lift (get_at reply 1);
  lift (check (byte_z status =? 0));;
  on_fd raw (WrapTls raw (cert f) "cover.test");;
  with_socket raw (demo_page raw).
Definition demo_client (f : credentials) (coverp cp : Z) : py world () :=
  raw ← dial "127.0.0.1" cp 5000; with_socket raw (demo_exchange f coverp raw).

Definition demo_launch (f : credentials) (cmd : list string) : py rig proc := launch_plain ENV (Fixtures.folder f) cmd.
Definition demo_body (f : credentials) : py rig () :=
  coverp ← on port; sp ← on port; cp ← on port;
  cover ← demo_launch f (cover_command f coverp);
  on (wait_port coverp cover);;
  '(sc, cc) ← on (configurations ROOT f "veil-opt-reality" sp cp coverp);
  server ← demo_launch f (program_argv sc);
  on (wait_port sp server);;
  client ← demo_launch f (program_argv cc);
  on (wait_port cp client);;
  on (demo_client f coverp cp).
Definition demo_finish : py rig () := stop_all;; close_logs.
Definition demo_main : py world () :=
  f ← fixture ROOT (sub ROOT ".build/demo") false;
  with_rig (try_finally (demo_body f) demo_finish).
End demo.

(** ** What a run leaves *)
Section quiet.
Context `{Os} (fuel : nat).
Lemma receive_all_quiet n c data : quiet (receive_all n c data).
Proof. intros R T F. revert data. induction n as [|n IH]; intros data; simpl; solve_within. Qed.
#[local] Hint Resolve receive_all_quiet : within.
Lemma demo_page_quiet c : quiet (demo_page fuel c).
Proof. intros R T F. unfold demo_page. solve_within. Qed.
(** The inner [with] may have closed the socket already. *)
Lemma demo_exchange_owned f p R T F h : F !! h = None → keeps (owned R T F h) (demo_exchange fuel f p h).
Proof.
  intros Hh. unfold demo_exchange.
  apply within_bind; [apply quiet_owned, send_all_quiet|intros []].
  apply within_bind; [apply quiet_owned, read_with_quiet|intros choice].
  do 2 (apply within_bind; [solve_within|intros ?]).
  apply within_bind; [apply quiet_owned, send_all_quiet|intros []].
  apply within_bind; [apply quiet_owned, read_with_quiet|intros reply].
  do 2 (apply within_bind; [solve_within|intros ?]).
  apply within_bind; [apply quiet_owned, on_fd_quiet|intros []].
  apply within_try_finally; [apply quiet_owned, demo_page_quiet|by apply close_socket_keeps].
Qed.
Lemma demo_client_quiet f p cp : quiet (demo_client fuel f p cp).
Proof. apply socket_owned_quiet; [apply dial_opens|]. intros. by apply demo_exchange_owned. Qed.
End quiet.

Section released.
Context `{Calm} `{!PerfStops H} (ROOT : path) (ENV : env) (fuel : nat) (w0 : world).

Lemma demo_body_held f : keeps (held w0) (demo_body ROOT ENV fuel f).
Proof. pose proof (demo_client_quiet fuel). unfold demo_body, demo_launch, launch_plain. solve_within. Qed.
Lemma demo_finish_runs s :
  runs (at_rig s (pending w0 (procs s) (logs s) (counters s))) demo_finish
    (λ _, at_rig s (pending w0 [] [] (counters s))).
Proof.
  unfold demo_finish. eapply triple_bind; [apply stop_all_runs|intros []]. apply close_logs_runs.
Qed.
End released.

Lemma demo_releases `{Calm} `{!PerfStops H} ROOT ENV fuel : releases (demo_main ROOT ENV fuel).
Proof.
  intros w0. unfold demo_main. apply within_bind; [solve_within|intros f].
  apply with_rig_releases; [intros w; apply demo_body_held|]. intros w. apply (gives_up_any _ _ counters), demo_finish_runs.
Qed.

(** A stream that ends is received whole, however it is cut, with a turn per byte and one for its end. *)
Lemma receive_all_run `{H : Os} {h data} `{!Sends H h data} n got w :
  is_Some (fds w !! h) → (length (still (h := h) (data := data) w) < n)%nat →
  ∃ w', receive_all n h got w = (Ok (got ++ still (h := h) (data := data) w), w').
Proof.
  revert got w. induction n as [|n IH]; intros got w Hf Hn; [lia|]. cbn [receive_all].
  destruct (recv_run (h := h) (data := data) 65536 w Hf) as (k & w1 & Hr & Hh & Hk & He); [lia|].
  unfold mbind at 1, py_bind. rewrite Hr. destruct (take k (still w)) as [|b part] eqn:Hp.
  - exists w1. assert (still (h := h) (data := data) w = []) as -> by (by apply He). by rewrite app_nil_r.
  - rewrite <- Hp in Hh |- *.
    assert (0 < length (take k (still (h := h) (data := data) w)))%nat as Hpos by (rewrite Hp; cbn; lia).
    destruct (IH (got ++ take k (still (h := h) (data := data) w)) w1) as (w2 & ->).
    + by rewrite (proj1 Hh).
    + rewrite (still_heard _ _ _ Hh), length_drop. rewrite length_take in Hpos. lia.
    + exists w2. by rewrite (still_heard _ _ _ Hh), <- app_assoc, take_drop.
Qed.

Example demo_decode_1 : decode [x48; xc3; xa9] = Ok ("H" +:+ bytes_text [xc3; xa9]) ∧ is_ok (decode [xc3; x41]) = false.
Proof. by vm_compute. Qed.

(** The whole demonstration, on a machine whose target answers the request after the handshake
    of twelve bytes. *)
Definition demo_os (answer : string) : Os := λ A l c,
  match c in call A return result A with
  | Recv h n => if (n =? 65536) && (zlen (taken h l) =? 12) then Ok (encode answer) else @os (sample_os 0) _ l (Recv h n)
  | c => @os (sample_os 0) _ l c
  end.
Example demo_runs :
  map (λ answer, (@demo_main (demo_os answer) ["r"] [] 3 nothing).1) ["HTTP/1.0 200 ok" +:+ crlf; "HTTP/1.0 404" +:+ crlf] =
  [Ok (); Err (AssertionError "")].
Proof. by vm_compute. Qed.
