(* ===== verification/CoreRegression.v ===== *)
(** * The core regression test

    [trial], [comparison] and [main] of [veil-core/scripts/core_regression.py]: old and new
    binaries, paired. *)

From S2P Require Import Prelude.
From S2P Require Import PyText.
From S2P Require Import PyBytes.
From S2P Require Import Json.
From S2P Require Import Numbers.
From S2P Require Import FileSystem.
From S2P Require Import Tools.
From S2P Require Import Machine.
From S2P Require Import Fixtures.
From S2P Require Import Perf.
From S2P Require Import Rig.
From S2P Require Import SampleMachine.
From S2P Require Import Benchmark.
From S2P Require Import DelayedBenchmark.
From S2P Require Import RealityBenchmark.
From S2P Require Import Sockets.
From S2P Require Import ProbeRun.
From S2P Require Import Smoke.
#[local] Open Scope Z_scope.

(** The processors of the server, the client, the backend and the load generator. *)
Record cores := { c_server : Z; c_client : Z; c_backend : Z; c_load : Z }.
(** The binaries of the server and the client. *)
Record pair_of := { b_server : path; b_client : path }.

Section trial.
Context `{Os} (ROOT : path) (ENV : env).

Definition launch (folder : path) (command : list string) (cpu : Z) : py rig proc :=
  launch_in ENV folder command (str cpu) 1 Inherit None.
Definition regression_load (peer : path) (mode : string) (size rounds cp bp : Z) : list string :=
  [posix peer; "-socks"; loopback cp; "-target"; loopback bp; "-mode"; mode; "-connections"; "1";
   "-bytes"; str size; "-rounds"; str rounds].

(** The changes to the configuration of one end. *)
Definition regression_config (padding : bool) (name : string) (cfg : json) : result json :=
  cfg ← set_tls "record_padding" (JBool padding) cfg;
  if String.eqb name "client" then set_tls "fingerprint" (JStr "chrome149") cfg else Ok cfg.

Definition start (f : credentials) (b : pair_of) (peer : path) (folder : path) (c : cores) (padding : bool)
    (coverp bp sp cp : Z) : py rig (proc * proc) :=
  cover ← launch folder (cover_command f coverp) (c_backend c);
  on (wait_port coverp cover);;
  backend ← launch folder (backend_command peer bp) (c_backend c);
  on (wait_port bp backend);;
  '(sc, cc) ← on (configurations ROOT f "veil-opt-reality" sp cp coverp);
  for_each (λ name, on (edit_json (Fixtures.folder f ++ [name +:+ ".json"]) (regression_config padding name)))
    ["client"; "server"];;
  server ← launch folder (program_argv (b_server b, sc.2)) (c_server c);
  on (wait_port sp server);;
  client ← launch folder (program_argv (b_client b, cc.2)) (c_client c);
  on (wait_port cp client);;
  mret (server, client).

Definition launch_load (folder : path) (command : list string) (cpu : Z) : py rig proc :=
  launch_in ENV folder command (str cpu) 1 Pipe (Some Pipe).

Definition measure (folder : path) (server client load : proc) : py rig json :=
  await_ready load;;
  for_each (λ '(name, process), counter ← add_counter folder name process; on (perf_switch counter "enable"))
    [("server", server); ("client", client)];;
  go load;;
  row ← on (line load 90000);
  switch_all "disable";;
  server_rss ← on (rss (pid server));
  client_rss ← on (rss (pid client));
  row ← lift (jset "server_rss_bytes" (JNum server_rss) row);
  lift (jset "client_rss_bytes" (JNum client_rss) row).

Fixpoint pop_perfs (row : json) (names : list string) : py rig json :=
  match names with
  | [] => mret row
  | n :: names =>
      values ← pop_values;
      row ← lift (jset (n +:+ "_perf") (json_values values) row);
      pop_perfs row names
  end.

Definition finish_load (load : proc) : py rig () :=
  on (ask (CloseInput (p_id load)));;
  code ← on (wait load (Some 5000));
  lift (raise_if (negb (code =? 0)) (RuntimeError "load failed")).

(** The counters of both proxies; [process-2] is the server, [process-3] the client. *)
Fixpoint add_stats (folder : path) (row : json) (ends : list (string * Z)) : py rig (json * list stats) :=
  match ends with
  | [] => mret (row, [])
  | (name, index) :: ends =>
      log ← on (ask (ReadText (folder ++ ["process-" +:+ str index +:+ ".log"])));
      s ← lift (parse_stats log "missing completion counters");
      row ← lift (jset (name +:+ "_stats") (stats_json s) row);
      '(row, l) ← add_stats folder row ends;
      mret (row, s :: l)
  end.
Definition short_stream_ok (rounds : Z) (s : stats) : bool :=
  (completed s =? rounds + 16) && (rejected s =? 0) && (failed s =? 1).

(** The derived numbers; a row without [requests] is rated by its [bytes]. *)
Definition work (row : json) : result num :=
  bytes ← jitem "bytes" row;
  match row with
  | JObj kvs => num_of (default bytes (dict_get "requests" kvs))
  | _ => Err AttributeError
  end.
Definition end_clock (row : json) (name : string) : result num :=
  perf ← jitem (name +:+ "_perf") row; jnum "task-clock" perf.
Definition rates (row : json) : result json :=
  n ← work row;
  seconds ← jnum "seconds" row;
  throughput ← num_div n seconds;
  row ← jset "throughput" (json_of throughput) row;
  clocks ← mapR (end_clock row) ["client"; "server"];
  ms ← num_sum clocks;
  row ← jset "cpu_ms" (json_of ms) row;
  per_ms ← num_div n ms;
  jset "work_per_cpu_ms" (json_of per_ms) row.

Definition body (f : credentials) (b : pair_of) (peer : path) (mode : string) (size rounds : Z) (folder : path)
    (c : cores) (padding : bool) : py rig json :=
  coverp ← on port; bp ← on port; sp ← on port; cp ← on port;
  '(server, client) ← start f b peer folder c padding coverp bp sp cp;
  load ← launch_load folder (regression_load peer mode size rounds cp bp) (c_load c);
  row ← measure folder server client load;
  row ← pop_perfs row ["server"; "client"];
  finish_load load;;
  on (stop client);;
  on (stop server);;
  flush_logs;;
  '(row, ss) ← add_stats folder row [("server", 2); ("client", 3)];
  lift (raise_if (String.eqb mode "S" && negb (forallb (short_stream_ok rounds) ss))
    (RuntimeError "short-stream behavior changed: "));;
  lift (rates row).

Definition finish : py rig () := close_counters;; stop_all;; close_logs.
Definition trial (f : credentials) (b : pair_of) (peer : path) (mode : string) (size rounds : Z) (folder : path)
    (c : cores) (padding : bool) : py world json :=
  ask (Mkdir folder false false);;
  with_rig (try_finally (body f b peer mode size rounds folder c padding) finish).
End trial.

(** ** [comparison] *)

(** The rows of a pair: the one before and the one after. *)
Definition groups : list string := ["before"; "after"].
Definition pair_map : Type := list (Z * list (string * json)).
Definition pair_row (mode : string) (pairs : pair_map) (row : json) : result pair_map :=
  m ← jitem "mode" row;
  if equals_text mode m then
    g ← jitem "group" row;
    match g with
    | JStr g =>
        if bool_decide (g ∈ groups) then
          p ← jitem "pair" row;
          match p with
          | JNum p => Ok (dict_set p (dict_set g row (default [] (dict_get p pairs))) pairs)
          | _ => Err TypeError
          end
        else Ok pairs
    | _ => Ok pairs
    end
  else Ok pairs.
Fixpoint pair_rows (mode : string) (pairs : pair_map) (rows : list json) : result pair_map :=
  match rows with [] => Ok pairs | r :: rows => p ← pair_row mode pairs r; pair_rows mode p rows end.

(** [100 * (p["after"][metric] / p["before"][metric] - 1)] *)
Definition delta (metric : string) (p : list (string * json)) : result num :=
  after ← dict_index id "after" p; a ← jnum metric after;
  before ← dict_index id "before" p; b ← jnum metric before;
  q ← num_div a b; d ← num_sub q (Int 1); num_mul (Int 100) d.
Definition has_metric (metric : string) (p : list (string * json)) : bool :=
  bool_decide (length p = 2%nat) &&
  match dict_get "before" p with Some (JObj kvs) => bool_decide (metric ∈ kvs.*1) | _ => false end.
Definition comparison_metrics : list string := ["throughput"; "work_per_cpu_ms"; "p50_us"; "p99_us"].
Definition compare_metric (pairs : pair_map) (metric : string) : result (option (string * json)) :=
  deltas ← mapR (delta metric) (filter (λ p, has_metric metric p = true) pairs.*2);
  match deltas with
  | [] => Ok None
  | _ => m ← median deltas;
         Ok (Some (metric, JObj [("paired_median_percent", json_of m);
                                 ("pairs_percent", JArr (map json_of deltas))]))
  end.
Definition compare_mode (rows : list json) (mode : string) : result json :=
  pairs ← pair_rows mode [] rows;
  entries ← mapR (compare_metric pairs) comparison_metrics;
  Ok (JObj (omap id entries)).
Definition comparison (rows : list json) (modes : list string) : result json :=
  entries ← mapR (λ mode, v ← compare_mode rows mode; Ok (mode, v)) modes;
  Ok (JObj (dict_update entries [])).

(** ** [main] *)
Record regression_args := {
  g_before : string; g_after : string; g_peer : string; g_out : string; g_reps : Z; g_bytes : Z;
  g_rounds : Z; g_modes : string; g_cores : string; g_no_padding : bool; g_skip_interop : bool }.
Definition regression_vars (a : regression_args) : json :=
  JObj [("before", JStr (g_before a)); ("after", JStr (g_after a)); ("peer", JStr (g_peer a));
        ("out", JStr (g_out a)); ("reps", JNum (g_reps a)); ("bytes", JNum (g_bytes a));
        ("rounds", JNum (g_rounds a)); ("modes", JStr (g_modes a)); ("cores", JStr (g_cores a));
        ("no_padding", JBool (g_no_padding a)); ("skip_interop", JBool (g_skip_interop a))].

(** One run: its group, binaries, mode, pair, rounds and size. *)
Record run_of := { u_group : string; u_pair_of : pair_of; u_mode : string; u_pair : Z; u_rounds : Z; u_size : Z }.
Definition valid_runs (a : regression_args) (modes : list string) : bool :=
  forallb (λ m, bool_decide (m ∈ ["U"; "D"; "E"; "S"])) modes &&
  (1 <=? g_reps a) && (1 <=? g_rounds a) && (1 <=? g_bytes a).
(** Four distinct processors that are available. *)
Definition parse_cores (text : string) (available : list Z) : result cores :=
  ns ← mapR py_int (split "," text);
  match ns with
  | [s; c; b; l] =>
      raise_if (negb (bool_decide (NoDup ns)) || negb (forallb (λ n, bool_decide (n ∈ available)) ns)) (SystemExit 2);;
      Ok {| c_server := s; c_client := c; c_backend := b; c_load := l |}
  | _ => Err (SystemExit 2)
  end.
Definition interop_runs (a : regression_args) (old new : pair_of) : list run_of :=
  if g_skip_interop a then [] else
  [ {| u_group := "old-client-new-server"; u_pair_of := {| b_server := b_server new; b_client := b_client old |};
       u_mode := "S"; u_pair := -1; u_rounds := 100; u_size := 0 |};
    {| u_group := "new-client-old-server"; u_pair_of := {| b_server := b_server old; b_client := b_client new |};
       u_mode := "S"; u_pair := -1; u_rounds := 100; u_size := 0 |} ].

Section main.
Context `{Os} (ROOT cwd script : path) (ENV environ : env) (sha256 : string → string).
(** The seeded generator: the order of the two groups of a pair and a mode. *)
Context (order : Z → string → list (string * pair_of) → list (string * pair_of)).

Definition paired_runs (a : regression_args) (modes : list string) (old new : pair_of) : list run_of :=
  pair ← seqZ 0 (g_reps a);
  mode ← modes;
  g ← order pair mode [("before", old); ("after", new)];
  [{| u_group := g.1; u_pair_of := g.2; u_mode := mode; u_pair := pair; u_rounds := g_rounds a; u_size := g_bytes a |}].

Definition private_namespace : py world bool :=
  if bool_decide (dict_get "VEIL_ISOLATED_NETNS" environ = Some "1") then
    own ← ask (ReadLink ["proc"; "self"; "ns"; "net"]);
    first ← ask (ReadLink ["proc"; "1"; "ns"; "net"]);
    mret (negb (String.eqb own first))
  else mret false.

Definition hash_file (p : path) : py world (string * json) :=
  data ← ask (ReadBytes p); mret (posix p, JStr (sha256 data)).
Definition regression_metadata (a : regression_args) (c : cores) (old new : pair_of) (peer : path) : py world json :=
  release ← ask Release;
  lscpu ← ask (CheckOutput (plain ["lscpu"]));
  go ← ask (CheckOutput (plain ["go"; "version"]));
  openssl ← ask (CheckOutput (plain ["openssl"; "version"]));
  text ← ask (ReadBytes script);
  hashes ← mapM_py hash_file [b_server old; b_client old; b_server new; b_client new; peer];
  mret (JObj [("kernel", JStr release); ("cpu", JStr lscpu); ("go", JStr go); ("openssl", JStr openssl);
    ("script_sha256", JStr (sha256 text));
    ("cores", JArr (map JNum [c_server c; c_client c; c_backend c; c_load c])); ("gomaxprocs", JNum 1);
    ("args", regression_vars a); ("binaries", JObj (dict_update hashes []))]).

(** [run]: one trial; the rows so far are rewritten after it. *)
Definition regression_run (a : regression_args) (f : credentials) (peer out : path) (c : cores)
    (rows : list json) (u : run_of) : py world (list json) :=
  let folder := out ++ [pad3 (length rows) +:+ "-" +:+ u_group u +:+ "-" +:+ u_mode u] in
  row ← trial ROOT ENV f (u_pair_of u) peer (u_mode u) (u_size u) (u_rounds u) folder c (negb (g_no_padding a));
  row ← lift (jupdate [("group", JStr (u_group u)); ("pair", JNum (u_pair u))] row);
  let rows := rows ++ [row] in
  ask (WriteText (out ++ ["results.json"]) (dumps_indent 2 (JArr rows) +:+ nl));;
  mret rows.
Fixpoint regression_runs (a : regression_args) (f : credentials) (peer out : path) (c : cores)
    (rows : list json) (us : list run_of) : py world (list json) :=
  match us with
  | [] => mret rows
  | u :: us => rows ← regression_run a f peer out c rows u; regression_runs a f peer out c rows us
  end.

Definition main (a : regression_args) : py world () :=
  own ← private_namespace;
  lift (raise_if (negb own) (SystemExit 2));;
  available ← ask Affinity;
  c ← lift (parse_cores (g_cores a) available);
  let modes := split "," (g_modes a) in
  lift (raise_if (negb (valid_runs a modes)) (SystemExit 2));;
  out ← ask (Resolve (join_path cwd (g_out a)));
  ask (Mkdir out true false);;
  before ← ask (Resolve (join_path cwd (g_before a)));
  after ← ask (Resolve (join_path cwd (g_after a)));
  peer ← ask (Resolve (join_path cwd (g_peer a)));
  let old := {| b_server := before ++ ["veil-server"]; b_client := before ++ ["veil-client"] |} in
  let new := {| b_server := after ++ ["veil-openssl"]; b_client := after ++ ["veil-batch"] |} in
  info ← regression_metadata a c old new peer;
  ask (WriteText (out ++ ["metadata.json"]) (dumps_indent 2 info +:+ nl));;
  f ← fixture ROOT (out ++ ["fixture"]) false;
  rows ← regression_runs a f peer out c [] (interop_runs a old new ++ paired_runs a modes old new);
  summary ← lift (comparison rows modes);
  ask (WriteText (out ++ ["summary.json"]) (dumps_indent 2 summary +:+ nl)).
End main.

Section held.
Context `{Os} (ROOT : path) (ENV : env) (w0 : world).
Abbreviation held := (held w0).

Lemma core_start_held f b peer folder c padding coverp bp sp cp :
  keeps held (start ROOT ENV f b peer folder c padding coverp bp sp cp).
Proof. unfold start, launch. solve_within. Qed.
Lemma core_measure_held folder server client load : keeps held (measure folder server client load).
Proof. unfold measure. solve_within. Qed.
Lemma pop_perfs_held row names : keeps held (pop_perfs row names).
Proof. revert row. induction names as [|n names IH]; intros row; simpl; solve_within. Qed.
Lemma add_stats_held folder row ends : keeps held (add_stats folder row ends).
Proof. revert row. induction ends as [|[n i] ends IH]; intros row; simpl; solve_within. Qed.
#[local] Hint Resolve core_start_held core_measure_held pop_perfs_held add_stats_held : within.
Lemma core_body_held f b peer mode size rounds folder c padding :
  keeps held (body ROOT ENV f b peer mode size rounds folder c padding).
Proof. unfold body, launch_load, finish_load. solve_within. Qed.
End held.

Section released.
Context `{Calm} `{!PerfStops H}.

Lemma core_finish_runs w0 s :
  runs (at_rig s (pending w0 (procs s) (logs s) (counters s))) finish (λ _, at_rig s (pending w0 [] [] [])).
Proof.
  unfold finish. eapply triple_bind; [apply close_counters_runs|intros []].
  eapply triple_bind; [apply stop_all_runs|intros []]. apply close_logs_runs.
Qed.

Lemma core_trial_releases ROOT ENV f b peer mode size rounds folder c padding :
  releases (trial ROOT ENV f b peer mode size rounds folder c padding).
Proof.
  intros w0. unfold trial. apply within_bind; [solve_within|intros _].
  apply with_rig_releases; [intros w; apply core_body_held|]. intros w. apply gives_up_counters, core_finish_runs.
Qed.
Lemma private_namespace_quiet environ : quiet (private_namespace environ).
Proof. intros R T F. unfold private_namespace. solve_within. Qed.
Lemma regression_runs_releases ROOT ENV a f peer out c rows us :
  releases (regression_runs ROOT ENV a f peer out c rows us).
Proof.
  intros w0. revert rows. pose proof core_trial_releases.
  induction us as [|u us IH]; intros rows; cbn [regression_runs]; [solve_within|]. unfold regression_run. cbv zeta. solve_within.
Qed.
Lemma regression_metadata_quiet script sha256 a c old new peer : quiet (regression_metadata script sha256 a c old new peer).
Proof. intros R T F. unfold regression_metadata, hash_file. solve_within. Qed.
Lemma core_main_releases ROOT cwd script ENV environ sha256 order a :
  releases (main ROOT cwd script ENV environ sha256 order a).
Proof.
  intros w0. unfold main. cbv zeta. pose proof private_namespace_quiet. pose proof regression_metadata_quiet.
  pose proof regression_runs_releases. solve_within.
Qed.
End released.

#[export] Instance sample_timeout n : @SetsTimeout (sample_os n).
Proof. by split. Qed.
#[export] Instance sample_tap n : @TapCloses (sample_os n).
Proof. by split. Qed.

Definition isolated_environ : env := [("VEIL_ISOLATED_NETNS", "1")].
