(* ===== verification/ManagedRegression.v ===== *)
(** * The managed runtime against the command line

    [veil-service/scripts/regression.py]: the trials of the core regression test, with a wrapper
    that runs the service daemon in place of the command-line program. *)

From S2P Require Import Prelude.
From S2P Require Import PyText.
From S2P Require Import PyBytes.
From S2P Require Import Json.
From S2P Require Import Numbers.
From S2P Require Import FileSystem.
From S2P Require Import Tools.
From S2P Require Import Machine.
From S2P Require Import Fixtures.
From S2P Require Import Rig.
From S2P Require Import Benchmark.
From S2P Require Import SampleMachine.
From S2P Require Import CoreRegression.
#[local] Open Scope Z_scope.

Record managed_args := {
  v_cli : string; v_daemon : string; v_peer : string; v_out : string; v_reps : Z; v_bytes : Z; v_rounds : Z;
  v_modes : string; v_cores : string }.
Definition managed_vars (a : managed_args) : json :=
  JObj [("cli", JStr (v_cli a)); ("daemon", JStr (v_daemon a)); ("peer", JStr (v_peer a)); ("out", JStr (v_out a));
        ("reps", JNum (v_reps a)); ("bytes", JNum (v_bytes a)); ("rounds", JNum (v_rounds a));
        ("modes", JStr (v_modes a)); ("cores", JStr (v_cores a))].

(** The wrapper: it gives the configuration a state directory of its own and becomes the daemon. *)
Definition wrapper_text (temp daemon : path) : string :=
  "#!/usr/bin/env python3" +:+ nl +:+
  "import os, pathlib, shutil, sys" +:+ nl +:+
  "assert len(sys.argv)==3 and sys.argv[1]=='-config'" +:+ nl +:+
  "cfg=pathlib.Path(sys.argv[2])" +:+ nl +:+
  "state=pathlib.Path(" +:+ repr (posix temp) +:+ ") / cfg.stem" +:+ nl +:+
  "state.mkdir(mode=0o700,exist_ok=True)" +:+ nl +:+
  "shutil.copyfile(cfg,state/'config.json')" +:+ nl +:+
  "(state/'config.json').chmod(0o600)" +:+ nl +:+
  "os.execv(" +:+ repr (posix daemon) +:+ ", [" +:+ repr (posix daemon) +:+
  ", '-state-dir', str(state), '-socket', str(state/'control.sock'), '-autostart'])" +:+ nl.

(** [ROOT] and [CORE / "scripts"]'s own root, from which [fixture] and [trial] take their programs. *)
Section managed.
Context `{Os} (CORE cwd tmp : path) (ENV environ : env) (sha256 : string → string).
(** The generator seeded with 149: the order of the two groups of a pair and a mode. *)
Context (order : Z → string → list (string * pair_of) → list (string * pair_of)).

Definition managed_metadata (a : managed_args) (c : cores) (binaries : list path) : py world json :=
  hashes ← mapM_py (hash_file sha256) binaries;
  mret (JObj [("args", managed_vars a); ("gomaxprocs", JNum 1);
    ("cores", JArr (map JNum [c_server c; c_client c; c_backend c; c_load c]));
    ("binaries", JObj (dict_update hashes []))]).

(** [run], with the rows so far *)
Definition managed_run (f : credentials) (peer out : path) (c : cores) (rows : list json) (u : run_of) :
    py world (list json) :=
  let folder := out ++ [pad3 (length rows) +:+ "-" +:+ u_group u +:+ "-" +:+ u_mode u] in
  row ← trial CORE ENV f (u_pair_of u) peer (u_mode u) (u_size u) (u_rounds u) folder c true;
  row ← lift (jupdate [("group", JStr (u_group u)); ("pair", JNum (u_pair u))] row);
  let rows := rows ++ [row] in
  ask (WriteText (out ++ ["results.json"]) (dumps_indent 2 (JArr rows) +:+ nl));;
  mret rows.
Fixpoint managed_loop (f : credentials) (peer out : path) (c : cores) (rows : list json) (us : list run_of) :
    py world (list json) :=
  match us with
  | [] => mret rows
  | u :: us => rows ← managed_run f peer out c rows u; managed_loop f peer out c rows us
  end.

Definition mixed_runs (cli wrapper : path) : list run_of :=
  [ {| u_group := "cli-client-managed-server"; u_pair_of := {| b_server := wrapper; b_client := cli |};
       u_mode := "S"; u_pair := -1; u_rounds := 100; u_size := 0 |};
    {| u_group := "managed-client-cli-server"; u_pair_of := {| b_server := cli; b_client := wrapper |};
       u_mode := "S"; u_pair := -1; u_rounds := 100; u_size := 0 |} ].
Definition same_runs (a : managed_args) (modes : list string) (cli wrapper : path) : list run_of :=
  pair ← seqZ 0 (v_reps a);
  mode ← modes;
  g ← order pair mode [("before", {| b_server := cli; b_client := cli |});
                       ("after", {| b_server := wrapper; b_client := wrapper |})];
  [{| u_group := g.1; u_pair_of := g.2; u_mode := mode; u_pair := pair; u_rounds := v_rounds a; u_size := v_bytes a |}].

(** [with tempfile.TemporaryDirectory(...)] *)
Definition managed_rows (a : managed_args) (f : credentials) (cli daemon peer out : path) (c : cores)
    (modes : list string) : py world (list json) :=
  temp ← ask (TempFolder "veil-managed-" tmp);
  try_finally
    (let wrapper := temp ++ ["wrapper"] in
     ask (WriteText wrapper (wrapper_text temp daemon));;
     ask (Chmod wrapper 448);;
     managed_loop f peer out c [] (mixed_runs cli wrapper ++ same_runs a modes cli wrapper))
    (ask (RemoveTree temp)).

Definition managed_main (a : managed_args) : py world () :=
  own ← private_namespace environ;
  lift (raise_if (negb own) (SystemExit 2));;
  available ← ask Affinity;
  c ← lift (parse_cores (v_cores a) available);
  lift (raise_if ((v_reps a <? 1) || (v_bytes a <? 1) || (v_rounds a <? 1)) (SystemExit 2));;
  out ← ask (Resolve (join_path cwd (v_out a)));
  ask (Mkdir out true false);;
  cli ← ask (Resolve (join_path cwd (v_cli a)));
  daemon ← ask (Resolve (join_path cwd (v_daemon a)));
  peer ← ask (Resolve (join_path cwd (v_peer a)));
  info ← managed_metadata a c [cli; daemon; peer];
  ask (WriteText (out ++ ["metadata.json"]) (dumps_indent 2 info +:+ nl));;
  f ← fixture CORE (out ++ ["fixture"]) false;
  let modes := split "," (v_modes a) in
  lift (raise_if (negb (forallb (λ m, bool_decide (m ∈ ["U"; "D"; "E"; "S"])) modes)) (SystemExit 2));;
  rows ← managed_rows a f cli daemon peer out c modes;
  summary ← lift (comparison rows modes);
  ask (WriteText (out ++ ["summary.json"]) (dumps_indent 2 summary +:+ nl)).
End managed.

Section releases.
Context `{Calm} `{!PerfStops H} (CORE cwd tmp : path) (ENV environ : env) (sha256 : string → string).

Lemma managed_loop_releases f peer out c rows us : releases (managed_loop CORE ENV f peer out c rows us).
Proof.
  intros w0. revert rows. pose proof core_trial_releases.
  induction us as [|u us IH]; intros rows; cbn [managed_loop]; [solve_within|]. unfold managed_run. cbv zeta. solve_within.
Qed.
Lemma managed_main_releases order a : releases (managed_main CORE cwd tmp ENV environ sha256 order a).
Proof.
  intros w0. unfold managed_main, managed_metadata, managed_rows, hash_file. cbv zeta.
  pose proof private_namespace_quiet. pose proof managed_loop_releases. solve_within.
Qed.
End releases.

(** The whole program on the sample machine. *)
Definition sample_managed : managed_args :=
  {| v_cli := "cli"; v_daemon := "veild"; v_peer := "peer"; v_out := "out"; v_reps := 1; v_bytes := 1; v_rounds := 100;
     v_modes := "U,S"; v_cores := "14,22,17,18" |}.
Example managed_runs :
  (@managed_main (sample_os 116) ["r"] ["w"] ["tmp"] [] isolated_environ id (λ _ _ l, rev l) sample_managed nothing).1 = Ok ().
Proof. by vm_compute. Qed.
