(* ===== verification/TrafficTrial.v ===== *)
(** * Trials of the traffic shapes

    [Website], [fetch], [trial] and the main program of
    [veil-core/scripts/traffic_shapes.py]. *)

From S2P Require Import Prelude.
From S2P Require Import PyText.
From S2P Require Import PyBytes.
From S2P Require Import Json.
From S2P Require Import JsonRoundtrip.
From S2P Require Import Numbers.
From S2P Require Import FileSystem.
From S2P Require Import Tools.
From S2P Require Import Shapes.
From S2P Require Import Machine.
From S2P Require Import Sockets.
From S2P Require Import Fixtures.
From S2P Require Import Stack.
From S2P Require Import Rig.
From S2P Require Import SampleMachine.
From S2P Require Import CoreRegression.
From Stdlib Require Import Ascii Strings.Byte.
#[local] Open Scope Z_scope.

(** ** The web site *)

(** [b"x" * size] *)
Definition filler (size : Z) : bytes := replicate (Z.to_nat size) x78.
(** [do_GET] answers with a status and, if it is 200, the body; otherwise [send_error] writes
    the page of the server. *)
Definition do_GET (path : string) : result (Z * option bytes) :=
  size ← py_int (sdrop 1 path);
  if (0 <=? size) && (size <=? Z.shiftl 1 20) then Ok (200, Some (filler size)) else Ok (400, None).

Definition get_path (size : Z) : string := "/" +:+ str size.
Definition request (size : Z) (close : bool) : string :=
  "GET " +:+ get_path size +:+ " HTTP/1.1" +:+ crlf +:+ "Host: cover.test" +:+ crlf +:+
  "Connection: " +:+ (if close then "close" else "keep-alive") +:+ crlf +:+ crlf.

Section traffic.
Context `{Os} (ROOT cwd : path) (ENV environ : env) (sha256 : string → string).

Definition fetch (c : nat) (size : Z) (close : bool) : py world () :=
  send_all c (encode (request size close));;
  '(status, data) ← on_fd c (HttpRead c);
  lift (raise_if (negb (status =? 200) || negb (bool_decide (data = filler size))) (ValueError "HTTPS body mismatch")).

(** ** [trial] *)

(** [enumerate(sizes)]: the last request closes. *)
Fixpoint fetch_each (c : nat) (sizes : list Z) : py world () :=
  match sizes with
  | [] => mret ()
  | size :: rest => fetch c size (bool_decide (rest = []));; fetch_each c rest
  end.
(** The capture of the web site, whose address is [("127.0.0.1", cover)]. *)
Definition direct_trial (cafile : string) (cover : Z) (sizes : list Z) : py scope Z :=
  tap ← inside (ask (TapOpen cover));
  push (CloseTap tap);;
  inside (c ← connect cafile ("127.0.0.1", tap) None; with_socket c (fetch_each c sizes));;
  mret tap.

Definition config_edit (role : string) (cfg : json) : result json :=
  cfg ← set_tls "record_padding" (JBool true) cfg;
  cfg ← jset "max_idle" (JNum 1) cfg;
  if String.eqb role "client" then set_tls "fingerprint" (JStr "chrome149") cfg else Ok cfg.
Definition edit_role (edit : string → json → result json) (f : credentials) (role : string) : py world () :=
  edit_json (folder f ++ [role +:+ ".json"]) (edit role).
(** [sc[0], cc[0] = binaries / "veil-openssl", binaries / "veil-batch"] *)
Definition veil_programs (binaries : path) (sc cc : program) : list string * list string :=
  (program_argv (binaries ++ ["veil-openssl"], sc.2), program_argv (binaries ++ ["veil-batch"], cc.2)).

(** One stream through the proxy, and the gap after it. *)
Definition proxied_fetch (cafile : string) (cp cover : Z) (size : Z) : py world () :=
  (c ← connect cafile ("127.0.0.1", cp) (Some ("127.0.0.1", cover)); with_socket c (fetch c size true));;
  ask (Sleep 20).
Definition reuse_error (log : string) : exn :=
  ValueError ("expected one physical tunnel and complete stream reuse: " +:+ log).
Definition one_tunnel (sizes : list Z) (log : string) : bool :=
  contains ("completed=" +:+ str (zlen sizes)) log && contains "accepted=2 " log.
Definition tunnel_trial (f : credentials) (binaries : path) (cafile : string) (cover : Z) (sizes : list Z)
    (dir : path) : py scope Z :=
  sp ← inside port; cp ← inside port;
  '(sc, cc) ← inside (configurations ROOT f "veil-opt-reality" sp cp cover);
  for_each (λ role, inside (edit_role config_edit f role)) ["client"; "server"];;
  let '(sc, cc) := veil_programs binaries sc cc in
  server ← Stack.launch ENV dir sc;
  inside (wait_port sp server);;
  tap ← inside (ask (TapOpen sp));
  push (CloseTap tap);;
  inside (edit_json (folder f ++ ["client.json"]) (set_server tap));;
  client ← Stack.launch ENV dir cc;
  inside (wait_port cp client);;
  for_each (λ size, inside (proxied_fetch cafile cp cover size)) sizes;;
  inside (stop client);;
  inside (stop server);;
  log ← inside (ask (ReadText (dir ++ ["process-0.log"])));
  lift (raise_if (negb (one_tunnel sizes log)) (reuse_error log));;
  mret tap.

(** [binaries] is [None] for the group [https]. *)
Definition traffic_body (f : credentials) (binaries : option path) (cafile : string) (cover : Z)
    (sizes : list Z) (dir : path) : py scope shape :=
  tap ← match binaries with
        | None => direct_trial cafile cover sizes
        | Some b => tunnel_trial f b cafile cover sizes dir
        end;
  ended ← inside (ask (TapDone tap 5000));
  lift (raise_if (negb ended) (TimeoutError "capture did not close"));;
  pieces ← inside (ask (TapPieces tap));
  lift (shapes (run_pump pump pieces)).
Definition trial (f : credentials) (binaries : option path) (cafile : string) (cover : Z) (sizes : list Z)
    (dir : path) : py world shape :=
  ask (Mkdir dir false false);;
  exit_stack (traffic_body f binaries cafile cover sizes dir).

(** ** [main] *)
Record traffic_args := { y_before : string; y_after : string; y_out : string; y_samples : Z }.

(** A run: the sample, the workload with its sizes, and the group with its binaries. *)
Record traffic_job := { j_sample : Z; j_workload : string; j_sizes : list Z; j_group : string; j_binaries : option path }.
Definition workloads : list (string * list Z) :=
  [("fresh", [64]); ("reuse", [64; 4096; 32768; 64; 4096; 32768])].
Definition traffic_jobs (samples : Z) (before after : path) : list traffic_job :=
  sample ← seqZ 0 samples;
  '(workload, sizes) ← workloads;
  '(group, binaries) ← [("https", None); ("before", Some before); ("after", Some after)];
  [{| j_sample := sample; j_workload := workload; j_sizes := sizes; j_group := group; j_binaries := binaries |}].

Definition pairs_json (rs : list (Z * Z)) : json := JArr (map (λ '(t, n), JArr [JNum t; JNum n]) rs).
Definition per_direction (g : direction → json) : json := JObj (map (λ d, (direction_name d, g d)) [Up; Down]).
Definition shape_fields (s : shape) : list (string * json) :=
  [("records", per_direction (λ d, pairs_json (s_records s d)));
   ("wire_bytes", per_direction (λ d, JNum (s_wire s d))); ("bursts", JArr (s_bursts s))].
Definition traffic_json (r : traffic_job * shape) : json :=
  let '(j, s) := r in
  JObj (shape_fields s ++ [("sample", JNum (j_sample j)); ("workload", JStr (j_workload j));
    ("group", JStr (j_group j)); ("body_bytes", JNum (sum_by id (j_sizes j)))]).
Definition run_traffic (f : credentials) (cover : Z) (out : path) (j : traffic_job) : py world (traffic_job * shape) :=
  s ← trial f (j_binaries j) (cert f) cover (j_sizes j)
        (out ++ [str (j_sample j) +:+ "-" +:+ j_workload j +:+ "-" +:+ j_group j]);
  mret (j, s).

Definition traffic_scope : string :=
  "owned loopback; Python/OpenSSL HTTPS reference; encrypted handshake records included in type 23; no browser matching or censorship classification".
Definition traffic_reuse : string :=
  "HTTPS reference reuses one TLS connection; Veil reuses one outer connection for six independent inner TLS connections; 20ms harness gaps are not protocol delays".
Definition traffic_row_of (r : traffic_job * shape) : traffic_row :=
  {| t_workload := j_workload r.1; t_group := j_group r.1; t_shape := r.2 |}.

(** The rows; the web site is stopped also when a trial fails. *)
Definition traffic_rows (a : traffic_args) (f : credentials) (cover : Z) (before after out : path) :
    py world (list (traffic_job * shape)) :=
  try_finally (mapM_py (run_traffic f cover out) (traffic_jobs (y_samples a) before after)) (ask (StopSite cover)).
Definition traffic_main (a : traffic_args) : py world () :=
  own ← private_namespace environ;
  lift (raise_if (negb own) (SystemExit 2));;
  lift (raise_if (y_samples a <? 2) (SystemExit 2));;
  out ← ask (Resolve (join_path cwd (y_out a)));
  ask (Mkdir out true false);;
  f ← fixture ROOT (out ++ ["fixture"]) false;
  cover ← ask (ServeSite (cert f) (key f));
  before ← ask (Resolve (join_path cwd (y_before a)));
  after ← ask (Resolve (join_path cwd (y_after a)));
  rows ← traffic_rows a f cover before after out;
  summary ← lift (traffic_summary (map traffic_row_of rows));
  hashes ← mapM_py (hash_file sha256)
    (root ← [before; after]; [root ++ ["veil-batch"]; root ++ ["veil-openssl"]]);
  ask (WriteText (out ++ ["result.json"]) (dumps_indent 2 (JObj
    [("metadata", JObj [("scope", JStr traffic_scope); ("reuse", JStr traffic_reuse);
                        ("binaries", JObj (dict_update hashes []))]);
     ("summary", summary); ("samples", JArr (map traffic_json rows))]) +:+ nl)).
End traffic.

(** ** What a trial leaves *)
Section covers.
Context `{Os} (ROOT : path) (ENV : env) (w0 : world).

Lemma fetch_quiet c size close : quiet (fetch c size close).
Proof. intros R T F. unfold fetch. solve_within. Qed.
#[local] Hint Resolve fetch_quiet : within.
Lemma fetch_each_quiet c sizes : quiet (fetch_each c sizes).
Proof. intros R T F. induction sizes as [|size sizes IH]; simpl; solve_within. Qed.
Lemma proxied_fetch_quiet cafile cp cover size : quiet (proxied_fetch cafile cp cover size).
Proof.
  intros R T F. unfold proxied_fetch. apply within_bind; [|solve_within].
  apply socket_quiet; [apply connect_opens|]. intros h. apply fetch_quiet.
Qed.
Lemma direct_quiet cafile tap sizes :
  quiet (c ← connect cafile ("127.0.0.1", tap) None; with_socket c (fetch_each c sizes)).
Proof. apply socket_quiet; [apply connect_opens|]. intros h. apply fetch_each_quiet. Qed.
Lemma edit_role_quiet edit f role : quiet (edit_role edit f role).
Proof. intros R T F. unfold edit_role. solve_within. Qed.
#[local] Hint Resolve proxied_fetch_quiet direct_quiet edit_role_quiet : within.

Lemma direct_trial_covers cafile cover sizes : keeps (covers w0) (direct_trial cafile cover sizes).
Proof. unfold direct_trial. solve_within. Qed.
Lemma tunnel_trial_covers f b cafile cover sizes dir :
  keeps (covers w0) (tunnel_trial ROOT ENV f b cafile cover sizes dir).
Proof. unfold tunnel_trial. solve_within. Qed.
#[local] Hint Resolve direct_trial_covers tunnel_trial_covers : within.
Lemma traffic_body_covers f b cafile cover sizes dir :
  keeps (covers w0) (traffic_body ROOT ENV f b cafile cover sizes dir).
Proof. unfold traffic_body. solve_within. Qed.
End covers.

Lemma traffic_restored `{Calm} ROOT ENV f b cafile cover sizes dir w :
  tidy w → restored w (trial ROOT ENV f b cafile cover sizes dir w).2.
Proof.
  apply restored_after; [apply ask_quiet|]. intros _ w1 Hw.
  apply exit_stack_restored; [done|apply traffic_body_covers].
Qed.

Section main.
Context `{Calm} (ROOT cwd : path) (ENV environ : env) (sha256 : string → string).
Lemma trial_quiet f b cafile cover sizes dir : quiet (trial ROOT ENV f b cafile cover sizes dir).
Proof. apply restored_quiet. intros w. apply traffic_restored. Qed.
Lemma traffic_main_quiet a : quiet (traffic_main ROOT cwd ENV environ sha256 a).
Proof.
  pose proof trial_quiet. pose proof fixture_quiet. intros R T F.
  unfold traffic_main, traffic_rows, run_traffic, private_namespace, hash_file. solve_within.
Qed.
End main.

(** ** [int(str(z))] *)
Lemma all_chars_srev f a : all_chars f (srev a) = all_chars f a.
Proof.
  induction a as [|c a IH]; [done|]. unfold srev in *. cbn [srev_app]. rewrite srev_app_acc, all_chars_app, IH. cbn.
  by rewrite andb_true_r, andb_comm.
Qed.
Definition no_space (c : ascii) : bool := negb (is_space c).
Lemma strip_id a : all_chars no_space a = true → strip a = a.
Proof.
  assert (∀ b, all_chars no_space b = true → lstrip b = b) as Hl.
  { intros [|c b] Hb; [done|]. cbn in Hb |- *. apply andb_true_iff in Hb as [Hc _].
    unfold no_space in Hc. by destruct (is_space c). }
  intros Ha. unfold strip, rstrip. rewrite (Hl a Ha), Hl by by rewrite all_chars_srev. apply srev_involutive.
Qed.

Lemma digit_cases c : is_digit c = true →
  no_space c = true ∧ Ascii.eqb c "_" = false ∧ Ascii.eqb c "-" = false ∧ Ascii.eqb c "+" = false ∧
  is_Some (digit_value c).
Proof.
  intros Hc. unfold digit_value. rewrite Hc. destruct c as [[] [] [] [] [] [] [] []]; vm_compute in Hc; try done;
    (split_and!; [reflexivity..|by eexists]).
Qed.
Lemma digits_no_space a : all_chars is_digit a = true → all_chars no_space a = true.
Proof.
  induction a as [|c a IH]; [done|]. cbn. intros [Hc Ha]%andb_true_iff.
  destruct (digit_cases c Hc) as (-> & _). by apply IH.
Qed.
Lemma int_digits_value acc a b : all_chars is_digit a = true → (b || negb (String.eqb a "")) = true →
  int_digits acc b a = digits_value acc a.
Proof.
  revert acc b. induction a as [|c a IH]; intros acc b Ha Hb; [by destruct b|]. cbn in Ha |- *.
  apply andb_true_iff in Ha as [Hc Ha]. destruct (digit_cases c Hc) as (_ & -> & _ & _ & [d ->]). cbn. by apply IH.
Qed.

(** The digits of a positive number, with a sign before them. *)
Lemma digits_int x : (0 < x)%N →
  py_int (pretty_N_go x "") = Ok (Z.of_N x) ∧ py_int ("-" +:+ pretty_N_go x "") = Ok (- Z.of_N x).
Proof.
  intros Hx. destruct (pretty_N_go_digits x "" Hx) as (Hv & Hd & c & t & Ht & Hc & _). cbn in Hd.
  destruct (digit_cases c Hc) as (_ & _ & Hm & Hp & _).
  assert (int_digits 0 false (pretty_N_go x "") = Some (Z.of_N x)) as Hi.
  { rewrite int_digits_value; [done..|]. by rewrite Ht. }
  assert (all_chars no_space (pretty_N_go x "") = true) as Hns by by apply digits_no_space.
  clear Hv Hd. generalize dependent (pretty_N_go x ""). intros s Ht Hi Hns. split; unfold py_int.
  - rewrite strip_id by done. rewrite Ht in Hi |- *. rewrite Hm, Hp, Hi. cbn. by destruct x.
  - rewrite strip_id by by rewrite all_chars_app, Hns. rewrite sapp_cons, sapp_nil_l.
    change (Ascii.eqb "-" "-") with true. cbn -[int_digits]. rewrite Hi. cbn. by destruct x.
Qed.
Lemma py_int_str z : py_int (str z) = Ok z.
Proof.
  destruct z as [|p|p]; [done| |].
  - exact (proj1 (digits_int (Npos p) ltac:(lia))).
  - exact (proj2 (digits_int (Npos p) ltac:(lia))).
Qed.

(** ** [fetch] and [do_GET] *)

(** The last bytes sent on a socket. *)
Definition sent_on (h : nat) (e : event) : option bytes :=
  match question e with SendAll g d => if decide (g = h) then Some d else None | _ => None end.
Definition last_sent (h : nat) (l : list event) : option bytes := head (omap (sent_on h) l).

(** Documented behaviour of [http.server] and [http.client]: the handler gets the path of the
    request, the client its status and body; an exception of the handler closes the connection. *)
Class Site `(Os) (error_page : bytes) : Prop := {
  site_sends : ∀ l h d, os l (SendAll h d) = Ok ();
  site_answers : ∀ l h size close, last_sent h l = Some (encode (request size close)) →
    os l (HttpRead h) =
      match do_GET (get_path size) with
      | Ok (status, body) => Ok (status, default error_page body)
      | Err _ => Err ConnectionResetError
      end }.

(** The client and the web site of the measurement agree on every size: [fetch] of [size]
    succeeds exactly when [0 <= size <= 2^20], on either kind of connection, and otherwise raises
    [ValueError]. *)
Theorem fetch_served `{Site} c size close w : is_Some (fds w !! c) →
  (fetch c size close w).1 =
    if decide (0 <= size <= 2 ^ 20) then Ok () else Err (ValueError "HTTPS body mismatch").
Proof.
  intros [q Hc]. unfold fetch, send_all, on_fd, gets, ask, lift, mbind, py_bind. rewrite Hc, site_sends.
  cbn [fds past]. rewrite Hc. rewrite (site_answers _ c size close).
  2:{ unfold last_sent. cbn. by rewrite decide_True. }
  unfold do_GET, get_path. change (sdrop 1 ("/" +:+ str size)) with (str size). rewrite py_int_str. cbn -[Z.shiftl filler str].
  change (Z.shiftl 1 20) with (2 ^ 20).
  destruct (Z.leb_spec 0 size), (Z.leb_spec size (2 ^ 20)); cbn -[filler Z.pow].
  - by rewrite bool_decide_true, decide_True.
  - by rewrite decide_False by lia.
  - by rewrite decide_False by lia.
  - by rewrite decide_False by lia.
Qed.

(** A web site that reads the path of the request. *)
Lemma str_no_space z : all_chars no_space (str z) = true.
Proof.
  assert (∀ p, all_chars no_space (pretty_N_go (Npos p) "") = true) as Hp.
  { intros p. destruct (pretty_N_go_digits (Npos p) "" ltac:(lia)) as (_ & Hd & _). by apply digits_no_space. }
  destruct z as [|p|p]; [done|exact (Hp p)|].
  change (str (Zneg p)) with ("-" +:+ pretty_N_go (Npos p) ""). by rewrite all_chars_app, Hp.
Qed.
Lemma no_space_any a : all_chars no_space a = true → any_char (Ascii.eqb " ") a = false.
Proof.
  induction a as [|c a IH]; [done|]. cbn -[Ascii.eqb]. intros [Hc Ha]%andb_true_iff. rewrite IH, orb_false_r by done.
  apply Ascii.eqb_neq. by intros <-.
Qed.
Definition decode (d : bytes) : string := String.string_of_list_ascii (map ascii_of_byte d).
Lemma decode_encode s : decode (encode s) = s.
Proof.
  unfold decode, encode. rewrite map_map, (map_ext _ id), map_id; [apply String.string_of_list_ascii_of_string|].
  apply ascii_of_byte_of_ascii.
Qed.
Definition requested (text : string) : string :=
  match drop_prefix "GET " text with Some t => before_first " " t | None => "" end.
Lemma requested_request size close : requested (request size close) = get_path size.
Proof.
  unfold requested, request, before_first.
  change (drop_prefix "GET " ("GET " +:+ ?x)) with (Some x). cbv iota.
  change (" HTTP/1.1" +:+ ?x) with (char1 " " +:+ "HTTP/1.1" +:+ x).
  change (cut " ") with (cut (char1 " ")). rewrite cut_char_app; [done|].
  unfold get_path. apply no_space_any. rewrite all_chars_app, str_no_space. done.
Qed.

Definition site_os : Os := λ A l c,
  match c in call A return result A with
  | SendAll _ _ => Ok ()
  | HttpRead h =>
      match last_sent h l with
      | Some d =>
          match do_GET (requested (decode d)) with
          | Ok (status, body) => Ok (status, default [] body)
          | Err _ => Err ConnectionResetError
          end
      | None => Err ConnectionResetError
      end
  | _ => Err (OSError "unused")
  end.
#[export] Instance site_site : @Site site_os [].
Proof.
  split; [done|]. intros l h size close Hl. cbn. by rewrite Hl, decode_encode, requested_request.
Qed.

Lemma fetch_served_witness :
  (@fetch site_os 0 64 true one_socket).1 = Ok () ∧
  (@fetch site_os 0 (-5) true one_socket).1 = Err (ValueError "HTTPS body mismatch").
Proof.
  split.
  - exact (@fetch_served site_os [] site_site 0 64 true one_socket ltac:(by eexists)).
  - exact (@fetch_served site_os [] site_site 0 (-5) true one_socket ltac:(by eexists)).
Defined.

(** On the sample machine a trial of either group runs to its end. *)
Example traffic_trial_1 :
  is_ok (@trial (sample_os 1) ["r"] [] sample_credentials (Some ["b"]) "ca" 8443 [3] ["t"; "1"] nothing).1 = true ∧
  is_ok (@trial (sample_os 1) ["r"] [] sample_credentials None "ca" 8443 [3; 3] ["t"; "2"] nothing).1 = true.
Proof. split; vm_compute; reflexivity. Qed.
