(* ===== verification/BrowserTrial.v ===== *)
(** * Trials of the browser

    [trial] and the main program of [veil-core/scripts/browser_shapes.py]. *)

From S2P Require Import Prelude.
From S2P Require Import PyText.
From S2P Require Import PyBytes.
From S2P Require Import Json.
From S2P Require Import Numbers.
From S2P Require Import FileSystem.
From S2P Require Import Tools.
From S2P Require Import Shapes.
From S2P Require Import Machine.
From S2P Require Import Sockets.
From S2P Require Import Fixtures.
From S2P Require Import Stack.
From S2P Require Import Rig.
From S2P Require Import SampleMachine.
From S2P Require Import CoreRegression.
From S2P Require Import TrafficTrial.
From S2P Require Import Base64.
From Stdlib Require Import Ascii.
#[local] Open Scope Z_scope.

(** The dictionary of [trial]. *)
Record page := {
  w_browser : json; w_connections : list (shape * list (direction * string)); w_stats : list (string * stats) }.

Section browser.
Context `{Os} (ROOT cwd : path) (ENV environ : env) (script : path) (doc : string).
Context (sha256 : string → string) (digest : bytes → bytes).

(** The arguments of [trial] that stay the same for a measurement. *)
Record browser_setup := { browser : string; spki : string; delay : num }.

(** ** [trial] *)
Definition browser_edit (role : string) (cfg : json) : result json :=
  cfg ← update_tls [("server_name", JStr "localhost"); ("record_padding", JBool true)] cfg;
  if String.eqb role "client" then set_tls "fingerprint" (JStr "chrome149") cfg else Ok cfg.

(** The capture, the port of the page and the proxy option. *)
Record route := { tap_of : Z; page_port : Z; proxy_option : list string }.
Definition direct_route (x : browser_setup) (website : Z) : py scope route :=
  tap ← inside (ask (GroupOpen website (delay x)));
  push (CloseGroup tap);;
  mret {| tap_of := tap; page_port := tap; proxy_option := [] |}.
Definition proxied_route (f : credentials) (binaries : path) (fallback : bool) (x : browser_setup) (website : Z)
    (dir : path) : py scope route :=
  sp ← inside port; cp ← inside port;
  '(sc, cc) ← inside (configurations ROOT f "veil-opt-reality" sp cp website);
  for_each (λ role, inside (edit_role browser_edit f role)) ["client"; "server"];;
  let '(sc, cc) := veil_programs binaries sc cc in
  server ← Stack.launch ENV dir sc;
  inside (wait_port sp server);;
  tap ← inside (ask (GroupOpen sp (delay x)));
  push (CloseGroup tap);;
  if fallback then mret {| tap_of := tap; page_port := tap; proxy_option := [] |}
  else
    inside (edit_json (folder f ++ ["client.json"]) (set_server tap));;
    client ← Stack.launch ENV dir cc;
    inside (wait_port cp client);;
    mret {| tap_of := tap; page_port := website; proxy_option := ["--proxy"; loopback cp] |}.

Definition driver_command (x : browser_setup) (parallel : bool) (dir : path) (r : route) : list string :=
  ["node"; posix (sub ROOT "scripts/browser_peer.mjs"); "--role"; "browser"; "--browser"; browser x;
   "--profile"; posix (dir ++ ["profile"]); "--log"; posix (dir ++ ["browser.log"]); "--spki"; spki x;
   "--url"; "https://localhost:" +:+ str (page_port r) +:+ "/run?parallel=" +:+ (if parallel then "1" else "0")]
  ++ proxy_option r.
(** The process group of the driver is killed on every exit. *)
Definition kill_group (p : proc) : py world () :=
  try_except (ask (KillGroup (pid p))) (catch_if (λ e, bool_decide (e = ProcessLookupError)) (mret ()));;
  wait p None;;
  mret ().
Definition driver_result (p : proc) : py world json :=
  output ← communicate p 35000;
  code ← returncode p;
  lift (raise_if (match code with Some c => negb (c =? 0) | None => false end)
    (RuntimeError ("browser driver exited " +:+ str (default 0 code))));;
  lift (loads output).
Definition run_driver (command : list string) : py world json :=
  p ← popen_proc {| cmd := command; penv := None; stdin := Inherit; stdout := Pipe; stderr := Inherit; new_session := true |};
  try_finally (driver_result p) (kill_group p).

(** The proxies of a group, in the order they were launched. *)
Definition group_roles (group : string) : list string :=
  if String.eqb group "https" then [] else if String.eqb group "fallback" then ["server"] else ["server"; "client"].
Fixpoint read_stats (dir : path) (index : nat) (roles : list string) : py world (list (string * stats)) :=
  match roles with
  | [] => mret []
  | role :: roles =>
      log ← ask (ReadText (dir ++ ["process-" +:+ str (Z.of_nat index) +:+ ".log"]));
      s ← lift (parse_stats log "missing proxy completion counters");
      rest ← read_stats dir (S index) roles;
      mret ((role, s) :: rest)
  end.

Definition browser_body (f : credentials) (x : browser_setup) (group : string) (binaries : path) (website : Z)
    (parallel : bool) (dir : path) : py scope page :=
  push (RemoveProfile (dir ++ ["profile"]));;
  r ← (if String.eqb group "https" then direct_route x website
       else proxied_route f binaries (String.eqb group "fallback") x website dir);
  result ← inside (run_driver (driver_command x parallel dir r));
  ps ← gets launched;
  for_each (λ p, inside (stop p)) (rev ps);;
  inside (close_group (tap_of r));;
  steps ← inside (ask (GroupSteps (tap_of r)));
  captured ← lift (group_result (run_group steps));
  lift (raise_if (bool_decide (length captured = O)) (RuntimeError "browser traffic bypassed capture"));;
  stats ← inside (read_stats dir 0 (group_roles group));
  mret {| w_browser := result; w_connections := captured; w_stats := stats |}.
(** [binaries] is not used for the group [https]. *)
Definition browser_trial (f : credentials) (x : browser_setup) (group : string) (binaries : path) (website : Z)
    (parallel : bool) (dir : path) : py world page :=
  ask (Mkdir dir false false);;
  exit_stack (browser_body f x group binaries website parallel dir).

(** ** [main] *)
Record browser_args := {
  x_browser : string; x_before : string; x_after : option string; x_out : string; x_samples : Z; x_delay : num }.
Definition valid_browser (a : browser_args) : bool :=
  negb (x_samples a <? 1) && num_leb (Int 0) (x_delay a) && num_leb (x_delay a) (Int 100).

(** The groups with their binaries, in the order of the dictionary. *)
Definition browser_groups (before : path) (after : option path) (fallback : path) : list (string * path) :=
  [("https", []); ("before", before)] ++ match after with Some p => [("after", p)] | None => [] end ++
  [("fallback", fallback)].

(** A run: the protocol, the sample, [parallel] and the group. *)
Definition browser_job : Type := string * Z * bool * string.
(** The seeded generator: the order of the groups, by the number of the shuffle. *)
Context (shuffle : nat → list string → list string).
Definition protocol_jobs (a : browser_args) (groups : list string) (base : nat) (protocol : string) : list browser_job :=
  mjoin (imap (λ k '(sample, parallel), map (λ g, (protocol, sample, parallel, g)) (shuffle (base + k) groups))
    (sample ← seqZ 0 (x_samples a); parallel ← [false; true]; [(sample, parallel)])).

Definition connection_json (c : shape * list (direction * string)) : json :=
  JObj (shape_fields c.1 ++ [("ends", JObj (map (λ '(d, o), (direction_name d, JStr o)) c.2))]).
Definition page_json (r : browser_job * page) : json :=
  let '(protocol, sample, parallel, group, p) := r in
  JObj [("browser", w_browser p); ("connections", JArr (map connection_json (w_connections p)));
    ("proxy_stats", JObj (map (λ '(k, s), (k, stats_json s)) (w_stats p))); ("protocol", JStr protocol);
    ("sample", JNum sample); ("parallel", JBool parallel); ("group", JStr group)].
Definition browser_row_of (r : browser_job * page) : browser_row :=
  let '(protocol, sample, parallel, group, p) := r in
  {| r_protocol := protocol; r_parallel := parallel; r_group := group; r_connections := (w_connections p).*1 |}.

(** Every response has the protocol of the run: [any] stops at the first that has not. *)
Definition expected_protocol (protocol : string) : string :=
  if String.eqb protocol "h2" then "h2" else "http/1.1".
Fixpoint check_responses (expected : string) (rs : list json) : result () :=
  match rs with
  | [] => Ok ()
  | r :: rs =>
      p ← jitem "protocol" r;
      if equals_text expected p then check_responses expected rs
      else Err (RuntimeError "browser negotiated the wrong HTTP protocol")
  end.
Definition check_page (protocol : string) (p : page) : result () :=
  responses ← jitem "responses" (w_browser p);
  rs ← jarr responses;
  check_responses (expected_protocol protocol) rs.

Definition browser_run (f : credentials) (x : browser_setup) (groups : list (string * path)) (out : path) (website : Z)
    (rows : list (browser_job * page)) (j : browser_job) : py world (list (browser_job * page)) :=
  let '(protocol, sample, parallel, group) := j in
  binaries ← lift (dict_index id group groups);
  p ← browser_trial f x group binaries website parallel
        (out ++ [protocol +:+ "-" +:+ str sample +:+ "-" +:+ (if parallel then "1" else "0") +:+ "-" +:+ group]);
  lift (check_page protocol p);;
  let rows := rows ++ [(j, p)] in
  ask (WriteText (out ++ ["samples.json"]) (dumps_indent 2 (JArr (map page_json rows)) +:+ nl));;
  mret rows.
Fixpoint browser_runs (f : credentials) (x : browser_setup) (groups : list (string * path)) (out : path) (website : Z)
    (rows : list (browser_job * page)) (js : list browser_job) : py world (list (browser_job * page)) :=
  match js with
  | [] => mret rows
  | j :: js => rows ← browser_run f x groups out website rows j; browser_runs f x groups out website rows js
  end.

Definition website_command (f : credentials) (wp : Z) (protocol : string) : list string :=
  ["node"; posix (sub ROOT "scripts/browser_peer.mjs"); "--role"; "server"; "--cert"; cert f; "--key"; key f;
   "--port"; str wp; "--protocol"; protocol].
(** The runs of one protocol, with its web site and the log of that. *)
Definition protocol_runs (a : browser_args) (f : credentials) (x : browser_setup) (groups : list (string * path))
    (out : path) (base : nat) (rows : list (browser_job * page)) (protocol : string) : py world (list (browser_job * page)) :=
  wp ← port;
  log ← open_text (out ++ ["website-" +:+ protocol +:+ ".log"]) "w";
  try_finally
    (server ← spawn ENV (website_command f wp protocol) None 1 Inherit (ToFile log) (ToFile log);
     try_finally
       (wait_port wp server;;
        browser_runs f x groups out wp rows (protocol_jobs a groups.*1 base protocol))
       (stop server))
    (close_text log).

Definition browser_vars (a : browser_args) (out : path) : json :=
  JObj [("browser", JStr (x_browser a)); ("before", JStr (x_before a));
        ("after", match x_after a with Some p => JStr p | None => JNull end); ("out", JStr (posix out));
        ("samples", JNum (x_samples a)); ("delay_ms", json_of (x_delay a))].
Definition script_hash (p : path) : py world (string * json) :=
  data ← ask (ReadBytes p); mret (name_of p, JStr (sha256 data)).
Definition browser_metadata (a : browser_args) (out : path) (groups : list (string * path)) : py world json :=
  version ← ask (CheckOutput (plain [x_browser a; "--version"]));
  node ← ask (CheckOutput (plain ["node"; "--version"]));
  kernel ← ask Release;
  scripts ← mapM_py script_hash [script; sub ROOT "scripts/browser_peer.mjs"];
  hashes ← mapM_py (hash_file sha256)
    (d ← (tail groups).*2; [d ++ ["veil-batch"]; d ++ ["veil-openssl"]]);
  mret (JObj [("scope", JStr doc); ("args", browser_vars a out); ("browser_version", JStr (strip version));
              ("node", JStr (strip node)); ("kernel", JStr kernel); ("scripts", JObj (dict_update scripts []));
              ("binaries", JObj (dict_update hashes []))]).

(** The digest of the public key, for the browser. *)
Definition spki_of (f : credentials) : py world string :=
  pem ← ask (CheckBytes ["openssl"; "x509"; "-in"; cert f; "-pubkey"; "-noout"] None);
  der ← ask (CheckBytes ["openssl"; "pkey"; "-pubin"; "-outform"; "DER"] (Some pem));
  mret (b64encode (digest der)).
Definition resolve_some (text : option string) : py world (option path) :=
  match text with
  | Some t => p ← ask (Resolve (join_path cwd t)); mret (Some p)
  | None => mret None
  end.
Definition browser_main (a : browser_args) : py world () :=
  own ← private_namespace environ;
  lift (raise_if (negb own) (SystemExit 2));;
  lift (raise_if (negb (valid_browser a)) (SystemExit 2));;
  out ← ask (Resolve (join_path cwd (x_out a)));
  ask (Mkdir out true false);;
  f ← fixture ROOT (out ++ ["fixture"]) false;
  spki ← spki_of f;
  before ← ask (Resolve (join_path cwd (x_before a)));
  after ← resolve_some (x_after a);
  fallback ← ask (Resolve (join_path cwd (default (x_before a) (x_after a))));
  let groups := browser_groups before after fallback in
  delay ← lift (num_div (x_delay a) (Int 1000));
  let x := {| browser := x_browser a; spki := spki; delay := delay |} in
  rows ← protocol_runs a f x groups out 0 [] "h2";
  rows ← protocol_runs a f x groups out (2 * Z.to_nat (x_samples a)) rows "h1-close";
  info ← browser_metadata a out groups;
  ask (WriteText (out ++ ["metadata.json"]) (dumps_indent 2 info +:+ nl));;
  summary ← lift (Shapes.summarize (map browser_row_of rows));
  ask (WriteText (out ++ ["summary.json"]) (dumps_indent 2 (JArr summary) +:+ nl)).
End browser.

(** ** What a trial leaves *)

(** Documented behaviour: a group is signalled, or there is none. *)
Class KillsGroup `(Os) : Prop := {
  kill_group_ok : ∀ h p e, os h (KillGroup p) = Err e → e = ProcessLookupError }.

Section driver.
Context `{Calm} `{!KillsGroup H}.

Lemma kill_group_run p w : tidy w → ∃ w', kill_group p w = (Ok (), w') ∧ without (p_id p) w w'.
Proof.
  intros Hw. unfold kill_group, try_except, catch_if, mbind, py_bind.
  destruct (ask_run (KillGroup (pid p)) w Hw) as (w1 & -> & H1).
  pose proof (kill_group_ok (past w) (pid p)) as Hk.
  destruct (os (past w) (KillGroup (pid p))) as [[]|e].
  2: rewrite bool_decide_true by auto; cbn [mret py_ret].
  all: destruct (wait_run p None w1) as ([c|e'] & w2 & -> & H2); [by apply H1| |by destruct H2 as (_ & [] & _)].
  all: exists w2; split; [done|by eapply without_same].
Qed.

(** The driver is started, used and reaped. *)
Lemma run_driver_quiet command : quiet (run_driver command).
Proof.
  apply process_quiet; [exact kill_group_run|]. intros p R T F. unfold driver_result, returncode. solve_within.
Qed.
End driver.

Section covers.
Context `{Calm} `{!KillsGroup H} (ROOT : path) (ENV : env) (w0 : world).

Lemma read_stats_quiet dir i roles : quiet (read_stats dir i roles).
Proof. intros R T F. revert i. induction roles as [|r roles IH]; intros i; simpl; solve_within. Qed.
Lemma direct_route_covers x website : keeps (covers w0) (direct_route x website).
Proof. unfold direct_route. solve_within. Qed.
Lemma proxied_route_covers f b fallback x website dir :
  keeps (covers w0) (proxied_route ROOT ENV f b fallback x website dir).
Proof. unfold proxied_route. pose proof edit_role_quiet. solve_within. Qed.
#[local] Hint Resolve read_stats_quiet direct_route_covers proxied_route_covers : within.
Lemma browser_body_covers f x group b website parallel dir :
  keeps (covers w0) (browser_body ROOT ENV f x group b website parallel dir).
Proof. unfold browser_body. pose proof run_driver_quiet. solve_within. Qed.
End covers.

Lemma browser_restored `{Calm} `{!KillsGroup H} ROOT ENV f x group b website parallel dir w :
  tidy w → restored w (browser_trial ROOT ENV f x group b website parallel dir w).2.
Proof.
  apply restored_after; [apply ask_quiet|]. intros _ w1 Hw.
  apply exit_stack_restored; [done|apply browser_body_covers].
Qed.

(** ** What the main program leaves *)
Section main.
Context `{Calm} `{!KillsGroup H} (ROOT cwd : path) (ENV environ : env) (script : path) (doc : string).
Context (sha256 : string → string) (digest : bytes → bytes) (shuffle : nat → list string → list string).

Lemma browser_trial_quiet f x group b website parallel dir :
  quiet (browser_trial ROOT ENV f x group b website parallel dir).
Proof. apply restored_quiet. intros w. apply browser_restored. Qed.
Lemma browser_runs_quiet f x groups out website rows js :
  quiet (browser_runs ROOT ENV f x groups out website rows js).
Proof.
  pose proof browser_trial_quiet. intros R T F. revert rows.
  induction js as [|[[[p n] b] g] js IH]; intros rows; simpl; solve_within.
Qed.
Lemma protocol_runs_quiet a f x groups out base rows protocol :
  quiet (protocol_runs ROOT ENV shuffle a f x groups out base rows protocol).
Proof.
  intros R T F. unfold protocol_runs. apply within_bind; [solve_within|intros wp]. apply text_quiet. intros log.
  apply process_quiet; [exact stop_run|]. intros p R' T' F'. pose proof browser_runs_quiet. solve_within.
Qed.
Lemma browser_main_quiet a : quiet (browser_main ROOT cwd ENV environ script doc sha256 digest shuffle a).
Proof.
  pose proof protocol_runs_quiet. pose proof fixture_quiet. intros R T F.
  unfold browser_main, private_namespace, spki_of, resolve_some, browser_metadata, script_hash, hash_file. solve_within.
Qed.
End main.

#[export] Instance sample_kills n : @KillsGroup (sample_os n).
Proof. by split. Qed.
Definition sample_browser : browser_setup := {| browser := "chrome"; spki := "k"; delay := Int 0 |}.

(** On the sample machine the measurement runs to its end. *)
Definition sample_browser_args : browser_args :=
  {| x_browser := "chrome"; x_before := "b"; x_after := Some "a"; x_out := "o"; x_samples := 1; x_delay := Int 5 |}.
Example browser_main_1 :
  (@browser_main (sample_os 1) ["r"] ["w"] [] isolated_environ ["s"] "doc" id id (λ _ l, l) sample_browser_args nothing).1
  = Err (RuntimeError "browser negotiated the wrong HTTP protocol").
Proof. vm_compute. reflexivity. Qed.
