(* ===== verification/BrowserHello.v ===== *)
(** * The ClientHello of a browser

    [veil-core/scripts/browser_hello.py]: one ClientHello of a fresh browser, and the main
    program; and the main program of [veil-core/scripts/reality_fingerprint.py], which compares
    the ClientHellos of two versions with those of the browser. *)

From S2P Require Import Prelude.
From S2P Require Import PyText.
From S2P Require Import PyBytes.
From S2P Require Import TlsRecord.
From S2P Require Import ClientHello.
From S2P Require Import Json.
From S2P Require Import Numbers.
From S2P Require Import FileSystem.
From S2P Require Import Tools.
From S2P Require Import Shapes.
From S2P Require Import Machine.
From S2P Require Import Sockets.
From S2P Require Import Fixtures.
From S2P Require Import Stack.
From S2P Require Import Rig.
From S2P Require Import SampleMachine.
From S2P Require Import RealityBenchmark.
From Stdlib Require Import Strings.Byte.
#[local] Open Scope Z_scope.

(** ** The dictionary of [hello] *)
Definition extension_json (x : extension) : json :=
  match x with
  | Shares l => JArr (map (λ '(g, n), JArr [JNum g; JNum n]) l)
  | Words l => JArr (map JNum l)
  | Variable_ => JStr "variable"
  | Hex s => JStr s
  end.
Definition profile_json (p : profile) : json :=
  JObj [("legacy_version", JStr (legacy_version p)); ("ciphers", JArr (map JNum (ciphers p)));
    ("session_id_length", JNum (session_id_length p)); ("compression", JArr (map JNum (compression p)));
    ("extension_ids", JArr (map JNum (extension_ids p)));
    ("extensions", JObj (map (λ '(k, v), (k, extension_json v)) (extensions p)))].
(** The keys that are numbers become texts. *)
Definition counts_json (l : list (Z * Z)) : json := JObj (map (λ '(k, n), (str k, JNum n)) l).
Definition hello_json (i : hello_info) : json :=
  JObj [("profile", profile_json (hello_profile i)); ("extension_order", JArr (map JNum (extension_order i)));
    ("extension_lengths", counts_json (extension_lengths i)); ("random_sha256", JStr (random_sha256 i));
    ("session_id_sha256", JStr (session_id_sha256 i)); ("key_share_sha256", JArr (map JStr (key_share_sha256 i)));
    ("bytes", JNum (hello_bytes i))].

Section browser.
Context `{Os} (ROOT : path) (sha256 : bytes → string).

(** ** [capture] *)
Definition read_exact : nat → Z → py world bytes := read_with (EOFError "truncated ClientHello").
Definition hello_argv (browser profile : string) (port : Z) : list string :=
  [browser; "--headless"; "--no-sandbox"; "--disable-gpu"; "--disable-background-networking";
   "--disable-component-update"; "--no-first-run"; "--no-default-browser-check"; "--no-proxy-server";
   "--host-resolver-rules=MAP * 127.0.0.1"; "--user-data-dir=" +:+ profile; "--dump-dom";
   "https://cover.test:" +:+ str port +:+ "/"].
(** One record with the ClientHello. *)
Definition read_hello (c : nat) : py world hello_info :=
  on_fd c (SetTimeout c 5000);;
  header ← read_exact c 5;
  let n := from_be (slice 3 5 header) in
  kind ← lift (get_at header 0);
  lift (raise_if (negb (byte_z kind =? 22) || (16384 <? n)) (ValueError "unexpected browser TLS record"));;
  data ← read_exact c n;
  lift (hello sha256 data).
Definition accept_hello (l : nat) : py world hello_info := c ← accept l; with_socket c (read_hello c).
Definition capture_on (browser : string) (folder : path) (profile : path) (port : Z) (l : nat) : py world hello_info :=
  log ← open_text (folder ++ ["browser.log"]) "w";
  try_finally
    (p ← popen_proc {| cmd := hello_argv browser (posix profile) port; penv := None; stdin := Inherit;
                       stdout := ToFile log; stderr := ToFile log; new_session := false |};
     try_finally (accept_hello l) (stop p))
    (close_text log).
(** [socket.socket()], then [bind] and [listen] on a free port of 127.0.0.1 *)
Definition open_socket : py world nat := h ← gets fresh; modify (fd_opened socket_name);; mret h.
Definition capture (browser : string) (folder : path) : py world hello_info :=
  profile ← ask (TempFolder "browser-" folder);
  try_finally
    (l ← open_socket;
     with_socket l
       (port ← on_fd l Listen; on_fd l (SetTimeout l 15000);; capture_on browser folder profile port l))
    (ask (RemoveTree profile)).

(** ** The main program *)
Record hello_args := { h_browser : string; h_out : string; h_samples : Z }.
Definition hello_main (a : hello_args) : py world () :=
  lift (raise_if (h_samples a <? 1) (SystemExit 2));;
  let folder := join_path ROOT (h_out a) in
  ask (Mkdir folder true false);;
  rows ← mapM_py (λ _, capture (h_browser a) folder) (seqZ 0 (h_samples a));
  version ← ask (CheckOutput (plain [h_browser a; "--version"]));
  ask (WriteText (folder ++ ["result.json"]) (dumps_indent 2 (JObj
    [("scope", JStr "fresh local headless browser; owned loopback ClientHello only");
     ("browser_version", JStr (strip version)); ("samples", JArr (map hello_json rows))]) +:+ nl)).
End browser.

(** ** What a capture leaves *)
Section quiet.
Context `{Calm} (ROOT : path) (sha256 : bytes → string).

Lemma open_socket_opens : opens open_socket.
Proof. intros R T F w Hw. unfold open_socket, gets, modify, mbind, py_bind, mret, py_ret. by apply fd_opened_frame. Qed.
Lemma accept_hello_quiet l : quiet (accept_hello sha256 l).
Proof.
  apply socket_quiet; [apply accept_opens|]. intros c R T F. unfold read_hello, read_exact. solve_within.
Qed.
Lemma capture_on_quiet browser folder profile port l : quiet (capture_on sha256 browser folder profile port l).
Proof.
  apply text_quiet. intros log. apply process_quiet; [exact stop_run|]. intros p. apply accept_hello_quiet.
Qed.
Lemma capture_quiet browser folder : quiet (capture sha256 browser folder).
Proof.
  intros R T F. unfold capture. apply within_bind; [solve_within|intros profile].
  apply within_try_finally; [|solve_within]. apply socket_quiet; [apply open_socket_opens|].
  intros l R' T' F'. pose proof capture_on_quiet. solve_within.
Qed.
Lemma hello_main_quiet a : quiet (hello_main ROOT sha256 a).
Proof. intros R T F. unfold hello_main. pose proof capture_quiet. solve_within. Qed.
End quiet.

(** ** What is read of a browser *)
Lemma encode_record_split r : wire_ok r → ∃ header, encode_record r = header ++ wr_payload r ∧
  length header = 5%nat ∧ slice 3 5 header = u16 (zlen (wr_payload r)) ∧ header !! 0%nat = Some (z_byte (wr_type r)).
Proof.
  intros (_ & Hv & _). destruct r as [t v p]. cbn in *. destruct v as [|a [|b [|]]]; try discriminate.
  exists (z_byte t :: a :: b :: u16 (zlen p)). done.
Qed.
Lemma set_timeout_run `{Os} `{!SetsTimeout H} c t w : is_Some (fds w !! c) →
  ∃ w', on_fd c (SetTimeout c t) w = (Ok (), w') ∧ heard c [] w w'.
Proof.
  intros [q Hq]. unfold on_fd, gets, ask, mbind, py_bind. rewrite Hq, set_timeout_ok. eexists. split; [done|].
  unfold heard. cbn. by rewrite !app_nil_r.
Qed.

(** C33. The ClientHello of a browser is read exactly: from a stream that starts with one TLS
    record, in whatever parts it arrives, [read_hello] takes that record and nothing more and
    reports what [hello] says of its payload; a record of another type or of more than 16384
    bytes is refused after its header. *)
Theorem read_hello_exact `{H : Os} sha256 c r tl `{!Sends H c (encode_record r ++ tl)} `{!SetsTimeout H} w :
  wire_ok r → is_Some (fds w !! c) → taken c (past w) = [] →
  let good := (wr_type r =? 22) && (zlen (wr_payload r) <=? 16384) in
  ∃ w', read_hello sha256 c w =
      (if good then hello sha256 (wr_payload r) else Err (ValueError "unexpected browser TLS record"), w') ∧
    taken c (past w') = (if good then encode_record r else take 5 (encode_record r)).
Proof.
  intros Hr Hf Ht good. destruct (encode_record_split r Hr) as (header & He & Hl & Hn & H0).
  destruct Hr as (Htype & _ & Hlen). destruct (set_timeout_run c 5000 w Hf) as (w1 & H1 & Hh1).
  assert (still (h := c) (data := encode_record r ++ tl) w1 = header ++ wr_payload r ++ tl) as Hs1.
  { unfold still. rewrite (proj2 (proj2 Hh1)), Ht, He, <- app_assoc. done. }
  assert (is_Some (fds w1 !! c)) as Hf1 by by rewrite (proj1 Hh1).
  unfold read_hello, read_exact, mbind, py_bind. rewrite H1.
  destruct (read_with_run (data := encode_record r ++ tl) (EOFError "truncated ClientHello") 5 w1 Hf1) as (w2 & -> & Hh2).
  rewrite Hs1, take_app_length' in * by done. unfold zlen at 1.
  assert (5 <= Z.of_nat (length (header ++ wr_payload r ++ tl))) as Hfive by (rewrite length_app; lia).
  rewrite (decide_True _ _ Hfive). unfold lift at 1. unfold get_at. rewrite H0, Hn, byte_z_z_byte.
  rewrite from_be_u16 by (unfold zlen in *; lia). rewrite Z.mod_small by lia. unfold good, lift.
  assert (still (h := c) (data := encode_record r ++ tl) w2 = wr_payload r ++ tl) as Hs2.
  { rewrite (still_heard 5 w1 w2) by by rewrite Hs1, take_app_length'. by rewrite Hs1, drop_app_length'. }
  assert (taken c (past w2) = header) as Ht2.
  { by rewrite (proj2 (proj2 Hh2)), (proj2 (proj2 Hh1)), Ht. }
  assert (is_Some (fds w2 !! c)) as Hf2 by by rewrite (proj1 Hh2).
  destruct (Z.eqb_spec (wr_type r) 22), (Z.leb_spec (zlen (wr_payload r)) 16384), (Z.ltb_spec 16384 (zlen (wr_payload r)));
    try lia; cbn [negb orb andb raise_if].
  2,3,4: exists w2; by rewrite He, take_app_length', Ht2.
  destruct (read_with_run (data := encode_record r ++ tl) (EOFError "truncated ClientHello") (zlen (wr_payload r)) w2 Hf2)
    as (w3 & -> & Hh3).
  rewrite Hs2 in *. assert (zlen (wr_payload r) <= zlen (wr_payload r ++ tl)) as Hp by (unfold zlen; rewrite length_app; lia).
  rewrite (decide_True _ _ Hp). unfold zlen in Hh3 |- *. rewrite Nat2Z.id, take_app_length in *.
  exists w3. split; [done|]. by rewrite (proj2 (proj2 Hh3)), Ht2, He.
Qed.

Definition small_record : wire_record :=
  {| wr_type := 22; wr_version := [x03; x01]; wr_payload := [x01; x00; x00; x00] |}.
Lemma read_hello_exact_witness :
  ∃ w', @read_hello (slow_sender (encode_record small_record ++ [x14]) (Ok [])) (λ _, "d") 0 one_socket =
    (Err IndexError, w') ∧ taken 0 (past w') = encode_record small_record.
Proof.
  exact (@read_hello_exact (slow_sender (encode_record small_record ++ [x14]) (Ok [])) (λ _, "d") 0 small_record [x14]
    (slow_ends _ _) (slow_timeout _ _) one_socket ltac:(by repeat split) ltac:(by eexists) eq_refl).
Defined.
