(* ===== verification/ServiceSmoke.v ===== *)
(** * The service in a private namespace

    [veil-service/scripts/smoke.py]: [veild] is driven by [veilctl] through its states - stopped,
    running, changed, restarted, killed, started with a busy port. *)

From S2P Require Import Prelude.
From S2P Require Import PyText.
From S2P Require Import PyBytes.
From S2P Require Import Json.
From S2P Require Import Numbers.
From S2P Require Import FileSystem.
From S2P Require Import Tools.
From S2P Require Import Machine.
From S2P Require Import Sockets.
From S2P Require Import Base64.
From S2P Require Import Fixtures.
From S2P Require Import Stack.
From S2P Require Import Rig.
From S2P Require Import Smoke.
From S2P Require Import BrowserHello.
From Stdlib Require Import Strings.Byte.
#[local] Open Scope Z_scope.

(** [key in v] *)
Definition jin (key : string) (v : json) : result bool :=
  match v with
  | JObj kvs => Ok (bool_decide (key ∈ kvs.*1))
  | JArr l => Ok (existsb (equals_text key) l)
  | JStr s => Ok (contains key s)
  | _ => Err TypeError
  end.
(** [v["state"] == text], [v[key]] as a condition, [v[key].split(":")] *)
Definition has_state (text : string) (v : json) : result bool := s ← jitem "state" v; Ok (equals_text text s).
Definition flag (key : string) (v : json) : result bool := x ← jitem key v; Ok (truthy x).
Definition fields (key : string) (v : json) : result (list string) :=
  x ← jitem key v; match x with JStr s => Ok (split ":" s) | _ => Err AttributeError end.
Definition expect (r : result bool) : result () := b ← r; check b.

(** [base64.urlsafe_b64encode(bytes(range(32))).decode().rstrip("=")] *)
Definition test_secret : string := urlsafe (map z_byte (seqZ 0 32)).
Definition smoke_config : json :=
  JObj [("role", JStr "client"); ("listen", JStr "127.0.0.1:0"); ("server", JStr "127.0.0.1:9"); ("secret", JStr test_secret);
        ("tls", JObj [("mode", JStr "tls"); ("server_name", JStr "cover.test")])].

Section smoke.
Context `{Os} (bin folder : path).

Definition state_dir : path := folder ++ ["state"].
Definition control : path := sub folder "run/control.sock".
Definition daemon_command : list string :=
  [posix (bin ++ ["veild"]); "-state-dir"; posix state_dir; "-socket"; posix control].

(** ** [ctl] *)
Definition ctl_argv (action : string) (config : option json) : list string :=
  [posix (bin ++ ["veilctl"]); "-socket"; posix control] ++
  match config with Some _ => ["-config"; "-"] | None => [] end ++ [action].
(** An empty configuration is not printed. *)
Definition ctl_input (config : option json) : string :=
  match config with Some v => if truthy v then dumps v else "" | None => "" end.
Definition ctl_status (output : string) : result json :=
  result ← loads output;
  failed ← jin "error" result;
  raise_if failed (AssertionError (dumps result));;
  jitem "status" result.
Definition ctl (action : string) (config : option json) : py world json :=
  '(code, output, _) ← ask (RunCaptured (ctl_argv action config) (Some (ctl_input config)) 10000);
  lift (raise_if (negb (code =? 0)) (CalledProcessError code));;
  lift (ctl_status output).

(** ** [launch] *)
Definition not_ready (e : exn) : bool :=
  is_os_error e || match e with CalledProcessError _ => true | _ => false end.
Definition answers : py world bool :=
  try_except (ctl "status" None;; mret true) (catch_if not_ready (ask (Sleep 20);; mret false)).
Fixpoint await_daemon (n : nat) (child : proc) : py world () :=
  match n with
  | O => raise (TimeoutError "daemon did not start")
  | S n =>
      code ← poll child;
      match code with
      | Some _ => raise (RuntimeError "daemon exited during startup")
      | None => up ← answers; if (up : bool) then mret () else await_daemon n child
      end
  end.
Definition launch_daemon (log : nat) (autostart : bool) : py rig proc :=
  child ← on (popen_proc {| cmd := daemon_command ++ (if autostart then ["-autostart"] else []); penv := None;
                            stdin := Inherit; stdout := ToFile log; stderr := ToFile log; new_session := false |});
  modify (add_proc child);;
  on (await_daemon 100 child);;
  mret child.

(** ** The checks *)
Definition expect_ctl (action : string) (config : option json) (text : string) : py world () :=
  v ← ctl action config; lift (expect (has_state text v)).
Definition terminate_cleanly (p : proc) : py world () :=
  terminate p;; code ← wait p (Some 5000); lift (check (code =? 0)).

(** [saved["restart_required"] and saved["listen"] == status["listen"]] *)
Definition saved_meanwhile (status saved : json) : result bool :=
  required ← flag "restart_required" saved;
  if (required : bool) then a ← jitem "listen" saved; b ← jitem "listen" status; Ok (json_eqb a b) else Ok false.
(** A connection survives a saved change and is closed by the restart. *)
Definition with_connection (cfg status : json) (active : nat) : py world json :=
  send_all active [x05];;
  cfg ← lift (jset "max_connections" (JNum 65) cfg);
  saved ← ctl "save" (Some cfg);
  lift (expect (saved_meanwhile status saved));;
  send_all active [x01; x00];;
  reply ← recv active 2;
  lift (raise_if (negb (bool_decide (reply = [x05; x00]))) (AssertionError "save interrupted active connection"));;
  started ← ctl "start" None;
  lift (expect (flag "restart_required" started));;
  changed ← ctl "restart" None;
  lift (required ← flag "restart_required" changed; check (negb required));;
  rest ← recv active 1;
  lift (raise_if (negb (bool_decide (rest = []))) (AssertionError "restart left old connection open"));;
  mret cfg.
Definition live_change (cfg : json) : py world json :=
  expect_ctl "validate" (Some cfg) "stopped";;
  present ← ask (Exists (state_dir ++ ["config.json"]));
  lift (check (negb present));;
  expect_ctl "save" (Some cfg) "stopped";;
  status ← ctl "start" None;
  address ← lift (fields "listen" status);
  host ← lift (from_option_or IndexError (address !! 0%nat));
  port ← lift (text ← from_option_or IndexError (address !! 1%nat); py_int text);
  active ← dial host port 3000;
  with_socket active (with_connection cfg status active).

(** [duplicate.returncode != 0 and "owns this state directory" in duplicate.stderr] *)
Definition exclusive_state : py world () :=
  '(code, _, error) ← ask (RunCaptured daemon_command None 5000);
  lift (raise_if (negb (negb (code =? 0) && contains "owns this state directory" error)) (AssertionError error)).
Definition crash (process : proc) : py world () := kill process;; wait process (Some 5000);; mret ().

(** The port of the configuration is taken: the service starts, and can be changed. *)
Definition busy_port (log : nat) (cfg : json) (busy : nat) : py rig () :=
  port ← on (on_fd busy Listen);
  cfg ← lift (jset "listen" (JStr (loopback port)) cfg);
  on (ask (WriteText (state_dir ++ ["config.json"]) (dumps cfg)));;
  process ← launch_daemon log true;
  failed ← on (ctl "status" None);
  lift (expect (b ← has_state "stopped" failed; if (b : bool) then e ← jget "error" failed; Ok (truthy e) else Ok false));;
  cfg ← lift (jset "listen" (JStr "127.0.0.1:0") cfg);
  on (ctl "save" (Some cfg));;
  on (expect_ctl "start" None "running");;
  on (terminate_cleanly process).

Definition smoke_checks : list string :=
  ["real CLI control"; "save preserves connection"; "explicit restart closes old stream"; "exclusive state lock";
   "SIGKILL socket recovery"; "autostart"; "SIGTERM cleanup"; "failed autostart remains controllable"].
Definition service_checks (log : nat) : py rig () :=
  process ← launch_daemon log false;
  cfg ← on (live_change smoke_config);
  on exclusive_state;;
  on (expect_ctl "status" None "running");;
  on (crash process);;
  process ← launch_daemon log true;
  v ← on (ctl "status" None);
  lift (b ← has_state "running" v; raise_if (negb b) (AssertionError "crash recovery/autostart failed"));;
  on (expect_ctl "stop" None "stopped");;
  on (terminate_cleanly process);;
  remains ← on (ask (Exists control));
  lift (raise_if remains (AssertionError "control socket survived normal shutdown"));;
  busy ← on open_socket;
  try_finally (busy_port log cfg busy) (on (close_socket busy));;
  on (ask (Print (dumps (JObj [("result", JStr "passed"); ("checks", JArr (map JStr smoke_checks))])))).

(** [except Exception]: the log is printed, and the exception goes on. *)
Definition is_exception (e : exn) : bool := match e with SystemExit _ => false | _ => true end.
Definition show_log (log : nat) (e : exn) : py rig () :=
  on (ask (Flush log);; ask (Rewind log);; text ← ask (ReadOpen log); ask (Print text));; raise e.
(** The log is opened before [try]; when that fails there is nothing to give up. *)
Definition service_body : py rig () :=
  log ← on (open_text (folder ++ ["daemon.log"]) "w+");
  modify (add_log log);;
  try_except (service_checks log) (λ e, if is_exception e then Some (show_log log e) else None).
Definition service_finish : py rig () := stop_all;; close_logs.
End smoke.

(** ** The program *)
Section main.
Context `{Os} (cwd tmp : path) (environ : env).

(** A namespace that is not the one of the first process, or of the parent that is named. *)
Definition other_namespace : py world bool :=
  if bool_decide (dict_get "VEIL_ISOLATED_NETNS" environ = Some "1") then
    parent ← match dict_get "VEIL_PARENT_NETNS" environ with
             | Some (String c s) => mret (String c s)
             | _ => ask (ReadLink ["proc"; "1"; "ns"; "net"])
             end;
    own ← ask (ReadLink ["proc"; "self"; "ns"; "net"]);
    mret (negb (String.eqb own parent))
  else mret false.
Definition service_main (bin_dir : string) : py world () :=
  bin ← ask (Resolve (join_path cwd bin_dir));
  own ← other_namespace;
  lift (raise_if (negb own) (SystemExit 1));;
  temp ← ask (TempFolder "veil-smoke-" tmp);
  try_finally
    (with_rig (try_finally (service_body bin temp) service_finish))
    (ask (RemoveTree temp)).
End main.

(** ** What a run leaves *)
Section quiet.
Context `{Os} (bin folder : path).

Lemma ctl_quiet action config : quiet (ctl bin folder action config).
Proof. intros R T F. unfold ctl. solve_within. Qed.
#[local] Hint Resolve ctl_quiet : within.
Lemma await_daemon_quiet n child : quiet (await_daemon bin folder n child).
Proof. intros R T F. induction n as [|n IH]; cbn [await_daemon]; unfold answers; solve_within. Qed.
Lemma expect_ctl_quiet action config text : quiet (expect_ctl bin folder action config text).
Proof. intros R T F. unfold expect_ctl. solve_within. Qed.
Lemma terminate_cleanly_quiet p : quiet (terminate_cleanly p).
Proof. intros R T F. unfold terminate_cleanly, terminate. solve_within. Qed.
#[local] Hint Resolve expect_ctl_quiet : within.
Lemma live_change_quiet cfg : quiet (live_change bin folder cfg).
Proof.
  intros R T F. unfold live_change. do 8 (apply within_bind; [solve_within|intros ?]).
  apply socket_quiet; [apply dial_opens|].
  intros c R' T' F'. unfold with_connection. solve_within.
Qed.
Lemma exclusive_state_quiet : quiet (exclusive_state bin folder).
Proof. intros R T F. unfold exclusive_state. solve_within. Qed.
Lemma crash_quiet p : quiet (crash p).
Proof. intros R T F. unfold crash, kill. solve_within. Qed.
Lemma other_namespace_quiet environ : quiet (other_namespace environ).
Proof. intros R T F. unfold other_namespace. solve_within. Qed.
End quiet.
#[export] Hint Resolve ctl_quiet await_daemon_quiet expect_ctl_quiet terminate_cleanly_quiet live_change_quiet
  exclusive_state_quiet crash_quiet other_namespace_quiet : within.

(** A rig without counters, whose sockets may come and go. *)
Section bare.
Context `{Calm} `{!PerfStops H} (bin folder : path) (w0 : world).
Definition bare (s : rig) : Prop := held w0 s ∧ open_counters s = [].

Lemma on_bare {A} (m : py world A) : quiet m → keeps bare (on m).
Proof.
  intros Hm. apply keeps_and; [by apply on_held|]. intros s Hs. unfold on. by destruct (m (machine s)) as [[a|e] w].
Qed.
Lemma add_log_bare p mode : keeps bare (h ← on (open_text p mode); modify (add_log h);; mret h).
Proof.
  apply keeps_and; [apply open_log_held; intros h; apply within_ret|].
  intros s Hs. unfold on, mbind, py_bind. by destruct (open_text p mode (machine s)) as [[h|e] w].
Qed.
Lemma launch_bare log autostart : keeps bare (launch_daemon bin folder log autostart).
Proof.
  apply keeps_and.
  - unfold launch_daemon. apply start_held. intros p. solve_within.
  - unfold launch_daemon. intros s Hs. unfold on, mbind, py_bind.
    match goal with |- context [popen_proc ?o ?w] => destruct (popen_proc o w) as [[p|e] w1] end; [|done]. cbn beta iota delta [modify].
    match goal with |- context [await_daemon bin folder 100 p ?w] => by destruct (await_daemon bin folder 100 p w) as [[u|e] w2] end.
Qed.
Lemma bare_fds s w : bare s → tidy w → running w = running (machine s) → texts w = texts (machine s) → bare (with_machine w s).
Proof.
  intros [(Hw & Hr & Ht & _) Hc] Hw' HR HT. split; [|done]. unfold held, pending.
  change (open_counters (with_machine w s)) with (open_counters s). rewrite Hc. cbn. rewrite HR, HT.
  split_and!; try done; [constructor|]. by intros i ?%not_elem_of_nil.
Qed.
Lemma open_socket_bare : keeps bare (on open_socket).
Proof.
  intros s Hs. unfold on, open_socket, gets, modify, mbind, py_bind. cbn.
  apply bare_fds; [done| |done|done]. destruct Hs as [([Hc Hd] & _) _]. split; [done|]. cbn. intros i Hi.
  destruct (decide (i = fresh (machine s))) as [-> | Hne]; [lia|]. rewrite lookup_insert_ne in Hi by done.
  specialize (Hd i Hi). lia.
Qed.
Lemma close_socket_bare h : keeps bare (on (close_socket h)).
Proof.
  intros s Hs. pose proof Hs as [([Hc Hd] & _) _]. unfold on, close_socket, gets, modify, ask, mbind, py_bind.
  destruct (fds (machine s) !! h) as [q|]; [rewrite calm_close_fd|]; apply bare_fds; try done.
  split; [done|]. cbn. intros i Hi. apply Hd. destruct (decide (i = h)) as [-> | Hne].
  - by rewrite lookup_delete_eq in Hi; destruct Hi.
  - by rewrite lookup_delete_ne in Hi.
Qed.
#[local] Hint Resolve on_bare launch_bare open_socket_bare close_socket_bare : within.
Lemma busy_port_bare log cfg busy : keeps bare (busy_port bin folder log cfg busy).
Proof. unfold busy_port. solve_within. Qed.
#[local] Hint Resolve busy_port_bare : within.
Lemma service_checks_bare log : keeps bare (service_checks bin folder log).
Proof. unfold service_checks. solve_within. Qed.
Lemma show_log_bare log e : keeps bare (show_log log e).
Proof. unfold show_log. apply within_bind; [apply on_bare; intros R T F; solve_within|intros ?; solve_within]. Qed.
Lemma service_body_bare : keeps bare (service_body bin folder).
Proof.
  unfold service_body.
  assert (keeps bare (log ← (h ← on (open_text (folder ++ ["daemon.log"]) "w+"); modify (add_log h);; mret h);
    try_except (service_checks bin folder log) (λ e, if is_exception e then Some (show_log log e) else None))) as Hb.
  { apply within_bind; [apply add_log_bare|intros log]. apply within_try_any; [apply service_checks_bare|].
    intros e k. destruct (is_exception e); [|done]. intros [= <-]. apply show_log_bare. }
  intros s Hs. specialize (Hb s Hs). unfold mbind, py_bind in *.
  by destruct (on (open_text _ _) s) as [[h|e] s1].
Qed.
Lemma service_finish_runs s :
  runs (at_rig s (pending w0 (procs s) (logs s) (counters s))) service_finish (λ _, at_rig s (pending w0 [] [] (counters s))).
Proof. unfold service_finish. eapply triple_bind; [apply stop_all_runs|intros []]. apply close_logs_runs. Qed.
End bare.

Lemma service_main_releases `{Calm} `{!PerfStops H} cwd tmp environ bin_dir :
  releases (service_main cwd tmp environ bin_dir).
Proof.
  intros w0. unfold service_main. do 4 (apply within_bind; [solve_within|intros ?]).
  apply within_try_finally; [|solve_within].
  apply (with_rig_steps (λ w, bare w)); [by intros w Hw; split; [apply held_empty|]| |].
  - intros w. eapply triple_consequence; [apply service_body_bare|done|by intros ? s [Hs _]|by intros e s [[Hs _] _]].
  - intros w. apply (gives_up_any w _ counters), service_finish_runs.
Qed.

(** ** A service that passes, and services that do not

    A daemon as the script expects it, its state computed from the calls: what the checks say of
    it, and of one with a single deviation. *)
Inductive deviation := Conforms | SaveInterrupts | RestartKeeps | SharedState | NoAutostart | SocketStays.
#[export] Instance deviation_eq_dec : EqDecision deviation.
Proof. solve_decision. Defined.
Record service := { s_running : bool; s_pending : bool; s_restarts : nat; s_busy : bool; s_down : bool }.
Definition started_service (autostart busy : bool) (s : service) : service :=
  {| s_running := autostart && negb busy; s_pending := false; s_restarts := s_restarts s; s_busy := busy; s_down := false |}.
Definition acted (action : string) (s : service) : service :=
  if String.eqb action "start" then {| s_running := true; s_pending := s_pending s; s_restarts := s_restarts s; s_busy := s_busy s; s_down := false |}
  else if String.eqb action "stop" then {| s_running := false; s_pending := false; s_restarts := s_restarts s; s_busy := s_busy s; s_down := false |}
  else if String.eqb action "restart" then {| s_running := true; s_pending := false; s_restarts := S (s_restarts s); s_busy := s_busy s; s_down := false |}
  else if String.eqb action "save" then {| s_running := s_running s; s_pending := s_running s; s_restarts := s_restarts s; s_busy := false; s_down := false |}
  else s.
Definition after_event (d : deviation) (e : event) (s : service) : service :=
  match question e with
  | Popen o => started_service (bool_decide ("-autostart" ∈ cmd o) && negb (bool_decide (d = NoAutostart))) (s_busy s) s
  | RunCaptured argv (Some _) _ => acted (List.last argv "") s
  | WriteText _ _ => {| s_running := s_running s; s_pending := false; s_restarts := s_restarts s; s_busy := true; s_down := s_down s |}
  | Terminate _ => {| s_running := false; s_pending := false; s_restarts := s_restarts s; s_busy := s_busy s; s_down := true |}
  | _ => s
  end.
Fixpoint service_after (d : deviation) (l : list event) : service :=
  match l with
  | [] => {| s_running := false; s_pending := false; s_restarts := 0; s_busy := false; s_down := true |}
  | e :: l => after_event d e (service_after d l)
  end.
Definition service_status (s : service) : json :=
  JObj [("state", JStr (if s_running s then "running" else "stopped")); ("listen", JStr "127.0.0.1:4000");
        ("restart_required", JBool (s_pending s)); ("error", JStr (if s_busy s then "address in use" else ""))].
Definition service_os (d : deviation) : Os := λ A l c,
  let s := service_after d l in
  match c in call A return result A with
  | RunCaptured argv (Some _) _ =>
      Ok (0, dumps (JObj [("status", service_status (acted (List.last argv "") s))]), "")
  | RunCaptured _ None _ =>
      if bool_decide (d = SharedState) then Ok (0, "", "") else Ok (1, "", "another process owns this state directory")
  | Recv _ n =>
      if n =? 2 then Ok (if bool_decide (d = SaveInterrupts) then [] else [x05; x00])
      else Ok (if bool_decide (d = RestartKeeps) then [x00] else [])
  | Exists p => Ok (bool_decide (name_of p = "control.sock") && (negb (s_down s) || bool_decide (d = SocketStays)))
  | Resolve p => Ok p
  | TempFolder prefix dir => Ok (dir ++ [prefix])
  | ReadLink p => Ok (posix p)
  | Popen _ => Ok 100
  | Poll _ => Ok None
  | Wait _ _ => Ok 0
  | ReadOpen _ => Ok "log"
  | Listen => Ok 4001
  | Open _ _ | Close _ | CloseFd _ | Terminate _ | Kill _ | Sleep _ | Dial _ _ _ | SendAll _ _ | Flush _ | Rewind _
  | Print _ | RemoveTree _ | WriteText _ _ => Ok ()
  | _ => Err (OSError "unused")
  end.
Definition verdict (d : deviation) : result () :=
  (@service_main (service_os d) ["w"] ["tmp"] [("VEIL_ISOLATED_NETNS", "1")] ".build" nothing).1.
Example smoke_verdicts :
  map verdict [Conforms; SaveInterrupts; RestartKeeps; SharedState; NoAutostart; SocketStays] =
  [Ok (); Err (AssertionError "save interrupted active connection"); Err (AssertionError "restart left old connection open");
   Err (AssertionError ""); Err (AssertionError "crash recovery/autostart failed");
   Err (AssertionError "control socket survived normal shutdown")].
Proof. vm_compute. reflexivity. Qed.
