(* ===== verification/CatalogCheck.v ===== *)
(** * The PHP adapter against a daemon

    [veil-service/scripts/opnsense_catalog_check.py]: a container image is built, a daemon is
    started in a private directory, and the test of the PHP adapter runs against its socket. *)

From S2P Require Import Prelude.
From S2P Require Import PyText.
From S2P Require Import PyBytes.
From S2P Require Import FileSystem.
From S2P Require Import Tools.
From S2P Require Import Machine.
From S2P Require Import Sockets.
From S2P Require Import Stack.
From S2P Require Import SampleMachine.
From Stdlib Require Import Strings.Byte.
#[local] Open Scope Z_scope.

(** [uuid.uuid4().hex]: sixteen random bytes with the version and the variant. *)
Definition uuid4_bytes (l : bytes) : bytes :=
  imap (λ i b, if (i =? 6)%nat then z_byte (Z.lor 64 (Z.land (byte_z b) 15))
               else if (i =? 8)%nat then z_byte (Z.lor 128 (Z.land (byte_z b) 63)) else b) l.
Example uuid4_1 : hex (uuid4_bytes (repeat xff 16)) = "ffffffffffff4fffbfffffffffffffff".
Proof. reflexivity. Qed.

Section catalog.
Context `{Os} (ROOT cwd tmp : path).

Definition uuid4_hex : py world string := l ← ask (Urandom 16); mret (hex (uuid4_bytes l)).
(** [subprocess.run(..., check=True)] *)
Definition run_checked (argv : list string) (input : option bytes) (quiet : bool) (timeout : option Z) : py world () :=
  code ← ask (RunFor argv input quiet timeout); lift (raise_if (negb (code =? 0)) (CalledProcessError code)).

(** [daemon.terminate(); daemon.wait(timeout=10)] *)
Definition end_daemon (p : proc) : py world () := terminate p;; wait p (Some 10000);; mret ().

(** A hundred turns; the last is followed by the test whether the socket is there or not. *)
Fixpoint await_socket (n : nat) (socket : path) (daemon : proc) : py world () :=
  match n with
  | O => mret ()
  | S n =>
      up ← ask (Exists socket);
      if (up : bool) then mret () else
      code ← poll daemon;
      match code with
      | Some _ => raise (RuntimeError "test daemon exited")
      | None => ask (Sleep 50);; await_socket n socket daemon
      end
  end.
Definition docker_build (image : string) : list string :=
  ["docker"; "build"; "-q"; "--network"; "host"; "--build-arg"; "http_proxy"; "--build-arg"; "https_proxy"; "-t"; image; "-"].
Definition dockerfile : bytes := encode ("FROM alpine:3.22" +:+ nl +:+ "RUN apk add --no-cache php84" +:+ nl).
Definition docker_run (runtime : path) (image : string) : list string :=
  ["docker"; "run"; "--rm"; "--network"; "host"; "-v"; posix runtime +:+ ":/var/run/veil"; "-v"; posix ROOT +:+ ":/src:ro";
   image; "php84"; "/src/scripts/opnsense_catalog_test.php";
   "/src/platform/opnsense/src/opnsense/mvc/app/library/OPNsense/Veil"].

Definition catalog_daemon (binary base socket : path) (log : nat) : popen :=
  {| cmd := [posix binary; "-state-dir"; posix (base ++ ["state"]); "-socket"; posix socket]; penv := None;
     stdin := Inherit; stdout := ToFile log; stderr := ToFile log; new_session := false |}.
Definition catalog_test (binary base runtime socket : path) (image : string) (log : nat) : py world () :=
  resolved ← ask (Resolve binary);
  daemon ← popen_proc (catalog_daemon resolved base socket log);
  try_finally
    (await_socket 100 socket daemon;; run_checked (docker_run runtime image) None false (Some 90000))
    (end_daemon daemon).
(** [run]; the directory [runtime] has mode 0o700. *)
Definition catalog_run (binary : path) (image : string) : py world () :=
  base ← ask (TempFolder "veil-opn-catalog-" tmp);
  try_finally
    (let runtime := base ++ ["runtime"] in
     let socket := runtime ++ ["control.sock"] in
     ask (Mkdir runtime false false);;
     log ← open_text (base ++ ["daemon.log"]) "w+";
     try_finally (catalog_test binary base runtime socket image log) (close_text log))
    (ask (RemoveTree base)).
Definition catalog_main (daemon : string) : py world () :=
  id ← uuid4_hex;
  let image := "veil-php-test:" +:+ id in
  run_checked (docker_build image) (Some dockerfile) false (Some 180000);;
  try_finally (catalog_run (join_path cwd daemon) image)
    (run_checked ["docker"; "image"; "rm"; image] None true None).
End catalog.

(** Documented behaviour of the daemon: it exits within ten seconds of SIGTERM. *)
Class Terminates `(Os) : Prop := { terminated_exits : ∀ h p, is_ok (os h (Wait p (Some 10000))) = true }.

Section quiet.
Context `{Calm} `{!Terminates H}.
Lemma end_daemon_reaps : reaps end_daemon.
Proof.
  intros p w Hw. unfold end_daemon, terminate, mbind, py_bind.
  destruct (signal_run (Terminate (p_id p)) p w Hw (λ h, calm_terminate h _)) as (w1 & -> & H1).
  pose proof (at_most_tidy (p_id p) w w1 H1) as Ht.
  assert (is_ok (wait p (Some 10000) w1).1 = true) as Hok.
  { unfold wait, returncode, gets, mbind, py_bind, ask. destruct (codes w1 !! p_id p); [done|].
    pose proof (terminated_exits (past w1) (p_id p)) as Hx. by destruct (os (past w1) _). }
  destruct (wait_run p (Some 10000) w1 Ht) as ([c|e] & w2 & Hr & H2); rewrite Hr in *; [|done].
  exists w2. split; [done|]. by eapply at_most_without.
Qed.
Lemma await_socket_quiet n socket p : quiet (await_socket n socket p).
Proof. intros R T F. induction n as [|n IH]; cbn [await_socket]; solve_within. Qed.
Lemma run_checked_quiet argv input q t : quiet (run_checked argv input q t).
Proof. intros R T F. unfold run_checked. solve_within. Qed.
Lemma catalog_test_quiet ROOT binary base runtime socket image log :
  quiet (catalog_test ROOT binary base runtime socket image log).
Proof.
  intros R T F. unfold catalog_test. apply within_bind; [solve_within|intros resolved].
  apply process_quiet; [exact end_daemon_reaps|]. intros p R' T' F'.
  pose proof await_socket_quiet. pose proof run_checked_quiet. solve_within.
Qed.
Lemma catalog_main_quiet ROOT cwd tmp daemon : quiet (catalog_main ROOT cwd tmp daemon).
Proof.
  intros R T F. unfold catalog_main, uuid4_hex, catalog_run. pose proof run_checked_quiet.
  apply within_bind; [solve_within|intros id]. apply within_bind; [solve_within|intros []].
  apply within_try_finally; [|solve_within]. apply within_bind; [solve_within|intros base].
  apply within_try_finally; [|solve_within]. apply within_bind; [solve_within|intros []].
  apply text_quiet. intros log. apply catalog_test_quiet.
Qed.
End quiet.

#[export] Instance sample_terminates n : @Terminates (sample_os n).
Proof. by split. Qed.
Example catalog_runs : (@catalog_main (sample_os 0) ["r"] ["w"] ["tmp"] "veild" nothing).1 = Ok ().
Proof. by vm_compute. Qed.
