(* ===== verification/PackageCheck.v ===== *)
(** * The check of a release archive

    [veil-service/scripts/package_check.py]: the tests of the installer and of the system wrapper,
    each in a temporary root of its own with commands that only write down how they were called.
    The scripts of the archive are shell and run as commands of the machine. *)

From S2P Require Import Prelude.
From S2P Require Import PyText.
From S2P Require Import PyBytes.
From S2P Require Import Json.
From S2P Require Import Numbers.
From S2P Require Import FileSystem.
From S2P Require Import Tools.
From S2P Require Import Machine.
From S2P Require Import Fixtures.
From S2P Require Import SampleMachine.
#[local] Open Scope Z_scope.

Definition removesuffix (t s : string) : string :=
  match drop_prefix (srev t) (srev s) with Some r => srev r | None => s end.
Definition quoted (s : string) : string := dquote +:+ s +:+ dquote.
(** The text of a failed assertion is its message, where it has one. *)
Definition expect_true (b : bool) (message : string) : result () := raise_if (negb b) (AssertionError message).

(** A command that appends its arguments to the log *)
Definition fake : string :=
  "#!/usr/bin/env python3" +:+ nl +:+ "import json, os, sys" +:+ nl +:+
  "with open(os.environ[" +:+ quoted "COMMAND_LOG" +:+ "], " +:+ quoted "a" +:+
  ") as f: f.write(json.dumps(sys.argv) + " +:+ quoted (backslash +:+ "n") +:+ ")" +:+ nl +:+
  "sys.exit(int(os.environ.get(" +:+ quoted "COMMAND_EXIT" +:+ ", " +:+ quoted "0" +:+ ")))" +:+ nl.

Section check.
Context `{Os} (sha256 : string → string) (environ : env) (tmp ARCHIVE : path).

(** ** The test case: its temporary root and what is in it *)
Section case.
Context (root : path).
Definition package : path := root ++ [removesuffix ".tar.gz" (name_of ARCHIVE)].
Definition stage : path := root ++ ["stage with spaces"].
Definition commands : path := root ++ ["commands"].
Definition command_log : path := root ++ ["commands.jsonl"].
Definition test_env : result env :=
  old ← from_option_or (KeyError "PATH") (dict_get "PATH" environ);
  Ok (dict_or environ [("PATH", posix commands +:+ ":" +:+ old); ("COMMAND_LOG", posix command_log)]).
Definition fake_command (name : string) : py world () :=
  ask (WriteText (commands ++ [name]) fake);; ask (Chmod (commands ++ [name]) 493).
Definition setUp : py world env :=
  ask (ExtractArchive ARCHIVE root);;
  ask (Mkdir stage false false);;
  ask (Mkdir commands false false);;
  for_each fake_command ["systemctl"; "systemd-sysusers"; "journalctl"];;
  lift test_env.

Context (e : env).

(** ** [install] *)
Definition installer (action : string) (script : path) : list string :=
  ["sh"; posix script; action; "--destdir"; posix stage].
Definition install_with (action : string) (ok : bool) (script : path) : py world () :=
  '(code, out, err) ← ask (RunEnv (installer action script) e);
  lift (if ok then expect_true (code =? 0) (out +:+ err) else expect_true (negb (code =? 0)) "");;
  logged ← ask (Exists command_log);
  lift (expect_true (negb logged) "staging invoked host management").
Definition install_sh : path := package ++ ["install.sh"].
Definition install : py world () := install_with "install" true install_sh.

(** ** The tests *)
Definition check_hash (x : string * json) : py world () :=
  data ← ask (ReadBytes (join_path package x.1));
  lift (expect_true (match x.2 with JStr digest => String.eqb (sha256 data) digest | _ => false end) "").
Definition check_binary (manifest : json) (name : string) : py world () :=
  let binary := sub stage "usr/local/bin" ++ [name] in
  shown ← ask (CheckOutput (plain [posix binary; "-version"]));
  lift (version ← jitem "version" manifest; version ← jstr version; expect_true (contains version shown) "");;
  '(_, mode) ← ask (Stat binary);
  lift (expect_true (Z.land mode 511 =? 493) "").
Definition test_archive_and_installed_identity : py world () :=
  text ← ask (ReadText (with_name ARCHIVE (name_of ARCHIVE +:+ ".sha256")));
  checksum ← lift (get_at (words text) 0);
  data ← ask (ReadBytes ARCHIVE);
  lift (expect_true (String.eqb checksum (sha256 data)) "");;
  manifest ← read_json (sub package "share/veil/manifest.json");
  sums ← lift (v ← jitem "sha256" manifest; match v with JObj kvs => Ok kvs | _ => Err AttributeError end);
  for_each check_hash sums;;
  install;;
  for_each (check_binary manifest) ["veild"; "veilctl"].

Definition kept_config : string := "{" +:+ quoted "secret" +:+ ":" +:+ quoted "preserve-me" +:+ "}".
Fixpoint any_file (l : list path) : py world bool :=
  match l with
  | [] => mret false
  | p :: l => b ← ask (IsFile p); if (b : bool) then mret true else any_file l
  end.
(** The mode of the new directory is left to the machine. *)
Definition test_upgrade_and_uninstall_preserve_config : py world () :=
  install;;
  let state := sub stage "var/lib/veil-home" in
  let cfg := state ++ ["config.json"] in
  ask (Mkdir state true false);;
  ask (WriteText cfg kept_config);;
  ask (Chmod cfg 384);;
  install;;
  install_with "uninstall" true (sub stage "usr/local/share/veil/uninstall.sh");;
  text ← ask (ReadText cfg);
  lift (expect_true (String.eqb text kept_config) "");;
  '(_, mode) ← ask (Stat cfg);
  lift (expect_true (Z.land mode 511 =? 384) "");;
  left ← ask (Rglob (sub stage "usr/local"));
  some ← any_file left;
  lift (expect_true (negb some) "");;
  install_with "uninstall" true install_sh.

Definition empty_folder (p : path) : py world () := l ← ask (Iterdir p); lift (expect_true (bool_decide (l = [])) "").
Definition test_refuses_redirected_destination : py world () :=
  let outside := root ++ ["outside"] in
  ask (Mkdir outside false false);;
  ask (Symlink (stage ++ ["usr"]) outside);;
  install_with "install" false install_sh;;
  empty_folder outside.

Definition test_refuses_redirected_binary : py world () :=
  install;;
  let outside := root ++ ["untouched"] in
  ask (WriteText outside "untouched");;
  let binary := sub stage "usr/local/bin/veild" in
  ask (Unlink binary);;
  ask (Symlink binary outside);;
  install_with "install" false install_sh;;
  install_with "uninstall" false install_sh;;
  text ← ask (ReadText outside);
  lift (expect_true (String.eqb text "untouched") "").

Definition test_missing_payload_is_rejected_before_install : py world () :=
  ask (Unlink (sub package "bin/veilctl"));;
  install_with "install" false install_sh;;
  empty_folder stage.

(** *** The wrapper *)
Definition wrapper : path := commands ++ ["veil-system"].
Definition unlink_if_there (p : path) : py world () :=
  try_except (ask (Unlink p)) (λ x, match x with FileNotFoundError _ => Some (mret ()) | _ => None end).
(** [call]: the arguments the commands were called with *)
Definition call_wrapper (instance : string) (args : list string) (success : bool) (e : env) : py world (list json) :=
  unlink_if_there command_log;;
  '(code, _, err) ← ask (RunEnv (posix wrapper :: instance :: args) e);
  lift (expect_true (Bool.eqb (code =? 0) success) err);;
  logged ← ask (Exists command_log);
  if (logged : bool) then text ← ask (ReadText command_log); lift (mapR loads (splitlines text)) else mret [].
(** [call(...)[0][1:] == args] *)
Definition first_arguments (calls : list json) (args : list string) : result bool :=
  c ← get_at calls 0;
  match c with JArr l => Ok (json_eqb (JArr (tail l)) (JArr (map JStr args))) | _ => Err TypeError end.
Definition expect_call (instance : string) (args expected : list string) : py world () :=
  calls ← call_wrapper instance args true e;
  lift (b ← first_arguments calls expected; expect_true b "").
Definition expect_none (instance : string) (args : list string) : py world () :=
  calls ← call_wrapper instance args false e; lift (expect_true (bool_decide (length calls = 0%nat)) "").
Fixpoint repeated (n : nat) (c : string) : string := match n with O => "" | S n => c +:+ repeated n c end.
Definition control_socket : string := "/run/veil-home/control.sock".
Definition test_platform_commands : py world () :=
  ask (CopyFile (sub package "bin/veil-system") wrapper);;
  ask (Chmod wrapper 493);;
  fake_command "veilctl";;
  for_each (λ invalid, expect_none invalid ["enable"]) ["../home"; "home.service/evil"; "x;y"; repeated 49 "a"; ""];;
  expect_none "home" ["enable"; "extra"];;
  expect_none "home" ["logs"; "--unit=other"];;
  expect_call "home" ["enable"] ["enable"; "--now"; "veil@home.service"];;
  expect_call "home" ["disable"] ["disable"; "--now"; "veil@home.service"];;
  expect_call "home" ["logs"; "--follow"]
    ["--unit"; "veil@home.service"; "--lines"; "100"; "--no-pager"; "--follow"];;
  imported ← call_wrapper "home" ["import"; "config with spaces.json"] true e;
  lift (expect_true (bool_decide (length imported = 1%nat)) "import must not restart an instance");;
  lift (b ← first_arguments imported ["-socket"; control_socket; "-config"; "config with spaces.json"; "save"];
        expect_true b "");;
  for_each (λ action, expect_call "home" [action] ["-socket"; control_socket; action]) ["start"; "stop"; "restart"; "status"];;
  expect_call "home" ["daemon-restart"] ["restart"; "veil@home.service"];;
  failed ← call_wrapper "home" ["import"; "-"] false (dict_or e [("COMMAND_EXIT", "1")]);
  lift (expect_true (bool_decide (length failed = 1%nat)) "").
End case.

(** ** [unittest]: every test in the order of the names, with the cleanup of its root *)
Definition run_test (test : path → env → py world ()) : py world () :=
  root ← ask (TempFolder "veil-package-check-" tmp);
  try_finally (e ← setUp root; test root e) (ask (RemoveTree root)).
Definition tests : list (path → env → py world ()) :=
  [test_archive_and_installed_identity; test_missing_payload_is_rejected_before_install; test_platform_commands;
   test_refuses_redirected_binary; test_refuses_redirected_destination; test_upgrade_and_uninstall_preserve_config].
(** The outcome of a test does not end the run. *)
Definition outcome {A} (m : py world A) : py world bool := λ w, let '(r, w) := m w in (Ok (is_ok r), w).
Definition unittest_main : py world () :=
  passed ← mapM_py (λ t, outcome (run_test t)) tests;
  raise (SystemExit (if forallb id passed then 0 else 1)).
End check.

(** [ARCHIVE] is resolved when the file is loaded; there are no arguments for [unittest]. *)
Definition package_check_main `{Os} (sha256 : string → string) (environ : env) (cwd tmp : path) (argv : list string) : py world () :=
  argument ← lift (from_option_or IndexError (argv !! 1%nat));
  archive ← ask (Resolve (join_path cwd argument));
  unittest_main sha256 environ tmp archive.

(** ** The host is not touched

    What a test may ask for, given its root: it reads, it changes files below the root, and it
    runs programs from below the root or the installer of the package on the stage, with the
    recording commands first in the search path. *)
Definition fake_path (root : path) (e : env) : Prop :=
  ∃ rest, dict_get "PATH" e = Some (posix (commands root) +:+ ":" +:+ rest).
Definition staged (root : path) (argv : list string) : Prop :=
  (∃ script action dest, argv = ["sh"; posix script; action; "--destdir"; posix dest] ∧ below root script ∧ below root dest) ∨
  (∃ program args, argv = posix program :: args ∧ below root program).
Definition contained (root : path) {A} (c : call A) : Prop :=
  match c with
  | ReadText _ | ReadBytes _ | Exists _ | IsFile _ | Stat _ | Rglob _ | Iterdir _ => True
  | WriteText p _ | Chmod p _ | Mkdir p _ _ | Unlink p | Symlink p _ | CopyFile _ p | ExtractArchive _ p | RemoveTree p => below root p
  | RunEnv argv e => staged root argv ∧ fake_path root e
  | CheckOutput c => staged root (argv c)
  | _ => False
  end.

(** The temporary roots of a run, and those that were removed. *)
Definition root_of (e : event) : option path :=
  match e with Event _ c r => match c in call A return result A → option path with
    | TempFolder _ _ => λ r, match r with Ok p => Some p | Err _ => None end | _ => λ _, None end r end.
Definition removed_of (e : event) : option path := match question e with RemoveTree p => Some p | _ => None end.
(** An event of a run whose events are [new]. *)
Definition harmless (new : list event) (e : event) : Prop :=
  match question e with
  | TempFolder _ _ | Resolve _ => True
  | _ => ∃ root, root ∈ omap root_of new ∧ contained root (question e)
  end.

Section safe.
Context `{Os} (past0 : list event).

(** The events since [past0] are harmless, and the roots but those in [R] are removed again. *)
Definition safe (R : list path) (w : world) : Prop :=
  ∃ new, past w = new ++ past0 ∧ Forall (harmless new) new ∧
    ∀ root, root ∈ omap root_of new → root ∈ R ∨ root ∈ omap removed_of new.
(** A root in use. *)
Definition in_use (R : list path) (root : path) (w : world) : Prop :=
  ∃ new, past w = new ++ past0 ∧ Forall (harmless new) new ∧ root ∈ omap root_of new ∧
    ∀ root, root ∈ omap root_of new → root ∈ R ∨ root ∈ omap removed_of new.

Lemma omap_more {A B} (f : A → option B) x l y : y ∈ omap f l → y ∈ omap f (x :: l).
Proof. rewrite !list_elem_of_omap. intros (z & ? & ?). exists z. split; [by right|done]. Qed.
Lemma harmless_more new e x : harmless new e → harmless (x :: new) e.
Proof.
  unfold harmless. destruct (question e); try done; intros (root & Hr & Hc); exists root; (split; [by apply omap_more|done]).
Qed.
Lemma ask_in_use R root {A} (c : call A) : contained root c → keeps (in_use R root) (ask c).
Proof.
  intros Hc w (new & Hp & Hf & Hr & Hs).
  assert (∀ r, in_use R root {| past := Event A c r :: past w; fresh := fresh w; running := running w;
    codes := codes w; texts := texts w; fds := fds w |}) as Hu.
  { intros r. exists (Event A c r :: new). cbn [past]. split; [by rewrite Hp|].
    assert (root_of (Event A c r) = None) as Hn by (by destruct c).
    assert (omap root_of (Event A c r :: new) = omap root_of new) as Ho by (cbn -[root_of]; by rewrite Hn).
    rewrite Ho. split; [|split; [done|]].
    - constructor; [|eapply Forall_impl; [exact Hf|intros; by apply harmless_more]]. unfold harmless. cbn [question].
      rewrite Ho. destruct c; try done; by exists root.
    - intros x Hx. destruct (Hs x Hx) as [?|?]; [by left|right]. by apply omap_more. }
  unfold ask. specialize (Hu (os (past w) c)). by destruct (os (past w) c).
Qed.

(** *** The tests *)
Context (sha256 : string → string) (environ : env) (tmp ARCHIVE : path) (R : list path) (root : path).
Abbreviation used m := (keeps (in_use R root) m).

Lemma below_root p : root `prefix_of` p → below root p.
Proof. apply below_prefix. Qed.
Ltac solve_below :=
  apply below_root; unfold package, stage, commands, command_log, wrapper, install_sh, sub; repeat apply prefix_app_r; done.
Ltac solve_used :=
  repeat first [within_step | solve [auto 2 with within nocore] | apply ask_in_use; cbn [contained]; try exact I; solve_below].

Lemma fake_command_used name : used (fake_command root name).
Proof. unfold fake_command. solve_used. Qed.
#[local] Hint Resolve fake_command_used : within.
Lemma setUp_used : gives (in_use R root) (fake_path root) (setUp environ ARCHIVE root).
Proof.
  unfold setUp. do 4 (apply gives_step; [solve_used|intros []]).
  intros w Hw. unfold lift, test_env. destruct (dict_get "PATH" environ) as [old|]; [|done]. cbn.
  split; [done|]. exists old. unfold dict_or, dict_update. cbn [fold_left fst snd].
  rewrite dict_get_set_ne by done. by rewrite dict_get_set_eq.
Qed.

Context (e : env) (He : fake_path root e).
Lemma install_with_used action ok script : below root script → used (install_with root e action ok script).
Proof.
  intros Hs. unfold install_with.
  assert (used (ask (RunEnv (installer root action script) e))) as Hr.
  { apply ask_in_use. split; [|done]. left. exists script, action, (stage root). repeat split; [done|solve_below]. }
  solve_used.
Qed.
Lemma install_sh_below : below root (install_sh ARCHIVE root).
Proof. solve_below. Qed.
#[local] Hint Resolve install_with_used install_sh_below : within.
Lemma install_used : used (install ARCHIVE root e).
Proof. unfold install. apply install_with_used. solve_below. Qed.
#[local] Hint Resolve install_used : within.
Lemma check_binary_used manifest name : used (check_binary root manifest name).
Proof.
  unfold check_binary.
  assert (used (ask (CheckOutput (plain [posix (sub (stage root) "usr/local/bin" ++ [name]); "-version"])))) as Hc.
  { apply ask_in_use. right. eexists _, _. split; [done|solve_below]. }
  solve_used.
Qed.
#[local] Hint Resolve check_binary_used : within.
Lemma identity_used : used (test_archive_and_installed_identity sha256 ARCHIVE root e).
Proof. unfold test_archive_and_installed_identity, check_hash, read_json. solve_used. Qed.
Lemma any_file_used l : used (any_file l).
Proof. induction l as [|p l IH]; cbn [any_file]; solve_used. Qed.
#[local] Hint Resolve any_file_used : within.
Lemma upgrade_used : used (test_upgrade_and_uninstall_preserve_config ARCHIVE root e).
Proof.
  unfold test_upgrade_and_uninstall_preserve_config.
  assert (used (install_with root e "uninstall" true (sub (stage root) "usr/local/share/veil/uninstall.sh"))) by
    (apply install_with_used; solve_below).
  solve_used.
Qed.
Lemma empty_folder_used p : used (empty_folder p).
Proof. unfold empty_folder. solve_used. Qed.
#[local] Hint Resolve empty_folder_used : within.
Lemma destination_used : used (test_refuses_redirected_destination ARCHIVE root e).
Proof. unfold test_refuses_redirected_destination. solve_used. Qed.
Lemma binary_used : used (test_refuses_redirected_binary ARCHIVE root e).
Proof. unfold test_refuses_redirected_binary. solve_used. Qed.
Lemma payload_used : used (test_missing_payload_is_rejected_before_install ARCHIVE root e).
Proof. unfold test_missing_payload_is_rejected_before_install. solve_used. Qed.
Lemma call_wrapper_used instance args success e' : fake_path root e' → used (call_wrapper root instance args success e').
Proof.
  intros He'. unfold call_wrapper, unlink_if_there.
  assert (used (ask (RunEnv (posix (wrapper root) :: instance :: args) e'))) as Hr.
  { apply ask_in_use. split; [|done]. right. eexists _, _. split; [done|solve_below]. }
  apply within_bind; [|solve_used]. apply within_try_any; [solve_used|].
  intros x k. destruct x; try done. intros [= <-]. apply within_ret.
Qed.
Lemma platform_used : used (test_platform_commands ARCHIVE root e).
Proof.
  assert (∀ i a s, used (call_wrapper root i a s e)) as Hc by (intros; by apply call_wrapper_used).
  assert (∀ i a s, used (call_wrapper root i a s (dict_or e [("COMMAND_EXIT", "1")]))) as Hf.
  { intros i a s. apply call_wrapper_used. destruct He as [rest Hp]. exists rest. unfold dict_or, dict_update. cbn [fold_left fst snd].
    by rewrite dict_get_set_ne. }
  unfold test_platform_commands, expect_none, expect_call. solve_used.
Qed.
End safe.

Section run.
Context `{Os} (past0 : list event) (sha256 : string → string) (environ : env) (tmp ARCHIVE : path).
Abbreviation kept m := (keeps (safe past0 []) m).

(** The root is made, used by one test, and removed. *)
Lemma temp_folder_used prefix : triple (safe past0 []) (ask (TempFolder prefix tmp))
  (λ root, in_use past0 [root] root) (λ _, safe past0 []).
Proof.
  intros w (new & Hp & Hf & Hs). unfold ask.
  assert (∀ r, Forall (harmless (Event path (TempFolder prefix tmp) r :: new)) (Event path (TempFolder prefix tmp) r :: new)) as Hh.
  { intros r. constructor; [done|]. eapply Forall_impl; [exact Hf|intros; by apply harmless_more]. }
  assert (∀ root, root ∈ omap root_of new → root ∈ omap removed_of new) as Hr.
  { intros root Hin. by destruct (Hs root Hin) as [?%not_elem_of_nil|?]. }
  destruct (os (past w) (TempFolder prefix tmp)) as [root|err]; eexists; (split; [cbn [past]; rewrite Hp; by rewrite app_comm_cons|]).
  - split; [apply Hh|]. split; [by left|]. intros x [-> | Hx]%elem_of_cons; [left; by left|right].
    apply omap_more. by apply Hr.
  - split; [apply Hh|]. intros x Hx. right. apply omap_more. by apply Hr.
Qed.
Lemma remove_tree_safe root : triple (in_use past0 [root] root) (ask (RemoveTree root)) (λ _, safe past0 []) (λ _, safe past0 []).
Proof.
  intros w Hw. pose proof (ask_in_use past0 [root] root (RemoveTree root) (below_refl root) w Hw) as Ha. revert Ha.
  assert (∀ w', in_use past0 [root] root w' → (∃ l, past w' = Event () (RemoveTree root) (os (past w) (RemoveTree root)) :: l ++ past0 ∧
    past w = l ++ past0) → safe past0 [] w') as Hs.
  { intros w' (new & Hp & Hf & _ & Hr) (l & Hl & _). exists new. split; [done|]. split; [done|].
    intros x Hx. right. destruct (Hr x Hx) as [->%list_elem_of_singleton|?]; [|done].
    rewrite Hl in Hp. change (Event () ?c ?r :: l ++ past0) with ((Event () c r :: l) ++ past0) in Hp.
    apply app_inv_tail in Hp as <-. apply list_elem_of_omap. eexists. split; [by left|done]. }
  unfold ask in *. destruct Hw as (l & Hl & _). intros Ha.
  assert (safe past0 [] (ask (RemoveTree root) w).2) as Hw2.
  { apply Hs; [|exists l; split; [|done]]; unfold ask; cbn [snd].
    - by destruct (os (past w) (RemoveTree root)); [|destruct Ha].
    - cbn [past]. by rewrite Hl. }
  unfold ask in Hw2. cbn [snd] in Hw2. by destruct (os (past w) (RemoveTree root)).
Qed.
Lemma run_test_safe test : (∀ root e, fake_path root e → keeps (in_use past0 [root] root) (test root e)) →
  triple (safe past0 []) (run_test environ tmp ARCHIVE test) (λ _, safe past0 []) (λ _, safe past0 []).
Proof.
  intros Ht. unfold run_test. eapply triple_bind; [apply temp_folder_used|intros root].
  assert (keeps (in_use past0 [root] root) (e ← setUp environ ARCHIVE root; test root e)) as Hk.
  { eapply (gives_keeps _ (λ _, True)). eapply gives_bind; [apply setUp_used|intros e He]. by apply gives_const; [apply Ht|]. }
  revert Hk. generalize (e ← setUp environ ARCHIVE root; test root e). intros m Hk w Hw. specialize (Hk w Hw).
  unfold try_finally. destruct (m w) as [r w1].
  assert (in_use past0 [root] root w1) as H1 by (destruct r; [done|apply Hk]).
  pose proof (remove_tree_safe root w1 H1) as H2. destruct (ask (RemoveTree root) w1) as [[u|e] w2]; [by destruct r|done].
Qed.
Lemma tests_safe : kept (unittest_main sha256 environ tmp ARCHIVE).
Proof.
  unfold unittest_main. apply within_bind; [|intros l; by apply within_raise].
  apply within_mapM. intros t Ht.
  assert (∀ root e, fake_path root e → keeps (in_use past0 [root] root) (t root e)) as Hu.
  { intros root e He. unfold tests in Ht. repeat (apply elem_of_cons in Ht as [-> | Ht]); [..|by apply not_elem_of_nil in Ht].
    - by apply identity_used.
    - by apply payload_used.
    - by apply platform_used.
    - by apply binary_used.
    - by apply destination_used.
    - by apply upgrade_used. }
  intros w Hw. unfold outcome. pose proof (run_test_safe t Hu w Hw) as Hr. by destruct (run_test _ _ _ t w) as [[u|err] w1].
Qed.
End run.


(** On the sample machine six roots are made, and the tests fail there. *)
Example package_check_1 :
  let r := @package_check_main (sample_os 1) id [("PATH", "/bin")] ["w"] ["tmp"] ["check"; "veil.tar.gz"] nothing in
  r.1 = Err (SystemExit 1) ∧ length (omap root_of (past r.2)) = 6%nat.
Proof. by vm_compute. Qed.
