(* ===== verification/DesktopGui.v ===== *)
(** * The acceptance test of the desktop program

    [veil-desktop/scripts/gui/check.py]: the packaged program on a Windows user of its own, whose
    proxy settings are put back on every way out. *)

From S2P Require Import Prelude.
From S2P Require Import PyText.
From S2P Require Import PyBytes.
From S2P Require Import Json.
From S2P Require Import Numbers.
From S2P Require Import FileSystem.
From S2P Require Import Tools.
From S2P Require Import Machine.
From S2P Require Import Base64.
From S2P Require Import Fixtures.
From S2P Require Import WinInet.
From S2P Require Import Stack.
From S2P Require Import CatalogCheck.
From S2P Require Import SampleMachine.
From Stdlib Require SpecFloat.
#[local] Open Scope Z_scope.

Record gui_args := { w_package : string; w_server : string; w_artifacts : string }.

(** [Handler.do_GET]: the status, the headers and the body *)
Definition gui_page : string := "Veil Windows GUI acceptance" +:+ nl.
Definition do_GET : Z * list (string * string) * string :=
  (200, [("Content-Length", str (Z.of_nat (String.length gui_page)))], gui_page).

(** The name of the system, the environment, [str] of a path, [ROOT], the working and the
    temporary directory, [sys.executable], and the turns of the loop that waits for the browser. *)
Section gui.
Context `{Os} (name : string) (environ : env) (shown : path → string) (ROOT cwd tmp : path) (executable : string) (fuel : nat).

Section session.
Context (package server_binary artifacts root : path).

Definition gui_cert : path := root ++ ["cert.pem"].
Definition gui_keyfile : path := root ++ ["key.pem"].
Definition gui_certificate : list string :=
  ["openssl"; "req"; "-x509"; "-newkey"; "rsa:2048"; "-nodes"; "-keyout"; shown gui_keyfile; "-out"; shown gui_cert;
   "-days"; "1"; "-subj"; "/CN=localhost"; "-addext"; "subjectAltName=DNS:localhost,IP:127.0.0.1"].

(** The two servers; one whose socket could not be wrapped is not in the list. *)
Definition serve_gui (secure : bool) : py scope Z :=
  p ← inside (ask BindHttp);
  (if secure then inside (ask (WrapHttp p gui_cert gui_keyfile)) else mret ());;
  modify (add_served p);;
  inside (ask (ServeHttp p));;
  mret p.

(** ** The configurations *)
Definition server_config (secret : string) (server_port : Z) : json :=
  JObj [("role", JStr "server"); ("listen", JStr (loopback server_port)); ("secret", JStr secret);
        ("tls", JObj [("mode", JStr "tls"); ("server_name", JStr "localhost"); ("certificate", JStr (shown gui_cert));
                      ("private_key_file", JStr (shown gui_keyfile))])].
Definition client_config (secret : string) (server_port proxy_port : Z) : json :=
  JObj [("role", JStr "client"); ("listen", JStr (loopback proxy_port)); ("inbound", JStr "mixed");
        ("server", JStr (loopback server_port)); ("secret", JStr secret);
        ("tls", JObj [("mode", JStr "tls"); ("server_name", JStr "localhost"); ("ca_file", JStr (shown gui_cert))])].
Definition baseline : settings :=
  {| flags := 5; server := ""; bypass := "<local>"; pac := "http://127.0.0.1:9/veil-test.pac" |}.

(** ** The processes *)
Definition server_argv (binary : path) : list string := [shown binary; "-config"; shown (root ++ ["server.json"])].
Definition desktop_argv (binary : path) (cdp_port : Z) : list string :=
  [shown binary; "-state-dir"; shown (root ++ ["state"]); "gui-acceptance";
   "--edge-webview-switches=--remote-debugging-port=" +:+ str cdp_port].
Definition launch_gui (label : string) (command : list string) : py scope proc :=
  log ← inside (open_text (artifacts ++ [label +:+ ".log"]) "wb");
  push (CloseLog log);;
  p ← inside (popen_proc {| cmd := command; penv := None; stdin := Inherit; stdout := ToFile log; stderr := ToFile log;
                            new_session := false |});
  modify (add_launched p);;
  mret p.
(** [any(p.poll() is not None for p in processes)] *)
Fixpoint any_exited (ps : list proc) : py world bool :=
  match ps with
  | [] => mret false
  | p :: ps => code ← poll p; match code with Some _ => mret true | None => any_exited ps end
  end.
Definition cdp_late (deadline : num) : py world bool :=
  now ← ask Now;
  if num_ltb deadline (Float now) then raise (TimeoutError "WebView2 CDP did not become ready")
  else ask (Sleep 200);; mret false.
Fixpoint await_cdp (fuel : nat) (ps : list proc) (deadline : num) (cdp_port : Z) : py world () :=
  match fuel with
  | O => raise (RuntimeError "out of fuel")
  | S fuel =>
      gone ← any_exited ps;
      if (gone : bool) then raise (RuntimeError "desktop or fixture exited before CDP was ready") else
      up ← try_except (ask (OpenUrl ("http://127.0.0.1:" +:+ str cdp_port +:+ "/json/version") 1000);; mret true)
             (catch_if is_os_error (cdp_late deadline));
      if (up : bool) then mret () else await_cdp fuel ps deadline cdp_port
  end.

(** ** The session *)
Definition gui_fixture (cdp_port proxy_port http https : Z) : json :=
  JObj [("cdp", JNum cdp_port); ("proxy", JNum proxy_port); ("http", JNum http); ("https", JNum https);
        ("cert", JStr (shown gui_cert)); ("config", JStr (shown (root ++ ["client.json"])));
        ("python", JStr executable); ("artifacts", JStr (shown artifacts)); ("baseline", settings_json baseline)].
Definition unpack_program : py world path :=
  ask (ExtractArchive package (root ++ ["package"]));;
  found ← ask (Glob (root ++ ["package"]) "*/veil-desktop.exe");
  lift match found with [binary] => Ok binary | _ => Err (ValueError "not exactly one veil-desktop.exe") end.
(** Both configurations are written and the user gets the settings of the test. *)
Definition prepare_session (secret : string) (server_port proxy_port : Z) : py world () :=
  ask (WriteText (root ++ ["server.json"]) (dumps (server_config secret server_port)));;
  ask (WriteText (root ++ ["client.json"]) (dumps (client_config secret server_port proxy_port)));;
  write baseline.
(** What the program left when it was told to exit *)
Definition after_exit (desktop : proc) (proxy_port : Z) : py world () :=
  code ← wait desktop (Some 10000);
  lift (raise_if (negb (code =? 0)) (AssertionError "explicit desktop exit failed"));;
  now ← snapshot;
  cleared ← read_json (artifacts ++ ["cleared-proxy.json"]);
  lift (raise_if (negb (json_eqb (settings_json now) cleared))
          (AssertionError "explicit exit failed to restore cleared baseline"));;
  r ← ask (ConnectEx "127.0.0.1" proxy_port 1000);
  lift (raise_if (r =? 0) (AssertionError "exit left proxy listening"));;
  ask (WriteText (artifacts ++ ["result.json"])
    (dumps (JObj [("passed", JBool true); ("explicit_exit", JBool true); ("proxy_restored", JBool true)])));;
  ask (Print "Windows packaged WebView2 GUI, native proxy settings, close-to-tray and four transfer paths passed.").
Definition gui_session : py scope () :=
  binary ← inside unpack_program;
  inside (ask (Run true (plain gui_certificate)));;
  http ← serve_gui false;
  https ← serve_gui true;
  secret ← inside (l ← ask (Urandom 32); mret (urlsafe l));
  server_port ← inside port; proxy_port ← inside port; cdp_port ← inside port;
  inside (prepare_session secret server_port proxy_port);;
  command ← inside (ask (Resolve server_binary));
  launch_gui "server" (server_argv command);;
  desktop ← launch_gui "desktop" (desktop_argv binary cdp_port);
  now ← inside (ask Now);
  deadline ← lift (num_add (Float now) (Int 45));
  ps ← gets launched;
  inside (await_cdp fuel ps deadline cdp_port);;
  inside (ask (WriteText (root ++ ["fixture.json"]) (dumps (gui_fixture cdp_port proxy_port http https))));;
  inside (run_checked ["node"; shown (ROOT ++ ["check.mjs"]); shown (root ++ ["fixture.json"])] None false (Some 120000));;
  inside (after_exit desktop proxy_port).

(** ** The [finally] clause *)
Definition taskkill (pid : Z) : list string := ["taskkill"; "/PID"; str pid; "/T"; "/F"].
Definition end_tree (p : proc) : py world () :=
  code ← poll p;
  match code with
  | Some _ => mret ()
  | None => ask (RunFor (taskkill (pid p)) None true None);; wait p (Some 10000);; mret ()
  end.
Definition end_server (p : Z) : py world () := ask (ShutdownHttp p);; ask (CloseHttp p).
Definition teardown : py scope () :=
  ps ← gets launched;
  inside (for_each end_tree (rev ps));;
  servers ← gets served;
  inside (for_each end_server servers).

Definition gui_body (original : settings) : py scope () :=
  push (RestoreSettings original);; try_finally gui_session teardown.
End session.

(** ** [main]: [windows] is loaded by the interpreter when the arguments are resolved. *)
Definition gui_main (a : gui_args) : py world () :=
  lift (raise_if (negb (String.eqb name "nt" && bool_decide (dict_get "VEIL_TEST_SYSTEM_PROXY" environ = Some "1")))
          (SystemExit 2));;
  server_binary ← ask (Resolve (join_path cwd (w_server a)));
  package ← ask (Resolve (join_path cwd (w_package a)));
  artifacts ← ask (Resolve (join_path cwd (w_artifacts a)));
  ask (Mkdir artifacts true true);;
  original ← snapshot;
  root ← ask (TempFolder "veil desktop gui " tmp);
  try_finally (exit_stack (gui_body package server_binary artifacts root original)) (ask (RemoveTree root)).
End gui.

(** ** What a run leaves

    [taskkill] is there, and a process it was told to end is soon gone. *)
Class Kills `(Os) : Prop := {
  taskkill_ok : ∀ h pid, is_ok (os h (RunFor (taskkill pid) None true None)) = true;
  killed_ok : ∀ h pid code p,
    is_ok (os (Event Z (RunFor (taskkill pid) None true None) (Ok code) :: h) (Wait p (Some 10000))) = true }.

Section covered.
Context `{Calm} `{!Kills H} (w0 : world).

(** The processes of the list are ended by the [finally] clause, the logs by the stack. *)
Definition in_session (s : scope) : Prop := covered w0 (map StopProcess (launched s) ++ callbacks s) (host s).

Lemma inside_session {A} (m : py world A) : quiet m → keeps in_session (inside m).
Proof.
  intros Hm s Hs. unfold inside. pose proof (quiet_restored m (host s) Hm) as Hq.
  destruct (m (host s)) as [r w]. assert (in_session (with_host w s)) as H1.
  { eapply covered_frame; [exact Hs|]. apply Hq, Hs. }
  by destruct r.
Qed.
Lemma end_tree_run p w : tidy w → ∃ w', end_tree p w = (Ok (), w') ∧ without (p_id p) w w'.
Proof.
  intros Hw. unfold end_tree, mbind at 1, py_bind. destruct (poll_run p w Hw) as ([c|] & w1 & -> & H1); [by exists w1|].
  pose proof (taskkill_ok (past w1) (pid p)) as Hk. unfold mbind at 1, py_bind, ask.
  destruct (os (past w1) (RunFor (taskkill (pid p)) None true None)) as [code|e] eqn:Ho; [|done].
  set (w2 := {| past := _ |}). assert (same w w2) as H2 by (eapply same_trans; [exact H1|]; repeat split; apply H1).
  unfold mbind, py_bind. pose proof (wait_run p (Some 10000) w2 (proj1 H2)) as (r & w3 & Hr & H3).
  rewrite Hr. destruct r as [c|e]; [exists w3; split; [done|by eapply without_same]|].
  exfalso. revert Hr. unfold wait, returncode, gets, mbind, py_bind.
  destruct (codes w2 !! p_id p) as [c|]; [done|].
  pose proof (killed_ok (past w1) (pid p) code (p_id p)) as Hok. unfold ask, w2. cbn [past].
  by destruct (os _ (Wait (p_id p) (Some 10000))).
Qed.
Lemma end_trees_run ps cs w : covered w0 (map StopProcess ps ++ cs) w →
  ∃ w', for_each end_tree ps w = (Ok (), w') ∧ covered w0 cs w'.
Proof.
  revert w. induction ps as [|p ps IH]; intros w Hw; cbn [for_each]; [by exists w|].
  destruct (end_tree_run p w) as (w1 & Hr & H1); [apply Hw|].
  unfold mbind, py_bind. rewrite Hr. apply IH. exact (covered_without w0 p _ w w1 Hw H1).
Qed.
Lemma end_server_quiet p : quiet (end_server p).
Proof. intros R T F. unfold end_server. solve_within. Qed.
Lemma teardown_covers : triple in_session teardown (λ _, covers w0) (λ _, covers w0).
Proof.
  intros s Hs. unfold teardown, gets, mbind at 1, py_bind.
  destruct (end_trees_run (rev (launched s)) (callbacks s) (host s)) as (w1 & Hr & H1).
  { eapply covered_more; [|exact Hs]. intros c. rewrite !elem_of_app, map_rev, !list_elem_of_In, <- in_rev. tauto. }
  unfold mbind, py_bind, inside at 1. rewrite Hr. cbn [with_host].
  assert (keeps (covers w0) (inside (for_each end_server (served s)))) as Hk.
  { apply inside_covers. intros R T F. apply within_for_each. intros p _. apply end_server_quiet. }
  specialize (Hk (with_host w1 s) H1). unfold gets. cbn [served with_host].
  destruct (inside _ _) as [[u|e] s1]; [done|apply Hk].
Qed.

Section parts.
Context (name : string) (shown : path → string) (ROOT : path) (executable : string) (fuel : nat).
Context (package server_binary artifacts root : path).

Lemma serve_gui_session secure : keeps in_session (serve_gui root secure).
Proof.
  unfold serve_gui. apply within_bind; [apply inside_session; intros R T F; solve_within|intros p].
  apply within_bind; [destruct secure; [apply inside_session; intros R T F; solve_within|apply within_ret]|intros []].
  apply within_bind; [by intros s Hs|intros []].
  apply within_bind; [apply inside_session; intros R T F; solve_within|intros []]. apply within_ret.
Qed.
(** Opening a log and pushing its exit; a process that is started is in the list. *)
Lemma launch_gui_session label command : keeps in_session (launch_gui artifacts label command).
Proof.
  intros s Hs. unfold launch_gui, mbind at 1, py_bind, inside at 1.
  pose proof (open_covered w0 (artifacts ++ [label +:+ ".log"]) "wb" _ (host s) Hs) as Ho.
  destruct (open_text _ _ (host s)) as [[log|e] w1]; [|done].
  unfold push, modify, mbind, py_bind, inside. cbn [host add_callback with_host].
  match goal with |- context [popen_proc ?o w1] => pose proof (popen_covered w0 o _ w1 Ho) as Hp; destruct (popen_proc o w1) as [[p|e] w2] end.
  - cbn. eapply covered_more; [|exact Hp].
    intros c. cbn. rewrite map_app. set_solver.
  - split; [|done]. eapply covered_more; [|exact Hp]. intros c. cbn. set_solver.
Qed.
#[local] Hint Resolve serve_gui_session launch_gui_session : within.

Lemma await_cdp_quiet ps deadline cdp_port : quiet (await_cdp fuel ps deadline cdp_port).
Proof.
  intros R T F. induction fuel as [|n IH]; cbn [await_cdp]; unfold cdp_late; [solve_within|].
  apply within_bind; [|solve_within]. clear. induction ps as [|p ps IH]; cbn [any_exited]; solve_within.
Qed.
Lemma gui_session_session : keeps in_session (gui_session shown ROOT executable fuel package server_binary artifacts root).
Proof.
  unfold gui_session, unpack_program, prepare_session, after_exit, run_checked, port. pose proof await_cdp_quiet.
  repeat (first [apply inside_session; intros R T F; solve_within | within_step | solve [auto 2 with within nocore]]).
Qed.
Lemma gui_body_covers original : keeps (covers w0) (gui_body shown ROOT executable fuel package server_binary artifacts root original).
Proof.
  unfold gui_body. apply within_bind; [apply push_covers|intros []].
  intros s Hs. unfold try_finally. pose proof (gui_session_session s) as H1.
  assert (in_session s) as H2 by (eapply covered_more; [|exact Hs]; set_solver). specialize (H1 H2).
  destruct (gui_session _ _ _ _ _ _ _ _ s) as [r s1]. assert (in_session s1) as H3 by (destruct r; [done|apply H1]).
  pose proof (teardown_covers s1 H3) as H4. destruct (teardown s1) as [[u|e] s2]; [|done]. by destruct r.
Qed.
End parts.
End covered.

(** The settings are restored by the callback that was pushed first. *)
Definition ends_with (c : callback) (s : scope) : Prop := ∃ cs, callbacks s = cs ++ [c].

Section settings_restored.
Context `{Os} (c : callback).
Lemma inside_ends {A} (m : py world A) : keeps (ends_with c) (inside m).
Proof. intros s Hs. unfold inside. by destruct (m (host s)) as [[a|e] w]. Qed.
Lemma push_ends d : keeps (ends_with c) (push d).
Proof. intros s [cs Hs]. exists (d :: cs). cbn. by rewrite Hs. Qed.
Lemma modify_ends f : (∀ s, callbacks (f s) = callbacks s) → keeps (ends_with c) (modify f).
Proof. intros Hf s [cs Hs]. exists cs. by rewrite Hf. Qed.
#[local] Hint Resolve inside_ends push_ends : within.

Lemma serve_gui_ends root secure : keeps (ends_with c) (serve_gui root secure).
Proof. unfold serve_gui. pose proof (λ p, modify_ends (add_served p) (λ _, eq_refl)). solve_within. Qed.
Lemma launch_gui_ends artifacts label command : keeps (ends_with c) (launch_gui artifacts label command).
Proof. unfold launch_gui. pose proof (λ p, modify_ends (add_launched p) (λ _, eq_refl)). solve_within. Qed.
#[local] Hint Resolve serve_gui_ends launch_gui_ends : within.
Lemma session_ends shown ROOT executable fuel package binary artifacts root :
  keeps (ends_with c) (try_finally (gui_session shown ROOT executable fuel package binary artifacts root) teardown).
Proof. unfold gui_session, teardown. solve_within. Qed.
End settings_restored.

Lemma gui_stack_puts_back `{Os} start shown ROOT executable fuel package binary artifacts root s w : canonical s →
  put_back start s (exit_stack (gui_body shown ROOT executable fuel package binary artifacts root s) w).2.
Proof.
  intros Hs. unfold exit_stack, gui_body, push, modify, mbind, py_bind.
  pose proof (session_ends (RestoreSettings s) shown ROOT executable fuel package binary artifacts root
    (add_callback (RestoreSettings s) (empty_scope w)) ltac:(by exists [])) as He.
  destruct (try_finally _ _ _) as [r s1]. assert (ends_with (RestoreSettings s) s1) as [cs ->] by (destruct r; [done|apply He]).
  rewrite unwind_last. cbn [run_callback]. set (w1 := (unwind cs r (host s1)).2).
  pose proof (write_puts_back start s Hs w1 I) as Hw. by destruct (write s w1) as [[u|e] w2].
Qed.

(** The program keeps what is held, and the settings. *)
Lemma gui_main_quiet `{Calm} `{!Kills H} name environ shown ROOT cwd tmp executable fuel a :
  quiet (gui_main name environ shown ROOT cwd tmp executable fuel a).
Proof.
  assert (∀ package binary artifacts root s,
    quiet (exit_stack (gui_body shown ROOT executable fuel package binary artifacts root s))) as Hb.
  { intros. apply restored_quiet. intros w Hw. apply exit_stack_restored; [done|apply gui_body_covers]. }
  intros R T F. unfold gui_main. solve_within.
Qed.
Lemma gui_main_settings `{Os} start `{!Inet H start} name environ shown ROOT cwd tmp executable fuel a s :
  triple (unset start s) (gui_main name environ shown ROOT cwd tmp executable fuel a)
    (λ _, put_back start s) (λ _, put_back start s).
Proof.
  assert (∀ A B (m : py world A) (k : A → py world B), keeps (unset start s) m →
    (∀ x, triple (unset start s) (k x) (λ _, put_back start s) (λ _, put_back start s)) →
    triple (unset start s) (m ≫= k) (λ _, put_back start s) (λ _, put_back start s)) as step.
  { intros A B m k Hm Hk. eapply triple_bind; [|exact Hk].
    eapply triple_consequence; [exact Hm|done|done|]. intros e w [Hw _]. left; apply Hw. }
  unfold gui_main. apply step; [by apply within_lift|intros []].
  assert (∀ B (c : call B), sets_or_starts B c = false → keeps (unset start s) (ask c)) as Hask.
  { intros B c. apply ask_blind, unset_blind. }
  apply step; [by apply Hask|intros binary]. apply step; [by apply Hask|intros package].
  apply step; [by apply Hask|intros artifacts]. apply step; [by apply Hask|intros _].
  apply (triple_bind _ _ _ (λ v w, unset start s w ∧ v = s ∧ canonical v)).
  { eapply triple_consequence; [exact (snapshot_gives start s)|done|done|]. intros e w [Hw _]. left; apply Hw. }
  intros v w [Hw [-> Hv]]. revert w Hw. apply step; [by apply Hask|intros root w _].
  unfold try_finally. pose proof (gui_stack_puts_back start shown ROOT executable fuel package binary artifacts root s w Hv) as Hp.
  destruct (exit_stack _ w) as [r w1]. cbn [snd] in Hp.
  pose proof (ask_blind (@sets) (put_back start s) (RemoveTree root) (put_back_blind start s) eq_refl w1 Hp) as Hr.
  destruct (ask (RemoveTree root) w1) as [[u|e] w2]; [by destruct r|apply Hr].
Qed.


(** A user with a proxy script, on a machine where everything works; [broken]: no certificate. *)
Definition user_settings : settings := {| flags := 5; server := ""; bypass := "<local>"; pac := "http://proxy/user.pac" |}.
Definition gui_os (broken : bool) : Os := λ A h c,
  match c in call A return result A with
  | InetQuery _ => Ok (answer_query (current user_settings h))
  | ReadText _ => Ok (dumps (settings_json (current user_settings h)))
  | Run _ _ => if broken then Err (CalledProcessError 1) else Ok ()
  | c => @os (sample_os 1) _ h c
  end.
#[export] Instance gui_os_calm broken : @Calm (gui_os broken).
Proof. by split. Qed.
#[export] Instance gui_os_kills broken : @Kills (gui_os broken).
Proof. by split. Qed.
#[export] Instance gui_os_inet broken : @Inet (gui_os broken) user_settings.
Proof. by apply answer_query_inet. Qed.
Definition sample_gui : gui_args := {| w_package := "veil.zip"; w_server := "veil.exe"; w_artifacts := "out" |}.
Definition gui_environ : env := [("VEIL_TEST_SYSTEM_PROXY", "1")].
Definition gui_run (broken : bool) : result () * world :=
  @gui_main (gui_os broken) "nt" gui_environ posix ["gui"] ["w"] ["tmp"] "python" 1 sample_gui nothing.

