(* ===== verification/WindowsSmoke.v ===== *)
(** * The command line on Windows

    [veil-service/scripts/windows_smoke.py]: a daemon and its client over a named pipe, with its
    state in a temporary directory. *)

From S2P Require Import Prelude.
From S2P Require Import PyText.
From S2P Require Import PyBytes.
From S2P Require Import Json.
From S2P Require Import Numbers.
From S2P Require Import FileSystem.
From S2P Require Import Tools.
From S2P Require Import Machine.
From S2P Require Import Base64.
From S2P Require Import Stack.
From S2P Require Import Smoke.
From S2P Require Import ServiceSmoke.
From S2P Require Import CatalogCheck.
From Stdlib Require Import Strings.Byte.
From Stdlib Require SpecFloat.
#[local] Open Scope Z_scope.

Definition windows_profile : json :=
  JObj [("role", JStr "client"); ("inbound", JStr "mixed"); ("listen", JStr "127.0.0.1:0"); ("server", JStr "127.0.0.1:9");
        ("secret", JStr (urlsafe (repeat x07 32))); ("tls", JObj [("mode", JStr "tls"); ("server_name", JStr "test.example")])].
(** [json.loads(text)["status"]] *)
Definition status_in (text : string) : result json := v ← loads text; jitem "status" v.

(** [os.name]; [str] of a path of the platform; the turns of the loop that waits for the daemon. *)
Section windows.
Context `{Os} (name : string) (shown : path → string) (cwd tmp : path) (fuel : nat).

Section session.
Context (daemon ctl pipe : string) (root : path).

Definition profile_path : path := root ++ ["import.json"].
Definition daemon_argv (pipe : string) : list string :=
  [daemon; "-state-dir"; shown (root ++ ["state"]); "-socket"; pipe].

(** ** [call], with the flags and the action *)
Record outcome := { o_code : Z; o_out : string; o_err : string }.
Definition call_any (flags : list string) (action : string) : py world outcome :=
  '(code, out, err) ← ask (RunCaptured ([ctl; "-socket"; pipe] ++ flags ++ [action]) None 20000);
  mret {| o_code := code; o_out := out; o_err := err |}.
Definition call_ok (flags : list string) (action : string) : py world string :=
  r ← call_any flags action;
  lift (raise_if (negb (o_code r =? 0)) (AssertionError (o_err r)));;
  mret (o_out r).

(** ** [start] *)
Fixpoint await_ready_daemon (fuel : nat) (deadline : num) (proc : proc) : py world json :=
  match fuel with
  | O => raise (RuntimeError "out of fuel")
  | S fuel =>
      now ← ask Now;
      if negb (num_ltb (Float now) deadline) then raise (AssertionError "daemon never became ready") else
      code ← poll proc;
      match code with
      | Some _ => raise (AssertionError "daemon exited before ready")
      | None =>
          status ← call_any [] "status";
          if o_code status =? 0 then lift (status_in (o_out status))
          else ask (Sleep 100);; await_ready_daemon fuel deadline proc
      end
  end.
Definition await_started (p : proc) : py world json :=
  now ← ask Now; deadline ← lift (num_add (Float now) (Int 20)); await_ready_daemon fuel deadline p.
Definition start_daemon : py world (proc * json) :=
  p ← popen_proc {| cmd := daemon_argv pipe; penv := None; stdin := Inherit; stdout := DevNull; stderr := DevNull;
                    new_session := false |};
  v ← try_except (await_started p) (λ e, Some (end_daemon p;; raise e));
  mret (p, v).

(** ** The checks *)
(** ["config" not in running and "secret" not in call("status").stdout] *)
Definition hides_secrets (running : json) : py world bool :=
  shows ← lift (jin "config" running);
  if (shows : bool) then mret false else out ← call_ok [] "status"; mret (negb (contains "secret" out)).
Definition first_session (state : json) : py world json :=
  lift (expect (has_state "stopped" state));;
  call_ok ["-config"; shown profile_path] "validate";;
  text ← call_ok ["-config"; shown profile_path] "save";
  revision ← lift (saved ← loads text; jitem "revision" saved);
  '(code, _, _) ← ask (RunCaptured (daemon_argv (pipe +:+ "-other")) None 5000);
  lift (raise_if (code =? 0) (AssertionError "state lock did not exclude duplicate daemon"));;
  argument ← lift (jstr revision);
  text ← call_ok ["-if-revision"; argument] "start";
  running ← lift (loads text);
  lift (expect (v ← jitem "status" running; has_state "running" v));;
  stale ← call_any ["-if-revision"; "stale"] "restart";
  lift (check (negb (o_code stale =? 0)));;
  hidden ← hides_secrets running;
  lift (check hidden);;
  text ← call_ok [] "config";
  lift (expect (config ← loads text; c ← jitem "config" config; v ← jitem "inbound" c; Ok (equals_text "mixed" v)));;
  text ← call_ok [] "stop";
  lift (expect (v ← status_in text; has_state "stopped" v));;
  mret revision.
Definition restored_state (revision restored : json) : result bool :=
  v ← jitem "saved_revision" restored; if json_eqb v revision then has_state "stopped" restored else Ok false.
Definition sessions : py world () :=
  '(p, state) ← start_daemon;
  revision ← try_finally (first_session state) (end_daemon p);
  '(p, restored) ← start_daemon;
  try_finally (lift (expect (restored_state revision restored))) (end_daemon p).
End session.

Definition windows_main (bin_dir : string) : py world () :=
  lift (raise_if (negb (String.eqb name "nt")) (SystemExit 2));;
  daemon ← ask (Resolve (join_path cwd bin_dir ++ ["veild.exe"]));
  ctl ← ask (Resolve (join_path cwd bin_dir ++ ["veilctl.exe"]));
  root ← ask (TempFolder "veil-cli-" tmp);
  try_finally
    (id ← uuid4_hex;
     ask (WriteText (profile_path root) (dumps windows_profile));;
     sessions (shown daemon) (shown ctl) ("\\.\pipe\veil-test-" +:+ id) root)
    (ask (RemoveTree root)).
End windows.

(** ** What a run leaves *)
Section quiet.
Context `{Calm} `{!Terminates H} (shown : path → string) (fuel : nat).

Lemma call_any_quiet ctl pipe flags action : quiet (call_any ctl pipe flags action).
Proof. intros R T F. unfold call_any. solve_within. Qed.
#[local] Hint Resolve call_any_quiet : within.
Lemma call_ok_quiet ctl pipe flags action : quiet (call_ok ctl pipe flags action).
Proof. intros R T F. unfold call_ok. solve_within. Qed.
#[local] Hint Resolve call_ok_quiet : within.
Lemma await_started_quiet ctl pipe p : quiet (await_started fuel ctl pipe p).
Proof.
  intros R T F. unfold await_started. do 2 (apply within_bind; [solve_within|intros ?]).
  induction fuel as [|n IH]; cbn [await_ready_daemon]; solve_within.
Qed.
Lemma first_session_quiet daemon ctl pipe root state : quiet (first_session shown daemon ctl pipe root state).
Proof. intros R T F. unfold first_session, hides_secrets. solve_within. Qed.

(** What [start] returns runs; when it raises, its process is reaped. *)
Lemma start_daemon_frame daemon ctl pipe root R T F :
  triple (frame R T F) (start_daemon shown fuel daemon ctl pipe root)
    (λ x w, ∃ o, frame (<[p_id x.1 := o]> R) T F w) (λ _ w, frame R T F w ∧ True).
Proof.
  unfold start_daemon. eapply triple_bind; [apply popen_frame|intros p]. cbv beta.
  match goal with |- context [<[p_id p := ?o]> R] => set (op := o) end.
  intros w Hw. unfold try_except, mbind at 1, py_bind. pose proof (await_started_quiet ctl pipe p _ _ _ w Hw) as Ha.
  destruct (await_started fuel ctl pipe p w) as [[v|e] w1]; [by exists op|]. destruct Ha as [Ha _].
  pose proof (reaps_frame R T F end_daemon p op end_daemon_reaps w1 Ha) as Hr.
  unfold mbind, py_bind, raise. by destruct (end_daemon p w1) as [[u|x] w2].
Qed.
Lemma sessions_quiet daemon ctl pipe root : quiet (sessions shown fuel daemon ctl pipe root).
Proof.
  intros R T F. unfold sessions.
  assert (∀ B (k : proc * json → py world B),
    (∀ p v o, triple (frame (<[p_id p := o]> R) T F) (k (p, v)) (λ _, frame R T F) (λ _ w, frame R T F w ∧ True)) →
    keeps (frame R T F) (start_daemon shown fuel daemon ctl pipe root ≫= k)) as Hs.
  { intros B k Hk. eapply triple_bind; [apply start_daemon_frame|]. intros [p v] w [o Hw]. by eapply Hk. }
  apply Hs. intros p v o. eapply triple_bind.
  - apply finally_reaps; [exact end_daemon_reaps|apply first_session_quiet].
  - intros revision. apply Hs. intros p' v' o'. apply finally_reaps; [exact end_daemon_reaps|]. intros R' T' F'. solve_within.
Qed.
Lemma windows_main_quiet name cwd tmp bin_dir : quiet (windows_main name shown cwd tmp fuel bin_dir).
Proof. intros R T F. unfold windows_main, uuid4_hex. pose proof sessions_quiet. solve_within. Qed.
End quiet.

(** A daemon that passes. *)
Definition windows_os (guarded : bool) : Os := λ A l c,
  match c in call A return result A with
  | RunCaptured argv _ _ =>
      let action := List.last argv "" in
      let state s := dumps (JObj [("status", JObj [("state", JStr s); ("saved_revision", JStr "r1")])]) in
      if contains "-other" action then Ok (1, "", "locked")
      else if String.eqb action "save" then Ok (0, dumps (JObj [("revision", JStr "r1")]), "")
      else if String.eqb action "start" then Ok (0, state "running", "")
      else if String.eqb action "restart" then Ok (if guarded then 1 else 0, "", "")
      else if String.eqb action "config" then Ok (0, dumps (JObj [("config", windows_profile)]), "")
      else Ok (0, state "stopped", "")
  | Resolve p => Ok p
  | TempFolder prefix dir => Ok (dir ++ [prefix])
  | Urandom n => Ok (repeat xff (Z.to_nat n))
  | Popen _ => Ok 100
  | Poll _ => Ok None
  | Wait _ _ => Ok 0
  | Now => Ok (SpecFloat.S754_zero false)
  | Terminate _ | Sleep _ | RemoveTree _ | WriteText _ _ => Ok ()
  | _ => Err (OSError "unused")
  end.
Definition windows_verdict (name : string) (guarded : bool) : result () :=
  (@windows_main (windows_os guarded) name posix ["w"] ["tmp"] 1 "bin" nothing).1.
Example windows_verdicts :
  (windows_verdict "nt" true, windows_verdict "nt" false, windows_verdict "posix" true) =
  (Ok (), Err (AssertionError ""), Err (SystemExit 2)).
Proof. vm_compute. reflexivity. Qed.
