(* ===== verification/SystemdCheck.v ===== *)
(** * The service under systemd

    [veil-service/scripts/systemd_check.py]: installation, two instances, upgrades and removal,
    in a disposable container. *)

From S2P Require Import Prelude.
From S2P Require Import PyText.
From S2P Require Import PyBytes.
From S2P Require Import Json.
From S2P Require Import Numbers.
From S2P Require Import FileSystem.
From S2P Require Import Tools.
From S2P Require Import Machine.
From S2P Require Import Sockets.
From S2P Require Import Smoke.
From S2P Require Import ServiceSmoke.
From Stdlib Require Import Strings.Byte.
#[local] Open Scope Z_scope.

(** [str] of a tuple of texts; [text.rsplit(":", 1)] with two parts *)
Definition tuple_repr (l : list string) : string :=
  "(" +:+ join ", " (map repr l) +:+ (if bool_decide (length l = 1%nat) then "," else "") +:+ ")".
Definition host_port (text : string) : result (string * string) :=
  match rev (split ":" text) with
  | port :: p :: rest => Ok (join ":" (rev (p :: rest)), port)
  | _ => Err (ValueError "not enough values to unpack")
  end.
Example host_port_1 : host_port "::1:80" = Ok ("::1", "80") ∧ is_ok (host_port "80") = false.
Proof. by vm_compute. Qed.

Section systemd.
Context `{Os} (cwd : path) (environ : env) (argv : list string).

(** ** [run], [status], [ready], [pid] *)
Definition tool (args : list string) (ok : bool) : py world string :=
  '(code, out, err) ← ask (RunCaptured args None 20000);
  lift (raise_if (ok && negb (code =? 0)) (RuntimeError (tuple_repr args +:+ ": " +:+ out +:+ err)));;
  lift (raise_if (negb ok && (code =? 0)) (RuntimeError ("unexpected success: " +:+ tuple_repr args)));;
  mret out.
Definition run_all (l : list (list string)) : py world () := for_each (λ args, tool args true;; mret ()) l.
Definition veil_system (instance : string) (args : list string) : list string := "veil-system" :: instance :: args.
Definition status (instance : string) : py world json :=
  out ← tool (veil_system instance ["status"]) true; lift (v ← loads out; jitem "status" v).
Definition starting (e : exn) : bool := match e with RuntimeError _ | KeyError _ => true | _ => false end.
Fixpoint ready_loop (n : nat) (instance : string) : py world json :=
  match n with
  | O => raise (TimeoutError "daemon control socket not ready")
  | S n =>
      r ← try_except (v ← status instance; mret (Some v)) (catch_if starting (ask (Sleep 50);; mret None));
      match r with Some v => mret v | None => ready_loop n instance end
  end.
Definition ready (instance : string) : py world json := ready_loop 100 instance.
Definition main_pid : py world string :=
  tool ["systemctl"; "show"; "-p"; "MainPID"; "--value"; "veil@check.service"] true.
Definition state_of (read : py world json) (text message : string) : py world () :=
  v ← read; lift (b ← has_state text v; raise_if (negb b) (AssertionError message)).

(** ** The checks *)
Definition check_config : path := ["tmp"; "test-config.json"].
Definition saved_file : path := ["var"; "lib"; "veil-check"; "config.json"].
Definition install (release : path) (action : string) : list string := ["sh"; posix (release ++ ["install.sh"]); action].
Definition uninstall : list string := ["sh"; "/usr/local/share/veil/uninstall.sh"; "uninstall"].
Definition imported : list string := veil_system "check" ["import"; posix check_config].

Definition first_install (release : path) : py world () :=
  run_all [install release "install"; ["systemd-analyze"; "verify"; "/usr/local/lib/systemd/system/veil@.service"];
           veil_system "check" ["enable"]];;
  state_of (ready "check") "stopped" "";;
  run_all [veil_system "second" ["enable"]];;
  state_of (ready "second") "stopped" "".

Definition private_files : list (path * Z) :=
  [(["var"; "lib"; "veil-check"], 448); (["run"; "veil-check"], 448); (["run"; "veil-check"; "control.sock"], 384);
   (saved_file, 384)].
Definition check_private (owner : Z) (x : path * Z) : py world () :=
  '(uid, mode) ← ask (Stat x.1);
  lift (raise_if (negb ((uid =? owner) && (Z.land mode 511 =? x.2))) (AssertionError (posix x.1))).
(** The instance runs with the imported configuration; the other one has none. *)
Definition first_start : py world json :=
  ask (WriteText check_config (dumps smoke_config));;
  run_all [veil_system "check" ["validate"; posix check_config]; imported; veil_system "check" ["start"]];;
  current ← status "check";
  lift (expect (has_state "running" current));;
  second ← status "second";
  lift (revision ← jget "saved_revision" second; check (negb (truthy revision)));;
  owner ← ask (UserId "veil");
  for_each (check_private owner) private_files;;
  tool ["runuser"; "-u"; "nobody"; "--"; "veil-system"; "check"; "status"] false;;
  mret current.

(** A connection survives an import and an upgrade, and is closed by the restart. *)
Definition upgrade (release : path) (active : nat) : py world () :=
  send_all active [x05];;
  cfg ← lift (jset "max_connections" (JNum 65) smoke_config);
  ask (WriteText check_config (dumps cfg));;
  before ← main_pid;
  run_all [imported];;
  v ← status "check";
  lift (expect (flag "restart_required" v));;
  run_all [install release "install"];;
  after ← main_pid;
  lift (raise_if (negb (String.eqb after before)) (AssertionError "upgrade restarted the daemon"));;
  send_all active [x01; x00];;
  reply ← recv active 2;
  lift (raise_if (negb (bool_decide (reply = [x05; x00]))) (AssertionError "save/upgrade interrupted a connection"));;
  run_all [veil_system "check" ["restart"]];;
  rest ← recv active 1;
  lift (raise_if (negb (bool_decide (rest = []))) (AssertionError "explicit restart left old connection open")).
Definition live_upgrade (release : path) (current : json) : py world () :=
  '(host, text) ← lift (listen ← jitem "listen" current;
                        match listen with JStr s => host_port s | _ => Err AttributeError end);
  port ← lift (py_int text);
  active ← dial host port 3000;
  with_socket active (upgrade release active).

Definition restarts : py world () :=
  v ← status "check";
  lift (b ← flag "restart_required" v; check (negb b));;
  run_all [veil_system "check" ["stop"]];;
  state_of (status "check") "stopped" "";;
  run_all [veil_system "check" ["daemon-restart"]];;
  state_of (ready "check") "running" "";;
  run_all [veil_system "check" ["daemon-status"]];;
  logs ← tool (veil_system "check" ["logs"]) true;
  lift (check (contains "control listening" logs && negb (contains test_secret logs))).

(** The removal is refused while an instance is active or enabled, and keeps the configuration. *)
Definition removal (release : path) : py world () :=
  saved ← ask (ReadBytes saved_file);
  tool (install release "uninstall") false;;
  run_all [veil_system "check" ["disable"]; ["systemctl"; "stop"; "veil@second.service"]];;
  tool (install release "uninstall") false;;
  run_all [veil_system "second" ["disable"]; uninstall];;
  present ← ask (Exists ["usr"; "local"; "bin"; "veild"]);
  lift (check (negb present));;
  kept ← ask (ReadBytes saved_file);
  lift (check (String.eqb kept saved));;
  run_all [install release "install"; veil_system "check" ["enable"]];;
  state_of (ready "check") "running" "reinstall did not recover saved config";;
  run_all [veil_system "check" ["disable"]; uninstall].

Definition systemd_checks : list string :=
  ["real systemd install"; "unit validation"; "two isolated instances"; "private file ownership";
   "unprivileged access denied"; "save/upgrade preserve active connection"; "explicit restart";
   "daemon restart/autostart"; "journal diagnostics"; "active/enabled uninstall guard";
   "config-preserving uninstall/reinstall"].

(** ** The program *)
Definition in_container : py world bool :=
  if bool_decide (dict_get "VEIL_SYSTEMD_TEST" environ = Some "1") then
    docker ← ask (Exists [".dockerenv"]);
    if (docker : bool) then
      comm ← ask (ReadText ["proc"; "1"; "comm"]); mret (String.eqb (strip comm) "systemd")
    else mret false
  else mret false.
Definition systemd_main : py world () :=
  inside ← in_container;
  lift (raise_if (negb inside) (SystemExit 1));;
  argument ← lift (from_option_or IndexError (argv !! 1%nat));
  release ← ask (Resolve (join_path cwd argument));
  first_install release;;
  current ← first_start;
  live_upgrade release current;;
  restarts;;
  removal release;;
  ask (Print (dumps (JObj [("result", JStr "passed"); ("checks", JArr (map JStr systemd_checks))]))).
End systemd.

Section quiet.
Context `{Os}.
Lemma tool_quiet args ok : quiet (tool args ok).
Proof. intros R T F. unfold tool. solve_within. Qed.
#[local] Hint Resolve tool_quiet : within.
Lemma run_all_quiet l : quiet (run_all l).
Proof. intros R T F. unfold run_all. solve_within. Qed.
Lemma status_quiet instance : quiet (status instance).
Proof. intros R T F. unfold status. solve_within. Qed.
#[local] Hint Resolve run_all_quiet status_quiet : within.
Lemma ready_quiet instance : quiet (ready instance).
Proof. intros R T F. unfold ready. generalize 100%nat. intros n. induction n as [|n IH]; cbn [ready_loop]; solve_within. Qed.
Lemma main_pid_quiet : quiet main_pid.
Proof. intros R T F. unfold main_pid. solve_within. Qed.
#[local] Hint Resolve ready_quiet main_pid_quiet : within.
Lemma live_upgrade_quiet release current : quiet (live_upgrade release current).
Proof.
  intros R T F. unfold live_upgrade. apply within_bind; [solve_within|intros [host text]].
  apply within_bind; [solve_within|intros port]. apply socket_quiet; [apply dial_opens|].
  intros c R' T' F'. unfold upgrade. solve_within.
Qed.
Lemma systemd_main_quiet cwd environ argv : quiet (systemd_main cwd environ argv).
Proof.
  intros R T F. unfold systemd_main, in_container, first_install, first_start, check_private, restarts, removal, state_of.
  pose proof live_upgrade_quiet. solve_within.
Qed.
End quiet.
