(* ===== verification/Fingerprint.v ===== *)
(** * ClientHellos of two versions

    The main program of [veil-core/scripts/reality_fingerprint.py]: captured cold tunnels of
    both versions, parsed and compared with each other and with a browser. *)

From S2P Require Import Prelude.
From S2P Require Import PyText.
From S2P Require Import PyBytes.
From S2P Require Import TlsRecord.
From S2P Require Import ClientHello.
From S2P Require Import Json.
From S2P Require Import Numbers.
From S2P Require Import FileSystem.
From S2P Require Import Tools.
From S2P Require Import Machine.
From S2P Require Import Fixtures.
From S2P Require Import RealityBenchmark.
From S2P Require Import BrowserHello.
From Stdlib Require Import Ascii.
#[local] Open Scope Z_scope.

(** [bytes.fromhex] *)
Definition bad_hex : exn := ValueError "non-hexadecimal number found in fromhex() arg".
Fixpoint from_hex (s : string) : result bytes :=
  match s with
  | "" => Ok []
  | String c s1 =>
      if is_space c then from_hex s1
      else match s1 with
      | "" => Err bad_hex
      | String d s2 =>
          x ← from_option_or bad_hex (hex_value c);
          y ← from_option_or bad_hex (hex_value d);
          rest ← from_hex s2;
          Ok (z_byte (Z.of_N (16 * x + y)) :: rest)
      end
  end.

(** A captured trial of a version. *)
Record captured := { c_hello : hello_info; c_shapes : list (string * list (Z * Z)); c_stats : json }.
Definition down_tail (c : captured) : list (Z * Z) :=
  let l := default [] (dict_get "down" (c_shapes c)) in drop (length l - 4) l.
Definition pairs_array (l : list (Z * Z)) : json := JArr (map (λ '(t, n), JArr [JNum t; JNum n]) l).
Definition captured_json (c : captured) : json :=
  JObj [("hello", hello_json (c_hello c)); ("records", JObj (map (λ '(d, l), (d, pairs_array l)) (c_shapes c)));
        ("server_stats", c_stats c)].

(** ** A row of [trial] *)
Definition direction_bytes (kv : string * json) : result (string * bytes) :=
  text ← jstr kv.2; b ← from_hex text; Ok (kv.1, b).
Definition direction_records (kv : string * bytes) : result (string * list (Z * bytes)) :=
  rs ← records kv.2; Ok (kv.1, rs).
Definition read_row (sha256 : bytes → string) (row : json) : result captured :=
  capture ← jitem "capture" row;
  capture ← jobj capture;
  raw ← mapR direction_bytes capture;
  parsed ← mapR direction_records raw;
  up ← dict_index id "up" parsed;
  first ← get_at up 0;
  client_hello ← hello sha256 first.2;
  stats ← jitem "server_stats" row;
  Ok {| c_hello := client_hello; c_shapes := map (λ '(d, rs), (d, map (λ r : Z * bytes, (r.1, zlen r.2)) rs)) parsed;
        c_stats := stats |}.

(** ** The summary *)
Definition profile_text (c : captured) : string := dumps_sorted (profile_json (hello_profile (c_hello c))).
Definition distinct {A} `{EqDecision A} (l : list A) : nat := length (remove_dups l).
Definition all_fresh {A} `{EqDecision A} (f : captured → A) (rows : list captured) : bool :=
  bool_decide (distinct (map f rows) = length rows).
Definition version_summary (rows : list captured) : json :=
  JObj [("samples", JNum (zlen rows));
    ("clienthello_bytes", counts_json (counter (map (λ c, hello_bytes (c_hello c)) rows)));
    ("downstream_tail", JObj (map (λ '(k, n), (k, JNum n)) (counter (map (λ c, dumps (pairs_array (down_tail c))) rows))));
    ("fresh_randoms", JBool (all_fresh (λ c, random_sha256 (c_hello c)) rows));
    ("fresh_session_ids", JBool (all_fresh (λ c, session_id_sha256 (c_hello c)) rows));
    ("fresh_key_shares", JBool (all_fresh (λ c, key_share_sha256 (c_hello c)) rows))].

Section fingerprint.
Context `{Os} (ROOT : path) (ENV : env) (sha256 : bytes → string).

Record fingerprint_args := {
  n_before : string; n_after : string; n_out : string; n_samples : Z; n_fingerprint : option string;
  n_padding : bool; n_browser : option string }.
Definition fp_padding (a : fingerprint_args) : list (string * json) :=
  if n_padding a then [("record_padding", JBool true)] else [].
Definition fp_client (a : fingerprint_args) : list (string * json) :=
  match n_fingerprint a with Some (String c x) => [("fingerprint", JStr (String c x))] | _ => [] end ++ fp_padding a.
Definition fp_setup (a : fingerprint_args) (version : string) : setup :=
  let after := String.eqb version "after" in
  {| mode := "H"; rounds := 1; optimized := true; with_capture := true;
     client_tls := if after then fp_client a else []; server_tls := if after then fp_padding a else [] |}.

Definition fp_run (a : fingerprint_args) (f : credentials) (out : path) (j : Z * string) : py world (string * captured) :=
  let '(repeat, version) := j in
  let binaries := join_path ROOT (if String.eqb version "before" then n_before a else n_after a) in
  row ← trial ROOT ENV f binaries (fp_setup a version) (out ++ [pad3 (Z.to_nat repeat) +:+ "-" +:+ version]);
  c ← lift (read_row sha256 row);
  mret (version, c).
Definition fp_jobs (a : fingerprint_args) : list (Z * string) :=
  repeat ← seqZ 0 (n_samples a); version ← ["before"; "after"]; [(repeat, version)].
Definition of_version (rows : list (string * captured)) (version : string) : list captured :=
  (filter (λ r, r.1 = version) rows).*2.

(** The comparison with a result of browser_hello.py *)
Definition known_profile (sample : json) : result string := p ← jitem "profile" sample; Ok (dumps_sorted p).
Definition browser_part (a : fingerprint_args) (after : list captured) : py world (list (string * json)) :=
  match n_browser a with
  | Some (String c x) =>
      browser ← read_json (join_path ROOT (String c x));
      samples ← lift (v ← jitem "samples" browser; jarr v);
      known ← lift (mapR known_profile samples);
      version ← lift (jitem "browser_version" browser);
      mret [("browser_version", version);
            ("candidate_matches_browser_normalized_hello",
             JBool (forallb (λ c, bool_decide (profile_text c ∈ known)) after))]
  | _ => mret []
  end.
Definition fp_scope : string :=
  "owned loopback; record lengths exclude five-byte TLS headers; no censorship classification test".
Definition fp_main (a : fingerprint_args) : py world () :=
  lift (raise_if (n_samples a <? 2) (SystemExit 2));;
  let out := join_path ROOT (n_out a) in
  old ← ask (Exists out);
  lift (raise_if old (SystemExit 1));;
  f ← fixture ROOT out false;
  rows ← mapM_py (fp_run a f out) (fp_jobs a);
  browser ← browser_part a (of_version rows "after");
  let summary := JObj
    ([("normalized_clienthello_equal", JBool (bool_decide (distinct (map (λ r, profile_text r.2) rows) = 1%nat)));
      ("scope", JStr fp_scope)] ++ browser ++
     map (λ v, (v, version_summary (of_version rows v))) ["before"; "after"]) in
  ask (WriteText (out ++ ["result.json"]) (dumps_indent 2 (JObj
    [("summary", summary);
     ("samples", JObj (map (λ v, (v, JArr (map captured_json (of_version rows v)))) ["before"; "after"]))]) +:+ nl)).
End fingerprint.

(** ** What is read back *)
Lemma from_hex_hex l : from_hex (hex l) = Ok l.
Proof.
  induction l as [|b l IH]; [done|]. change (hex (b :: l)) with (hex_byte b +:+ hex l). unfold hex_byte.
  rewrite !sapp_cons, sapp_nil_l. cbn [from_hex].
  assert (∀ b, is_space (hex_digit (Byte.to_N b / 16)) = false ∧
    hex_value (hex_digit (Byte.to_N b / 16)) = Some (Byte.to_N b / 16)%N ∧
    hex_value (hex_digit (Byte.to_N b mod 16)) = Some (Byte.to_N b mod 16)%N ∧
    z_byte (Z.of_N (16 * (Byte.to_N b / 16) + Byte.to_N b mod 16)) = b) as Hb by (intros []; by vm_compute).
  destruct (Hb b) as (-> & -> & -> & Hz). cbn [from_option_or]. unfold mbind, result_bind in *. by rewrite IH, Hz.
Qed.
