(* ===== verification/Compare.v ===== *)
(** * The comparison with the Rust peer

    [veil-rust/scripts/compare.py]: its own process counters and [Perf], a trial of a pair of
    proxies, and the main program with its summary.  The switching, closing and parsing of a
    counter, and the stopping of processes, are those of Perf.v and Fixtures.v, which the script
    repeats. *)

From S2P Require Import Prelude.
From S2P Require Import PyText.
From S2P Require Import PyBytes.
From S2P Require Import Json.
From S2P Require Import Numbers.
From S2P Require Import FileSystem.
From S2P Require Import Tools.
From S2P Require Import Machine.
From S2P Require Import Fixtures.
From S2P Require Import Perf.
From S2P Require Import Rig.
From S2P Require Import SampleMachine.
From S2P Require Import Sockets.
From S2P Require Import Base64.
From Stdlib Require Import Ascii.
From Stdlib Require SpecFloat.
#[local] Open Scope Z_scope.

(** [int(text, 16)] of hexadecimal digits, as the kernel prints them *)
Fixpoint hex_digits (acc : Z) (s : string) : option Z :=
  match s with
  | "" => Some acc
  | String c s => d ← hex_value c; hex_digits (16 * acc + Z.of_N d) s
  end.
Definition hex_int (s : string) : result Z :=
  if String.eqb s "" then Err (ValueError "invalid literal for int()")
  else from_option_or (ValueError "invalid literal for int()") (hex_digits 0 s).

(** ** The counters *)
Section counters.
Context `{Os}.

Definition compare_line (p : proc) : py world json :=
  ready ← ask (Ready (p_id p) 90000);
  lift (raise_if (negb ready) (TimeoutError "load timed out"));;
  raw ← ask (Readline (p_id p));
  lift (raise_if (String.eqb raw "") (RuntimeError "load failed, see process logs"));;
  lift (loads raw).

Fixpoint compare_wait (n : nat) (p : Z) (process : proc) : py world () :=
  match n with
  | O => raise (TimeoutError "proxy readiness")
  | S n =>
      code ← poll process;
      match code with
      | Some _ => raise (RuntimeError "proxy exited, see process logs")
      | None => up ← attempt p 50; if (up : bool) then mret () else compare_wait n p process
      end
  end.

(** [next(s for s in status if s.startswith("VmHWM:"))] *)
Definition peak_line (status : list string) : result string :=
  from_option_or StopIteration (head (filter (λ s, startswith s "VmHWM:" = true) status)).
Record usage := { cpu_seconds : num; peak_rss : Z }.
Definition usage_of (pid : Z) : py world usage :=
  text ← ask (ReadText ["proc"; str pid; "stat"]);
  rest ← lift (after_first ") " text);
  let stat := words rest in
  status ← ask (ReadText ["proc"; str pid; "status"]);
  user ← lift (field stat 11);
  system ← lift (field stat 12);
  ticks ← ask (Sysconf "SC_CLK_TCK");
  seconds ← lift (num_div (Int (user + system)) (Int ticks));
  peak ← lift (l ← peak_line (splitlines status); field (words l) 1);
  mret {| cpu_seconds := seconds; peak_rss := peak |}.

(** [Perf.__init__] and [Perf.command] *)
Definition compare_perf (pid : Z) (folder : path) : py world counter :=
  ask (Mkdir folder false false);;
  perf_attach pid (folder ++ ["ctl"]) (folder ++ ["ack"]) (folder ++ ["perf.csv"]) (folder ++ ["log"]).
Definition perf_failed : exn := RuntimeError "perf failed; inspect log or use --no-perf".
Definition perf_command_to (c : counter) (s : string) : py world () :=
  on_fd (cf c) (WriteFd (cf c) (s +:+ nl));;
  ready ← on_fd (af c) (SelectFd (af c) 10000);
  lift (raise_if (negb ready) perf_failed);;
  reply ← on_fd (af c) (ReadFd (af c) 4096);
  lift (raise_if (negb (contains "ack" reply)) perf_failed).
Definition perf_result (c : counter) : py world (list (string * float)) :=
  text ← ask (ReadText (csv c));
  values ← lift (perf_rows [] (splitlines text));
  lift (raise_if (num_leb (match dict_get "task-clock" values with Some x => Float x | None => Int 0 end) (Int 0))
    (RuntimeError "missing perf task-clock"));;
  mret values.
End counters.

(** ** [trial] *)
Record compare_args := {
  r_go : path; r_rust : path; r_openssl : path; r_peer : path; r_out : path; r_pairs : string; r_modes : string;
  r_size : Z; r_rounds : Z; r_repeats : Z; r_cpus : list Z; r_no_perf : bool }.

Definition range_json (lo hi : Z) : json := JObj [("min", JNum lo); ("max", JNum hi)].
Definition traffic_settings : json :=
  JObj [("version", JNum 1); ("quantum_bytes", range_json 8192 32768); ("startup_bytes", range_json 512 2048);
        ("startup_writes", range_json 2 6); ("padding_limit", range_json 0 0); ("padding_budget", range_json 0 0);
        ("control_padding_limit", range_json 0 0); ("credit_blocks", range_json 16 64)].
Definition base_config (secret : string) : list (string * json) :=
  [("secret", JStr secret); ("max_connections", JNum 64); ("max_idle", JNum 8); ("idle_seconds", JNum 120);
   ("pool_seconds", JNum 60); ("traffic", traffic_settings)].
Definition tls_config : list (string * json) :=
  [("mode", JStr "tls"); ("server_name", JStr "cover.test"); ("record_padding", JBool false)].
Definition server_config (secret : string) (sp : Z) (cert key : path) : json :=
  JObj (dict_or (base_config secret)
    [("role", JStr "server"); ("listen", JStr (loopback sp));
     ("tls", JObj (dict_or tls_config [("certificate", JStr (posix cert)); ("private_key_file", JStr (posix key))]))]).
Definition client_config (secret : string) (sp cp : Z) (cert : path) : json :=
  JObj (dict_or (base_config secret)
    [("role", JStr "client"); ("listen", JStr (loopback cp)); ("server", JStr (loopback sp));
     ("tls", JObj (dict_or tls_config [("ca_file", JStr (posix cert))]))]).

(** The connections of the client to the server in [/proc/net/tcp]. *)
Definition tcp_session (sp : Z) (row : string) : result bool :=
  let cols := words row in
  remote ← get_at cols 2;
  p ← get_at (split ":" remote) 1;
  n ← hex_int p;
  if n =? sp then state ← get_at cols 3; Ok (String.eqb state "01") else Ok false.
Definition sessions (sp : Z) (text : string) : result Z :=
  rows ← mapR (tcp_session sp) (tail (splitlines text));
  Ok (zlen (filter (λ b, b = true) rows)).

Definition usage_json (cpu : num) (peak : Z) : json := JObj [("cpu_seconds", json_of cpu); ("peak_rss_kib", JNum peak)].
(** [result[name] |= kvs], of a dictionary in the row *)
Definition update_side (name : string) (kvs : list (string * json)) (row : json) : result json :=
  side ← jitem name row; side ← jupdate kvs side; jset name side row.

Section compare.
Context `{Os} (environ : env) (args : compare_args).

Definition binary (name : string) : result path :=
  dict_index id name [("go", r_go args); ("rust", r_rust args); ("openssl", r_openssl args)].
Definition two (l : list string) : result (string * string) :=
  match l with [a; b] => Ok (a, b) | _ => Err (ValueError "values to unpack") end.
Definition cpu_at (i : nat) : result string := n ← get_at (r_cpus args) i; Ok (str n).

Definition start (folder : path) (command : list string) (cpu : nat) : py rig proc :=
  c ← lift (cpu_at cpu); launch_in environ folder command c 1 Inherit None.
Definition wait_ready (p : Z) (process : proc) : py rig () := on (compare_wait 300 p process).
Definition save_config (folder : path) (name : string) (config : json) : py rig () :=
  on (ask (WriteText (folder ++ [name +:+ ".json"]) (dumps config));;
      ask (Chmod (folder ++ [name +:+ ".json"]) 384)).
Definition compare_load (cp bp : Z) (mode : string) (concurrency : Z) : list string :=
  [posix (r_peer args); "-socks"; loopback cp; "-target"; loopback bp; "-mode"; mode;
   "-connections"; str concurrency; "-bytes"; str (r_size args); "-rounds"; str (r_rounds args)].

Definition start_pair (folder : path) (client_name server_name mode : string) (concurrency bp sp cp : Z) :
    py rig (proc * proc * proc) :=
  backend ← start folder [posix (r_peer args); "-role"; "backend"; "-listen"; loopback bp] 2;
  wait_ready bp backend;;
  sb ← lift (binary server_name);
  server ← start folder [posix sb; "-config"; posix (folder ++ ["server.json"])] 0;
  wait_ready sp server;;
  cb ← lift (binary client_name);
  client ← start folder [posix cb; "-config"; posix (folder ++ ["client.json"])] 1;
  wait_ready cp client;;
  c ← lift (cpu_at 3);
  load ← launch_in environ folder (compare_load cp bp mode concurrency) c 1 Pipe (Some Pipe);
  mret (server, client, load).

Definition add_counters (folder : path) (server client : proc) : py rig () :=
  for_each (λ '(name, process),
    c ← keep_counter (compare_perf (pid process) (folder ++ [name]));
    on (perf_command_to c "enable")) [("server", server); ("client", client)].
Definition both_usage (server client : proc) : py rig (usage * usage) :=
  a ← on (usage_of (pid server)); b ← on (usage_of (pid client)); mret (a, b).

(** The counters are closed and read, but stay in the list until all are. *)
Fixpoint read_counters (cs : list (string * counter)) (row : json) : py rig json :=
  match cs with
  | [] => mret row
  | (name, c) :: cs =>
      on (perf_close c);;
      values ← on (perf_result c);
      row ← lift (update_side name [("perf", json_values values)] row);
      seconds ← lift (clock ← task_clock values; num_div clock (Int 1000));
      row ← lift (update_side name [("cpu_seconds", json_of seconds)] row);
      read_counters cs row
  end.

Definition side_cpu (row : json) (name : string) : result num := side ← jitem name row; jnum "cpu_seconds" side.
Definition throughput (row : json) : result json :=
  bytes ← jnum "bytes" row;
  bits ← num_mul bytes (Int 8);
  seconds ← jnum "seconds" row;
  rate ← num_div bits seconds;
  rate ← num_div rate (Float (ratio false (10 ^ 9) 1));
  row ← jset "gbit_s" (json_of rate) row;
  cpus ← mapR (side_cpu row) ["server"; "client"];
  cpu ← num_sum cpus;
  per ← (if num_ltb (Int 0) cpu then
           bytes ← jnum "bytes" row; b ← num_div bytes (Int (2 ^ 30)); x ← num_div b cpu; Ok (json_of x)
         else Ok JNull);
  jset "gib_per_cpu_second" per row.

Definition used (before after : usage) : result json :=
  d ← num_sub (cpu_seconds after) (cpu_seconds before); Ok (usage_json d (peak_rss after)).
Definition compare_row (pair : string) (concurrency physical : Z) (before after : usage * usage) (measured : json) : result json :=
  s ← used before.1 after.1;
  row ← jset "server" s measured;
  c ← used before.2 after.2;
  row ← jset "client" c row;
  jupdate [("pair", JStr pair); ("concurrency", JNum concurrency); ("physical_sessions", JNum physical)] row.

Definition compare_measure (folder : path) (pair : string) (concurrency sp : Z) (server client load : proc) : py rig json :=
  first ← on (compare_line load);
  ready ← lift (jitem "ready" first);
  lift (raise_if (negb (truthy ready)) (AssertionError ""));;
  text ← on (ask (ReadText ["proc"; "net"; "tcp"]));
  physical ← lift (sessions sp text);
  before ← both_usage server client;
  (if r_no_perf args then mret () else add_counters folder server client);;
  on (ask (Send (p_id load) nl));;
  measured ← on (compare_line load);
  cs ← gets counters;
  for_each (λ c, on (perf_command_to c "disable")) cs;;
  after ← both_usage server client;
  code ← on (wait load (Some 5000));
  lift (raise_if (negb (code =? 0)) (RuntimeError "benchmark exit failure"));;
  row ← lift (compare_row pair concurrency physical before after measured);
  cs ← gets counters;
  row ← read_counters (zip ["server"; "client"] cs) row;
  modify (set_counters []);;
  row ← lift (throughput row);
  on (ask (WriteText (folder ++ ["result.json"]) (dumps_indent 2 row +:+ nl)));;
  mret row.

(** The [finally] clause; [path.unlink(missing_ok=True)]. *)
Definition discard (p : path) : py world () :=
  try_except (ask (Unlink p)) (λ e, match e with FileNotFoundError _ => Some (mret ()) | _ => None end).
Definition compare_finish (folder : path) : py rig () :=
  close_counters;; stop_all;; close_logs;;
  for_each (λ name, on (discard (folder ++ [name]))) ["client.json"; "server.json"].

Definition compare_body (folder : path) (pair client_name server_name mode : string) (concurrency bp sp cp : Z)
    (secret : string) (cert key : path) : py rig json :=
  for_each (λ '(name, config), save_config folder name config)
    [("server", server_config secret sp cert key); ("client", client_config secret sp cp cert)];;
  '(server, client, load) ← start_pair folder client_name server_name mode concurrency bp sp cp;
  compare_measure folder pair concurrency sp server client load.
Definition compare_trial (pair mode : string) (concurrency : Z) (folder cert key : path) : py world json :=
  ask (Mkdir folder false false);;
  bp ← port; sp ← port; cp ← port;
  '(client_name, server_name) ← lift (two (split "-" pair));
  secret ← ask (Urandom 32);
  with_rig (try_finally (compare_body folder pair client_name server_name mode concurrency bp sp cp (urlsafe secret) cert key)
    (compare_finish folder)).

(** ** The main program *)

(** [mode[0]], [int(mode[1:])] *)
Definition mode_of (mode : string) : result (string * Z) :=
  match mode with
  | "" => Err IndexError
  | String c rest => n ← py_int rest; Ok (String c "", n)
  end.
Definition case : Type := string * string * Z.
Definition cases : list case :=
  pt ← split "," (r_pairs args); mode ← split "," (r_modes args); repeat ← seqZ 0 (r_repeats args); [(pt, mode, repeat)].
Definition case_folder (i : nat) (c : case) : path :=
  let '(pt, mode, repeat) := c in r_out args ++ [pad3 i +:+ "-" +:+ pt +:+ "-" +:+ mode +:+ "-" +:+ str repeat].
Fixpoint run_cases (cert key : path) (i : nat) (cs : list case) (results : list json) : py world (list json) :=
  match cs with
  | [] => mret results
  | (pt, mode, repeat) :: cs =>
      '(m, n) ← lift (mode_of mode);
      result ← compare_trial pt m n (case_folder i (pt, mode, repeat)) cert key;
      run_cases cert key (S i) cs (results ++ [result])
  end.

Definition in_case (pt mode : string) (row : json) : result bool :=
  p ← jitem "pair" row;
  if negb (equals_text pt p) then Ok false else
  m ← jitem "mode" row;
  '(first, _) ← (match mode with "" => Err IndexError | String c _ => Ok (String c "", ()) end);
  if negb (equals_text first m) then Ok false else
  n ← jitem "concurrency" row;
  '(_, k) ← mode_of mode;
  Ok (json_eqb n (JNum k)).
Fixpoint filterR {A} (f : A → result bool) (l : list A) : result (list A) :=
  match l with
  | [] => Ok []
  | x :: l => b ← f x; r ← filterR f l; Ok (if b : bool then x :: r else r)
  end.
Definition present_values (rows : list json) (name : string) : result (list num) :=
  vs ← mapR (jget name) rows;
  mapR num_of (filter (λ v, match v with JNull => false | _ => true end = true) vs).
Definition spread (rows : list json) (entry : list (string * json)) (name : string) : result (list (string * json)) :=
  values ← present_values rows name;
  match values with
  | [] => Ok entry
  | _ =>
      m ← median values; lo ← num_min values; hi ← num_max values;
      Ok (dict_set name (JObj [("median", json_of m); ("min", json_of lo); ("max", json_of hi)]) entry)
  end.
Fixpoint foldR {A B} (f : B → A → result B) (b : B) (l : list A) : result B :=
  match l with [] => Ok b | x :: l => b ← f b x; foldR f b l end.
Definition side_medians (rows : list json) (entry : list (string * json)) (side : string) : result (list (string * json)) :=
  cpus ← mapR (λ r, s ← jitem side r; jnum "cpu_seconds" s) rows; cpu ← median cpus;
  peaks ← mapR (λ r, s ← jitem side r; jnum "peak_rss_kib" s) rows; peak ← median peaks;
  Ok (dict_set (side +:+ "_peak_rss_kib") (json_of peak) (dict_set (side +:+ "_cpu_seconds") (json_of cpu) entry)).
Definition compare_entry (results : list json) (pm : string * string) : result json :=
  rows ← filterR (in_case pm.1 pm.2) results;
  let entry := [("pair", JStr pm.1); ("mode", JStr pm.2); ("samples", JNum (zlen rows))] in
  entry ← foldR (spread rows) entry ["gbit_s"; "gib_per_cpu_second"; "seconds"; "p50_us"; "p99_us"];
  entry ← foldR (side_medians rows) entry ["server"; "client"];
  Ok (JObj entry).
Definition compare_summary (results : list json) : result (list json) :=
  mapR (compare_entry results)
    (pt ← split "," (r_pairs args); mode ← split "," (r_modes args); [(pt, mode)]).

(** [sha256]; the directory of temporary files; [time.strftime] of the local time; the seeded shuffle. *)
Context (sha256 : string → string) (tmp : path) (date : string) (shuffle : list case → list case).
Definition transport : string :=
  "TLS 1.3 AES-128-GCM, two-lane pool policy, no TLS padding; handshake excluded (Go default hybrid group, Rust X25519)".
Definition compare_metadata (hashes : list (string * json)) (lscpu : string) : json :=
  JObj [("cpus", JArr (map JNum (r_cpus args))); ("size", JNum (r_size args)); ("rounds", JNum (r_rounds args));
        ("repeats", JNum (r_repeats args)); ("transport", JStr transport); ("binaries", JObj hashes);
        ("host", JStr lscpu); ("date", JStr date)].
Definition certificate (cert key : path) : list string :=
  ["openssl"; "req"; "-x509"; "-newkey"; "ec"; "-pkeyopt"; "ec_paramgen_curve:P-256"; "-nodes"; "-days"; "1";
   "-subj"; "/CN=cover.test"; "-addext"; "subjectAltName=DNS:cover.test"; "-addext"; "basicConstraints=critical,CA:FALSE";
   "-keyout"; posix key; "-out"; posix cert].
Definition compare_main : py world () :=
  ask (Mkdir (r_out args) true true);;
  hashes ← mapM_py (λ '(n, p), data ← ask (ReadBytes p); mret (n, JStr (sha256 data)))
    [("go", r_go args); ("rust", r_rust args); ("openssl", r_openssl args); ("peer", r_peer args)];
  lscpu ← ask (CheckOutput (plain ["lscpu"]));
  ask (WriteText (r_out args ++ ["metadata.json"]) (dumps_indent 2 (compare_metadata hashes lscpu) +:+ nl));;
  temp ← ask (TempFolder "veil-rust-bench-" tmp);
  results ← try_finally
    (let cert := temp ++ ["cert.pem"] in
     let key := temp ++ ["key.pem"] in
     ask (Run true (plain (certificate cert key)));;
     run_cases cert key 0 (shuffle cases) [])
    (ask (RemoveTree temp));
  summary ← lift (compare_summary results);
  ask (WriteText (r_out args ++ ["summary.json"]) (dumps_indent 2 (JArr summary) +:+ nl)).
End compare.

(** ** What a trial leaves behind *)

(** A file a program wrote and did not remove, by the answers it got; the last call is first. *)
Fixpoint left_file (p : path) (h : list event) : bool :=
  match h with
  | [] => false
  | Event _ c r :: h =>
      match c in call A return result A → bool with
      | WriteText q _ => λ _, bool_decide (q = p) || left_file p h
      | Unlink q => λ r, if bool_decide (q = p) then
                           match r with Ok _ | Err (FileNotFoundError _) => false | Err _ => left_file p h end
                         else left_file p h
      | _ => λ _, left_file p h
      end r
  end.

Section counted.
Context `{Os} (environ : env) (args : compare_args) (w0 : world).
Abbreviation held := (held w0).

Lemma compare_line_quiet p : quiet (compare_line p).
Proof. intros R T F. unfold compare_line. solve_within. Qed.
Lemma compare_wait_quiet n p process : quiet (compare_wait n p process).
Proof. intros R T F. induction n as [|n IH]; simpl; solve_within. apply attempt_quiet. Qed.
Lemma usage_of_quiet pid : quiet (usage_of pid).
Proof. intros R T F. unfold usage_of. solve_within. Qed.
Lemma perf_command_to_quiet c t : quiet (perf_command_to c t).
Proof. intros R T F. unfold perf_command_to. solve_within. Qed.
Lemma perf_result_quiet c : quiet (perf_result c).
Proof. intros R T F. unfold perf_result. solve_within. Qed.
Lemma discard_quiet p : quiet (discard p).
Proof. intros R T F. unfold discard. apply within_try_any; [solve_within|]. intros e k. destruct e; try done. intros [= <-]. solve_within. Qed.

(** The rig holds [n] counters, whose reports have the name the documentation is about. *)
Definition csv_ok (c : counter) : Prop := ∃ folder, csv c = folder ++ ["perf.csv"].
Definition counted (n : nat) (s : rig) : Prop :=
  held s ∧ meter s = None ∧ Forall csv_ok (counters s) ∧ length (counters s) = n.

Lemma on_counted {A} n (m : py world A) : quiet m → keeps (counted n) (on m).
Proof.
  intros Hm. apply keeps_and; [by apply on_held|]. intros s Hs. unfold on. by destruct (m (machine s)) as [[a|e] w].
Qed.
Lemma launch_counted n folder command cores gomax i o :
  keeps (counted n) (launch_in environ folder command cores gomax i o).
Proof.
  apply keeps_and; [apply launch_in_held|]. intros s Hs.
  unfold launch_in, on, gets, modify, mbind, py_bind.
  destruct (open_text _ _ _) as [[h|e] w]; [|done].
  match goal with |- context [spawn ?a ?b ?c ?d ?e ?f ?g ?h] => destruct (spawn a b c d e f g h) as [[p|e'] w'] end; done.
Qed.

(** A step that keeps the number of counters, and the steps after it. *)
Abbreviation ends P m := (triple P m (λ _, held) (λ _ s, held s ∧ True)).
Lemma then_counted {A B} n (m : py rig A) (k : A → py rig B) :
  keeps (counted n) m → (∀ a, ends (counted n) (k a)) → ends (counted n) (m ≫= k).
Proof.
  intros Hm Hk. eapply triple_bind; [|exact Hk].
  eapply triple_consequence; [exact Hm|done|done|]. by intros e s [[Hs _] _].
Qed.
Lemma counted_ends {A} n (m : py rig A) : keeps (counted n) m → ends (counted n) m.
Proof. intros Hm. eapply triple_consequence; [exact Hm|done|by intros a s [? _]|]. by intros e s [[Hs _] _]. Qed.

Lemma compare_perf_spare pid folder :
  triple (spare w0 []) (on (compare_perf pid folder))
    (λ c s, spare w0 (counter_fds c) s ∧ csv c = folder ++ ["perf.csv"]) (λ _ s, held s ∧ True).
Proof.
  unfold compare_perf. apply triple_on_bind. eapply triple_bind; [apply on_spare, ask_quiet|intros ?].
  apply perf_attach_spare. right. apply name_of_snoc.
Qed.
Lemma keep_counted n pid folder :
  triple (counted n) (keep_counter (compare_perf pid folder)) (λ _, counted (S n)) (λ _ s, held s ∧ True).
Proof.
  intros s (Hs & Hm & Hc & Hl).
  pose proof (keep_counter_held w0 _ _ (compare_perf_spare pid folder) s Hs) as Hk.
  pose proof (compare_perf_spare pid folder s (held_spare w0 s Hs)) as Hp.
  unfold keep_counter, gets, modify, mbind, py_bind in *. unfold on in *.
  destruct (compare_perf pid folder (machine s)) as [[c|e] w]; [|done].
  cbn in *. split_and!; try done.
  - apply Forall_app. split; [done|]. constructor; [|done]. exists folder. apply Hp.
  - cbn [counters set_counters]. rewrite length_app, Hl. cbn. lia.
Qed.
End counted.

(** ** Reading the counters *)
Section reading.
Context `{Calm} `{!PerfStops H} `{!Metered H} (w0 : world).

(** The row has a dictionary for each of the names. *)
Definition has_sides (names : list string) (row : json) : Prop :=
  ∃ d, row = JObj d ∧ ∀ n, n ∈ names → ∃ kvs, dict_get n d = Some (JObj kvs).

Lemma update_side_ok names n kvs row : has_sides names row → n ∈ names →
  ∃ row', update_side n kvs row = Ok row' ∧ has_sides names row'.
Proof.
  intros (d & -> & Hd) Hn. destruct (Hd n Hn) as [side Hs]. unfold update_side. cbn [jitem]. rewrite Hs. cbn.
  eexists. split; [reflexivity|]. eexists. split; [reflexivity|]. intros m Hm. rewrite dict_get_set.
  case_decide; [by eexists|by apply Hd].
Qed.

Lemma perf_result_ok c w : csv_ok c → ∃ values x, perf_result c w = (Ok values, (perf_result c w).2) ∧
  dict_get "task-clock" values = Some x.
Proof.
  intros [folder Hc]. unfold perf_result, ask, lift, mbind, py_bind. rewrite Hc.
  destruct (metered_csv (past w) folder) as (text & Ht & values & Hv & Hpos). rewrite Ht, Hv, Hpos.
  destruct (dict_get "task-clock" values) as [x|] eqn:Hx; [|done]. by exists values, x.
Qed.
Lemma float_thousand : ∃ m e, to_float (Int 1000) = Ok (SpecFloat.S754_finite false m e).
Proof. do 2 eexists. vm_compute. reflexivity. Qed.
Lemma clock_seconds values x : dict_get "task-clock" values = Some x →
  ∃ y, (clock ← task_clock values; num_div clock (Int 1000)) = Ok y.
Proof.
  intros Hx. unfold task_clock, dict_index. rewrite Hx. cbn [fmap result_fmap mbind result_bind num_div].
  destruct float_thousand as (m & e & Hf). unfold floats. rewrite Hf. cbn -[SpecFloat.SFdiv]. by eexists.
Qed.

Lemma read_counters_ok names cs s row :
  pending w0 (procs s) (logs s) cs.*2 (machine s) → Forall csv_ok cs.*2 → (∀ n, n ∈ cs.*1 → n ∈ names) →
  has_sides names row →
  ∃ row' w, read_counters cs row s = (Ok row', with_machine w s) ∧ pending w0 (procs s) (logs s) [] w.
Proof.
  revert s row. induction cs as [|[name c] cs IH]; intros s row Hp Hc Hn Hr; cbn [read_counters].
  { exists row, (machine s). split; [by destruct s|done]. }
  cbn in Hp, Hc. apply Forall_cons in Hc as [Hcc Hc]. unfold mbind, py_bind, on.
  pose proof (counter_pending _ _ _ _ _ _ Hp) as H1. destruct (perf_close c (machine s)) as [[[]|e] w1]; [|done].
  cbn [machine with_machine]. destruct (perf_result_ok c w1 Hcc) as (values & x & He & Hx).
  pose proof (pending_quiet w0 _ _ _ _ (perf_result_quiet c) w1 H1) as H2. rewrite He in *. cbn in H2.
  destruct (update_side_ok names name [("perf", json_values values)] row Hr) as (row1 & E1 & Hr1); [apply Hn; left|].
  destruct (clock_seconds values x Hx) as [y Hy].
  destruct (update_side_ok names name [("cpu_seconds", json_of y)] row1 Hr1) as (row2 & E2 & Hr2); [apply Hn; left|].
  unfold lift. rewrite E1. unfold mbind in Hy. rewrite Hy, E2.
  destruct (IH (with_machine (perf_result c w1).2 s) row2) as (row3 & w3 & E3 & H3); try done.
  { intros n Hin. apply Hn. by right. }
  exists row3, w3. split; [|done]. exact E3.
Qed.
End reading.

(** ** A trial *)
Definition sides : list string := ["server"; "client"].
Lemma used_side before after v : used before after = Ok v → ∃ kvs, v = JObj kvs.
Proof. unfold used. intros Hv. inv_ok Hv. subst v. by eexists. Qed.
Lemma compare_row_sides pt n physical before after measured row :
  compare_row pt n physical before after measured = Ok row → has_sides sides row.
Proof.
  unfold compare_row. intros Hr. inv_ok Hr.
  apply used_side in Hr0 as [k1 ->]. apply used_side in Hr2 as [k2 ->].
  destruct measured as [| | | | | |d]; try discriminate. cbn in Hr1. injection Hr1 as <-.
  cbn in Hr3. injection Hr3 as <-. cbn [jupdate] in Hr. injection Hr as <-.
  eexists. split; [reflexivity|]. intros name Hn.
  assert (name = "server" ∨ name = "client") as [-> | ->].
  { apply elem_of_cons in Hn as [-> | Hn]; [by left|]. apply list_elem_of_singleton in Hn. by right. }
  all: rewrite !dict_get_set; by eexists.
Qed.

Section trial.
Context `{Calm} `{!PerfStops H} `{!Metered H} (environ : env) (args : compare_args) (w0 : world).
Abbreviation held := (held w0).
Abbreviation counted := (counted w0).
Abbreviation ends P m := (triple P m (λ _, held) (λ _ s, held s ∧ True)).

(** The counters are closed and read; the rest only reads and writes. *)
Lemma read_counters_ends n row folder : (n ≤ 2)%nat → has_sides sides row →
  ends (counted n) (cs ← gets counters; row ← read_counters (zip sides cs) row; modify (set_counters []);;
    row ← lift (throughput row); on (ask (WriteText folder (dumps_indent 2 row +:+ nl)));; mret row).
Proof.
  intros Hn Hr s (Hs & Hm & Hc & Hl). unfold gets, mbind at 1, py_bind at 1.
  assert ((zip sides (counters s)).*2 = counters s) as Hz by (apply snd_zip; cbn; lia).
  destruct (read_counters_ok w0 sides (zip sides (counters s)) s row) as (row' & w & He & Hp); rewrite ?Hz; try done.
  { by apply held_pending. }
  { intros x Hx. apply list_elem_of_fmap in Hx as ([a c] & -> & Hx). by apply elem_of_zip_l in Hx. }
  unfold mbind at 1, py_bind at 1. rewrite He. unfold modify, mbind at 1, py_bind at 1.
  assert (held (set_counters [] (with_machine w s))) as Hh.
  { destruct Hp as (? & ? & ? & ? & ?). unfold Rig.held, open_counters. cbn. rewrite Hm. by split_and!. }
  revert Hh. generalize (set_counters [] (with_machine w s)). intros s' Hh.
  assert (keeps held (row ← lift (throughput row'); on (ask (WriteText folder (dumps_indent 2 row +:+ nl)));; mret row)) as Hk.
  { solve_within. }
  exact (Hk s' Hh).
Qed.

Lemma counted_step {A} n (m : py rig A) : keeps (counted n) m → triple (counted n) m (λ _, counted n) (λ _ s, held s ∧ True).
Proof. intros Hm. eapply triple_consequence; [exact Hm|done|done|]. by intros e s [[Hs _] _]. Qed.
Lemma add_counters_counted folder server client :
  triple (counted 0) (add_counters folder server client) (λ _, counted 2) (λ _ s, held s ∧ True).
Proof.
  unfold add_counters. cbn [for_each].
  assert (∀ n pid folder, triple (counted n) (c ← keep_counter (compare_perf pid folder); on (perf_command_to c "enable"))
    (λ _, counted (S n)) (λ _ s, held s ∧ True)) as Hone.
  { intros n pid d. eapply triple_bind; [apply keep_counted|]. intros c. apply counted_step, on_counted, perf_command_to_quiet. }
  do 2 (eapply triple_bind; [apply Hone|intros ?]). by apply triple_ret.
Qed.

Lemma both_usage_counted n server client : keeps (counted n) (both_usage server client).
Proof. unfold both_usage. solve_within; apply on_counted, usage_of_quiet. Qed.
#[local] Hint Resolve on_counted both_usage_counted compare_line_quiet perf_command_to_quiet : within.
(** The measurement once the counters run. *)
Lemma compare_run_ends n folder pt c physical before server client load : (n ≤ 2)%nat →
  ends (counted n)
    (on (ask (Send (p_id load) nl));;
     measured ← on (compare_line load);
     cs ← gets counters;
     for_each (λ c, on (perf_command_to c "disable")) cs;;
     after ← both_usage server client;
     code ← on (wait load (Some 5000));
     lift (raise_if (negb (code =? 0)) (RuntimeError "benchmark exit failure"));;
     row ← lift (compare_row pt c physical before after measured);
     cs ← gets counters;
     row ← read_counters (zip ["server"; "client"] cs) row;
     modify (set_counters []);;
     row ← lift (throughput row);
     on (ask (WriteText (folder ++ ["result.json"]) (dumps_indent 2 row +:+ nl)));;
     mret row).
Proof.
  intros Hn. do 7 (apply (then_counted w0 n); [solve_within|intros ?]).
  apply (triple_bind _ _ _ (λ row s, has_sides sides row ∧ counted n s)).
  2: { intros row s [Hr Hs]. by apply (read_counters_ends n row (folder ++ ["result.json"]) Hn Hr). }
  intros s Hs. unfold lift. destruct (compare_row _ _ _ _ _ _) as [row|e] eqn:Hr; [|by split; [apply Hs|]].
  split; [by eapply compare_row_sides|done].
Qed.

Lemma compare_measure_ends folder pt c sp server client load :
  ends (counted 0) (compare_measure args folder pt c sp server client load).
Proof.
  unfold compare_measure. do 6 (apply (then_counted w0 0); [solve_within|intros ?]).
  destruct (r_no_perf args).
  - apply (then_counted w0 0); [solve_within|intros ?]. apply compare_run_ends. lia.
  - eapply triple_bind; [apply add_counters_counted|intros ?]. apply compare_run_ends. lia.
Qed.

#[local] Hint Resolve launch_counted compare_wait_quiet discard_quiet : within.
Lemma start_pair_counted n folder c_name s_name mode c bp sp cp :
  keeps (counted n) (start_pair environ args folder c_name s_name mode c bp sp cp).
Proof. unfold start_pair, start, wait_ready. solve_within. Qed.
Lemma compare_body_ends folder pt c_name s_name mode c bp sp cp secret cert key :
  ends (counted 0) (compare_body environ args folder pt c_name s_name mode c bp sp cp secret cert key).
Proof.
  unfold compare_body. apply (then_counted w0 0).
  { apply within_for_each. intros [name config] _. apply on_counted. intros R T F. solve_within. }
  intros ?. apply (then_counted w0 0); [apply start_pair_counted|]. intros [[server client] load]. apply compare_measure_ends.
Qed.

(** The [finally] clause returns, and its last two calls remove the configurations. *)
Lemma compare_finish_runs folder s :
  runs (at_rig s (pending w0 (procs s) (logs s) (counters s))) (compare_finish folder)
    (λ _, at_rig s (pending w0 [] [] [])).
Proof.
  unfold compare_finish. eapply triple_bind; [apply close_counters_runs|intros ?].
  eapply triple_bind; [apply stop_all_runs|intros ?]. eapply triple_bind; [apply close_logs_runs|intros ?].
  cbn [for_each].
  assert (∀ p w, is_ok (discard p w).1 = true) as Hd.
  { intros p w. unfold discard, try_except, ask. by rewrite unlink_ok. }
  do 2 (eapply triple_bind; [apply on_at_rig; [apply discard_quiet|apply Hd]|intros ?]). by intros s' Hs.
Qed.
Lemma compare_finish_removes folder s name : name ∈ ["client.json"; "server.json"] →
  is_ok (compare_finish folder s).1 = true →
  left_file (folder ++ [name]) (past (machine (compare_finish folder s).2)) = false.
Proof.
  intros Hn. unfold compare_finish. unfold mbind, py_bind.
  destruct (close_counters s) as [[[]|e] s1]; [|done]. destruct (stop_all s1) as [[[]|e] s2]; [|done].
  destruct (close_logs s2) as [[[]|e] s3]; [|done]. intros _.
  cbn [for_each]. unfold on, discard, try_except, ask, mbind, py_bind, mret, py_ret. rewrite !unlink_ok. cbn.
  assert (name = "client.json" ∨ name = "server.json") as [-> | ->].
  { apply elem_of_cons in Hn as [-> | Hn]; [by left|]. apply list_elem_of_singleton in Hn. by right. }
  - by rewrite bool_decide_eq_false_2, bool_decide_eq_true_2 by (done || by apply snoc_neq).
  - by rewrite bool_decide_eq_true_2.
Qed.
End trial.

(** Calls that write and remove no file. *)
Lemma ask_left `{Os} {A} (c : call A) p w :
  match c with WriteText _ _ | Unlink _ => False | _ => True end →
  left_file p (past (ask c w).2) = left_file p (past w).
Proof. by destruct c. Qed.

Section removed.
Context `{Calm} `{!PerfStops H} `{!Metered H} (p : path).
Definition unwritten (w : world) : Prop := tidy w ∧ left_file p (past w) = false.
Lemma ask_unwritten {A} (c : call A) : match c with WriteText _ _ | Unlink _ => False | _ => True end → keeps unwritten (ask c).
Proof.
  intros Hc w [Hw Hl]. pose proof (ask_left c p w Hc) as Hp. destruct (ask_run c w Hw) as (w' & He & Hs & _).
  rewrite He in *. cbn in Hp. rewrite Hl in Hp. by destruct (os (past w) c).
Qed.
Lemma trial_unwritten environ args pt c_name s_name mode c bp sp cp secret cert key folder name :
  p = folder ++ [name] → name ∈ ["client.json"; "server.json"] →
  keeps unwritten (with_rig (try_finally
    (compare_body environ args folder pt c_name s_name mode c bp sp cp secret cert key) (compare_finish folder))).
Proof.
  intros Hp Hn w [Hw _]. unfold with_rig, try_finally.
  pose proof (compare_body_ends environ args w folder pt c_name s_name mode c bp sp cp secret cert key (empty_rig w)
    ltac:(split; [by apply held_empty|done])) as Hb.
  destruct (compare_body _ _ _ _ _ _ _ _ _ _ _ _ _ _ _) as [r s].
  assert (held w s) as Hs by (destruct r; [done|apply Hb]).
  pose proof (compare_finish_runs w folder s s) as Hf. pose proof (compare_finish_removes folder s name Hn) as Hr.
  assert (at_rig s (pending w (procs s) (logs s) (counters s)) s) as Ha.
  { split; [by apply held_pending|by destruct s]. }
  specialize (Hf Ha). destruct (compare_finish folder s) as [[u|e] s2]; [|done].
  assert (unwritten (machine s2)) as Hu by (split; [apply Hf|rewrite Hp; by apply Hr]). by destruct r.
Qed.
End removed.

Section releases.
Context `{Calm} `{!PerfStops H} `{!Metered H} (environ : env) (args : compare_args).
Lemma compare_trial_releases pt mode c folder cert key : releases (compare_trial environ args pt mode c folder cert key).
Proof.
  intros w0. unfold compare_trial. do 4 (apply within_bind; [solve_within|intros ?]).
  apply within_bind; [solve_within|intros [client server]]. apply within_bind; [solve_within|intros secret].
  apply (with_rig_steps (λ w, counted w 0)); [|intros w; apply compare_body_ends|intros w; apply gives_up_counters, compare_finish_runs].
  intros w Hw. split; [by apply held_empty|done].
Qed.
Lemma run_cases_releases cert key i cs results : releases (run_cases environ args cert key i cs results).
Proof.
  intros w0. revert i results. pose proof compare_trial_releases.
  induction cs as [|[[pt mode] repeat] cs IH]; intros i results; cbn [run_cases]; solve_within.
Qed.
Lemma compare_main_releases sha256 tmp date shuffle : releases (compare_main environ args sha256 tmp date shuffle).
Proof. intros w0. unfold compare_main. cbv zeta. pose proof run_cases_releases. solve_within. Qed.
End releases.

(** A comparison trial cleans up after itself.  On a machine where signals, [wait] and
    [close] work and the report of a closed counter has a clock, whatever else fails, no process
    and no text file of the trial is left, and neither is a configuration file, each of which
    holds the secret of the trial. *)
Theorem compare_releases `{Calm} `{!PerfStops H} `{!Metered H} environ args pt mode c folder cert key w :
  tidy w → let w' := (compare_trial environ args pt mode c folder cert key w).2 in
  released w w' ∧ ∀ name, name ∈ ["client.json"; "server.json"] →
    left_file (folder ++ [name]) (past w) = false → left_file (folder ++ [name]) (past w') = false.
Proof.
  intros Hw w'. split; unfold w'.
  - apply releases_released; [apply compare_trial_releases|done].
  - intros name Hn Hl. set (p := folder ++ [name]) in *.
    assert (keeps (unwritten p) (compare_trial environ args pt mode c folder cert key)) as Hk.
    { unfold compare_trial. apply within_bind; [by apply ask_unwritten|intros _].
      do 3 (apply within_bind; [by apply ask_unwritten|intros ?]).
      apply within_bind; [by solve_within|intros [client server]]. apply within_bind; [by apply ask_unwritten|intros secret].
      by eapply trial_unwritten. }
    specialize (Hk w (conj Hw Hl)). change (left_file p (past (compare_trial environ args pt mode c folder cert key w).2) = false).
    revert Hk.
    generalize (compare_trial environ args pt mode c folder cert key w). intros [[row|e] w2]; [by intros [_ Hk]|by intros [[_ Hk] _]].
Qed.

(** The counter that was closed but not read: when its report has no clock, the [finally] clause
    closes it again, which raises for its closed descriptor; no process is stopped, no log is
    closed and the configurations stay. *)
Lemma compare_counter_leaks `{Os} folder s c cs :
  counters s = c :: cs → fds (machine s) !! cf c = None → is_Some (codes (machine s) !! p_id (p c)) →
  compare_finish folder s = (Err bad_descriptor, s).
Proof.
  intros Hs Hf [code Hc]. unfold compare_finish, close_counters, gets, mbind, py_bind. rewrite Hs. cbn [for_each].
  unfold on, perf_close, poll, returncode, close_fd, gets, mbind, py_bind, raise. rewrite Hc. cbn.
  rewrite Hf. by destruct s.
Qed.

Definition sample_args : compare_args :=
  {| r_go := ["go"]; r_rust := ["rust"]; r_openssl := ["openssl"]; r_peer := ["peer"]; r_out := ["out"];
     r_pairs := "go-rust"; r_modes := "D1"; r_size := 1024; r_rounds := 5; r_repeats := 1; r_cpus := [14; 15; 16; 17];
     r_no_perf := false |}.
Lemma compare_releases_witness :
  let run := @compare_trial (sample_os 0) [] sample_args "go-rust" "D" 1 ["out"; "t"] ["cert"] ["key"] nothing in
  is_ok run.1 = true ∧ released nothing run.2 ∧ left_file ["out"; "t"; "server.json"] (past run.2) = false.
Proof.
  intros run. split; [vm_compute; reflexivity|].
  destruct (@compare_releases (sample_os 0) _ _ _ [] sample_args "go-rust" "D" 1 ["out"; "t"] ["cert"] ["key"] nothing nothing_tidy)
    as [Hr Hf].
  split; [exact Hr|]. exact (Hf "server.json" ltac:(right; left) eq_refl).
Defined.

(** The whole program; a load that reports another mode than it was asked for leaves a group of
    the summary without rows, which [median] refuses. *)
Definition sample_run (modes : string) (repeats : Z) : result () :=
  (@compare_main (sample_os 0) [] {| r_go := ["go"]; r_rust := ["rust"]; r_openssl := ["openssl"]; r_peer := ["peer"];
     r_out := ["out"]; r_pairs := "go-rust"; r_modes := modes; r_size := 1024; r_rounds := 5; r_repeats := repeats;
     r_cpus := [14; 15; 16; 17]; r_no_perf := false |} (λ s, s) ["tmp"] "now" (λ l, rev l) nothing).1.
Example compare_runs : sample_run "S1" 2 = Ok () ∧ sample_run "S1,D1" 1 = Err StatisticsError.
Proof. by vm_compute. Qed.
