(* ===== verification/Programs.v ===== *)
(** * Whole programs

    What holds of the main programs of the measurements and the service checks: they leave no
    process and no file of their own, none overwrites existing results, and those for an isolated
    system do nothing outside it. *)

From S2P Require Import Prelude.
From S2P Require Import PyText.
From S2P Require Import PyBytes.
From S2P Require Import Json.
From S2P Require Import Numbers.
From S2P Require Import FileSystem.
From S2P Require Import Tools.
From S2P Require Import Machine.
From S2P Require Import Sockets.
From S2P Require Import Fixtures.
From S2P Require Import Stack.
From S2P Require Import Perf.
From S2P Require Import Rig.
From S2P Require Import SampleMachine.
From S2P Require Import Benchmark.
From S2P Require Import DelayedBenchmark.
From S2P Require Import RealityBenchmark.
From S2P Require Import ProbeRun.
From S2P Require Import Smoke.
From S2P Require Import Demo.
From S2P Require Import CoreRegression.
From S2P Require Import ManagedRegression.
From S2P Require Import Compare.
From S2P Require Import ServiceSmoke.
From S2P Require Import CatalogCheck.
From S2P Require Import WindowsSmoke.
From S2P Require Import SystemdCheck.
From S2P Require Import TrafficTrial.
From S2P Require Import BrowserTrial.
From S2P Require Import BrowserHello.
From S2P Require Import Fingerprint.
#[local] Open Scope Z_scope.



(** ** Existing results *)

(** Calls that change a file. *)
Definition changes_file (e : event) : bool :=
  match question e with
  | WriteText _ _ | Open _ _ | Write _ _ | Chmod _ _ | Unlink _ | Mkfifo _ | Run _ _ | Popen _ | CheckOutput _
  | CheckBytes _ _ | RunCaptured _ _ _ | RunFor _ _ _ _ | TempFolder _ _ | RemoveTree _ | ServeSite _ _ => true
  | _ => false
  end.
(** The program ends with an error and has changed no file. *)
Definition refuses {A} (m : py world A) : Prop :=
  is_ok (m nothing).1 = false ∧ existsb changes_file (past (m nothing).2) = false.

(** Results of an earlier run are in the output directory. *)
Class OldResults `(Os) : Prop := {
  old_exists : ∀ h p, os h (Exists p) = Ok true;
  old_mkdir : ∀ h p, os h (Mkdir p true false) = Err (FileExistsError (posix p)) }.

Definition unchanged (w : world) : Prop := existsb changes_file (past w) = false.
Definition refusing {A} (m : py world A) : Prop := triple unchanged m (λ _ _, False) (λ _, unchanged).

Section refusing.
Context `{OldResults}.

Lemma ask_unchanged {A} (c : call A) : (∀ r, changes_file (Event A c r) = false) → keeps unchanged (ask c).
Proof.
  intros Hc w Hw. unfold ask, unchanged in *. destruct (os (past w) c); cbn [past existsb]; by rewrite Hc, Hw.
Qed.
Lemma bind_refusing {A B} (m : py world A) (k : A → py world B) :
  keeps unchanged m → (∀ a, refusing (k a)) → refusing (m ≫= k).
Proof.
  intros Hm Hk. eapply triple_bind; [|exact Hk]. eapply triple_consequence; [exact Hm|done|done|].
  by intros e w [Hw _].
Qed.
Lemma exists_refusing {B} p e (k : () → py world B) :
  refusing (old ← ask (Exists p); (lift (raise_if old e) ≫= k)).
Proof. intros w Hw. unfold mbind, py_bind, ask, lift. by rewrite old_exists. Qed.
Lemma mkdir_refusing {B} p (k : () → py world B) : refusing (ask (Mkdir p true false) ≫= k).
Proof. intros w Hw. unfold mbind, py_bind, ask. by rewrite old_mkdir. Qed.
Lemma refusing_refuses {A} (m : py world A) : refusing m → refuses m.
Proof. intros Hm. specialize (Hm nothing eq_refl). unfold refuses. by destruct (m nothing) as [[a|e] w]. Qed.

Lemma private_namespace_unchanged environ : keeps unchanged (private_namespace environ).
Proof.
  unfold private_namespace. destruct (bool_decide _); [|apply within_ret].
  do 2 (apply within_bind; [by apply ask_unchanged|intros ?]). apply within_ret.
Qed.
End refusing.

(** The next call or guard of a program. *)
Ltac refuse_step :=
  lazymatch goal with
  | |- refusing (ask (Exists _) ≫= _) => apply exists_refusing
  | |- refusing (ask (Mkdir _ true false) ≫= _) => apply mkdir_refusing
  | |- refusing (ask _ ≫= _) => apply bind_refusing; [by apply ask_unchanged|intros ?; cbv beta zeta]
  | |- refusing (lift _ ≫= _) => apply bind_refusing; [by apply within_lift|intros ?; cbv beta zeta]
  | |- refusing (private_namespace _ ≫= _) =>
      apply bind_refusing; [apply private_namespace_unchanged|intros ?; cbv beta zeta]
  end.


(** ** Isolated systems *)

(** Calls that only look at the system. *)
Definition first_namespace : list string := ["sudo"; "-n"; "readlink"; "/proc/1/ns/net"].
Definition looks (e : event) : bool :=
  match question e with
  | Exists _ | ReadText _ | ReadLink _ | Resolve _ => true
  | CheckOutput c => bool_decide (argv c = first_namespace)
  | _ => false
  end.
(** [m] ends with an error; until then it has only looked, and holds what it held. *)
Definition looked (w0 w : world) : Prop :=
  (∃ l, past w = l ++ past w0 ∧ forallb looks l = true) ∧
  running w = running w0 ∧ texts w = texts w0 ∧ fds w = fds w0.
Definition declines {A} (m : py world A) : Prop := ∀ w, is_ok (m w).1 = false ∧ looked w (m w).2.

(** The environment does not claim an isolated namespace, or the namespace is that of the first
    process - which is the parent, if one is named. *)
Definition own_link : path := ["proc"; "self"; "ns"; "net"].
Definition first_link : path := ["proc"; "1"; "ns"; "net"].
Definition shared_namespace `{Os} (environ : env) : Prop :=
  dict_get "VEIL_ISOLATED_NETNS" environ ≠ Some "1" ∨
  ∃ ns, (∀ h, os h (ReadLink own_link) = Ok ns) ∧ (∀ h, os h (ReadLink first_link) = Ok ns) ∧
    (∀ h, ∃ t, os h (CheckOutput (plain first_namespace)) = Ok t ∧ strip t = ns) ∧
    ∀ p, dict_get "VEIL_PARENT_NETNS" environ = Some p → p = "" ∨ p = ns.
(** No test container of systemd. *)
Definition no_container `{Os} (environ : env) : Prop :=
  dict_get "VEIL_SYSTEMD_TEST" environ ≠ Some "1" ∨ (∀ h, os h (Exists [".dockerenv"]) = Ok false) ∨
  ∀ h, ∃ t, os h (ReadText ["proc"; "1"; "comm"]) = Ok t ∧ strip t ≠ "systemd".

Section declining.
Context `{Os}.

Lemma looked_refl w : looked w w.
Proof. split; [by exists []|done]. Qed.
Definition declining {A} (w0 : world) (m : py world A) : Prop := triple (looked w0) m (λ _ _, False) (λ _, looked w0).
Lemma ask_looks {A} w0 (c : call A) : (∀ r, looks (Event A c r) = true) → keeps (looked w0) (ask c).
Proof.
  intros Hc w ((l & Hp & Hl) & Hr). unfold ask.
  assert (∀ r, looked w0 {| past := Event A c r :: past w; fresh := fresh w; running := running w; codes := codes w;
    texts := texts w; fds := fds w |}) as Hw.
  { intros r. split; [|done]. exists (Event A c r :: l). cbn. by rewrite Hp, Hc, Hl. }
  by destruct (os (past w) c); [|split].
Qed.
Lemma declining_declines {A} (m : py world A) : (∀ w0, declining w0 m) → declines m.
Proof. intros Hm w. specialize (Hm w w (looked_refl w)). by destruct (m w) as [[a|e] w1]. Qed.
(** A guard that says no. *)
Lemma guard_declining {A} w0 (guard : py world bool) e (k : () → py world A) :
  gives (looked w0) (λ b, b = false) guard →
  declining w0 (own ← guard; (lift (raise_if (negb own) e) ≫= k)).
Proof.
  intros Hg w Hw. specialize (Hg w Hw). unfold mbind, py_bind, lift.
  destruct (guard w) as [[b|x] w1]; [|apply Hg]. by destruct Hg as [Hw1 ->].
Qed.
Lemma link_gives w0 p ns : (∀ h, os h (ReadLink p) = Ok ns) → gives (looked w0) (λ t, t = ns) (ask (ReadLink p)).
Proof.
  intros Hl w Hw. pose proof (ask_looks w0 (ReadLink p) (λ _, eq_refl) w Hw) as Ha. unfold ask in *. by rewrite Hl in *.
Qed.

Context (environ : env) (shared : shared_namespace environ).
Lemma shared_gives w0 (m : string → py world bool) :
  (∀ ns, (∀ h, os h (ReadLink own_link) = Ok ns) → (∀ h, os h (ReadLink first_link) = Ok ns) →
     (∀ h, ∃ t, os h (CheckOutput (plain first_namespace)) = Ok t ∧ strip t = ns) →
     (∀ p, dict_get "VEIL_PARENT_NETNS" environ = Some p → p = "" ∨ p = ns) →
     gives (looked w0) (λ b, b = false) (m "")) →
  gives (looked w0) (λ b, b = false)
    (if bool_decide (dict_get "VEIL_ISOLATED_NETNS" environ = Some "1") then m "" else mret false).
Proof.
  intros Hm. case_bool_decide as Hd; [|by apply gives_ret]. destruct shared as [Hn | (ns & Ho & Hf & Hs & Hp)]; [done|].
  by apply (Hm ns).
Qed.
Lemma private_false w0 : gives (looked w0) (λ b, b = false) (private_namespace environ).
Proof.
  apply (shared_gives w0 (λ _, _)). intros ns Ho Hf _ _.
  eapply gives_bind; [by apply link_gives|]. intros own ->. eapply gives_bind; [by apply link_gives|]. intros first ->.
  apply gives_ret. by rewrite String.eqb_refl.
Qed.
Lemma other_false w0 : gives (looked w0) (λ b, b = false) (other_namespace environ).
Proof.
  apply (shared_gives w0 (λ _, _)). intros ns Ho Hf _ Hp.
  eapply (gives_bind _ (λ t, t = ns)).
  - destruct (dict_get "VEIL_PARENT_NETNS" environ) as [[|c s]|]; try by apply link_gives.
    apply gives_ret. by destruct (Hp _ eq_refl).
  - intros parent ->. eapply gives_bind; [by apply link_gives|]. intros own ->. apply gives_ret. by rewrite String.eqb_refl.
Qed.
Lemma isolated_false w0 : gives (looked w0) (λ b, b = false) (isolated environ).
Proof.
  apply (shared_gives w0 (λ _, _)). intros ns Ho _ Hs _.
  eapply gives_bind; [by apply link_gives|]. intros own ->.
  eapply (gives_bind _ (λ t, strip t = ns)).
  - intros w Hw. pose proof (ask_looks w0 (CheckOutput (plain first_namespace)) (λ _, eq_refl) w Hw) as Ha.
    unfold ask, first_namespace in *. destruct (Hs (past w)) as (t & Ht & Hst). by rewrite Ht in *.
  - intros first Hst. apply gives_ret. by rewrite Hst, String.eqb_refl.
Qed.
End declining.

Lemma container_false `{Os} environ w0 : no_container environ →
  gives (looked w0) (λ b, b = false) (in_container environ).
Proof.
  intros Hn. unfold in_container. case_bool_decide as Hd; [|by apply gives_ret].
  eapply (gives_bind _ (λ b, b = true → ∀ h, ∃ t, os h (ReadText ["proc"; "1"; "comm"]) = Ok t ∧ strip t ≠ "systemd")).
  - intros w Hw. pose proof (ask_looks w0 (Exists [".dockerenv"]) (λ _, eq_refl) w Hw) as Ha. unfold ask in *.
    destruct (os (past w) _) as [b|e] eqn:Hb; [|done]. split; [done|]. intros ->.
    destruct Hn as [? | [Hx | Hx]]; [done|by rewrite Hx in Hb|exact Hx].
  - intros [] Hx; [|by apply gives_ret]. specialize (Hx eq_refl).
    eapply (gives_bind _ (λ t, strip t ≠ "systemd")).
    + intros w Hw. pose proof (ask_looks w0 (ReadText ["proc"; "1"; "comm"]) (λ _, eq_refl) w Hw) as Ha.
      unfold ask in *. destruct (Hx (past w)) as (t & Ht & Hst). by rewrite Ht in *.
    + intros t Ht. apply gives_ret. by apply String.eqb_neq in Ht.
Qed.


(** The sample machine with an output directory that exists. *)
Definition used_directory : Os := λ A h c,
  match c in call A return result A with
  | Exists _ => Ok true
  | Mkdir p parents exist_ok => if parents && negb exist_ok then Err (FileExistsError (posix p)) else Ok ()
  | c => @os (sample_os 116) _ h c
  end.
#[export] Instance used_old_results : @OldResults used_directory.
Proof. by split. Qed.
Definition sample_bench : bench_args :=
  {| a_out := ".build/bench"; a_variants := "veil-opt-reality"; a_modes := "U,D"; a_connections := "1,8";
     a_reps := 1; a_gib := Int 1; a_rounds := 10 |}.
Definition sample_delayed : delayed_args :=
  {| delayed_bench := sample_bench; cold_reps := 1; delay_ms := Int 10; loss_percent := Int 0 |}.
Definition sample_reality : reality_args :=
  {| ra_before := "old"; ra_after := ".build"; ra_out := "out"; ra_modes := "H,S"; ra_reps := 1; ra_rounds := 10;
     ra_native := false; ra_fingerprint := None; ra_padding := true |}.
Definition sample_regression : regression_args :=
  {| g_before := "old"; g_after := ".build"; g_peer := "peer"; g_out := "out"; g_reps := 1; g_bytes := 1; g_rounds := 1;
     g_modes := "U,S"; g_cores := "14,22,17,18"; g_no_padding := false; g_skip_interop := true |}.

Definition sample_traffic : traffic_args := {| y_before := "b"; y_after := "a"; y_out := "o"; y_samples := 2 |}.
Definition sample_probes : probe_args :=
  {| p_out := "o"; p_profiles := "go-tls"; p_reps := 1; p_fingerprint := None; p_padding := false |}.
Definition sample_hello : hello_args := {| h_browser := "chrome"; h_out := "o"; h_samples := 1 |}.
Definition sample_fingerprint : fingerprint_args :=
  {| n_before := "b"; n_after := "a"; n_out := "o"; n_samples := 2; n_fingerprint := None; n_padding := true;
     n_browser := None |}.


Definition sample_role : smoke_args :=
  {| m_role := Server; m_binary := "veil"; m_reality := true; m_server_ip := "10.0.0.1"; m_server_port := None;
     m_target_port := 0; m_refused_port := 0 |}.


(** The sample machine in the namespace of its first process. *)
Definition shared_os : Os := λ A h c,
  match c in call A return result A with
  | ReadLink _ => Ok "net:[1]"
  | CheckOutput c => if bool_decide (argv c = first_namespace) then Ok ("net:[1]" +:+ nl) else @os (sample_os 116) _ h (CheckOutput c)
  | c => @os (sample_os 116) _ h c
  end.
